(* ===== verification/_CoqProject ===== *)
-Q . S2P
Prelude.v
Rc4.v
Mdx.v
Md4.v
Md5.v
World.v
Queue.v
HmacMd5.v
SmbBuffer.v
Compat.v
NetbiosUtils.v
NetbiosQuery.v
NetbiosPrint.v
NetbiosSession.v
SmbNtlm.v
SmbPackets.v
SmbMessage.v
SmbFd.v
NetbiosNs.v
NetbiosQueue.v
NetbiosNsProps.v
NetbiosVariants.v
SmbTransport.v
SmbSession.v
SmbFile.v
SmbLogin.v
SmbShare.v
SmbTrans2.v
SmbSpnego.v
SmbInvariant.v
SmbClient.v
SmbRun.v
Tools.v
Examples.v
