(* ===== verification/Prelude.v ===== *)
(** * libdsm: a verified model of the SMB client library

    libdsm (src/) talks to SMB 1 file servers. This library models its C code
    as executable Rocq functions and proves what makes each part correct, with
    any server at the other end and any behaviour of the operating system.

    ** The program and its parts

    From the wire up (paths are under src/):
    - the NetBIOS name service client (src/netbios_ns.c, with src/netbios_query.c
      and src/netbios_utils.c) finds hosts: it broadcasts questions over UDP,
      reads the answers, keeps a table of entries, and runs a discovery thread
      that reports to callbacks;
    - the NetBIOS session service (src/netbios_session.c) frames messages over
      TCP; src/smb_transport.c wraps it in a table of functions;
    - SMB messages (src/smb_message.c) are built in a growing block from the
      packed structures of src/smb_packets.h; src/smb_session_msg.c sends and
      receives them; text goes through iconv (src/smb_utils.c);
    - a session (src/smb_session.c) connects, negotiates a dialect and logs in,
      either with an LMv2 response or with SPNEGO around NTLMSSP
      (src/smb_spnego.c, src/smb_ntlm.c over contrib/mdx, contrib/rc4 and
      src/hmac_md5.c);
    - logged in, the client connects trees and lists shares (src/smb_share.c),
      opens, reads, writes, moves and deletes files (src/smb_file.c,
      src/smb_dir.c), lists directories and asks for the status of paths
      (src/smb_trans2.c); shares, files and status nodes live in linked lists
      (src/smb_fd.c, src/smb_stat.c);
    - four programs (bin/dsm.c, bin/lookup.c, bin/inverse.c, bin/discover.c)
      use the library from the command line, two examples
      (www/source/c/example1.c and example2.c) document it.

    ** The model

    A C function is a Rocq function of the same name. A w-bit integer is a [Z]
    with its conversions written out ([u8] .. [u64], [s8] ..); a block of memory
    is the list of its bytes, an access outside it the outcome [Fault]
    ([checked], [sub], [put]). The system is the record [world] of World.v: an
    oracle for allocations and choices, the content of fresh memory, the events
    that select reports, the bytes that arrive and the bytes that were sent.
    Stateful code is in the monad [io], a function of the world into
    [Done] with the result and the next world, [Fault] (undefined behaviour), or
    [Blocked] (waiting for an event that never comes). Pointers that are compared
    or stored in structures are numbers into finite maps (SmbFd.v), pointers
    into a buffer are offsets; a session is a record that is passed on.

    ** The files

    - Prelude.v: machine integers, bytes, memory accesses, C strings, the
      outcomes, the tactics [len], [zdiv], [widths], [decided] and the hint
      databases [dsm] and [dsm_len].
    - World.v: the world, the monad, [loop]; the ways to reason about runs:
      [runs] and [returning] (only answers of the system are used up), [wp]
      (never [Fault], whatever the server and the system do), [within] (a
      relation between the worlds, with the tactic [confine]), [abortable] (an
      abort ends the run, with the tactic [persist]) and [hush] (an aborted
      run sends nothing).
    - Rc4.v, Mdx.v, Md4.v, Md5.v, HmacMd5.v: the ciphers and digests (one
      streaming section for both digests).
    - SmbBuffer.v (modules SmbBuffer and SmbUtils): buffers and conversion, with
      the class [Iconv] and its laws; Compat.v: strlcpy, strndup and the two
      variants of clock_gettime.
    - Queue.v: the TAILQ macros of compat/queue.h on a memory of pointers, with
      the lists they implement; NetbiosQueue.v: the table of the name service
      on that memory.
    - NetbiosUtils.v, NetbiosQuery.v, NetbiosNs.v, NetbiosNsProps.v: names,
      question packets, the name service and its theorems; NetbiosPrint.v: the
      dump of a question packet.
    - NetbiosSession.v: the session service.
    - NetbiosVariants.v: what other builds compile instead: the abort context
      without a pipe, with the waits that go with it, and broadcasting without
      getifaddrs or with WSAIoctl.
    - SmbNtlm.v: NTLMv2 and the NTLMSSP messages.
    - SmbPackets.v: structures as layouts, with [field], [set_field], [pack].
    - SmbMessage.v, SmbFd.v: messages, tables.
    - SmbTransport.v: the table of functions and the class [TransportLaws], the
      contract between a transport and its clients; the NetBIOS session is
      proved to keep it, and everything above is proved from it alone.
    - SmbSession.v: the session record, sending and receiving, the macros that
      build requests, and the vocabulary of the theorems: [built], [behind]
      (a message under construction), [requested], [attempted] (what is on the
      wire), [received] (what came), [ready], [moved], [kept].
    - SmbFile.v, SmbShare.v, SmbTrans2.v: files and directories, trees and
      shares, transactions.
    - SmbLogin.v, SmbSpnego.v: connection, negotiation, the two logins, logoff;
      libtasn1 is the class [Asn1] with its laws.
    - SmbInvariant.v: [usable], what every call keeps of a session, on every
      path, with the rules [keeps] and the tactic [keep] that follows the code.
    - SmbClient.v: programs that use the library, as functions from the answers
      so far to the next call.
    - SmbRun.v: a session from its creation over its connection, by TCP or by
      NetBIOS, and the calls of a program, to its destruction.
    - Tools.v: the four programs of bin/, what they print as lists of messages;
      Examples.v: the two of the documentation.

    ** What the theorems show

    - Digests and ciphers: for any division into chunks the digests are the
      ones of RFC 1320 and 1321, HMAC is its construction, RC4 is an involution
      over its key stream, and the key schedule yields a permutation.
    - Name service: the questions on the wire are the ones of RFC 1002; whatever
      a datagram holds is read inside the receive buffer; an answer that is
      believed carries the identifier of the question, or comes from the host
      asked; the discovery thread never faults, ends when it is told to, and its
      callbacks report every entry once.
    - Session service: however TCP cuts the stream, receiving skips keepalives
      and hands over exactly the next message, inside the buffer; sending hands
      exactly one frame to the system. An abort unblocks every wait where there
      is a pipe, and not where there is only a flag ([silent_peer_abort]).
    - Requests: for every command the theorems say with any server that no
      memory outside the buffers is accessed, what success puts on the wire byte
      for byte, what the session has learnt from the answer, and that an error
      leaves the tables as they were. Where the code does break its buffers the
      theorem says exactly when ([.._overflow], [.._overread], [fstat_no_name]).
    - Tables: adding, finding and removing shares and files implement an ordered
      table keyed by the identifiers (the relation [represents]).
    - Answers: the list of shares, the entries of a directory and the status of
      a path are read back from their encodings; a transaction in many messages
      is put together again; [smb_find] collects the entries of all rounds.
    - Login: the authenticate message is the one of NTLMv2 over the challenge
      the session has stored; the state of the login changes only on success,
      and only reading the challenge of a server can go wrong.
    - Queues: every sequence of the TAILQ operations gives the lists of the
      same abstract operations; the table of the name service on linked nodes
      does what the functions on lists do, and never touches freed nodes.
    - Programs: whatever a program does with a session, and whatever the server
      answers, only the calls that [exposed] names can make an invalid access,
      and the session stays usable. The same holds from the creation of the
      session to its destruction, over both transports ([session_run_safe]), and
      an abort at any moment brings the run to its end; one that comes before
      the connection keeps the session silent ([session_run_aborts]). dsm
      reports success only after every step, and lookup prints only addresses
      of hosts that answered.
    - Examples: when example1 reads past its array, and that example2 takes the
      success of the discovery for a failure.

    ** Bounds and fuel

    - [loop] runs at most as often as there are events left, plus one: a turn
      of every loop of the code that waits uses up an event ([consumes]), so
      the bound is never what ends it.
    - Walks over the linked lists have the number of nodes of the heap as fuel,
      which suffices for lists that are not cyclic; the theorems establish that
      they are not.
    - [parse_enum_loop] has the bytes that are left as fuel (a turn takes at
      least 24), [pad_loop] 3 turns, the loops over an announced count that
      count; [iconv_loop] has the 12 turns of the code.
    - The requests are proved for paths, patterns and names that keep a message
      within the 8188 bytes which the transport always has room for (about 540
      characters at 15 bytes each, the most a conversion may give); larger
      writes use [tr_room].
    - Theorems that speak of success of a computation suppose [lucky] (memory is
      available), and so do those on whole programs (SmbClient.v, Tools.v); the
      safety theorems of the single requests do not.
    - A program makes up to 2^20 calls and moves a file by up to 2^40 bytes per
      call, so that positions stay in the range of off_t.

    ** Not modelled

    - The log (the macros of src/bdsm_debug.h) and the checks of QUEUEDEBUG:
      output only. Lines 182-254 of src/smb_ntlm.c are commented out.
    - Of the builds for other systems, what NetbiosVariants.v does not name
      (starting Winsock, the substitute for inet_pton in bin/inverse.c); the
      constants that no code uses; the text around the values that the
      programs print.
    - iconv, libtasn1, getifaddrs, WSAIoctl and the sockets are parameters or
      part of the world; the release of the tokens of libtasn1 is not tracked.
      Freed memory is tracked for the nodes of the tables, not for every block.
    - Concurrency is the discovery thread against the caller that stops it, and
      a thread that aborts against the call it aborts; other calls on one
      session from several threads are not.

    ** Plan

    The code of the library and of its programs is modelled. What could follow
    is the release of every allocated block, and calls on one session from
    several threads. *)

From Stdlib Require Export ZArith Lia.
From stdpp Require Export prelude.

#[global] Open Scope Z_scope.

(** * Machine integers

    A [w]-bit unsigned C integer is a [Z] in [0, 2^w); a conversion to the type
    is the remainder modulo [2^w], a conversion to the signed type of the same
    width the two's complement reading of that remainder. *)

Definition u8 (z : Z) : Z := z `mod` 256.
Definition u16 (z : Z) : Z := z `mod` 65536.
Definition u32 (z : Z) : Z := z `mod` 4294967296.
Definition u64 (z : Z) : Z := z `mod` 18446744073709551616.

Definition sign (half z : Z) : Z := (z + half) `mod` (2 * half) - half.
Definition s8 (z : Z) : Z := sign 128 z.
Definition s16 (z : Z) : Z := sign 32768 z.
Definition s32 (z : Z) : Z := sign 2147483648 z.
Definition s64 (z : Z) : Z := sign 9223372036854775808 z.

(** Bytes and byte strings (a C buffer is the list of its bytes). *)
Definition is_byte (b : Z) : Prop := 0 <= b < 256.
Abbreviation bytes := (list Z).
Abbreviation bytes_ok := (Forall is_byte).

#[global] Instance is_byte_dec b : Decision (is_byte b).
Proof. unfold is_byte. apply _. Defined.

Definition zlen {A} (l : list A) : Z := Z.of_nat (length l).

(** * Little- and big-endian words

    The packed structures of the sources are read and written in host order;
    the host is little-endian. [swap16] is [htons]/[ntohs] on that host. *)

Fixpoint le_bytes (n : nat) (z : Z) : bytes :=
  match n with
  | O => []
  | S n => z `mod` 256 :: le_bytes n (z `div` 256)
  end.

Fixpoint le_word (bs : bytes) : Z :=
  match bs with
  | [] => 0
  | b :: bs => b + 256 * le_word bs
  end.

Definition swap16 (z : Z) : Z := (z `mod` 256) * 256 + (z `div` 256) `mod` 256.

(** * Checked access to a buffer

    Every access outside the object is [None]; the callers turn it into
    [Fault]. Offsets and lengths are [size_t] values, hence in [Z]. *)

Definition in_range (off n len : Z) : bool :=
  (0 <=? off) && (0 <=? n) && (off + n <=? len).

(** [n] bytes of [l] from [off] on. *)
Definition sub (l : bytes) (off n : Z) : option bytes :=
  if in_range off n (zlen l)
  then Some (take (Z.to_nat n) (drop (Z.to_nat off) l)) else None.

(** [memcpy(l + off, src, |src|)]. *)
Definition put (l : bytes) (off : Z) (src : bytes) : option bytes :=
  if in_range off (zlen src) (zlen l)
  then Some (take (Z.to_nat off) l ++ src
             ++ drop (Z.to_nat off + length src) l) else None.

(** One element: [l[i]] and [l[i] = v]. *)
Definition rd {A} (l : list A) (i : Z) : option A :=
  if 0 <=? i then l !! Z.to_nat i else None.
Definition wr {A} (l : list A) (i : Z) (v : A) : option (list A) :=
  if (0 <=? i) && (i <? zlen l) then Some (<[Z.to_nat i := v]> l) else None.

(** A little-endian word of [n] bytes at [off]. *)
Definition get_word (l : bytes) (off : Z) (n : nat) : option Z :=
  le_word <$> sub l off (Z.of_nat n).
Definition get8 l off := get_word l off 1.
Definition get16 l off := get_word l off 2.
Definition get32 l off := get_word l off 4.
Definition get64 l off := get_word l off 8.

(** C strings: [strlen] needs the terminator inside the object. *)
Fixpoint strlen (s : bytes) : option Z :=
  match s with
  | [] => None
  | c :: s => if c =? 0 then Some 0 else Z.succ <$> strlen s
  end.

(** A C string argument: its bytes have no NUL, the object ends with it. *)
Definition cstr (s : bytes) : bytes := s ++ [0].
Definition cstring_ok (s : bytes) : Prop :=
  Forall (fun c => 1 <= c < 256) s.

#[global] Instance cstring_ok_dec s : Decision (cstring_ok s).
Proof. unfold cstring_ok. apply _. Defined.

(** * Outcomes

    [Fault] is undefined behaviour of the C program (an access outside an
    object, a failed assertion, a division by zero); [Blocked] says that the
    process waits in [select(2)] for an event that does not come. *)

Inductive outcome (A : Type) : Type :=
| Done (a : A)
| Fault
| Blocked.
Arguments Done {A} a.
Arguments Fault {A}.
Arguments Blocked {A}.

Definition obind {A B} (m : outcome A) (k : A -> outcome B) : outcome B :=
  match m with
  | Done a => k a
  | Fault => Fault
  | Blocked => Blocked
  end.

Definition checked {A} (o : option A) : outcome A :=
  match o with Some a => Done a | None => Fault end.

Definition assert (b : bool) : outcome unit := if b then Done tt else Fault.

Declare Scope c_scope.
Delimit Scope c_scope with c.
Notation "'let*' x := m 'in' k" := (obind m (fun x => k))
  (at level 10, x pattern, m at level 200, k at level 200) : c_scope.
Notation "m ;;; k" := (obind m (fun _ => k))
  (at level 100, right associativity) : c_scope.
#[global] Open Scope c_scope.

(** [for (i = i0; i < i0 + k; i++) a = body(i, a);] *)
Fixpoint for_range {A} (k : nat) (i : Z) (body : Z -> A -> outcome A) (a : A)
    : outcome A :=
  match k with
  | O => Done a
  | S k => let* a := body i a in for_range k (i + 1) body a
  end.

(** [m] comes to an end: with a result, or with an invalid access. *)
Definition ends {A} (m : outcome A) : Prop := m <> Blocked.

(** [m] produces a result; the result is left open. *)
Definition returns {A} (m : outcome A) : Prop := exists a, m = Done a.

(** * Automation *)

Create HintDb dsm.
Create Rewrite HintDb dsm_len.

(** Unfolds the machine-integer conversions, for goals closed by [lia]. *)
Ltac widths :=
  unfold u8, u16, u32, u64, s8, s16, s32, s64, sign, is_byte in *.

(** Arithmetic with [mod] and [div] by constants. *)
Ltac zdiv := Z.to_euclidean_division_equations; lia.

(** A decidable statement about concrete data, by evaluation. *)
Ltac decided := apply (bool_decide_unpack _); vm_compute; exact I.

(** Case analysis on the monadic binds and conditionals of a definition. *)
Ltac split_run H :=
  repeat match type of H with
  | obind ?m _ = Done _ => let E := fresh "E" in
      destruct m eqn:E; simpl in H; try discriminate H
  | context [match ?x with _ => _ end] => let E := fresh "E" in
      destruct x eqn:E; simpl in H; try discriminate H
  end.

(** * Code that comes to an end *)

Lemma ends_Done {A} (a : A) : ends (Done a).
Proof. done. Qed.
Lemma ends_Fault {A} : ends (@Fault A).
Proof. done. Qed.
Lemma ends_checked {A} (o : option A) : ends (checked o).
Proof. by destruct o. Qed.
Lemma ends_assert b : ends (assert b).
Proof. by destruct b. Qed.
Lemma ends_bind {A B} (m : outcome A) (k : A -> outcome B) : ends m -> (forall a, m = Done a -> ends (k a)) -> ends (obind m k).
Proof. intros Hm Hk. destruct m as [a| |]; cbn; [by apply Hk|done|done]. Qed.
Lemma ends_for {A} k i (body : Z -> A -> outcome A) a : (forall j a, ends (body j a)) -> ends (for_range k i body a).
Proof. intros Hb. revert i a. induction k as [|k IH]; intros i a; cbn; [done|]. apply ends_bind; auto. Qed.
Lemma ends_returns {A} (m : outcome A) : returns m -> ends m.
Proof. by intros [a ->]. Qed.

Create HintDb ends discriminated.
#[export] Hint Resolve ends_Done ends_Fault ends_checked ends_assert : ends.

(** Straight-line code ends if what it calls does. *)
Ltac finish :=
  repeat (intros;
    lazymatch goal with
    | |- ends (obind _ _) => apply ends_bind
    | |- ends (for_range _ _ _ _) => apply ends_for
    | |- ends (let '(_, _) := ?x in _) => destruct x
    | |- ends (match ?x with _ => _ end) => destruct x eqn:?
    | |- ends _ => solve [eauto with ends]
    end).

(** * Lemmas on machine integers *)

Lemma u8_range z : 0 <= u8 z < 256.
Proof. widths. zdiv. Qed.

Lemma u16_range z : 0 <= u16 z < 65536.
Proof. widths. zdiv. Qed.

Lemma u32_range z : 0 <= u32 z < 4294967296.
Proof. widths. zdiv. Qed.

Lemma u64_range z : 0 <= u64 z < 18446744073709551616.
Proof. widths. zdiv. Qed.

Lemma u8_small z : 0 <= z < 256 -> u8 z = z.
Proof. apply Z.mod_small. Qed.

Lemma u16_small z : 0 <= z < 65536 -> u16 z = z.
Proof. apply Z.mod_small. Qed.

Lemma u32_small z : 0 <= z < 4294967296 -> u32 z = z.
Proof. apply Z.mod_small. Qed.

Lemma u64_small z : 0 <= z < 18446744073709551616 -> u64 z = z.
Proof. apply Z.mod_small. Qed.

Lemma swap16_involutive z : 0 <= z < 65536 -> swap16 (swap16 z) = z.
Proof. unfold swap16. intros. zdiv. Qed.

Lemma swap16_range z : 0 <= swap16 z < 65536.
Proof. unfold swap16. zdiv. Qed.

(** Bits of a number below a power of two, and masks as remainders. *)
Lemma testbit_above w z i :
  0 <= z < 2 ^ w -> 0 <= w <= i -> Z.testbit z i = false.
Proof.
  intros Hz Hi. rewrite <- (Z.mod_small z (2 ^ w)) by done.
  apply Z.mod_pow2_bits_high. lia.
Qed.

Lemma land_mask w m z : 0 <= w -> m = Z.ones w -> Z.land z m = z `mod` 2 ^ w.
Proof. intros ? ->. by apply Z.land_ones. Qed.

Lemma land_63 z : Z.land z 0x3f = z `mod` 64.
Proof. by apply (land_mask 6). Qed.

(** The mask of the bits from [k] up to [w]: rounding down to a multiple. *)
Lemma land_high_mask w k z :
  0 <= k <= w -> 0 <= z < 2 ^ w ->
  Z.land z (Z.shiftl (Z.ones (w - k)) k) = 2 ^ k * (z `div` 2 ^ k).
Proof.
  intros Hk Hz.
  rewrite <- Z.shiftr_div_pow2, Z.mul_comm, <- Z.shiftl_mul_pow2 by lia.
  apply Z.bits_inj'. intros i Hi. rewrite Z.land_spec.
  destruct (Z.lt_ge_cases i k).
  - rewrite !Z.shiftl_spec_low by lia. apply andb_false_r.
  - rewrite !Z.shiftl_spec, Z.shiftr_spec by lia.
    replace (i - k + k) with i by lia. destruct (Z.lt_ge_cases i w).
    + rewrite Z.ones_spec_low by lia. apply andb_true_r.
    + rewrite (testbit_above w z i) by lia. done.
Qed.

(** A field above the low [w] bits. *)
Lemma lor_shiftl w a b : 0 <= w -> 0 <= a < 2 ^ w -> Z.lor a (Z.shiftl b w) = a + b * 2 ^ w.
Proof.
  intros Hw Ha. rewrite <- Z.shiftl_mul_pow2 by done. symmetry. apply Z.add_nocarry_lor.
  apply Z.bits_inj'. intros i Hi. rewrite Z.land_spec, Z.bits_0.
  destruct (Z.lt_ge_cases i w).
  - by rewrite Z.shiftl_spec_low, andb_false_r by lia.
  - by rewrite (testbit_above w a i) by lia.
Qed.

#[export] Hint Resolve u8_range u16_range u32_range u64_range swap16_range : dsm.

(** * Lemmas on bytes and words *)

Lemma length_le_bytes n z : length (le_bytes n z) = n.
Proof. revert z. induction n; intros; simpl; auto. Qed.

Lemma le_bytes_ok n z : bytes_ok (le_bytes n z).
Proof.
  revert z. induction n; intros; simpl; constructor; auto.
  unfold is_byte. zdiv.
Qed.

Lemma le_word_bytes n z : le_word (le_bytes n z) = z `mod` 256 ^ Z.of_nat n.
Proof.
  revert z. induction n as [|n IH]; intros z; simpl le_word.
  - rewrite Z.mod_1_r. reflexivity.
  - rewrite IH, Nat2Z.inj_succ, Z.pow_succ_r by lia.
    rewrite Z.rem_mul_r by (try lia; apply Z.pow_nonzero; lia). lia.
Qed.

(** The low and the high part of a word, and the word beyond its width. *)
Lemma le_bytes_app n m z :
  le_bytes (n + m) z = le_bytes n z ++ le_bytes m (z `div` 256 ^ Z.of_nat n).
Proof.
  revert z. induction n as [|n IH]; intros z; cbn [Nat.add le_bytes app].
  - by rewrite Z.div_1_r.
  - rewrite IH, Nat2Z.inj_succ, Z.pow_succ_r by lia. do 2 f_equal.
    rewrite Z.div_div by lia. done.
Qed.

Lemma le_bytes_wrap n z k : le_bytes n (z + 256 ^ Z.of_nat n * k) = le_bytes n z.
Proof.
  revert z. induction n as [|n IH]; intros z; cbn [le_bytes]; [done|].
  rewrite Nat2Z.inj_succ, Z.pow_succ_r, <- Z.mul_assoc by lia. f_equal.
  - rewrite (Z.mul_comm 256), Z.mod_add; lia.
  - rewrite <- (IH (z `div` 256)). f_equal. rewrite (Z.mul_comm 256), Z.div_add; lia.
Qed.

Lemma le_word_bytes_small n z :
  0 <= z < 256 ^ Z.of_nat n -> le_word (le_bytes n z) = z.
Proof. intros. rewrite le_word_bytes. by apply Z.mod_small. Qed.

Lemma le_bytes_word bs : bytes_ok bs -> le_bytes (length bs) (le_word bs) = bs.
Proof.
  induction 1 as [|b bs Hb _ IH]; simpl; [done|]. unfold is_byte in Hb.
  f_equal; [zdiv|].
  transitivity (le_bytes (length bs) (le_word bs)); [f_equal; zdiv|exact IH].
Qed.

Lemma le_word_range bs :
  bytes_ok bs -> 0 <= le_word bs < 256 ^ zlen bs.
Proof.
  unfold zlen. induction 1 as [|b bs Hb _ IH]; simpl length; [simpl; lia|].
  rewrite Nat2Z.inj_succ, Z.pow_succ_r by lia. unfold is_byte in Hb.
  simpl le_word. nia.
Qed.

#[export] Hint Rewrite length_le_bytes : dsm_len.
#[export] Hint Rewrite @length_app @length_take @length_drop
  @length_replicate @length_insert @length_fmap : dsm_len.
#[export] Hint Resolve le_bytes_ok : dsm.

(** [zlen] as an arithmetic term over the lengths of the parts. *)
Ltac len :=
  unfold zlen in *; autorewrite with dsm_len in *; simpl length in *; lia.

#[export] Instance zlen_proper {A} : Proper (Permutation ==> eq) (@zlen A).
Proof. intros l1 l2 Hl. unfold zlen. by rewrite Hl. Qed.

Lemma bytes_ok_app l1 l2 : bytes_ok l1 -> bytes_ok l2 -> bytes_ok (l1 ++ l2).
Proof. intros. by apply Forall_app_2. Qed.

Lemma bytes_ok_take n l : bytes_ok l -> bytes_ok (take n l).
Proof. apply Forall_take. Qed.

Lemma bytes_ok_drop n l : bytes_ok l -> bytes_ok (drop n l).
Proof. apply Forall_drop. Qed.

#[export] Hint Resolve bytes_ok_app bytes_ok_take bytes_ok_drop : dsm.

(** * Lemmas on checked access *)

Lemma in_range_true off n len :
  in_range off n len = true <-> 0 <= off /\ 0 <= n /\ off + n <= len.
Proof. unfold in_range. rewrite !andb_true_iff, !Z.leb_le. lia. Qed.

Lemma sub_Some l off n :
  0 <= off -> 0 <= n -> off + n <= zlen l ->
  sub l off n = Some (take (Z.to_nat n) (drop (Z.to_nat off) l)).
Proof.
  intros. unfold sub. rewrite (proj2 (in_range_true _ _ _)); [done|lia].
Qed.

Lemma sub_inv l off n bs :
  sub l off n = Some bs ->
  0 <= off /\ 0 <= n /\ off + n <= zlen l
  /\ bs = take (Z.to_nat n) (drop (Z.to_nat off) l).
Proof.
  unfold sub. destruct (in_range off n (zlen l)) eqn:E; [|done].
  apply in_range_true in E. intros [= <-]. intuition lia.
Qed.

Lemma length_sub l off n bs : sub l off n = Some bs -> zlen bs = n.
Proof. intros (?&?&?&->)%sub_inv. len. Qed.

Lemma sub_ok l off n bs : bytes_ok l -> sub l off n = Some bs -> bytes_ok bs.
Proof. intros ? (_&_&_&->)%sub_inv. auto with dsm. Qed.

Lemma sub_is_Some l off n :
  is_Some (sub l off n) <-> 0 <= off /\ 0 <= n /\ off + n <= zlen l.
Proof.
  split.
  - intros [bs Hbs]. apply sub_inv in Hbs. lia.
  - intros. rewrite sub_Some by lia. eauto.
Qed.

Lemma put_Some l off src :
  0 <= off -> off + zlen src <= zlen l ->
  put l off src = Some (take (Z.to_nat off) l ++ src
                        ++ drop (Z.to_nat off + length src) l).
Proof.
  intros. unfold put. rewrite (proj2 (in_range_true _ _ _)); [done|].
  unfold zlen in *. lia.
Qed.

Lemma put_inv l off src l' :
  put l off src = Some l' ->
  0 <= off /\ off + zlen src <= zlen l
  /\ l' = take (Z.to_nat off) l ++ src ++ drop (Z.to_nat off + length src) l.
Proof.
  unfold put. destruct (in_range _ _ _) eqn:E; [|done].
  apply in_range_true in E. intros [= <-]. intuition lia.
Qed.

Lemma put_is_Some l off src :
  is_Some (put l off src) <-> 0 <= off /\ off + zlen src <= zlen l.
Proof.
  split.
  - intros [l' Hl]. apply put_inv in Hl. lia.
  - intros. rewrite put_Some by lia. eauto.
Qed.

Lemma length_put l off src l' : put l off src = Some l' -> zlen l' = zlen l.
Proof. intros (?&?&->)%put_inv. len. Qed.

Lemma put_ok l off src l' :
  bytes_ok l -> bytes_ok src -> put l off src = Some l' -> bytes_ok l'.
Proof. intros ?? (_&_&->)%put_inv. auto with dsm. Qed.

(** What was copied in is read back. *)
Lemma sub_put_eq l off src l' :
  put l off src = Some l' -> sub l' off (zlen src) = Some src.
Proof.
  intros H. pose proof (length_put _ _ _ _ H).
  apply put_inv in H as (?&?&->). rewrite sub_Some by (try len; done).
  f_equal. rewrite drop_app_ge by len.
  replace (Z.to_nat off - length (take (Z.to_nat off) l))%nat with 0%nat by len.
  rewrite drop_0, take_app_le by len. rewrite take_ge by len. done.
Qed.

(** Bytes before and after the copied range are unchanged. *)
Lemma sub_put_ne l off src l' o n :
  put l off src = Some l' -> (o + n <= off \/ off + zlen src <= o) ->
  sub l' o n = sub l o n.
Proof.
  intros H Hd. pose proof (length_put _ _ _ _ H) as Hl.
  unfold sub. rewrite Hl. destruct (in_range o n (zlen l)) eqn:E; [|done].
  apply in_range_true in E. apply put_inv in H as (?&?&->). f_equal.
  destruct Hd.
  - rewrite (drop_app_le (take _ _)) by len.
    rewrite take_app_le by len. rewrite !take_drop_commute, take_take.
    do 2 f_equal. len.
  - rewrite app_assoc, drop_app_ge by len. rewrite drop_drop. f_equal.
    f_equal. len.
Qed.

(** Two copies side by side are one copy. *)
Lemma put_adjacent b off x y b1 b2 :
  put b off x = Some b1 -> put b1 (off + zlen x) y = Some b2 ->
  put b off (x ++ y) = Some b2.
Proof.
  intros H1 H2. pose proof (length_put _ _ _ _ H1) as Hl.
  apply put_inv in H1 as (Ho & Hx & ->). apply put_inv in H2 as (_ & Hy & ->).
  rewrite put_Some by len. f_equal.
  set (p := take (Z.to_nat off) b).
  assert (Hp : length p = Z.to_nat off) by (unfold p; len).
  replace (Z.to_nat (off + zlen x)) with (length (p ++ x)) by len.
  rewrite (app_assoc p x (drop _ b)), take_app_length,
    (drop_app_ge (p ++ x)) by lia. rewrite drop_drop, <- !app_assoc. do 4 f_equal.
  len.
Qed.

Lemma put_nil l off : 0 <= off <= zlen l -> put l off [] = Some l.
Proof.
  intros. rewrite put_Some by len. f_equal. simpl.
  rewrite Nat.add_0_r. apply take_drop.
Qed.

(** A copy at the very beginning, and one that fills the whole object. *)
Lemma put_all l src : length src = length l -> put l 0 src = Some src.
Proof.
  intros. rewrite put_Some by len. simpl.
  rewrite drop_ge by len. by rewrite app_nil_r.
Qed.

Lemma rd_is_Some {A} (l : list A) i : is_Some (rd l i) <-> 0 <= i < zlen l.
Proof.
  unfold rd, zlen. destruct (Z.leb_spec 0 i).
  - rewrite lookup_lt_is_Some. lia.
  - split; [by intros [? ?]|lia].
Qed.

Lemma rd_lookup {A} (l : list A) i : 0 <= i -> rd l i = l !! Z.to_nat i.
Proof. intros. unfold rd. by rewrite (proj2 (Z.leb_le 0 i)). Qed.

Lemma rd_inv {A} (l : list A) i x :
  rd l i = Some x -> 0 <= i < zlen l /\ l !! Z.to_nat i = Some x.
Proof.
  intros H. pose proof (proj1 (rd_is_Some l i) (mk_is_Some _ _ H)).
  by rewrite rd_lookup in H by lia.
Qed.

Lemma rd_Forall {A} (P : A -> Prop) l i x :
  Forall P l -> rd l i = Some x -> P x.
Proof. intros Hl (_ & ?)%rd_inv. by eapply Forall_lookup_1. Qed.

Lemma wr_Some {A} (l : list A) i v :
  0 <= i < zlen l -> wr l i v = Some (<[Z.to_nat i := v]> l).
Proof.
  intros. unfold wr.
  rewrite (proj2 (Z.leb_le 0 i)), (proj2 (Z.ltb_lt i _)); [done|lia..].
Qed.

Lemma wr_inv {A} (l : list A) i v l' :
  wr l i v = Some l' -> 0 <= i < zlen l /\ l' = <[Z.to_nat i := v]> l.
Proof.
  unfold wr. destruct (Z.leb_spec 0 i), (Z.ltb_spec i (zlen l)); simpl;
    intros; simplify_eq; auto.
Qed.

Lemma wr_put (l : bytes) i v : wr l i v = put l i [v].
Proof.
  unfold wr, put, in_range. change (zlen [v]) with 1. cbn [Z.leb Z.compare].
  rewrite andb_true_r.
  destruct (Z.leb_spec 0 i), (Z.ltb_spec i (zlen l)), (Z.leb_spec (i + 1) (zlen l));
    simpl; try lia; try done.
  f_equal. rewrite insert_take_drop by len. do 3 f_equal. simpl. lia.
Qed.

Lemma length_wr {A} (l : list A) i v l' : wr l i v = Some l' -> zlen l' = zlen l.
Proof. intros (_ & ->)%wr_inv. unfold zlen. by rewrite length_insert. Qed.

Lemma get_word_Some l off n :
  0 <= off -> off + Z.of_nat n <= zlen l -> is_Some (get_word l off n).
Proof.
  intros. unfold get_word. apply fmap_is_Some, sub_is_Some. lia.
Qed.

Lemma get_word_range l off n w :
  bytes_ok l -> get_word l off n = Some w -> 0 <= w < 256 ^ Z.of_nat n.
Proof.
  unfold get_word. intros Hl (bs & Hbs & ->)%fmap_Some.
  rewrite <- (length_sub _ _ _ _ Hbs). apply le_word_range.
  eauto using sub_ok.
Qed.

(** * Lemmas on C strings *)

Lemma strlen_cstr s rest :
  cstring_ok s -> strlen (s ++ 0 :: rest) = Some (zlen s).
Proof.
  unfold zlen. induction 1 as [|c s Hc _ IH]; [done|].
  simpl. rewrite (proj2 (Z.eqb_neq c 0)) by lia. rewrite IH. simpl.
  f_equal. lia.
Qed.

Lemma strlen_inv s n :
  strlen s = Some n ->
  exists p rest, s = p ++ 0 :: rest /\ n = zlen p /\ Forall (fun c => c <> 0) p.
Proof.
  revert n. induction s as [|c s IH]; intros n; [done|]. simpl.
  destruct (c =? 0) eqn:E.
  - apply Z.eqb_eq in E as ->. intros [= <-]. by exists [], s.
  - apply Z.eqb_neq in E. intros (m & Hm & ->)%fmap_Some.
    destruct (IH _ Hm) as (p & rest & -> & -> & Hp).
    exists (c :: p), rest. repeat split; [len|]. by constructor.
Qed.

Lemma cstring_ok_bytes s : cstring_ok s -> bytes_ok s.
Proof. intros H. eapply Forall_impl; [exact H|]. unfold is_byte. simpl. lia. Qed.

#[export] Hint Resolve cstring_ok_bytes : dsm.

(** * Lemmas on outcomes *)

Lemma obind_Done {A B} (m : outcome A) (k : A -> outcome B) b :
  obind m k = Done b <-> exists a, m = Done a /\ k a = Done b.
Proof.
  destruct m; simpl; split.
  - eauto.
  - by intros (a' & [= ->] & ?).
  - done.
  - by intros (a' & ? & ?).
  - done.
  - by intros (a' & ? & ?).
Qed.

Lemma checked_Done {A} (o : option A) a : checked o = Done a <-> o = Some a.
Proof. destruct o; simpl; split; congruence. Qed.

Lemma returns_checked {A} (o : option A) : is_Some o -> returns (checked o).
Proof. intros [a ->]. by exists a. Qed.

#[export] Hint Resolve returns_checked : dsm.

(** A counted loop keeps an invariant indexed by its counter, and returns. *)
Lemma for_range_spec {A} (P : Z -> A -> Prop) k i body a :
  (forall j a, i <= j < i + Z.of_nat k -> P j a ->
     exists a', body j a = Done a' /\ P (j + 1) a') ->
  P i a ->
  exists a', for_range k i body a = Done a' /\ P (i + Z.of_nat k) a'.
Proof.
  revert i a. induction k as [|k IH]; intros i a Hb Ha; cbn [for_range].
  - exists a. split; [done|]. by replace (i + Z.of_nat 0) with i by lia.
  - destruct (Hb i a) as (a1 & -> & H1); [lia|done|]. cbn [obind].
    destruct (IH (i + 1) a1) as (a2 & -> & H2); [|done|].
    + intros j a' Hj. apply Hb. lia.
    + exists a2. split; [done|]. by replace (i + Z.of_nat (S k)) with (i + 1 + Z.of_nat k) by lia.
Qed.

(** * Access to a buffer whose parts are known *)

Lemma put_app p o r s n :
  n = zlen p -> length s = length o -> put (p ++ o ++ r) n s = Some (p ++ s ++ r).
Proof.
  intros -> Hs. rewrite put_Some by len. f_equal. unfold zlen. rewrite Nat2Z.id.
  rewrite take_app_length, drop_app_ge by lia. do 2 f_equal.
  rewrite drop_app_ge by lia. replace (_ - _ - _)%nat with 0%nat by lia. done.
Qed.

Lemma wr_app {A} (p : list A) o r v n :
  n = zlen p -> wr (p ++ o :: r) n v = Some (p ++ v :: r).
Proof.
  intros ->. rewrite wr_Some by len. f_equal. unfold zlen. rewrite Nat2Z.id.
  rewrite insert_app_r_alt, Nat.sub_diag by lia. done.
Qed.

Lemma rd_app {A} (p : list A) x r n : n = zlen p -> rd (p ++ x :: r) n = Some x.
Proof.
  intros ->. rewrite rd_lookup by len. unfold zlen. rewrite Nat2Z.id.
  by rewrite lookup_app_r, Nat.sub_diag by lia.
Qed.

Lemma sub_weaken l r off n x : sub l off n = Some x -> sub (l ++ r) off n = Some x.
Proof.
  intros (? & ? & ? & ->)%sub_inv. rewrite sub_Some by len. f_equal.
  rewrite drop_app_le by len. by rewrite take_app_le by len.
Qed.

Lemma sub_app p x r n m : n = zlen p -> m = zlen x -> sub (p ++ x ++ r) n m = Some x.
Proof.
  intros -> ->. rewrite sub_Some by len. f_equal. unfold zlen. rewrite !Nat2Z.id.
  by rewrite drop_app_length, take_app_length.
Qed.

(** A non-empty buffer, for the next write behind a known prefix. *)
Lemma length_cons_inv {A} (l : list A) n :
  length l = S n -> exists x r, l = x :: r /\ length r = n.
Proof. destruct l as [|x r]; intros [= <-]; eauto. Qed.

(** * Several stores into one object *)

(** [p->f1 = v1; p->f2 = v2; ...] with the bytes of each field at its offset. *)
Fixpoint stores (b : bytes) (l : list (Z * bytes)) : option bytes :=
  match l with
  | [] => Some b
  | (off, v) :: l => b ← put b off v; stores b l
  end.

Lemma stores_is_Some b l :
  Forall (fun '(off, v) => 0 <= off /\ off + zlen v <= zlen b) l -> is_Some (stores b l).
Proof.
  revert b. induction l as [|[off v] l IH]; intros b Hl; cbn [stores]; [done|].
  apply Forall_cons in Hl as [Hv Hl].
  destruct (proj2 (put_is_Some b off v)) as [b' Hb]; [lia|]. rewrite Hb. cbn.
  apply IH. by rewrite (length_put _ _ _ _ Hb).
Qed.

Lemma length_stores b l b' : stores b l = Some b' -> zlen b' = zlen b.
Proof.
  revert b. induction l as [|[off v] l IH]; intros b; cbn [stores]; [by intros [= ->]|].
  destruct (put b off v) as [b1|] eqn:E; [|done]. cbn. intros H.
  rewrite (IH _ H). by eapply length_put.
Qed.

Lemma stores_ok b l b' :
  bytes_ok b -> Forall (fun '(_, v) => bytes_ok v) l -> stores b l = Some b' -> bytes_ok b'.
Proof.
  revert b. induction l as [|[off v] l IH]; intros b Hb Hl; cbn [stores]; [by intros [= <-]|].
  apply Forall_cons in Hl as [Hv Hl].
  destruct (put b off v) as [b1|] eqn:E; [|done]. cbn. apply IH; [|done].
  exact (put_ok _ _ _ _ Hb Hv E).
Qed.

(** A range that no later store touches keeps its contents. *)
Definition disjoint_range (o n : Z) (l : list (Z * bytes)) : Prop :=
  Forall (fun '(off, v) => o + n <= off \/ off + zlen v <= o) l.

Lemma sub_stores_ne b l b' o n :
  stores b l = Some b' -> disjoint_range o n l -> sub b' o n = sub b o n.
Proof.
  revert b. induction l as [|[off v] l IH]; intros b; cbn [stores]; [by intros [= <-]|].
  destruct (put b off v) as [b1|] eqn:E; [|done]. cbn. intros H [Hd Hl]%Forall_cons.
  rewrite (IH _ H Hl). by eapply sub_put_ne.
Qed.

Lemma sub_stores_eq b off v l b' :
  stores b ((off, v) :: l) = Some b' -> disjoint_range off (zlen v) l ->
  sub b' off (zlen v) = Some v.
Proof.
  cbn [stores]. destruct (put b off v) as [b1|] eqn:E; [|done]. cbn. intros H Hd.
  rewrite (sub_stores_ne _ _ _ _ _ H Hd). by eapply sub_put_eq.
Qed.

Lemma stores_app b l1 l2 :
  stores b (l1 ++ l2) = (b ← stores b l1; stores b l2).
Proof.
  revert b. induction l1 as [|[off v] l1 IH]; intros b; cbn [stores app]; [done|].
  destruct (put b off v); cbn; [apply IH|done].
Qed.

Lemma sub_all l n : n = zlen l -> sub l 0 n = Some l.
Proof. intros ->. rewrite sub_Some by len. by rewrite drop_0, take_ge by len. Qed.

(** Two adjacent ranges. *)
Lemma sub_join l o n m x y :
  sub l o n = Some x -> sub l (o + n) m = Some y -> sub l o (n + m) = Some (x ++ y).
Proof.
  intros (? & ? & ? & ->)%sub_inv (_ & ? & ? & ->)%sub_inv. rewrite sub_Some by lia. f_equal.
  rewrite <- (take_drop (Z.to_nat n) (take (Z.to_nat (n + m)) _)). f_equal.
  - rewrite take_take. f_equal. lia.
  - rewrite skipn_firstn_comm, drop_drop. f_equal; [lia|]. f_equal. lia.
Qed.
