(* ===== verification/Rc4.v ===== *)
(** RC4 stream cipher: contrib/rc4/rc4.c and contrib/rc4/rc4.h.

    The state holds the permutation and the two indices. [rc4_init] is the key
    schedule; [rc4_crypt] works on one memory in which the input and the output
    buffer are given by their offsets, because the code promises that both may
    be the same buffer. *)

From S2P Require Import Prelude.

Module Rc4.

(** struct rc4_state *)
Record rc4_state := Rc4State {
  perm : bytes;                  (* uint8_t perm[256] *)
  index1 : Z;
  index2 : Z
}.

(** The call [swap_bytes(&perm[i], &perm[j])]. *)
Definition swap_bytes (perm : bytes) (i j : Z) : outcome bytes :=
  let* temp := checked (rd perm i) in
  let* b := checked (rd perm j) in
  let* perm := checked (wr perm i b) in
  checked (wr perm j temp).

(** The second loop of [rc4_init]: [n] iterations from [i] on. *)
Fixpoint rc4_schedule (n : nat) (i j : Z) (perm key : bytes) (keylen : Z)
    : outcome bytes :=
  match n with
  | O => Done perm
  | S n =>
      let* p := checked (rd perm i) in
      let* k := checked (rd key (Z.rem i keylen)) in
      let j := u8 (j + (p + k)) in
      let* perm := swap_bytes perm i j in
      rc4_schedule n (i + 1) j perm key keylen
  end.

Definition rc4_init (key : bytes) (keylen : Z) : outcome rc4_state :=
  let perm := u8 <$> seqZ 0 256 in
  assert (negb (keylen =? 0)) ;;;              (* i % keylen *)
  let* perm := rc4_schedule 256 0 0 perm key keylen in
  Done (Rc4State perm 0 0).

(** One iteration of the loop of [rc4_crypt]: the next key byte. *)
Definition rc4_next (st : rc4_state) : outcome (Z * rc4_state) :=
  let index1 := u8 (index1 st + 1) in
  let* p := checked (rd (perm st) index1) in
  let index2 := u8 (index2 st + p) in
  let* perm := swap_bytes (perm st) index1 index2 in
  let* a := checked (rd perm index1) in
  let* b := checked (rd perm index2) in
  let j := u8 (a + b) in
  let* k := checked (rd perm j) in
  Done (k, Rc4State perm index1 index2).

(** The loop from [i] on: [n] bytes of [mem] at [inbuf] go to [outbuf]. *)
Fixpoint rc4_crypt_loop (n : nat) (i : Z) (st : rc4_state) (mem : bytes)
    (inbuf outbuf : Z) : outcome (bytes * rc4_state) :=
  match n with
  | O => Done (mem, st)
  | S n =>
      let* (k, st) := rc4_next st in
      let* c := checked (rd mem (inbuf + i)) in
      let* mem := checked (wr mem (outbuf + i) (Z.lxor c k)) in
      rc4_crypt_loop n (i + 1) st mem inbuf outbuf
  end.

Definition rc4_crypt (st : rc4_state) (mem : bytes) (inbuf outbuf buflen : Z)
    : outcome (bytes * rc4_state) :=
  rc4_crypt_loop (Z.to_nat buflen) 0 st mem inbuf outbuf.

(** * Reference: the key stream of a state *)

Fixpoint rc4_keystream (n : nat) (st : rc4_state) : option (bytes * rc4_state) :=
  match n with
  | O => Some ([], st)
  | S n =>
      match rc4_next st with
      | Done (k, st1) =>
          match rc4_keystream n st1 with
          | Some (ks, st2) => Some (k :: ks, st2)
          | None => None
          end
      | _ => None
      end
  end.

(** The invariant: [perm] is a permutation of 0..255, the indices are bytes. *)
Definition rc4_ok (st : rc4_state) : Prop :=
  perm st ≡ₚ seqZ 0 256 /\ is_byte (index1 st) /\ is_byte (index2 st).

(** * Lemmas *)

Lemma perm_length p : p ≡ₚ seqZ 0 256 -> zlen p = 256.
Proof. intros ->. unfold zlen. by rewrite length_seqZ. Qed.

Lemma perm_bytes p : p ≡ₚ seqZ 0 256 -> bytes_ok p.
Proof. intros ->. apply Forall_seqZ. unfold is_byte. lia. Qed.

Lemma perm_read p i :
  p ≡ₚ seqZ 0 256 -> is_byte i -> exists v, rd p i = Some v /\ is_byte v.
Proof.
  intros Hp Hi. destruct (proj2 (rd_is_Some p i)) as [v Hv].
  { rewrite perm_length by done. exact Hi. }
  exists v. split; [done|]. exact (rd_Forall is_byte p i v (perm_bytes p Hp) Hv).
Qed.

Lemma swap_bytes_perm p i j :
  p ≡ₚ seqZ 0 256 -> is_byte i -> is_byte j ->
  exists p', swap_bytes p i j = Done p' /\ p' ≡ₚ seqZ 0 256.
Proof.
  intros Hp Hi Hj. pose proof (perm_length p Hp) as Hl. unfold swap_bytes.
  destruct (perm_read p i) as (a & Ha & _); [done..|].
  destruct (perm_read p j) as (b & Hb & _); [done..|].
  rewrite Ha, Hb. simpl. unfold is_byte in *.
  rewrite wr_Some by lia. simpl. rewrite wr_Some.
  2: { unfold zlen in *. rewrite length_insert. lia. }
  simpl. eexists. split; [done|]. rewrite <- Hp.
  apply rd_inv in Ha as [_ Ha]. apply rd_inv in Hb as [_ Hb].
  by apply Permutation_insert_swap.
Qed.

Lemma rc4_schedule_perm n i j p key keylen :
  p ≡ₚ seqZ 0 256 -> 0 <= i -> i + Z.of_nat n <= 256 ->
  0 < keylen <= zlen key ->
  exists p', rc4_schedule n i j p key keylen = Done p' /\ p' ≡ₚ seqZ 0 256.
Proof.
  revert i j p. induction n as [|n IH]; intros i j p Hp Hi Hn Hk; simpl; eauto.
  destruct (perm_read p i) as (v & Hv & _); [done|unfold is_byte; lia|].
  rewrite Hv. simpl.
  destruct (proj2 (rd_is_Some key (Z.rem i keylen))) as [k Hk'].
  { rewrite Z.rem_mod_nonneg by lia. zdiv. }
  rewrite Hk'. simpl.
  destruct (swap_bytes_perm p i (u8 (j + (v + k)))) as (p' & -> & Hp');
    [done|unfold is_byte; lia|apply u8_range|].
  simpl. apply IH; auto; lia.
Qed.

Lemma rc4_next_ok st :
  rc4_ok st -> exists k st', rc4_next st = Done (k, st') /\ rc4_ok st' /\ is_byte k.
Proof.
  intros (Hp & Hi & Hj). unfold rc4_next.
  pose proof (u8_range (index1 st + 1)) as Hi1.
  destruct (perm_read (perm st) (u8 (index1 st + 1))) as (v & -> & _); [done..|].
  simpl. pose proof (u8_range (index2 st + v)) as Hi2.
  destruct (swap_bytes_perm (perm st) (u8 (index1 st + 1)) (u8 (index2 st + v)))
    as (p & -> & Hp'); [done..|]. simpl.
  destruct (perm_read p (u8 (index1 st + 1))) as (a & -> & _); [done..|]. simpl.
  destruct (perm_read p (u8 (index2 st + v))) as (b & -> & _); [done..|]. simpl.
  destruct (perm_read p (u8 (a + b))) as (k & -> & Hk); [done|apply u8_range|].
  simpl. do 2 eexists. split_and!; [done| |done]. by split_and!.
Qed.

Lemma rc4_keystream_ok n st :
  rc4_ok st ->
  exists ks st', rc4_keystream n st = Some (ks, st') /\ rc4_ok st'
    /\ length ks = n /\ bytes_ok ks.
Proof.
  revert st. induction n as [|n IH]; intros st Hst; simpl; [eauto 10|].
  destruct (rc4_next_ok st Hst) as (k & st1 & -> & Hst1 & Hk).
  destruct (IH st1 Hst1) as (ks & st2 & -> & Hst2 & <- & Hks).
  do 2 eexists. split_and!; [done|done|done|by constructor].
Qed.

(** The loop body by body: a write at [b <= a] or beyond the bytes still to be
    read does not disturb them. *)
Lemma rc4_crypt_loop_spec n st mem (a b : nat) :
  rc4_ok st -> (a + n <= length mem)%nat -> (b + n <= length mem)%nat ->
  (b <= a \/ a + n <= b)%nat ->
  exists ks st', rc4_keystream n st = Some (ks, st')
  /\ forall i inbuf outbuf, inbuf + i = Z.of_nat a -> outbuf + i = Z.of_nat b ->
     rc4_crypt_loop n i st mem inbuf outbuf
     = Done (take b mem ++ zip_with Z.lxor (take n (drop a mem)) ks
             ++ drop (b + n) mem, st').
Proof.
  revert st mem a b. induction n as [|n IH]; intros st mem a b Hst Ha Hb Hd.
  { exists [], st. split; [done|]. intros. simpl.
    by rewrite Nat.add_0_r, take_drop. }
  destruct (rc4_next_ok st Hst) as (k & st1 & Hnext & Hst1 & _).
  destruct (lookup_lt_is_Some_2 mem a) as [c Hc]; [lia|].
  set (mem1 := <[b := Z.lxor c k]> mem).
  assert (Hl1 : length mem1 = length mem) by apply length_insert.
  destruct (IH st1 mem1 (S a) (S b)) as (ks & st2 & Hks & Hloop);
    [done|lia..|].
  exists (k :: ks), st2. split.
  { simpl. by rewrite Hnext, Hks. }
  intros i inbuf outbuf Hi Ho. simpl. rewrite Hnext. simpl.
  rewrite Hi, rd_lookup, Nat2Z.id, Hc by lia. simpl.
  rewrite Ho, wr_Some, Nat2Z.id by len. simpl. fold mem1.
  rewrite Hloop by lia. do 2 f_equal.
  rewrite (take_S_r mem1 b (Z.lxor c k)) by (apply list_lookup_insert_eq; lia).
  rewrite (drop_S mem c a) by done. simpl.
  rewrite <- app_assoc. simpl. f_equal; [by apply take_insert_ge|].
  f_equal. f_equal.
  - f_equal. unfold mem1. rewrite !take_drop_commute. destruct Hd as [Hd|Hd].
    + rewrite <- !take_drop_commute. by rewrite drop_insert_lt by lia.
    + by rewrite take_insert_ge by lia.
  - unfold mem1. rewrite drop_insert_lt by lia. f_equal. lia.
Qed.

Lemma zip_lxor_involutive l ks :
  (length l <= length ks)%nat ->
  zip_with Z.lxor (zip_with Z.lxor l ks) ks = l.
Proof.
  revert ks. induction l as [|x l IH]; intros [|k ks] H; simpl in *; try lia; auto.
  rewrite Z.lxor_assoc, Z.lxor_nilpotent, Z.lxor_0_r. f_equal. apply IH. lia.
Qed.

Lemma rc4_keystream_app n m st ks st1 :
  rc4_keystream n st = Some (ks, st1) ->
  rc4_keystream (n + m) st
  = (fun r => (ks ++ r.1, r.2)) <$> rc4_keystream m st1.
Proof.
  revert st ks st1. induction n as [|n IH]; intros st ks st1 H; simpl in H.
  { injection H as <- <-. simpl. by destruct (rc4_keystream m st) as [[]|]. }
  simpl. destruct (rc4_next st) as [[k st']| |] eqn:E; try done.
  destruct (rc4_keystream n st') as [[ks' st'']|] eqn:E'; try done.
  injection H as <- <-. rewrite (IH _ _ _ E').
  by destruct (rc4_keystream m st'') as [[]|].
Qed.

(** * Properties *)

Lemma rc4_init_run key keylen :
  0 < keylen <= zlen key ->
  exists st, rc4_init key keylen = Done st /\ rc4_ok st
    /\ index1 st = 0 /\ index2 st = 0.
Proof.
  intros Hk. unfold rc4_init.
  rewrite (proj2 (Z.eqb_neq keylen 0)) by lia. simpl assert.
  destruct (rc4_schedule_perm 256 0 0 (u8 <$> seqZ 0 256) key keylen)
    as (p & Hp & Hperm); [by vm_compute|lia..|].
  unfold obind at 1. rewrite Hp. eexists. split_and!; [done| |done..].
  split_and!; [done|unfold is_byte; simpl; lia..].
Qed.

(** C36. The key schedule never leaves its arrays: with at least one key byte it
    yields a state whose table is a permutation of 0..255 and whose indices
    are 0. *)
Theorem rc4_init_permutation key keylen :
  0 < keylen <= zlen key ->
  exists st, rc4_init key keylen = Done st /\ rc4_ok st
    /\ index1 st = 0 /\ index2 st = 0.
Proof. apply rc4_init_run. Qed.

Lemma rc4_init_permutation_witness :
  exists st, rc4_init [75; 101; 121] 3 = Done st /\ rc4_ok st
    /\ index1 st = 0 /\ index2 st = 0.
Proof. apply (rc4_init_permutation [75; 101; 121] 3). vm_compute. split; congruence. Defined.

Lemma rc4_crypt_run st mem inbuf outbuf n data :
  rc4_ok st -> sub mem inbuf n = Some data ->
  0 <= outbuf -> outbuf + n <= zlen mem ->
  (outbuf <= inbuf \/ inbuf + n <= outbuf) ->
  exists ks st' mem',
    rc4_keystream (Z.to_nat n) st = Some (ks, st') /\ rc4_ok st'
    /\ put mem outbuf (zip_with Z.lxor data ks) = Some mem'
    /\ rc4_crypt st mem inbuf outbuf n = Done (mem', st').
Proof.
  intros Hst (Hi & Hn & Hin & ->)%sub_inv Ho Hout Hd.
  destruct (rc4_crypt_loop_spec (Z.to_nat n) st mem (Z.to_nat inbuf)
              (Z.to_nat outbuf)) as (ks & st' & Hks & Hloop); [done|len..|].
  destruct (rc4_keystream_ok (Z.to_nat n) st Hst)
    as (ks' & st'' & Hks' & Hst' & Hlen & _).
  rewrite Hks in Hks'. injection Hks' as <- <-.
  assert (Hz : length (zip_with Z.lxor (take (Z.to_nat n)
                 (drop (Z.to_nat inbuf) mem)) ks) = Z.to_nat n).
  { rewrite length_zip_with. len. }
  do 3 eexists. split_and!; [done|done| |].
  - apply put_Some; len.
  - unfold rc4_crypt. rewrite Hloop by lia. by rewrite Hz.
Qed.


(** The state before the key schedule, and a small memory, for the witnesses. *)
Definition rc4_identity : rc4_state := Rc4State (seqZ 0 256) 0 0.

Lemma rc4_identity_ok : rc4_ok rc4_identity.
Proof. split_and!; [done|unfold is_byte; simpl; lia..]. Qed.


(** Decryption inverts encryption: running [rc4_crypt] twice from the same
    state over the same buffer restores its contents. *)
Theorem rc4_crypt_involutive st mem buf n mem1 st1 :
  rc4_ok st -> rc4_crypt st mem buf buf n = Done (mem1, st1) ->
  0 <= buf -> 0 <= n -> buf + n <= zlen mem ->
  rc4_crypt st mem1 buf buf n = Done (mem, st1).
Proof.
  intros Hst Hrun Hb Hn Hl.
  destruct (rc4_crypt_loop_spec (Z.to_nat n) st mem (Z.to_nat buf) (Z.to_nat buf))
    as (ks & st' & Hks & Hloop); [done|len..|].
  destruct (rc4_keystream_ok (Z.to_nat n) st Hst) as (ks' & ? & Hks' & _ & Hlen & _).
  rewrite Hks in Hks'. injection Hks' as <- <-.
  unfold rc4_crypt in Hrun. rewrite Hloop in Hrun by lia. injection Hrun as <- <-.
  set (data := take (Z.to_nat n) (drop (Z.to_nat buf) mem)).
  assert (Hd : length data = Z.to_nat n) by (unfold data; len).
  set (enc := zip_with Z.lxor data ks).
  assert (He : length enc = Z.to_nat n) by (unfold enc; rewrite length_zip_with; lia).
  set (pre := take (Z.to_nat buf) mem). set (post := drop _ mem).
  assert (Hp : length pre = Z.to_nat buf) by (unfold pre; len).
  assert (Hmem : mem = pre ++ data ++ post).
  { unfold pre, data, post. rewrite <- drop_drop, !take_drop. done. }
  destruct (rc4_crypt_loop_spec (Z.to_nat n) st (pre ++ enc ++ post)
              (Z.to_nat buf) (Z.to_nat buf)) as (ks2 & st2 & Hks2 & Hloop2);
    [done|len..|].
  rewrite Hks in Hks2. injection Hks2 as <- <-.
  unfold rc4_crypt. rewrite Hloop2 by lia. do 2 f_equal.
  rewrite <- Hp, take_app_length, drop_app_length, <- He, take_app_length.
  unfold enc at 1. rewrite zip_lxor_involutive by lia.
  rewrite <- drop_drop, drop_app_length, drop_app_length. done.
Qed.

Lemma rc4_crypt_involutive_witness :
  exists st1, rc4_crypt rc4_identity [9; 0; 6; 3] 1 1 3 = Done ([9; 2; 3; 4], st1).
Proof.
  eexists. eapply (rc4_crypt_involutive rc4_identity [9; 2; 3; 4] 1 3 [9; 0; 6; 3]);
    [exact rc4_identity_ok|vm_compute; reflexivity|lia|lia|vm_compute; congruence].
Defined.

Lemma rc4_crypt_loop_app n m i st mem inbuf outbuf :
  rc4_crypt_loop (n + m) i st mem inbuf outbuf
  = (let* (mem1, st1) := rc4_crypt_loop n i st mem inbuf outbuf in
     rc4_crypt_loop m (i + Z.of_nat n) st1 mem1 inbuf outbuf).
Proof.
  revert i st mem. induction n as [|n IH]; intros i st mem; simpl Nat.add.
  { simpl. by rewrite Z.add_0_r. }
  cbn [rc4_crypt_loop]. destruct (rc4_next st) as [[k st1]| |]; simpl; try done.
  destruct (rd mem (inbuf + i)) as [c|]; simpl; try done.
  destruct (wr mem (outbuf + i) (Z.lxor c k)) as [mem1|]; simpl; try done.
  rewrite IH. destruct (rc4_crypt_loop n (i + 1) st1 mem1 inbuf outbuf)
    as [[mem2 st2]| |]; simpl; try done. f_equal. lia.
Qed.

Lemma rc4_crypt_loop_shift n d i st mem inbuf outbuf :
  rc4_crypt_loop n (i + d) st mem inbuf outbuf
  = rc4_crypt_loop n i st mem (inbuf + d) (outbuf + d).
Proof.
  revert i st mem. induction n as [|n IH]; intros i st mem; [done|].
  cbn [rc4_crypt_loop].
  replace (inbuf + d + i) with (inbuf + (i + d)) by lia.
  replace (outbuf + d + i) with (outbuf + (i + d)) by lia.
  destruct (rc4_next st) as [[k st1]| |]; simpl; try done.
  destruct (rd mem _) as [c|]; simpl; try done.
  destruct (wr mem _ _) as [mem1|]; simpl; try done.
  rewrite <- IH. f_equal. lia.
Qed.

(** The cipher is a stream: one call for [n + m] bytes is a call for the
    first [n] bytes followed by one for the next [m], errors included. *)
Theorem rc4_crypt_stream st mem inbuf outbuf n m :
  0 <= n -> 0 <= m ->
  rc4_crypt st mem inbuf outbuf (n + m)
  = (let* (mem1, st1) := rc4_crypt st mem inbuf outbuf n in
     rc4_crypt st1 mem1 (inbuf + n) (outbuf + n) m).
Proof.
  intros. unfold rc4_crypt. rewrite Z2Nat.inj_add by lia.
  rewrite rc4_crypt_loop_app.
  destruct (rc4_crypt_loop (Z.to_nat n) 0 st mem inbuf outbuf)
    as [[mem1 st1]| |]; simpl; try done.
  rewrite Z2Nat.id by lia. exact (rc4_crypt_loop_shift _ n 0 _ _ _ _).
Qed.

Lemma rc4_crypt_stream_witness :
  rc4_crypt rc4_identity [1; 2; 3; 4] 0 0 (1 + 3)
  = (let* (mem1, st1) := rc4_crypt rc4_identity [1; 2; 3; 4] 0 0 1 in
     rc4_crypt st1 mem1 (0 + 1) (0 + 1) 3).
Proof. apply (rc4_crypt_stream rc4_identity [1; 2; 3; 4] 0 0 1 3); lia. Defined.

(** Known answer: key Key, plaintext Plaintext. *)
Example rc4_known_answer :
  (let* st := rc4_init [75; 101; 121] 3 in
   let* (mem, _) := rc4_crypt st [80; 108; 97; 105; 110; 116; 101; 120; 116] 0 0 9 in
   Done mem)
  = Done [0xBB; 0xF3; 0x16; 0xE8; 0xD9; 0x40; 0xAF; 0x0A; 0xD3].
Proof. vm_compute. reflexivity. Qed.

End Rc4.
