(* ===== verification/Mdx.v ===== *)
(** The message buffering of the digests: contrib/mdx/md4.c and
    contrib/mdx/md5.c.

    [MD4_Update]/[MD5_Update] and [MD4_Final]/[MD5_Final] are the same text up
    to the names; the two files differ in [body]. The section is therefore
    parameterised by the transformation of one 64-byte block; [Md4] and [Md5]
    instantiate it. [block[16]] of the context is not used on a little-endian
    x86-64 host, where [GET] reads the data. *)

From S2P Require Import Prelude.

Module Mdx.

(** The registers a, b, c, d. *)
Definition regs : Type := Z * Z * Z * Z.

(** MD4_CTX, MD5_CTX *)
Record ctx := Ctx {
  lo : Z;
  hi : Z;
  abcd : regs;
  buffer : bytes                 (* unsigned char buffer[64] *)
}.

Definition init_regs : regs := (0x67452301, 0xefcdab89, 0x98badcfe, 0x10325476).

(** MD4_Init, MD5_Init: the buffer is left as it is. *)
Definition init (c : ctx) : ctx := Ctx 0 0 init_regs (buffer c).

Section Digest.
Context (block : regs -> bytes -> regs).

(** The loop of [body]: [n] blocks from [ptr] on; the pointer behind them. *)
Fixpoint body_loop (n : nat) (r : regs) (ptr : bytes) : outcome (regs * bytes) :=
  match n with
  | O => Done (r, ptr)
  | S n =>
      let* x := checked (sub ptr 0 64) in
      body_loop n (block r x) (drop 64 ptr)
  end.

(** [body(ctx, data, size)]; [do ... while (size -= 64)] ends only for a
    positive multiple of 64. *)
Definition body (c : ctx) (data : bytes) (size : Z) : outcome (ctx * bytes) :=
  assert ((0 <? size) && (size `mod` 64 =? 0)) ;;;
  let* (r, ptr) := body_loop (Z.to_nat (size `div` 64)) (abcd c) data in
  Done (Ctx (lo c) (hi c) r (buffer c), ptr).

Definition set_buffer (c : ctx) (b : bytes) : ctx := Ctx (lo c) (hi c) (abcd c) b.

(** The part of the update after the counters. *)
Definition update_tail (c : ctx) (data : bytes) (size : Z) : outcome ctx :=
  let* (c, data, size) :=
    (if 64 <=? size
     then let* (c, data) := body c data (Z.land size (u64 (Z.lnot 0x3f))) in
          Done (c, data, Z.land size 0x3f)
     else Done (c, data, size)) in
  let* chunk := checked (sub data 0 size) in
  let* b := checked (put (buffer c) 0 chunk) in
  Done (set_buffer c b).

Definition update (c : ctx) (data : bytes) (size : Z) : outcome ctx :=
  let saved_lo := lo c in
  let lo' := u32 (Z.land (u64 (saved_lo + size)) 0x1fffffff) in
  let hi1 := if lo' <? saved_lo then u32 (hi c + 1) else hi c in
  let hi' := u32 (hi1 + Z.shiftr size 29) in
  let c := Ctx lo' hi' (abcd c) (buffer c) in
  let used := Z.land saved_lo 0x3f in
  if negb (used =? 0)
  then
    let available := 64 - used in
    if size <? available
    then
      let* chunk := checked (sub data 0 size) in
      let* b := checked (put (buffer c) used chunk) in
      Done (set_buffer c b)
    else
      let* chunk := checked (sub data 0 available) in
      let* b := checked (put (buffer c) used chunk) in
      let data := drop (Z.to_nat available) data in
      let size := size - available in
      let* (c, _) := body (set_buffer c b) b 64 in
      update_tail c data size
  else update_tail c data size.

(** [memset(&buffer[off], 0, n)] *)
Definition zero (b : bytes) (off n : Z) : option bytes :=
  put b off (replicate (Z.to_nat n) 0).

(** The 16 bytes of a register file, least significant byte first. *)
Definition digest (r : regs) : bytes :=
  let '(a, b, c, d) := r in
  le_bytes 4 a ++ le_bytes 4 b ++ le_bytes 4 c ++ le_bytes 4 d.

(** The result and the cleared context. *)
Definition final (c : ctx) : outcome (bytes * ctx) :=
  let used := Z.land (lo c) 0x3f in
  let* b := checked (wr (buffer c) used 0x80) in
  let used := used + 1 in
  let available := 64 - used in
  let* (c, b, used, available) :=
    (if available <? 8
     then let* b := checked (zero b used available) in
          let* (c, _) := body (set_buffer c b) b 64 in
          Done (c, b, 0, 64)
     else Done (c, b, used, available)) in
  let* b := checked (zero b used (available - 8)) in
  let lo' := u32 (Z.shiftl (lo c) 3) in
  let* b := checked (put b 56 (le_bytes 4 lo')) in
  let* b := checked (put b 60 (le_bytes 4 (hi c))) in
  let* (c, _) := body (set_buffer (Ctx lo' (hi c) (abcd c) b) b) b 64 in
  Done (digest (abcd c), Ctx 0 0 (0, 0, 0, 0) (replicate 64 0)).

(** * Reference: padding and iteration over the blocks *)

Fixpoint absorb (n : nat) (r : regs) (l : bytes) : regs :=
  match n with
  | O => r
  | S n => absorb n (block r (take 64 l)) (drop 64 l)
  end.

(** A 0x80 byte, zeros up to 56 modulo 64, the length in bits modulo 2^64. *)
Definition pad (msg : bytes) : bytes :=
  msg ++ 0x80 :: replicate (Z.to_nat ((55 - zlen msg) `mod` 64)) 0
      ++ le_bytes 8 (8 * zlen msg).

Definition hash_spec (msg : bytes) : bytes :=
  digest (absorb (length (pad msg) / 64) init_regs (pad msg)).

(** The context after the message [msg]. *)
Definition absorbed (msg : bytes) (c : ctx) : Prop :=
  abcd c = absorb (length msg / 64) init_regs msg
  /\ length (buffer c) = 64%nat
  /\ take (length msg mod 64) (buffer c) = drop (64 * (length msg / 64)) msg
  /\ 0 <= lo c < 536870912 /\ 0 <= hi c < 4294967296
  /\ (lo c + 536870912 * hi c) `mod` 2305843009213693952
     = zlen msg `mod` 2305843009213693952.

(** * Lemmas *)

Lemma absorb_app n r l1 l2 :
  (64 * n <= length l1)%nat -> absorb n r (l1 ++ l2) = absorb n r l1.
Proof.
  revert r l1. induction n as [|n IH]; intros r l1 Hl; [done|]. cbn [absorb].
  rewrite take_app_le, drop_app_le by lia. apply IH. rewrite length_drop. lia.
Qed.

Lemma absorb_add n m r l :
  absorb (n + m) r l = absorb m (absorb n r l) (drop (64 * n) l).
Proof.
  revert r l. induction n as [|n IH]; intros r l; [done|].
  cbn [Nat.add absorb]. rewrite IH, drop_drop. do 2 f_equal. lia.
Qed.

Lemma absorb_one r l : absorb 1 r l = block r (take 64 l).
Proof. done. Qed.

Lemma body_loop_spec n r ptr :
  (64 * n <= length ptr)%nat ->
  body_loop n r ptr = Done (absorb n r ptr, drop (64 * n) ptr).
Proof.
  revert r ptr. induction n as [|n IH]; intros r ptr Hl; [done|].
  cbn [body_loop absorb]. rewrite sub_Some by len. cbn [checked obind].
  rewrite IH by (rewrite length_drop; lia). rewrite drop_drop. simpl.
  do 3 f_equal. lia.
Qed.

Lemma body_spec c data size n :
  size = 64 * Z.of_nat n -> (0 < n)%nat -> (64 * n <= length data)%nat ->
  body c data size
  = Done (Ctx (lo c) (hi c) (absorb n (abcd c) data) (buffer c),
          drop (64 * n) data).
Proof.
  intros -> Hn Hl. unfold body.
  rewrite (proj2 (Z.ltb_lt 0 _)), (proj2 (Z.eqb_eq _ 0)) by zdiv. simpl assert.
  cbn [obind]. rewrite (Z.mul_comm 64), Z.div_mul, Nat2Z.id by lia.
  by rewrite body_loop_spec.
Qed.

(** The data part of [absorbed], without the counters. *)
Definition absorbed_data (msg : bytes) (c : ctx) : Prop :=
  abcd c = absorb (length msg / 64) init_regs msg
  /\ length (buffer c) = 64%nat
  /\ take (length msg mod 64) (buffer c) = drop (64 * (length msg / 64)) msg.

Lemma update_tail_spec msg c data :
  (length msg mod 64 = 0)%nat -> absorbed_data msg c ->
  zlen data < 18446744073709551616 ->
  exists c', update_tail c data (zlen data) = Done c'
    /\ absorbed_data (msg ++ data) c' /\ lo c' = lo c /\ hi c' = hi c.
Proof.
  intros Hm (Hr & Hb & _) Hsz. unfold update_tail.
  set (n := (length data / 64)%nat). set (m := (length msg / 64)%nat).
  assert (Hq : length data = (64 * n + length data mod 64)%nat)
    by (apply Nat.div_mod_eq).
  assert (Hmq : length msg = (64 * m)%nat)
    by (pose proof (Nat.div_mod_eq (length msg) 64); lia).
  pose proof (Nat.mod_upper_bound (length data) 64 ltac:(lia)) as Hmod.
  assert (Hdiv : (length (msg ++ data) / 64 = m + n)%nat).
  { rewrite length_app, Hmq, Nat.mul_comm, Nat.add_comm.
    rewrite Nat.div_add by lia. fold n. lia. }
  assert (Hrem : (length (msg ++ data) mod 64 = length data mod 64)%nat).
  { pose proof (Nat.div_mod_eq (length (msg ++ data)) 64). len. }
  assert (Hdrop : drop (64 * (m + n)) (msg ++ data) = drop (64 * n) data).
  { rewrite drop_app_ge by lia. f_equal. lia. }
  assert (Habs : absorb (m + n) init_regs (msg ++ data)
                 = absorb n (abcd c) data).
  { rewrite absorb_add, Hr. fold m. rewrite absorb_app by lia.
    rewrite drop_app_ge by lia. by rewrite Hmq, Nat.sub_diag, drop_0. }
  assert (Hrun : exists c1, (if 64 <=? zlen data
     then let* (c0, d) := body c data (Z.land (zlen data) (u64 (Z.lnot 63))) in
          Done (c0, d, Z.land (zlen data) 63)
     else Done (c, data, zlen data))
     = Done (c1, drop (64 * n) data, Z.of_nat (length data mod 64))
     /\ abcd c1 = absorb n (abcd c) data /\ buffer c1 = buffer c
     /\ lo c1 = lo c /\ hi c1 = hi c).
  { destruct (Z.leb_spec 64 (zlen data)) as [Hge|Hlt].
    - change (u64 (Z.lnot 63)) with (Z.shiftl (Z.ones (64 - 6)) 6).
      rewrite (land_high_mask 64 6) by (unfold zlen in *; lia).
      change (2 ^ 6) with 64. unfold zlen in *.
      rewrite (body_spec c data _ n); [|unfold n; rewrite Nat2Z.inj_div; lia|lia|lia].
      eexists. cbn [obind]. rewrite land_63. 
      split_and!; [by rewrite Nat2Z.inj_mod|done..].
    - assert (n = 0%nat) as Hn by (unfold zlen in *; lia).
      exists c. rewrite Hn, drop_0. split_and!; [|done..]. do 2 f_equal.
      unfold zlen. rewrite Hn in Hq. lia. }
  destruct Hrun as (c1 & -> & Hr1 & Hb1 & Hlo & Hhi). cbn [obind].
  rewrite sub_Some by len. cbn [checked obind].
  set (tail := take _ (drop _ (drop _ data))).
  assert (Ht : tail = drop (64 * n) data).
  { unfold tail. rewrite drop_0, take_ge; [done|len]. }
  assert (Htl : length tail = (length data mod 64)%nat) by (rewrite Ht; len).
  rewrite put_Some by (rewrite ?Hb1; len). cbn [checked obind].
  eexists. split; [done|]. simpl. split_and!; [|done|done].
  split_and!.
  - rewrite Hdiv, Habs. done.
  - simpl. rewrite Hb1. len.
  - rewrite Hdiv, Hrem, Hdrop, <- Ht, <- Htl. apply take_app_length.
Qed.

(** The byte counter: [lo] holds 29 bits, [hi] the next 32. *)
Lemma counters lo0 hi0 size t :
  0 <= lo0 < 536870912 -> 0 <= hi0 < 4294967296 -> 0 <= size ->
  (lo0 + 536870912 * hi0) `mod` 2305843009213693952
    = t `mod` 2305843009213693952 ->
  let lo' := u32 (Z.land (u64 (lo0 + size)) 0x1fffffff) in
  let hi1 := if lo' <? lo0 then u32 (hi0 + 1) else hi0 in
  let hi' := u32 (hi1 + Z.shiftr size 29) in
  0 <= lo' < 536870912 /\ 0 <= hi' < 4294967296
  /\ (lo' + 536870912 * hi') `mod` 2305843009213693952
     = (t + size) `mod` 2305843009213693952.
Proof.
  intros Hlo Hhi Hs Ht lo' hi1 hi'.
  assert (El : lo' = (lo0 + size) `mod` 536870912).
  { unfold lo'. rewrite (land_mask 29) by done. widths.
    change (2 ^ 29) with 536870912. zdiv. }
  assert (Hl' : 0 <= lo' < 536870912) by (rewrite El; zdiv).
  assert (Hh' : 0 <= hi' < 4294967296) by apply u32_range.
  split_and!; [lia..|].
  assert (Eh : exists k, lo' + 536870912 * hi'
                 = lo0 + 536870912 * hi0 + size + 2305843009213693952 * k).
  { unfold hi', hi1, u32. rewrite Z.shiftr_div_pow2 by lia.
    change (2 ^ 29) with 536870912.
    destruct (Z.ltb_spec lo' lo0).
    - exists (- ((hi0 + 1) `div` 4294967296)
              - ((((hi0 + 1) `mod` 4294967296) + size `div` 536870912)
                 `div` 4294967296)). zdiv.
    - exists (- ((hi0 + size `div` 536870912) `div` 4294967296)). zdiv. }
  destruct Eh as [k ->]. rewrite (Z.mul_comm _ k), Z.mod_add by lia.
  rewrite <- Z.add_mod_idemp_l, Ht, Z.add_mod_idemp_l by lia. done.
Qed.

(** The counters are known, the data part is described by [absorbed_data]. *)
Lemma absorbed_split msg c :
  absorbed msg c <->
  absorbed_data msg c
  /\ 0 <= lo c < 536870912 /\ 0 <= hi c < 4294967296
  /\ (lo c + 536870912 * hi c) `mod` 2305843009213693952
     = zlen msg `mod` 2305843009213693952.
Proof. unfold absorbed, absorbed_data. tauto. Qed.

(** The buffer offset of the next byte is the message length modulo 64. *)
Lemma used_spec msg c :
  absorbed msg c -> Z.land (lo c) 0x3f = Z.of_nat (length msg mod 64).
Proof.
  intros (_ & _ & _ & Hlo & Hhi & Hc). rewrite land_63, Nat2Z.inj_mod.
  unfold zlen in Hc. zdiv.
Qed.

(** A message that does not fill the block in progress. *)
Lemma absorbed_short msg c data b :
  absorbed_data msg c -> (length msg mod 64 + length data < 64)%nat ->
  put (buffer c) (Z.of_nat (length msg mod 64)) data = Some b ->
  absorbed_data (msg ++ data) (set_buffer c b).
Proof.
  intros (Hr & Hb & Ht) Hs Hput. pose proof (length_put _ _ _ _ Hput) as Hl.
  apply put_inv in Hput as (_ & _ & ->).
  pose proof (Nat.div_mod_eq (length msg) 64) as Hm.
  assert (Hdiv : (length (msg ++ data) / 64 = length msg / 64)%nat).
  { symmetry. apply (Nat.div_unique _ _ _ (length msg mod 64 + length data)); len. }
  assert (Hmod : (length (msg ++ data) mod 64
                  = length msg mod 64 + length data)%nat).
  { symmetry. apply (Nat.mod_unique _ _ (length msg / 64)); len. }
  split_and!; cbn [abcd buffer set_buffer].
  - rewrite Hdiv, absorb_app by lia. done.
  - len.
  - rewrite Hdiv, Hmod, drop_app_le by lia. rewrite Nat2Z.id, <- Ht, app_assoc.
    rewrite take_app_le by len. apply take_ge. len.
Qed.

(** Filling the block in progress and compressing it. *)
Lemma absorbed_fill msg c data b :
  absorbed_data msg c -> (length msg mod 64 + length data = 64)%nat ->
  put (buffer c) (Z.of_nat (length msg mod 64)) data = Some b ->
  exists c' ptr, body (set_buffer c b) b 64 = Done (c', ptr)
    /\ absorbed_data (msg ++ data) c' /\ lo c' = lo c /\ hi c' = hi c
    /\ buffer c' = b.
Proof.
  intros (Hr & Hb & Ht) Hs Hput. pose proof (length_put _ _ _ _ Hput) as Hl.
  apply put_inv in Hput as (_ & _ & Eb). rewrite Nat2Z.id, Ht in Eb.
  pose proof (Nat.div_mod_eq (length msg) 64) as Hm.
  assert (Hlb : length b = 64%nat) by len.
  rewrite (body_spec _ _ _ 1) by lia.
  assert (Hdiv : (length (msg ++ data) / 64 = length msg / 64 + 1)%nat).
  { symmetry. apply (Nat.div_unique _ _ _ 0); len. }
  assert (Hmod : (length (msg ++ data) mod 64 = 0)%nat).
  { symmetry. apply (Nat.mod_unique _ _ (length msg / 64 + 1)); len. }
  assert (Hblk : take 64 b = drop (64 * (length msg / 64)) msg ++ data).
  { rewrite Eb, (drop_ge (buffer c)) by lia. rewrite app_nil_r.
    apply take_ge. len. }
  do 2 eexists. split; [done|]. split_and!; try done. split_and!; cbn [abcd buffer set_buffer].
  - rewrite Hdiv, absorb_add, absorb_app by lia.
    rewrite !absorb_one, drop_app_le by len. rewrite <- Hr, Hblk.
    by rewrite take_ge by len.
  - done.
  - rewrite Hdiv, Hmod, drop_ge by len. done.
Qed.

Lemma update_spec msg c data :
  absorbed msg c -> zlen data < 18446744073709551616 ->
  exists c', update c data (zlen data) = Done c' /\ absorbed (msg ++ data) c'.
Proof.
  intros Hc Hsz. pose proof (used_spec _ _ Hc) as Hu.
  pose proof (proj1 (absorbed_split _ _) Hc) as (Hd & Hlo & Hhi & Hcnt).
  destruct (counters _ _ (zlen data) _ Hlo Hhi ltac:(unfold zlen; lia) Hcnt)
    as (Hlo' & Hhi' & Hcnt').
  unfold update. rewrite Hu.
  set (lo' := u32 _) in *. set (hi1 := if lo' <? lo c then _ else _) in *.
  set (hi' := u32 (hi1 + _)) in *. set (c1 := Ctx lo' hi' (abcd c) (buffer c)).
  assert (Hd1 : absorbed_data msg c1) by exact Hd.
  assert (Hb : length (buffer c) = 64%nat) by apply Hd.
  pose proof (Nat.mod_upper_bound (length msg) 64 ltac:(lia)) as Hmod.
  assert (Hlen : zlen (msg ++ data) = zlen msg + zlen data) by len.
  assert (Hdone : forall c', absorbed_data (msg ++ data) c' ->
            lo c' = lo' -> hi c' = hi' -> absorbed (msg ++ data) c').
  { intros c' ? E1 E2. apply absorbed_split. by rewrite E1, E2, Hlen. }
  set (used := (length msg mod 64)%nat) in *. clearbody lo' hi1 hi'.
  destruct (Z.eqb_spec (Z.of_nat used) 0) as [E|E]; cbn [negb].
  { destruct (update_tail_spec msg c1 data) as (c' & -> & ? & ? & ?);
      [lia|done|done|]. eauto. }
  destruct (Z.ltb_spec (zlen data) (64 - Z.of_nat used)) as [Hlt|Hge].
  - rewrite sub_Some by (unfold zlen in *; lia). cbn [checked obind].
    rewrite drop_0, take_ge by len.
    destruct (proj2 (put_is_Some (buffer c) (Z.of_nat used) data)) as [b Hput].
    { unfold zlen in *. lia. }
    change (buffer c1) with (buffer c). rewrite Hput. cbn [checked obind].
    eexists. split; [done|]. apply Hdone; try done.
    apply absorbed_short; [done|unfold zlen in *; lia|done].
  - rewrite sub_Some by len. cbn [checked obind]. rewrite drop_0.
    set (n := Z.to_nat (64 - Z.of_nat used)).
    assert (Hn : (n + used = 64)%nat) by lia.
    assert (Htk : length (take n data) = n) by (unfold zlen in *; len).
    destruct (proj2 (put_is_Some (buffer c) (Z.of_nat used) (take n data)))
      as [b Hput]. { len. }
    change (buffer c1) with (buffer c). rewrite Hput. cbn [checked obind].
    destruct (absorbed_fill msg c1 (take n data) b)
      as (c2 & ptr & -> & Hd2 & Hl2 & Hh2 & _); [done|lia|done|].
    cbn [obind].
    replace (zlen data - (64 - Z.of_nat used)) with (zlen (drop n data)) by len.
    destruct (update_tail_spec (msg ++ take n data) c2 (drop n data))
      as (c' & -> & Hd' & Hl3 & Hh3); [|done|len|].
    { rewrite length_app, Htk. pose proof (Nat.div_mod_eq (length msg) 64).
      symmetry. apply (Nat.mod_unique _ _ (length msg / 64 + 1)); lia. }
    exists c'. split; [done|]. rewrite <- app_assoc, take_drop in Hd'.
    apply Hdone; [done|by rewrite Hl3, Hl2|by rewrite Hh3, Hh2].
Qed.

(** Splitting the padding at the end of the block in progress. *)
Definition pad_zeros (n : nat) : nat := Z.to_nat ((55 - Z.of_nat n) `mod` 64).

Lemma pad_zeros_near n :
  (n mod 64 <= 55)%nat -> pad_zeros n = (55 - n mod 64)%nat.
Proof.
  intros. unfold pad_zeros. pose proof (Nat.div_mod_eq n 64).
  assert ((55 - Z.of_nat n) `mod` 64 = 55 - Z.of_nat (n mod 64)); [|lia].
  symmetry. apply (Z.mod_unique_pos _ _ (- Z.of_nat (n / 64))); lia.
Qed.

Lemma pad_zeros_far n :
  (55 < n mod 64)%nat -> pad_zeros n = (63 - n mod 64 + 56)%nat.
Proof.
  intros. unfold pad_zeros. pose proof (Nat.div_mod_eq n 64).
  pose proof (Nat.mod_upper_bound n 64 ltac:(lia)).
  assert ((55 - Z.of_nat n) `mod` 64 = 119 - Z.of_nat (n mod 64)); [|lia].
  symmetry. apply (Z.mod_unique_pos _ _ (- Z.of_nat (n / 64) - 1)); lia.
Qed.

(** The length field: [lo << 3] and [hi] are the bit count modulo 2^64. *)
Lemma length_field lo0 hi0 t :
  0 <= lo0 < 536870912 -> 0 <= hi0 < 4294967296 ->
  (lo0 + 536870912 * hi0) `mod` 2305843009213693952
    = t `mod` 2305843009213693952 ->
  le_bytes 4 (u32 (Z.shiftl lo0 3)) ++ le_bytes 4 hi0 = le_bytes 8 (8 * t).
Proof.
  intros Hl Hh Ht. unfold u32. rewrite Z.shiftl_mul_pow2 by lia.
  change (2 ^ 3) with 8. rewrite Z.mod_small by lia.
  assert (E : exists k, 8 * t = lo0 * 8 + 4294967296 * hi0
                                + 18446744073709551616 * k).
  { exists (t `div` 2305843009213693952). zdiv. }
  destruct E as [k ->]. rewrite (le_bytes_app 4 4).
  change (256 ^ Z.of_nat 4) with 4294967296. f_equal.
  - rewrite <- (le_bytes_wrap 4 _ (hi0 + 4294967296 * k)). f_equal. lia.
  - rewrite <- (le_bytes_wrap 4 _ k). f_equal.
    change (256 ^ Z.of_nat 4) with 4294967296. zdiv.
Qed.

(** The four stores that complete a block: zeros and the two length words. *)
Lemma finish_block b off zeros (w1 w2 : Z) :
  length b = 64%nat -> off + Z.of_nat zeros = 56 -> 0 <= off ->
  exists b1 b2 b3,
    zero b off (Z.of_nat zeros) = Some b1
    /\ put b1 56 (le_bytes 4 w1) = Some b2
    /\ put b2 60 (le_bytes 4 w2) = Some b3
    /\ put b off (replicate zeros 0 ++ le_bytes 4 w1 ++ le_bytes 4 w2) = Some b3.
Proof.
  intros Hb Ho Hoff. unfold zero. rewrite Nat2Z.id.
  destruct (proj2 (put_is_Some b off (replicate zeros 0))) as [b1 H1]; [len|].
  pose proof (length_put _ _ _ _ H1).
  destruct (proj2 (put_is_Some b1 56 (le_bytes 4 w1))) as [b2 H2]; [len|].
  pose proof (length_put _ _ _ _ H2).
  destruct (proj2 (put_is_Some b2 60 (le_bytes 4 w2))) as [b3 H3]; [len|].
  exists b1, b2, b3. split_and!; [done..|].
  rewrite app_assoc. eapply put_adjacent; [eapply put_adjacent; [exact H1|]|].
  - rewrite <- H2. f_equal. len.
  - rewrite <- H3. f_equal. len.
Qed.

Lemma length_pad msg :
  length (pad msg) = (length msg + 1 + pad_zeros (length msg) + 8)%nat.
Proof.
  unfold pad, pad_zeros, zlen. rewrite length_app. cbn [length].
  autorewrite with dsm_len. lia.
Qed.

Lemma pad_zeros_split msg :
  pad msg = (msg ++ [0x80]) ++ replicate (pad_zeros (length msg)) 0
            ++ le_bytes 8 (8 * zlen msg).
Proof. unfold pad, pad_zeros, zlen. by rewrite <- app_assoc. Qed.

(** The end of the padding, after [pre] was stored behind the message [m]. *)
Lemma final_last m c pre b off zeros w1 w2 :
  absorbed_data m c ->
  put (buffer c) (Z.of_nat (length m mod 64)) pre = Some b ->
  Z.of_nat (length m mod 64) + zlen pre = off -> off + Z.of_nat zeros = 56 ->
  let all := m ++ pre ++ replicate zeros 0 ++ le_bytes 4 w1 ++ le_bytes 4 w2 in
  exists b1 b2 b3 c' ptr,
    zero b off (Z.of_nat zeros) = Some b1
    /\ put b1 56 (le_bytes 4 w1) = Some b2
    /\ put b2 60 (le_bytes 4 w2) = Some b3
    /\ body (Ctx w1 w2 (abcd c) b3) b3 64 = Done (c', ptr)
    /\ abcd c' = absorb (length all / 64) init_regs all.
Proof.
  intros Hd Hpre Hoff Hz all. pose proof (length_put _ _ _ _ Hpre).
  assert (Hb : length (buffer c) = 64%nat) by apply Hd.
  destruct (finish_block b off zeros w1 w2) as (b1 & b2 & b3 & H1 & H2 & H3 & H13);
    [len|lia|unfold zlen in *; lia|].
  assert (Hall : put (buffer c) (Z.of_nat (length m mod 64))
            (pre ++ replicate zeros 0 ++ le_bytes 4 w1 ++ le_bytes 4 w2) = Some b3).
  { eapply put_adjacent; [exact Hpre|]. by rewrite Hoff. }
  edestruct (absorbed_fill m (Ctx w1 w2 (abcd c) (buffer c)))
    as (c' & ptr & Hbody & (Hr & _) & _); [exact Hd| |exact Hall|]; [len|].
  exists b1, b2, b3, c', ptr. by split_and!.
Qed.

Lemma final_spec msg c :
  absorbed msg c ->
  final c = Done (hash_spec msg, Ctx 0 0 (0, 0, 0, 0) (replicate 64 0)).
Proof.
  intros Hc. pose proof (used_spec _ _ Hc) as Hu.
  pose proof (proj1 (absorbed_split _ _) Hc) as (Hd & Hlo & Hhi & Hcnt).
  pose proof (length_field _ _ _ Hlo Hhi Hcnt) as Hfield.
  pose proof (Nat.mod_upper_bound (length msg) 64 ltac:(lia)) as Hmod.
  unfold final, hash_spec. rewrite Hu, wr_put, pad_zeros_split.
  set (u := (length msg mod 64)%nat) in *.
  assert (Hb : length (buffer c) = 64%nat) by apply Hd.
  destruct (proj2 (put_is_Some (buffer c) (Z.of_nat u) [0x80])) as [b Hput]; [len|].
  rewrite Hput. cbn [checked obind]. pose proof (length_put _ _ _ _ Hput) as Hl.
  destruct (Z.ltb_spec (64 - (Z.of_nat u + 1)) 8) as [Hfar|Hnear].
  - unfold zero at 1.
    replace (Z.to_nat (64 - (Z.of_nat u + 1))) with (63 - u)%nat by lia.
    destruct (proj2 (put_is_Some b (Z.of_nat u + 1) (replicate (63 - u) 0)))
      as [b1 H1]; [len|]. rewrite H1. cbn [checked obind].
    pose proof (length_put _ _ _ _ H1) as Hl1.
    pose proof (put_adjacent _ _ _ _ _ _ Hput H1) as H01.
    destruct (absorbed_fill msg c ([0x80] ++ replicate (63 - u) 0) _ Hd
                ltac:(fold u; len) H01) as (c1 & ptr & -> & Hd1 & Hl2 & Hh2 & Hb2).
    cbn [obind]. rewrite Hl2, Hh2. change (64 - 8) with (Z.of_nat 56).
    assert (Hm1 : Nat.modulo (length (msg ++ [0x80] ++ replicate (63 - u)%nat 0)) 64 = O).
    { pose proof (Nat.div_mod_eq (length msg) 64) as Hq. fold u in Hq.
      symmetry. apply (Nat.mod_unique _ _ (length msg / 64 + 1)); len. }
    destruct (final_last _ c1 [] b1 0 56 (u32 (Z.shiftl (lo c) 3)) (hi c) Hd1)
      as (b2 & b3 & b4 & c5 & ptr' & -> & H2 & H3 & H4 & H5);
      [rewrite Hm1, Hb2; apply put_nil; len|by rewrite Hm1|lia|].
    cbn [checked obind]. rewrite H2. cbn [checked obind]. rewrite H3.
    cbn [checked obind]. unfold set_buffer. cbn [lo hi abcd].
    rewrite H4. cbn [obind].
    rewrite H5, Hfield, (pad_zeros_far (length msg)) by (fold u; lia).
    fold u. rewrite replicate_add. cbn [app]. by rewrite <- !app_assoc.
  - cbn [obind].
    replace (64 - (Z.of_nat u + 1) - 8) with (Z.of_nat (55 - u)) by lia.
    destruct (final_last _ c [0x80] b (Z.of_nat u + 1) (55 - u)
                (u32 (Z.shiftl (lo c) 3)) (hi c) Hd)
      as (b2 & b3 & b4 & c5 & ptr' & -> & H2 & H3 & H4 & H5); [done|done|lia|].
    cbn [checked obind]. rewrite H2. cbn [checked obind]. rewrite H3.
    cbn [checked obind]. unfold set_buffer. cbn [lo hi abcd].
    rewrite H4. cbn [obind].
    rewrite H5, Hfield, (pad_zeros_near (length msg)) by (fold u; lia).
    fold u. by rewrite <- !app_assoc.
Qed.

(** Any sequence of updates after the initialisation. *)
Fixpoint updates (c : ctx) (chunks : list bytes) : outcome ctx :=
  match chunks with
  | [] => Done c
  | d :: chunks => let* c := update c d (zlen d) in updates c chunks
  end.

Lemma init_absorbed c : length (buffer c) = 64%nat -> absorbed [] (init c).
Proof. intros. unfold absorbed. simpl. split_and!; try done; lia. Qed.

Lemma updates_spec msg c chunks :
  absorbed msg c -> Forall (fun d => zlen d < 18446744073709551616) chunks ->
  exists c', updates c chunks = Done c' /\ absorbed (msg ++ concat chunks) c'.
Proof.
  intros Hc Hs. revert msg c Hc. induction Hs as [|d chunks Hd _ IH]; intros msg c Hc.
  - exists c. simpl. by rewrite app_nil_r.
  - simpl. destruct (update_spec msg c d Hc Hd) as (c1 & -> & Hc1). cbn [obind].
    rewrite app_assoc. by apply IH.
Qed.

(** Streaming digest = digest of the concatenation. *)
Lemma streaming_spec c chunks :
  length (buffer c) = 64%nat ->
  Forall (fun d => zlen d < 18446744073709551616) chunks ->
  (let* c := updates (init c) chunks in final c)
  = Done (hash_spec (concat chunks), Ctx 0 0 (0, 0, 0, 0) (replicate 64 0)).
Proof.
  intros Hb Hs.
  destruct (updates_spec [] (init c) chunks (init_absorbed c Hb) Hs) as (c' & -> & Hc').
  cbn [obind]. by apply final_spec.
Qed.

Lemma length_digest r : length (digest r) = 16%nat.
Proof. destruct r as [[[a b] c] d]. unfold digest. by autorewrite with dsm_len. Qed.

Lemma digest_ok r : bytes_ok (digest r).
Proof. destruct r as [[[a b] c] d]. unfold digest. auto 10 with dsm. Qed.

End Digest.
(** * The STEP macros

    A [STEP(f, a, b, c, d, ...)] line names the register it replaces first and
    passes the others in the cyclic order a, b, c, d; the rounds use the
    targets a, d, c, b in turn. *)

Inductive reg := RA | RB | RC | RD.

Definition rotl (a s : Z) : Z :=
  Z.lor (u32 (Z.shiftl a s)) (Z.shiftr (Z.land a 0xffffffff) (32 - s)).

(** SET(n), GET(n): word [n] of the block. *)
Definition word_of (x : bytes) (n : nat) : Z := le_word (take 4 (drop (4 * n) x)).

Definition is_u32 (z : Z) : Prop := 0 <= z < 4294967296.
Definition regs_ok (r : regs) : Prop :=
  let '(a, b, c, d) := r in is_u32 a /\ is_u32 b /\ is_u32 c /\ is_u32 d.

(** The reference replaces [a] and then renames the registers. *)
Definition rotated_step (new : nat -> bytes -> Z -> Z -> Z -> Z -> Z)
    (x : bytes) (r : regs) (j : nat) : regs :=
  let '(a, b, c, d) := r in (d, new j x a b c d, b, c).

Definition rotate_regs (r : regs) : regs := let '(a, b, c, d) := r in (d, a, b, c).

Fixpoint rotate_by (n : nat) (r : regs) : regs :=
  match n with O => r | S n => rotate_regs (rotate_by n r) end.

Lemma rotate_by_add n m r : rotate_by (n + m) r = rotate_by n (rotate_by m r).
Proof. induction n as [|n IH]; simpl; [done|by rewrite IH]. Qed.

Lemma rotate_by_mod n r : rotate_by n r = rotate_by (n mod 4) r.
Proof.
  assert (H : forall q r', rotate_by (q * 4) r' = r').
  { induction q as [|q IH]; intros r'; [done|]. cbn [Nat.mul].
    rewrite rotate_by_add, IH. by destruct r' as [[[a b] c] d]. }
  pose proof (Nat.div_mod_eq n 4) as E. rewrite E at 1.
  by rewrite Nat.add_comm, Nat.mul_comm, rotate_by_add, H.
Qed.

Lemma init_regs_ok : regs_ok init_regs.
Proof. unfold regs_ok, init_regs, is_u32. lia. Qed.

(** The register the [j]-th step replaces. *)
Definition cycle (j : nat) : reg :=
  match (j mod 4)%nat with 0%nat => RA | 1%nat => RD | 2%nat => RC | _ => RB end.

Section Steps.
Context {I : Type} (target : I -> reg) (step : I -> bytes -> Z -> Z -> Z -> Z -> Z).

Definition exec (x : bytes) (r : regs) (i : I) : regs :=
  let '(a, b, c, d) := r in
  match target i with
  | RA => (step i x a b c d, b, c, d)
  | RD => (a, b, c, step i x d a b c)
  | RC => (a, b, step i x c d a b, d)
  | RB => (a, step i x b c d a, c, d)
  end.

Context (new : nat -> bytes -> Z -> Z -> Z -> Z -> Z).

(** Line [i] of the code is step [j] of the reference. *)
Definition simulates (i : I) (j : nat) : Prop :=
  target i = cycle j
  /\ forall x a b c d, is_u32 a -> is_u32 b -> is_u32 c -> is_u32 d ->
       step i x a b c d = new j x a b c d /\ is_u32 (step i x a b c d).

Lemma exec_ok x r i j : simulates i j -> regs_ok r -> regs_ok (exec x r i).
Proof.
  destruct r as [[[a b] c] d]. intros [_ Hs] (? & ? & ? & ?). unfold exec.
  destruct (target i); unfold regs_ok; split_and!; try done; by apply Hs.
Qed.

Lemma exec_rotated x r i j :
  simulates i j -> regs_ok r ->
  rotate_by (S j) (exec x r i) = rotated_step new x (rotate_by j r) j.
Proof.
  intros [Ht Hs] Hr. rewrite (rotate_by_mod j). cbn [rotate_by].
  rewrite (rotate_by_mod j). destruct r as [[[a b] c] d].
  destruct Hr as (? & ? & ? & ?). unfold exec. rewrite Ht. unfold cycle.
  pose proof (Nat.mod_upper_bound j 4 ltac:(lia)).
  destruct (j mod 4)%nat as [|[|[|[|]]]]; try lia; simpl;
    do 3 f_equal; by apply Hs.
Qed.

(** The unrolled code computes what the rotating loop computes. *)
Lemma exec_all x r l j :
  regs_ok r -> Forall2 simulates l (seq j (length l)) ->
  regs_ok (fold_left (exec x) l r)
  /\ rotate_by (j + length l) (fold_left (exec x) l r)
     = fold_left (rotated_step new x) (seq j (length l)) (rotate_by j r).
Proof.
  revert r j. induction l as [|i l IH]; intros r j Hr Hl.
  { simpl. by rewrite Nat.add_0_r. }
  apply Forall2_cons in Hl as [Hi Hl]. cbn [fold_left length seq].
  destruct (IH (exec x r i) (S j)) as [Hok E]; [by eapply exec_ok|done|].
  split; [done|]. rewrite Nat.add_succ_r, <- Nat.add_succ_l, E. f_equal.
  by apply exec_rotated.
Qed.

End Steps.

Lemma rotl_arith a s :
  is_u32 a -> 0 < s < 32 -> rotl a s = u32 (a * 2 ^ s) + a `div` 2 ^ (32 - s).
Proof.
  intros Ha Hs. unfold rotl, is_u32 in *.
  rewrite (land_mask 32) by done. change (2 ^ 32) with 4294967296.
  rewrite Z.mod_small, Z.shiftr_div_pow2, Z.shiftl_mul_pow2 by lia.
  set (q := a `div` 2 ^ (32 - s)).
  assert (Hp : 2 ^ s * 2 ^ (32 - s) = 4294967296).
  { rewrite <- Z.pow_add_r by lia. by replace (s + (32 - s)) with 32 by lia. }
  assert (0 < 2 ^ s) by (apply Z.pow_pos_nonneg; lia).
  assert (0 < 2 ^ (32 - s)) by (apply Z.pow_pos_nonneg; lia).
  assert (Hq : 0 <= q < 2 ^ s).
  { unfold q. split; [apply Z.div_pos; lia|]. apply Z.div_lt_upper_bound; lia. }
  assert (Hm : u32 (a * 2 ^ s) = 2 ^ s * (a `mod` 2 ^ (32 - s))).
  { unfold u32. rewrite <- Hp, Z.mul_comm. rewrite Z.mul_mod_distr_l by lia. done. }
  rewrite Hm. apply Z.bits_inj'. intros i Hi.
  rewrite Z.mul_comm, <- Z.shiftl_mul_pow2 by lia. rewrite Z.lor_spec.
  rewrite Z.add_nocarry_lxor.
  - rewrite Z.lxor_spec. destruct (Z.lt_ge_cases i s).
    + rewrite Z.shiftl_spec_low by lia. by destruct (Z.testbit q i).
    + rewrite (testbit_above s q i) by lia. by destruct (Z.testbit (_ ≪ _) i).
  - apply Z.bits_inj'. intros k Hk. rewrite Z.land_spec, Z.bits_0.
    destruct (Z.lt_ge_cases k s).
    + by rewrite Z.shiftl_spec_low by lia.
    + rewrite (testbit_above s q k) by lia. apply andb_false_r.
Qed.

Lemma lor_u32 x y : is_u32 x -> is_u32 y -> is_u32 (Z.lor x y).
Proof.
  unfold is_u32. intros Hx Hy. split; [apply Z.lor_nonneg; lia|].
  destruct (Z.eq_dec (Z.lor x y) 0) as [->|]; [lia|].
  apply (Z.log2_lt_pow2 _ 32).
  - pose proof (proj2 (Z.lor_nonneg x y)). lia.
  - rewrite Z.log2_lor by lia.
    assert (forall z, 0 <= z < 4294967296 -> Z.log2 z < 32).
    { intros z Hz. destruct (Z.eq_dec z 0) as [->|]; [simpl; lia|].
      apply Z.log2_lt_pow2; lia. }
    apply Z.max_lub_lt; auto.
Qed.

Lemma rotl_u32 a s : is_u32 a -> 0 < s < 32 -> is_u32 (rotl a s).
Proof.
  intros Ha Hs. unfold rotl. apply lor_u32; [apply u32_range|].
  rewrite (land_mask 32) by done. change (2 ^ 32) with 4294967296.
  unfold is_u32 in *. rewrite Z.mod_small, Z.shiftr_div_pow2 by lia.
  assert (0 < 2 ^ (32 - s)) by (apply Z.pow_pos_nonneg; lia).
  split; [apply Z.div_pos; lia|]. apply Z.div_lt_upper_bound; nia.
Qed.

(** Block functions that agree on 32-bit registers give the same digest. *)
Lemma hash_spec_ext f g msg :
  (forall r x, regs_ok r -> f r x = g r x /\ regs_ok (f r x)) ->
  hash_spec f msg = hash_spec g msg.
Proof.
  intros Hfg. unfold hash_spec. f_equal. pose proof init_regs_ok as Hr.
  generalize (length (pad msg) / 64)%nat. intros n. revert Hr.
  generalize init_regs, (pad msg). induction n as [|n IH]; intros r l Hr; [done|].
  cbn [absorb]. destruct (Hfg r (take 64 l) Hr) as [<- Hok]. by apply IH.
Qed.

(** Bitwise identities on words: unfolded to the bits. *)
Ltac bitwise :=
  let i := fresh "i" in let Hi := fresh "Hi" in
  apply Z.bits_inj'; intros i Hi;
  repeat (rewrite Z.lxor_spec || rewrite Z.land_spec || rewrite Z.lor_spec).

Lemma testbit_not32 z i :
  is_u32 z -> 0 <= i ->
  Z.testbit (u32 (Z.lnot z)) i = (i <? 32) && negb (Z.testbit z i).
Proof.
  intros Hz Hi. unfold u32. change 4294967296 with (2 ^ 32).
  destruct (Z.ltb_spec i 32).
  - by rewrite Z.mod_pow2_bits_low, Z.lnot_spec by lia.
  - by rewrite Z.mod_pow2_bits_high by lia.
Qed.

End Mdx.
