(* ===== verification/Md4.v ===== *)
(** MD4: contrib/mdx/md4.c and contrib/mdx/md4.h.

    As for MD5, the STEP lines of [body] are a table, executed on one 64-byte
    block by [block]; the reference is the loop of RFC 1320. *)

From S2P Require Import Prelude Mdx.

Module Md4.
Import Mdx.

(** The macros F, G and H. *)
Definition F (x y z : Z) : Z := Z.lxor z (Z.land x (Z.lxor y z)).
Definition G (x y z : Z) : Z := Z.lor (Z.land x (Z.lor y z)) (Z.land y z).
Definition H (x y z : Z) : Z := Z.lxor (Z.lxor x y) z.

Inductive fname := FF | FG | FH.
Definition fn (f : fname) : Z -> Z -> Z -> Z :=
  match f with FF => F | FG => G | FH => H end.

(** A line [STEP(f, r, ..., GET(k) + t, s)]. *)
Record step := Step { s_fn : fname; s_reg : reg; s_k : nat; s_t : Z; s_s : Z }.

(** The value the macro assigns to its first register. *)
Definition STEP (i : step) (x : bytes) (a b c d : Z) : Z :=
  let a := u32 (a + (fn (s_fn i) b c d + u32 (word_of x (s_k i) + s_t i))) in
  rotl a (s_s i).

Definition round1 : list step := [
   Step FF RA 0 0 3;
   Step FF RD 1 0 7;
   Step FF RC 2 0 11;
   Step FF RB 3 0 19;
   Step FF RA 4 0 3;
   Step FF RD 5 0 7;
   Step FF RC 6 0 11;
   Step FF RB 7 0 19;
   Step FF RA 8 0 3;
   Step FF RD 9 0 7;
   Step FF RC 10 0 11;
   Step FF RB 11 0 19;
   Step FF RA 12 0 3;
   Step FF RD 13 0 7;
   Step FF RC 14 0 11;
   Step FF RB 15 0 19
].

Definition round2 : list step := [
   Step FG RA 0 0x5a827999 3;
   Step FG RD 4 0x5a827999 5;
   Step FG RC 8 0x5a827999 9;
   Step FG RB 12 0x5a827999 13;
   Step FG RA 1 0x5a827999 3;
   Step FG RD 5 0x5a827999 5;
   Step FG RC 9 0x5a827999 9;
   Step FG RB 13 0x5a827999 13;
   Step FG RA 2 0x5a827999 3;
   Step FG RD 6 0x5a827999 5;
   Step FG RC 10 0x5a827999 9;
   Step FG RB 14 0x5a827999 13;
   Step FG RA 3 0x5a827999 3;
   Step FG RD 7 0x5a827999 5;
   Step FG RC 11 0x5a827999 9;
   Step FG RB 15 0x5a827999 13
].

Definition round3 : list step := [
   Step FH RA 0 0x6ed9eba1 3;
   Step FH RD 8 0x6ed9eba1 9;
   Step FH RC 4 0x6ed9eba1 11;
   Step FH RB 12 0x6ed9eba1 15;
   Step FH RA 2 0x6ed9eba1 3;
   Step FH RD 10 0x6ed9eba1 9;
   Step FH RC 6 0x6ed9eba1 11;
   Step FH RB 14 0x6ed9eba1 15;
   Step FH RA 1 0x6ed9eba1 3;
   Step FH RD 9 0x6ed9eba1 9;
   Step FH RC 5 0x6ed9eba1 11;
   Step FH RB 13 0x6ed9eba1 15;
   Step FH RA 3 0x6ed9eba1 3;
   Step FH RD 11 0x6ed9eba1 9;
   Step FH RC 7 0x6ed9eba1 11;
   Step FH RB 15 0x6ed9eba1 15
].

Definition steps : list step := round1 ++ round2 ++ round3.

(** One iteration of the loop of [body]. *)
Definition block (r : regs) (x : bytes) : regs :=
  let '(saved_a, saved_b, saved_c, saved_d) := r in
  let '(a, b, c, d) := fold_left (exec s_reg STEP x) steps r in
  (u32 (a + saved_a), u32 (b + saved_b), u32 (c + saved_c), u32 (d + saved_d)).

Definition MD4_Init : ctx -> ctx := init.
Definition MD4_Update : ctx -> bytes -> Z -> outcome ctx := update block.
Definition MD4_Final : ctx -> outcome (bytes * ctx) := final block.

(** * Reference: RFC 1320 *)

Definition rfc_not (z : Z) : Z := u32 (Z.lnot z).
Definition rfc_F (x y z : Z) : Z := Z.lor (Z.land x y) (Z.land (rfc_not x) z).
Definition rfc_G (x y z : Z) : Z :=
  Z.lor (Z.lor (Z.land x y) (Z.land x z)) (Z.land y z).
Definition rfc_H (x y z : Z) : Z := Z.lxor x (Z.lxor y z).

Definition rfc_fn (i : nat) : Z -> Z -> Z -> Z :=
  match (i / 16)%nat with 0%nat => rfc_F | 1%nat => rfc_G | _ => rfc_H end.

(** Round 3 takes the words in bit-reversed order. *)
Definition rfc_index (i : nat) : nat :=
  (match i / 16 with
   | 0 => i | 1 => (i mod 4) * 4 + (i / 4) mod 4
   | _ => nth (i mod 16) [0; 8; 4; 12; 2; 10; 6; 14; 1; 9; 5; 13; 3; 11; 7; 15] 0
   end)%nat.

Definition rfc_shift (i : nat) : Z :=
  nth (i mod 4) (nth (i / 16) [[3; 7; 11; 19]; [3; 5; 9; 13]; [3; 9; 11; 15]] []) 0.

Definition rfc_const (i : nat) : Z :=
  match (i / 16)%nat with 0%nat => 0 | 1%nat => 0x5a827999 | _ => 0x6ed9eba1 end.

Definition rfc_new (i : nat) (x : bytes) (a b c d : Z) : Z :=
  let w := u32 (a + rfc_fn i b c d + word_of x (rfc_index i) + rfc_const i) in
  u32 (w * 2 ^ rfc_shift i) + w `div` 2 ^ (32 - rfc_shift i).

Definition rfc_block (r : regs) (x : bytes) : regs :=
  let '(aa, bb, cc, dd) := r in
  let '(a, b, c, d) := fold_left (rotated_step rfc_new x) (seq 0 48) r in
  (u32 (a + aa), u32 (b + bb), u32 (c + cc), u32 (d + dd)).

(** * The optimised round functions are those of the RFC *)

Lemma md4_F_rfc x y z : is_u32 x -> is_u32 z -> F x y z = rfc_F x y z.
Proof.
  intros Hx Hz. unfold F, rfc_F, rfc_not. bitwise. rewrite testbit_not32 by done.
  destruct (Z.ltb_spec i 32).
  - by destruct (Z.testbit x i), (Z.testbit y i), (Z.testbit z i).
  - rewrite (testbit_above 32 z i), (testbit_above 32 x i) by (unfold is_u32 in *; lia).
    by destruct (Z.testbit y i).
Qed.

Lemma md4_G_rfc x y z : G x y z = rfc_G x y z.
Proof.
  unfold G, rfc_G. bitwise.
  by destruct (Z.testbit x i), (Z.testbit y i), (Z.testbit z i).
Qed.

Lemma md4_H_rfc x y z : H x y z = rfc_H x y z.
Proof. unfold H, rfc_H. by rewrite Z.lxor_assoc. Qed.

(** [fn f] is the function of step [j]. *)
Definition same_fn (f : fname) (j : nat) : bool :=
  match f, (j / 16)%nat with
  | FF, 0%nat | FG, 1%nat | FH, 2%nat => true
  | _, _ => false
  end.

Lemma md4_same_fn_rfc f j b c d :
  same_fn f j = true -> is_u32 b -> is_u32 c -> is_u32 d ->
  fn f b c d = rfc_fn j b c d.
Proof.
  unfold same_fn, rfc_fn. intros Hf Hb Hc Hd.
  destruct f, (j / 16)%nat as [|[|[|]]]; try done; simpl;
    auto using md4_F_rfc, md4_G_rfc, md4_H_rfc.
Qed.

(** The fields of line [i] are those of step [j] (a decidable check). *)
Definition same_step (i : step) (j : nat) : bool :=
  same_fn (s_fn i) j && (Nat.eqb (s_k i) (rfc_index j)) && (s_t i =? rfc_const j)
  && (s_s i =? rfc_shift j) && (0 <? s_s i) && (s_s i <? 32)
  && match s_reg i, cycle j with
     | RA, RA | RB, RB | RC, RC | RD, RD => true | _, _ => false end.

Lemma md4_same_step_simulates i j :
  same_step i j = true -> simulates s_reg STEP rfc_new i j.
Proof.
  unfold same_step. rewrite !andb_true_iff, !Z.eqb_eq, Nat.eqb_eq, !Z.ltb_lt.
  intros [[[[[[Hf Hk] Ht] Hs] Hs0] Hs1] Hr]. split.
  - by destruct (s_reg i), (cycle j).
  - intros x a b c d Ha Hb Hc Hd.
    assert (E : u32 (a + (fn (s_fn i) b c d + u32 (word_of x (s_k i) + s_t i)))
                = u32 (a + rfc_fn j b c d + word_of x (rfc_index j) + rfc_const j)).
    { rewrite (md4_same_fn_rfc _ j), Hk, Ht by done. widths. zdiv. }
    unfold STEP, rfc_new. rewrite E, rotl_arith, Hs by (apply u32_range || lia).
    split; [done|]. rewrite <- rotl_arith by (apply u32_range || lia).
    by apply rotl_u32; [apply u32_range|lia].
Qed.

Lemma md4_steps_rfc : Forall2 (simulates s_reg STEP rfc_new) steps (seq 0 48).
Proof. repeat (constructor; [by apply md4_same_step_simulates|]). constructor. Qed.

Lemma md4_block_rfc r x : regs_ok r -> block r x = rfc_block r x /\ regs_ok (block r x).
Proof.
  intros Hr. destruct (exec_all s_reg STEP rfc_new x r steps 0 Hr md4_steps_rfc) as [_ E].
  rewrite rotate_by_mod in E. unfold block, rfc_block.
  change (length steps) with 48%nat in E. change ((0 + 48) mod 4)%nat with 0%nat in E.
  cbn [rotate_by] in E. rewrite E. destruct r as [[[sa sb] sc] sd].
  destruct (fold_left _ (seq 0 48) _) as [[[a b] c] d].
  split; [done|]. unfold regs_ok. split_and!; apply u32_range.
Qed.

(** The digest of RFC 1320: padding, the rotating loop, the registers. *)
Definition md4_spec (msg : bytes) : bytes := hash_spec rfc_block msg.

(** Initialise, feed the chunks, finish. *)
Definition md4_stream (c : ctx) (chunks : list bytes) : outcome (bytes * ctx) :=
  let* c := updates block (MD4_Init c) chunks in MD4_Final c.

(** For any context and any division of a message into chunks (each
    shorter than 2^64), [MD4_Init], one [MD4_Update] per chunk and [MD4_Final]
    stay inside the context buffer and give the RFC 1320 digest of the
    concatenation; the context is left zeroed. *)
Theorem md4_stream_correct c chunks :
  length (buffer c) = 64%nat ->
  Forall (fun d => zlen d < 18446744073709551616) chunks ->
  md4_stream c chunks
  = Done (md4_spec (concat chunks), Ctx 0 0 (0, 0, 0, 0) (replicate 64 0)).
Proof.
  intros Hb Hs. unfold md4_stream, md4_spec, MD4_Init, MD4_Final.
  rewrite streaming_spec by done.
  by rewrite (hash_spec_ext block rfc_block) by apply md4_block_rfc.
Qed.

Definition md4_ctx0 : ctx := Ctx 7 7 (1, 2, 3, 4) (replicate 64 165).

Lemma md4_stream_correct_witness :
  md4_stream md4_ctx0 [[97]; []; [98; 99]]
  = Done (md4_spec [97; 98; 99], Ctx 0 0 (0, 0, 0, 0) (replicate 64 0)).
Proof. apply (md4_stream_correct md4_ctx0 [[97]; []; [98; 99]]); [done|by repeat constructor]. Defined.

(** RFC 1320, A.5: MD4 ("abc"). *)
Example md4_abc : le_word (rev (md4_spec [97; 98; 99])) = 0xa448017aaf21d8525fc10ae87aa6729d.
Proof. vm_compute. reflexivity. Qed.

End Md4.
