(* ===== verification/Md5.v ===== *)
(** MD5: contrib/mdx/md5.c and contrib/mdx/md5.h.

    The STEP lines of [body] are the table [steps]; [block] executes them on
    one 64-byte block. The reference is the loop of RFC 1321 with its own
    definitions of the round functions, the message index and the shifts. *)

From S2P Require Import Prelude Mdx.

Module Md5.
Import Mdx.

(** The macros F, G, H, H2 and I on 32-bit words. *)
Definition not32 (z : Z) : Z := u32 (Z.lnot z).
Definition F (x y z : Z) : Z := Z.lxor z (Z.land x (Z.lxor y z)).
Definition G (x y z : Z) : Z := Z.lxor y (Z.land z (Z.lxor x y)).
Definition H (x y z : Z) : Z := Z.lxor (Z.lxor x y) z.
Definition H2 (x y z : Z) : Z := Z.lxor x (Z.lxor y z).
Definition I (x y z : Z) : Z := Z.lxor y (Z.lor x (not32 z)).

Inductive fname := FF | FG | FH | FH2 | FI.
Definition fn (f : fname) : Z -> Z -> Z -> Z :=
  match f with FF => F | FG => G | FH => H | FH2 => H2 | FI => I end.

(** A line [STEP(f, r, ..., GET(k), t, s)]. *)
Record step := Step { s_fn : fname; s_reg : reg; s_k : nat; s_t : Z; s_s : Z }.

(** The value the macro assigns to its first register. *)
Definition STEP (i : step) (x : bytes) (a b c d : Z) : Z :=
  let a := u32 (a + (fn (s_fn i) b c d + word_of x (s_k i) + s_t i)) in
  let a := rotl a (s_s i) in
  u32 (a + b).

Definition round1 : list step := [
   Step FF RA 0 0xd76aa478 7;
   Step FF RD 1 0xe8c7b756 12;
   Step FF RC 2 0x242070db 17;
   Step FF RB 3 0xc1bdceee 22;
   Step FF RA 4 0xf57c0faf 7;
   Step FF RD 5 0x4787c62a 12;
   Step FF RC 6 0xa8304613 17;
   Step FF RB 7 0xfd469501 22;
   Step FF RA 8 0x698098d8 7;
   Step FF RD 9 0x8b44f7af 12;
   Step FF RC 10 0xffff5bb1 17;
   Step FF RB 11 0x895cd7be 22;
   Step FF RA 12 0x6b901122 7;
   Step FF RD 13 0xfd987193 12;
   Step FF RC 14 0xa679438e 17;
   Step FF RB 15 0x49b40821 22
].

Definition round2 : list step := [
   Step FG RA 1 0xf61e2562 5;
   Step FG RD 6 0xc040b340 9;
   Step FG RC 11 0x265e5a51 14;
   Step FG RB 0 0xe9b6c7aa 20;
   Step FG RA 5 0xd62f105d 5;
   Step FG RD 10 0x02441453 9;
   Step FG RC 15 0xd8a1e681 14;
   Step FG RB 4 0xe7d3fbc8 20;
   Step FG RA 9 0x21e1cde6 5;
   Step FG RD 14 0xc33707d6 9;
   Step FG RC 3 0xf4d50d87 14;
   Step FG RB 8 0x455a14ed 20;
   Step FG RA 13 0xa9e3e905 5;
   Step FG RD 2 0xfcefa3f8 9;
   Step FG RC 7 0x676f02d9 14;
   Step FG RB 12 0x8d2a4c8a 20
].

Definition round3 : list step := [
   Step FH RA 5 0xfffa3942 4;
   Step FH2 RD 8 0x8771f681 11;
   Step FH RC 11 0x6d9d6122 16;
   Step FH2 RB 14 0xfde5380c 23;
   Step FH RA 1 0xa4beea44 4;
   Step FH2 RD 4 0x4bdecfa9 11;
   Step FH RC 7 0xf6bb4b60 16;
   Step FH2 RB 10 0xbebfbc70 23;
   Step FH RA 13 0x289b7ec6 4;
   Step FH2 RD 0 0xeaa127fa 11;
   Step FH RC 3 0xd4ef3085 16;
   Step FH2 RB 6 0x04881d05 23;
   Step FH RA 9 0xd9d4d039 4;
   Step FH2 RD 12 0xe6db99e5 11;
   Step FH RC 15 0x1fa27cf8 16;
   Step FH2 RB 2 0xc4ac5665 23
].

Definition round4 : list step := [
   Step FI RA 0 0xf4292244 6;
   Step FI RD 7 0x432aff97 10;
   Step FI RC 14 0xab9423a7 15;
   Step FI RB 5 0xfc93a039 21;
   Step FI RA 12 0x655b59c3 6;
   Step FI RD 3 0x8f0ccc92 10;
   Step FI RC 10 0xffeff47d 15;
   Step FI RB 1 0x85845dd1 21;
   Step FI RA 8 0x6fa87e4f 6;
   Step FI RD 15 0xfe2ce6e0 10;
   Step FI RC 6 0xa3014314 15;
   Step FI RB 13 0x4e0811a1 21;
   Step FI RA 4 0xf7537e82 6;
   Step FI RD 11 0xbd3af235 10;
   Step FI RC 2 0x2ad7d2bb 15;
   Step FI RB 9 0xeb86d391 21
].

Definition steps : list step := round1 ++ round2 ++ round3 ++ round4.

(** One iteration of the loop of [body]. *)
Definition block (r : regs) (x : bytes) : regs :=
  let '(saved_a, saved_b, saved_c, saved_d) := r in
  let '(a, b, c, d) := fold_left (exec s_reg STEP x) steps r in
  (u32 (a + saved_a), u32 (b + saved_b), u32 (c + saved_c), u32 (d + saved_d)).

Definition MD5_Init : ctx -> ctx := init.
Definition MD5_Update : ctx -> bytes -> Z -> outcome ctx := update block.
Definition MD5_Final : ctx -> outcome (bytes * ctx) := final block.

(** * Reference: RFC 1321 *)

Definition rfc_F (x y z : Z) : Z := Z.lor (Z.land x y) (Z.land (not32 x) z).
Definition rfc_G (x y z : Z) : Z := Z.lor (Z.land x z) (Z.land y (not32 z)).
Definition rfc_H (x y z : Z) : Z := Z.lxor x (Z.lxor y z).
Definition rfc_I (x y z : Z) : Z := Z.lxor y (Z.lor x (not32 z)).

Definition rfc_fn (i : nat) : Z -> Z -> Z -> Z :=
  match (i / 16)%nat with
  | 0%nat => rfc_F | 1%nat => rfc_G | 2%nat => rfc_H | _ => rfc_I
  end.

Definition rfc_index (i : nat) : nat :=
  (match i / 16 with
   | 0 => i | 1 => (5 * i + 1) mod 16 | 2 => (3 * i + 5) mod 16
   | _ => (7 * i) mod 16
   end)%nat.

Definition rfc_shift (i : nat) : Z :=
  nth (i mod 4) (nth (i / 16)
    [[7; 12; 17; 22]; [5; 9; 14; 20]; [4; 11; 16; 23]; [6; 10; 15; 21]] []) 0.

(** The table T of the RFC: floor (2^32 * |sin (i + 1)|). *)
Definition rfc_T : list Z := [
   0xd76aa478; 0xe8c7b756; 0x242070db; 0xc1bdceee;
   0xf57c0faf; 0x4787c62a; 0xa8304613; 0xfd469501;
   0x698098d8; 0x8b44f7af; 0xffff5bb1; 0x895cd7be;
   0x6b901122; 0xfd987193; 0xa679438e; 0x49b40821;
   0xf61e2562; 0xc040b340; 0x265e5a51; 0xe9b6c7aa;
   0xd62f105d; 0x02441453; 0xd8a1e681; 0xe7d3fbc8;
   0x21e1cde6; 0xc33707d6; 0xf4d50d87; 0x455a14ed;
   0xa9e3e905; 0xfcefa3f8; 0x676f02d9; 0x8d2a4c8a;
   0xfffa3942; 0x8771f681; 0x6d9d6122; 0xfde5380c;
   0xa4beea44; 0x4bdecfa9; 0xf6bb4b60; 0xbebfbc70;
   0x289b7ec6; 0xeaa127fa; 0xd4ef3085; 0x04881d05;
   0xd9d4d039; 0xe6db99e5; 0x1fa27cf8; 0xc4ac5665;
   0xf4292244; 0x432aff97; 0xab9423a7; 0xfc93a039;
   0x655b59c3; 0x8f0ccc92; 0xffeff47d; 0x85845dd1;
   0x6fa87e4f; 0xfe2ce6e0; 0xa3014314; 0x4e0811a1;
   0xf7537e82; 0xbd3af235; 0x2ad7d2bb; 0xeb86d391
].

Definition rfc_new (i : nat) (x : bytes) (a b c d : Z) : Z :=
  let w := u32 (a + rfc_fn i b c d + word_of x (rfc_index i) + nth i rfc_T 0) in
  u32 (b + (u32 (w * 2 ^ rfc_shift i) + w `div` 2 ^ (32 - rfc_shift i))).

Definition rfc_block (r : regs) (x : bytes) : regs :=
  let '(aa, bb, cc, dd) := r in
  let '(a, b, c, d) := fold_left (rotated_step rfc_new x) (seq 0 64) r in
  (u32 (a + aa), u32 (b + bb), u32 (c + cc), u32 (d + dd)).

(** * The optimised round functions are those of the RFC *)

Lemma md5_F_rfc x y z : is_u32 x -> is_u32 z -> F x y z = rfc_F x y z.
Proof.
  intros Hx Hz. unfold F, rfc_F, not32. bitwise. rewrite testbit_not32 by done.
  destruct (Z.ltb_spec i 32).
  - by destruct (Z.testbit x i), (Z.testbit y i), (Z.testbit z i).
  - rewrite (testbit_above 32 z i), (testbit_above 32 x i) by (unfold is_u32 in *; lia).
    by destruct (Z.testbit y i).
Qed.

Lemma md5_G_rfc x y z : is_u32 y -> is_u32 z -> G x y z = rfc_G x y z.
Proof.
  intros Hy Hz. unfold G, rfc_G, not32. bitwise. rewrite testbit_not32 by done.
  destruct (Z.ltb_spec i 32).
  - by destruct (Z.testbit x i), (Z.testbit y i), (Z.testbit z i).
  - rewrite (testbit_above 32 y i), (testbit_above 32 z i) by (unfold is_u32 in *; lia).
    by destruct (Z.testbit x i).
Qed.

Lemma md5_H_rfc x y z : H x y z = rfc_H x y z.
Proof. unfold H, rfc_H. by rewrite Z.lxor_assoc. Qed.

(** [fn f] is the function of step [j]. *)
Definition same_fn (f : fname) (j : nat) : bool :=
  match f, (j / 16)%nat with
  | FF, 0%nat | FG, 1%nat | FH, 2%nat | FH2, 2%nat | FI, 3%nat => true
  | _, _ => false
  end.

Lemma md5_same_fn_rfc f j b c d :
  same_fn f j = true -> is_u32 b -> is_u32 c -> is_u32 d ->
  fn f b c d = rfc_fn j b c d.
Proof.
  unfold same_fn, rfc_fn. intros Hf Hb Hc Hd.
  destruct f, (j / 16)%nat as [|[|[|[|]]]]; try done; simpl;
    auto using md5_F_rfc, md5_G_rfc, md5_H_rfc.
Qed.

(** The fields of line [i] are those of step [j] (a decidable check). *)
Definition same_step (i : step) (j : nat) : bool :=
  same_fn (s_fn i) j && (Nat.eqb (s_k i) (rfc_index j)) && (s_t i =? nth j rfc_T 0)
  && (s_s i =? rfc_shift j) && (0 <? s_s i) && (s_s i <? 32)
  && match s_reg i, cycle j with
     | RA, RA | RB, RB | RC, RC | RD, RD => true | _, _ => false end.

Lemma md5_same_step_simulates i j :
  same_step i j = true -> simulates s_reg STEP rfc_new i j.
Proof.
  unfold same_step. rewrite !andb_true_iff, !Z.eqb_eq, Nat.eqb_eq, !Z.ltb_lt.
  intros [[[[[[Hf Hk] Ht] Hs] Hs0] Hs1] Hr]. split.
  - by destruct (s_reg i), (cycle j).
  - intros x a b c d Ha Hb Hc Hd. split; [|apply u32_range].
    unfold STEP, rfc_new. rewrite (md5_same_fn_rfc _ j), Hk, Ht by done.
    rewrite rotl_arith by (apply u32_range || lia). rewrite Hs.
    rewrite (Z.add_comm _ b), !Z.add_assoc. done.
Qed.

Lemma md5_steps_rfc : Forall2 (simulates s_reg STEP rfc_new) steps (seq 0 64).
Proof. repeat (constructor; [by apply md5_same_step_simulates|]). constructor. Qed.

Lemma md5_block_rfc r x : regs_ok r -> block r x = rfc_block r x /\ regs_ok (block r x).
Proof.
  intros Hr. destruct (exec_all s_reg STEP rfc_new x r steps 0 Hr md5_steps_rfc) as [_ E].
  rewrite rotate_by_mod in E. unfold block, rfc_block.
  change (length steps) with 64%nat in E. change ((0 + 64) mod 4)%nat with 0%nat in E.
  cbn [rotate_by] in E. rewrite E. destruct r as [[[sa sb] sc] sd].
  destruct (fold_left _ (seq 0 64) _) as [[[a b] c] d].
  split; [done|]. unfold regs_ok. split_and!; apply u32_range.
Qed.

(** The digest of RFC 1321: padding, the rotating loop, the registers. *)
Definition md5_spec (msg : bytes) : bytes := hash_spec rfc_block msg.

(** Initialise, feed the chunks, finish. *)
Definition md5_stream (c : ctx) (chunks : list bytes) : outcome (bytes * ctx) :=
  let* c := updates block (MD5_Init c) chunks in MD5_Final c.

(** C31. For any context and any division of a message into chunks (each
    shorter than 2^64), [MD5_Init], one [MD5_Update] per chunk and [MD5_Final]
    stay inside the context buffer and give the RFC 1321 digest of the
    concatenation; the context is left zeroed. *)
Theorem md5_stream_correct c chunks :
  length (buffer c) = 64%nat ->
  Forall (fun d => zlen d < 18446744073709551616) chunks ->
  md5_stream c chunks
  = Done (md5_spec (concat chunks), Ctx 0 0 (0, 0, 0, 0) (replicate 64 0)).
Proof.
  intros Hb Hs. unfold md5_stream, md5_spec, MD5_Init, MD5_Final.
  rewrite streaming_spec by done.
  by rewrite (hash_spec_ext block rfc_block) by apply md5_block_rfc.
Qed.

Definition md5_ctx0 : ctx := Ctx 7 7 (1, 2, 3, 4) (replicate 64 165).

Lemma md5_stream_correct_witness :
  md5_stream md5_ctx0 [[97]; []; [98; 99]]
  = Done (md5_spec [97; 98; 99], Ctx 0 0 (0, 0, 0, 0) (replicate 64 0)).
Proof. apply (md5_stream_correct md5_ctx0 [[97]; []; [98; 99]]); [done|by repeat constructor]. Defined.

(** RFC 1321, A.5: MD5 ("abc"). *)
Example md5_abc : le_word (rev (md5_spec [97; 98; 99])) = 0x900150983cd24fb0d6963f7d28e17f72.
Proof. vm_compute. reflexivity. Qed.

End Md5.
