(* ===== verification/World.v ===== *)
(** What the code sees of the operating system: the allocator, uninitialised
    memory, random words, sockets.

    The answers of the system are data of the [world]; a theorem that holds
    for every world holds for every behaviour of the system. Allocation
    failures, descriptor errors and the like are the answers of [w_coin],
    numbers the system chooses (random words, the time, descriptors) those of
    [w_pick], the contents of uninitialised memory those of [w_junk]; the
    counter [w_tick] selects the next answer. [w_events] is what [select(2)]
    reports, one event per call; after the last event the process waits
    ([Blocked]). A byte written to the abort pipe is never read: [w_aborted]
    says that it is there, and [select] then reports it. [w_rx] is the byte stream the peer of a TCP connection sends,
    [w_tx] what was sent, oldest first. *)

From S2P Require Import Prelude.

(** What one call of [select] reports about the descriptors of its sets. *)
Inductive event :=
| EvError                                  (* select returns -1 *)
| EvAbort                                  (* the abort pipe is readable *)
| EvNone                                   (* neither descriptor is set *)
| EvReady (n : Z)                          (* the socket is ready; the call that
                                              follows transfers at most [n]
                                              bytes, or fails if [n < 0] *)
| EvDatagram (ip : Z) (data : bytes).      (* a datagram from [ip] *)

(** What was handed to send(2) and sendto(2). *)
Inductive sent :=
| Stream (data : bytes)
| Datagram (ip : Z) (data : bytes).

Record world := World {
  w_coin : nat -> bool;
  w_pick : nat -> Z;
  w_junk : nat -> nat -> Z;
  w_tick : nat;
  w_events : list event;
  w_aborted : bool;
  w_rx : bytes;
  w_tx : list sent
}.

(** Code that uses the system: a state and outcome monad over the world. *)
Definition io (A : Type) : Type := world -> outcome (A * world).

#[global] Instance io_ret : MRet io := fun A a w => Done (a, w).
#[global] Instance io_bind : MBind io :=
  fun A B k m w => let* (a, w) := m w in k a w.

(** Results of pure checked code. *)
Definition lift {A} (m : outcome A) : io A := fun w => let* a := m in Done (a, w).
Definition access {A} (o : option A) : io A := lift (checked o).
Definition require (b : bool) : io unit := lift (assert b).

Definition set_tick (w : world) (t : nat) : world :=
  World (w_coin w) (w_pick w) (w_junk w) t (w_events w) (w_aborted w) (w_rx w) (w_tx w).
Definition set_events (w : world) (l : list event) : world :=
  World (w_coin w) (w_pick w) (w_junk w) (w_tick w) l (w_aborted w) (w_rx w) (w_tx w).
Definition set_aborted (w : world) : world :=
  World (w_coin w) (w_pick w) (w_junk w) (w_tick w) (w_events w) true (w_rx w) (w_tx w).
Definition set_rx (w : world) (rx : bytes) : world :=
  World (w_coin w) (w_pick w) (w_junk w) (w_tick w) (w_events w) (w_aborted w) rx (w_tx w).
Definition set_tx (w : world) (tx : list sent) : world :=
  World (w_coin w) (w_pick w) (w_junk w) (w_tick w) (w_events w) (w_aborted w) (w_rx w) tx.

Definition flip : io bool :=
  fun w => Done (w_coin w (w_tick w), set_tick w (S (w_tick w))).
Definition pick : io Z :=
  fun w => Done (w_pick w (w_tick w), set_tick w (S (w_tick w))).

(** [n] bytes of uninitialised memory. *)
Definition junk_bytes (w : world) (n : Z) : bytes :=
  (fun i => u8 (w_junk w (w_tick w) i)) <$> seq 0 (Z.to_nat n).
Definition uninit (n : Z) : io bytes :=
  fun w => Done (junk_bytes w n, set_tick w (S (w_tick w))).

(** [malloc(n)], [calloc(1, n)] and [realloc(old, n)]; [None] is NULL. *)
Definition malloc (n : Z) : io (option bytes) :=
  ok ← flip; if ok : bool then b ← uninit n; mret (Some b) else mret None.
Definition calloc (n : Z) : io (option bytes) :=
  ok ← flip;
  mret (if ok : bool then Some (replicate (Z.to_nat n) 0) else None).
Definition realloc (old : bytes) (n : Z) : io (option bytes) :=
  ok ← flip;
  if ok : bool
  then fresh ← uninit (n - zlen old);
       mret (Some (take (Z.to_nat n) old ++ fresh))
  else mret None.

(** One call of [select] without a timeout. *)
Definition select : io event :=
  fun w =>
    if w_aborted w then Done (EvAbort, w)
    else match w_events w with
         | [] => Blocked
         | EvAbort :: l => Done (EvAbort, set_aborted (set_events w l))
         | e :: l => Done (e, set_events w l)
         end.

(** [recv(sock, buf, len, 0)] on a ready stream socket that has [n] bytes. *)
Definition recv (n len : Z) : io (Z * bytes) :=
  fun w =>
    if n <? 0 then Done (-1, [], w)
    else let got := take (Z.to_nat (Z.min n len)) (w_rx w) in
         Done (zlen got, got, set_rx w (drop (Z.to_nat (Z.min n len)) (w_rx w))).

(** [send(sock, data, |data|, MSG_NOSIGNAL)] on a ready socket: the first [n]
    bytes leave, or the call fails. *)
Definition send (n : Z) (data : bytes) : io Z :=
  fun w =>
    if n <? 0 then Done (-1, w)
    else let out := take (Z.to_nat n) data in
         Done (zlen out, set_tx w (w_tx w ++ [Stream out])).

(** [sendto]: a datagram leaves whole or not at all. *)
Definition sendto (n : Z) (ip : Z) (data : bytes) : io Z :=
  fun w =>
    if n <? 0 then Done (-1, w)
    else Done (zlen data, set_tx w (w_tx w ++ [Datagram ip data])).

(** * Loops around [select]

    [loop body a] is [while (true) { ... }] with the loop state [a]; [inl] is
    the next iteration, [inr] leaves. Every iteration of the loops of the
    sources calls [select], so the number of pending events bounds the
    iterations; [loop_unfold] shows that this bound is never what stops a
    loop. *)
Fixpoint loop_fuel {A B} (fuel : nat) (body : A -> io (A + B)) (a : A) : io B :=
  match fuel with
  | O => fun _ => Blocked
  | S fuel =>
      r ← body a;
      match r with
      | inl a => loop_fuel fuel body a
      | inr b => mret b
      end
  end.

Definition loop {A B} (body : A -> io (A + B)) (a : A) : io B :=
  fun w => loop_fuel (S (length (w_events w))) body a w.

(** * Lemmas *)

Lemma bind_Done {A B} (m : io A) (k : A -> io B) w a w' :
  m w = Done (a, w') -> (m ≫= k) w = k a w'.
Proof. intros H. unfold mbind, io_bind. by rewrite H. Qed.

Lemma bind_inv {A B} (m : io A) (k : A -> io B) w b w' :
  (m ≫= k) w = Done (b, w') ->
  exists a w1, m w = Done (a, w1) /\ k a w1 = Done (b, w').
Proof.
  unfold mbind, io_bind. destruct (m w) as [[a w1]| |]; simpl; try done. eauto.
Qed.

Lemma bind_not_Fault {A B} (m : io A) (k : A -> io B) w :
  m w <> Fault -> (forall a w1, m w = Done (a, w1) -> k a w1 <> Fault) ->
  (m ≫= k) w <> Fault.
Proof.
  unfold mbind, io_bind. destruct (m w) as [[a w1]| |]; simpl; try done. eauto.
Qed.

(** What [select] reports and what it leaves. *)
Lemma select_inv w e w' :
  select w = Done (e, w') ->
  (e = EvAbort /\ w_aborted w' = true)
  \/ (w_aborted w = false /\ w' = set_events w (w_events w') /\ w_events w = e :: w_events w').
Proof.
  unfold select. destruct (w_aborted w) eqn:Ea; [intros [= <- <-]; by left|].
  destruct (w_events w) as [|[] l] eqn:El; intros [= <- <-];
    [right|left|right..]; simpl; auto.
Qed.

Lemma select_not_Fault w : select w <> Fault.
Proof. unfold select. destruct (w_aborted w), (w_events w) as [|[] ?]; done. Qed.

Lemma junk_bytes_ok w n : bytes_ok (junk_bytes w n).
Proof.
  unfold junk_bytes. apply Forall_fmap, Forall_forall. intros i _. apply u8_range.
Qed.

Lemma length_junk_bytes w n : length (junk_bytes w n) = Z.to_nat n.
Proof. unfold junk_bytes. by rewrite length_fmap, length_seq. Qed.

#[export] Hint Rewrite length_junk_bytes : dsm_len.
#[export] Hint Resolve junk_bytes_ok : dsm.

(** An iteration consumes events when it continues. *)
Definition consumes {A B} (body : A -> io (A + B)) : Prop :=
  forall a w a' w', body a w = Done (inl a', w') ->
    (length (w_events w') < length (w_events w))%nat.

Lemma loop_fuel_enough {A B} (body : A -> io (A + B)) n m a w :
  consumes body ->
  (length (w_events w) < n)%nat -> (length (w_events w) < m)%nat ->
  loop_fuel n body a w = loop_fuel m body a w.
Proof.
  intros Hc. revert m a w. induction n as [|n IH]; intros m a w Hn Hm; [lia|].
  destruct m as [|m]; [lia|]. cbn [loop_fuel]. unfold mbind, io_bind.
  destruct (body a w) as [[[a'|b] w']| |] eqn:E; simpl; try done.
  pose proof (Hc _ _ _ _ E). apply IH; lia.
Qed.

(** The loop without its bound. *)
Lemma loop_unfold {A B} (body : A -> io (A + B)) a w :
  consumes body ->
  loop body a w
  = (r ← body a; match r with inl a => loop body a | inr b => mret b end) w.
Proof.
  intros Hc. unfold loop. cbn [loop_fuel]. unfold mbind, io_bind.
  destruct (body a w) as [[[a'|b] w']| |] eqn:E; simpl; try done.
  pose proof (Hc _ _ _ _ E).
  apply (loop_fuel_enough body _ (S (length (w_events w')))); [done|lia|lia].
Qed.

(** An invariant of the loop state and the world holds when it leaves. *)
Lemma loop_invariant {A B} (body : A -> io (A + B)) (I : A -> world -> Prop)
    (Q : B -> world -> Prop) a w b w' :
  (forall a w a' w', I a w -> body a w = Done (inl a', w') -> I a' w') ->
  (forall a w b w', I a w -> body a w = Done (inr b, w') -> Q b w') ->
  I a w -> loop body a w = Done (b, w') -> Q b w'.
Proof.
  intros HI HQ. unfold loop.
  generalize (S (length (w_events w))) as n. intros n. revert a w.
  induction n as [|n IH]; intros a w Ha; [done|]. cbn [loop_fuel].
  intros ([a'|b'] & w1 & E & Hr)%bind_inv.
  - eapply IH; [|exact Hr]. eauto.
  - unfold mret, io_ret in Hr. simplify_eq. eauto.
Qed.

Lemma loop_not_Fault {A B} (body : A -> io (A + B)) (I : A -> world -> Prop) a w :
  (forall a w a' w', I a w -> body a w = Done (inl a', w') -> I a' w') ->
  (forall a w, I a w -> body a w <> Fault) ->
  I a w -> loop body a w <> Fault.
Proof.
  intros HI HF. unfold loop.
  generalize (S (length (w_events w))) as n. intros n. revert a w.
  induction n as [|n IH]; intros a w Ha; [done|]. cbn [loop_fuel].
  apply bind_not_Fault; [eauto|]. intros [a'|b'] w1 E; [|done].
  eapply IH, HI; eauto.
Qed.

(** The loop that waits in [select]: it leaves with the first event that is
    not [EvNone] (nor of the other kind of socket). *)
Lemma consumes_select {A B} (body : A -> event -> io (A + B)) :
  (forall a e w a' w', body a e w = Done (inl a', w') -> w' = w /\ e <> EvAbort) ->
  consumes (fun a => e ← select; body a e).
Proof.
  intros Hb a w a' w' (e & w1 & Hs & Hr)%bind_inv.
  destruct (Hb _ _ _ _ _ Hr) as [-> He].
  destruct (select_inv _ _ _ Hs) as [[? _]|(_ & _ & ->)]; simpl; [done|lia].
Qed.

(** * Aborts *)

(** The abort byte is written, or will be before the events run out. *)
Definition pending (w : world) : Prop := w_aborted w = true \/ EvAbort ∈ w_events w.

Lemma select_keeps_pending w e w' : select w = Done (e, w') -> pending w -> pending w'.
Proof.
  unfold select, pending. destruct (w_aborted w) eqn:Ea; [intros [= _ <-]; auto|].
  destruct (w_events w) as [|e0 l]; [done|]. intros E [|H]; [done|].
  destruct e0; injection E as <- <-; cbn; try (by left); right; by apply elem_of_cons in H as [|].
Qed.

Lemma select_pending w : pending w -> select w <> Blocked.
Proof.
  unfold select, pending. destruct (w_aborted w); [done|]. intros [|H]; [done|].
  destruct (w_events w) as [|[] l]; [by apply elem_of_nil in H|done..].
Qed.

(** A loop whose rounds use up events ends if its rounds do. *)
Lemma loop_not_Blocked {A B} (body : A -> io (A + B)) (I : A -> world -> Prop) a w :
  (forall a w a' w', I a w -> body a w = Done (inl a', w') ->
     I a' w' /\ (length (w_events w') < length (w_events w))%nat) ->
  (forall a w, I a w -> body a w <> Blocked) ->
  I a w -> loop body a w <> Blocked.
Proof.
  intros HI HB. unfold loop. assert (Hn : (length (w_events w) < S (length (w_events w)))%nat) by lia.
  revert Hn. generalize (S (length (w_events w))) as n. intros n. revert a w.
  induction n as [|n IH]; intros a w Hn Ha; [lia|]. cbn [loop_fuel]. unfold mbind, io_bind.
  destruct (body a w) as [[[a'|b] w1]| |] eqn:E; cbn [obind]; [|done|done|by destruct (HB a w Ha)].
  destruct (HI _ _ _ _ Ha E) as [Ha' Hlt]. apply IH; [lia|done].
Qed.

(** * Worlds whose network works

    The peer and the system keep the connection up: [select] reports only
    readiness with at least one byte (or nothing). *)
Definition usable (e : event) : Prop :=
  match e with EvNone => True | EvReady n => 0 < n | _ => False end.

Definition is_ready (e : event) : bool := match e with EvReady _ => true | _ => false end.

Definition ready_count (w : world) : nat :=
  length (base.filter (fun e => is_ready e = true) (w_events w)).

Definition healthy (w : world) : Prop :=
  w_aborted w = false /\ Forall usable (w_events w).

Lemma select_healthy w :
  healthy w -> (0 < ready_count w)%nat ->
  exists e w', select w = Done (e, w') /\ w' = set_events w (w_events w')
    /\ (length (w_events w') < length (w_events w))%nat /\ healthy w'
    /\ ((e = EvNone /\ ready_count w' = ready_count w)
        \/ (exists n, e = EvReady n /\ 0 < n /\ ready_count w = S (ready_count w'))).
Proof.
  intros [Ha Hu] Hr. unfold select, healthy, ready_count in *. rewrite Ha.
  destruct (w_events w) as [|e l] eqn:El; [simpl in Hr; lia|].
  apply Forall_cons in Hu as [He Hu]. rewrite filter_cons in *.
  destruct e; try done; (do 2 eexists; split; [reflexivity|]; simpl; split_and!; auto).
  right. eauto.
Qed.

(** * Runs that only use up answers of the system *)

Lemma uninit_Done n w : uninit n w = Done (junk_bytes w n, set_tick w (S (w_tick w))).
Proof. done. Qed.

Lemma access_Done {A} (o : option A) a w : o = Some a -> access o w = Done (a, w).
Proof. intros ->. done. Qed.

(** Nothing but the answers of the system has been used up. *)
Definition later (w w' : world) : Prop := exists n, w' = set_tick w (n + w_tick w).

Lemma later_refl w : later w w.
Proof. exists 0%nat. by destruct w. Qed.

Lemma later_trans w1 w2 w3 : later w1 w2 -> later w2 w3 -> later w1 w3.
Proof. intros [n ->] [k ->]. exists (k + n)%nat. unfold set_tick. simpl. f_equal. lia. Qed.

Lemma later_step w w' : later (set_tick w (S (w_tick w))) w' -> later w w'.
Proof. apply later_trans. by exists 1%nat. Qed.

#[export] Hint Resolve later_refl later_step : dsm.

Lemma malloc_Done n w :
  exists w', malloc n w = Done (if w_coin w (w_tick w)
      then Some (junk_bytes (set_tick w (S (w_tick w))) n) else None, w')
    /\ later w w'.
Proof.
  unfold malloc, flip, mbind, io_bind. cbn [obind].
  destruct (w_coin w (w_tick w)); eexists; (split; [reflexivity|]).
  - by exists 2%nat.
  - by exists 1%nat.
Qed.

(** Worlds in which no allocation fails. *)
Definition lucky (w : world) : Prop := forall n, w_coin w n = true.

Lemma later_lucky w w' : later w w' -> lucky w -> lucky w'.
Proof. intros [n ->] Hw k. apply Hw. Qed.

Lemma malloc_lucky n w :
  lucky w -> exists j w', malloc n w = Done (Some j, w') /\ later w w' /\ length j = Z.to_nat n
    /\ bytes_ok j.
Proof.
  intros Hw. destruct (malloc_Done n w) as (w' & E & L). rewrite Hw in E.
  do 2 eexists. split; [exact E|]. split; [done|]. split; [apply length_junk_bytes|auto with dsm].
Qed.

(** [m] returns [a] and uses up answers of the system only. *)
Definition runs {A} (w : world) (m : io A) (a : A) : Prop :=
  exists w', m w = Done (a, w') /\ later w w'.

Lemma runs_bind {A B} (m : io A) (k : A -> io B) a b w :
  runs w m a -> (forall w1, later w w1 -> runs w1 (k a) b) -> runs w (m ≫= k) b.
Proof.
  intros (w1 & E1 & L1) Hk. destruct (Hk w1 L1) as (w2 & E2 & L2).
  exists w2. rewrite (bind_Done _ _ _ _ _ E1). split; [done|]. by eapply later_trans.
Qed.

Lemma runs_ret {A} (a : A) w : runs w (mret a) a.
Proof. exists w. auto with dsm. Qed.

Lemma runs_access {A} (o : option A) a w : o = Some a -> runs w (access o) a.
Proof. intros ->. exists w. auto with dsm. Qed.

Lemma runs_lift {A} (m : outcome A) a w : m = Done a -> runs w (lift m) a.
Proof. intros ->. exists w. auto with dsm. Qed.

Lemma runs_uninit n w :
  exists j, runs w (uninit n) j /\ length j = Z.to_nat n /\ bytes_ok j.
Proof.
  exists (junk_bytes w n). split; [exists (set_tick w (S (w_tick w)))|].
  - split; [done|]. by exists 1%nat.
  - split; [apply length_junk_bytes|auto with dsm].
Qed.

Lemma runs_malloc n w :
  lucky w -> exists j, runs w (malloc n) (Some j) /\ length j = Z.to_nat n /\ bytes_ok j.
Proof.
  intros Hw. destruct (malloc_lucky n w Hw) as (j & w' & E & L & Hj & Hb).
  exists j. split; [by exists w'|done].
Qed.

#[export] Hint Resolve runs_ret runs_access runs_lift : dsm.
#[export] Hint Resolve later_lucky : dsm.

(** One step of a run whose result is known. *)
Ltac run_step := eapply runs_bind; [|intros ? ?].

(** The same in a world where no allocation fails, and remains so. *)
Lemma runs_bind_lucky {A B} (m : io A) (k : A -> io B) a b w :
  lucky w -> runs w m a -> (forall w1, lucky w1 -> runs w1 (k a) b) -> runs w (m ≫= k) b.
Proof.
  intros Hw Hm Hk. eapply runs_bind; [exact Hm|]. intros w1 L. by eapply Hk, later_lucky.
Qed.

(** One step of such a run; the world of the next step replaces the last. *)
Ltac run :=
  match goal with
  | Hw : lucky ?w |- runs ?w _ _ =>
      eapply (runs_bind_lucky _ _ _ _ _ Hw);
      [|clear w Hw || clear Hw; let w' := fresh "w" in let Hw' := fresh "Hw" in intros w' Hw'; cbn beta iota]
  end.

(** A step that draws uninitialised memory [j], or allocates it. *)
Ltac run_uninit j Hj :=
  match goal with
  | |- runs ?w (uninit ?n ≫= _) _ =>
      let R := fresh "R" in
      destruct (runs_uninit n w) as (j & R & Hj & _); run; [exact R|]; try clear R
  end.
Ltac run_malloc j Hj :=
  match goal with
  | Hw : lucky ?w |- runs ?w (malloc ?n ≫= _) _ =>
      let R := fresh "R" in
      destruct (runs_malloc n w Hw) as (j & R & Hj & _); run; [exact R|]; try clear R
  end.

(** [m] returns a value with [Q], and uses up answers of the system only. *)
Definition returning {A} (w : world) (m : io A) (Q : A -> Prop) : Prop :=
  exists a, runs w m a /\ Q a.

Lemma returning_bind {A B} (m : io A) (k : A -> io B) (P : A -> Prop) Q w :
  lucky w -> returning w m P ->
  (forall a w1, lucky w1 -> P a -> returning w1 (k a) Q) -> returning w (m ≫= k) Q.
Proof.
  intros Hw (a & (w1 & E1 & L1) & Ha) Hk.
  destruct (Hk a w1 (later_lucky _ _ L1 Hw) Ha) as (b & (w2 & E2 & L2) & Hb).
  exists b. split; [|done]. exists w2. rewrite (bind_Done _ _ _ _ _ E1).
  split; [done|]. by eapply later_trans.
Qed.

Lemma returning_runs {A B} (m : io A) (k : A -> io B) a Q w :
  lucky w -> runs w m a ->
  (forall w1, lucky w1 -> returning w1 (k a) Q) -> returning w (m ≫= k) Q.
Proof.
  intros Hw Hm Hk. eapply (returning_bind m k (eq a)); [done|by exists a|].
  intros ? w1 Hw1 <-. by apply Hk.
Qed.

Lemma returning_ret {A} (a : A) (Q : A -> Prop) w : Q a -> returning w (mret a) Q.
Proof. exists a. split; [apply runs_ret|done]. Qed.

(** A step whose result is known, and a step whose result satisfies [P]. *)
Ltac step_to :=
  match goal with
  | Hw : lucky ?w |- returning ?w _ _ =>
      eapply (returning_runs _ _ _ _ _ Hw);
      [|clear w Hw || clear Hw; let w' := fresh "w" in let Hw' := fresh "Hw" in intros w' Hw'; cbn beta iota]
  end.
Ltac step_with a Ha :=
  match goal with
  | Hw : lucky ?w |- returning ?w _ _ =>
      eapply (returning_bind _ _ _ _ _ Hw);
      [|clear w Hw || clear Hw; let w' := fresh "w" in let Hw' := fresh "Hw" in
        intros a w' Hw' Ha; cbn beta iota]
  end.

Lemma returning_flip w : lucky w -> returning w flip (fun b => b = true).
Proof.
  intros Hw. exists true. split; [|done]. exists (set_tick w (S (w_tick w))).
  split; [unfold flip; by rewrite Hw|by exists 1%nat].
Qed.

Lemma returning_pick w : returning w pick (fun _ => True).
Proof.
  eexists. split; [|done]. exists (set_tick w (S (w_tick w))). split; [done|by exists 1%nat].
Qed.

(** * Growing and shrinking a block *)

Lemma realloc_spec old n w :
  realloc old n w = Done (if w_coin w (w_tick w)
    then Some (take (Z.to_nat n) old ++ junk_bytes (set_tick w (S (w_tick w))) (n - zlen old))
    else None, set_tick w (if w_coin w (w_tick w) then S (S (w_tick w)) else S (w_tick w))).
Proof.
  unfold realloc, flip, uninit, mbind, io_bind. cbn [obind].
  by destruct (w_coin w (w_tick w)).
Qed.

(** What lies below the new size is kept. *)
Lemma realloc_keeps pre post n w :
  zlen pre <= n ->
  exists post' w', realloc (pre ++ post) n w
      = Done (if w_coin w (w_tick w) then Some (pre ++ post') else None, w')
    /\ zlen post' = n - zlen pre /\ later w w'.
Proof.
  intros Hn. rewrite realloc_spec.
  exists (take (Z.to_nat n - length pre) post
          ++ junk_bytes (set_tick w (S (w_tick w))) (n - zlen (pre ++ post))).
  eexists. split; [|split].
  - do 2 f_equal. destruct (w_coin w (w_tick w)); [|done]. f_equal.
    rewrite take_app_ge by len. by rewrite <- app_assoc.
  - len.
  - destruct (w_coin w (w_tick w)); [by exists 2%nat|by exists 1%nat].
Qed.

(** * What code establishes from one world

    [wpf F m Q w]: from [w], if [m] returns, the result and the world it
    leaves satisfy [Q], and it makes an invalid access only if [F]; [wp] is
    the case that it makes none. *)
Definition wpf {A} (F : Prop) (m : io A) (Q : A -> world -> Prop) (w : world) : Prop :=
  match m w with Done (a, w') => Q a w' | Fault => F | Blocked => True end.

Abbreviation wp := (wpf False).

Lemma wp_intro {A} (m : io A) (Q : A -> world -> Prop) w :
  m w <> Fault -> (forall a w', m w = Done (a, w') -> Q a w') -> wp m Q w.
Proof. unfold wpf. destruct (m w) as [[a w']| |]; auto. Qed.

Lemma wp_elim {A} (m : io A) (Q : A -> world -> Prop) w :
  wp m Q w -> m w <> Fault /\ forall a w', m w = Done (a, w') -> Q a w'.
Proof. unfold wpf. destruct (m w) as [[a w']| |]; split; try done. by intros ? ? [= <- <-]. Qed.

Lemma wp_mono {A} F (m : io A) (P Q : A -> world -> Prop) w :
  wp m P w -> (forall a w', P a w' -> Q a w') -> wpf F m Q w.
Proof. unfold wpf. destruct (m w) as [[a w']| |]; auto. done. Qed.

Lemma wpf_mono {A} (F F' : Prop) (m : io A) (P Q : A -> world -> Prop) w :
  wpf F m P w -> (F -> F') -> (forall a w', P a w' -> Q a w') -> wpf F' m Q w.
Proof. unfold wpf. destruct (m w) as [[a w']| |]; auto. Qed.

Lemma wp_bind {A B} F (m : io A) (k : A -> io B) (Q : B -> world -> Prop) w :
  wpf F m (fun a => wpf F (k a) Q) w -> wpf F (m ≫= k) Q w.
Proof. unfold wpf, mbind, io_bind. by destruct (m w) as [[a w']| |]. Qed.

Lemma wp_ret {A} F (a : A) (Q : A -> world -> Prop) w : Q a w -> wpf F (mret a) Q w.
Proof. done. Qed.

Lemma wp_Done {A} F (m : io A) a w' (Q : A -> world -> Prop) w : m w = Done (a, w') -> Q a w' -> wpf F m Q w.
Proof. unfold wpf. by intros ->. Qed.

Lemma wp_access {A} F (o : option A) a (Q : A -> world -> Prop) w :
  o = Some a -> Q a w -> wpf F (access o) Q w.
Proof. intros ->. done. Qed.

Lemma wp_lift {A} F (o : outcome A) a (Q : A -> world -> Prop) w :
  o = Done a -> Q a w -> wpf F (lift o) Q w.
Proof. intros ->. done. Qed.

Lemma wp_flip F (Q : bool -> world -> Prop) w :
  (forall b, Q b (set_tick w (S (w_tick w)))) -> wpf F flip Q w.
Proof. unfold wpf, flip. auto. Qed.

(** The rule for loops. *)
Lemma wp_loop {A B} (body : A -> io (A + B)) (I : A -> world -> Prop) (Q : B -> world -> Prop) a w :
  (forall a w, I a w ->
     wp (body a) (fun r w' => match r with inl a' => I a' w' | inr b => Q b w' end) w) ->
  I a w -> wp (loop body a) Q w.
Proof.
  intros Hb Ha. apply wp_intro.
  - apply (loop_not_Fault _ I); [| |done].
    + intros a1 w1 a2 w2 H1 E. exact (proj2 (wp_elim _ _ _ (Hb _ _ H1)) _ _ E).
    + intros a1 w1 H1. exact (proj1 (wp_elim _ _ _ (Hb _ _ H1))).
  - intros b w' E. revert E. apply (loop_invariant _ I Q); [| |done];
      intros * H1 E; exact (proj2 (wp_elim _ _ _ (Hb _ _ H1)) _ _ E).
Qed.

Lemma wp_select F (Q : event -> world -> Prop) w :
  (forall e w', w_tx w' = w_tx w -> w_rx w' = w_rx w -> Q e w') -> wpf F select Q w.
Proof.
  intros HQ. unfold wpf, select. destruct (w_aborted w); [by apply HQ|].
  destruct (w_events w) as [|[] ?]; [done|..]; by apply HQ.
Qed.

(** * What every run of a piece of code does to the world

    [within R m]: whatever world [m] starts from, the one it leaves is related
    to it by [R]. *)
Definition within (R : world -> world -> Prop) {A} (m : io A) : Prop :=
  forall w a w', m w = Done (a, w') -> R w w'.

Section Within.
Context (R : world -> world -> Prop) `{!PreOrder R}.

Lemma within_bind {A B} (m : io A) (k : A -> io B) : within R m -> (forall a, within R (k a)) -> within R (m ≫= k).
Proof. intros Hm Hk w b w' (a & w1 & E1 & E2)%bind_inv. transitivity w1; [by eapply Hm|by eapply Hk]. Qed.

Lemma within_ret {A} (a : A) : within R (mret a).
Proof. by intros w b w' [= _ <-]. Qed.

Lemma within_access_Some {A B} (a : A) (k : A -> io B) : within R (k a) -> within R (access (Some a) ≫= k).
Proof. done. Qed.

Lemma within_lift {A} (m : outcome A) : within R (lift m).
Proof. intros w b w' E. unfold lift in E. by destruct m; simplify_eq/=. Qed.

Lemma within_access {A} (o : option A) : within R (access o).
Proof. apply within_lift. Qed.
Lemma within_require b : within R (require b).
Proof. apply within_lift. Qed.

Lemma within_loop {A B} (body : A -> io (A + B)) a : (forall a, within R (body a)) -> within R (loop body a).
Proof.
  intros Hb w b w'. apply (loop_invariant _ (fun _ w1 => R w w1) (fun _ w1 => R w w1)); [| |done];
    intros * H E; (transitivity w0; [done|by eapply Hb]).
Qed.

End Within.

(** Nothing is sent. *)
Definition same_tx (w w' : world) : Prop := w_tx w' = w_tx w.
Abbreviation silent := (within same_tx).

(** No event is added, and the allocator stays what it is. *)
Definition onward (w w' : world) : Prop :=
  w_coin w' = w_coin w /\ (length (w_events w') <= length (w_events w))%nat.

#[global] Instance same_tx_preorder : PreOrder same_tx.
Proof. split; [done|]. intros w1 w2 w3 H1 H2. exact (eq_trans H2 H1). Qed.
#[global] Instance onward_preorder : PreOrder onward.
Proof. unfold onward. split; [intros w; split; [done|lia]|]. intros w1 w2 w3 [-> ?] [-> ?]. split; [done|lia]. Qed.

Lemma onward_lucky w w' : onward w w' -> lucky w -> lucky w'.
Proof. intros [E _] Hw n. by rewrite E. Qed.
Lemma onward_lucky_inv w w' : onward w w' -> lucky w' -> lucky w.
Proof. intros [E _] Hw n. by rewrite <- E. Qed.

Lemma silent_select : silent select.
Proof. intros w e w'. unfold select. destruct (w_aborted w), (w_events w) as [|[] ?]; by intros [= _ <-]. Qed.
Lemma silent_recv n len : silent (recv n len).
Proof. intros w a w' E. unfold recv in E. by destruct (n <? 0); simplify_eq/=. Qed.
Lemma silent_flip : silent flip.
Proof. by intros w a w' [= _ <-]. Qed.
Lemma silent_uninit n : silent (uninit n).
Proof. by intros w a w' [= _ <-]. Qed.

Lemma onward_select : within onward select.
Proof.
  intros w e w' E. unfold select, onward in *. destruct (w_aborted w); [injection E as _ <-; auto|].
  destruct (w_events w) as [|[] ?] eqn:El; simplify_eq/=; rewrite ?El; cbn; auto.
Qed.
Lemma onward_recv n len : within onward (recv n len).
Proof. intros w a w' E. unfold recv in E. unfold onward. by destruct (n <? 0); simplify_eq/=. Qed.
Lemma onward_send n d : within onward (send n d).
Proof. intros w a w' E. unfold send in E. unfold onward. by destruct (n <? 0); simplify_eq/=. Qed.
Lemma onward_flip : within onward flip.
Proof. by intros w a w' [= _ <-]. Qed.
Lemma onward_pick : within onward pick.
Proof. by intros w a w' [= _ <-]. Qed.
Lemma onward_uninit n : within onward (uninit n).
Proof. by intros w a w' [= _ <-]. Qed.

Create HintDb within discriminated.
#[export] Hint Constants Opaque : within.
#[export] Hint Resolve within_ret within_lift within_access within_require silent_select silent_recv silent_flip silent_uninit
  onward_select onward_recv onward_send onward_flip onward_pick onward_uninit : within.
#[export] Hint Extern 1 (PreOrder _) => apply _ : within.

Lemma wp_within {A} F R (m : io A) (Q : A -> world -> Prop) w :
  within R m -> wpf F m Q w -> wpf F m (fun a w' => Q a w' /\ R w w') w.
Proof. intros HR. specialize (HR w). unfold wpf. destruct (m w) as [[a w']| |]; eauto. Qed.

(** * Code that an abort ends

    [abortable m]: from a world in which an abort is pending [m] comes to an end,
    and the abort still is pending for the code behind it. *)
Definition abortable {A} (m : io A) : Prop :=
  forall w, pending w -> match m w with Done (_, w') => pending w' | Fault => True | Blocked => False end.

Lemma abortable_bind {A B} (m : io A) (k : A -> io B) : abortable m -> (forall a, abortable (k a)) -> abortable (m ≫= k).
Proof.
  intros Hm Hk w Hp. specialize (Hm w Hp). unfold mbind, io_bind. destruct (m w) as [[a w1]| |]; [|done..]. by apply Hk.
Qed.
Lemma abortable_ret {A} (a : A) : abortable (mret a).
Proof. by intros w. Qed.
Lemma abortable_lift {A} (o : outcome A) : ends o -> abortable (lift o).
Proof. intros Ho w Hp. by destruct o. Qed.
Lemma abortable_access {A} (o : option A) : abortable (access o).
Proof. apply abortable_lift, ends_checked. Qed.
Lemma abortable_access_Some {A B} (a : A) (k : A -> io B) : abortable (k a) -> abortable (access (Some a) ≫= k).
Proof. done. Qed.
Lemma abortable_require b : abortable (require b).
Proof. apply abortable_lift, ends_assert. Qed.
Lemma abortable_loop {A B} (body : A -> io (A + B)) a : consumes body -> (forall a, abortable (body a)) -> abortable (loop body a).
Proof.
  intros Hc Hb w Hp. unfold loop. generalize (le_n (S (length (w_events w)))).
  generalize (S (length (w_events w))) at 2 3 as n. intros n. revert a w Hp.
  induction n as [|n IH]; intros a w Hp Hn; [lia|]. cbn [loop_fuel]. unfold mbind, io_bind. specialize (Hb a w Hp).
  destruct (body a w) as [[[a1|b] w1]| |] eqn:E; cbn [obind]; [|done..]. apply Hc in E. apply IH; [done|lia].
Qed.
Lemma abortable_select : abortable select.
Proof.
  intros w Hp. destruct (select w) as [[e w']| |] eqn:E; [by eapply select_keeps_pending|done|by apply (select_pending w)].
Qed.
Lemma abortable_recv n len : abortable (recv n len).
Proof. intros w Hp. unfold recv. by destruct (n <? 0). Qed.
Lemma abortable_send n d : abortable (send n d).
Proof. intros w Hp. unfold send. by destruct (n <? 0). Qed.
Lemma abortable_flip : abortable flip.
Proof. by intros w. Qed.
Lemma abortable_pick : abortable pick.
Proof. by intros w. Qed.
Lemma abortable_uninit n : abortable (uninit n).
Proof. by intros w. Qed.

Create HintDb abortable discriminated.
#[export] Hint Constants Opaque : abortable.
#[export] Hint Resolve abortable_ret abortable_access abortable_require abortable_select abortable_recv abortable_send abortable_flip abortable_pick abortable_uninit : abortable.

(** Every step of a piece of code is ended by an abort. *)
Ltac persist :=
  repeat (intros;
    lazymatch goal with
    | |- abortable (access (Some _) ≫= _) => apply abortable_access_Some
    | |- abortable (_ ≫= _) => apply abortable_bind
    | |- abortable (let '(_, _) := ?x in _) => destruct x
    | |- abortable (if ?b then _ else _) => destruct b
    | |- abortable (match ?x with _ => _ end) => destruct x
    | |- abortable _ => solve [auto with abortable]
    end).

(** * Code that an aborted session silences

    Once the abort byte is there it stays, and nothing is sent. *)
Definition hush (w w' : world) : Prop := w_aborted w = true -> w_aborted w' = true /\ w_tx w' = w_tx w.

#[global] Instance hush_preorder : PreOrder hush.
Proof.
  split; [done|]. intros w1 w2 w3 H12 H23 H1. destruct (H12 H1) as [H2 E2]. destruct (H23 H2) as [H3 E3]. split; [done|congruence].
Qed.

Lemma later_hush w w' : later w w' -> hush w w'.
Proof. by intros [n ->]. Qed.

(** What follows [select] is what an abort makes it do. *)
Lemma hush_select {A} (k : event -> io A) : within hush (k EvAbort) -> within hush (e ← select; k e).
Proof.
  intros Hk w a w' (e & w1 & E1 & E2)%bind_inv Ha. unfold select in E1. rewrite Ha in E1. injection E1 as <- <-. by eapply Hk.
Qed.
Lemma hush_recv n len : within hush (recv n len).
Proof. intros w a w' E. unfold recv in E. by destruct (n <? 0); simplify_eq/=. Qed.
Lemma hush_flip : within hush flip.
Proof. by intros w a w' [= _ <-]. Qed.
Lemma hush_pick : within hush pick.
Proof. by intros w a w' [= _ <-]. Qed.
Lemma hush_uninit n : within hush (uninit n).
Proof. by intros w a w' [= _ <-]. Qed.
#[export] Hint Resolve hush_recv hush_flip hush_pick hush_uninit : within.

(** Every step of a piece of code stays within the relation. *)
Ltac confine :=
  repeat (intros;
    lazymatch goal with
    | |- within _ (access (Some _) ≫= _) => apply within_access_Some
    | |- within hush (select ≫= _) => apply hush_select
    | |- within _ (mbind _ _) => apply (within_bind _)
    | |- within _ (loop _ _) => apply (within_loop _)
    | |- within _ (let '(_, _) := ?x in _) => destruct x
    | |- within _ (if ?b then _ else _) => destruct b
    | |- within _ (match ?x with _ => _ end) => destruct x
    | |- within _ _ => solve [auto with within]
    end).

(** * Code that does not read from the stream *)

Definition same_rx (w w' : world) : Prop := w_coin w' = w_coin w /\ w_rx w' = w_rx w.

#[global] Instance same_rx_preorder : PreOrder same_rx.
Proof. split; [done|]. intros w1 w2 w3 [? ?] [? ?]. split; congruence. Qed.

Lemma rx_select : within same_rx select.
Proof. intros w e w' E. unfold select in E. repeat case_match; by simplify_eq. Qed.
Lemma rx_sendto n ip d : within same_rx (sendto n ip d).
Proof. intros w r w' E. unfold sendto in E. case_match; by simplify_eq. Qed.
Lemma rx_flip : within same_rx flip.
Proof. by intros w a w' [= _ <-]. Qed.
Lemma rx_pick : within same_rx pick.
Proof. by intros w a w' [= _ <-]. Qed.
Lemma rx_uninit n : within same_rx (uninit n).
Proof. by intros w a w' [= _ <-]. Qed.
#[export] Hint Resolve rx_select rx_sendto rx_flip rx_pick rx_uninit : within.
