(* ===== verification/Queue.v ===== *)
(** Tail queues, compat/queue.h: doubly linked lists inside the structures they
    link, with the macros of the header as functions on a memory of links.
    The theorems show that the macros implement lists, for every sequence of
    operations on several queues, which is what NetbiosNs.v takes them for. *)

From stdpp Require Import gmap.
From S2P Require Import Prelude.

#[local] Set Warnings "-clear-no-such-hyp".

Module Queue.

(** The address of a link: [&(head)->tqh_first] of the head [h], or
    [&(elm)->field.tqe_next] of the element [e]. *)
Inductive cell := First (h : Z) | Next (e : Z).

#[global] Instance cell_eq_dec : EqDecision cell.
Proof. solve_decision. Defined.
#[global] Instance cell_countable : Countable cell.
Proof.
  apply (inj_countable' (fun c => match c with First h => inl h | Next e => inr e end)
           (fun s => match s with inl h => First h | inr e => Next e end)).
  by intros [].
Defined.

(** Heads and entries have the same two fields: a pointer to an element
    ([tqh_first], [tqe_next]) and the address of a link ([tqh_last],
    [tqe_prev]). [TAILQ_LAST] and [TAILQ_PREV] cast one to the other. *)
Record links := Links { ptr : option Z; back : option cell }.

(** The links that exist, by the address of their first field. *)
Abbreviation mem := (gmap cell links).

Definition nextof (m : mem) (c : cell) : option (option Z) := ptr <$> m !! c.
Definition backof (m : mem) (c : cell) : option cell := m !! c ≫= back.

Definition put_ptr (m : mem) (c : cell) (p : option Z) : mem := alter (fun l => Links p (back l)) c m.
Definition put_back (m : mem) (c : cell) (b : cell) : mem := alter (fun l => Links (ptr l) (Some b)) c m.

(** Loads and stores through a pointer: outside the links that exist they are
    invalid. *)
Definition load (m : mem) (c : cell) : outcome (option Z) := checked (nextof m c).
Definition load_back (m : mem) (c : cell) : outcome cell := checked (backof m c).
Definition store (m : mem) (c : cell) (p : option Z) : outcome mem :=
  let* _ := checked (m !! c) in Done (put_ptr m c p).
Definition store_back (m : mem) (c b : cell) : outcome mem :=
  let* _ := checked (m !! c) in Done (put_back m c b).

(** * The macros *)

Definition TAILQ_FIRST (m : mem) (h : Z) : outcome (option Z) := load m (First h).
Definition TAILQ_NEXT (m : mem) (e : Z) : outcome (option Z) := load m (Next e).
Definition TAILQ_LAST (m : mem) (h : Z) : outcome (option Z) :=
  let* c := load_back m (First h) in
  let* c := load_back m c in
  load m c.
Definition TAILQ_PREV (m : mem) (e : Z) : outcome (option Z) :=
  let* c := load_back m (Next e) in
  let* c := load_back m c in
  load m c.
Definition TAILQ_EMPTY (m : mem) (h : Z) : outcome bool :=
  let* p := TAILQ_FIRST m h in
  Done (match p with None => true | Some _ => false end).

(** The loops; the body may change the memory and what it accumulates. *)
Section Loops.
Context {A : Type} (body : Z -> A -> mem -> outcome (A * mem)).

Fixpoint foreach (fuel : nat) (var : option Z) (a : A) (m : mem) : outcome (A * mem) :=
  match fuel, var with
  | _, None => Done (a, m)
  | O, Some _ => Blocked
  | S fuel, Some e =>
      let* r := body e a m in
      let (a, m) := r : A * mem in
      let* n := TAILQ_NEXT m e in
      foreach fuel n a m
  end.
Definition TAILQ_FOREACH (h : Z) (a : A) (m : mem) : outcome (A * mem) :=
  let* v := load m (First h) in foreach (size m) v a m.

Fixpoint foreach_safe (fuel : nat) (var : option Z) (a : A) (m : mem) : outcome (A * mem) :=
  match fuel, var with
  | _, None => Done (a, m)
  | O, Some _ => Blocked
  | S fuel, Some e =>
      let* next := TAILQ_NEXT m e in
      let* r := body e a m in
      let (a, m) := r : A * mem in
      foreach_safe fuel next a m
  end.
Definition TAILQ_FOREACH_SAFE (h : Z) (a : A) (m : mem) : outcome (A * mem) :=
  let* v := load m (First h) in foreach_safe (size m) v a m.

Fixpoint foreach_reverse (fuel : nat) (var : option Z) (a : A) (m : mem) : outcome (A * mem) :=
  match fuel, var with
  | _, None => Done (a, m)
  | O, Some _ => Blocked
  | S fuel, Some e =>
      let* r := body e a m in
      let (a, m) := r : A * mem in
      let* n := TAILQ_PREV m e in
      foreach_reverse fuel n a m
  end.
Definition TAILQ_FOREACH_REVERSE (h : Z) (a : A) (m : mem) : outcome (A * mem) :=
  let* v := TAILQ_LAST m h in foreach_reverse (size m) v a m.

Fixpoint foreach_reverse_safe (fuel : nat) (var : option Z) (a : A) (m : mem) : outcome (A * mem) :=
  match fuel, var with
  | _, None => Done (a, m)
  | O, Some _ => Blocked
  | S fuel, Some e =>
      let* prev := TAILQ_PREV m e in
      let* r := body e a m in
      let (a, m) := r : A * mem in
      foreach_reverse_safe fuel prev a m
  end.
Definition TAILQ_FOREACH_REVERSE_SAFE (h : Z) (a : A) (m : mem) : outcome (A * mem) :=
  let* v := TAILQ_LAST m h in foreach_reverse_safe (size m) v a m.
End Loops.

Definition TAILQ_INIT (m : mem) (h : Z) : outcome mem :=
  let* m := store m (First h) None in
  store_back m (First h) (First h).

Definition TAILQ_INSERT_HEAD (m : mem) (h elm : Z) : outcome mem :=
  let* f := load m (First h) in
  let* m := store m (Next elm) f in
  let* m := match f with
            | Some f => store_back m (Next f) (Next elm)
            | None => store_back m (First h) (Next elm)
            end in
  let* m := store m (First h) (Some elm) in
  store_back m (Next elm) (First h).

Definition TAILQ_INSERT_TAIL (m : mem) (h elm : Z) : outcome mem :=
  let* m := store m (Next elm) None in
  let* l := load_back m (First h) in
  let* m := store_back m (Next elm) l in
  let* l := load_back m (First h) in
  let* m := store m l (Some elm) in
  store_back m (First h) (Next elm).

Definition TAILQ_INSERT_AFTER (m : mem) (h listelm elm : Z) : outcome mem :=
  let* n := load m (Next listelm) in
  let* m := store m (Next elm) n in
  let* m := match n with
            | Some n => store_back m (Next n) (Next elm)
            | None => store_back m (First h) (Next elm)
            end in
  let* m := store m (Next listelm) (Some elm) in
  store_back m (Next elm) (Next listelm).

Definition TAILQ_INSERT_BEFORE (m : mem) (listelm elm : Z) : outcome mem :=
  let* b := load_back m (Next listelm) in
  let* m := store_back m (Next elm) b in
  let* m := store m (Next elm) (Some listelm) in
  let* b := load_back m (Next listelm) in
  let* m := store m b (Some elm) in
  store_back m (Next listelm) (Next elm).

Definition TAILQ_REMOVE (m : mem) (h elm : Z) : outcome mem :=
  let* n := load m (Next elm) in
  let* b := load_back m (Next elm) in
  let* m := match n with
            | Some n => store_back m (Next n) b
            | None => store_back m (First h) b
            end in
  let* b := load_back m (Next elm) in
  let* n := load m (Next elm) in
  store m b n.

Definition TAILQ_REPLACE (m : mem) (h elm elm2 : Z) : outcome mem :=
  let* n := load m (Next elm) in
  let* m := store m (Next elm2) n in
  let* m := match n with
            | Some n => store_back m (Next n) (Next elm2)
            | None => store_back m (First h) (Next elm2)
            end in
  let* b := load_back m (Next elm) in
  let* m := store_back m (Next elm2) b in
  let* b := load_back m (Next elm2) in
  store m b (Some elm2).

Definition TAILQ_CONCAT (m : mem) (head1 head2 : Z) : outcome mem :=
  let* empty := TAILQ_EMPTY m head2 in
  if empty : bool then Done m
  else
    let* f := load m (First head2) in
    let* l := load_back m (First head1) in
    let* m := store m l f in
    let* f := load m (First head2) in
    let* f := checked f in
    let* l := load_back m (First head1) in
    let* m := store_back m (Next f) l in
    let* l := load_back m (First head2) in
    let* m := store_back m (First head1) l in
    TAILQ_INIT m head2.

(** * Queues in memory *)

(** The link behind the elements [l] that start at the link [c]. *)
Fixpoint tail_cell (c : cell) (l : list Z) : cell :=
  match l with [] => c | e :: l => tail_cell (Next e) l end.

(** From the link [c] on come the elements [l], and then [n]. *)
Fixpoint lseg (m : mem) (c : cell) (l : list Z) (n : option Z) : Prop :=
  match l with
  | [] => nextof m c = Some n
  | e :: l => nextof m c = Some (Some e) /\ backof m (Next e) = Some c /\ lseg m (Next e) l n
  end.

(** The head [h] has the elements [l]. *)
Definition queue (m : mem) (h : Z) (l : list Z) : Prop :=
  NoDup l /\ lseg m (First h) l None /\ backof m (First h) = Some (tail_cell (First h) l).

(** * Lemmas on memory *)

Lemma nextof_put_ptr m c p : is_Some (m !! c) -> nextof (put_ptr m c p) c = Some p.
Proof. intros [l E]. unfold nextof, put_ptr. by rewrite lookup_alter_eq, E. Qed.
Lemma nextof_put_ptr_ne m c p c' : c' <> c -> nextof (put_ptr m c p) c' = nextof m c'.
Proof. intros Hc. unfold nextof, put_ptr. by rewrite lookup_alter_ne. Qed.
Lemma nextof_put_back m c b c' : nextof (put_back m c b) c' = nextof m c'.
Proof.
  unfold nextof, put_back. destruct (decide (c' = c)) as [->|]; [|by rewrite lookup_alter_ne].
  rewrite lookup_alter_eq. by destruct (m !! c).
Qed.
Lemma backof_put_back m c b : is_Some (m !! c) -> backof (put_back m c b) c = Some b.
Proof. intros [l E]. unfold backof, put_back. by rewrite lookup_alter_eq, E. Qed.
Lemma backof_put_back_ne m c b c' : c' <> c -> backof (put_back m c b) c' = backof m c'.
Proof. intros Hc. unfold backof, put_back. by rewrite lookup_alter_ne. Qed.
Lemma backof_put_ptr m c p c' : backof (put_ptr m c p) c' = backof m c'.
Proof.
  unfold backof, put_ptr. destruct (decide (c' = c)) as [->|]; [|by rewrite lookup_alter_ne].
  rewrite lookup_alter_eq. by destruct (m !! c).
Qed.

Lemma dom_put_ptr m c p : dom (put_ptr m c p) = dom m.
Proof. apply dom_alter_L. Qed.
Lemma dom_put_back m c b : dom (put_back m c b) = dom m.
Proof. apply dom_alter_L. Qed.

Lemma live_put_ptr m c p c' : is_Some (put_ptr m c p !! c') <-> is_Some (m !! c').
Proof. apply lookup_alter_is_Some. Qed.
Lemma live_put_back m c b c' : is_Some (put_back m c b !! c') <-> is_Some (m !! c').
Proof. apply lookup_alter_is_Some. Qed.

Lemma nextof_live m c p : nextof m c = Some p -> is_Some (m !! c).
Proof. unfold nextof. destruct (m !! c); [eauto|done]. Qed.
Lemma backof_live m c b : backof m c = Some b -> is_Some (m !! c).
Proof. unfold backof. destruct (m !! c); [eauto|done]. Qed.

Lemma store_ptr_Done m c p : is_Some (m !! c) -> store m c p = Done (put_ptr m c p).
Proof. intros [l E]. unfold store. by rewrite E. Qed.
Lemma store_back_Done m c b : is_Some (m !! c) -> store_back m c b = Done (put_back m c b).
Proof. intros [l E]. unfold store_back. by rewrite E. Qed.
Lemma load_Done m c p : nextof m c = Some p -> load m c = Done p.
Proof. unfold load. by intros ->. Qed.
Lemma load_back_Done m c b : backof m c = Some b -> load_back m c = Done b.
Proof. unfold load_back. by intros ->. Qed.

(** * Segments *)

(** The links a segment lives in. *)
Abbreviation cells c l := (c :: (Next <$> l)).

Lemma lseg_frame m m' c l n :
  (forall c', c' ∈ cells c l -> nextof m' c' = nextof m c') ->
  (forall e, e ∈ l -> backof m' (Next e) = backof m (Next e)) ->
  lseg m c l n -> lseg m' c l n.
Proof.
  revert c. induction l as [|e l IH]; intros c Hn Hb; cbn.
  { intros <-. apply Hn. set_solver. }
  intros (H1 & H2 & H3). split; [rewrite <- H1; apply Hn; set_solver|].
  split; [rewrite <- H2; apply Hb; set_solver|]. apply IH; [..|done]; set_solver.
Qed.

Lemma lseg_put_ptr m c l n c0 p : c0 ∉ cells c l -> lseg m c l n -> lseg (put_ptr m c0 p) c l n.
Proof.
  intros Hc. apply lseg_frame; intros; [|apply backof_put_ptr]. apply nextof_put_ptr_ne. by intros ->.
Qed.
Lemma lseg_put_back m c l n c0 b : c0 ∉ Next <$> l -> lseg m c l n -> lseg (put_back m c0 b) c l n.
Proof.
  intros Hc. apply lseg_frame; intros; [apply nextof_put_back|]. apply backof_put_back_ne. intros <-.
  by apply Hc, list_elem_of_fmap_2.
Qed.

Lemma lseg_app m c l1 e l2 n :
  lseg m c (l1 ++ e :: l2) n
  <-> lseg m c l1 (Some e) /\ backof m (Next e) = Some (tail_cell c l1) /\ lseg m (Next e) l2 n.
Proof. revert c. induction l1 as [|x l1 IH]; intros c; cbn; [done|]. rewrite IH. tauto. Qed.

Lemma tail_cell_app c l1 l2 : tail_cell c (l1 ++ l2) = tail_cell (tail_cell c l1) l2.
Proof. revert c. induction l1 as [|x l1 IH]; intros c; cbn; auto. Qed.

Lemma tail_cell_in c l : tail_cell c l ∈ cells c l.
Proof.
  revert c. induction l as [|e l IH]; intros c; cbn; [set_solver|]. specialize (IH (Next e)). set_solver.
Qed.

Lemma lseg_end m c l n : lseg m c l n -> nextof m (tail_cell c l) = Some n.
Proof. revert c. induction l as [|e l IH]; intros c; cbn; [done|]. intros (_ & _ & ?). auto. Qed.

Lemma lseg_live m c l n e : lseg m c l n -> e ∈ l -> is_Some (m !! Next e).
Proof.
  revert c. induction l as [|x l IH]; intros c; cbn; [set_solver|]. intros (_ & Hb & H3) [->|?]%elem_of_cons; [|eauto].
  by eapply backof_live.
Qed.

(** Other elements behind the last one. *)
Lemma lseg_retarget m c l n n' :
  NoDup (cells c l) -> lseg m c l n -> lseg (put_ptr m (tail_cell c l) n') c l n'.
Proof.
  revert c. induction l as [|e l IH]; intros c; cbn [tail_cell].
  all: rewrite ?fmap_cons.
  { intros _ H. by eapply nextof_put_ptr, nextof_live. }
  intros [Hc Hd]%NoDup_cons (H1 & H2 & H3). split_and!; [|by rewrite backof_put_ptr|by apply IH].
  rewrite nextof_put_ptr_ne; [done|]. intros ->. apply Hc, (tail_cell_in (Next e) l).
Qed.

Lemma next_in e (l : list Z) : Next e ∈ Next <$> l <-> e ∈ l.
Proof. rewrite list_elem_of_fmap. split; [by intros (? & [= <-] & ?)|by exists e]. Qed.
Lemma first_in h (l : list Z) : First h ∈ Next <$> l <-> False.
Proof. rewrite list_elem_of_fmap. split; [by intros (? & ? & ?)|done]. Qed.
#[local] Instance next_in_unfold e (l : list Z) P : SetUnfoldElemOf e l P -> SetUnfoldElemOf (Next e) (Next <$> l) P.
Proof. intros [E]. split. by rewrite next_in. Qed.
#[local] Instance first_in_unfold h (l : list Z) : SetUnfoldElemOf (First h) (Next <$> l) False.
Proof. split. apply first_in. Qed.

Lemma cells_NoDup h l : NoDup l -> NoDup (cells (First h) l).
Proof.
  intros Hl. apply NoDup_cons. split; [set_solver|]. apply NoDup_fmap_2; [|done]. by intros ? ? [=].
Qed.

(** The end of a segment is one of its links. *)
Lemma tail_cell_next c l e : c <> Next e -> e ∉ l -> tail_cell c l <> Next e.
Proof.
  intros Hc He E. pose proof (tail_cell_in c l) as Hin. rewrite E in Hin.
  apply elem_of_cons in Hin as [?|?%next_in]; congruence.
Qed.
Lemma tail_cell_first c l h : c <> First h -> tail_cell c l <> First h.
Proof.
  intros Hc E. pose proof (tail_cell_in c l) as Hin. rewrite E in Hin.
  apply elem_of_cons in Hin as [?|?%first_in]; congruence.
Qed.
Lemma tail_cell_apart h l f l' : f ∉ l -> (forall e, e ∈ l -> e ∉ l') -> tail_cell (First h) l ∉ cells (Next f) l'.
Proof.
  intros Hf Hl [E|(e & E & He)%list_elem_of_fmap]%elem_of_cons; revert E; apply tail_cell_next; try done.
  intros ?. by apply (Hl e).
Qed.

(** Only the links [C] have changed. *)
Definition changed (m m' : mem) (C : list cell) : Prop :=
  dom m' = dom m /\ forall c, c ∉ C -> m' !! c = m !! c.

Lemma changed_refl m C : changed m m C.
Proof. done. Qed.
Lemma changed_put_ptr m m' C c p : changed m m' C -> c ∈ C -> changed m (put_ptr m' c p) C.
Proof.
  intros [Hd Hc] Hin. split; [by rewrite dom_put_ptr|]. intros c' Hc'. unfold put_ptr.
  rewrite lookup_alter_ne; [auto|]. by intros ->.
Qed.
Lemma changed_put_back m m' C c b : changed m m' C -> c ∈ C -> changed m (put_back m' c b) C.
Proof.
  intros [Hd Hc] Hin. split; [by rewrite dom_put_back|]. intros c' Hc'. unfold put_back.
  rewrite lookup_alter_ne; [auto|]. by intros ->.
Qed.
Lemma changed_live m m' C c : changed m m' C -> is_Some (m !! c) -> is_Some (m' !! c).
Proof. intros [Hd _]. rewrite <- !elem_of_dom. by rewrite Hd. Qed.

(** A queue none of whose links has changed. *)
Lemma queue_frame m m' C h l :
  changed m m' C -> First h ∉ C -> (forall e, e ∈ l -> Next e ∉ C) -> queue m h l -> queue m' h l.
Proof.
  intros [_ Hc] Hh Hl (Hd & Hs & Hb). split; [done|].
  assert (Hn : forall c, c ∈ cells (First h) l -> m' !! c = m !! c).
  { intros c [->|(e & -> & He)%list_elem_of_fmap]%elem_of_cons; apply Hc; auto. }
  split; [|unfold backof in *; rewrite Hn by set_solver; done].
  eapply lseg_frame; [..|exact Hs].
  - intros c Hin. unfold nextof. by rewrite Hn.
  - intros e Hin. unfold backof. rewrite Hn; [done|]. apply elem_of_cons. right. by apply list_elem_of_fmap_2.
Qed.

(** The links that are read after stores to others. *)
Ltac live := repeat (apply live_put_ptr || apply live_put_back); eauto using nextof_live, backof_live, lseg_live.
Ltac apart :=
  first [ done | congruence
        | apply tail_cell_next; [congruence|assumption] | apply tail_cell_first; congruence
        | apply not_eq_sym; first [apply tail_cell_next; [congruence|assumption] | apply tail_cell_first; congruence] ].
Ltac reads :=
  repeat first [ rewrite nextof_put_back | rewrite backof_put_ptr
               | rewrite nextof_put_ptr_ne by apart | rewrite backof_put_back_ne by apart
               | rewrite nextof_put_ptr by live | rewrite backof_put_back by live ].
Ltac step :=
  first [ erewrite load_Done by (reads; first [eassumption|reflexivity]); cbn [obind]
        | erewrite load_back_Done by (reads; first [eassumption|reflexivity]); cbn [obind]
        | rewrite store_ptr_Done by live; cbn [obind]
        | rewrite store_back_Done by live; cbn [obind] ].
Ltac outside :=
  lazymatch goal with
  | |- tail_cell _ _ ∉ _ => apply tail_cell_apart; assumption
  | |- _ ∉ _ :: _ => apply not_elem_of_cons; split; [apart|outside]
  | |- Next _ ∉ _ => rewrite next_in; assumption
  | |- First _ ∉ _ => rewrite first_in; tauto
  end.
Ltac frames :=
  repeat first [ eassumption | apply lseg_put_ptr; [outside|] | apply lseg_put_back; [outside|]
               | eapply lseg_retarget; [by apply cells_NoDup|] ].
Ltac inside :=
  rewrite ?fmap_cons, ?fmap_app, ?fmap_cons; repeat first [rewrite elem_of_cons | rewrite elem_of_app]; tauto.
Ltac changes := repeat (apply changed_put_ptr || apply changed_put_back); [apply changed_refl|..]; inside.

Lemma init_ok m h : is_Some (m !! First h) ->
  exists m', TAILQ_INIT m h = Done m' /\ queue m' h [] /\ changed m m' [First h].
Proof.
  intros Hh. eexists. unfold TAILQ_INIT. repeat step. split; [reflexivity|]. split; [|changes].
  split; [by apply NoDup_nil|]. cbn. split; by reads.
Qed.

Lemma insert_head_ok m h l e : queue m h l -> e ∉ l -> is_Some (m !! Next e) ->
  exists m', TAILQ_INSERT_HEAD m h e = Done m' /\ queue m' h (e :: l) /\ changed m m' (cells (First h) (e :: l)).
Proof.
  intros (Hd & Hs & Hb) He Hl. unfold TAILQ_INSERT_HEAD. destruct l as [|f l].
  - cbn in Hs, Hb. repeat step. eexists. split; [reflexivity|]. split; [|changes].
    split; [by apply NoDup_singleton|]. cbn. split_and!; by reads.
  - destruct Hs as (H1 & H2 & H3). assert (f <> e /\ e ∉ l) as [Hf Hel] by set_solver. apply NoDup_cons in Hd as Hd'. destruct Hd' as [Hfl _].
    repeat step. eexists. split; [reflexivity|]. split; [|changes].
    split; [by apply NoDup_cons|]. cbn. split_and!; try by reads. frames.
Qed.

Lemma insert_tail_ok m h l e : queue m h l -> e ∉ l -> is_Some (m !! Next e) ->
  exists m', TAILQ_INSERT_TAIL m h e = Done m' /\ queue m' h (l ++ [e]) /\ changed m m' (cells (First h) (e :: l)).
Proof.
  intros (Hd & Hs & Hb) He Hl. unfold TAILQ_INSERT_TAIL. pose proof (lseg_end _ _ _ _ Hs) as Hend. pose proof (tail_cell_in (First h) l) as Hin%elem_of_cons.
  repeat step. eexists. split; [reflexivity|]. split; [|changes].
  split; [apply NoDup_app; split; [done|]; split; [set_solver|by apply NoDup_singleton]|].
  rewrite tail_cell_app. cbn [tail_cell]. split; [|by reads]. apply lseg_app. cbn [lseg]. split_and!; [|by reads..].
  frames.
Qed.

Lemma apart_cons (l1 l2 : list Z) f : (forall e, e ∈ l1 -> e ∉ f :: l2) -> f ∉ l1 /\ forall e, e ∈ l1 -> e ∉ l2.
Proof. intros H. split; [intros Hf; by apply (H f), list_elem_of_here|]. intros e He Hl. by apply (H e), list_elem_of_further. Qed.

(** What a queue is around one of its elements. *)
Lemma queue_split m h l1 x l2 :
  queue m h (l1 ++ x :: l2) ->
  NoDup l1 /\ NoDup l2 /\ x ∉ l1 /\ x ∉ l2 /\ (forall e, e ∈ l1 -> e ∉ l2)
  /\ lseg m (First h) l1 (Some x) /\ backof m (Next x) = Some (tail_cell (First h) l1) /\ lseg m (Next x) l2 None
  /\ backof m (First h) = Some (tail_cell (Next x) l2).
Proof.
  intros (Hd & Hs & Hb). apply NoDup_app in Hd as (Hd1 & Hd12 & [Hx Hd2]%NoDup_cons). apply lseg_app in Hs as (? & ? & ?).
  rewrite tail_cell_app in Hb. split_and!; auto; set_solver.
Qed.

Lemma remove_ok m h l1 e l2 : queue m h (l1 ++ e :: l2) ->
  exists m', TAILQ_REMOVE m h e = Done m' /\ queue m' h (l1 ++ l2) /\ changed m m' (cells (First h) (l1 ++ e :: l2)).
Proof.
  intros (Hd1 & Hd2 & He1 & He2 & H12 & Hs1 & Hbe & Hs2 & Hb)%queue_split. unfold TAILQ_REMOVE.
  pose proof (lseg_end _ _ _ _ Hs1) as Hend. pose proof (tail_cell_in (First h) l1) as Hin%elem_of_cons.
  assert (Hd : NoDup (l1 ++ l2)) by (apply NoDup_app; set_solver).
  destruct l2 as [|f l2].
  - cbn in Hs2. repeat step. eexists. split; [reflexivity|]. split; [|changes]. rewrite app_nil_r in *.
    split; [done|]. split; [|by reads]. frames.
  - destruct Hs2 as (N1 & N2 & N3). apply NoDup_cons in Hd2 as [Hf Hd2]. apply apart_cons in H12 as [Hf1 H12].
    apply not_elem_of_cons in He2 as [Hef He2]. repeat step. eexists. split; [reflexivity|]. split; [|changes].
    split; [done|]. split; [|rewrite tail_cell_app; by reads]. apply lseg_app. split_and!; [|by reads|frames].
    frames.
Qed.

Lemma insert_after_ok m h l1 x l2 e : queue m h (l1 ++ x :: l2) -> e ∉ l1 ++ x :: l2 -> is_Some (m !! Next e) ->
  exists m', TAILQ_INSERT_AFTER m h x e = Done m' /\ queue m' h (l1 ++ x :: e :: l2)
    /\ changed m m' (cells (First h) (e :: l1 ++ x :: l2)).
Proof.
  intros Hq He Hl. pose proof Hq as [Hd _]. apply queue_split in Hq as (Hd1 & Hd2 & Hx1 & Hx2 & H12 & Hs1 & Hbx & Hs2 & Hb).
  assert (e ∉ l1 /\ e <> x /\ e ∉ l2) as (He1 & Hex & He2) by set_solver. unfold TAILQ_INSERT_AFTER.
  assert (Hd' : NoDup (l1 ++ x :: e :: l2)).
  { replace (l1 ++ x :: e :: l2) with ((l1 ++ [x]) ++ e :: l2) by (by rewrite <- app_assoc).
    rewrite <- Permutation_middle, <- app_assoc. apply NoDup_cons. split; [set_solver|exact Hd]. }
  destruct l2 as [|f l2].
  - cbn in Hs2. repeat step. eexists. split; [reflexivity|]. split; [|changes].
    split; [done|]. split; [|rewrite tail_cell_app; by reads]. apply lseg_app. cbn [lseg]. split_and!; [frames|by reads..].
  - destruct Hs2 as (N1 & N2 & N3). apply NoDup_cons in Hd2 as [Hf Hd2]. apply apart_cons in H12 as [Hf1 H12].
    apply not_elem_of_cons in He2 as [Hef He2]. apply not_elem_of_cons in Hx2 as [Hxf Hx2].
    repeat step. eexists. split; [reflexivity|]. split; [|changes].
    split; [done|]. split; [|rewrite tail_cell_app; by reads]. apply lseg_app. cbn [lseg]. split_and!; [frames|by reads..|frames].
Qed.

Lemma insert_before_ok m h l1 x l2 e : queue m h (l1 ++ x :: l2) -> e ∉ l1 ++ x :: l2 -> is_Some (m !! Next e) ->
  exists m', TAILQ_INSERT_BEFORE m x e = Done m' /\ queue m' h (l1 ++ e :: x :: l2)
    /\ changed m m' (cells (First h) (e :: l1 ++ x :: l2)).
Proof.
  intros Hq He Hl. pose proof Hq as [Hd _]. apply queue_split in Hq as (Hd1 & Hd2 & Hx1 & Hx2 & H12 & Hs1 & Hbx & Hs2 & Hb).
  assert (e ∉ l1 /\ e <> x /\ e ∉ l2) as (He1 & Hex & He2) by set_solver. unfold TAILQ_INSERT_BEFORE.
  assert (Hd' : NoDup (l1 ++ e :: x :: l2)).
  { rewrite <- Permutation_middle. apply NoDup_cons. split; [set_solver|exact Hd]. }
  pose proof (lseg_end _ _ _ _ Hs1) as Hend. pose proof (tail_cell_in (First h) l1) as Hin%elem_of_cons.
  repeat step. eexists. split; [reflexivity|]. split; [|changes].
  split; [done|]. split; [|rewrite tail_cell_app; by reads]. apply lseg_app. cbn [lseg]. split_and!; [|by reads..|frames].
  frames.
Qed.

Lemma replace_ok m h l1 x l2 e : queue m h (l1 ++ x :: l2) -> e ∉ l1 ++ x :: l2 -> is_Some (m !! Next e) ->
  exists m', TAILQ_REPLACE m h x e = Done m' /\ queue m' h (l1 ++ e :: l2)
    /\ changed m m' (cells (First h) (e :: l1 ++ x :: l2)).
Proof.
  intros Hq He Hl. pose proof Hq as [Hd _]. apply queue_split in Hq as (Hd1 & Hd2 & Hx1 & Hx2 & H12 & Hs1 & Hbx & Hs2 & Hb).
  assert (e ∉ l1 /\ e <> x /\ e ∉ l2) as (He1 & Hex & He2) by set_solver. unfold TAILQ_REPLACE.
  assert (Hd' : NoDup (l1 ++ e :: l2)).
  { rewrite <- Permutation_middle in Hd |- *. apply NoDup_cons in Hd as [_ Hd]. apply NoDup_cons. split; [set_solver|exact Hd]. }
  pose proof (lseg_end _ _ _ _ Hs1) as Hend. pose proof (tail_cell_in (First h) l1) as Hin%elem_of_cons.
  destruct l2 as [|f l2].
  - cbn in Hs2. repeat step. eexists. split; [reflexivity|]. split; [|changes].
    split; [done|]. split; [|rewrite tail_cell_app; by reads]. apply lseg_app. cbn [lseg]. split_and!; [|by reads..].
    frames.
  - destruct Hs2 as (N1 & N2 & N3). apply NoDup_cons in Hd2 as [Hf Hd2]. apply apart_cons in H12 as [Hf1 H12].
    apply not_elem_of_cons in He2 as [Hef He2]. apply not_elem_of_cons in Hx2 as [Hxf Hx2].
    repeat step. eexists. split; [reflexivity|]. split; [|changes].
    split; [done|]. split; [|rewrite tail_cell_app; by reads]. apply lseg_app. cbn [lseg]. split_and!; [|by reads..|frames].
    frames.
Qed.

Lemma concat_ok m h1 l1 h2 l2 : h1 <> h2 -> (forall e, e ∈ l1 -> e ∉ l2) -> queue m h1 l1 -> queue m h2 l2 ->
  exists m', TAILQ_CONCAT m h1 h2 = Done m' /\ queue m' h1 (l1 ++ l2) /\ queue m' h2 []
    /\ changed m m' (cells (First h1) l1 ++ cells (First h2) l2).
Proof.
  intros Hh H12 (Hd1 & Hs1 & Hb1) (Hd2 & Hs2 & Hb2). unfold TAILQ_CONCAT, TAILQ_EMPTY, TAILQ_FIRST.
  pose proof (lseg_end _ _ _ _ Hs1) as Hend. pose proof (tail_cell_in (First h1) l1) as Hin%elem_of_cons.
  destruct l2 as [|f l2].
  { cbn in Hs2, Hb2. step. exists m. rewrite app_nil_r. split; [done|]. split; [done|]. split; [|apply changed_refl].
    by split; [apply NoDup_nil|]. }
  destruct Hs2 as (N1 & N2 & N3). apply NoDup_cons in Hd2 as Hd2'. destruct Hd2' as [Hf Hd2'].
  destruct (apart_cons _ _ _ H12) as [Hf1 H12']. cbn [tail_cell] in Hb2.
  repeat step. cbn [checked obind]. unfold TAILQ_INIT. repeat step.
  eexists. split; [reflexivity|]. split; [|split; [|changes]].
  - split; [apply NoDup_app; set_solver|]. split; [|rewrite tail_cell_app; by reads]. apply lseg_app. split_and!; [|by reads|frames].
    frames.
  - split; [by apply NoDup_nil|]. cbn. split; by reads.
Qed.

(** * Several queues and the lists they stand for *)

(** The operations that change queues. *)
Inductive op :=
| Init (h : Z) | InsertHead (h e : Z) | InsertTail (h e : Z) | InsertAfter (h x e : Z) | InsertBefore (x e : Z)
| Remove (h e : Z) | Replace (h x e : Z) | Concat (h1 h2 : Z).

Definition run_op (m : mem) (o : op) : outcome mem :=
  match o with
  | Init h => TAILQ_INIT m h
  | InsertHead h e => TAILQ_INSERT_HEAD m h e
  | InsertTail h e => TAILQ_INSERT_TAIL m h e
  | InsertAfter h x e => TAILQ_INSERT_AFTER m h x e
  | InsertBefore x e => TAILQ_INSERT_BEFORE m x e
  | Remove h e => TAILQ_REMOVE m h e
  | Replace h x e => TAILQ_REPLACE m h x e
  | Concat h1 h2 => TAILQ_CONCAT m h1 h2
  end.

Fixpoint run_ops (m : mem) (os : list op) : outcome mem :=
  match os with [] => Done m | o :: os => let* m := run_op m o in run_ops m os end.

(** The same on lists: [σ] has the list of every head. An operation is
    defined when the heads exist, an element that is inserted is in no queue,
    and one that is removed or named as a neighbour is in the queue. *)
Abbreviation lists := (gmap Z (list Z)).

(** [f] at the element [x] of a list. *)
Fixpoint at_element (x : Z) (f : list Z) (l : list Z) : list Z :=
  match l with [] => [] | y :: l => if y =? x then f ++ l else y :: at_element x f l end.

Definition linked (σ : lists) (e : Z) : Prop := map_Exists (fun _ l => e ∈ l) σ.

Definition spec_op (σ : lists) (o : op) : option lists :=
  match o with
  | Init h => Some (<[h := []]> σ)
  | InsertHead h e => l ← σ !! h; guard (~ linked σ e);; Some (<[h := e :: l]> σ)
  | InsertTail h e => l ← σ !! h; guard (~ linked σ e);; Some (<[h := l ++ [e]]> σ)
  | InsertAfter h x e => l ← σ !! h; guard (x ∈ l);; guard (~ linked σ e);; Some (<[h := at_element x [x; e] l]> σ)
  | InsertBefore x e => guard (linked σ x);; guard (~ linked σ e);; Some (at_element x [e; x] <$> σ)
  | Remove h e => l ← σ !! h; guard (e ∈ l);; Some (<[h := at_element e [] l]> σ)
  | Replace h x e => l ← σ !! h; guard (x ∈ l);; guard (~ linked σ e);; Some (<[h := at_element x [e] l]> σ)
  | Concat h1 h2 =>
      l1 ← σ !! h1; l2 ← σ !! h2; guard (h1 <> h2);; Some (<[h2 := []]> (<[h1 := l1 ++ l2]> σ))
  end.

Fixpoint spec_ops (σ : lists) (os : list op) : option lists :=
  match os with [] => Some σ | o :: os => spec_op σ o ≫= fun σ => spec_ops σ os end.

(** The structures an operation needs besides the queues. *)
Definition fresh_cell (o : op) : option cell :=
  match o with
  | Init h => Some (First h)
  | InsertHead _ e | InsertTail _ e | InsertAfter _ _ e | InsertBefore _ e | Replace _ _ e => Some (Next e)
  | Remove _ _ | Concat _ _ => None
  end.
Definition live_op (m : mem) (o : op) : Prop := forall c, fresh_cell o = Some c -> is_Some (m !! c).

(** The memory has the queues [σ], and no element is in two of them. *)
Definition tails (m : mem) (σ : lists) : Prop :=
  (forall h l, σ !! h = Some l -> queue m h l)
  /\ forall h1 h2 l1 l2 e, σ !! h1 = Some l1 -> σ !! h2 = Some l2 -> e ∈ l1 -> e ∈ l2 -> h1 = h2.

(** A step that changes one queue, with the new elements [new]. *)
Lemma tails_update m m' σ h l l' new :
  tails m σ -> default [] (σ !! h) = l -> queue m' h l' -> changed m m' (cells (First h) (new ++ l)) ->
  l' ⊆ new ++ l -> (forall e, e ∈ new -> ~ linked σ e) -> tails m' (<[h := l']> σ).
Proof.
  intros [Hq Hone] Hl Hq' Hc Hsub Hnew.
  assert (Hout : forall h1 l1 e, h1 <> h -> σ !! h1 = Some l1 -> e ∈ l1 -> e ∉ new ++ l).
  { intros h1 l1 e Hh E He [Hn|Hn]%elem_of_app; [by apply (Hnew e Hn); exists h1, l1|].
    apply Hh. destruct (σ !! h) as [l0|] eqn:E0; cbn in Hl; subst l; [by eapply Hone|by apply not_elem_of_nil in Hn]. }
  split.
  - intros h1 l1. destruct (decide (h1 = h)) as [->|Hh]; [rewrite lookup_insert_eq; by intros [= <-]|].
    rewrite lookup_insert_ne by done. intros E. eapply queue_frame; [exact Hc| | |by apply Hq].
    + apply not_elem_of_cons. split; [congruence|]. rewrite first_in. tauto.
    + intros e He. apply not_elem_of_cons. split; [done|]. rewrite next_in. by eapply Hout.
  - intros h1 h2 l1 l2 e. destruct (decide (h1 = h)) as [->|H1], (decide (h2 = h)) as [->|H2];
      rewrite ?lookup_insert_eq, ?lookup_insert_ne by done; intros E1 E2 He1 He2; try done; simplify_eq.
    + destruct (Hout h2 l2 e H2 E2 He2). by apply Hsub.
    + destruct (Hout h1 l1 e H1 E1 He1). by apply Hsub.
    + by eapply Hone.
Qed.

Lemma at_element_app x f l1 l2 : x ∉ l1 -> at_element x f (l1 ++ x :: l2) = l1 ++ f ++ l2.
Proof.
  induction l1 as [|y l1 IH]; cbn; [by rewrite Z.eqb_refl|]. intros [Hy Hl]%not_elem_of_cons.
  rewrite (proj2 (Z.eqb_neq y x)) by congruence. by rewrite IH.
Qed.
Lemma at_element_none x f l : x ∉ l -> at_element x f l = l.
Proof.
  induction l as [|y l IH]; cbn; [done|]. intros [Hy Hl]%not_elem_of_cons.
  rewrite (proj2 (Z.eqb_neq y x)) by congruence. by rewrite IH.
Qed.

Lemma insert_before_lists m σ x e h l :
  tails m σ -> σ !! h = Some l -> x ∈ l -> at_element x [e; x] <$> σ = <[h := at_element x [e; x] l]> σ.
Proof.
  intros [_ Hone] E Hx. apply map_eq. intros h'. rewrite lookup_fmap. destruct (decide (h' = h)) as [->|Hh].
  - by rewrite lookup_insert_eq, E.
  - rewrite lookup_insert_ne by done. destruct (σ !! h') as [l'|] eqn:E'; [|done]. cbn. f_equal.
    apply at_element_none. intros Hx'. by apply Hh, (Hone h' h l' l x).
Qed.

Lemma concat_tails m σ h1 l1 h2 l2 :
  tails m σ -> σ !! h1 = Some l1 -> σ !! h2 = Some l2 -> h1 <> h2 ->
  exists m', TAILQ_CONCAT m h1 h2 = Done m' /\ tails m' (<[h2 := []]> (<[h1 := l1 ++ l2]> σ)) /\ dom m' = dom m.
Proof.
  intros [Hq Hone] E1 E2 Hh. destruct (concat_ok m h1 l1 h2 l2) as (m' & E & Q1 & Q2 & Hc); auto.
  { intros e He1 He2. by apply Hh, (Hone h1 h2 l1 l2 e). }
  exists m'. split; [done|]. split; [|apply Hc]. split.
  - intros h l. destruct (decide (h = h2)) as [->|H2]; [rewrite lookup_insert_eq; by intros [= <-]|rewrite lookup_insert_ne by done].
    destruct (decide (h = h1)) as [->|H1]; [rewrite lookup_insert_eq; by intros [= <-]|rewrite lookup_insert_ne by done].
    intros El. eapply queue_frame; [exact Hc| | |by apply Hq].
    + rewrite elem_of_app, !elem_of_cons, !first_in. intuition congruence.
    + intros e He. rewrite elem_of_app, !elem_of_cons, !next_in. intros [[?|?]|[?|?]]; try done.
      * by apply H1, (Hone h h1 l l1 e).
      * by apply H2, (Hone h h2 l l2 e).
  - (* the lists have only moved *)
    assert (Hfrom : forall h l e, <[h2 := []]> (<[h1 := l1 ++ l2]> σ) !! h = Some l -> e ∈ l ->
              exists h0 l0, σ !! h0 = Some l0 /\ e ∈ l0 /\ h = if decide (h0 = h2) then h1 else h0).
    { intros h l e. destruct (decide (h = h2)) as [->|H2]; [rewrite lookup_insert_eq; intros [= <-] []%not_elem_of_nil|].
      rewrite lookup_insert_ne by done. destruct (decide (h = h1)) as [->|H1].
      - rewrite lookup_insert_eq. intros [= <-] [?|?]%elem_of_app; [exists h1, l1|exists h2, l2]; (split; [done|split; [done|by case_decide]]).
      - rewrite lookup_insert_ne by done. intros El He. exists h, l. split; [done|split; [done|by case_decide]]. }
    intros h h' l l' e Hl Hl' He He'.
    destruct (Hfrom _ _ _ Hl He) as (h0 & l0 & E0 & Hi0 & ->), (Hfrom _ _ _ Hl' He') as (h0' & l0' & E0' & Hi0' & ->).
    by rewrite (Hone h0 h0' l0 l0' e).
Qed.

(** One operation. *)
Lemma op_simulates m σ o σ' :
  tails m σ -> spec_op σ o = Some σ' -> live_op m o ->
  exists m', run_op m o = Done m' /\ tails m' σ' /\ dom m' = dom m.
Proof.
  intros Ht E Hlive. pose proof Ht as [Hq _].
  assert (Hout : forall e h l, ~ linked σ e -> σ !! h = Some l -> e ∉ l) by (intros e h l Hn El He; apply Hn; by exists h, l).
  assert (Hdone : forall h l l' new r, default [] (σ !! h) = l -> (forall e, e ∈ new -> ~ linked σ e) -> l' ⊆ new ++ l ->
            (exists m', r = Done m' /\ queue m' h l' /\ changed m m' (cells (First h) (new ++ l))) ->
            exists m', r = Done m' /\ tails m' (<[h := l']> σ) /\ dom m' = dom m).
  { intros h l l' new r Hl Hnew Hsub (m' & -> & Hq' & Hc). exists m'. split; [done|]. split; [|apply Hc]. by eapply tails_update. }
  assert (Hsplit : forall h l x, σ !! h = Some l -> x ∈ l -> exists l1 l2, l = l1 ++ x :: l2 /\ x ∉ l1).
  { intros h l x El Hx. apply list_elem_of_split in Hx as (l1 & l2 & ->). exists l1, l2. split; [done|].
    by apply Hq, queue_split in El as (_ & _ & ? & _). }
  destruct o as [h|h e|h e|h x e|x e|h e|h x e|h1 h2]; cbn [spec_op run_op] in *; simplify_option_eq;
    try (assert (Hle : is_Some (m !! Next e)) by (by apply Hlive));
    try match goal with H : σ !! h = Some ?x |- _ => rename x into l; rename H into El end;
    try match goal with H : _ ∈ _ |- _ => rename H into Hx | H : linked _ _ |- _ => rename H into Hx end.
  - apply (Hdone h (default [] (σ !! h)) [] []); [done|set_solver|set_solver|].
    destruct (init_ok m h) as (m' & -> & ? & [? Hc]); [by apply Hlive|].
    exists m'. split; [done|]. split; [done|]. split; [done|]. intros c Hin. apply Hc. set_solver.
  - apply (Hdone h l (e :: l) [e]); [by rewrite El|set_solver|set_solver|]. apply insert_head_ok; eauto.
  - apply (Hdone h l (l ++ [e]) [e]); [by rewrite El|set_solver|set_solver|]. apply insert_tail_ok; eauto.
  - destruct (Hsplit _ _ _ El Hx) as (l1 & l2 & -> & Hx1). rewrite at_element_app by done.
    apply (Hdone h (l1 ++ x :: l2) _ [e]); [by rewrite El|set_solver|set_solver|]. apply insert_after_ok; eauto.
  - destruct Hx as (h & l & El & Hx). rewrite (insert_before_lists m σ x e h l Ht El Hx).
    destruct (Hsplit _ _ _ El Hx) as (l1 & l2 & -> & Hx1). rewrite at_element_app by done.
    apply (Hdone h (l1 ++ x :: l2) _ [e]); [by rewrite El|set_solver|set_solver|]. apply insert_before_ok; eauto.
  - destruct (Hsplit _ _ _ El Hx) as (l1 & l2 & -> & Hx1). rewrite at_element_app by done.
    apply (Hdone h (l1 ++ e :: l2) _ []); [by rewrite El|set_solver|set_solver|]. apply remove_ok; eauto.
  - destruct (Hsplit _ _ _ El Hx) as (l1 & l2 & -> & Hx1). rewrite at_element_app by done.
    apply (Hdone h (l1 ++ x :: l2) _ [e]); [by rewrite El|set_solver|set_solver|]. apply replace_ok; eauto.
  - by eapply concat_tails.
Qed.

Lemma ops_simulate m σ os σ' :
  tails m σ -> spec_ops σ os = Some σ' -> Forall (live_op m) os ->
  exists m', run_ops m os = Done m' /\ tails m' σ' /\ dom m' = dom m.
Proof.
  revert m σ. induction os as [|o os IH]; intros m σ Ht E Hl; cbn [run_ops spec_ops] in *.
  { injection E as <-. by exists m. }
  destruct (spec_op σ o) as [σ1|] eqn:E1; [|done]. cbn in E. apply Forall_cons in Hl as [Ho Hl].
  destruct (op_simulates _ _ _ _ Ht E1 Ho) as (m1 & -> & Ht1 & Hd1). cbn [obind].
  destruct (IH m1 σ1 Ht1 E) as (m' & ? & ? & Hd).
  - eapply Forall_impl; [exact Hl|]. intros o' Hlo c Hc. rewrite <- elem_of_dom, Hd1, elem_of_dom. by apply Hlo.
  - exists m'. split_and!; [done|done|by rewrite Hd].
Qed.

(** * Walks *)

Lemma queue_first m h l : queue m h l -> TAILQ_FIRST m h = Done (head l).
Proof. intros (_ & Hs & _). apply load_Done. destruct l; [done|]. apply Hs. Qed.

Lemma queue_next m h l1 e l2 : queue m h (l1 ++ e :: l2) -> TAILQ_NEXT m e = Done (head l2).
Proof.
  intros (_ & _ & _ & _ & _ & _ & _ & Hs & _)%queue_split. apply load_Done. destruct l2; [done|]. apply Hs.
Qed.

(** The link behind [l1] leads back to its last element, by the cast. *)
Lemma queue_before m h l1 l2 : queue m h (l1 ++ l2) ->
  (let* c := load_back m (tail_cell (First h) l1) in load m c) = Done (last l1).
Proof.
  intros Hq. destruct l1 as [|y l1 _] using rev_ind.
  - destruct Hq as (_ & Hs & Hb). cbn [tail_cell app] in *. rewrite (load_back_Done _ _ _ Hb). cbn [obind].
    apply load_Done. by apply lseg_end.
  - rewrite <- app_assoc in Hq. apply queue_split in Hq as (_ & _ & _ & _ & _ & Hs & Hb & _).
    rewrite tail_cell_app, last_snoc. cbn [tail_cell]. rewrite (load_back_Done _ _ _ Hb). cbn [obind].
    apply load_Done. by apply lseg_end in Hs.
Qed.

Lemma queue_last m h l : queue m h l -> TAILQ_LAST m h = Done (last l).
Proof.
  intros Hq. pose proof Hq as (_ & _ & Hb). unfold TAILQ_LAST. rewrite (load_back_Done _ _ _ Hb). cbn [obind].
  apply (queue_before m h l []). by rewrite app_nil_r.
Qed.

Lemma queue_prev m h l1 e l2 : queue m h (l1 ++ e :: l2) -> TAILQ_PREV m e = Done (last l1).
Proof.
  intros Hq. pose proof Hq as (_ & _ & _ & _ & _ & _ & Hb & _)%queue_split. unfold TAILQ_PREV.
  rewrite (load_back_Done _ _ _ Hb). cbn [obind]. by apply (queue_before m h l1 (e :: l2)).
Qed.

(** There are at most as many elements as links. *)
Lemma queue_size m h l : queue m h l -> (length l <= size m)%nat.
Proof.
  intros (Hd & Hs & _). rewrite <- (length_fmap Next l), <- (size_list_to_set (C := gset cell)); [|by apply (cells_NoDup h l), NoDup_cons in Hd as [_ ?]].
  rewrite <- size_dom. apply subseteq_size. intros c (e & -> & He)%elem_of_list_to_set%list_elem_of_fmap.
  apply elem_of_dom. by eapply lseg_live.
Qed.

Section Walks.
Context {A : Type} (f : A -> Z -> A) (m : mem) (h : Z).
Let visit (e : Z) (a : A) (m : mem) : outcome (A * mem) := Done (f a e, m).

Lemma foreach_visits fuel l1 l2 a :
  queue m h (l1 ++ l2) -> (length l2 <= fuel)%nat -> foreach visit fuel (head l2) a m = Done (foldl f a l2, m).
Proof.
  revert l1 l2 a. induction fuel as [|fuel IH]; intros l1 [|e l2] a Hq Hf; cbn in Hf; try lia; [done..|].
  cbn [foreach head visit obind foldl]. rewrite (queue_next _ _ _ _ _ Hq). cbn [obind].
  apply (IH (l1 ++ [e])); [by rewrite <- app_assoc|lia].
Qed.

Lemma foreach_reverse_visits fuel l1 l2 a :
  queue m h (l1 ++ l2) -> (length l1 <= fuel)%nat -> foreach_reverse visit fuel (last l1) a m = Done (foldl f a (rev l1), m).
Proof.
  revert l1 l2 a. induction fuel as [|fuel IH]; intros l1 l2 a Hq Hf; destruct l1 as [|e l1 _] using rev_ind; try done.
  { rewrite length_app in Hf. cbn in Hf. lia. }
  rewrite last_snoc, rev_unit. rewrite <- app_assoc in Hq. cbn [foreach_reverse visit obind foldl].
  rewrite (queue_prev _ _ _ _ _ Hq). cbn [obind]. apply (IH l1 (e :: l2)); [done|]. rewrite length_app in Hf. cbn in Hf. lia.
Qed.

Lemma foreach_walks l a : queue m h l ->
  TAILQ_FOREACH visit h a m = Done (foldl f a l, m) /\ TAILQ_FOREACH_REVERSE visit h a m = Done (foldl f a (rev l), m).
Proof.
  intros Hq. unfold TAILQ_FOREACH, TAILQ_FOREACH_REVERSE. change (load m (First h)) with (TAILQ_FIRST m h).
  rewrite (queue_first _ _ _ Hq), (queue_last _ _ _ Hq). cbn [obind]. pose proof (queue_size _ _ _ Hq). split.
  - by apply (foreach_visits _ []).
  - apply (foreach_reverse_visits _ l []); [by rewrite app_nil_r|done].
Qed.
End Walks.

(** ** Removing and freeing while walking *)

(** [free(elm)] for an element of no queue. *)
Lemma queue_free m h l e : queue m h l -> e ∉ l -> queue (delete (Next e) m) h l.
Proof.
  intros (Hd & Hs & Hb) He. split; [done|].
  assert (Hn : forall c, c <> Next e -> delete (Next e) m !! c = m !! c) by (intros; by rewrite lookup_delete_ne).
  split; [|unfold backof in *; by rewrite Hn].
  eapply lseg_frame; [..|exact Hs].
  - intros c [->|(x & -> & Hx)%list_elem_of_fmap]%elem_of_cons; unfold nextof; rewrite Hn; [done|done|done|congruence].
  - intros x Hx. unfold backof. rewrite Hn; [done|congruence].
Qed.

(** [malloc] of an element of no queue. *)
Lemma queue_store m h l c x : queue m h l -> c <> First h -> c ∉ Next <$> l -> queue (<[c := x]> m) h l.
Proof.
  intros (Hd & Hs & Hb) Hh Hc. split; [done|].
  assert (Hn : forall c', c' ∈ cells (First h) l -> <[c := x]> m !! c' = m !! c').
  { intros c' Hin. rewrite lookup_insert_ne; [done|]. intros <-. by apply elem_of_cons in Hin as [?|?]. }
  split; [|unfold backof in *; rewrite Hn; [done|apply list_elem_of_here]].
  eapply lseg_frame; [..|exact Hs].
  - intros c' Hin. unfold nextof. by rewrite Hn.
  - intros e He. unfold backof. rewrite Hn; [done|]. by apply list_elem_of_further, list_elem_of_fmap_2.
Qed.

(** The body removes the element, frees it and notes it. *)
Definition drain (h e : Z) (a : list Z) (m : mem) : outcome (list Z * mem) :=
  let* m := TAILQ_REMOVE m h e in Done (a ++ [e], delete (Next e) m).

Lemma drain_ok m h l1 e l2 a : queue m h (l1 ++ e :: l2) ->
  exists m', drain h e a m = Done (a ++ [e], m') /\ queue m' h (l1 ++ l2).
Proof.
  intros Hq. pose proof Hq as (_ & _ & He1 & He2 & _)%queue_split. destruct (remove_ok _ _ _ _ _ Hq) as (m' & E & Hq' & _).
  unfold drain. rewrite E. cbn [obind]. eexists. split; [done|]. apply queue_free; [done|].
  by intros [?|?]%elem_of_app.
Qed.

Lemma foreach_safe_drains fuel m h l a : queue m h l -> (length l <= fuel)%nat ->
  exists m', foreach_safe (drain h) fuel (head l) a m = Done (a ++ l, m') /\ queue m' h [].
Proof.
  revert m l a. induction fuel as [|fuel IH]; intros m [|e l] a Hq Hf; cbn in Hf; try lia;
    try (exists m; by rewrite app_nil_r).
  cbn [foreach_safe head]. rewrite (queue_next m h [] e l Hq). cbn [obind].
  destruct (drain_ok m h [] e l a Hq) as (m1 & -> & Hq1). cbn [obind].
  destruct (IH m1 l (a ++ [e]) Hq1 ltac:(lia)) as (m' & E & ?). exists m'. by rewrite E, <- app_assoc.
Qed.

Lemma foreach_reverse_safe_drains fuel m h l a : queue m h l -> (length l <= fuel)%nat ->
  exists m', foreach_reverse_safe (drain h) fuel (last l) a m = Done (a ++ rev l, m') /\ queue m' h [].
Proof.
  revert m l a. induction fuel as [|fuel IH]; intros m l a Hq Hf; destruct l as [|e l _] using rev_ind;
    try (exists m; by rewrite app_nil_r).
  { rewrite length_app in Hf. cbn in Hf. lia. }
  rewrite last_snoc, rev_unit. cbn [foreach_reverse_safe]. rewrite (queue_prev m h l e [] Hq). cbn [obind].
  destruct (drain_ok m h l e [] a Hq) as (m1 & -> & Hq1). cbn [obind]. rewrite app_nil_r in Hq1.
  rewrite length_app in Hf. cbn in Hf. destruct (IH m1 l (a ++ [e]) Hq1 ltac:(lia)) as (m' & E & ?). exists m'. by rewrite E, <- app_assoc.
Qed.

(** What the macros that read, and the loops, make of a queue with the
    elements [l]. *)
Definition reads_as (m : mem) (h : Z) (l : list Z) : Prop :=
  TAILQ_FIRST m h = Done (head l) /\ TAILQ_LAST m h = Done (last l)
  /\ TAILQ_EMPTY m h = Done (bool_decide (l = []))
  /\ TAILQ_FOREACH (fun e a m => Done (a ++ [e], m)) h [] m = Done (l, m)
  /\ TAILQ_FOREACH_REVERSE (fun e a m => Done (a ++ [e], m)) h [] m = Done (rev l, m)
  /\ (forall l1 e l2, l = l1 ++ e :: l2 -> TAILQ_NEXT m e = Done (head l2) /\ TAILQ_PREV m e = Done (last l1))
  /\ (exists m', TAILQ_FOREACH_SAFE (drain h) h [] m = Done (l, m') /\ queue m' h [])
  /\ (exists m', TAILQ_FOREACH_REVERSE_SAFE (drain h) h [] m = Done (rev l, m') /\ queue m' h []).

Lemma foldl_snoc (l a : list Z) : foldl (fun a e => a ++ [e]) a l = a ++ l.
Proof. revert a. induction l as [|e l IH]; intros a; cbn; [by rewrite app_nil_r|]. by rewrite IH, <- app_assoc. Qed.

Lemma queue_reads m h l : queue m h l -> reads_as m h l.
Proof.
  intros Hq. pose proof (queue_first _ _ _ Hq) as Hf. pose proof (queue_last _ _ _ Hq) as Hl. pose proof (queue_size _ _ _ Hq) as Hs.
  destruct (foreach_walks (fun a e => a ++ [e]) m h l [] Hq) as [W1 W2]. rewrite !foldl_snoc in *.
  split_and!; try done.
  - unfold TAILQ_EMPTY. rewrite Hf. by destruct l.
  - intros l1 e l2 ->. split; [by eapply queue_next|by eapply queue_prev].
  - unfold TAILQ_FOREACH_SAFE. change (load m (First h)) with (TAILQ_FIRST m h). rewrite Hf. by apply foreach_safe_drains.
  - unfold TAILQ_FOREACH_REVERSE_SAFE. rewrite Hl. by apply foreach_reverse_safe_drains.
Qed.

(** C9. The macros implement lists: whatever operations are carried out on any
    number of queues, with elements that are in no queue when they are
    inserted and in the queue they are said to be in otherwise, none of them
    makes an invalid access, the queues are the lists that the same
    operations give, and every loop visits exactly the elements, in order or
    in reverse; the safe loops allow their body to remove and free. *)
Theorem tailq_refines m σ os σ' :
  tails m σ -> spec_ops σ os = Some σ' -> Forall (live_op m) os ->
  exists m', run_ops m os = Done m' /\ tails m' σ' /\ forall h l, σ' !! h = Some l -> reads_as m' h l.
Proof.
  intros Ht E Hl. destruct (ops_simulate _ _ _ _ Ht E Hl) as (m' & Em & Ht' & _). exists m'. split_and!; auto.
  intros h l Eh. by apply queue_reads, Ht'.
Qed.

(** Two heads and four elements: every operation once. *)
Definition some_mem : mem :=
  list_to_map ((fun c => (c, Links None None)) <$> [First 1; First 2; Next 10; Next 11; Next 12; Next 13; Next 14]).
Definition some_ops : list op :=
  [Init 1; Init 2; InsertHead 1 10; InsertTail 1 11; InsertAfter 1 10 12; InsertBefore 11 13; InsertHead 2 14;
   Concat 1 2; Remove 1 12; Replace 1 13 12].

Lemma tailq_refines_witness :
  spec_ops ∅ some_ops = Some (<[1 := [10; 12; 11; 14]]> (<[2 := []]> ∅))
  /\ exists m', run_ops some_mem some_ops = Done m' /\ reads_as m' 1 [10; 12; 11; 14].
Proof.
  assert (E : spec_ops ∅ some_ops = Some (<[1 := [10; 12; 11; 14]]> (<[2 := []]> ∅))) by (vm_compute; reflexivity).
  split; [exact E|]. destruct (tailq_refines some_mem ∅ some_ops _ ltac:(split; done) E) as (m' & Em & _ & Hr).
  - repeat (apply Forall_cons; split; [intros c; cbn; try done; intros [= <-]; by vm_compute; eexists|]). by apply Forall_nil.
  - exists m'. split; [done|]. by apply Hr.
Defined.

End Queue.
