(* ===== verification/HmacMd5.v ===== *)
(** HMAC-MD5 as NTLMv2 uses it: src/hmac_md5.c. *)

From S2P Require Import Prelude Mdx Md5 World.

Module HmacMd5.
Import Mdx Md5.

(** An [MD5_CTX] on the stack. *)
Definition uninit_ctx : io ctx := b ← uninit 64; mret (Ctx 0 0 (0, 0, 0, 0) b).

(** [MD5_Init], [MD5_Update] with all of [data], [MD5_Final]. *)
Definition md5_once (data : bytes) : io bytes :=
  c ← uninit_ctx;
  c ← lift (MD5_Update (MD5_Init c) data (zlen data));
  '(d, _) ← lift (MD5_Final c);
  mret d.

(** [hmac] is the returned value; [None] is the failed allocation. Whether
    the 16 bytes go to the caller's buffer or to the static one, they are what
    the returned pointer points to. *)
Definition HMAC_MD5 (key : option bytes) (key_len : Z) (msg : option bytes) (msg_len : Z)
    : io (option bytes) :=
  key ← access key;
  msg ← access msg;
  let key_len := if 64 <? key_len then 64 else key_len in
  key_pad ← uninit 64;
  k ← access (sub key 0 key_len);
  key_pad ← access (put key_pad 0 k);
  key_pad ← (if key_len <? 64
             then access (put key_pad key_len (replicate (Z.to_nat (64 - key_len)) 0))
             else mret key_pad);
  let o_key_pad := Z.lxor 0x5c <$> key_pad in
  let i_key_pad := Z.lxor 0x36 <$> key_pad in
  cat ← malloc (u64 (msg_len + 64));
  match cat with
  | None => mret None
  | Some cat =>
      cat ← access (put cat 0 i_key_pad);
      m ← access (sub msg 0 msg_len);
      cat ← access (put cat 64 m);
      inner ← md5_once cat;
      key_pad ← access (put key_pad 0 inner);
      kcat ← uninit 80;
      kcat ← access (put kcat 0 o_key_pad);
      k16 ← access (sub key_pad 0 16);
      kcat ← access (put kcat 64 k16);
      out ← md5_once kcat;
      mret (Some out)
  end.

(** * Reference *)

(** RFC 2104 over MD5, except that a key longer than the block is cut instead
    of hashed. *)
Definition hmac_key (key : bytes) : bytes := take 64 key ++ replicate (64 - length key) 0.

Definition hmac_spec (key msg : bytes) : bytes :=
  md5_spec ((Z.lxor 0x5c <$> hmac_key key)
            ++ md5_spec ((Z.lxor 0x36 <$> hmac_key key) ++ msg)).

Lemma length_hmac_key key : length (hmac_key key) = 64%nat.
Proof. unfold hmac_key. len. Qed.

Lemma length_md5_spec msg : length (md5_spec msg) = 16%nat.
Proof. apply length_digest. Qed.

Lemma length_hmac_spec key msg : length (hmac_spec key msg) = 16%nat.
Proof. apply length_md5_spec. Qed.

Lemma hmac_spec_ok key msg : bytes_ok (hmac_spec key msg).
Proof. apply digest_ok. Qed.

#[export] Hint Rewrite length_hmac_key length_md5_spec length_hmac_spec : dsm_len.
#[export] Hint Resolve hmac_spec_ok : dsm.

Lemma md5_once_spec data w :
  zlen data < 18446744073709551616 ->
  exists w', md5_once data w = Done (md5_spec data, w') /\ later w w'.
Proof.
  intros Hd. unfold md5_once, uninit_ctx.
  set (c := Ctx 0 0 (0, 0, 0, 0) (junk_bytes w 64)).
  rewrite (bind_Done _ _ _ c (set_tick w (S (w_tick w)))) by done.
  destruct (update_spec block [] (MD5_Init c) data) as (c' & E & Hc').
  { apply init_absorbed. unfold c. cbn [buffer]. apply length_junk_bytes. }
  { done. }
  set (w1 := set_tick w (S (w_tick w))).
  rewrite (bind_Done _ _ _ c' w1) by (unfold lift, MD5_Update; by rewrite E).
  pose proof (final_spec block _ _ Hc') as F.
  rewrite (bind_Done _ _ _ (hash_spec block data, Ctx 0 0 (0, 0, 0, 0) (replicate 64 0)) w1)
    by (unfold lift, MD5_Final; by rewrite F).
  exists w1. split; [|by exists 1%nat]. unfold mret, io_ret, md5_spec. do 2 f_equal.
  apply hash_spec_ext, md5_block_rfc.
Qed.

(** Copying the key and clearing the rest gives the padded key. *)
Lemma key_pad_spec key (junk : bytes) key_len :
  0 <= key_len <= zlen key -> length junk = 64%nat ->
  let n := if 64 <? key_len then 64 else key_len in
  exists k b, sub key 0 n = Some k /\ put junk 0 k = Some b
    /\ (n < 64 -> put b n (replicate (Z.to_nat (64 - n)) 0)
                  = Some (hmac_key (take (Z.to_nat key_len) key)))
    /\ (64 <= n -> b = hmac_key (take (Z.to_nat key_len) key)).
Proof.
  intros Hk Hj n. assert (Hn : n = Z.min 64 key_len)
    by (unfold n; destruct (Z.ltb_spec 64 key_len); lia). clearbody n.
  set (k := take (Z.to_nat n) key). assert (Hlk : zlen k = n) by (unfold k; len).
  exists k, (k ++ drop (length k) junk). split_and!.
  - unfold k. rewrite sub_Some by len. by rewrite drop_0.
  - rewrite put_Some by len. by cbn [Z.to_nat take app].
  - intros Hlt. rewrite <- (app_nil_r (drop _ junk)).
    rewrite put_app by len. unfold hmac_key, k. f_equal. rewrite app_nil_r. f_equal.
    + rewrite take_take. f_equal. lia.
    + f_equal. len.
  - intros Hge. rewrite (drop_ge junk) by len. rewrite app_nil_r. unfold hmac_key, k.
    rewrite take_take, Hn. replace (Z.to_nat (64 `min` key_len)) with (64 `min` Z.to_nat key_len)%nat by lia.
    rewrite (proj2 (Nat.sub_0_le 64 _)) by len. by rewrite app_nil_r.
Qed.

(** The two concatenations, each into a block of exactly their size. *)
Lemma cat_spec x y (b : bytes) :
  length b = (length x + length y)%nat ->
  exists b1, put b 0 x = Some b1 /\ put b1 (zlen x) y = Some (x ++ y).
Proof.
  intros Hb. exists (x ++ drop (length x) b). split.
  - rewrite put_Some by len. by cbn [Z.to_nat take app].
  - rewrite <- (app_nil_r (drop _ b)), put_app by len. by rewrite app_nil_r.
Qed.

Lemma HMAC_MD5_spec key key_len msg msg_len w :
  0 <= key_len <= zlen key -> 0 <= msg_len <= zlen msg -> zlen msg < 9223372036854775808 ->
  exists w', HMAC_MD5 (Some key) key_len (Some msg) msg_len w
    = Done (if w_coin w (S (w_tick w))
            then Some (hmac_spec (take (Z.to_nat key_len) key) (take (Z.to_nat msg_len) msg))
            else None, w') /\ later w w'.
Proof.
  intros Hk Hm Hmax. unfold HMAC_MD5.
  rewrite !(bind_Done (access (Some _)) _ _ _ _ (access_Done _ _ _ eq_refl)).
  rewrite (bind_Done _ _ _ _ _ (uninit_Done 64 w)). set (w1 := set_tick w _).
  destruct (key_pad_spec key (junk_bytes w 64) key_len Hk (length_junk_bytes _ _))
    as (k & b & Hsub & Hput & Hlt & Hge).
  set (n := if 64 <? key_len then 64 else key_len) in *.
  rewrite (bind_Done _ _ _ _ _ (access_Done _ _ _ Hsub)).
  rewrite (bind_Done _ _ _ _ _ (access_Done _ _ _ Hput)).
  set (K := hmac_key (take (Z.to_nat key_len) key)) in *.
  rewrite (bind_Done _ _ _ K w1); cycle 1.
  { destruct (Z.ltb_spec n 64); [by apply access_Done, Hlt|by rewrite Hge]. }
  assert (HK : length K = 64%nat) by apply length_hmac_key.
  unfold malloc, flip. unfold mbind at 1, io_bind at 1. unfold mbind at 1, io_bind at 1.
  cbn [obind w1 set_tick w_coin w_tick]. destruct (w_coin w (S (w_tick w))); cycle 1.
  { eexists. split; [reflexivity|]. by exists 2%nat. }
  unfold mbind at 1, io_bind at 1. rewrite uninit_Done. cbn [obind mret io_ret].
  unfold mret at 1, io_ret at 1. cbn [obind]. set (w2 := set_tick _ _). set (w3 := set_tick _ _).
  set (m := take (Z.to_nat msg_len) msg).
  assert (Hm' : sub msg 0 msg_len = Some m) by (unfold m; rewrite sub_Some by lia; by rewrite drop_0).
  assert (Hml : zlen m = msg_len) by (unfold m; len).
  destruct (cat_spec (Z.lxor 0x36 <$> K) m (junk_bytes w2 (u64 (msg_len + 64)))) as (c1 & Hc1 & Hc2).
  { rewrite length_junk_bytes, u64_small by (unfold zlen in *; lia). len. }
  rewrite (bind_Done _ _ _ _ _ (access_Done _ _ _ Hc1)), (bind_Done _ _ _ _ _ (access_Done _ _ _ Hm')).
  replace (zlen (Z.lxor 0x36 <$> K)) with 64 in Hc2 by len.
  rewrite (bind_Done _ _ _ _ _ (access_Done _ _ _ Hc2)).
  destruct (md5_once_spec ((Z.lxor 0x36 <$> K) ++ m) w3) as (w4 & E4 & L4); [len|].
  rewrite (bind_Done _ _ _ _ _ E4). set (inner := md5_spec _).
  assert (Hi : length inner = 16%nat) by apply length_md5_spec.
  rewrite (bind_Done _ _ _ (inner ++ drop 16 K) w4)
    by (apply access_Done; rewrite put_Some by len; cbn [Z.to_nat take app]; by rewrite Hi).
  rewrite (bind_Done _ _ _ _ _ (uninit_Done 80 w4)). set (w5 := set_tick w4 _).
  destruct (cat_spec (Z.lxor 0x5c <$> K) inner (junk_bytes w4 80)) as (k1 & Hk1 & Hk2); [len|].
  rewrite (bind_Done _ _ _ _ _ (access_Done _ _ _ Hk1)).
  rewrite (bind_Done _ _ _ inner w5) by (apply access_Done, (sub_app [] inner); len).
  replace (zlen (Z.lxor 0x5c <$> K)) with 64 in Hk2 by len.
  rewrite (bind_Done _ _ _ _ _ (access_Done _ _ _ Hk2)).
  destruct (md5_once_spec ((Z.lxor 0x5c <$> K) ++ inner) w5) as (w6 & E6 & L6); [len|].
  rewrite (bind_Done _ _ _ _ _ E6). exists w6. split; [done|].
  eapply later_trans; [|exact L6]. apply (later_trans _ w4); [|by exists 1%nat].
  eapply later_trans; [|exact L4]. exists 3%nat. done.
Qed.

(** C32. [HMAC_MD5] stays inside its buffers, returns NULL exactly when its
    allocation fails, and otherwise returns HMAC-MD5 of the first [msg_len]
    bytes under the first [key_len] bytes: RFC 2104 with keys over 64 bytes
    cut. *)
Theorem HMAC_MD5_correct key key_len msg msg_len w :
  0 <= key_len <= zlen key -> 0 <= msg_len <= zlen msg -> zlen msg < 9223372036854775808 ->
  exists w', HMAC_MD5 (Some key) key_len (Some msg) msg_len w
    = Done (if w_coin w (S (w_tick w))
            then Some (hmac_spec (take (Z.to_nat key_len) key) (take (Z.to_nat msg_len) msg))
            else None, w').
Proof. intros Hk Hm Hx. destruct (HMAC_MD5_spec _ _ _ _ w Hk Hm Hx) as (w' & E & _). eauto. Qed.

Lemma HMAC_MD5_correct_witness :
  exists w', HMAC_MD5 (Some [1; 2; 3]) 2 (Some [4; 5; 6]) 3
      (World (fun _ => true) (fun _ => 0) (fun _ _ => 9) 0 [] false [] [])
    = Done (Some (hmac_spec [1; 2] [4; 5; 6]), w').
Proof.
  apply (HMAC_MD5_correct [1; 2; 3] 2 [4; 5; 6] 3
    (World (fun _ => true) (fun _ => 0) (fun _ _ => 9) 0 [] false [] [])); vm_compute; done.
Defined.

(** RFC 2202, test case 1. *)
Example hmac_md5_rfc2202 :
  le_word (rev (hmac_spec (replicate 16 0x0b) [72; 105; 32; 84; 104; 101; 114; 101]))
  = 0x9294727a3638bb1c13f48ef8158bfc9d.
Proof. vm_compute. reflexivity. Qed.

End HmacMd5.
