(* ===== verification/SmbBuffer.v ===== *)
(** Data with its size, and character set conversion: src/smb_buffer.c and
    src/smb_utils.c.

    iconv(3) is outside the sources: it is the class [Iconv], with what its
    manual promises as [IconvLaws]. *)

From S2P Require Import Prelude World.

Module SmbBuffer.

(** [data] points to the block; [None] is NULL. *)
Record smb_buffer := Buffer { data : option bytes; size : Z }.

Definition smb_buffer_init (data : option bytes) (size : Z) : smb_buffer := Buffer data size.

(** 1 or 0; on failure the size field keeps its value. *)
Definition smb_buffer_alloc (buf : smb_buffer) (n : Z) : io (Z * smb_buffer) :=
  d ← malloc n;
  match d with
  | Some d => mret (1, Buffer (Some d) n)
  | None => mret (0, Buffer None (size buf))
  end.

Definition smb_buffer_free (buf : smb_buffer) : smb_buffer :=
  match data buf with None => buf | Some _ => smb_buffer_init None 0 end.

(** A buffer whose size field is the size of its block. *)
Definition buffer_ok (b : smb_buffer) (d : bytes) : Prop :=
  data b = Some d /\ size b = zlen d.

End SmbBuffer.

Module SmbUtils.

(** The encodings the code names: that of the locale and "UCS-2LE". *)
Inductive encoding := Locale | UCS2LE.

Inductive iconv_result :=
| IcOk (out : bytes)       (* the whole input is converted *)
| IcTooBig                 (* -1 with E2BIG *)
| IcError.                 (* -1 with another errno *)

(** iconv_open(dst, src) and iconv on a whole input with [n] bytes of room. *)
Class Iconv := {
  iconv_open : encoding -> encoding -> bool;
  iconv : encoding -> encoding -> bytes -> Z -> iconv_result
}.

(** The output never exceeds the room; whether there is enough room is the
    only thing the room decides. *)
Class IconvLaws `{Iconv} := {
  iconv_fits s d src n out : iconv s d src n = IcOk out -> zlen out <= n /\ bytes_ok out;
  iconv_enough s d src n m out :
    iconv s d src n = IcOk out -> zlen out <= m -> iconv s d src m = IcOk out;
  iconv_too_big s d src n m out :
    iconv s d src n = IcOk out -> m < zlen out -> iconv s d src m = IcTooBig
}.

Section Utils.
Context `{Iconv}.

(** The loop over the multipliers [mul .. 15]: the size and [*dst]. *)
Fixpoint iconv_loop (k : nat) (mul : Z) (src : bytes) (src_len : Z) (s d : encoding)
    : io (Z * option bytes) :=
  match k with
  | O => mret (0, None)
  | S k =>
      let outlen := u64 (mul * src_len) in
      out ← malloc outlen;
      match out with
      | None => mret (0, None)
      | Some out =>
          i ← access (sub src 0 src_len);
          match iconv s d i outlen with
          | IcOk o =>
              out ← access (put out 0 o);
              mret (zlen o, if zlen o =? 0 then None else Some out)
          | IcTooBig => iconv_loop k (mul + 1) src src_len s d
          | IcError => mret (0, None)
          end
      end
  end.

(** The returned size and [*dst]. *)
Definition smb_iconv (src : bytes) (src_len : Z) (src_enc dst_enc : encoding)
    : io (Z * option bytes) :=
  if src_len =? 0 then mret (0, None)
  else if negb (iconv_open dst_enc src_enc) then mret (0, None)
  else iconv_loop 12 4 src src_len src_enc dst_enc.

Definition smb_to_utf16 (src : bytes) (src_len : Z) := smb_iconv src src_len Locale UCS2LE.
Definition smb_from_utf16 (src : bytes) (src_len : Z) := smb_iconv src src_len UCS2LE Locale.

(** * What the callers may rely on *)

(** The converted text: empty when there is no conversion. *)
Definition converted (r : Z * option bytes) (out : bytes) : Prop :=
  r.1 = zlen out /\ bytes_ok out
  /\ match r.2 with
     | None => out = []
     | Some b => exists post, b = out ++ post /\ out <> []
     end.

Context `{!IconvLaws}.

Lemma put_start out (b : bytes) :
  zlen out <= zlen b -> exists post, put b 0 out = Some (out ++ post).
Proof. intros Hl. rewrite put_Some by lia. eexists. by cbn [Z.to_nat take app]. Qed.

Lemma iconv_loop_total k mul src src_len s d w :
  0 <= src_len <= zlen src ->
  exists r out w', iconv_loop k mul src src_len s d w = Done (r, w')
    /\ converted r out /\ later w w'.
Proof.
  intros Hs. revert mul w. induction k as [|k IH]; intros mul w; cbn [iconv_loop].
  { exists (0, None), [], w. split_and!; auto with dsm. by repeat split. }
  destruct (malloc_Done (u64 (mul * src_len)) w) as (w1 & E1 & L1).
  rewrite (bind_Done _ _ _ _ _ E1). destruct (w_coin w (w_tick w)); cycle 1.
  { exists (0, None), [], w1. split_and!; auto. by repeat split. }
  rewrite (bind_Done _ _ _ (take (Z.to_nat src_len) src) w1)
    by (apply access_Done; rewrite sub_Some by lia; by rewrite drop_0).
  destruct (iconv s d _ _) as [o| |] eqn:Eo.
  - destruct (iconv_fits _ _ _ _ _ Eo) as [Hfit Hb].
    destruct (put_start o (junk_bytes (set_tick w (S (w_tick w))) (u64 (mul * src_len))))
      as [post Hput]. { unfold zlen at 2. rewrite length_junk_bytes. pose proof (u64_range (mul * src_len)). lia. }
    rewrite (bind_Done _ _ _ _ _ (access_Done _ _ _ Hput)).
    exists (zlen o, if zlen o =? 0 then None else Some (o ++ post)), o, w1.
    split; [done|]. split; [|done]. split; [done|]. split; [done|]. cbn [snd].
    destruct (Z.eqb_spec (zlen o) 0) as [E|E].
    + destruct o; [done|]. exfalso. len.
    + exists post. split; [done|]. by intros ->.
  - destruct (IH (mul + 1) w1) as (r & out & w' & E & Hc & L).
    exists r, out, w'. split_and!; auto. by eapply later_trans.
  - exists (0, None), [], w1. split_and!; auto. by repeat split.
Qed.

Lemma smb_iconv_total src src_len s d w :
  0 <= src_len <= zlen src ->
  exists r out w', smb_iconv src src_len s d w = Done (r, w')
    /\ converted r out /\ later w w'.
Proof.
  intros Hs. unfold smb_iconv.
  assert (Hnone : exists (r : Z * option bytes) out w', (mret (0, None) : io (Z * option bytes)) w = Done (r, w')
    /\ converted r out /\ later w w').
  { exists (0, None), [], w. split_and!; auto with dsm. by repeat split. }
  destruct (src_len =? 0); [exact Hnone|]. destruct (negb _); [exact Hnone|].
  by apply iconv_loop_total.
Qed.

(** The text that iconv makes of the first [n] bytes. *)
Definition converts (s d : encoding) (src : bytes) (n : Z) (out : bytes) : Prop :=
  exists room, iconv s d (take (Z.to_nat n) src) room = IcOk out /\ out <> [].

Lemma iconv_loop_inv k mul src src_len s d w r w' :
  0 <= src_len -> 0 <= mul -> mul + Z.of_nat k <= 16 ->
  iconv_loop k mul src src_len s d w = Done (r, w') ->
  r.1 = 0 \/ exists out b, converts s d src src_len out /\ r = (zlen out, Some b) /\ sub b 0 (zlen out) = Some out
            /\ 0 < zlen out <= 15 * src_len /\ bytes_ok out.
Proof.
  intros Hs. revert mul w. induction k as [|k IH]; intros mul w Hm Hk; cbn [iconv_loop].
  { intros [= <- _]. by left. }
  intros (out & w1 & _ & H1)%bind_inv. destruct out as [out|]; [|injection H1 as <- _; by left].
  apply bind_inv in H1 as (i & w2 & Hi & H1). unfold access, lift in Hi.
  destruct (sub src 0 src_len) as [i'|] eqn:Ei; [|done]. cbn in Hi. injection Hi as <- <-.
  apply sub_inv in Ei as (_ & _ & Hl & ->). change (Z.to_nat 0) with 0%nat in H1. rewrite drop_0 in H1.
  destruct (iconv s d _ _) as [o| |] eqn:Eo; [|eapply IH; [| |exact H1]; lia|injection H1 as <- _; by left].
  apply bind_inv in H1 as (b & w3 & Hb & H1). injection H1 as <- _. cbn [fst].
  destruct (Z.eqb_spec (zlen o) 0) as [->|Hne]; [by left|]. right.
  assert (Hpos : 0 < zlen o) by (unfold zlen in *; lia).
  apply iconv_fits in Eo as Ho. destruct Ho as [Ho Hok]. unfold u64 in Ho.
  pose proof (Z.mod_le (mul * src_len) 18446744073709551616).
  unfold access, lift in Hb. destruct (put out 0 o) as [b'|] eqn:Ep; [|done]. cbn in Hb. injection Hb as <- <-.
  exists o, b'. split_and!; auto; [|by apply sub_put_eq in Ep|nia].
  eexists. split; [exact Eo|]. intros ->. done.
Qed.

(** What a caller of [smb_to_utf16] gets: nothing, or the text. *)
Lemma to_utf16_wp src n w :
  0 <= n <= zlen src ->
  wp (smb_to_utf16 src n) (fun '(r, o) w' => later w w' /\ (r = 0 \/
    exists b out, o = Some b /\ sub b 0 r = Some out /\ bytes_ok out /\ 0 < r <= 15 * n
      /\ converts Locale UCS2LE src n out)) w.
Proof.
  intros Hn. destruct (smb_iconv_total src n Locale UCS2LE w Hn) as ([r o] & out & w' & E & _ & L).
  eapply wp_Done; [exact E|]. split; [done|]. unfold smb_iconv in E.
  destruct (n =? 0); [injection E as <- _ _; by left|]. destruct (negb _); [injection E as <- _ _; by left|].
  apply iconv_loop_inv in E as [E|(x & b & Hc & E & Hsub & Hl & Hb)]; try lia; [by left|].
  injection E as -> ->. right. exists b, x. done.
Qed.

Lemma iconv_loop_converts k mul src src_len s d out w n0 :
  0 < src_len <= zlen src -> 0 < mul -> (mul + Z.of_nat k) * src_len < 18446744073709551616 ->
  iconv s d (take (Z.to_nat src_len) src) n0 = IcOk out -> out <> [] ->
  zlen out <= (mul + Z.of_nat k - 1) * src_len -> (0 < k)%nat ->
  (forall n, w_coin w n = true) ->
  exists post w', iconv_loop k mul src src_len s d w = Done ((zlen out, Some (out ++ post)), w')
    /\ later w w'.
Proof.
  intros Hs Hm Hov Hic Hne. revert mul w Hm Hov. induction k as [|k IH]; intros mul w Hm Hov Hle Hk Hcoin; [lia|].
  cbn [iconv_loop]. destruct (malloc_Done (u64 (mul * src_len)) w) as (w1 & E1 & [t ->]).
  set (w1 := set_tick w (t + w_tick w)) in *.
  rewrite (bind_Done _ _ _ _ _ E1), Hcoin.
  rewrite (bind_Done _ _ _ (take (Z.to_nat src_len) src) w1)
    by (apply access_Done; rewrite sub_Some by lia; by rewrite drop_0).
  rewrite u64_small by nia. destruct (Z.le_gt_cases (zlen out) (mul * src_len)) as [Hfit|Hbig].
  - rewrite (iconv_enough _ _ _ _ _ _ Hic Hfit).
    destruct (put_start out (junk_bytes (set_tick w (S (w_tick w))) (mul * src_len))) as [post Hput].
    { unfold zlen at 2. rewrite length_junk_bytes. lia. }
    rewrite (bind_Done _ _ _ _ _ (access_Done _ _ _ Hput)).
    rewrite (proj2 (Z.eqb_neq (zlen out) 0)) by (destruct out; [done|len]).
    do 2 eexists. split; [done|]. by exists t.
  - rewrite (iconv_too_big _ _ _ _ _ _ Hic Hbig). destruct (IH (mul + 1) w1) as (post & w' & E & L); [lia| | | |exact Hcoin|].
    + replace (mul + 1 + Z.of_nat k) with (mul + Z.of_nat (S k)) by lia. done.
    + replace (mul + 1 + Z.of_nat k - 1) with (mul + Z.of_nat (S k) - 1) by lia. done.
    + destruct k; [|lia]. replace (mul + Z.of_nat 1 - 1) with mul in Hle by lia. lia.
    + exists post, w'. split; [done|]. eapply later_trans; [|exact L]. by exists t.
Qed.

Lemma smb_iconv_lucky src s d out n0 rest w :
  src <> [] -> 16 * zlen src < 18446744073709551616 -> iconv_open d s = true ->
  iconv s d src n0 = IcOk out -> out <> [] -> zlen out <= 15 * zlen src -> lucky w ->
  exists post w', smb_iconv (src ++ rest) (zlen src) s d w
      = Done ((zlen out, Some (out ++ post)), w') /\ later w w'.
Proof.
  intros Hsrc Hmax Hopen Hic Hne Hle Hcoin. unfold smb_iconv.
  assert (Hpos : 0 < zlen src) by (destruct src; [done|len]).
  rewrite (proj2 (Z.eqb_neq _ _)), Hopen by lia. cbn [negb].
  eapply iconv_loop_converts; try done; try lia; [len|].
  rewrite take_app_le by len. by rewrite take_ge by len.
Qed.

(** The text as a function: empty when there is no conversion (or none of at
    most 15 times the length). *)
Definition text (s d : encoding) (src : bytes) (n : Z) : bytes :=
  if iconv_open d s
  then match iconv s d (take (Z.to_nat n) src) (15 * n) with IcOk out => out | _ => [] end
  else [].

Lemma text_take src n a b : text a b src n = text a b (take (Z.to_nat n) src) n.
Proof. unfold text. by rewrite take_take, Nat.min_id. Qed.

Lemma text_size s d src n : 0 <= n -> bytes_ok (text s d src n) /\ 0 <= zlen (text s d src n) <= 15 * n.
Proof.
  intros Hn. unfold text. assert (Hnil : bytes_ok [] /\ 0 <= zlen ([] : bytes) <= 15 * n) by (split; [apply Forall_nil; done|len]).
  destruct (iconv_open d s); [|done]. destruct (iconv _ _ _ _) eqn:E; [|done..].
  apply iconv_fits in E as [? ?]. split; [done|]. unfold zlen in *. lia.
Qed.

Lemma smb_iconv_text src n s d w :
  0 <= n <= zlen src -> 16 * n < 18446744073709551616 ->
  wp (smb_iconv src n s d) (fun '(r, o) w' => later w w' /\
    (r = 0 /\ o = None /\ (lucky w -> text s d src n = [])
     \/ 0 < r /\ r = zlen (text s d src n) /\ exists b, o = Some b /\ sub b 0 r = Some (text s d src n))) w.
Proof.
  intros Hn Hmax. destruct (smb_iconv_total src n s d w Hn) as ([r o] & out & w' & E & (Hr & _ & Ho) & L).
  eapply wp_Done; [exact E|]. split; [done|]. cbn [fst snd] in *.
  destruct (Z.eq_dec r 0) as [Hr0|Hr0].
  - left. split; [done|]. split.
    { destruct o as [b|]; [|done]. destruct Ho as (post & _ & Hne). destruct out; [done|]. exfalso. len. }
    intros Hw. unfold text. destruct (iconv_open d s) eqn:Eo; [|done].
    destruct (iconv _ _ _ (15 * n)) as [out'| |] eqn:Ei; [|done..]. destruct out' as [|x out']; [done|]. exfalso.
    destruct (iconv_fits _ _ _ _ _ Ei) as [Hfit _].
    assert (Hl : zlen (take (Z.to_nat n) src) = n) by len.
    destruct (smb_iconv_lucky (take (Z.to_nat n) src) s d (x :: out') (15 * n) (drop (Z.to_nat n) src) w)
      as (post & w2 & E2 & _); auto; [|by rewrite Hl|by rewrite Hl|].
    { intros Ht. rewrite Ht in Hl. change (zlen []) with 0 in Hl. len. }
    rewrite take_drop, Hl, E in E2. injection E2 as E2 _ _. len.
  - right. unfold smb_iconv in E. destruct (n =? 0); [injection E as <- _ _; done|].
    destruct (iconv_open d s) eqn:Eo; cbn [negb] in E; [|injection E as <- _ _; done].
    apply iconv_loop_inv in E as [E|(x & b & (room & Hi & _) & E & Hsub & Hl & Hb)]; try lia; [done|].
    injection E as -> ->. unfold text. rewrite Eo, (iconv_enough _ _ _ _ (15 * n) _ Hi) by lia.
    split; [lia|]. split; [done|]. by exists b.
Qed.

(** The block of a conversion has room for at least four times the source. *)
Lemma iconv_loop_room k mul src n s d w r b w' :
  0 <= mul -> 0 <= n -> (mul + Z.of_nat k) * n < 18446744073709551616 ->
  iconv_loop k mul src n s d w = Done ((r, Some b), w') -> mul * n <= zlen b.
Proof.
  revert mul w. induction k as [|k IH]; intros mul w Hm Hn Hmax; cbn [iconv_loop]; [done|].
  intros (o & w1 & E1 & E)%bind_inv. destruct (malloc_Done (u64 (mul * n)) w) as (w1' & E1' & _).
  rewrite E1 in E1'. injection E1' as -> ->. destruct (w_coin w (w_tick w)); [|done].
  apply bind_inv in E as (i & w2 & _ & E). destruct (iconv s d i _) as [x| |]; [|apply IH in E; nia|done].
  apply bind_inv in E as (o & w3 & E3 & E). destruct (put _ 0 x) as [o'|] eqn:Ep; [|done].
  injection E3 as <- _. apply length_put in Ep. destruct (zlen x =? 0); [done|]. injection E as _ -> _.
  rewrite Ep. unfold zlen. rewrite length_junk_bytes, u64_small by nia. nia.
Qed.

Lemma smb_iconv_room src n s d w r b w' :
  0 <= n -> 16 * n < 18446744073709551616 ->
  smb_iconv src n s d w = Done ((r, Some b), w') -> 4 * n <= zlen b.
Proof.
  intros Hn Hmax. unfold smb_iconv. destruct (n =? 0); [done|]. destruct (negb _); [done|]. apply iconv_loop_room; lia.
Qed.

Lemma smb_iconv_Done src n s d w :
  0 <= n <= zlen src -> 16 * n < 18446744073709551616 ->
  exists r o w', smb_iconv src n s d w = Done ((r, o), w') /\ later w w' /\
    (r = 0 /\ o = None /\ (lucky w -> text s d src n = [])
     \/ 0 < r /\ r = zlen (text s d src n) /\ exists b, o = Some b /\ sub b 0 r = Some (text s d src n)).
Proof.
  intros Hn Hmax. destruct (smb_iconv_total src n s d w Hn) as ([r o] & out & w' & E & _).
  pose proof (smb_iconv_text src n s d w Hn Hmax) as H1. unfold wpf in H1. rewrite E in H1. by exists r, o, w'.
Qed.

(** Whenever iconv can convert the text and memory is available,
    [smb_iconv] (both directions) returns the whole conversion, whatever its
    length up to 15 times that of the source: a first buffer that is too small
    is replaced by larger ones. *)
Theorem smb_iconv_converts src s d out n0 w :
  src <> [] -> 16 * zlen src < 18446744073709551616 -> iconv_open d s = true ->
  iconv s d src n0 = IcOk out -> out <> [] -> zlen out <= 15 * zlen src ->
  (forall n, w_coin w n = true) ->
  exists post w', smb_iconv src (zlen src) s d w = Done ((zlen out, Some (out ++ post)), w').
Proof.
  intros Hsrc Hmax Hopen Hic Hne Hle Hcoin.
  destruct (smb_iconv_lucky src s d out n0 [] w) as (post & w' & E & _); auto.
  rewrite app_nil_r in E. eauto.
Qed.

End Utils.

(** ISO 8859-1 to UCS-2LE and back, for the witnesses: a concrete converter. *)
Definition latin1_to_ucs2 (src : bytes) : bytes := src ≫= fun b => [u8 b; 0].
Fixpoint ucs2_to_latin1 (src : bytes) : option bytes :=
  match src with
  | [] => Some []
  | lo :: hi :: src => if hi =? 0 then o ← ucs2_to_latin1 src; Some (u8 lo :: o) else None
  | _ => None
  end.
Definition convert (s d : encoding) (src : bytes) : option bytes :=
  match s, d with
  | Locale, UCS2LE => Some (latin1_to_ucs2 src)
  | UCS2LE, Locale => ucs2_to_latin1 src
  | _, _ => None
  end.

#[export] Instance latin1 : Iconv := {|
  iconv_open _ _ := true;
  iconv s d src n :=
    match convert s d src with
    | Some o => if zlen o <=? n then IcOk o else IcTooBig
    | None => IcError
    end
|}.

Lemma ucs2_to_latin1_ok src o : ucs2_to_latin1 src = Some o -> bytes_ok o.
Proof.
  revert o. induction src as [src IH] using (induction_ltof1 _ length). unfold ltof in IH.
  intros o. destruct src as [|lo [|hi src]]; cbn [ucs2_to_latin1]; [intros [= <-]; by apply Forall_nil|done|].
  destruct (hi =? 0); [|done]. destruct (ucs2_to_latin1 src) as [o'|] eqn:E; [|done]. intros [= <-].
  apply Forall_cons. split; [apply u8_range|]. eapply IH; [|exact E]. cbn. lia.
Qed.

Lemma convert_ok s d src o : convert s d src = Some o -> bytes_ok o.
Proof.
  destruct s, d; cbn [convert]; try done; [intros [= <-]|by apply ucs2_to_latin1_ok].
  unfold latin1_to_ucs2. apply Forall_bind, Forall_forall.
  intros b _. apply Forall_cons; split; [apply u8_range|]. apply Forall_singleton. done.
Qed.

#[export] Instance latin1_laws : IconvLaws.
Proof.
  split; intros s d src n; cbn [iconv latin1]; destruct (convert s d src) as [o|] eqn:E; try done;
    destruct (Z.leb_spec (zlen o) n); try done; intros * [= <-].
  - split; [done|]. by eapply convert_ok.
  - intros Hm. by rewrite (proj2 (Z.leb_le _ _)).
  - intros Hm. by rewrite (proj2 (Z.leb_gt _ _)).
Qed.

Lemma smb_iconv_converts_witness :
  exists post w', smb_iconv [104; 105] (zlen [104; 105]) Locale UCS2LE
      (World (fun _ => true) (fun _ => 0) (fun _ _ => 9) 0 [] false [] [])
    = Done ((zlen [104; 0; 105; 0], Some ([104; 0; 105; 0] ++ post)), w').
Proof.
  apply (smb_iconv_converts [104; 105] Locale UCS2LE [104; 0; 105; 0] 100
    (World (fun _ => true) (fun _ => 0) (fun _ _ => 9) 0 [] false [] []));
    try done; vm_compute; done.
Defined.

End SmbUtils.
