(* ===== verification/Compat.v ===== *)
(** The replacements of C library functions: compat/strlcpy.c,
    compat/strndup.c and compat/clock_gettime.c. *)

From S2P Require Import Prelude World.

Module Compat.

(** [while ( --n != 0) if (( *d++ = *s++) == 0) break;] with [n], the offset [k]
    of both pointers, and the destination; the last component says that the
    loop copied the terminator. *)
Fixpoint strlcpy_loop (n : nat) (k : Z) (dst src : bytes) : outcome (nat * Z * bytes) :=
  match n with
  | O => Done (O, k, dst)
  | S O => Done (O, k, dst)
  | S n =>
      let* c := checked (rd src k) in
      let* dst := checked (wr dst k c) in
      if c =? 0 then Done (n, k + 1, dst) else strlcpy_loop n (k + 1) dst src
  end.

(** [while ( *s++);] from offset [k]: the offset behind the terminator. *)
Definition skip_string (src : bytes) (k : Z) : outcome Z :=
  let* n := checked (strlen (drop (Z.to_nat k) src)) in Done (k + n + 1).

(** The returned length and the destination. *)
Definition strlcpy (dst src : bytes) (siz : Z) : outcome (Z * bytes) :=
  let* (n, k, dst) := (if negb (siz =? 0)
                       then strlcpy_loop (Z.to_nat siz) 0 dst src else Done (O, 0, dst)) in
  match n with
  | O =>
      let* dst := (if negb (siz =? 0) then checked (wr dst k 0) else Done dst) in
      let* s := skip_string src k in
      Done (s - 1, dst)
  | S _ => Done (k - 1, dst)
  end.

(** strnlen(3): at most [n] bytes are read. *)
Fixpoint strnlen (s : bytes) (n : nat) : option Z :=
  match n with
  | O => Some 0
  | S n =>
      match s with
      | [] => None
      | c :: s => if c =? 0 then Some 0 else Z.succ <$> strnlen s n
      end
  end.

Definition strndup (str : bytes) (n : Z) : io (option bytes) :=
  len ← access (strnlen str (Z.to_nat n));
  copy ← malloc (len + 1);
  match copy with
  | None => mret None
  | Some copy =>
      d ← access (sub str 0 len);
      copy ← access (put copy 0 d);
      copy ← access (wr copy len 0);
      mret (Some copy)
  end.

(** * Lemmas *)

Lemma strlcpy_loop_spec n s rest done_ dst :
  cstring_ok s -> (1 <= n)%nat -> (n <= length dst)%nat ->
  exists n' k dst',
    strlcpy_loop n (zlen done_) (done_ ++ dst) (done_ ++ s ++ 0 :: rest) = Done (n', k, dst')
    /\ if (length s <? n - 1)%nat
       then n' <> O /\ k = zlen done_ + zlen s + 1
            /\ dst' = done_ ++ s ++ 0 :: drop (length s + 1) dst
       else n' = O /\ k = zlen done_ + Z.of_nat (n - 1)
            /\ dst' = done_ ++ take (n - 1) s ++ drop (n - 1) dst.
Proof.
  intros Hs. revert s done_ dst Hs. induction n as [|[|n] IH]; intros s done_ dst Hs Hn Hd; [lia| |].
  { do 3 eexists. split; [reflexivity|]. cbn [Nat.sub]. rewrite (proj2 (Nat.ltb_ge _ _)) by lia.
    rewrite take_0, drop_0. split_and!; auto; lia. }
  destruct dst as [|o dst]; [simpl in Hd; lia|].
  change (strlcpy_loop (S (S n)) (zlen done_) (done_ ++ o :: dst) (done_ ++ s ++ 0 :: rest))
    with (let* c := checked (rd (done_ ++ s ++ 0 :: rest) (zlen done_)) in
          let* d := checked (wr (done_ ++ o :: dst) (zlen done_) c) in
          if c =? 0 then Done (S n, zlen done_ + 1, d)
          else strlcpy_loop (S n) (zlen done_ + 1) d (done_ ++ s ++ 0 :: rest)).
  destruct s as [|c s].
  - cbn [app]. rewrite rd_app by done. cbn [checked obind]. rewrite wr_app by done. cbn [checked obind Z.eqb].
    do 3 eexists. split; [reflexivity|]. rewrite (proj2 (Nat.ltb_lt _ _)) by (simpl; lia).
    split; [done|]. split; [len|done].
  - cbn [app]. rewrite rd_app by done. cbn [checked obind]. rewrite wr_app by done. cbn [checked obind].
    apply Forall_cons in Hs as [Hc Hs]. rewrite (proj2 (Z.eqb_neq c 0)) by lia.
    destruct (IH s (done_ ++ [c]) dst Hs) as (n' & k & dst' & E & H); [lia|simpl in Hd; lia|].
    replace (zlen (done_ ++ [c])) with (zlen done_ + 1) in * by len.
    rewrite <- !app_assoc in E. cbn [app] in E. exists n', k, dst'. split; [done|].
    revert H. cbn [length Nat.sub].
    replace (S (length s) <? S n)%nat with (length s <? n)%nat by done.
    destruct (length s <? n - 0)%nat eqn:El; rewrite Nat.sub_0_r in El; rewrite El;
      intros (? & -> & ->); (split_and!; [done|len|]); rewrite <- !app_assoc; cbn [app].
    + done.
    + do 2 f_equal. by rewrite Nat.sub_0_r.
Qed.

Lemma strlcpy_run dst s rest siz :
  cstring_ok s -> 1 <= siz <= zlen dst ->
  let n := Nat.min (length s) (Z.to_nat siz - 1) in
  strlcpy dst (s ++ 0 :: rest) siz
  = Done (zlen s, take n s ++ 0 :: drop (n + 1) dst).
Proof.
  intros Hs Hsz n. unfold strlcpy. rewrite (proj2 (Z.eqb_neq siz 0)) by lia. cbn [negb].
  destruct (strlcpy_loop_spec (Z.to_nat siz) s rest [] dst Hs) as (n' & k & dst' & E & H); [len..|].
  cbn [app] in E, H. change (zlen []) with 0 in *. rewrite E. cbn [obind].
  destruct (Nat.ltb_spec (length s) (Z.to_nat siz - 1)) as [Hlt|Hge].
  - destruct H as (Hn' & -> & ->). destruct n'; [done|]. unfold n. f_equal. f_equal; [lia|].
    rewrite Nat.min_l by lia. by rewrite take_ge by lia.
  - destruct H as (-> & -> & ->). set (m := (Z.to_nat siz - 1)%nat) in *.
    assert (Hm : n = m) by (unfold n; lia). rewrite Hm.
    destruct (drop m dst) as [|o r] eqn:Ed.
    { apply (f_equal length) in Ed. rewrite length_drop in Ed. simpl in Ed. len. }
    rewrite wr_app by len. cbn [checked obind]. unfold skip_string.
    assert (Ek : Z.to_nat (0 + Z.of_nat m) = m) by lia. rewrite Ek.
    rewrite drop_app_le by lia. rewrite strlen_cstr by (by apply Forall_drop).
    cbn [checked obind]. rewrite <- drop_drop, Ed. do 2 f_equal. len.
Qed.

(** [strlcpy] on a C string [s] and a destination of at least [siz] bytes
    ([siz] positive): it returns the length of [s], stores the first
    [siz - 1] characters of [s] at most, always with a terminator, and touches
    no byte behind it. *)
Theorem strlcpy_correct dst s rest siz :
  cstring_ok s -> 1 <= siz <= zlen dst ->
  let n := Nat.min (length s) (Z.to_nat siz - 1) in
  strlcpy dst (s ++ 0 :: rest) siz
  = Done (zlen s, take n s ++ 0 :: drop (n + 1) dst).
Proof. apply strlcpy_run. Qed.

Lemma strlcpy_correct_witness :
  strlcpy (replicate 6 7) ([97; 98; 99; 100] ++ 0 :: []) 3
  = Done (zlen [97; 98; 99; 100], take 2 [97; 98; 99; 100] ++ 0 :: drop (2 + 1) (replicate 6 7)).
Proof.
  apply (strlcpy_correct (replicate 6 7) [97; 98; 99; 100] [] 3).
  - repeat (apply Forall_cons; split; [lia|]). constructor.
  - vm_compute; done.
Defined.

Lemma strnlen_spec s rest n :
  cstring_ok s -> strnlen (s ++ 0 :: rest) n = Some (Z.of_nat (Nat.min n (length s))).
Proof.
  revert n. induction s as [|c s IH]; intros n Hs.
  - by destruct n.
  - destruct n as [|n]; [done|]. apply Forall_cons in Hs as [Hc Hs]. cbn [app strnlen].
    rewrite (proj2 (Z.eqb_neq c 0)), IH by (done || lia). cbn. f_equal. lia.
Qed.

Lemma strndup_spec s rest n w :
  cstring_ok s -> 0 <= n ->
  exists w', strndup (s ++ 0 :: rest) n w
    = Done (if w_coin w (w_tick w) then Some (cstr (take (Z.to_nat n) s)) else None, w')
    /\ later w w'.
Proof.
  intros Hs Hn. unfold strndup.
  rewrite (bind_Done _ _ _ _ _ (access_Done _ _ _ (strnlen_spec s rest _ Hs))).
  set (m := Nat.min (Z.to_nat n) (length s)).
  destruct (malloc_Done (Z.of_nat m + 1) w) as (w1 & E & L).
  rewrite (bind_Done _ _ _ _ _ E). exists w1. destruct (w_coin w (w_tick w)); [|done].
  assert (Et : take (Z.to_nat n) s = take m s).
  { unfold m. destruct (Nat.le_ge_cases (Z.to_nat n) (length s)).
    - by rewrite Nat.min_l by lia.
    - rewrite Nat.min_r by lia. rewrite !take_ge by lia. done. }
  rewrite (bind_Done _ _ _ (take m s) w1)
    by (apply access_Done; rewrite sub_Some by len; rewrite drop_0, Nat2Z.id, take_app_le; [done|len]).
  assert (Hlm : length (take m s) = m) by len.
  set (j := junk_bytes _ _). assert (Hj : length j = (m + 1)%nat) by (unfold j; len).
  rewrite (bind_Done _ _ _ (take m s ++ drop m j) w1).
  2: { apply access_Done. rewrite put_Some by len. cbn [Z.to_nat take app]. by rewrite Hlm. }
  destruct (drop m j) as [|o r] eqn:Ed.
  { apply (f_equal length) in Ed. rewrite length_drop in Ed. simpl in Ed. lia. }
  rewrite (bind_Done _ _ _ (take m s ++ 0 :: r) w1) by (apply access_Done, wr_app; len).
  split; [|done]. unfold mret, io_ret, cstr. rewrite Et. do 4 f_equal.
  apply (f_equal length) in Ed. rewrite length_drop in Ed. simpl in Ed.
  f_equal. destruct r; [done|]. simpl in Ed. lia.
Qed.

(** * clock_gettime *)

Record timespec := Timespec { tv_sec : Z; tv_nsec : Z }.

Definition CLOCK_REALTIME : Z := 0.
Definition KERN_SUCCESS : Z := 0.

(** On Mach: the two services of the kernel give a status, and the clock or
    the time. *)
Definition clock_gettime_mach (CALENDAR_CLOCK SYSTEM_CLOCK : Z) (host_get_clock_service : Z -> Z * Z)
    (clock_get_time : Z -> Z * timespec) (clk_id : Z) (tp : timespec) : Z * timespec :=
  if negb (clk_id =? CLOCK_REALTIME) then (-1, tp)
  else
    let clk_serv_id := if clk_id =? CLOCK_REALTIME then CALENDAR_CLOCK else SYSTEM_CLOCK in
    let (ret, clk) := host_get_clock_service clk_serv_id in
    let (ret, tp) := if ret =? KERN_SUCCESS
                     then let (ret, tm) := clock_get_time clk in
                          (ret, if ret =? KERN_SUCCESS then Timespec (tv_sec tm) (tv_nsec tm) else tp)
                     else (ret, tp) in
    if negb (ret =? KERN_SUCCESS) then (-1, tp) else (0, tp).

(** On Windows: the two 32-bit halves of the system time, in 100 ns since
    1601; [time_t] has 64 bits, [long] 32. *)
Definition clock_gettime_win (dwHighDateTime dwLowDateTime : Z) : Z * timespec :=
  let t := Z.lor (u64 (Z.shiftl dwHighDateTime 32)) dwLowDateTime in
  let t := u64 (t - 116444736000000000) in
  (0, Timespec (t `div` 10000000) (s32 (t `mod` 10000000 * 100))).

(** The time is set exactly when 0 is returned, and only the real-time clock
    is served; on Windows, from 1970 on, the seconds and nanoseconds are the
    system time, in range. *)
Theorem clock_gettime_correct cal sys serv get clk_id tp hi lo :
  0 <= hi < 4294967296 -> 0 <= lo < 4294967296 -> 116444736000000000 <= hi * 4294967296 + lo ->
  (let (r, tp') := clock_gettime_mach cal sys serv get clk_id tp in
   r = -1 /\ tp' = tp /\ (clk_id <> CLOCK_REALTIME \/ (serv cal).1 <> KERN_SUCCESS \/ (get (serv cal).2).1 <> KERN_SUCCESS)
   \/ r = 0 /\ clk_id = CLOCK_REALTIME /\ tp' = (get (serv cal).2).2)
  /\ (let (r, tp') := clock_gettime_win hi lo in
      r = 0 /\ 0 <= tv_nsec tp' < 1000000000
      /\ tv_sec tp' * 10000000 + tv_nsec tp' `div` 100 = hi * 4294967296 + lo - 116444736000000000).
Proof.
  intros Hhi Hlo Ht. split.
  - unfold clock_gettime_mach. destruct (Z.eqb_spec clk_id CLOCK_REALTIME) as [->|]; cbn [negb]; [|left; auto].
    destruct (serv cal) as [r1 clk]. destruct (Z.eqb_spec r1 KERN_SUCCESS) as [->|Hr]; cbn [fst snd].
    + destruct (get clk) as [r2 tm]. destruct (Z.eqb_spec r2 KERN_SUCCESS) as [->|Hr]; cbn [negb fst snd].
      * right. by destruct tm.
      * left. auto.
    + rewrite (proj2 (Z.eqb_neq _ _)) by done. left. auto.
  - unfold clock_gettime_win. set (t0 := Z.lor _ lo).
    assert (E : t0 = hi * 4294967296 + lo).
    { unfold t0. rewrite u64_small by (rewrite Z.shiftl_mul_pow2 by lia; change (2 ^ 32) with 4294967296; lia).
      rewrite Z.lor_comm, (lor_shiftl 32) by (change (2 ^ 32) with 4294967296; lia). change (2 ^ 32) with 4294967296. lia. }
    rewrite E, (u64_small (_ - _)) by lia. split; [done|]. cbn [tv_sec tv_nsec].
    assert (Hs : s32 ((hi * 4294967296 + lo - 116444736000000000) `mod` 10000000 * 100)
              = (hi * 4294967296 + lo - 116444736000000000) `mod` 10000000 * 100).
    { pose proof (Z.mod_pos_bound (hi * 4294967296 + lo - 116444736000000000) 10000000 ltac:(lia)). widths. zdiv. }
    rewrite Hs. zdiv.
Qed.

End Compat.
