(* ===== verification/NetbiosUtils.v ===== *)
(** NetBIOS names and the abort context: src/netbios_utils.c.

    [char] is signed: a stored byte [b] is read as [s8 b]. [toupper] is the one
    of the C locale on the range of [char]. *)

From S2P Require Import Prelude World.

Module NetbiosUtils.

Definition NETBIOS_NAME_LENGTH : Z := 15.

Definition toupper (c : Z) : Z := if (97 <=? c) && (c <=? 122) then c - 32 else c.

(** * Name encoding *)

(** [c] is the value of a [char]; the result is a [short]. *)
Definition nibble_encode (c : Z) : Z :=
  let n1 := s16 (Z.shiftr (toupper c) 4 + 65) in
  let n2 := s16 (Z.land (toupper c) 0x0f + 65) in
  s16 (Z.lor (Z.shiftl n1 8) n2).

(** The stored byte of [nibble_decode]. *)
Definition nibble_decode (c1 c2 : Z) : Z :=
  u8 (Z.shiftl (c1 - 65) 4 + (c2 - 65)).

(** The body of the loop: two letters of [encoded_name]. *)
Definition encode_char (name : bytes) (name_length off i : Z) (buf : bytes)
    : outcome bytes :=
  if i <? name_length
  then
    let* c := checked (rd name i) in
    let* buf := checked (wr buf (off + 2 * i) (u8 (Z.shiftr (nibble_encode (s8 c)) 8))) in
    checked (wr buf (off + 2 * i + 1) (u8 (Z.land (nibble_encode (s8 c)) 0x00ff)))
  else
    let* buf := checked (wr buf (off + 2 * i) 67) in
    checked (wr buf (off + 2 * i + 1) 65).

(** [name] and the buffer of [encoded_name] are objects; [encoded_name] points
    to [off] in its buffer. *)
Definition netbios_name_level1_encode (name buf : bytes) (off type : Z)
    : outcome bytes :=
  let* len := checked (strlen name) in
  let name_length := if NETBIOS_NAME_LENGTH <? len then NETBIOS_NAME_LENGTH else len in
  let* buf := for_range 15 0 (encode_char name name_length off) buf in
  let* buf := checked (wr buf (off + 30) (u8 (Z.shiftr (nibble_encode (s8 type)) 8))) in
  let* buf := checked (wr buf (off + 31) (u8 (Z.land (nibble_encode (s8 type)) 0x00ff))) in
  checked (wr buf (off + 32) 0).

Definition netbios_name_level1_decode (encoded : bytes) (off : Z) (name : bytes)
    : outcome bytes :=
  let* name := for_range 15 0 (fun i name =>
    let* c1 := checked (rd encoded (off + 2 * i)) in
    let* c2 := checked (rd encoded (off + 2 * i + 1)) in
    checked (wr name i (nibble_decode (s8 c1) (s8 c2)))) name in
  checked (wr name NETBIOS_NAME_LENGTH 0).

(** The parameter [domain] is not used. *)
Definition netbios_name_encode (name : option bytes) (type : Z) : io (option bytes) :=
  match name with
  | None => mret None
  | Some name =>
      e ← malloc 34;
      match e with
      | None => mret None
      | Some e =>
          e ← access (wr e 0 32);
          e ← lift (netbios_name_level1_encode name e 1 type);
          e ← access (wr e 33 0);
          mret (Some e)
      end
  end.

(** The returned int and the buffer [name]. *)
Definition netbios_name_decode (encoded : option bytes) (name : option bytes)
    : outcome (Z * option bytes) :=
  match encoded, name with
  | Some encoded, Some name =>
      let* encoded_length := checked (strlen encoded) in
      if negb (encoded_length =? 33) then Done (-1, Some name)
      else
        let* name := netbios_name_level1_decode encoded 1 name in
        let* name := checked (wr name 33 0) in
        Done (32, Some name)
  | _, _ => Done (-1, name)
  end.

(** * The abort context (the variant with a pipe) *)

Record netbios_abort_ctx := AbortCtx { pipe0 : Z; pipe1 : Z }.

(** The descriptors are closed and forgotten. *)
Definition netbios_abort_ctx_destroy (ctx : netbios_abort_ctx) : netbios_abort_ctx :=
  if negb (pipe0 ctx =? -1) && negb (pipe1 ctx =? -1) then AbortCtx (-1) (-1) else ctx.

Definition netbios_abort_ctx_init (ctx : netbios_abort_ctx)
    : io (Z * netbios_abort_ctx) :=
  opened ← flip;
  if negb opened then mret (-1, ctx)
  else
    p0 ← pick; p1 ← pick;
    let ctx := AbortCtx (Z.abs p0) (Z.abs p1) in
    getfl ← flip;
    if negb getfl then mret (-1, netbios_abort_ctx_destroy ctx)
    else
      setfl ← flip;
      if negb setfl then mret (-1, netbios_abort_ctx_destroy ctx)
      else mret (0, ctx).

Definition pipe_state (late : bool) : io bool :=
  fun w => let w := if late then set_aborted w else w in Done (w_aborted w, w).

(** [select] with a zero timeout; another thread may have written the byte. *)
Definition netbios_abort_ctx_is_aborted (ctx : netbios_abort_ctx) : io bool :=
  works ← flip;
  quiet ← flip;
  aborted ← pipe_state (negb quiet);
  mret (negb works || aborted).

Definition netbios_abort_ctx_abort (ctx : netbios_abort_ctx) : io unit :=
  fun w => Done (tt, set_aborted w).

(** * Reference: the first-level encoding of RFC 1001, section 14.1 *)

(** The two halves of a byte, each as a letter from 'A' on. *)
Definition half_ascii (b : Z) : bytes := [b `div` 16 + 65; b `mod` 16 + 65].

(** Upper case, blank-padded to 15 characters, the type as the 16th. *)
Definition canonical (name : bytes) (type : Z) : bytes :=
  (toupper <$> take 15 name) ++ replicate (15 - length name) 32 ++ [toupper type].

Definition encoded_spec (name : bytes) (type : Z) : bytes :=
  32 :: (canonical name type ≫= half_ascii) ++ [0].

Definition is_ascii (c : Z) : Prop := 0 <= c < 128.

(** * Lemmas *)

(** What the code stores for one [char]: as [half_ascii], but the high half
    is sign-extended. *)
Definition code (b : Z) : bytes :=
  [u8 (Z.shiftr (nibble_encode (s8 b)) 8); u8 (Z.land (nibble_encode (s8 b)) 0xff)].

(** A decidable statement about all bytes, by evaluation. *)
Lemma byte_cases (P : Z -> Prop) `{!forall b, Decision (P b)} :
  forallb (fun i => bool_decide (P (Z.of_nat i))) (seq 0 256) = true ->
  forall b, is_byte b -> P b.
Proof.
  intros Hall b Hb. rewrite <- (Z2Nat.id b) by apply Hb.
  eapply bool_decide_eq_true, (proj1 (forallb_forall _ _) Hall), in_seq.
  unfold is_byte in Hb. lia.
Qed.

Lemma code_ascii b : is_ascii b -> code b = half_ascii (toupper b).
Proof.
  intros Hb. assert (b < 128 -> code b = half_ascii (toupper b)) as E;
    [|apply E, Hb].
  apply (byte_cases (fun b => b < 128 -> code b = half_ascii (toupper b))).
  - vm_compute. reflexivity.
  - unfold is_byte, is_ascii in *. lia.
Qed.

(** The letters never contain a NUL, and decoding undoes encoding. *)
Lemma code_bytes b :
  is_byte b -> exists c1 c2, code b = [c1; c2] /\ 1 <= c1 < 256 /\ 1 <= c2 < 256
    /\ nibble_decode (s8 c1) (s8 c2) = toupper b.
Proof.
  intros Hb. do 2 eexists. split; [reflexivity|]. revert b Hb.
  refine (byte_cases _ _). vm_compute. reflexivity.
Qed.

Lemma code_length b : length (code b) = 2%nat.
Proof. done. Qed.

Lemma length_codes l : length (l ≫= code) = (2 * length l)%nat.
Proof. induction l as [|b l IH]; [done|]. rewrite bind_cons, length_app, IH. simpl. lia. Qed.

(** Two adjacent stores behind a prefix. *)
Lemma store_pair (pre : bytes) o1 o2 post n x y :
  n = zlen pre ->
  (let* b := checked (wr (pre ++ o1 :: o2 :: post) n x) in checked (wr b (n + 1) y))
  = Done ((pre ++ [x; y]) ++ post).
Proof.
  intros ->. rewrite wr_app by done. cbn [checked obind].
  change (x :: o2 :: post) with ([x] ++ o2 :: post). rewrite app_assoc.
  rewrite wr_app by len. by rewrite <- !app_assoc.
Qed.

Lemma length_2_inv {A} (l : list A) n :
  length l = S (S n) -> exists x y r, l = x :: y :: r /\ length r = n.
Proof. intros (x & l' & -> & (y & r & -> & <-)%length_cons_inv)%length_cons_inv. eauto 6. Qed.

(** The first 15 characters, the last ones blank. *)
Definition blank_padded (name : bytes) : bytes :=
  take 15 name ++ replicate (15 - length name) 32.

Lemma length_blank_padded name : length (blank_padded name) = 15%nat.
Proof. unfold blank_padded. len. Qed.

Lemma encode_char_spec name pre i rest :
  let done_ := take (Z.to_nat i) (blank_padded name) in
  0 <= i < 15 -> length rest = (33 - 2 * Z.to_nat i)%nat ->
  exists rest',
    encode_char (cstr name) (Z.min 15 (zlen name)) (zlen pre) i
      ((pre ++ (done_ ≫= code)) ++ rest)
    = Done ((pre ++ (take (Z.to_nat (i + 1)) (blank_padded name) ≫= code)) ++ rest')
    /\ length rest' = (33 - 2 * Z.to_nat (i + 1))%nat.
Proof.
  intros done_ Hi Hrest. pose proof (length_blank_padded name) as Hlen.
  set (p := pre ++ (done_ ≫= code)).
  assert (Hp : zlen p = zlen pre + 2 * i)
    by (unfold p, done_, zlen; rewrite length_app, length_codes, length_take; lia).
  destruct (length_2_inv rest (33 - 2 * Z.to_nat (i + 1))) as (o1 & o2 & r & -> & Hr); [lia|].
  destruct (lookup_lt_is_Some_2 (blank_padded name) (Z.to_nat i)) as [c Hc]; [lia|].
  exists r. split; [|done]. replace (Z.to_nat (i + 1)) with (S (Z.to_nat i)) by lia.
  rewrite (take_S_r _ _ _ Hc), bind_app, app_assoc. fold done_ p.
  cbn [mbind list_bind]. rewrite app_nil_r. unfold blank_padded in Hc. unfold encode_char.
  destruct (Z.ltb_spec i (Z.min 15 (zlen name))) as [Hlt|Hge].
  - rewrite lookup_app_l, lookup_take_lt in Hc by len. unfold cstr.
    rewrite rd_lookup, lookup_app_l, Hc by (unfold zlen in *; lia). cbn [checked obind].
    by rewrite store_pair by lia.
  - rewrite lookup_app_r in Hc by len. apply lookup_replicate in Hc as [-> _].
    by rewrite store_pair by lia.
Qed.

Lemma level1_encode_spec name pre old type :
  cstring_ok name -> length old = 33%nat ->
  netbios_name_level1_encode (cstr name) (pre ++ old) (zlen pre) type
  = Done (pre ++ ((blank_padded name ++ [type]) ≫= code) ++ [0]).
Proof.
  intros Hn Hl. unfold netbios_name_level1_encode.
  unfold cstr at 1. rewrite strlen_cstr by done. cbn [checked obind].
  assert (Enl : forall n, (if NETBIOS_NAME_LENGTH <? n then NETBIOS_NAME_LENGTH else n) = Z.min 15 n).
  { intros n. unfold NETBIOS_NAME_LENGTH. destruct (Z.ltb_spec 15 n); lia. }
  rewrite Enl. pose proof (length_blank_padded name) as Hlen.
  edestruct (for_range_spec (fun i b => exists rest, length rest = (33 - 2 * Z.to_nat i)%nat
      /\ b = (pre ++ (take (Z.to_nat i) (blank_padded name) ≫= code)) ++ rest) 15 0)
    as (b & -> & rest & Hrest & ->).
  { intros i b Hi (rest & Hrest & ->).
    destruct (encode_char_spec name pre i rest) as (rest' & -> & ?); eauto with lia. }
  { exists old. by rewrite app_nil_r. }
  cbn [obind]. change (Z.to_nat (0 + Z.of_nat 15)) with 15%nat in *.
  rewrite take_ge by lia. set (body := pre ++ (blank_padded name ≫= code)).
  assert (Hb : zlen body = zlen pre + 30)
    by (unfold body, zlen; rewrite length_app, length_codes; lia).
  destruct (length_2_inv rest 1) as (o1 & o2 & r & -> & Hr); [done|].
  pose proof (store_pair body o1 o2 r (zlen pre + 30)
    (u8 (Z.shiftr (nibble_encode (s8 type)) 8)) (u8 (Z.land (nibble_encode (s8 type)) 0xff))
    ltac:(lia)) as E.
  apply obind_Done in E as (b1 & E1 & E2). rewrite E1. cbn [obind].
  replace (zlen pre + 31) with (zlen pre + 30 + 1) by lia. rewrite E2. cbn [obind].
  destruct (length_cons_inv r 0) as (o3 & r' & -> & ->%length_zero_iff_nil); [done|].
  rewrite wr_app by len. cbn [checked]. f_equal.
  unfold body. rewrite bind_app, <- !app_assoc. done.
Qed.

(** What [netbios_name_encode] writes, for any characters. *)
Definition encoded_code (name : bytes) (type : Z) : bytes :=
  32 :: ((blank_padded name ++ [type]) ≫= code) ++ [0].

Lemma length_encoded_code name type : length (encoded_code name type) = 34%nat.
Proof.
  unfold encoded_code. cbn [length]. rewrite length_app, length_codes, length_app.
  rewrite length_blank_padded. done.
Qed.

Lemma netbios_name_encode_run name type w :
  cstring_ok name ->
  exists w', netbios_name_encode (Some (cstr name)) type w
    = Done (if w_coin w (w_tick w) then Some (encoded_code name type) else None, w') /\ later w w'.
Proof.
  intros Hn. unfold netbios_name_encode, malloc, flip, mbind, io_bind. cbn [obind].
  destruct (w_coin w (w_tick w)); [|eexists; split; [reflexivity|by exists 1%nat]].
  unfold uninit. cbn [obind mret io_ret]. set (w1 := set_tick w _).
  pose proof (length_junk_bytes w1 34) as Hj.
  destruct (length_cons_inv (junk_bytes w1 34) 33) as (x & r & -> & Hr); [done|].
  unfold access, lift. change (x :: r) with ([] ++ x :: r).
  rewrite wr_app by done. cbn [checked obind app].
  change (32 :: r) with ([32] ++ r).
  pose proof (level1_encode_spec name [32] r type Hn Hr) as E.
  change (zlen [32]) with 1 in E. rewrite E. cbn [obind].
  rewrite app_assoc, wr_app; [eexists; split; [reflexivity|by exists 2%nat]|].
  unfold zlen. rewrite length_app, length_codes, length_app, length_blank_padded. done.
Qed.

Lemma netbios_name_encode_spec name type w :
  cstring_ok name ->
  exists w', netbios_name_encode (Some (cstr name)) type w
    = Done (if w_coin w (w_tick w) then Some (encoded_code name type) else None, w').
Proof. intros Hn. destruct (netbios_name_encode_run name type w Hn) as (w' & E & _). eauto. Qed.

Lemma bind_code_ascii l : Forall is_ascii l -> l ≫= code = (toupper <$> l) ≫= half_ascii.
Proof.
  induction 1 as [|b l Hb _ IH]; [done|]. rewrite fmap_cons, !bind_cons, IH.
  by rewrite code_ascii.
Qed.

Lemma canonical_padded name type :
  canonical name type = toupper <$> (blank_padded name ++ [type]).
Proof.
  unfold canonical, blank_padded. rewrite !fmap_app, fmap_replicate, <- app_assoc. done.
Qed.

(** The encoding is a C string of 33 characters. *)
Lemma encoded_code_cstr name type : cstring_ok name -> is_byte type ->
  exists s, encoded_code name type = cstr s /\ length s = 33%nat /\ cstring_ok s.
Proof.
  intros Hn Ht. exists (32 :: (blank_padded name ++ [type]) ≫= code). split; [done|]. split.
  - cbn [length]. rewrite length_codes, length_app, length_blank_padded. done.
  - constructor; [lia|]. apply Forall_bind.
    eapply Forall_impl with (P := is_byte).
    + apply Forall_app_2; [|by constructor]. unfold blank_padded.
      apply Forall_app_2; [by apply Forall_take, cstring_ok_bytes|].
      apply Forall_replicate. unfold is_byte. lia.
    + intros b Hb. destruct (code_bytes b Hb) as (c1 & c2 & E & ? & ? & _).
      unfold compose. rewrite E. by constructor; [|constructor].
Qed.

Lemma strlen_encoded name type :
  cstring_ok name -> is_byte type -> strlen (encoded_code name type) = Some 33.
Proof.
  intros Hn Ht. destruct (encoded_code_cstr name type Hn Ht) as (s & -> & Hl & Hs).
  unfold cstr. rewrite strlen_cstr by done. unfold zlen. by rewrite Hl.
Qed.

Lemma lookup_codes l i b :
  l !! i = Some b ->
  exists c1 c2, (l ≫= code) !! (2 * i)%nat = Some c1
    /\ (l ≫= code) !! (2 * i + 1)%nat = Some c2 /\ code b = [c1; c2].
Proof.
  revert i. induction l as [|a l IH]; intros [|i] Hi; try done.
  - simpl in Hi. simplify_eq. do 2 eexists. split_and!; reflexivity.
  - destruct (IH i Hi) as (c1 & c2 & H1 & H2 & E). exists c1, c2. rewrite bind_cons.
    split_and!; [rewrite lookup_app_r by (rewrite code_length; lia)..|done].
    + rewrite <- H1. f_equal. rewrite code_length. lia.
    + rewrite <- H2. f_equal. rewrite code_length. lia.
Qed.

Lemma level1_decode_spec l post name :
  length l = 15%nat -> bytes_ok l -> (16 <= length name)%nat ->
  netbios_name_level1_decode (32 :: (l ≫= code) ++ post) 1 name
  = Done ((toupper <$> l) ++ 0 :: drop 16 name).
Proof.
  intros Hl Hb Hn. unfold netbios_name_level1_decode.
  edestruct (for_range_spec (fun i b =>
      b = (toupper <$> take (Z.to_nat i) l) ++ drop (Z.to_nat i) name) 15 0)
    as (b & -> & ->).
  - intros i b Hi ->. destruct (lookup_lt_is_Some_2 l (Z.to_nat i)) as [c Hc]; [lia|].
    destruct (lookup_codes l _ c Hc) as (c1 & c2 & H1 & H2 & E).
    pose proof (length_codes l) as Hlc.
    rewrite !rd_lookup by lia.
    replace (Z.to_nat (1 + 2 * i)) with (S (2 * Z.to_nat i)) by lia.
    replace (Z.to_nat (1 + 2 * i + 1)) with (S (2 * Z.to_nat i + 1)) by lia.
    assert (Hs : forall (x : Z) t n, (x :: t) !! S n = t !! n) by done.
    rewrite !Hs, !lookup_app_l by lia. rewrite H1, H2. cbn [checked obind].
    destruct (code_bytes c) as (d1 & d2 & E' & _ & _ & Hd);
      [by eapply Forall_lookup_1|]. rewrite E in E'. simplify_eq. rewrite Hd.
    destruct (drop (Z.to_nat i) name) as [|o r] eqn:Ed.
    { apply (f_equal length) in Ed. rewrite length_drop in Ed. simpl in Ed. lia. }
    rewrite wr_app by len. eexists. split; [reflexivity|].
    replace (Z.to_nat (i + 1)) with (S (Z.to_nat i)) by lia.
    rewrite (take_S_r _ _ _ Hc), fmap_app, <- app_assoc. do 2 f_equal.
    rewrite <- Nat.add_1_r, <- drop_drop, Ed. done.
  - done.
  - cbn [obind]. change (Z.to_nat (0 + Z.of_nat 15)) with 15%nat. rewrite take_ge by lia.
    destruct (drop 15 name) as [|o r] eqn:Ed.
    { apply (f_equal length) in Ed. rewrite length_drop in Ed. simpl in Ed. lia. }
    rewrite wr_app by (unfold NETBIOS_NAME_LENGTH; len). cbn [checked]. do 3 f_equal.
    change 16%nat with (15 + 1)%nat. rewrite <- drop_drop, Ed. done.
Qed.

(** A loop of stores keeps the length of its buffer and does not wait. *)
Lemma for_range_wr_length k i (f : Z -> bytes -> outcome bytes) (b b' : bytes) :
  (forall j b b', f j b = Done b' -> zlen b' = zlen b) ->
  for_range k i f b = Done b' -> zlen b' = zlen b.
Proof.
  intros Hf. revert i b. induction k as [|k IH]; intros i b; cbn [for_range].
  - by intros [= ->].
  - intros (b1 & H1 & H2)%obind_Done. rewrite (IH _ _ H2). eauto.
Qed.

Lemma level1_decode_length enc out out' :
  netbios_name_level1_decode enc 1 out = Done out' -> zlen out' = zlen out.
Proof.
  unfold netbios_name_level1_decode. intros (b & H1 & H2)%obind_Done.
  apply checked_Done, length_wr in H2. rewrite H2. revert H1. apply for_range_wr_length.
  intros j b1 b2 (c1 & _ & (c2 & _ & H3)%obind_Done)%obind_Done.
  apply checked_Done, length_wr in H3. done.
Qed.

Lemma level1_decode_ends enc out : ends (netbios_name_level1_decode enc 1 out).
Proof. unfold netbios_name_level1_decode. finish. Qed.

(** * Properties *)

(** For every NUL-terminated ASCII name and ASCII type, [netbios_name_encode]
    returns NULL exactly when its allocation fails, and otherwise 34 bytes that
    are the length byte 32, the RFC 1001 first-level encoding of the name
    (truncated to 15 characters, upper case, blank-padded, the type as the
    16th character) and a NUL. *)
Theorem netbios_name_encode_correct name type w :
  cstring_ok name -> Forall is_ascii name -> is_ascii type ->
  exists w', netbios_name_encode (Some (cstr name)) type w
    = Done (if w_coin w (w_tick w) then Some (encoded_spec name type) else None, w')
  /\ length (encoded_spec name type) = 34%nat.
Proof.
  intros Hn Ha Ht. destruct (netbios_name_encode_spec name type w Hn) as (w' & ->).
  assert (E : encoded_code name type = encoded_spec name type).
  { unfold encoded_code, encoded_spec. rewrite bind_code_ascii, canonical_padded; [done|].
    apply Forall_app_2; [|by constructor]. apply Forall_app_2; [by apply Forall_take|].
    apply Forall_replicate. unfold is_ascii. lia. }
  exists w'. rewrite <- E. split; [done|apply length_encoded_code].
Qed.

Definition world0 : world :=
  World (fun _ => true) (fun _ => 7) (fun _ _ => 165) 0 [] false [] [].

Lemma netbios_name_encode_correct_witness :
  exists w', netbios_name_encode (Some (cstr [70; 114; 101; 100])) 0x20 world0
    = Done (if w_coin world0 (w_tick world0) then Some (encoded_spec [70; 114; 101; 100] 0x20) else None, w')
  /\ length (encoded_spec [70; 114; 101; 100] 0x20) = 34%nat.
Proof.
  apply (netbios_name_encode_correct [70; 114; 101; 100] 0x20 world0);
    repeat constructor; unfold is_ascii; lia.
Defined.

(** The example of RFC 1001, section 14.1: "The NetBIOS name" is not used, the
    name "FRED" of section 4.1 is: EGFCEFEECACACACACACACACACACACACA. *)
Example encode_fred :
  encoded_spec [70; 114; 101; 100] 0x20
  = [32; 69;71;70;67;69;70;69;69; 67;65;67;65;67;65;67;65;67;65;67;65;67;65;67;65;67;65;67;65;67;65;67;65; 0].
Proof. reflexivity. Qed.

(** C37. Decoding what [netbios_name_encode] produced, for every C string (not
    only ASCII) and type byte and every output buffer of at least 34 bytes,
    returns 32 and stores the first 15 characters in upper case, padded with
    blanks, and a NUL behind them. *)
Theorem netbios_name_roundtrip name type w enc w' out :
  cstring_ok name -> is_byte type -> (34 <= length out)%nat ->
  netbios_name_encode (Some (cstr name)) type w = Done (Some enc, w') ->
  exists rest, netbios_name_decode (Some enc) (Some out)
    = Done (32, Some ((toupper <$> blank_padded name) ++ 0 :: rest)).
Proof.
  intros Hn Ht Ho He. destruct (netbios_name_encode_spec name type w Hn) as (w1 & E).
  rewrite E in He. destruct (w_coin _ _); [|done]. simplify_eq. unfold netbios_name_decode.
  rewrite strlen_encoded by done. cbn [checked obind Z.eqb Pos.eqb negb].
  unfold encoded_code. rewrite bind_app, <- app_assoc.
  rewrite level1_decode_spec; [|apply length_blank_padded| |lia].
  - cbn [obind]. rewrite wr_Some.
    + cbn [checked obind]. rewrite insert_app_r_alt by (rewrite length_fmap, length_blank_padded; lia).
      rewrite length_fmap, length_blank_padded. cbn [Z.to_nat Pos.to_nat].
      eexists. reflexivity.
    + unfold zlen. rewrite length_app, length_fmap, length_blank_padded. cbn [length].
      rewrite length_drop. lia.
  - apply Forall_app_2; [by apply Forall_take, cstring_ok_bytes|].
    apply Forall_replicate. unfold is_byte. lia.
Qed.

Lemma netbios_name_roundtrip_witness :
  exists enc w', netbios_name_encode (Some (cstr [233; 97])) 0 world0 = Done (Some enc, w')
  /\ exists rest, netbios_name_decode (Some enc) (Some (replicate 40 7))
    = Done (32, Some ((toupper <$> blank_padded [233; 97]) ++ 0 :: rest)).
Proof.
  do 2 eexists. split; [vm_compute; reflexivity|].
  eapply (netbios_name_roundtrip [233; 97] 0 world0);
    [repeat constructor; lia|unfold is_byte; lia|simpl; lia|vm_compute; reflexivity].
Defined.

(** [netbios_name_decode] needs 34 bytes of output: on a well-formed
    encoding it accesses memory outside every smaller buffer, although 16 bytes
    hold the decoded name and its terminator. *)
Theorem netbios_name_decode_overflow enc out :
  strlen enc = Some 33 -> (length out < 34)%nat ->
  netbios_name_decode (Some enc) (Some out) = Fault.
Proof.
  intros He Ho. unfold netbios_name_decode. rewrite He.
  cbn [checked obind Z.eqb Pos.eqb negb].
  destruct (netbios_name_level1_decode enc 1 out) as [out'| |] eqn:E; [|done|].
  - cbn [obind]. assert (zlen out' = zlen out) as Hl.
    { revert E. apply level1_decode_length. }
    unfold wr. rewrite Hl. destruct (Z.ltb_spec 33 (zlen out)); [len|done].
  - by apply level1_decode_ends in E.
Qed.

Lemma netbios_name_decode_overflow_witness :
  netbios_name_decode (Some (encoded_code [70] 0)) (Some (replicate 16 0)) = Fault.
Proof. apply netbios_name_decode_overflow; [reflexivity|simpl; lia]. Defined.

(** The encoding of a name with a character beyond ASCII is not the
    first-level encoding: the high half of the character is sign-extended, so
    that its letter falls outside 'A'..'P'. *)
Theorem netbios_name_encode_non_ascii b :
  is_byte b -> 128 <= b ->
  exists c1 c2, code b = [c1; c2] /\ 57 <= c1 < 65 /\ code b <> half_ascii (toupper b).
Proof.
  intros Hb H8. do 2 eexists. split; [reflexivity|]. revert H8. revert b Hb.
  refine (byte_cases _ _). vm_compute. reflexivity.
Qed.

End NetbiosUtils.
