(* ===== verification/NetbiosQuery.v ===== *)
(** NetBIOS name service packets under construction: src/netbios_query.c.

    The packet is the memory block of the structure [netbios_query_packet]
    (12 bytes of header, then the payload); header fields are kept in network
    order by [htons]. *)

From S2P Require Import Prelude World.

Module NetbiosQuery.

Definition NETBIOS_FLAG_QUERY : Z := Z.shiftl 1 15.
Definition NETBIOS_FLAG_TRUNCATED : Z := Z.shiftl 1 9.
Definition NETBIOS_FLAG_RECURSIVE : Z := Z.shiftl 1 8.
Definition NETBIOS_FLAG_BROADCAST : Z := Z.shiftl 1 4.
Definition NETBIOS_OP_NAME_QUERY : Z := 0x00.

(** netbios_query_packet: the size of the header and the field offsets. *)
Definition sizeof_netbios_query_packet : Z := 12.
Definition off_trn_id : Z := 0.
Definition off_flags : Z := 2.
Definition off_queries : Z := 4.
Definition off_payload : Z := 12.

Record netbios_query := Query {
  payload_size : Z;
  cursor : Z;
  packet : bytes
}.

(** [q->packet->f = v] for a 16-bit field at [off]. *)
Definition set_field (q : netbios_query) (off v : Z) : outcome netbios_query :=
  let* p := checked (put (packet q) off (le_bytes 2 v)) in
  Done (Query (payload_size q) (cursor q) p).

Definition netbios_query_set_flag (q : netbios_query) (flag : Z) (value : bool)
    : outcome netbios_query :=
  let* flags := checked (get16 (packet q) off_flags) in
  if value
  then set_field q off_flags (swap16 (u16 (Z.lor (swap16 flags) flag)))
  else set_field q off_flags (swap16 (u16 (Z.land (swap16 flags) (Z.lnot flag)))).

(** [None] is NULL; the first block holds the structure itself. *)
Definition netbios_query_new (payload_size : Z) (is_query : bool) (opcode : Z)
    : io (option netbios_query) :=
  q ← flip;
  if negb q then mret None
  else
    p ← calloc (u64 (sizeof_netbios_query_packet + payload_size));
    match p with
    | None => mret None
    | Some p =>
        let q := Query payload_size 0 p in
        q ← lift (set_field q off_flags (swap16 (u16 (Z.shiftl (s8 opcode) 11))));
        q ← lift (netbios_query_set_flag q NETBIOS_FLAG_QUERY (negb is_query));
        mret (Some q)
    end.

(** The returned int and the query. *)
Definition netbios_query_append (q : netbios_query) (data : bytes) (data_size : Z)
    : outcome (Z * netbios_query) :=
  if u64 (payload_size q - cursor q) <? data_size then Done (-1, q)
  else
    let* d := checked (sub data 0 data_size) in
    let* p := checked (put (packet q) (off_payload + cursor q) d) in
    Done (0, Query (payload_size q) (u64 (cursor q + data_size)) p).

(** * Invariant *)

(** The block has room for the payload, the cursor stays inside it. *)
Definition query_ok (q : netbios_query) : Prop :=
  0 <= cursor q <= payload_size q
  /\ payload_size q < 18446744073709551604
  /\ zlen (packet q) = 12 + payload_size q
  /\ bytes_ok (packet q).

(** The payload written so far. *)
Definition written (q : netbios_query) : bytes :=
  take (Z.to_nat (cursor q)) (drop 12 (packet q)).

Definition header (q : netbios_query) : bytes := take 12 (packet q).

Lemma packet_parts q :
  query_ok q ->
  packet q = header q ++ written q ++ drop (12 + Z.to_nat (cursor q)) (packet q)
  /\ length (header q) = 12%nat /\ zlen (written q) = cursor q.
Proof.
  intros (Hc & Hp & Hl & _). unfold header, written. split_and!.
  - rewrite <- drop_drop, take_drop, take_drop. done.
  - len.
  - len.
Qed.

Lemma set_field_ok q off v :
  query_ok q -> 0 <= off <= 10 ->
  exists q', set_field q off v = Done q' /\ query_ok q'
    /\ cursor q' = cursor q /\ payload_size q' = payload_size q
    /\ written q' = written q.
Proof.
  intros (Hc & Hp & Hl & Hb) Ho. unfold set_field.
  destruct (proj2 (put_is_Some (packet q) off (le_bytes 2 v))) as [p Hput]; [len|].
  rewrite Hput. cbn [checked obind]. eexists. split; [done|].
  pose proof (length_put _ _ _ _ Hput). split_and!; try done; cbn [packet cursor payload_size].
  - split_and!; cbn [packet cursor payload_size]; try lia.
    eapply put_ok; [exact Hb|apply le_bytes_ok|exact Hput].
  - unfold written. cbn [packet cursor]. f_equal. apply put_inv in Hput as (_ & _ & ->).
    rewrite app_assoc, drop_app_ge by len. rewrite drop_drop. f_equal. len.
Qed.

Lemma set_flag_ok q flag value :
  query_ok q ->
  exists q', netbios_query_set_flag q flag value = Done q' /\ query_ok q'
    /\ cursor q' = cursor q /\ payload_size q' = payload_size q
    /\ written q' = written q.
Proof.
  intros Hq. unfold netbios_query_set_flag.
  destruct (get_word_Some (packet q) off_flags 2) as [flags E];
    [done|unfold off_flags; destruct Hq as (?&?&?&_); lia|].
  unfold get16. rewrite E. cbn [checked obind].
  destruct value; apply set_field_ok; unfold off_flags; auto with lia.
Qed.

(** * Properties *)

(** [netbios_query_append] on a well-formed query: it stays in the block,
    keeps the invariant, refuses exactly the data that does not fit the
    declared payload (leaving the query alone), and otherwise adds the data
    behind the payload written so far without touching the header. *)
Theorem netbios_query_append_correct q data :
  query_ok q -> bytes_ok data ->
  if payload_size q - cursor q <? zlen data
  then netbios_query_append q data (zlen data) = Done (-1, q)
  else exists q', netbios_query_append q data (zlen data) = Done (0, q')
    /\ query_ok q' /\ header q' = header q /\ written q' = written q ++ data
    /\ payload_size q' = payload_size q.
Proof.
  intros Hq Hd. pose proof (packet_parts q Hq) as (Hpk & Hh & Hw).
  destruct Hq as (Hc & Hp & Hl & Hb). unfold netbios_query_append.
  rewrite u64_small by lia.
  destruct (Z.ltb_spec (payload_size q - cursor q) (zlen data)) as [Hlt|Hge]; [done|].
  rewrite sub_Some by len. cbn [checked obind].
  rewrite drop_0, take_ge by len.
  destruct (proj2 (put_is_Some (packet q) (off_payload + cursor q) data)) as [p Hput].
  { unfold off_payload. lia. }
  rewrite Hput. cbn [checked obind]. rewrite u64_small by (unfold zlen in *; lia).
  pose proof (length_put _ _ _ _ Hput) as Hlp.
  apply put_inv in Hput as (_ & _ & E). unfold off_payload in E.
  assert (Hpre : take (Z.to_nat (12 + cursor q)) (packet q) = header q ++ written q).
  { rewrite Hpk at 1. rewrite app_assoc. apply take_app_length'. len. }
  rewrite Hpre, <- app_assoc in E. eexists. split; [done|].
  split_and!; [split_and!|..]; cbn [packet cursor payload_size]; try (unfold zlen in *; lia).
  - subst p. unfold header, written. auto 8 with dsm.
  - unfold header at 1. cbn [packet]. rewrite E. by apply take_app_length'.
  - unfold written at 1. cbn [packet cursor]. rewrite E, drop_app_length' by done.
    rewrite app_assoc. apply take_app_length'. len.
Qed.

Definition query0 : netbios_query := Query 38 0 (replicate 50 0).

Lemma netbios_query_append_correct_witness :
  exists q', netbios_query_append query0 [1; 2; 3] (zlen [1; 2; 3]) = Done (0, q')
    /\ query_ok q' /\ header q' = header query0
    /\ written q' = written query0 ++ [1; 2; 3] /\ payload_size q' = payload_size query0.
Proof.
  apply (netbios_query_append_correct query0 [1; 2; 3]).
  - decided.
  - decided.
Defined.

End NetbiosQuery.
