(* ===== verification/NetbiosPrint.v ===== *)
(** The dump of a query: [netbios_query_print] of src/netbios_query.c, with the
    text it prints. *)

From stdpp Require Import strings.
From S2P Require Import Prelude World NetbiosQuery.

Module NetbiosPrint.
Import NetbiosQuery.
Local Open Scope list_scope.
Local Open Scope Z_scope.

(** The characters of a literal. *)
Definition chars (x : string) : bytes := (fun a => Z.of_nat (Ascii.nat_of_ascii a)) <$> String.list_ascii_of_string x.
Definition newline : Z := 10.
Definition blank : Z := 32.

(** [%zu] and [%u]: at most 20 digits. *)
Fixpoint decimal (fuel : nat) (z : Z) : bytes :=
  match fuel with
  | O => []
  | S fuel => (if z <? 10 then [] else decimal fuel (z `div` 10)) ++ [48 + z `mod` 10]
  end.

(** [%.2hhX] of a byte. *)
Definition hex_digit (n : Z) : Z := if n <? 10 then 48 + n else 55 + n.
Definition hex_byte (c : Z) : bytes := [hex_digit (c `div` 16); hex_digit (c `mod` 16)].

(** What goes in front of byte [i]. *)
Definition row_start (i : Z) : bytes :=
  (if (i `mod` 8 =? 0) && negb (i =? 0) then [newline] else []) ++ (if i `mod` 8 =? 0 then chars "0x" else []).

(** One turn of the loop; the output so far is [out]. *)
Definition print_byte (p : bytes) (i : Z) (out : bytes) : outcome bytes :=
  let* c := checked (rd p i) in Done (out ++ row_start i ++ hex_byte c ++ [blank]).

Definition dashes : bytes := chars "-------------------------" ++ [newline].
Definition print_heading (q : netbios_query) (trn_id : Z) : bytes :=
  chars "--- netbios_query dump :" ++ [newline]
  ++ chars "payload = " ++ decimal 20 (payload_size q) ++ chars ", cursor = " ++ decimal 20 (cursor q) ++ chars "." ++ [newline]
  ++ chars "Transaction id = " ++ decimal 20 trn_id ++ chars "." ++ [newline] ++ dashes.

(** The counter is an [unsigned]: it passes no bound above 2^32 - 1. *)
Definition netbios_query_print (q : netbios_query) : outcome bytes :=
  let* trn_id := checked (get16 (packet q) off_trn_id) in
  let bound := u64 (sizeof_netbios_query_packet + cursor q) in
  let* out := for_range (Z.to_nat (Z.min bound 4294967296)) 0 (print_byte (packet q)) (print_heading q trn_id) in
  if bound <=? 4294967295 then Done (out ++ [newline] ++ dashes) else Blocked.

(** * Reading a dump *)

Definition unhex_digit (c : Z) : Z := if c <? 58 then c - 48 else c - 55.

Fixpoint undump (n : nat) (i : Z) (text : bytes) : option bytes :=
  match n with
  | O => Some []
  | S n =>
      match drop (length (row_start i)) text with
      | h :: l :: _ :: text => rest ← undump n (i + 1) text; Some (unhex_digit h * 16 + unhex_digit l :: rest)
      | _ => None
      end
  end.

Fixpoint dump (i : Z) (l : bytes) : bytes :=
  match l with
  | [] => []
  | c :: l => row_start i ++ hex_byte c ++ [blank] ++ dump (i + 1) l
  end.

Lemma unhex_hex n : 0 <= n < 16 -> unhex_digit (hex_digit n) = n.
Proof.
  intros Hn. unfold hex_digit, unhex_digit. destruct (Z.ltb_spec n 10).
  - replace (48 + n <? 58) with true by lia. lia.
  - replace (55 + n <? 58) with false by lia. lia.
Qed.

Lemma undump_dump l i rest : bytes_ok l -> undump (length l) i (dump i l ++ rest) = Some l.
Proof.
  revert i. induction l as [|c l IH]; intros i Hl; [done|]. apply Forall_cons in Hl as [Hc Hl]. unfold is_byte in Hc.
  cbn [dump undump length]. rewrite <- !app_assoc, drop_app_length. cbn [hex_byte app]. rewrite IH by done. cbn.
  rewrite !unhex_hex by zdiv. do 2 f_equal. zdiv.
Qed.

Lemma print_loop p n i out : 0 <= i -> (Z.to_nat i + n <= length p)%nat ->
  for_range n i (print_byte p) out = Done (out ++ dump i (take n (drop (Z.to_nat i) p))).
Proof.
  revert i out. induction n as [|n IH]; intros i out Hi Hl; cbn [for_range]; [by rewrite take_0, app_nil_r|].
  destruct (lookup_lt_is_Some_2 p (Z.to_nat i)) as [c Hc]; [lia|].
  unfold print_byte at 1. assert (Hr : rd p i = Some c) by (unfold rd; by rewrite (proj2 (Z.leb_le 0 i))).
  rewrite Hr. cbn [checked obind]. rewrite IH by lia. rewrite (drop_S p c (Z.to_nat i)) by done. cbn [take dump].
  rewrite <- !app_assoc. do 6 f_equal. replace (Z.to_nat (i + 1)) with (S (Z.to_nat i)) by lia. done.
Qed.

(** The dump of a well-formed query reads the packet inside its block, and the
    bytes of the packet can be read back from it. *)
Theorem query_print_dumps q : query_ok q -> cursor q < 4294967284 ->
  exists heading body, netbios_query_print q = Done (heading ++ body)
    /\ undump (Z.to_nat (12 + cursor q)) 0 body = Some (take (Z.to_nat (12 + cursor q)) (packet q)).
Proof.
  intros (Hc & Hp & Hl & Hb) Hmax. unfold netbios_query_print.
  destruct (get_word_Some (packet q) off_trn_id 2) as [id Hid]; [done|unfold off_trn_id; lia|].
  unfold get16. rewrite Hid. cbn [checked obind]. unfold sizeof_netbios_query_packet.
  rewrite u64_small, Z.min_l by lia. rewrite print_loop by (unfold zlen in Hl; lia). cbn [obind].
  replace (12 + cursor q <=? 4294967295) with true by lia. rewrite drop_0, <- app_assoc.
  eexists _, _. split; [reflexivity|].
  assert (Hn : length (take (Z.to_nat (12 + cursor q)) (packet q)) = Z.to_nat (12 + cursor q)) by (rewrite length_take; unfold zlen in Hl; lia).
  rewrite <- Hn at 1. apply undump_dump. by apply bytes_ok_take.
Qed.

Definition some_query : netbios_query := Query 3 2 [0x12; 0x34; 1; 0; 0; 1; 0; 0; 0; 0; 0; 0; 0xab; 7; 0].

Lemma query_print_dumps_witness :
  exists heading body, netbios_query_print some_query = Done (heading ++ body)
    /\ undump 14 0 body = Some [0x12; 0x34; 1; 0; 0; 1; 0; 0; 0; 0; 0; 0; 0xab; 7].
Proof. apply (query_print_dumps some_query); [split_and!; try decided; done|done]. Defined.

Example query_print_text :
  netbios_query_print some_query = Done (
    chars "--- netbios_query dump :" ++ [newline] ++ chars "payload = 3, cursor = 2." ++ [newline]
    ++ chars "Transaction id = 13330." ++ [newline] ++ chars "-------------------------" ++ [newline]
    ++ chars "0x12 34 01 00 00 01 00 00 " ++ [newline] ++ chars "0x00 00 00 00 AB 07 " ++ [newline]
    ++ chars "-------------------------" ++ [newline]).
Proof. reflexivity. Qed.

End NetbiosPrint.
