(* ===== verification/NetbiosSession.v ===== *)
(** The NetBIOS session service over TCP: src/netbios_session.c.

    A session owns one packet buffer, used for sending and receiving: 4 bytes
    of header (type, flags, length in network order) and the payload. *)

From S2P Require Import Prelude World NetbiosUtils.

Module NetbiosSession.
Import NetbiosUtils.

Definition NETBIOS_PORT_SESSION : Z := 139.
Definition NETBIOS_PORT_DIRECT : Z := 445.
Definition NETBIOS_PORT_DIRECT_SECONDARY : Z := 139.
Definition NETBIOS_OP_SESSION_MSG : Z := 0x00.
Definition NETBIOS_OP_SESSION_REQ : Z := 0x81.
Definition NETBIOS_OP_SESSION_REQ_OK : Z := 0x82.
Definition NETBIOS_OP_SESSION_KEEPALIVE : Z := 0x85.
Definition NETBIOS_FILESERVER : Z := 0x20.
Definition NETBIOS_WORKSTATION : Z := 0x00.

Definition NETBIOS_SESSION_NEW : Z := 0.
Definition NETBIOS_SESSION_CONNECTING : Z := 1.
Definition NETBIOS_SESSION_CONNECTED : Z := 2.
Definition NETBIOS_SESSION_ERROR : Z := -1.
Definition NETBIOS_SESSION_REFUSED : Z := -2.

Definition DSM_SUCCESS : Z := 0.
Definition DSM_ERROR_GENERIC : Z := -1.
Definition DSM_ERROR_NETWORK : Z := -3.

(** sizeof(netbios_session_packet) *)
Definition sizeof_packet : Z := 4.

Record netbios_session := Session {
  abort_ctx : netbios_abort_ctx;
  remote_ip : Z;                       (* remote_addr, network order *)
  remote_port : Z;
  socket : Z;
  state : Z;
  packet_payload_size : Z;
  packet_cursor : Z;
  packet : option bytes                (* None is NULL *)
}.

Definition set_remote s ip port := Session (abort_ctx s) ip port (socket s) (state s)
  (packet_payload_size s) (packet_cursor s) (packet s).
Definition set_socket s fd := Session (abort_ctx s) (remote_ip s) (remote_port s) fd (state s)
  (packet_payload_size s) (packet_cursor s) (packet s).
Definition set_state s st := Session (abort_ctx s) (remote_ip s) (remote_port s) (socket s) st
  (packet_payload_size s) (packet_cursor s) (packet s).
Definition set_size s n := Session (abort_ctx s) (remote_ip s) (remote_port s) (socket s) (state s)
  n (packet_cursor s) (packet s).
Definition set_cursor s n := Session (abort_ctx s) (remote_ip s) (remote_port s) (socket s) (state s)
  (packet_payload_size s) n (packet s).
Definition set_packet s p := Session (abort_ctx s) (remote_ip s) (remote_port s) (socket s) (state s)
  (packet_payload_size s) (packet_cursor s) p.

(** A use of the pointer [s->packet]. *)
Definition the_packet (s : netbios_session) : io bytes := access (packet s).

(** [memcpy((uint8_t * )s->packet + off, src, |src|)] *)
Definition store (s : netbios_session) (off : Z) (src : bytes) : io netbios_session :=
  p ← the_packet s; p ← access (put p off src); mret (set_packet s (Some p)).

(** [socket(2)] and a connect(2) that answers at once or later: the three
    answers are the descriptor, the immediate success and whether the errno
    is EINPROGRESS or EINTR. A ready socket whose SO_ERROR is set is an
    [EvReady] event with a negative number. *)
Definition open_socket_and_connect (s : netbios_session) : io (Z * netbios_session) :=
  opened ← flip;
  fd ← pick;
  let s := set_socket s (if opened : bool then Z.abs fd else -1) in
  if socket s <? 0 then mret (DSM_ERROR_NETWORK, s)
  else
    connected ← flip;
    if connected : bool then mret (DSM_SUCCESS, s)
    else
      in_progress ← flip;
      if negb in_progress then mret (DSM_ERROR_NETWORK, s)
      else
        r ← loop (fun _ : unit =>
          e ← select;
          mret match e with
          | EvError => inr DSM_ERROR_NETWORK
          | EvAbort => inr DSM_ERROR_GENERIC
          | EvReady n => inr (if n <? 0 then DSM_ERROR_NETWORK else DSM_SUCCESS)
          | EvNone | EvDatagram _ _ => inl tt
          end) tt;
        mret (r, s).

(** 1 or 0. *)
Definition session_buffer_realloc (s : netbios_session) (new_size : Z)
    : io (Z * netbios_session) :=
  new_ptr ← realloc (default [] (packet s)) new_size;
  match new_ptr with
  | Some p => mret (1, set_packet (set_size s new_size) (Some p))
  | None => mret (0, set_packet s None)
  end.

Definition netbios_session_new (buf_size : Z) : io (option netbios_session) :=
  session ← flip;
  if negb session then mret None
  else
    '(r, ctx) ← netbios_abort_ctx_init (AbortCtx 0 0);
    if negb (r =? 0) then mret None
    else
      p ← malloc (u64 (sizeof_packet + buf_size));
      match p with
      | None => mret None
      | Some p => mret (Some (Session ctx 0 0 (-1) NETBIOS_SESSION_NEW buf_size 0 (Some p)))
      end.

Definition netbios_session_disconnect (s : netbios_session) : netbios_session :=
  if negb (socket s =? -1) then set_socket s (-1) else s.

Definition netbios_session_abort (s : netbios_session) : io unit :=
  netbios_abort_ctx_abort (abort_ctx s).

Definition netbios_session_packet_init (s : netbios_session) : io netbios_session :=
  let s := set_cursor s 0 in
  s ← store s 1 [0];
  store s 0 [NETBIOS_OP_SESSION_MSG].

(** 1, or 0 when the buffer could not grow. *)
Definition netbios_session_packet_append (s : netbios_session) (data : bytes) (size : Z)
    : io (Z * netbios_session) :=
  _ ← the_packet s;
  '(ok, s) ← (if u64 (packet_payload_size s - packet_cursor s) <? size
              then session_buffer_realloc s (u64 (size + packet_cursor s + sizeof_packet))
              else mret (1, s));
  if ok =? 0 then mret (0, s)
  else
    d ← access (sub data 0 size);
    s ← store s (sizeof_packet + packet_cursor s) d;
    mret (1, set_cursor s (u64 (packet_cursor s + size))).

(** The number of bytes sent, or 0. *)
Definition netbios_session_packet_send (s : netbios_session)
    : io (Z * netbios_session) :=
  _ ← the_packet s;
  require ((0 <=? socket s) && (0 <? state s)) ;;
  s ← store s 2 (le_bytes 2 (swap16 (u16 (packet_cursor s))));
  let to_send := sizeof_packet + packet_cursor s in
  r ← loop (fun _ : unit =>
    e ← select;
    match e with
    | EvError | EvAbort => mret (inr 0)
    | EvReady n =>
        p ← the_packet s;
        out ← access (sub p 0 to_send);
        sent ← send n out;
        mret (inr (if negb (sent =? to_send) then 0 else sent))
    | EvNone | EvDatagram _ _ => mret (inl tt)
    end) tt;
  mret (r, s).

(** [netbios_session_recv(s, (uint8_t * )s->packet + off, len)] *)
Definition netbios_session_recv (s : netbios_session) (off len : Z)
    : io (Z * netbios_session) :=
  loop (fun _ : unit =>
    e ← select;
    match e with
    | EvError | EvAbort => mret (inr (-1, s))
    | EvReady n =>
        '(res, got) ← recv n len;
        s ← store s off got;
        mret (inr (res, s))
    | EvNone | EvDatagram _ _ => mret (inl tt)
    end) tt.

(** One of the two loops [while (sofar < total)] of the packet reader, which
    store behind [base]; false is its [return -1]. *)
Definition recv_exactly (s : netbios_session) (base total : Z)
    : io (bool * netbios_session) :=
  loop (fun '(s, sofar) =>
    if sofar <? total
    then
      '(res, s) ← netbios_session_recv s (base + sofar) (total - sofar);
      if res <=? 0 then mret (inr (false, s)) else mret (inl (s, sofar + res))
    else mret (inr (true, s))) (s, 0).

Definition netbios_session_get_next_packet (s : netbios_session)
    : io (Z * netbios_session) :=
  _ ← the_packet s;
  require ((0 <=? socket s) && (0 <? state s)) ;;
  '(ok, s) ← recv_exactly s 0 sizeof_packet;
  if negb ok then mret (-1, s)
  else
    p ← the_packet s;
    len ← access (get16 p 2);
    flags ← access (rd p 1);
    let total := Z.lor (swap16 len) (Z.shiftl (Z.land flags 0x01) 16) in
    '(ok, s) ← (if packet_payload_size s <? total + sizeof_packet
                then session_buffer_realloc s (total + sizeof_packet)
                else mret (1, s));
    if ok =? 0 then mret (-1, s)
    else
      '(ok, s) ← recv_exactly s sizeof_packet total;
      if negb ok then mret (-1, s) else mret (total, s).

(** The size of the payload, or -1; the payload is in the buffer. *)
Definition netbios_session_packet_recv (s : netbios_session)
    : io (Z * netbios_session) :=
  loop (fun s =>
    '(size, s) ← netbios_session_get_next_packet s;
    if size <? 0 then mret (inr (size, s))
    else
      p ← the_packet s;
      op ← access (rd p 0);
      if op =? NETBIOS_OP_SESSION_KEEPALIVE then mret (inl s) else mret (inr (size, s))) s.

(** The attempts on the ports in turn, until one is opened. *)
Fixpoint try_ports (s : netbios_session) (ip : Z) (ports : list Z)
    : io (bool * netbios_session) :=
  match ports with
  | [] => mret (false, s)
  | port :: ports =>
      '(r, s) ← open_socket_and_connect (set_remote s ip port);
      if r =? DSM_SUCCESS then mret (true, s) else try_ports s ip ports
  end.

(** [netbios_name_encode] followed by the append of the result; a NULL result
    is dereferenced by [strlen]. *)
Definition append_name (s : netbios_session) (name : option bytes) (type : Z)
    : io (Z * netbios_session) :=
  e ← netbios_name_encode name type;
  e ← access e;
  n ← access (strlen e);
  netbios_session_packet_append s e (n + 1).

(** "LIBDSM" *)
Definition libdsm_name : bytes := cstr [76; 73; 66; 68; 83; 77].

Definition connect_error (s : netbios_session) : io (Z * netbios_session) :=
  mret (0, set_state s NETBIOS_SESSION_ERROR).

(** The exchange of the session request. *)
Definition session_request (s : netbios_session) (name : option bytes)
    : io (Z * netbios_session) :=
  s ← netbios_session_packet_init s;
  s ← store s 0 [NETBIOS_OP_SESSION_REQ];
  '(r, s) ← append_name s name NETBIOS_FILESERVER;
  if r =? 0 then connect_error s
  else
    '(r, s) ← append_name s (Some libdsm_name) NETBIOS_WORKSTATION;
    if r =? 0 then connect_error s
    else
      let s := set_state s NETBIOS_SESSION_CONNECTING in
      '(r, s) ← netbios_session_packet_send s;
      if r =? 0 then connect_error s
      else
        '(recv_size, s) ← netbios_session_packet_recv s;
        if recv_size <? 0 then connect_error s
        else
          p ← the_packet s;
          op ← access (rd p 0);
          if negb (op =? NETBIOS_OP_SESSION_REQ_OK)
          then mret (0, set_state s NETBIOS_SESSION_REFUSED)
          else mret (1, set_state s NETBIOS_SESSION_CONNECTED).

Definition netbios_session_connect (ip : Z) (s : netbios_session) (name : option bytes)
    (direct_tcp : bool) : io (Z * netbios_session) :=
  _ ← the_packet s;
  let ports := if direct_tcp
               then [swap16 NETBIOS_PORT_DIRECT; swap16 NETBIOS_PORT_DIRECT_SECONDARY]
               else [swap16 NETBIOS_PORT_SESSION] in
  '(opened, s) ← try_ports s ip ports;
  if negb opened then connect_error s
  else if negb direct_tcp then session_request s name
  else mret (1, set_state s NETBIOS_SESSION_CONNECTED).

(** * Lemmas on the receive loops *)

Lemma store_Done s off src p p' w :
  packet s = Some p -> put p off src = Some p' ->
  store s off src w = Done (set_packet s (Some p'), w).
Proof.
  intros Hp Hput. unfold store, the_packet, access, lift, mbind, io_bind.
  rewrite Hp. cbn [checked obind]. rewrite Hput. done.
Qed.

(** One pass of [netbios_session_recv]. *)
Definition recv_ready (s : netbios_session) (off len n : Z) : io (Z * netbios_session) :=
  '(res, got) ← recv n len; s ← store s off got; mret (res, s).

Lemma session_recv_step s off len w :
  netbios_session_recv s off len w
  = (e ← select;
     match e with
     | EvError | EvAbort => mret (-1, s)
     | EvReady n => recv_ready s off len n
     | EvNone | EvDatagram _ _ => netbios_session_recv s off len
     end) w.
Proof.
  unfold netbios_session_recv at 1. rewrite loop_unfold.
  - unfold mbind, io_bind. destruct (select w) as [[[] w1]| |]; try done.
    cbn [obind]. unfold recv_ready, mbind, io_bind.
    destruct (recv n len w1) as [[[res got] w2]| |]; try done. cbn [obind].
    by destruct (store s off got w2) as [[s' w3]| |].
  - apply consumes_select. intros [] e w1 [] w2.
    destruct e; try done; unfold mret, io_ret; [by intros [= ->]| |by intros [= ->]].
    intros ([res got] & w3 & _ & (s' & w4 & _ & ?)%bind_inv)%bind_inv. done.
Qed.

(** The part of the world that receiving leaves alone. *)
Definition same_system (w w' : world) : Prop :=
  w_coin w' = w_coin w /\ w_tick w' = w_tick w /\ w_tx w' = w_tx w
  /\ (length (w_events w') <= length (w_events w))%nat.

Lemma same_system_trans w1 w2 w3 :
  same_system w1 w2 -> same_system w2 w3 -> same_system w1 w3.
Proof. unfold same_system. intuition (try congruence; lia). Qed.

Lemma same_system_select w e w' : select w = Done (e, w') -> same_system w w'.
Proof.
  unfold select, same_system. destruct (w_aborted w); [intros [= _ <-]; auto|].
  destruct (w_events w) as [|[] l] eqn:E; intros [= _ <-]; simpl; rewrite ?E; simpl; auto.
Qed.

(** What one receive stored: a prefix of the stream. *)
Definition received (s : netbios_session) (off len : Z) (w : world) (r : Z)
    (s' : netbios_session) (w' : world) : Prop :=
  exists p p' got, packet s = Some p /\ w_rx w = got ++ w_rx w' /\ zlen got = r
    /\ put p off got = Some p' /\ s' = set_packet s (Some p') /\ 0 <= r <= len
    /\ (length (w_events w') < length (w_events w))%nat.

Lemma session_recv_inv s off len w r s' w' :
  0 <= len -> netbios_session_recv s off len w = Done ((r, s'), w') ->
  same_system w w'
  /\ ((r = -1 /\ s' = s /\ w_rx w' = w_rx w) \/ received s off len w r s' w').
Proof.
  intros Hlen. remember (length (w_events w)) as k eqn:Ek. revert w Ek.
  induction (lt_wf k) as [k _ IH]. intros w Ek.
  rewrite session_recv_step. intros (e & w1 & Hs & Hr)%bind_inv.
  pose proof (same_system_select _ _ _ Hs) as Hsys.
  assert (Hrx : w_rx w1 = w_rx w).
  { revert Hs. unfold select. destruct (w_aborted w); [by intros [= _ <-]|].
    by destruct (w_events w) as [|[] ?]; intros [= _ <-]. }
  assert (Hev : e <> EvAbort -> (length (w_events w1) < length (w_events w))%nat).
  { intros He. destruct (select_inv _ _ _ Hs) as [[? _]|(_ & _ & ->)]; simpl; [done|lia]. }
  assert (Hnone : e <> EvAbort -> netbios_session_recv s off len w1 = Done ((r, s'), w') ->
     same_system w w'
     /\ ((r = -1 /\ s' = s /\ w_rx w' = w_rx w) \/ received s off len w r s' w')).
  { intros He Hr'. destruct (IH _ ltac:(rewrite Ek; apply Hev, He) w1 eq_refl Hr') as [Hs1 H].
    split; [by eapply same_system_trans|]. destruct H as [(-> & -> & ->)|H]; [by left|right].
    destruct H as (p & p' & got & H1 & H2 & H3 & H4 & H5 & H6 & H7).
    exists p, p', got. rewrite <- Hrx. split_and!; try done; try lia. specialize (Hev He). lia. }
  destruct e; try (by apply Hnone); unfold mret, io_ret in Hr.
  - simplify_eq. auto.
  - simplify_eq. auto.
  - apply bind_inv in Hr as ([res got] & w2 & Hrecv & (s1 & w3 & Hst & Hr)%bind_inv).
    unfold mret, io_ret in Hr. simplify_eq. unfold recv in Hrecv.
    unfold store, the_packet, access, lift, mbind, io_bind in Hst.
    destruct (packet s) as [p|] eqn:Ep; [|done]. cbn [checked obind] in Hst.
    destruct (put p off got) as [p'|] eqn:Eput; [|done]. cbn [checked obind] in Hst.
    unfold mret, io_ret in Hst. simplify_eq.
    destruct (Z.ltb_spec n 0); simplify_eq.
    + split; [done|]. left. split_and!; try done. rewrite put_nil in Eput.
      * simplify_eq. destruct s; simpl in *. by rewrite Ep.
      * apply put_inv in Eput as (? & ? & _). change (zlen []) with 0 in *. lia.
    + split; [by eapply same_system_trans|]. right.
      exists p, p', (take (Z.to_nat (n `min` len)) (w_rx w1)).
      split_and!; try done; cbn [w_rx w_events set_rx].
      * by rewrite take_drop, Hrx.
      * len.
      * len.
      * by apply Hev.
Qed.

Lemma session_recv_safe s off len w p :
  packet s = Some p -> 0 <= off -> 0 <= len -> off + len <= zlen p ->
  netbios_session_recv s off len w <> Fault.
Proof.
  intros Hp Ho Hl Hb. unfold netbios_session_recv.
  apply (loop_not_Fault _ (fun _ _ => True)); [done| |done].
  intros _ w1 _. apply bind_not_Fault; [apply select_not_Fault|].
  intros e w2 _. destruct e; try done.
  assert (Hr : exists res got w3, recv n len w2 = Done ((res, got), w3) /\ zlen got <= len).
  { unfold recv. destruct (n <? 0); do 3 eexists; (split; [done|len]). }
  destruct Hr as (res & got & w3 & Hr & Hgot).
  rewrite (bind_Done _ _ _ _ _ Hr).
  destruct (proj2 (put_is_Some p off got)) as [p' Hput]; [lia|].
  rewrite (bind_Done _ _ _ _ _ (store_Done _ _ _ _ _ _ Hp Hput)). done.
Qed.

(** A working network delivers at least one byte. *)
Lemma session_recv_total s off len w p :
  packet s = Some p -> 0 <= off -> 0 < len -> off + len <= zlen p ->
  healthy w -> (0 < ready_count w)%nat -> w_rx w <> [] ->
  exists r s' w', netbios_session_recv s off len w = Done ((r, s'), w')
    /\ 0 < r /\ healthy w' /\ (ready_count w <= S (ready_count w'))%nat.
Proof.
  intros Hp Ho Hl Hb. remember (length (w_events w)) as k eqn:Ek. revert w Ek.
  induction (lt_wf k) as [k _ IH]. intros w Ek Hh Hr Hrx.
  destruct (select_healthy w Hh Hr) as (e & w1 & Hs & Hw1 & Hlt & Hh1 & He).
  rewrite session_recv_step, (bind_Done _ _ _ _ _ Hs).
  destruct He as [(-> & Hc)|(n & -> & Hn & Hc)].
  - destruct (IH _ ltac:(rewrite Ek; exact Hlt) w1 eq_refl Hh1) as (r & s' & w' & H & ? & ? & ?);
      [lia|by rewrite Hw1|]. exists r, s', w'. split_and!; auto; lia.
  - unfold recv_ready. set (got := take (Z.to_nat (n `min` len)) (w_rx w1)).
    assert (Hw : w_rx w1 = w_rx w) by by rewrite Hw1.
    assert (Hg : 0 < zlen got <= len).
    { unfold got. rewrite Hw. destruct (w_rx w); [done|]. len. }
    destruct (proj2 (put_is_Some p off got)) as [p' Hput]; [lia|].
    do 3 eexists. split; [|split; [exact (proj1 Hg)|]].
    + unfold mbind at 1, io_bind at 1, recv. rewrite (proj2 (Z.ltb_ge n 0)) by lia.
      fold got. cbn [obind]. rewrite (bind_Done _ _ _ _ _ (store_Done _ _ _ _ _ _ Hp Hput)).
      reflexivity.
    + split; [exact Hh1|]. change (ready_count (set_rx w1 _)) with (ready_count w1). lia.
Qed.

(** ** Receiving exactly [total] bytes *)

Definition exactly_body (base total : Z) :
    netbios_session * Z -> io (netbios_session * Z + bool * netbios_session) :=
  fun '(s, sofar) =>
    if sofar <? total
    then
      '(res, s) ← netbios_session_recv s (base + sofar) (total - sofar);
      if res <=? 0 then mret (inr (false, s)) else mret (inl (s, sofar + res))
    else mret (inr (true, s)).

Lemma recv_exactly_body s base total :
  recv_exactly s base total = loop (exactly_body base total) (s, 0).
Proof. reflexivity. Qed.

Lemma exactly_body_consumes base total : consumes (exactly_body base total).
Proof.
  intros [s sofar] w [s' sofar'] w'. unfold exactly_body.
  destruct (Z.ltb_spec sofar total); [|done].
  intros ([r s1] & w1 & H1 & H2)%bind_inv.
  apply session_recv_inv in H1 as (_ & [(-> & _)|H1]); [done| |lia].
  destruct (r <=? 0); [done|]. unfold mret, io_ret in H2. simplify_eq.
  by destruct H1 as (p & p' & got & _ & _ & _ & _ & _ & _ & ?).
Qed.

(** The state of the loop: [sofar] bytes of the stream [rx] are behind [base]. *)
Definition exactly_inv (s : netbios_session) (p : bytes) (base total : Z) (w0 : world)
    (st : netbios_session * Z) (w : world) : Prop :=
  exists got p', w_rx w0 = got ++ w_rx w /\ zlen got = st.2 /\ 0 <= st.2 <= total
    /\ put p base got = Some p' /\ st.1 = set_packet s (Some p') /\ same_system w0 w.

Lemma exactly_inv_init s p base total w :
  packet s = Some p -> 0 <= base -> base <= zlen p -> 0 <= total ->
  exactly_inv s p base total w (s, 0) w.
Proof.
  intros Hp Hb1 Hb2 Ht. exists [], p. cbn [fst snd]. split_and!; try done.
  - rewrite put_nil by lia. done.
  - destruct s; simpl in *. by rewrite Hp.
Qed.

Lemma exactly_inv_step s p base total w0 s1 sofar w1 r s2 w2 :
  exactly_inv s p base total w0 (s1, sofar) w1 -> sofar < total ->
  netbios_session_recv s1 (base + sofar) (total - sofar) w1 = Done ((r, s2), w2) ->
  (r = -1 /\ exactly_inv s p base total w0 (s2, sofar) w2)
  \/ (0 <= r /\ exactly_inv s p base total w0 (s2, sofar + r) w2).
Proof.
  intros (got & p1 & Hrx & Hg & Hs & Hput & E1 & Hsys) Hlt Hr. cbn [fst snd] in *. subst s1.
  apply session_recv_inv in Hr as (Hsys' & [(-> & -> & E)|H]); [..|lia].
  - left. split; [done|]. exists got, p1. rewrite E. cbn [fst snd].
    split_and!; try done; try lia. by eapply same_system_trans.
  - right. destruct H as (q & q' & got' & Hq & Hrx' & Hg' & Hput' & -> & Hle & _).
    cbn [packet set_packet] in Hq. simplify_eq. split; [len|].
    exists (got ++ got'), q'. cbn [fst snd]. split_and!.
    + by rewrite Hrx, Hrx', app_assoc.
    + len.
    + len.
    + len.
    + eapply put_adjacent; [exact Hput|]. done.
    + done.
    + by eapply same_system_trans.
Qed.

Lemma exactly_inv_packet s p base total w0 s1 sofar w1 :
  exactly_inv s p base total w0 (s1, sofar) w1 ->
  exists p1, packet s1 = Some p1 /\ zlen p1 = zlen p.
Proof.
  intros (got & p1 & _ & _ & _ & Hput & E & _). cbn [fst] in E. subst s1.
  exists p1. split; [done|].
  by eapply length_put.
Qed.

(** Whatever the events: the buffer received a prefix of the stream, the
    whole of it when the loop reports success. *)
Lemma recv_exactly_inv s p base total w ok s' w' :
  packet s = Some p -> 0 <= base -> 0 <= total -> base + total <= zlen p ->
  recv_exactly s base total w = Done ((ok, s'), w') ->
  exists sofar, exactly_inv s p base total w (s', sofar) w' /\ (ok = true -> sofar = total).
Proof.
  intros Hp Hb Ht Hl. rewrite recv_exactly_body.
  apply (loop_invariant _ (exactly_inv s p base total w)
    (fun b w' => exists sofar, exactly_inv s p base total w (b.2, sofar) w'
       /\ (b.1 = true -> sofar = total))).
  - intros [s1 sofar] w1 [s2 sofar2] w2 HI. unfold exactly_body.
    destruct (Z.ltb_spec sofar total); [|done].
    intros ([r s3] & w3 & H1 & H2)%bind_inv.
    destruct (Z.leb_spec r 0); unfold mret, io_ret in H2; simplify_eq.
    destruct (exactly_inv_step _ _ _ _ _ _ _ _ _ _ _ HI ltac:(lia) H1) as [[-> _]|[_ ?]]; [lia|done].
  - intros [s1 sofar] w1 [ok1 s2] w2 HI. unfold exactly_body. cbn [fst snd].
    destruct (Z.ltb_spec sofar total).
    + intros ([r s3] & w3 & H1 & H2)%bind_inv.
      destruct (Z.leb_spec r 0); unfold mret, io_ret in H2; simplify_eq.
      destruct (exactly_inv_step _ _ _ _ _ _ _ _ _ _ _ HI ltac:(lia) H1) as [[-> ?]|[? ?]]; [by exists sofar|].
      exists sofar. split; [|done]. by replace (sofar + r) with sofar in * by lia.
    + unfold mret, io_ret. intros. simplify_eq. exists sofar. split; [done|].
      destruct HI as (? & ? & ? & ? & ? & _). cbn [fst snd] in *. lia.
  - apply exactly_inv_init; auto; lia.
Qed.

Lemma recv_exactly_safe s p base total w :
  packet s = Some p -> 0 <= base -> 0 <= total -> base + total <= zlen p ->
  recv_exactly s base total w <> Fault.
Proof.
  intros Hp Hb Ht Hl. rewrite recv_exactly_body.
  apply (loop_not_Fault _ (exactly_inv s p base total w)).
  - intros [s1 sofar] w1 [s2 sofar2] w2 HI. unfold exactly_body.
    destruct (Z.ltb_spec sofar total); [|done].
    intros ([r s3] & w3 & H1 & H2)%bind_inv.
    destruct (Z.leb_spec r 0); unfold mret, io_ret in H2; simplify_eq.
    destruct (exactly_inv_step _ _ _ _ _ _ _ _ _ _ _ HI ltac:(lia) H1) as [[-> _]|[_ ?]]; [lia|done].
  - intros [s1 sofar] w1 HI. unfold exactly_body.
    destruct (exactly_inv_packet _ _ _ _ _ _ _ _ HI) as (p1 & Hp1 & Hl1).
    destruct HI as (? & ? & ? & ? & ? & _). cbn [fst snd] in *.
    destruct (Z.ltb_spec sofar total); [|done]. apply bind_not_Fault.
    + eapply session_recv_safe; [exact Hp1|lia..].
    + intros [r s3] w3 _. by destruct (r <=? 0).
  - apply exactly_inv_init; auto; lia.
Qed.

(** A working network with [total] bytes to come fills the range. *)
Lemma exactly_total s p base total w0 s1 sofar w1 :
  0 <= base -> base + total <= zlen p ->
  exactly_inv s p base total w0 (s1, sofar) w1 ->
  healthy w1 -> total - sofar <= Z.of_nat (ready_count w1) -> total - sofar <= zlen (w_rx w1) ->
  exists s' w', loop (exactly_body base total) (s1, sofar) w1 = Done ((true, s'), w')
    /\ healthy w' /\ Z.of_nat (ready_count w1) - (total - sofar) <= Z.of_nat (ready_count w').
Proof.
  intros Hb Hl. remember (Z.to_nat (total - sofar)) as k eqn:Ek. revert s1 sofar w1 Ek.
  induction (lt_wf k) as [k _ IH]. intros s1 sofar w1 Ek HI Hh Hr Hrx.
  rewrite loop_unfold by apply exactly_body_consumes.
  destruct (Z.lt_ge_cases sofar total) as [Hlt|Hge].
  - destruct (exactly_inv_packet _ _ _ _ _ _ _ _ HI) as (p1 & Hp1 & Hl1).
    pose proof HI as (_ & _ & _ & _ & Hso & _). cbn [snd] in Hso.
    destruct (session_recv_total s1 (base + sofar) (total - sofar) w1 p1)
      as (r & s2 & w2 & H & Hr2 & Hh2 & Hc2); auto; try lia.
    { intros E. rewrite E in Hrx. change (zlen []) with 0 in Hrx. lia. }
    destruct (exactly_inv_step _ _ _ _ _ _ _ _ _ _ _ HI Hlt H) as [[-> _]|[_ HI2]]; [lia|].
    assert (Hrx2 : total - (sofar + r) <= zlen (w_rx w2)).
    { apply session_recv_inv in H as (_ & [(-> & _)|(? & ? & got & _ & E & Eg & _)]); [lia| |lia].
      rewrite E in Hrx. len. }
    pose proof HI2 as (_ & _ & _ & _ & Hso2 & _). cbn [snd] in Hso2.
    destruct (IH (Z.to_nat (total - (sofar + r))) ltac:(lia) s2 (sofar + r) w2 eq_refl HI2 Hh2
      ltac:(lia) Hrx2) as (s3 & w3 & H3 & Hh3 & Hc3).
    exists s3, w3. split; [|split; [done|lia]].
    rewrite (bind_Done _ _ _ (inl (s2, sofar + r)) w2); [exact H3|].
    unfold exactly_body. rewrite (proj2 (Z.ltb_lt _ _)), (bind_Done _ _ _ _ _ H) by lia.
    by rewrite (proj2 (Z.leb_gt r 0)) by lia.
  - pose proof HI as (_ & _ & _ & _ & Hso & _). cbn [snd] in Hso.
    exists s1, w1. split; [|split; [done|lia]].
    unfold exactly_body, mbind, io_bind. by rewrite (proj2 (Z.ltb_ge _ _)) by lia.
Qed.

(** * Frames *)

(** A session service frame: the 17-bit length has its top bit in the flags. *)
Definition frame (op flags : Z) (payload : bytes) : bytes :=
  [op; flags] ++ le_bytes 2 (swap16 (u16 (zlen payload))) ++ payload.

Definition frame_ok (op flags : Z) (payload : bytes) : Prop :=
  is_byte op /\ is_byte flags /\ zlen payload < 131072
  /\ flags `mod` 2 = zlen payload `div` 65536.

(** The buffer: room for the header, and at least what the size field says. *)
Definition session_ok (s : netbios_session) : Prop :=
  exists p, packet s = Some p /\ 4 <= zlen p /\ 0 <= packet_payload_size s <= zlen p
    /\ bytes_ok p.

Definition connected (s : netbios_session) : Prop := 0 <= socket s /\ 0 < state s.

Lemma total_spec l f :
  0 <= l < 131072 -> is_byte f -> f `mod` 2 = l `div` 65536 ->
  Z.lor (swap16 (swap16 (u16 l))) (Z.shiftl (Z.land f 1) 16) = l.
Proof.
  intros Hl Hf E. rewrite swap16_involutive by apply u16_range.
  rewrite (land_mask 1) by done. change (2 ^ 1) with 2. rewrite E.
  rewrite (lor_shiftl 16) by (try apply u16_range; lia). change (2 ^ 16) with 65536.
  unfold u16. zdiv.
Qed.

(** The length field of a header, as the reader computes it. *)
Definition total_of (p : bytes) : option Z :=
  match get16 p 2, rd p 1 with
  | Some len, Some flags => Some (Z.lor (swap16 len) (Z.shiftl (Z.land flags 0x01) 16))
  | _, _ => None
  end.

Lemma total_of_range p :
  bytes_ok p -> 4 <= zlen p -> exists t, total_of p = Some t /\ 0 <= t < 131072.
Proof.
  intros Hb Hl. unfold total_of.
  destruct (get_word_Some p 2 2) as [len E]; [lia..|]. unfold get16. rewrite E.
  destruct (proj2 (rd_is_Some p 1)) as [f Ef]; [lia|]. rewrite Ef.
  eexists. split; [reflexivity|].
  rewrite (lor_shiftl 16) by (try apply swap16_range; lia).
  rewrite (land_mask 1) by done. pose proof (swap16_range len). zdiv.
Qed.

(** Growing the buffer for a packet of [total] bytes. *)
Definition reserve (s : netbios_session) (total : Z) : io (Z * netbios_session) :=
  if packet_payload_size s <? total + sizeof_packet
  then session_buffer_realloc s (total + sizeof_packet)
  else mret (1, s).

Lemma reserve_spec s p total w :
  packet s = Some p -> 4 <= zlen p -> 0 <= packet_payload_size s <= zlen p -> bytes_ok p ->
  0 <= total ->
  exists ok s' w', reserve s total w = Done ((ok, s'), w')
    /\ w_rx w' = w_rx w /\ w_events w' = w_events w /\ w_aborted w' = w_aborted w
    /\ w_coin w' = w_coin w
    /\ socket s' = socket s /\ state s' = state s
    /\ (ok = 0 /\ packet s' = None /\ w_coin w (w_tick w) = false
        \/ ok = 1 /\ exists p', packet s' = Some p' /\ total + 4 <= zlen p' /\ bytes_ok p'
             /\ 0 <= packet_payload_size s' <= zlen p' /\ take 4 p' = take 4 p).
Proof.
  intros Hp H4 Hs Hb Ht. unfold reserve, sizeof_packet.
  destruct (Z.ltb_spec (packet_payload_size s) (total + 4)) as [Hlt|Hge].
  - unfold session_buffer_realloc. rewrite Hp. cbn [default id].
    rewrite (bind_Done _ _ _ _ _ (realloc_spec _ _ _)).
    destruct (w_coin w (w_tick w)); do 3 eexists; (split; [reflexivity|]);
      cbn; split_and!; auto.
    right. split; [done|]. eexists. split; [reflexivity|]. split_and!; try len.
    + auto with dsm.
    + rewrite take_app_le by len. rewrite take_take. f_equal. lia.
  - do 3 eexists. split; [reflexivity|]. split_and!; auto.
    right. split; [done|]. exists p. split_and!; auto; lia.
Qed.

Lemma get_next_packet_unfold s w :
  netbios_session_get_next_packet s w
  = (_ ← the_packet s;
     require ((0 <=? socket s) && (0 <? state s)) ;;
     '(ok, s) ← recv_exactly s 0 sizeof_packet;
     if negb ok then mret (-1, s)
     else
       p ← the_packet s;
       total ← access (total_of p);
       '(ok, s) ← reserve s total;
       if ok =? 0 then mret (-1, s)
       else
         '(ok, s) ← recv_exactly s sizeof_packet total;
         if negb ok then mret (-1, s) else mret (total, s)) w.
Proof.
  unfold netbios_session_get_next_packet, mbind, io_bind.
  destruct (the_packet s w) as [[q w1]| |]; try done. cbn [obind].
  destruct (require _ w1) as [[[] w2]| |]; try done. cbn [obind].
  destruct (recv_exactly s 0 sizeof_packet w2) as [[[[] s1] w3]| |]; try done.
  cbn [obind negb]. destruct (the_packet s1 w3) as [[p w4]| |]; try done. cbn [obind].
  unfold total_of, access, lift. destruct (get16 p 2), (rd p 1); done.
Qed.

(** What a reader leaves behind, whatever the network does. *)
Definition read_result (r : Z) (s' : netbios_session) (w' : world) : Prop :=
  bytes_ok (w_rx w') /\ connected s'
  /\ ((r = -1 /\ (packet s' = None /\ ~ lucky w' \/ session_ok s'))
      \/ (0 <= r < 131072 /\ session_ok s'
          /\ exists p, packet s' = Some p /\ 4 + r <= zlen p)).

Lemma the_packet_Done s p w : packet s = Some p -> the_packet s w = Done (p, w).
Proof. intros Hp. unfold the_packet, access, lift. by rewrite Hp. Qed.

Lemma require_connected s w :
  connected s -> require ((0 <=? socket s) && (0 <? state s)) w = Done (tt, w).
Proof.
  intros [H1 H2]. unfold require, lift, assert.
  by rewrite (proj2 (Z.leb_le _ _)), (proj2 (Z.ltb_lt _ _)) by lia.
Qed.

Lemma exactly_inv_ok s p base total w0 s1 sofar w1 :
  exactly_inv s p base total w0 (s1, sofar) w1 -> bytes_ok p -> bytes_ok (w_rx w0) ->
  connected s -> 0 <= packet_payload_size s <= zlen p -> 4 <= zlen p ->
  bytes_ok (w_rx w1) /\ connected s1
  /\ exists p1, packet s1 = Some p1 /\ zlen p1 = zlen p /\ bytes_ok p1
     /\ 0 <= packet_payload_size s1 <= zlen p1.
Proof.
  intros (got & p1 & Hrx & _ & _ & Hput & E & _) Hb Hbx Hc Hs H4. cbn [fst] in E. subst s1.
  rewrite Hrx in Hbx. apply Forall_app in Hbx as [Hg Hbx].
  split; [done|]. split; [exact Hc|]. exists p1. pose proof (length_put _ _ _ _ Hput).
  split_and!; [done|done|exact (put_ok _ _ _ _ Hb Hg Hput)|cbn; lia..].
Qed.

Lemma get_next_packet_result s w :
  session_ok s -> connected s -> bytes_ok (w_rx w) ->
  netbios_session_get_next_packet s w <> Fault
  /\ forall r s' w', netbios_session_get_next_packet s w = Done ((r, s'), w') ->
       read_result r s' w'.
Proof.
  intros (p & Hp & H4 & Hs & Hb) Hc Hx. rewrite get_next_packet_unfold.
  rewrite (bind_Done _ _ _ _ _ (the_packet_Done _ _ _ Hp)).
  rewrite (bind_Done _ _ _ _ _ (require_connected _ _ Hc)).
  pose proof (recv_exactly_safe s p 0 sizeof_packet w Hp) as Hsafe.
  destruct (recv_exactly s 0 sizeof_packet w) as [[[ok s1] w1]| |] eqn:E1;
    [|exfalso; apply Hsafe; unfold sizeof_packet; lia || done
     |split; [by unfold mbind, io_bind; rewrite E1|by unfold mbind, io_bind; rewrite E1]].
  destruct (recv_exactly_inv s p 0 4 w ok s1 w1 Hp) as (sofar & HI & _); [lia..|done|].
  destruct (exactly_inv_ok _ _ _ _ _ _ _ _ HI Hb Hx Hc Hs H4)
    as (Hx1 & Hc1 & p1 & Hp1 & Hl1 & Hb1 & Hs1).
  rewrite (bind_Done _ _ _ _ _ E1). destruct ok; cbn [negb].
  2: { split; [done|]. intros ??? [= <- <- <-]. split_and!; try done. left. split; [done|].
       right. exists p1. split_and!; auto; lia. }
  rewrite (bind_Done _ _ _ _ _ (the_packet_Done _ _ _ Hp1)).
  destruct (total_of_range p1 Hb1) as (t & Et & Ht); [lia|].
  rewrite (bind_Done _ _ _ t w1) by (unfold access, lift; by rewrite Et).
  destruct (reserve_spec s1 p1 t w1 Hp1) as (ok2 & s2 & w2 & E2 & Hx2 & _ & _ & Hco2 & Hk & Hst & H2);
    auto; try lia.
  assert (Hc2 : connected s2) by (split; rewrite ?Hk, ?Hst; apply Hc1).
  rewrite (bind_Done _ _ _ _ _ E2). rewrite <- Hx2 in Hx1.
  destruct H2 as [(-> & Hn & Hcoin)|(-> & p2 & Hp2 & Hl2 & Hb2 & Hs2 & _)]; cbn [Z.eqb].
  { split; [done|]. intros ??? [= <- <- <-]. split_and!; try done. left. split; [done|]. left. split; [done|].
    intros Hlk. rewrite <- Hco2 in Hcoin. by rewrite Hlk in Hcoin. }
  pose proof (recv_exactly_safe s2 p2 4 t w2 Hp2 ltac:(lia) ltac:(lia) ltac:(lia)) as Hsafe2.
  unfold sizeof_packet. destruct (recv_exactly s2 4 t w2) as [[[ok3 s3] w3]| |] eqn:E3;
    [|done|split; [by unfold mbind, io_bind; rewrite E3|by unfold mbind, io_bind; rewrite E3]].
  destruct (recv_exactly_inv s2 p2 4 t w2 ok3 s3 w3 Hp2) as (sofar3 & HI3 & _); [lia..|done|].
  destruct (exactly_inv_ok _ _ _ _ _ _ _ _ HI3 Hb2 Hx1 Hc2 Hs2 ltac:(lia))
    as (Hx3 & Hc3 & p3 & Hp3 & Hl3 & Hb3 & Hs3).
  assert (Hok : session_ok s3) by (exists p3; split_and!; auto; lia).
  rewrite (bind_Done _ _ _ _ _ E3).
  destruct ok3; cbn [negb]; (split; [done|]; intros ??? [= <- <- <-]; split_and!; try done).
  - right. split_and!; auto; try lia. exists p3. split; [done|lia].
  - left. auto.
Qed.

Definition recv_body (s : netbios_session) : io (netbios_session + Z * netbios_session) :=
  '(size, s) ← netbios_session_get_next_packet s;
  if size <? 0 then mret (inr (size, s))
  else
    p ← the_packet s;
    op ← access (rd p 0);
    if op =? NETBIOS_OP_SESSION_KEEPALIVE then mret (inl s) else mret (inr (size, s)).

(** Receiving consumes events, whatever the buffer. *)
Lemma recv_exactly_events s base total w ok s' w' :
  recv_exactly s base total w = Done ((ok, s'), w') ->
  (length (w_events w') <= length (w_events w))%nat
  /\ (ok = true -> 0 < total -> (length (w_events w') < length (w_events w))%nat).
Proof.
  rewrite recv_exactly_body.
  apply (loop_invariant _ (fun st w1 => (length (w_events w1) <= length (w_events w))%nat
      /\ (0 < st.2 -> (length (w_events w1) < length (w_events w))%nat))
    (fun b w1 => (length (w_events w1) <= length (w_events w))%nat
      /\ (b.1 = true -> 0 < total -> (length (w_events w1) < length (w_events w))%nat))).
  - intros [s1 n] w1 [s2 n2] w2 [H1 H2] E%exactly_body_consumes. split; [|intros _]; lia.
  - intros [s1 n] w1 [b s2] w2 [H1 H2]. unfold exactly_body. cbn [fst snd] in *.
    destruct (Z.ltb_spec n total).
    + intros ([r s3] & w3 & Hr & E)%bind_inv.
      apply session_recv_inv in Hr as [(_ & _ & _ & ?) _]; [|lia].
      destruct (r <=? 0); unfold mret, io_ret in E; simplify_eq. split; [lia|done].
    + unfold mret, io_ret. intros. simplify_eq. split; [done|]. intros _ ?. apply H2. lia.
  - split; [done|]. cbn. lia.
Qed.

Lemma reserve_events s total w r w' :
  reserve s total w = Done (r, w') -> w_events w' = w_events w.
Proof.
  unfold reserve, session_buffer_realloc. destruct (_ <? _); [|by intros [= _ <-]].
  rewrite (bind_Done _ _ _ _ _ (realloc_spec _ _ _)).
  by destruct (w_coin w (w_tick w)); intros [= _ <-].
Qed.

Lemma get_next_packet_events s w r s' w' :
  netbios_session_get_next_packet s w = Done ((r, s'), w') -> 0 <= r ->
  (length (w_events w') < length (w_events w))%nat.
Proof.
  rewrite get_next_packet_unfold.
  intros (p & w1 & H1 & (u & w2 & H2 & ([ok s2] & w3 & H3 & H)%bind_inv)%bind_inv)%bind_inv Hr.
  unfold the_packet, access, require, lift in H1, H2.
  apply obind_Done in H1 as (? & _ & [= _ <-]), H2 as (? & _ & [= _ <-]).
  apply recv_exactly_events in H3 as [_ H3].
  destruct ok; cbn [negb] in H; [|unfold mret, io_ret in H; simplify_eq; lia].
  specialize (H3 eq_refl ltac:(unfold sizeof_packet; lia)).
  apply bind_inv in H as (p1 & w4 & H4 & (t & w5 & H5 & ([ok s5] & w6 & H6 & H)%bind_inv)%bind_inv).
  unfold the_packet, access, lift in H4, H5.
  apply obind_Done in H4 as (? & _ & [= _ <-]), H5 as (? & _ & [= _ <-]).
  apply reserve_events in H6. rewrite <- H6 in H3.
  destruct (ok =? 0); [unfold mret, io_ret in H; simplify_eq; lia|].
  apply bind_inv in H as ([ok7 s7] & w7 & H7 & H). apply recv_exactly_events in H7 as [H7 _].
  destruct ok7; unfold mret, io_ret in H; cbn [negb] in H; simplify_eq; lia.
Qed.

Lemma recv_body_consumes : consumes recv_body.
Proof.
  intros s w s' w' ([r s1] & w1 & H1 & H)%bind_inv.
  destruct (Z.ltb_spec r 0); [done|].
  apply get_next_packet_events in H1; [|done].
  apply bind_inv in H as (p & w2 & H2 & (op & w3 & H3 & H)%bind_inv).
  unfold the_packet, access, lift in H2, H3.
  apply obind_Done in H2 as (? & _ & [= _ <-]), H3 as (? & _ & [= _ <-]).
  destruct (op =? _); unfold mret, io_ret in H; simplify_eq. done.
Qed.

Lemma packet_recv_run s w :
  session_ok s -> connected s -> bytes_ok (w_rx w) ->
  netbios_session_packet_recv s w <> Fault
  /\ forall r s' w', netbios_session_packet_recv s w = Done ((r, s'), w') ->
       read_result r s' w'.
Proof.
  intros Hs Hc Hx. change (netbios_session_packet_recv s) with (loop recv_body s).
  set (I := fun s w => session_ok s /\ connected s /\ bytes_ok (w_rx w)).
  assert (Hstep : forall s w a w', I s w -> recv_body s w = Done (a, w') ->
    match a with inl s' => I s' w' | inr (r, s') => read_result r s' w' end).
  { intros s1 w1 a w2 (H1 & H2 & H3) ([r s3] & w3 & H4 & H)%bind_inv.
    apply (proj2 (get_next_packet_result s1 w1 H1 H2 H3)) in H4 as HR.
    destruct (Z.ltb_spec r 0); [by injection H as <- <-|].
    destruct HR as (Hx3 & Hc3 & [[-> _]|(Hr & Hok & p & Hp & Hl)]); [lia|].
    rewrite (bind_Done _ _ _ _ _ (the_packet_Done _ _ _ Hp)) in H.
    apply bind_inv in H as (op & w4 & H5 & H). unfold access, lift in H5.
    apply obind_Done in H5 as (? & _ & [= _ <-]).
    destruct (op =? _); injection H as <- <-; [done|]. split_and!; auto.
    right. split_and!; auto; try lia. eauto. }
  split.
  - apply (loop_not_Fault _ I); [|clear s w Hs Hc Hx|done].
    + intros s1 w1 s2 w2 HI H. exact (Hstep _ _ (inl s2) _ HI H).
    + intros s1 w1 (H1 & H2 & H3). destruct (get_next_packet_result s1 w1 H1 H2 H3) as [Hf HR].
      apply bind_not_Fault; [done|]. intros [r s3] w3 (_ & _ & H4)%HR.
      destruct (Z.ltb_spec r 0); [done|].
      destruct H4 as [[-> _]|(_ & (p & Hp & Hl & _) & _)]; [lia|].
      rewrite (bind_Done _ _ _ _ _ (the_packet_Done _ _ _ Hp)).
      destruct (proj2 (rd_is_Some p 0)) as [op Hop]; [lia|].
      rewrite (bind_Done _ _ _ op w3) by (unfold access, lift; by rewrite Hop).
      by destruct (op =? _).
  - intros r s' w' H.
    apply (loop_invariant recv_body I (fun b w => read_result b.1 b.2 w) s w (r, s') w'); try done.
    + intros s1 w1 s2 w2 HI H1. exact (Hstep _ _ (inl s2) _ HI H1).
    + intros s1 w1 [r2 s2] w2 HI H1. exact (Hstep _ _ (inr (r2, s2)) _ HI H1).
Qed.

(** C13. The receiver is memory safe for every peer and every behaviour of the
    network: from a session whose buffer matches its size field,
    [netbios_session_packet_recv] never accesses memory outside the buffer,
    and it either reports -1 or leaves a payload of that size inside the
    buffer, with the session well-formed again; after -1 too, unless there was
    no memory for the packet. *)
Theorem packet_recv_safe s w :
  session_ok s -> connected s -> bytes_ok (w_rx w) ->
  netbios_session_packet_recv s w <> Fault
  /\ forall r s' w', netbios_session_packet_recv s w = Done ((r, s'), w') ->
       read_result r s' w'.
Proof. apply packet_recv_run. Qed.

(** ** A working network *)

Lemma recv_exactly_total s p base total got rest w :
  packet s = Some p -> 0 <= base -> base + total <= zlen p ->
  w_rx w = got ++ rest -> zlen got = total ->
  healthy w -> total <= Z.of_nat (ready_count w) ->
  exists p' w', recv_exactly s base total w = Done ((true, set_packet s (Some p')), w')
    /\ put p base got = Some p' /\ w_rx w' = rest /\ healthy w'
    /\ w_coin w' = w_coin w /\ w_tick w' = w_tick w
    /\ Z.of_nat (ready_count w) - total <= Z.of_nat (ready_count w').
Proof.
  intros Hp Hb Hl Hrx Hg Hh Hc. rewrite recv_exactly_body.
  destruct (exactly_total s p base total w s 0 w) as (s' & w' & H & Hh' & Hc'); auto; try lia.
  { apply exactly_inv_init; auto; len. }
  { rewrite Hrx. len. }
  pose proof H as H'. rewrite <- recv_exactly_body in H'.
  apply (recv_exactly_inv s p) in H' as (sofar & HI & Hs); auto; try len.
  specialize (Hs eq_refl). subst sofar.
  destruct HI as (got' & p' & Hrx' & Hg' & _ & Hput & E & (Hcoin & Htick & _)).
  cbn [fst snd] in *. subst s'. rewrite Hrx in Hrx'.
  apply app_inj_1 in Hrx' as [<- Erest]; [|len].
  exists p', w'. split_and!; auto. lia.
Qed.

Lemma frame_header op flags payload p :
  frame_ok op flags payload -> 4 <= zlen p ->
  take 4 p = [op; flags] ++ le_bytes 2 (swap16 (u16 (zlen payload))) ->
  total_of p = Some (zlen payload).
Proof.
  intros (Hop & Hf & Hn & Hm) H4 E. unfold total_of, get16, get_word.
  rewrite <- (take_drop 4 p), E. rewrite <- app_assoc. rewrite sub_app by done.
  change ([op; flags] ++ ?l) with ([op] ++ flags :: l). rewrite rd_app by done.
  cbn [fmap option_fmap option_map]. rewrite le_word_bytes_small by apply swap16_range.
  f_equal. apply total_spec; auto. split; [len|done].
Qed.

Lemma get_next_packet_total s op flags payload rest w :
  session_ok s -> connected s -> frame_ok op flags payload -> bytes_ok payload ->
  (forall n, w_coin w n = true) -> healthy w ->
  w_rx w = frame op flags payload ++ rest ->
  4 + zlen payload <= Z.of_nat (ready_count w) ->
  exists s' w' p', netbios_session_get_next_packet s w = Done ((zlen payload, s'), w')
    /\ packet s' = Some p' /\ take (4 + length payload) p' = frame op flags payload
    /\ session_ok s' /\ connected s' /\ w_rx w' = rest /\ healthy w'
    /\ w_coin w' = w_coin w
    /\ Z.of_nat (ready_count w) - (4 + zlen payload) <= Z.of_nat (ready_count w').
Proof.
  intros (p & Hp & H4 & Hs & Hb) Hc Hf Hbp Hcoin Hh Hrx Hcnt.
  assert (Hpl : 0 <= zlen payload) by len.
  set (hd := [op; flags] ++ le_bytes 2 (swap16 (u16 (zlen payload)))).
  assert (Hhd : zlen hd = 4) by (unfold hd; len).
  assert (Hbhd : bytes_ok hd).
  { unfold hd. destruct Hf as (? & ? & _). apply bytes_ok_app; [by constructor; [|constructor]|apply le_bytes_ok]. }
  assert (Hrx1 : w_rx w = hd ++ payload ++ rest)
    by (rewrite Hrx; unfold frame, hd; by rewrite <- !app_assoc).
  rewrite get_next_packet_unfold.
  rewrite (bind_Done _ _ _ _ _ (the_packet_Done _ _ _ Hp)).
  rewrite (bind_Done _ _ _ _ _ (require_connected _ _ Hc)).
  destruct (recv_exactly_total s p 0 4 hd (payload ++ rest) w)
    as (p1 & w1 & E1 & Hput1 & Hrx2 & Hh1 & Hco1 & _ & Hc1); auto; try lia.
  unfold sizeof_packet at 1. rewrite (bind_Done _ _ _ _ _ E1). cbn [negb].
  pose proof (length_put _ _ _ _ Hput1) as Hl1.
  assert (Hp1 : p1 = hd ++ drop 4 p).
  { apply put_inv in Hput1 as (_ & _ & ->). cbn [Z.to_nat take app]. by do 2 f_equal. }
  assert (Ht1 : take 4 p1 = hd) by (rewrite Hp1; apply take_app_length'; len).
  assert (Hb1 : bytes_ok p1) by (exact (put_ok _ _ _ _ Hb Hbhd Hput1)).
  rewrite (bind_Done _ _ _ p1 w1) by (by apply the_packet_Done).
  rewrite (bind_Done _ _ _ (zlen payload) w1)
    by (unfold access, lift; rewrite (frame_header op flags payload) by (auto; lia); done).
  destruct (reserve_spec (set_packet s (Some p1)) p1 (zlen payload) w1)
    as (ok & s2 & w2 & E2 & Hrx3 & Hev & Hab & Hco2 & Hk & Hst & H2); auto; cbn; try lia.
  rewrite (bind_Done _ _ _ _ _ E2).
  destruct H2 as [(_ & _ & Hfalse)|(-> & p2 & Hp2 & Hl2 & Hb2 & Hs2 & Ht2)].
  { rewrite Hco1, Hcoin in Hfalse. done. }
  cbn [Z.eqb].
  assert (Hh2 : healthy w2) by (destruct Hh1; split; by rewrite ?Hab, ?Hev).
  assert (Hr2 : ready_count w2 = ready_count w1) by (unfold ready_count; by rewrite Hev).
  destruct (recv_exactly_total s2 p2 4 (zlen payload) payload rest w2)
    as (p3 & w3 & E3 & Hput3 & Hrx4 & Hh3 & Hco3 & _ & Hc3); auto; try lia.
  { by rewrite Hrx3. }
  unfold sizeof_packet. rewrite (bind_Done _ _ _ _ _ E3). cbn [negb].
  pose proof (length_put _ _ _ _ Hput3) as Hl3.
  pose proof (put_ok _ _ _ _ Hb2 Hbp Hput3) as Hb3.
  do 3 eexists. split; [reflexivity|]. split; [reflexivity|]. split_and!; auto.
  - apply put_inv in Hput3 as (_ & _ & ->). change (Z.to_nat 4) with 4%nat.
    rewrite Ht2, Ht1, app_assoc, take_app_le by len. unfold frame.
    rewrite take_ge by len. unfold hd. by rewrite <- app_assoc.
  - exists p3. split_and!; cbn; auto; lia.
  - destruct Hc. split; cbn; rewrite ?Hk, ?Hst; cbn; lia.
  - by rewrite Hco3, Hco2.
  - lia.
Qed.

(** Keep-alive frames in front of the answer. *)
Definition keepalives (ks : list (Z * bytes)) : bytes :=
  ks ≫= fun '(flags, payload) => frame NETBIOS_OP_SESSION_KEEPALIVE flags payload.

Definition keepalives_ok (ks : list (Z * bytes)) : Prop :=
  Forall (fun '(flags, payload) =>
    frame_ok NETBIOS_OP_SESSION_KEEPALIVE flags payload /\ bytes_ok payload) ks.

(** C4. Over a working connection [netbios_session_packet_recv] returns, for
    every way the system cuts the byte stream into reads: it skips any number
    of keep-alive packets and delivers exactly the next packet (header and
    payload, up to 2^17 - 1 bytes), growing the buffer if necessary, and
    leaves the stream at the first byte behind it. *)
Theorem packet_recv_reassembles ks op flags payload rest s w :
  session_ok s -> connected s -> keepalives_ok ks ->
  frame_ok op flags payload -> bytes_ok payload -> op <> NETBIOS_OP_SESSION_KEEPALIVE ->
  (forall n, w_coin w n = true) -> healthy w ->
  w_rx w = keepalives ks ++ frame op flags payload ++ rest ->
  zlen (keepalives ks) + 4 + zlen payload <= Z.of_nat (ready_count w) ->
  exists s' w' p', netbios_session_packet_recv s w = Done ((zlen payload, s'), w')
    /\ packet s' = Some p' /\ take (4 + length payload) p' = frame op flags payload
    /\ session_ok s' /\ connected s' /\ w_rx w' = rest.
Proof.
  change (netbios_session_packet_recv s) with (loop recv_body s).
  intros Hs Hc Hks Hf Hb Hop. revert s w Hs Hc.
  induction Hks as [|[kf kp] ks [Hkf Hkb] Hks IH]; intros s w Hs Hc Hcoin Hh Hrx Hcnt;
    rewrite loop_unfold by apply recv_body_consumes.
  - change (keepalives []) with (@nil Z) in *. change (zlen []) with 0 in *.
    destruct (get_next_packet_total s op flags payload rest w)
      as (s1 & w1 & p1 & E & Hp1 & Ht & Hs1 & Hc1 & Hrx1 & _); auto; try lia.
    exists s1, w1, p1. split_and!; auto.
    rewrite (bind_Done _ _ _ (inr (zlen payload, s1)) w1); [done|].
    unfold recv_body. rewrite (bind_Done _ _ _ _ _ E), (proj2 (Z.ltb_ge _ _)) by len.
    rewrite (bind_Done _ _ _ _ _ (the_packet_Done _ _ _ Hp1)).
    rewrite (bind_Done _ _ _ op w1).
    + by rewrite (proj2 (Z.eqb_neq _ _)).
    + unfold access, lift. rewrite <- (take_drop (4 + length payload) p1), Ht. done.
  - change (keepalives ((kf, kp) :: ks))
      with (frame NETBIOS_OP_SESSION_KEEPALIVE kf kp ++ keepalives ks) in *.
    assert (Hfl : zlen (frame NETBIOS_OP_SESSION_KEEPALIVE kf kp) = 4 + zlen kp)
      by (unfold frame; len).
    assert (Hal : forall l1 l2 : bytes, zlen (l1 ++ l2) = zlen l1 + zlen l2) by (intros; len).
    rewrite Hal, Hfl in Hcnt.
    assert (0 <= zlen (keepalives ks) /\ 0 <= zlen payload) as [? ?] by (unfold zlen; lia).
    destruct (get_next_packet_total s NETBIOS_OP_SESSION_KEEPALIVE kf kp
        (keepalives ks ++ frame op flags payload ++ rest) w)
      as (s1 & w1 & p1 & E & Hp1 & Ht & Hs1 & Hc1 & Hrx1 & Hh1 & Hco1 & Hcnt1); auto; try lia.
    { rewrite Hrx. by rewrite <- app_assoc. }
    destruct (IH s1 w1) as (s2 & w2 & p2 & E2 & H2); auto; try lia.
    { intros n. rewrite Hco1. apply Hcoin. }
    exists s2, w2, p2. split; [|exact H2].
    rewrite (bind_Done _ _ _ (inl s1) w1); [exact E2|].
    unfold recv_body. rewrite (bind_Done _ _ _ _ _ E), (proj2 (Z.ltb_ge _ _)) by len.
    rewrite (bind_Done _ _ _ _ _ (the_packet_Done _ _ _ Hp1)).
    rewrite (bind_Done _ _ _ NETBIOS_OP_SESSION_KEEPALIVE w1); [done|].
    unfold access, lift. by rewrite <- (take_drop (4 + length kp) p1), Ht.
Qed.

(** A session and a world for the witnesses: 7 bytes at a time. *)
Definition session0 : netbios_session :=
  Session (AbortCtx 3 4) 0 0 5 NETBIOS_SESSION_CONNECTED 8 0 (Some (replicate 12 165)).

Definition world_rx (rx : bytes) : world :=
  World (fun _ => true) (fun _ => 7) (fun _ _ => 90) 0
    (replicate 50 (EvReady 7)) false rx [].

Lemma packet_recv_safe_witness :
  netbios_session_packet_recv session0 (world_rx [0; 0; 0; 9; 1]) <> Fault
  /\ forall r s' w', netbios_session_packet_recv session0 (world_rx [0; 0; 0; 9; 1])
       = Done ((r, s'), w') -> read_result r s' w'.
Proof.
  apply (packet_recv_safe session0 (world_rx [0; 0; 0; 9; 1])).
  - exists (replicate 12 165). split_and!; [reflexivity|decided..].
  - split; vm_compute; done.
  - decided.
Defined.

Definition rx0 : bytes :=
  keepalives [(0, [])] ++ frame 0 0 [1; 2; 3; 4; 5; 6; 7; 8; 9] ++ [42].

Lemma packet_recv_reassembles_witness :
  exists s' w' p', netbios_session_packet_recv session0 (world_rx rx0)
    = Done ((zlen [1; 2; 3; 4; 5; 6; 7; 8; 9], s'), w')
    /\ packet s' = Some p'
    /\ take (4 + length [1; 2; 3; 4; 5; 6; 7; 8; 9]) p' = frame 0 0 [1; 2; 3; 4; 5; 6; 7; 8; 9]
    /\ session_ok s' /\ connected s' /\ w_rx w' = [42].
Proof.
  apply (packet_recv_reassembles [(0, [])] 0 0 [1; 2; 3; 4; 5; 6; 7; 8; 9] [42]
           session0 (world_rx rx0)).
  - exists (replicate 12 165). split_and!; [reflexivity|decided..].
  - split; vm_compute; done.
  - constructor; [|constructor]. split; [split_and!; decided|constructor].
  - split_and!; decided.
  - decided.
  - done.
  - done.
  - split; [done|]. apply Forall_replicate. simpl. lia.
  - reflexivity.
  - vm_compute. done.
Defined.

(** * Sending *)

Lemma packet_send_unfold s w p :
  packet s = Some p -> connected s -> 4 <= zlen p ->
  exists p', put p 2 (le_bytes 2 (swap16 (u16 (packet_cursor s)))) = Some p'
  /\ netbios_session_packet_send s w
  = (r ← loop (fun _ : unit =>
       e ← select;
       match e with
       | EvError | EvAbort => mret (inr 0)
       | EvReady n =>
           p ← the_packet (set_packet s (Some p'));
           out ← access (sub p 0 (4 + packet_cursor s));
           sent ← send n out;
           mret (inr (if negb (sent =? 4 + packet_cursor s) then 0 else sent))
       | EvNone | EvDatagram _ _ => mret (inl tt)
       end) tt;
     mret (r, set_packet s (Some p'))) w.
Proof.
  intros Hp Hc H4. unfold netbios_session_packet_send.
  rewrite (bind_Done _ _ _ _ _ (the_packet_Done _ _ _ Hp)).
  rewrite (bind_Done _ _ _ _ _ (require_connected _ _ Hc)).
  destruct (proj2 (put_is_Some p 2 (le_bytes 2 (swap16 (u16 (packet_cursor s))))))
    as [p' Hput]; [len|].
  exists p'. split; [done|].
  by rewrite (bind_Done _ _ _ _ _ (store_Done _ _ _ _ _ _ Hp Hput)).
Qed.

Lemma header_stored op flags l1 l2 payload post :
  put ([op; flags; l1; l2] ++ payload ++ post) 2 (le_bytes 2 (swap16 (u16 (zlen payload))))
  = Some (frame op flags payload ++ post).
Proof.
  unfold frame.
  change ([op; flags; l1; l2] ++ payload ++ post) with ([op; flags] ++ [l1; l2] ++ (payload ++ post)).
  rewrite put_app by done. by rewrite <- !app_assoc.
Qed.

Lemma packet_send_run s op flags l1 l2 payload post w :
  packet s = Some ([op; flags; l1; l2] ++ payload ++ post) ->
  packet_cursor s = zlen payload -> connected s -> is_byte op -> is_byte flags ->
  netbios_session_packet_send s w <> Fault
  /\ (forall r s' w', netbios_session_packet_send s w = Done ((r, s'), w') -> r <> 0 ->
        r = 4 + zlen payload
        /\ w_tx w' = w_tx w ++ [Stream (frame op flags payload)])
  /\ (zlen payload < 65536 -> flags `mod` 2 = 0 -> frame_ok op flags payload).
Proof.
  intros Hp Hcur Hc Hop Hfl. destruct (packet_send_unfold s w _ Hp Hc) as (p' & Hput & ->); [len|].
  rewrite Hcur in *. rewrite header_stored in Hput. apply Some_inj in Hput. subst p'.
  assert (Hsub : sub (frame op flags payload ++ post) 0 (4 + zlen payload)
                 = Some (frame op flags payload)).
  { apply (sub_app []); [done|]. unfold frame. len. }
  split_and!.
  - apply bind_not_Fault; [|done].
    apply (loop_not_Fault _ (fun _ _ => True)); [done| |done]. intros [] w1 _.
    apply bind_not_Fault; [apply select_not_Fault|]. intros e w2 _. destruct e; try done.
    unfold the_packet, access, lift, send, mbind, io_bind. cbn [packet set_packet checked obind].
    rewrite Hsub. cbn [checked obind]. by destruct (n <? 0).
  - intros r s' w' (r1 & w1 & H & E)%bind_inv Hr. unfold mret, io_ret in E. simplify_eq.
    revert Hr. pattern r, w'. revert H.
    apply (loop_invariant _ (fun _ w1 => w_tx w1 = w_tx w)); [..|done].
    + intros [] w1 [] w2 Hw (e & w3 & Hs & H)%bind_inv.
      apply same_system_select in Hs as (_ & _ & Hs & _). rewrite <- Hw, <- Hs.
      destruct e; unfold mret, io_ret in H; simplify_eq; try done.
      apply bind_inv in H as (? & ? & _ & (? & ? & _ & (? & ? & _ & ?)%bind_inv)%bind_inv). done.
    + intros [] w1 b w2 Hw (e & w3 & Hs & H)%bind_inv Hb.
      apply same_system_select in Hs as (_ & _ & Hs & _). rewrite <- Hw, <- Hs.
      destruct e; unfold mret, io_ret in H; simplify_eq.
      unfold the_packet, access, lift, send, mbind, io_bind in H.
      cbn [packet set_packet checked obind] in H. rewrite Hsub in H. cbn [checked obind] in H.
      destruct (n <? 0); cbn [obind] in H; unfold mret, io_ret in H; simplify_eq.
      * exfalso. apply Hb. assert (0 <= zlen payload) by (unfold zlen; lia).
        by destruct (4 + zlen payload) eqn:?; [..|lia].
      * destruct (Z.eqb_spec (zlen (take (Z.to_nat n) (frame op flags payload))) (4 + zlen payload))
          as [E|]; [|by cbn in Hb]. split; [done|]. cbn [w_tx set_tx]. do 3 f_equal.
        apply take_ge. unfold frame in *. len.
  - intros H1 H2. split_and!; auto; [lia|]. rewrite H2. symmetry. apply Z.div_small. len.
Qed.

(** [netbios_session_packet_send] on a packet under construction (a
    header and [packet_cursor] bytes of payload): it does not leave the
    buffer, and when it reports success it has handed exactly one frame to the
    system: the type and flags of the header, the payload length in network
    order, the payload. For payloads below 64 KiB and even flags this is a
    frame that [netbios_session_packet_recv] accepts. *)
Theorem packet_send_wire s op flags l1 l2 payload post w :
  packet s = Some ([op; flags; l1; l2] ++ payload ++ post) ->
  packet_cursor s = zlen payload -> connected s -> is_byte op -> is_byte flags ->
  netbios_session_packet_send s w <> Fault
  /\ (forall r s' w', netbios_session_packet_send s w = Done ((r, s'), w') -> r <> 0 ->
        r = 4 + zlen payload
        /\ w_tx w' = w_tx w ++ [Stream (frame op flags payload)])
  /\ (zlen payload < 65536 -> flags `mod` 2 = 0 -> frame_ok op flags payload).
Proof. apply packet_send_run. Qed.

Lemma packet_send_wire_witness :
  let s := Session (AbortCtx 3 4) 0 0 5 2 8 3 (Some ([0; 0; 165; 165] ++ [1; 2; 3] ++ [165; 165])) in
  let w := World (fun _ => true) (fun _ => 7) (fun _ _ => 90) 0 [EvNone; EvReady 100] false [] [] in
  (exists s' w', netbios_session_packet_send s w = Done ((7, s'), w'))
  /\ netbios_session_packet_send s w <> Fault
  /\ (forall r s' w', netbios_session_packet_send s w = Done ((r, s'), w') -> r <> 0 ->
        r = 4 + zlen [1; 2; 3] /\ w_tx w' = w_tx w ++ [Stream (frame 0 0 [1; 2; 3])])
  /\ (zlen [1; 2; 3] < 65536 -> 0 `mod` 2 = 0 -> frame_ok 0 0 [1; 2; 3]).
Proof.
  intros s w. split; [do 2 eexists; vm_compute; reflexivity|].
  apply (packet_send_wire s 0 0 165 165 [1; 2; 3] [165; 165] w);
    [reflexivity|reflexivity|split; vm_compute; done|decided|decided].
Defined.

(** * Building a packet *)

(** [hd] is the header, [written] the payload so far. The buffer is one that
    [netbios_session_new] made: it holds the declared payload besides the
    header. *)
Definition building (s : netbios_session) (hd written : bytes) : Prop :=
  exists post, packet s = Some (hd ++ written ++ post)
    /\ zlen hd = 4 /\ packet_cursor s = zlen written
    /\ packet_cursor s <= packet_payload_size s
    /\ packet_payload_size s = zlen written + zlen post
    /\ packet_payload_size s < 9223372036854775808.

(** The same contents, in a buffer of any size. *)
Definition holds (s : netbios_session) (hd written : bytes) : Prop :=
  exists post, packet s = Some (hd ++ written ++ post) /\ zlen hd = 4
    /\ packet_cursor s = zlen written.

Lemma append_no_realloc s data w hd written :
  building s hd written -> zlen written + zlen data <= packet_payload_size s ->
  exists s', netbios_session_packet_append s data (zlen data) w = Done ((1, s'), w)
    /\ building s' hd (written ++ data)
    /\ packet_payload_size s' = packet_payload_size s
    /\ socket s' = socket s /\ state s' = state s.
Proof.
  intros (post & Hp & Hh & Hc & Hle & Hsz & Hmax) Hfit. unfold netbios_session_packet_append.
  rewrite (bind_Done _ _ _ _ _ (the_packet_Done _ _ _ Hp)).
  rewrite u64_small, (proj2 (Z.ltb_ge _ _)) by (unfold zlen in *; lia).
  unfold mbind at 1, io_bind at 1. cbn [mret io_ret obind Z.eqb].
  rewrite (bind_Done _ _ _ data w)
    by (unfold access, lift; rewrite sub_Some by len; rewrite drop_0, take_ge by len; done).
  rewrite <- (take_drop (length data) post) in Hp.
  assert (Hput : put (hd ++ written ++ take (length data) post ++ drop (length data) post)
      (4 + packet_cursor s) data = Some ((hd ++ written) ++ data ++ drop (length data) post)).
  { rewrite (app_assoc hd). apply put_app; len. }
  rewrite (bind_Done _ _ _ _ _ (store_Done _ _ _ _ _ _ Hp Hput)).
  eexists. split; [reflexivity|]. split; [|done].
  exists (drop (length data) post). cbn. rewrite <- !app_assoc.
  rewrite u64_small by (unfold zlen in *; lia). split_and!; try done; len.
Qed.

Lemma append_realloc s data w hd written :
  building s hd written -> packet_payload_size s < zlen written + zlen data ->
  zlen written + zlen data < 9223372036854775808 ->
  exists s' w', netbios_session_packet_append s data (zlen data) w
      = Done ((if w_coin w (w_tick w) then 1 else 0, s'), w')
    /\ if w_coin w (w_tick w)
       then packet s' = Some (hd ++ written ++ data)
            /\ packet_cursor s' = zlen (written ++ data)
            /\ packet_payload_size s' = zlen (written ++ data) + 4
       else packet s' = None.
Proof.
  intros (post & Hp & Hh & Hc & Hle & Hsz & Hmax) Hfit H64. unfold netbios_session_packet_append.
  rewrite (bind_Done _ _ _ _ _ (the_packet_Done _ _ _ Hp)).
  rewrite u64_small, (proj2 (Z.ltb_lt _ _)) by (unfold zlen in *; lia).
  unfold session_buffer_realloc. rewrite Hp. cbn [default id].
  rewrite u64_small by (unfold sizeof_packet; unfold zlen in *; lia).
  unfold mbind at 1, io_bind at 1.
  rewrite (bind_Done _ _ _ _ _ (realloc_spec _ _ _)).
  destruct (w_coin w (w_tick w)); [|do 2 eexists; split; reflexivity].
  set (w1 := set_tick w (S (S (w_tick w)))).
  cbn [mret io_ret obind Z.eqb]. unfold mret, io_ret. cbn [obind Z.eqb].
  rewrite (bind_Done _ _ _ data w1)
    by (unfold access, lift; rewrite sub_Some by len; rewrite drop_0, take_ge by len; done).
  set (fresh := junk_bytes _ _). unfold sizeof_packet.
  assert (Ep : take (Z.to_nat (zlen data + packet_cursor s + 4)) (hd ++ written ++ post) ++ fresh
               = (hd ++ written) ++ (post ++ fresh) ++ []).
  { rewrite take_ge by len. by rewrite app_nil_r, <- !app_assoc. }
  assert (Hf : length (post ++ fresh) = length data).
  { unfold fresh. rewrite length_app, length_junk_bytes. unfold sizeof_packet. len. }
  assert (Hput : put ((hd ++ written) ++ (post ++ fresh) ++ []) (4 + packet_cursor s) data
                 = Some ((hd ++ written) ++ data ++ [])) by (apply put_app; [len|done]).
  rewrite Ep. set (s1 := set_packet _ _).
  assert (Hp1 : packet s1 = Some ((hd ++ written) ++ (post ++ fresh) ++ [])) by done.
  change (packet_cursor s1) with (packet_cursor s).
  rewrite (bind_Done _ _ _ _ _ (store_Done _ _ _ _ _ _ Hp1 Hput)).
  do 2 eexists. split; [reflexivity|]. cbn. rewrite app_nil_r, <- !app_assoc.
  rewrite u64_small by (unfold zlen in *; lia). split_and!; [done|len..].
Qed.

Lemma packet_init_spec s x1 x2 x3 x4 rest w :
  packet s = Some ([x1; x2; x3; x4] ++ rest) ->
  netbios_session_packet_init s w
  = Done (set_packet (set_cursor s 0) (Some ([NETBIOS_OP_SESSION_MSG; 0; x3; x4] ++ rest)), w).
Proof.
  intros Hp. unfold netbios_session_packet_init.
  rewrite (bind_Done _ _ _ (set_packet (set_cursor s 0) (Some ([x1; 0; x3; x4] ++ rest))) w).
  - etransitivity; [eapply store_Done; [reflexivity|]|reflexivity].
    by apply (put_app [] [x1] ([0; x3; x4] ++ rest) [NETBIOS_OP_SESSION_MSG]).
  - eapply store_Done; [exact Hp|]. by apply (put_app [x1] [x2] ([x3; x4] ++ rest) [0]).
Qed.

(** Two packets one after the other, as [smb_transport] sends them. *)
Definition two_packets (s : netbios_session) (data1 data2 : bytes) : io (Z * netbios_session) :=
  s ← netbios_session_packet_init s;
  '(_, s) ← netbios_session_packet_append s data1 (zlen data1);
  s ← netbios_session_packet_init s;
  netbios_session_packet_append s data2 (zlen data2).

(** The size recorded after the buffer has grown counts the header: a
    packet that is larger than a fresh buffer, followed by one that is 4 bytes
    larger still, is written beyond the end of the allocated block, although
    every allocation succeeds. *)
Theorem packet_append_overflow s hd data1 data2 w :
  building s hd [] -> packet_payload_size s < zlen data1 -> zlen data2 = zlen data1 + 4 ->
  zlen data2 < 9223372036854775808 -> w_coin w (w_tick w) = true ->
  two_packets s data1 data2 w = Fault.
Proof.
  intros Hs Hgt H2 Hmax Hcoin. pose proof Hs as (post & Hp & Hh & Hc & Hle & Hsz & Hm).
  destruct hd as [|x1 [|x2 [|x3 [|x4 [|]]]]]; try (exfalso; len).
  cbn [app] in Hp. unfold two_packets.
  rewrite (bind_Done _ _ _ _ _ (packet_init_spec s x1 x2 x3 x4 post w Hp)).
  set (s1 := set_packet _ _).
  assert (Hs1 : building s1 [NETBIOS_OP_SESSION_MSG; 0; x3; x4] []).
  { exists post. cbn. split_and!; try done; len. }
  destruct (append_realloc s1 data1 w _ [] Hs1) as (s2 & w2 & E & H); [cbn; len|len|].
  rewrite Hcoin in E, H. rewrite (bind_Done _ _ _ _ _ E). destruct H as (Hp2 & Hc2 & Hs2).
  cbn [app] in Hp2, Hc2, Hs2.
  rewrite (bind_Done _ _ _ _ _ (packet_init_spec s2 _ _ x3 x4 data1 w2 Hp2)).
  set (s3 := set_packet _ _). unfold netbios_session_packet_append.
  rewrite (bind_Done _ _ _ ([NETBIOS_OP_SESSION_MSG; 0; x3; x4] ++ data1) w2)
    by (by apply the_packet_Done).
  cbn [s3 packet_payload_size packet_cursor set_packet set_cursor].
  rewrite Hs2, u64_small, (proj2 (Z.ltb_ge _ _)) by (unfold zlen in *; lia).
  unfold mbind at 1, io_bind at 1. cbn [mret io_ret obind Z.eqb].
  rewrite (bind_Done _ _ _ data2 w2)
    by (unfold access, lift; rewrite sub_Some by len; rewrite drop_0, take_ge by len; done).
  assert (Hput : put ([NETBIOS_OP_SESSION_MSG; 0; x3; x4] ++ data1) (4 + 0) data2 = None).
  { unfold put. destruct (in_range (4 + 0) (zlen data2)
      (zlen ([NETBIOS_OP_SESSION_MSG; 0; x3; x4] ++ data1))) eqn:Er; [|done].
    apply in_range_true in Er. len. }
  unfold store, the_packet, access, lift, mbind, io_bind. cbn [s3 packet set_packet checked obind].
  change (packet_cursor s3) with 0. unfold sizeof_packet. by rewrite Hput.
Qed.

Definition fresh_session : netbios_session :=
  Session (AbortCtx 3 4) 0 0 5 2 8 0 (Some (replicate 12 165)).

Lemma packet_append_overflow_witness :
  two_packets fresh_session (replicate 9 1) (replicate 13 2) (world_rx []) = Fault.
Proof.
  apply (packet_append_overflow fresh_session (replicate 4 165)); try (vm_compute; done).
  exists (replicate 8 165). split_and!; vm_compute; done.
Defined.

(** In a buffer as [netbios_session_new] makes it, one packet of any size
    is built correctly: [netbios_session_packet_append] keeps the header and
    the payload written so far and adds the data behind it, in place when it
    fits and in a grown buffer otherwise; it reports 0, with the buffer gone,
    exactly when the buffer had to grow and the allocation failed. *)
Theorem packet_append_correct s data w hd written :
  building s hd written -> zlen written + zlen data < 9223372036854775808 ->
  exists r s' w', netbios_session_packet_append s data (zlen data) w = Done ((r, s'), w')
    /\ ((r = 1 /\ holds s' hd (written ++ data)
          /\ (zlen written + zlen data <= packet_payload_size s -> building s' hd (written ++ data)))
        \/ (r = 0 /\ packet s' = None /\ packet_payload_size s < zlen written + zlen data
            /\ w_coin w (w_tick w) = false)).
Proof.
  intros Hs Hmax.
  destruct (Z.le_gt_cases (zlen written + zlen data) (packet_payload_size s)) as [Hle|Hgt].
  - destruct (append_no_realloc s data w hd written Hs Hle) as (s' & E & Hb & _).
    exists 1, s', w. split; [done|]. left. split; [done|]. split; [|done].
    destruct Hb as (post & ? & ? & ? & _). by exists post.
  - destruct (append_realloc s data w hd written Hs Hgt Hmax) as (s' & w' & E & H).
    destruct (w_coin w (w_tick w)); do 3 eexists; (split; [exact E|]).
    + destruct H as (Hp & Hc & _). left. split; [done|]. split; [|lia].
      exists []. rewrite app_nil_r. destruct Hs as (? & _ & ? & _). auto.
    + right. auto.
Qed.

Lemma packet_append_correct_witness :
  exists r s' w', netbios_session_packet_append fresh_session [1; 2; 3] (zlen [1; 2; 3]) (world_rx [])
      = Done ((r, s'), w')
    /\ ((r = 1 /\ holds s' (replicate 4 165) ([] ++ [1; 2; 3])
          /\ (zlen (@nil Z) + zlen [1; 2; 3] <= packet_payload_size fresh_session ->
              building s' (replicate 4 165) ([] ++ [1; 2; 3])))
        \/ (r = 0 /\ packet s' = None
            /\ packet_payload_size fresh_session < zlen (@nil Z) + zlen [1; 2; 3]
            /\ w_coin (world_rx []) (w_tick (world_rx [])) = false)).
Proof.
  apply (packet_append_correct fresh_session [1; 2; 3] (world_rx []) (replicate 4 165) []).
  - exists (replicate 8 165). split_and!; vm_compute; done.
  - vm_compute; done.
Defined.

(** * Aborting *)

Lemma select_aborted w : w_aborted w = true -> select w = Done (EvAbort, w).
Proof. intros Ha. unfold select. by rewrite Ha. Qed.

Lemma session_recv_aborted s off len w :
  w_aborted w = true -> netbios_session_recv s off len w = Done ((-1, s), w).
Proof. intros Ha. by rewrite session_recv_step, (bind_Done _ _ _ _ _ (select_aborted w Ha)). Qed.

(** [netbios_session_abort] takes effect: from then on (whatever the peer
    does, even if it never answers again) [netbios_session_packet_send]
    returns 0 and [netbios_session_packet_recv] returns -1 without waiting,
    and neither sends or consumes a byte. *)
Theorem session_abort_unblocks s w :
  session_ok s -> connected s ->
  exists w1, netbios_session_abort s w = Done (tt, w1)
    /\ (exists s', netbios_session_packet_send s w1 = Done ((0, s'), w1))
    /\ netbios_session_packet_recv s w1 = Done ((-1, s), w1)
    /\ w_rx w1 = w_rx w /\ w_tx w1 = w_tx w.
Proof.
  intros (p & Hp & H4 & _ & _) Hc. exists (set_aborted w). split; [done|].
  set (w1 := set_aborted w). assert (Ha : w_aborted w1 = true) by done.
  split_and!; try done.
  - destruct (packet_send_unfold s w1 p Hp Hc H4) as (p' & _ & ->).
    exists (set_packet s (Some p')). rewrite (bind_Done _ _ _ 0 w1); [done|].
    unfold loop. cbn [loop_fuel]. rewrite (bind_Done _ _ _ (inr 0) w1); [done|].
    by rewrite (bind_Done _ _ _ _ _ (select_aborted w1 Ha)).
  - change (netbios_session_packet_recv s) with (loop recv_body s).
    rewrite loop_unfold by apply recv_body_consumes.
    rewrite (bind_Done _ _ _ (inr (-1, s)) w1); [done|]. unfold recv_body.
    rewrite (bind_Done _ _ _ (-1, s) w1); [done|]. rewrite get_next_packet_unfold.
    rewrite (bind_Done _ _ _ _ _ (the_packet_Done _ _ _ Hp)).
    rewrite (bind_Done _ _ _ _ _ (require_connected _ _ Hc)).
    rewrite (bind_Done _ _ _ (false, s) w1); [done|].
    rewrite recv_exactly_body, loop_unfold by apply exactly_body_consumes.
    rewrite (bind_Done _ _ _ (inr (false, s)) w1); [done|]. unfold exactly_body.
    rewrite (proj2 (Z.ltb_lt _ _)) by (unfold sizeof_packet; lia).
    by rewrite (bind_Done _ _ _ _ _ (session_recv_aborted s _ _ w1 Ha)).
Qed.

Lemma session_abort_unblocks_witness :
  exists w1, netbios_session_abort session0 (world_rx []) = Done (tt, w1)
    /\ (exists s', netbios_session_packet_send session0 w1 = Done ((0, s'), w1))
    /\ netbios_session_packet_recv session0 w1 = Done ((-1, session0), w1)
    /\ w_rx w1 = w_rx (world_rx []) /\ w_tx w1 = w_tx (world_rx []).
Proof.
  apply (session_abort_unblocks session0 (world_rx [])).
  - exists (replicate 12 165). split_and!; [reflexivity|decided..].
  - split; vm_compute; done.
Defined.

(** * Connecting *)

(** The result agrees with the state of the session. *)
Definition verdict (r : Z) (s : netbios_session) : Prop :=
  (r = 1 /\ state s = NETBIOS_SESSION_CONNECTED)
  \/ (r = 0 /\ (state s = NETBIOS_SESSION_ERROR \/ state s = NETBIOS_SESSION_REFUSED)).

Lemma connect_error_verdict s w r s' w' :
  connect_error s w = Done ((r, s'), w') -> verdict r s'.
Proof. intros [= <- <- <-]. right. auto. Qed.

(** Peels the binds of a run that ended. *)
Ltac peel H :=
  repeat match type of H with
  | (_ ≫= _) _ = Done _ =>
      let a := fresh "a" in let w := fresh "w" in let E := fresh "E" in
      apply bind_inv in H as (a & w & E & H)
  | (let '(_, _) := ?a in _) _ = Done _ => destruct a; cbn beta iota in H
  end.

Lemma session_request_verdict s name w r s' w' :
  session_request s name w = Done ((r, s'), w') -> verdict r s'.
Proof.
  unfold session_request. intros H. peel H.
  destruct (_ =? 0) in H; [by eapply connect_error_verdict|]. peel H.
  destruct (_ =? 0) in H; [by eapply connect_error_verdict|]. peel H.
  destruct (_ =? 0) in H; [by eapply connect_error_verdict|]. peel H.
  destruct (_ <? 0) in H; [by eapply connect_error_verdict|]. peel H.
  destruct (negb _) in H; injection H as <- <- <-; [right|left]; auto.
Qed.

(** [netbios_session_connect] reports 1 exactly when it leaves the session
    in state CONNECTED, and otherwise 0 with state ERROR or REFUSED, in both
    transports and on every path (no port opened, no memory, send or receive
    failure, negative answer). *)
Theorem session_connect_verdict ip s name direct w r s' w' :
  netbios_session_connect ip s name direct w = Done ((r, s'), w') -> verdict r s'.
Proof.
  unfold netbios_session_connect. intros H. peel H.
  destruct (negb _) in H; [by eapply connect_error_verdict|].
  destruct direct; cbn [negb] in H; [|by eapply session_request_verdict].
  injection H as <- <- <-. left. auto.
Qed.

Definition connect_world : world :=
  World (fun _ => true) (fun _ => 7) (fun _ _ => 90) 0
    [EvReady 1000; EvReady 100] false (frame 0x82 0 []) [].

Lemma session_connect_verdict_witness :
  exists s' w', netbios_session_connect 1 fresh_session (Some (cstr [83])) false connect_world
    = Done ((1, s'), w') /\ verdict 1 s'.
Proof.
  do 2 eexists. split; [vm_compute; reflexivity|].
  eapply (session_connect_verdict 1 fresh_session (Some (cstr [83])) false connect_world).
  vm_compute. reflexivity.
Defined.

(** The handshake as it appears on the wire: the session request names the
    server (type FILESERVER) and the client. *)
Example session_request_on_wire :
  match netbios_session_connect 1 fresh_session (Some (cstr [83])) false connect_world with
  | Done (_, w') => w_tx w'
      = [Stream (frame 0x81 0 (encoded_spec [83] 0x20 ++ encoded_spec [76; 73; 66; 68; 83; 77] 0))]
  | _ => False
  end.
Proof. vm_compute. reflexivity. Qed.

End NetbiosSession.
