(* ===== verification/SmbNtlm.v ===== *)
(** NTLMv2 authentication: src/smb_ntlm.c and the structures of
    src/smb_ntlm.h.

    A structure is its bytes; a field is written at its offset. A [const char *]
    argument is the object it points to, terminator included. *)

From S2P Require Import Prelude Mdx Md4 Md5 Rc4 World HmacMd5 SmbBuffer Compat NetbiosUtils.

Module SmbNtlm.
Import Mdx Md4 Rc4 HmacMd5 SmbBuffer SmbUtils Compat.

Definition SMB_NTLM_HASH_SIZE : Z := 16.
Definition SMB_NTLMSSP_CMD_NEGO : Z := 0x01.
Definition SMB_NTLMSSP_CMD_AUTH : Z := 0x03.

(** sizeof(smb_ntlm_blob), sizeof(smb_ntlmssp_nego), sizeof(smb_ntlmssp_auth) *)
Definition sizeof_blob : Z := 28.
Definition sizeof_nego : Z := 32.
Definition sizeof_auth : Z := 64.

(** "NTLMSSP" with its terminator *)
Definition ntlmssp_id : bytes := [78; 84; 76; 77; 83; 83; 80; 0].

(** 8 bytes of /dev/urandom (read again until all 8 are there), or random(3)
    when it cannot be opened. *)
Definition smb_ntlm_generate_challenge : io Z :=
  opened ← flip;
  v ← pick;
  mret (if opened : bool then u64 v else v `mod` 2147483648).

Definition smb_ntlm_generate_xkey : io bytes :=
  k0 ← smb_ntlm_generate_challenge;
  k1 ← smb_ntlm_generate_challenge;
  mret (le_bytes 8 k0 ++ le_bytes 8 k1).

Definition md4_once (data : bytes) : io bytes :=
  b ← uninit 64;
  c ← lift (MD4_Update (MD4_Init (Ctx 0 0 (0, 0, 0, 0) b)) data (zlen data));
  '(d, _) ← lift (MD4_Final c);
  mret d.

(** The string on its heap block after a conversion: [*dst] may be NULL when
    the size is 0. *)
Definition block_of (dst : option bytes) : bytes := default [] dst.

Definition isalpha (c : Z) : bool :=
  ((65 <=? c) && (c <=? 90)) || ((97 <=? c) && (c <=? 122)).

(** In place, up to the terminator. *)
Fixpoint _upcase (str : bytes) : outcome bytes :=
  match str with
  | [] => Fault
  | c :: str =>
      if c =? 0 then Done (c :: str)
      else
        let c := if isalpha c then NetbiosUtils.toupper c else c in
        let* str := _upcase str in
        Done (c :: str)
  end.

Section Ntlm.
Context {ic : Iconv}.

(** [smb_to_utf16(s, strlen(s), &dst)] and its size bytes of [dst]. *)
Definition utf16 (s : bytes) : io bytes :=
  n ← access (strlen s);
  '(sz, dst) ← smb_to_utf16 s n;
  access (sub (block_of dst) 0 sz).

Definition smb_ntlm_hash (password : bytes) : io bytes :=
  d ← utf16 password;
  md4_once d.

(** When [HMAC_MD5] fails, the output array keeps what it had. *)
Definition hmac_into (old : bytes) (r : option bytes) : bytes := default old r.

Definition smb_ntlm2_hash (user password dest : bytes) : io bytes :=
  hash ← uninit 16;
  hash_v1 ← smb_ntlm_hash password;
  user_upper ← uninit 64;
  '(_, user_upper) ← lift (strlcpy user_upper user 64);
  user_upper ← lift (_upcase user_upper);
  ucs_user ← utf16 user_upper;
  ucs_dest ← utf16 dest;
  let data := ucs_user ++ ucs_dest in
  r ← HMAC_MD5 (Some hash_v1) SMB_NTLM_HASH_SIZE (Some data) (zlen data);
  mret (hmac_into hash r).

Definition smb_ntlm2_response (hash_v2 : bytes) (srv_challenge : Z) (blob : smb_buffer)
    : io (option bytes) :=
  hmac ← uninit 16;
  '(ok, d) ← smb_buffer_alloc (Buffer None 0) (u64 (8 + size blob));
  if ok =? 0 then mret None
  else
    b ← access (sub (block_of (data blob)) 0 (size blob));
    d' ← access (stores (block_of (data d)) [(0, le_bytes 8 srv_challenge); (8, b)]);
    r ← HMAC_MD5 (Some hash_v2) SMB_NTLM_HASH_SIZE (Some d') (size d);
    let hmac := hmac_into hmac r in
    response ← malloc (u64 (size blob + 16));
    match response with
    | None => mret None
    | Some response =>
        response ← access (stores response [(0, hmac); (16, b)]);
        mret (Some response)
    end.

Definition smb_lm2_response (hash_v2 : bytes) (srv_challenge user_challenge : Z)
    : io (option bytes) :=
  smb_ntlm2_response hash_v2 srv_challenge
    (smb_buffer_init (Some (le_bytes 8 user_challenge)) 8).

(** The size and [*out_blob]. *)
Definition smb_ntlm_make_blob (ts user_challenge : Z) (target : smb_buffer)
    : io (Z * option bytes) :=
  blob ← malloc (u64 (size target + sizeof_blob));
  match blob with
  | None => mret (0, None)
  | Some blob =>
      t ← access (sub (block_of (data target)) 0 (size target));
      blob ← access (stores blob
        [(0, replicate 28 0); (0, le_bytes 4 0x101); (8, le_bytes 8 ts);
         (16, le_bytes 8 user_challenge); (28, t)]);
      mret (u64 (sizeof_blob + size target), Some blob)
  end.

(** [xkey_crypt] *)
Definition smb_ntlm2_session_key (hash_v2 : bytes) (ntlm2 : option bytes) (xkey : bytes)
    : io bytes :=
  hmac_ntlm2 ← uninit 16;
  xkey_crypt ← uninit 16;
  r ← HMAC_MD5 (Some hash_v2) SMB_NTLM_HASH_SIZE ntlm2 SMB_NTLM_HASH_SIZE;
  rc4 ← lift (rc4_init (hmac_into hmac_ntlm2 r) 16);
  '(mem, _) ← lift (rc4_crypt rc4 (xkey ++ xkey_crypt) 0 16 16);
  access (sub mem 16 16).

(** [token->size += 1] for an odd size. *)
Definition align2 (n : Z) : Z := if n `mod` 2 =? 0 then n else n + 1.

Definition smb_ntlmssp_negotiate (host domain : bytes) (token : smb_buffer)
    : io smb_buffer :=
  hl ← access (strlen host);
  dl ← access (strlen domain);
  let n := align2 (sizeof_nego + hl + dl) in
  '(ok, token) ← smb_buffer_alloc (Buffer (data token) n) n;
  if ok =? 0 then mret token
  else
    d ← access (sub domain 0 dl);
    t ← access (stores (block_of (data token))
      [(8, le_bytes 4 SMB_NTLMSSP_CMD_NEGO); (12, le_bytes 4 0x60088215);
       (18, le_bytes 2 dl); (16, le_bytes 2 dl); (20, le_bytes 4 32);
       (26, le_bytes 2 hl); (24, le_bytes 2 hl); (28, le_bytes 4 (32 + dl));
       (0, ntlmssp_id); (32, d); (32 + dl, d)]);
    mret (Buffer (Some t) (size token)).

(** __AUTH_APPEND: the value behind the data so far, and its descriptor
    (length, maximal length, offset) at [field]. *)
Definition AUTH_APPEND (auth : bytes) (field : Z) (value : bytes) (sz cursor : Z)
    : outcome (bytes * Z) :=
  let* v := checked (sub value 0 sz) in
  let* auth := checked (stores auth
    [(64 + cursor, v); (field + 2, le_bytes 2 sz); (field, le_bytes 2 sz);
     (field + 4, le_bytes 4 (64 + cursor))]) in
  Done (auth, cursor + sz).

Definition off_lm : Z := 12.
Definition off_ntlm : Z := 20.
Definition off_domain : Z := 28.
Definition off_user : Z := 36.
Definition off_host : Z := 44.
Definition off_session_key : Z := 52.

(** [if ( *s) { ... __AUTH_APPEND(field, utf, utf_sz, cursor) ... }] *)
Definition append_utf16 (auth : bytes) (field : Z) (s : bytes) (cursor : Z)
    : io (bytes * Z) :=
  c ← access (rd s 0);
  if c =? 0 then mret (auth, cursor)
  else u ← utf16 s; lift (AUTH_APPEND auth field u (zlen u) cursor).

(** The fields of the message, in the order of the code. *)
Definition fill_auth (auth host domain user password : bytes) (lm2 ntlm2 : option bytes)
    (blob_size : Z) (xkey_crypt : bytes) : io bytes :=
  d0 ← access (rd domain 0);
  u0 ← access (rd user 0);
  p0 ← access (rd password 0);
  '(auth, cursor) ←
    (if negb (d0 =? 0) || negb (u0 =? 0) || negb (p0 =? 0)
     then
       l ← access lm2;
       '(auth, cursor) ← lift (AUTH_APPEND auth off_lm l 24 0);
       nt ← access ntlm2;
       lift (AUTH_APPEND auth off_ntlm nt (blob_size + 16) cursor)
     else mret (auth, 0));
  '(auth, cursor) ← append_utf16 auth off_domain domain cursor;
  '(auth, cursor) ← append_utf16 auth off_user user cursor;
  '(auth, cursor) ← append_utf16 auth off_host host cursor;
  '(auth, _) ← lift (AUTH_APPEND auth off_session_key xkey_crypt 16 cursor);
  mret auth.

Definition smb_ntlmssp_response (srv_challenge srv_ts : Z)
    (host domain user password : bytes) (target token : smb_buffer) : io smb_buffer :=
  hash_v2 ← smb_ntlm2_hash user password domain;
  user_challenge ← smb_ntlm_generate_challenge;
  xkey ← smb_ntlm_generate_xkey;
  '(blob_size, blob) ← smb_ntlm_make_blob srv_ts user_challenge target;
  c ← smb_ntlm_generate_challenge;
  lm2 ← smb_lm2_response hash_v2 srv_challenge c;
  ntlm2 ← smb_ntlm2_response hash_v2 srv_challenge (smb_buffer_init blob blob_size);
  xkey_crypt ← smb_ntlm2_session_key hash_v2 ntlm2 xkey;
  hl ← access (strlen host);
  dl ← access (strlen domain);
  ul ← access (strlen user);
  let n := align2 (sizeof_auth + hl * 2 + dl * 2 + ul * 2 + (blob_size + 16) + (8 + 16) + 16) in
  '(ok, token) ← smb_buffer_alloc (Buffer (data token) n) n;
  if ok =? 0 then mret token
  else
    auth ← access (stores (block_of (data token))
      [(0, replicate (Z.to_nat n) 0); (0, ntlmssp_id); (8, le_bytes 4 SMB_NTLMSSP_CMD_AUTH);
       (60, le_bytes 4 0x60088215)]);
    auth ← fill_auth auth host domain user password lm2 ntlm2 blob_size xkey_crypt;
    mret (Buffer (Some auth) (size token)).

(** * Reference: NTLMv2 ([MS-NLMP], 3.3.2) *)

(** [out] is the UCS-2LE form of the text [s]; two bytes per character. *)
Definition utf16_text (s out : bytes) : Prop :=
  iconv_open UCS2LE Locale = true
  /\ (exists n, iconv Locale UCS2LE s n = IcOk out)
  /\ zlen out <= 2 * zlen s /\ (s = [] <-> out = []).

Definition upcase (s : bytes) : bytes :=
  (fun c => if isalpha c then NetbiosUtils.toupper c else c) <$> s.

(** NTOWFv2: [u], [d] and [p] are the encoded user (upper case), domain and
    password. *)
Definition ntowf_v2 (p u d : bytes) : bytes := hmac_spec (md4_spec p) (u ++ d).

(** The NTLMv2 response to the challenge [c] with the client's [blob]. *)
Definition response_v2 (hash : bytes) (c : Z) (blob : bytes) : bytes :=
  hmac_spec hash (le_bytes 8 c ++ blob) ++ blob.

(** The temp structure: revision, time, client challenge, target information. *)
Definition blob_v2 (ts challenge : Z) (target : bytes) : bytes :=
  le_bytes 4 0x101 ++ replicate 4 0 ++ le_bytes 8 ts ++ le_bytes 8 challenge
  ++ replicate 4 0 ++ target.

(** * Lemmas *)

Context {ic_laws : IconvLaws}.

Lemma runs_md4_once d w : zlen d < 18446744073709551616 -> runs w (md4_once d) (md4_spec d).
Proof.
  intros Hd. unfold md4_once. destruct (runs_uninit 64 w) as (j & Rj & Hj & _).
  run_step; [exact Rj|].
  destruct (update_spec block [] (MD4_Init (Ctx 0 0 (0, 0, 0, 0) j)) d) as (c' & E & Hc'); [|done|].
  { by apply init_absorbed. }
  run_step; [by apply runs_lift|].
  run_step; [apply runs_lift, (final_spec block _ _ Hc')|].
  cbn beta iota. unfold md4_spec. rewrite <- (hash_spec_ext block rfc_block) by apply md4_block_rfc.
  apply runs_ret.
Qed.

Lemma runs_utf16 s out w :
  cstring_ok s -> 16 * zlen s < 18446744073709551616 -> utf16_text s out -> lucky w ->
  forall rest, runs w (utf16 (s ++ 0 :: rest)) out.
Proof.
  intros Hs Hmax (Ho & (n & Hn) & Hl & He) Hw rest. unfold utf16.
  run_step; [apply runs_access, strlen_cstr, Hs|].
  destruct (decide (s = [])) as [->|Hne].
  - rewrite (proj1 He eq_refl). run_step; [apply runs_ret|]. by apply runs_access.
  - assert (out <> []) by (intros E; by apply He in E).
    destruct (smb_iconv_lucky s Locale UCS2LE out n (0 :: rest) w1) as (post & w' & E & L);
      auto; [unfold zlen in *; lia|by eapply later_lucky|].
    run_step; [by exists w'|]. cbn beta iota. apply runs_access. cbn [block_of default id].
    by apply (sub_app [] out).
Qed.

Lemma upcase_spec s rest :
  cstring_ok s -> _upcase (s ++ 0 :: rest) = Done (upcase s ++ 0 :: rest).
Proof.
  induction 1 as [|c s Hc _ IH]; [done|]. cbn [app _upcase].
  rewrite (proj2 (Z.eqb_neq c 0)) by lia. rewrite IH. done.
Qed.

Lemma upcase_ok s : cstring_ok s -> cstring_ok (upcase s).
Proof.
  intros Hs. apply Forall_fmap. eapply Forall_impl; [exact Hs|]. intros c Hc. simpl.
  unfold NetbiosUtils.toupper, isalpha.
  destruct (Z.leb_spec 65 c), (Z.leb_spec c 90), (Z.leb_spec 97 c), (Z.leb_spec c 122); simpl in *; lia.
Qed.

Lemma runs_HMAC_MD5 key msg w :
  lucky w -> 16 <= zlen key -> zlen msg < 9223372036854775808 ->
  runs w (HMAC_MD5 (Some key) SMB_NTLM_HASH_SIZE (Some msg) (zlen msg))
    (Some (hmac_spec (take 16 key) msg)).
Proof.
  intros Hw Hk Hm. destruct (HMAC_MD5_spec key 16 msg (zlen msg) w) as (w' & E & L); [lia|len|done|].
  rewrite Hw in E. exists w'. split; [|done]. unfold SMB_NTLM_HASH_SIZE. rewrite E.
  rewrite (take_ge msg) by (unfold zlen; lia). done.
Qed.

Lemma length_md4_spec d : length (md4_spec d) = 16%nat.
Proof. apply length_digest. Qed.

Lemma runs_ntlm2_hash user password dest p u d w :
  cstring_ok user -> cstring_ok password -> cstring_ok dest ->
  zlen password < 4294967296 -> zlen dest < 4294967296 ->
  utf16_text password p -> utf16_text (upcase (take 63 user)) u -> utf16_text dest d ->
  lucky w ->
  runs w (smb_ntlm2_hash (cstr user) (cstr password) (cstr dest)) (ntowf_v2 p u d).
Proof.
  intros Hu Hp Hd Hpl Hdl Tp Tu Td Hw. unfold smb_ntlm2_hash, cstr.
  run_uninit j Hj. run.
  { unfold smb_ntlm_hash. run; [apply (runs_utf16 _ p); auto; lia|].
    apply runs_md4_once. destruct Tp as (_ & _ & ? & _). lia. }
  run_uninit j2 Hj2.
  run; [apply runs_lift, (strlcpy_run j2 user [] 64 Hu); len|].
  set (n := Nat.min (length user) (Z.to_nat 64 - 1)). set (rest := drop (n + 1) j2).
  assert (En : take n user = take 63 user).
  { unfold n. change (Z.to_nat 64 - 1)%nat with 63%nat.
    destruct (Nat.le_ge_cases (length user) 63).
    - rewrite Nat.min_l by lia. by rewrite !take_ge by lia.
    - by rewrite Nat.min_r by lia. }
  rewrite En. assert (H63 : cstring_ok (take 63 user)) by by apply Forall_take.
  run; [apply runs_lift, upcase_spec, H63|].
  assert (Hul : zlen (upcase (take 63 user)) <= 63) by (unfold upcase; len).
  run; [apply (runs_utf16 _ u); auto using upcase_ok; lia|].
  run; [apply (runs_utf16 _ d); auto; lia|].
  destruct Tu as (_ & _ & Hlu & _), Td as (_ & _ & Hld & _).
  assert (Hmd : length (md4_spec p) = 16%nat) by apply length_md4_spec.
  run; [apply runs_HMAC_MD5; [done|len|len]|].
  unfold ntowf_v2. rewrite take_ge by lia. apply runs_ret.
Qed.

Lemma runs_buffer_alloc b n w :
  lucky w -> exists j, runs w (smb_buffer_alloc b n) (1, Buffer (Some j) n)
    /\ length j = Z.to_nat n.
Proof.
  intros Hw. unfold smb_buffer_alloc. destruct (runs_malloc n w Hw) as (j & R & Hj & _).
  exists j. split; [|done]. run; [exact R|]. apply runs_ret.
Qed.

(** Two stores that fill a block. *)
Lemma stores_pair (j x y : bytes) n :
  n = zlen x -> length j = (length x + length y)%nat -> stores j [(0, x); (n, y)] = Some (x ++ y).
Proof.
  intros -> Hj. cbn [stores]. destruct (cat_spec x y j Hj) as (b & Ha & Hb).
  rewrite Ha. cbn. by rewrite Hb.
Qed.

Lemma stores_blob ts uc t (j : bytes) :
  length j = (28 + length t)%nat ->
  stores j [(0, replicate 28 0); (0, le_bytes 4 0x101); (8, le_bytes 8 ts);
            (16, le_bytes 8 uc); (28, t)] = Some (blob_v2 ts uc t).
Proof.
  intros Hj. rewrite <- (take_drop 28 j). set (old := drop 28 j).
  assert (Ho : length old = length t) by (unfold old; len).
  cbn [stores]. rewrite (put_app [] (take 28 j) old) by len. cbn [app mbind option_bind].
  rewrite (put_app [] (replicate 4 0) (replicate 24 0 ++ old)) by done. cbn [app mbind option_bind].
  rewrite (put_app (le_bytes 4 0x101 ++ replicate 4 0) (replicate 8 0) (replicate 12 0 ++ old))
    by (rewrite ?length_le_bytes; done). cbn [mbind option_bind].
  rewrite <- app_assoc.
  replace ((le_bytes 4 0x101 ++ replicate 4 0 ++ le_bytes 8 ts ++ replicate 12 0 ++ old))
    with ((le_bytes 4 0x101 ++ replicate 4 0 ++ le_bytes 8 ts)
          ++ replicate 8 0 ++ (replicate 4 0 ++ old)) by (rewrite <- !app_assoc; done).
  rewrite put_app by (rewrite ?length_le_bytes; len). cbn [mbind option_bind].
  rewrite <- !app_assoc.
  replace (le_bytes 4 0x101 ++ replicate 4 0 ++ le_bytes 8 ts ++ le_bytes 8 uc ++ replicate 4 0 ++ old)
    with ((le_bytes 4 0x101 ++ replicate 4 0 ++ le_bytes 8 ts ++ le_bytes 8 uc ++ replicate 4 0) ++ old ++ [])
    by (rewrite app_nil_r, <- !app_assoc; done).
  rewrite put_app by (rewrite ?length_le_bytes; len). unfold blob_v2.
  by rewrite app_nil_r, <- !app_assoc.
Qed.

Lemma runs_make_blob ts uc target t w :
  lucky w -> buffer_ok target t -> zlen t < 9223372036854775808 ->
  runs w (smb_ntlm_make_blob ts uc target) (28 + zlen t, Some (blob_v2 ts uc t)).
Proof.
  intros Hw [Hd Hs] Hm. unfold smb_ntlm_make_blob, sizeof_blob.
  rewrite Hs, !u64_small by (unfold zlen in *; lia). run_malloc j Hj.
  run; [apply runs_access; rewrite Hd; by apply sub_all|].
  cbn [block_of default id].
  run; [apply runs_access, stores_blob; unfold zlen in *; lia|]. apply runs_ret.
Qed.

(** The response to a challenge, given the client's part [b]. *)
Lemma runs_ntlm2_response hash c blob b w :
  lucky w -> 16 <= zlen hash -> sub (block_of (data blob)) 0 (size blob) = Some b ->
  zlen b < 4611686018427387904 ->
  runs w (smb_ntlm2_response hash c blob) (Some (response_v2 (take 16 hash) c b)).
Proof.
  intros Hw Hh Hb Hm. pose proof (length_sub _ _ _ _ Hb) as Hl. rewrite <- Hl in *.
  unfold smb_ntlm2_response. run_uninit hj Hhj. rewrite <- Hl.
  rewrite !u64_small by (unfold zlen in *; lia).
  destruct (runs_buffer_alloc (Buffer None 0) (8 + zlen b) w0 Hw) as (d & R & Hd).
  run; [exact R|]. cbn [Z.eqb]. run; [by apply runs_access|].
  cbn [data size block_of default id].
  run; [apply runs_access, stores_pair; [done|len]|].
  replace (8 + zlen b) with (zlen (le_bytes 8 c ++ b)) by len.
  run; [apply runs_HMAC_MD5; [done|lia|len]|].
  run_malloc r Hr. run; [apply runs_access, stores_pair; [|]|].
  - unfold hmac_into. cbn. len.
  - unfold hmac_into. cbn. len.
  - apply runs_ret.
Qed.

Lemma runs_lm2_response hash c uc w :
  lucky w -> 16 <= zlen hash ->
  runs w (smb_lm2_response hash c uc) (Some (response_v2 (take 16 hash) c (le_bytes 8 uc))).
Proof.
  intros Hw Hh. apply runs_ntlm2_response; [done|done|by apply sub_all|len].
Qed.

(** The session key sent to the server: RC4 under the key both can compute. *)
Definition seals (key xkey xkey_crypt : bytes) : Prop :=
  exists st ks st', rc4_init key 16 = Done st /\ rc4_ok st
    /\ rc4_keystream 16 st = Some (ks, st') /\ xkey_crypt = zip_with Z.lxor xkey ks.

Lemma runs_session_key hash ntlm2 xkey w :
  lucky w -> 16 <= zlen hash -> 16 <= zlen ntlm2 -> zlen ntlm2 < 9223372036854775808 ->
  length xkey = 16%nat ->
  exists ck, runs w (smb_ntlm2_session_key hash (Some ntlm2) xkey) ck
    /\ seals (hmac_spec (take 16 hash) (take 16 ntlm2)) xkey ck /\ length ck = 16%nat.
Proof.
  intros Hw Hh Hn Hm Hx. set (key := hmac_spec (take 16 hash) (take 16 ntlm2)).
  destruct (rc4_init_run key 16) as (st & Hi & Hst & _); [unfold key; len|].
  destruct (rc4_keystream_ok 16 st Hst) as (ks & st' & Hks & _ & Hlk & _).
  set (ck := zip_with Z.lxor xkey ks).
  assert (Hck : length ck = 16%nat) by (unfold ck; rewrite length_zip_with; lia).
  exists ck. split; [|split; [by exists st, ks, st'|done]].
  unfold smb_ntlm2_session_key. run_uninit hj Hhj. run_uninit xj Hxj.
  run.
  { destruct (HMAC_MD5_spec hash 16 ntlm2 16 w1) as (w' & E & L); [lia..|].
    rewrite Hw in E. exists w'. split; [exact E|done]. }
  run; [apply runs_lift, Hi|].
  destruct (rc4_crypt_run st (xkey ++ xj) 0 16 16 xkey Hst) as (ks' & st2 & mem & Hk' & _ & Hput & Hc).
  { apply (sub_app [] xkey xj); len. } { lia. } { len. } { lia. }
  change (Z.to_nat 16) with 16%nat in Hk'. rewrite Hks in Hk'. simplify_eq.
  run; [apply runs_lift, Hc|]. apply runs_access. fold ck in Hput.
  replace 16 with (zlen ck) at 2 by len. by eapply sub_put_eq.
Qed.

(** ** The fields of a token *)

(** What a descriptor (length, maximal length, offset) at [f] refers to. *)
Definition field_value (t : bytes) (f : Z) : option bytes :=
  n ← get16 t f; o ← get32 t (f + 4); sub t o n.

(** A descriptor slot of smb_ntlmssp_auth. *)
Definition slot (f : Z) : Prop := 12 <= f <= 52 /\ (f - 12) `mod` 8 = 0.

(** The token under construction: the header, the fields so far, all data
    below the cursor. *)
Definition auth_inv (auth : bytes) (n cursor : Z) (hd : bytes) (fs : list (Z * bytes)) : Prop :=
  zlen auth = n /\ 0 <= cursor /\ 64 + cursor <= n
  /\ sub auth 0 12 = Some hd /\ sub auth 60 4 = Some (le_bytes 4 0x60088215)
  /\ Forall (fun '(f, v) => slot f /\ zlen v < 65536 /\
       exists o, 64 <= o /\ o + zlen v <= 64 + cursor /\ o < 4294967296
         /\ sub auth f 2 = Some (le_bytes 2 (zlen v))
         /\ sub auth (f + 4) 4 = Some (le_bytes 4 o)
         /\ sub auth o (zlen v) = Some v) fs.

Lemma field_value_of t f v o :
  zlen v < 65536 -> 0 <= o < 4294967296 ->
  sub t f 2 = Some (le_bytes 2 (zlen v)) -> sub t (f + 4) 4 = Some (le_bytes 4 o) ->
  sub t o (zlen v) = Some v -> field_value t f = Some v.
Proof.
  intros Hv Ho H2 H4 Hs.
  unfold field_value, get16, get32, get_word. change (Z.of_nat 2) with 2. change (Z.of_nat 4) with 4.
  rewrite H2, H4. cbn [fmap option_fmap option_map mbind option_bind].
  rewrite (le_word_bytes_small 2), (le_word_bytes_small 4); [done|..].
  - change (256 ^ Z.of_nat 4) with 4294967296. lia.
  - change (256 ^ Z.of_nat 2) with 65536. unfold zlen in *. lia.
Qed.

Lemma auth_inv_value auth n cursor hd fs f v :
  auth_inv auth n cursor hd fs -> (f, v) ∈ fs -> field_value auth f = Some v.
Proof.
  intros (_ & _ & _ & _ & _ & Hf) Hin.
  apply (proj1 (Forall_forall _ _)) with (x := (f, v)) in Hf; [|done].
  destruct Hf as (_ & Hv & o & Ho & _ & Ho32 & H2 & H4 & Hs).
  apply (field_value_of auth f v o); auto with lia.
Qed.

Lemma slots_apart f g : slot f -> slot g -> f <> g -> f + 8 <= g \/ g + 8 <= f.
Proof. unfold slot. intros Hf Hg Hne. zdiv. Qed.

Lemma AUTH_APPEND_spec auth n cursor hd fs f value v sz :
  auth_inv auth n cursor hd fs -> slot f -> f ∉ fs.*1 ->
  sub value 0 sz = Some v -> 0 <= sz < 65536 -> 64 + cursor + sz <= n -> n < 4294967296 ->
  exists auth', AUTH_APPEND auth f value sz cursor = Done (auth', cursor + sz)
    /\ auth_inv auth' n (cursor + sz) hd ((f, v) :: fs).
Proof.
  intros (Hl & Hc & Hcn & Hhd & Hfl & Hfs) Hf Hnin Hv Hsz Hn Hmax.
  pose proof (length_sub _ _ _ _ Hv) as Hlv. pose proof Hf as [Hf1 Hf2].
  set (l := [(64 + cursor, v); (f + 2, le_bytes 2 sz); (f, le_bytes 2 sz);
             (f + 4, le_bytes 4 (64 + cursor))]).
  destruct (stores_is_Some auth l) as [auth' E].
  { unfold l. repeat (apply Forall_cons; split; [len|]). constructor. }
  exists auth'. split.
  { unfold AUTH_APPEND. rewrite Hv. cbn [checked obind]. fold l. by rewrite E. }
  (* a range that the four stores leave alone *)
  assert (Hkeep : forall o k, 0 <= k ->
      (o + k <= f \/ f + 8 <= o) -> o + k <= 64 + cursor -> sub auth' o k = sub auth o k).
  { intros o k Hk Hd Ho. eapply sub_stores_ne; [exact E|]. unfold disjoint_range, l.
    repeat (apply Forall_cons; split; [unfold zlen; rewrite ?length_le_bytes; lia|]). constructor. }
  assert (Hkd : forall o k, 64 <= o -> 0 <= k -> o + k <= 64 + cursor -> sub auth' o k = sub auth o k)
    by (intros; apply Hkeep; lia).
  split_and!; try lia.
  - rewrite (length_stores _ _ _ E). done.
  - rewrite Hkeep by lia. done.
  - rewrite Hkeep by lia. done.
  - apply Forall_cons. split; [split; [done|split; [lia|exists (64 + cursor)]]|].
    + split_and!; try lia.
      * change l with ([(64 + cursor, v); (f + 2, le_bytes 2 sz)]
                       ++ [(f, le_bytes 2 sz); (f + 4, le_bytes 4 (64 + cursor))]) in E.
        rewrite stores_app in E. destruct (stores auth _) as [a1|]; [|done]. cbn [mbind option_bind] in E.
        rewrite Hlv. apply (sub_stores_eq a1 _ _ _ _ E).
        apply Forall_cons; split; [unfold zlen; rewrite ?length_le_bytes; lia|constructor].
      * change l with ([(64 + cursor, v); (f + 2, le_bytes 2 sz); (f, le_bytes 2 sz)]
                       ++ [(f + 4, le_bytes 4 (64 + cursor))]) in E.
        rewrite stores_app in E. destruct (stores auth _) as [a1|]; [|done]. cbn [mbind option_bind] in E.
        apply (sub_stores_eq a1 (f + 4) (le_bytes 4 (64 + cursor)) [] _ E). constructor.
      * apply (sub_stores_eq auth _ _ _ _ E).
        repeat (apply Forall_cons; split; [unfold zlen; rewrite ?length_le_bytes; lia|]). constructor.
    + apply Forall_forall. intros [g u] Hg.
      pose proof (proj1 (Forall_forall _ _) Hfs (g, u) Hg) as (Hsg & Hu & o & Ho1 & Ho2 & Ho3 & G2 & G4 & G).
      assert (g <> f) by (intros ->; apply Hnin, list_elem_of_fmap; by exists (f, u)).
      destruct (slots_apart f g Hf Hsg) as [Ha|Ha]; [done| |];
        (split; [done|]; split; [done|]; exists o; unfold slot in Hsg; split_and!; try lia;
         rewrite Hkeep; try done; unfold zlen in *; lia).
Qed.

(** A field that is there unless its text is empty. *)
Definition when_set (s : bytes) (f : Z) (v : bytes) : list (Z * bytes) :=
  match s with [] => [] | _ => [(f, v)] end.

Lemma when_set_other s f v g : g <> f -> g ∉ (when_set s f v).*1.
Proof. intros Hne. destruct s; cbn; [apply not_elem_of_nil|by rewrite list_elem_of_singleton]. Qed.

Lemma returning_append_utf16 auth n cursor hd fs f s v w :
  lucky w -> auth_inv auth n cursor hd fs -> slot f -> f ∉ fs.*1 ->
  cstring_ok s -> zlen s < 32768 -> utf16_text s v ->
  64 + cursor + zlen v <= n -> n < 4294967296 ->
  returning w (append_utf16 auth f (cstr s) cursor) (fun '(auth', c') =>
    c' = cursor + zlen v /\ auth_inv auth' n c' hd (when_set s f v ++ fs)).
Proof.
  intros Hw Ha Hf Hnin Hs Hl Hv Hn Hmax. unfold append_utf16, cstr.
  pose proof Hv as (_ & _ & Hlv & Hnil). destruct s as [|c s].
  - rewrite (proj1 Hnil eq_refl) in *. change (zlen []) with 0 in *.
    step_to; [by apply runs_access|]. apply returning_ret. by rewrite Z.add_0_r.
  - pose proof (Forall_inv Hs) as Hc. cbn beta in Hc.
    step_to; [by apply runs_access|]. rewrite (proj2 (Z.eqb_neq c 0)) by lia.
    step_to; [apply (runs_utf16 (c :: s) v); [done|lia|done|done]|].
    destruct (AUTH_APPEND_spec auth n cursor hd fs f v v (zlen v)) as (auth' & E & Ha');
      auto; [by apply sub_all|unfold zlen in *; lia|].
    exists (auth', cursor + zlen v). split; [by apply runs_lift|done].
Qed.

Lemma returning_challenge w :
  lucky w -> returning w smb_ntlm_generate_challenge (fun _ => True).
Proof.
  intros Hw. unfold smb_ntlm_generate_challenge. step_with b Hb; [by apply returning_flip|].
  step_with v Hv; [apply returning_pick|]. by apply returning_ret.
Qed.

Lemma returning_xkey w :
  lucky w -> returning w smb_ntlm_generate_xkey (fun k => length k = 16%nat).
Proof.
  intros Hw. unfold smb_ntlm_generate_xkey. step_with a Ha; [by apply returning_challenge|].
  step_with b Hb; [by apply returning_challenge|]. by apply returning_ret.
Qed.

(** ** The authenticate message *)

(** What a client types in, and its texts in UCS-2LE. *)
Record credentials := Credentials {
  c_host : bytes; c_domain : bytes; c_user : bytes; c_password : bytes;
  t_host : bytes; t_domain : bytes; t_user : bytes; t_upper : bytes; t_password : bytes
}.

Definition credentials_ok (c : credentials) : Prop :=
  cstring_ok (c_host c) /\ zlen (c_host c) < 32768 /\ utf16_text (c_host c) (t_host c)
  /\ cstring_ok (c_domain c) /\ zlen (c_domain c) < 32768 /\ utf16_text (c_domain c) (t_domain c)
  /\ cstring_ok (c_user c) /\ zlen (c_user c) < 32768 /\ utf16_text (c_user c) (t_user c)
  /\ utf16_text (upcase (take 63 (c_user c))) (t_upper c)
  /\ cstring_ok (c_password c) /\ zlen (c_password c) < 32768
  /\ utf16_text (c_password c) (t_password c).

Definition hash_of (c : credentials) : bytes :=
  ntowf_v2 (t_password c) (t_upper c) (t_domain c).

(** At least one of domain, user and password is not empty. *)
Definition named (c : credentials) : bool :=
  match c_domain c, c_user c, c_password c with [], [], [] => false | _, _, _ => true end.

(** The fields of the message, last one first. *)
Definition auth_fields (c : credentials) (lm nt ck : bytes) : list (Z * bytes) :=
  (off_session_key, ck) ::
  when_set (c_host c) off_host (t_host c) ++ when_set (c_user c) off_user (t_user c)
  ++ when_set (c_domain c) off_domain (t_domain c)
  ++ (if named c then [(off_ntlm, nt); (off_lm, lm)] else []).

(** The answer to a challenge: the message, its responses and the sealed key. *)
Definition auth_token (c : credentials) (srv_challenge srv_ts : Z) (target t : bytes) : Prop :=
  exists user_challenge lm_challenge xkey ck,
    let nt := response_v2 (hash_of c) srv_challenge (blob_v2 srv_ts user_challenge target) in
    let lm := response_v2 (hash_of c) srv_challenge (le_bytes 8 lm_challenge) in
    sub t 0 12 = Some (ntlmssp_id ++ le_bytes 4 SMB_NTLMSSP_CMD_AUTH)
    /\ Forall (fun '(f, v) => field_value t f = Some v) (auth_fields c lm nt ck)
    /\ length xkey = 16%nat /\ seals (hmac_spec (hash_of c) (take 16 nt)) xkey ck.

Lemma auth_start n (j : bytes) :
  104 <= n -> length j = Z.to_nat n ->
  exists auth, stores j [(0, replicate (Z.to_nat n) 0); (0, ntlmssp_id);
      (8, le_bytes 4 SMB_NTLMSSP_CMD_AUTH); (60, le_bytes 4 0x60088215)] = Some auth
    /\ auth_inv auth n 0 (ntlmssp_id ++ le_bytes 4 SMB_NTLMSSP_CMD_AUTH) [].
Proof.
  intros Hn Hj. set (m := (Z.to_nat n - 64)%nat). assert (Hm : Z.to_nat n = (64 + m)%nat) by lia.
  cbn [stores]. rewrite put_all by (rewrite length_replicate; lia).
  rewrite Hm, (replicate_add 64 m). cbn [mbind option_bind].
  set (z := replicate m 0).
  rewrite (put_app [] (replicate 8 0) (replicate 56 0 ++ z)) by done. cbn [app mbind option_bind].
  rewrite (put_app ntlmssp_id (replicate 4 0) (replicate 52 0 ++ z)) by done. cbn [mbind option_bind].
  set (hd := ntlmssp_id ++ le_bytes 4 SMB_NTLMSSP_CMD_AUTH). rewrite app_assoc. fold hd.
  replace (hd ++ replicate 52 0 ++ z) with ((hd ++ replicate 48 0) ++ replicate 4 0 ++ z)
    by (rewrite <- !app_assoc; done).
  rewrite (put_app (hd ++ replicate 48 0) (replicate 4 0) z) by done. cbn [mbind option_bind].
  eexists. split; [reflexivity|]. split_and!; try lia.
  - unfold z. rewrite <- !app_assoc. unfold zlen. rewrite !length_app, !length_replicate.
    rewrite length_le_bytes. change (length hd) with 12%nat. lia.
  - rewrite <- app_assoc. by apply (sub_app [] hd).
  - by apply (sub_app (hd ++ replicate 48 0) (le_bytes 4 0x60088215) z).
  - constructor.
Qed.

Lemma rd_cstr s : cstring_ok s -> exists c, rd (cstr s) 0 = Some c /\ (c =? 0) = bool_decide (s = []).
Proof.
  intros Hs. destruct s as [|c s].
  - by exists 0.
  - exists c. split; [done|]. apply Forall_inv in Hs. cbn beta in Hs.
    rewrite (proj2 (Z.eqb_neq c 0)) by lia. done.
Qed.

Lemma length_response_v2 hash c blob : zlen (response_v2 hash c blob) = 16 + zlen blob.
Proof. unfold response_v2. len. Qed.

Lemma length_blob_v2 ts uc target : zlen (blob_v2 ts uc target) = 28 + zlen target.
Proof. unfold blob_v2. len. Qed.

Lemma returning_fill_auth c auth n lm nt ck bs w :
  lucky w -> credentials_ok c ->
  auth_inv auth n 0 (ntlmssp_id ++ le_bytes 4 SMB_NTLMSSP_CMD_AUTH) [] ->
  zlen lm = 24 -> zlen nt = bs + 16 -> 0 <= bs -> bs + 16 < 65536 -> length ck = 16%nat ->
  64 + 24 + (bs + 16) + zlen (t_domain c) + zlen (t_user c) + zlen (t_host c) + 16 <= n ->
  n < 4294967296 ->
  returning w (fill_auth auth (cstr (c_host c)) (cstr (c_domain c)) (cstr (c_user c))
      (cstr (c_password c)) (Some lm) (Some nt) bs ck) (fun t =>
    zlen t = n /\ sub t 0 12 = Some (ntlmssp_id ++ le_bytes 4 SMB_NTLMSSP_CMD_AUTH)
    /\ Forall (fun '(f, v) => field_value t f = Some v) (auth_fields c lm nt ck)).
Proof.
  intros Hw (Hh & Hhl & Th & Hd & Hdl & Td & Hu & Hul & Tu & _ & Hp & _) Ha Hlm Hnt Hbs Hbm Hck Hn Hmax.
  destruct (rd_cstr _ Hd) as (d0 & Ed & Bd), (rd_cstr _ Hu) as (u0 & Eu & Bu),
    (rd_cstr _ Hp) as (p0 & Ep & Bp).
  assert (0 <= zlen (t_domain c) /\ 0 <= zlen (t_user c) /\ 0 <= zlen (t_host c)) as (?&?&?)
    by (unfold zlen; lia).
  unfold fill_auth. do 3 (step_to; [apply runs_access; eassumption|]). rewrite Bd, Bu, Bp.
  set (nts := if named c then [(off_ntlm, nt); (off_lm, lm)] else []).
  step_with r Hr.
  { instantiate (1 := fun '(a, cur) => 0 <= cur <= 24 + (bs + 16)
      /\ auth_inv a n cur (ntlmssp_id ++ le_bytes 4 SMB_NTLMSSP_CMD_AUTH) nts).
    assert (En : negb (bool_decide (c_domain c = [])) || negb (bool_decide (c_user c = []))
                 || negb (bool_decide (c_password c = [])) = named c).
    { unfold named. by destruct (c_domain c), (c_user c), (c_password c). }
    rewrite En. unfold nts. destruct (named c); [|by apply returning_ret; split; [lia|]].
    step_to; [by apply runs_access|].
    destruct (AUTH_APPEND_spec _ _ _ _ _ off_lm lm lm 24 Ha) as (a1 & E1 & Ha1);
      [unfold slot, off_lm; zdiv|by apply not_elem_of_nil|by apply sub_all|lia..|].
    step_to; [by apply runs_lift|]. step_to; [by apply runs_access|].
    destruct (AUTH_APPEND_spec _ _ _ _ _ off_ntlm nt nt (bs + 16) Ha1) as (a2 & E2 & Ha2);
      [unfold slot, off_ntlm; zdiv|by cbn; rewrite list_elem_of_singleton|by apply sub_all|lia..|].
    exists (a2, 0 + 24 + (bs + 16)). split; [by apply runs_lift|]. split; [lia|done]. }
  destruct r as [a1 c1]. destruct Hr as [Hc1 Ha1].
  assert (Hnin : forall f, f <> off_ntlm -> f <> off_lm -> f ∉ nts.*1).
  { intros f Hf1 Hf2. unfold nts. destruct (named c); cbn; [|apply not_elem_of_nil].
    rewrite !not_elem_of_cons. split_and!; auto. apply not_elem_of_nil. }
  step_with r Hr.
  { apply (returning_append_utf16 a1 n c1 _ nts off_domain _ (t_domain c) _ Hw Ha1); auto;
      [unfold slot, off_domain; zdiv|lia]. }
  destruct r as [a2 c2]. destruct Hr as [-> Ha2].
  step_with r Hr.
  { apply (returning_append_utf16 a2 n _ _ _ off_user _ (t_user c) _ Hw Ha2); auto;
      [unfold slot, off_user; zdiv| |lia].
    rewrite fmap_app, not_elem_of_app. split; [by apply when_set_other|by apply Hnin]. }
  destruct r as [a3 c3]. destruct Hr as [-> Ha3].
  step_with r Hr.
  { apply (returning_append_utf16 a3 n _ _ _ off_host _ (t_host c) _ Hw Ha3); auto;
      [unfold slot, off_host; zdiv| |lia].
    rewrite !fmap_app, !not_elem_of_app. split_and!;
      [by apply when_set_other|by apply when_set_other|by apply Hnin]. }
  destruct r as [a4 c4]. destruct Hr as [-> Ha4].
  destruct (AUTH_APPEND_spec _ _ _ _ _ off_session_key ck ck 16 Ha4) as (a5 & E5 & Ha5);
    [unfold slot, off_session_key; zdiv| |apply sub_all; len|lia..|].
  { rewrite !fmap_app, !not_elem_of_app. split_and!; [by apply when_set_other
      |by apply when_set_other|by apply when_set_other|by apply Hnin]. }
  step_to; [by apply runs_lift|]. apply returning_ret.
  split; [apply Ha5|]. split; [apply Ha5|]. apply Forall_forall. intros [f v] Hin.
  by eapply auth_inv_value.
Qed.

Lemma ntlmssp_response_run c srv_challenge srv_ts target t_info token w :
  lucky w -> credentials_ok c -> buffer_ok target t_info -> zlen t_info < 65000 ->
  returning w (smb_ntlmssp_response srv_challenge srv_ts (cstr (c_host c)) (cstr (c_domain c))
      (cstr (c_user c)) (cstr (c_password c)) target token) (fun token' => exists t,
      buffer_ok token' t /\ auth_token c srv_challenge srv_ts t_info t).
Proof.
  intros Hw Hc Htg Htl.
  pose proof Hc as (Hh & Hhl & Th & Hd & Hdl & Td & Hu & Hul & Tu & Tup & Hp & Hpl & Tp).
  assert (0 <= zlen t_info) as Ht0 by (unfold zlen; lia).
  assert (Hhash : length (hash_of c) = 16%nat) by apply length_hmac_spec.
  assert (E16 : take 16 (hash_of c) = hash_of c) by (apply take_ge; lia).
  unfold smb_ntlmssp_response.
  step_to; [by apply (runs_ntlm2_hash _ _ _ (t_password c) (t_upper c) (t_domain c)); auto; lia|].
  fold (hash_of c).
  step_with uc Huc; [by apply returning_challenge|].
  step_with xkey Hxkey; [by apply returning_xkey|].
  step_to; [apply (runs_make_blob srv_ts uc target t_info); auto; lia|].
  set (blob := blob_v2 srv_ts uc t_info).
  assert (Hbl : zlen blob = 28 + zlen t_info) by apply length_blob_v2.
  step_with lmc Hlmc; [by apply returning_challenge|].
  step_to; [apply runs_lm2_response; [done|unfold zlen; lia]|]. rewrite E16.
  step_to; [apply (runs_ntlm2_response _ _ _ blob); [done|unfold zlen; lia|by apply sub_all|lia]|]. rewrite E16.
  set (nt := response_v2 (hash_of c) srv_challenge blob).
  assert (Hnt : zlen nt = 28 + zlen t_info + 16) by (unfold nt; rewrite length_response_v2; lia).
  step_with ck Hck.
  { destruct (runs_session_key (hash_of c) nt xkey _ Hw) as (ck & R & Hs & Hl);
      [unfold zlen; lia|lia|lia|done|].
    exists ck. split; [exact R|]. exact (conj Hs Hl). }
  destruct Hck as [Hseal Hck]. rewrite E16 in Hseal.
  do 3 (step_to; [apply runs_access, strlen_cstr; done|]).
  set (n := align2 _).
  assert (Hn : 148 + 2 * zlen (c_host c) + 2 * zlen (c_domain c) + 2 * zlen (c_user c)
               + zlen t_info <= n <= 1000000).
  { unfold n, align2, sizeof_auth. destruct (_ =? 0); lia. }
  destruct Th as (Th1 & Th2 & Th3 & Th4), Td as (Td1 & Td2 & Td3 & Td4), Tu as (Tu1 & Tu2 & Tu3 & Tu4).
  assert (0 <= zlen (c_host c) /\ 0 <= zlen (c_domain c) /\ 0 <= zlen (c_user c)) as (?&?&?)
    by (unfold zlen; lia).
  match goal with |- returning ?w _ _ =>
    destruct (runs_buffer_alloc (Buffer (data token) n) n w Hw) as (j & R & Hj) end.
  step_to; [exact R|]. cbn [Z.eqb data size block_of default id].
  destruct (auth_start n j) as (auth & E & Ha); [lia|done|].
  step_to; [by apply runs_access|].
  step_with t Ht.
  { apply (returning_fill_auth c auth n _ nt ck (28 + zlen t_info)); auto; try lia.
    rewrite length_response_v2. unfold zlen. by rewrite length_le_bytes. }
  apply returning_ret. destruct Ht as (Htn & Hhd & Hfs). exists t. split; [split; [done|by cbn]|].
  by exists uc, lmc, xkey, ck.
Qed.

(** C12. Under the documented behaviour of iconv and when memory is available,
    [smb_ntlmssp_response] writes the whole message inside the block it
    computed the size of, and the message is self-describing: it starts with
    the NTLMSSP signature and the type of an authenticate message, and the
    descriptor of each field leads to exactly its value: the LMv2 and NTLMv2
    responses to the server's challenge under the user's hash (left out for
    anonymous logins), the UCS-2LE names that are not empty, and the 16 bytes
    of a fresh session key encrypted under the key both sides can compute. *)
Theorem ntlmssp_response_correct c srv_challenge srv_ts target t_info token w :
  lucky w -> credentials_ok c -> buffer_ok target t_info -> zlen t_info < 65000 ->
  exists token' t w',
    smb_ntlmssp_response srv_challenge srv_ts (cstr (c_host c)) (cstr (c_domain c))
      (cstr (c_user c)) (cstr (c_password c)) target token w = Done (token', w')
    /\ buffer_ok token' t /\ auth_token c srv_challenge srv_ts t_info t.
Proof.
  intros Hw Hc Ht Hl.
  destruct (ntlmssp_response_run c srv_challenge srv_ts target t_info token w Hw Hc Ht Hl) as (token' & (w' & E & _) & t & H).
  by exists token', t, w'.
Qed.

End Ntlm.

Definition cred0 : credentials := Credentials
  [72] [68] [117] [112] [72; 0] [68; 0] [117; 0] [85; 0] [112; 0].
Definition lucky_world : world :=
  World (fun _ => true) (fun n => Z.of_nat n * 77) (fun _ _ => 9) 0 [] false [] [].

Lemma ntlmssp_response_correct_witness :
  exists token' t w',
    smb_ntlmssp_response 5 6 (cstr (c_host cred0)) (cstr (c_domain cred0))
      (cstr (c_user cred0)) (cstr (c_password cred0)) (Buffer (Some [1; 2; 3]) 3) (Buffer None 0)
      lucky_world = Done (token', w')
    /\ buffer_ok token' t /\ auth_token cred0 5 6 [1; 2; 3] t.
Proof.
  apply (ntlmssp_response_correct cred0 5 6 (Buffer (Some [1; 2; 3]) 3) [1; 2; 3] (Buffer None 0)
           lucky_world); [done| |done|vm_compute; done].
  split_and!; try decided;
    (split_and!; [done|exists 100; reflexivity|vm_compute; done|by split]).
Defined.

(** ** Key exchange *)

Lemma seals_opens key xkey ck :
  length xkey = 16%nat -> seals key xkey ck ->
  exists st st', rc4_init key 16 = Done st /\ rc4_crypt st ck 0 0 16 = Done (xkey, st').
Proof.
  intros Hx (st & ks & st' & Hi & Hst & Hks & ->).
  destruct (rc4_keystream_ok 16 st Hst) as (ks' & ? & Hks' & _ & Hlk & _).
  rewrite Hks in Hks'. simplify_eq.
  set (ck := zip_with Z.lxor xkey ks').
  assert (Hck : length ck = 16%nat) by (unfold ck; rewrite length_zip_with; lia).
  destruct (rc4_crypt_run st ck 0 0 16 ck Hst) as (ks2 & st2 & mem & Hk2 & _ & Hput & Hc);
    [apply sub_all; unfold zlen; lia|lia|unfold zlen; lia|lia|].
  change (Z.to_nat 16) with 16%nat in Hk2. rewrite Hks in Hk2. simplify_eq.
  exists st, st2. split; [done|]. rewrite Hc. do 2 f_equal.
  rewrite put_all in Hput by (rewrite length_zip_with; lia). simplify_eq.
  unfold ck. apply zip_lxor_involutive. lia.
Qed.

(** C33. The server recovers the session key: what [smb_ntlm2_session_key]
    produces, decrypted with RC4 under HMAC-MD5 of the first 16 bytes of the
    NTLMv2 response keyed with the user's hash (all known to the server), is
    the client's key. *)
Theorem session_key_shared hash ntlm2 xkey w :
  lucky w -> 16 <= zlen hash -> 16 <= zlen ntlm2 -> zlen ntlm2 < 9223372036854775808 ->
  length xkey = 16%nat ->
  exists ck w' st st',
    smb_ntlm2_session_key hash (Some ntlm2) xkey w = Done (ck, w')
    /\ rc4_init (hmac_spec (take 16 hash) (take 16 ntlm2)) 16 = Done st
    /\ rc4_crypt st ck 0 0 16 = Done (xkey, st').
Proof.
  intros Hw Hh Hn Hm Hx.
  destruct (runs_session_key hash ntlm2 xkey w Hw Hh Hn Hm Hx) as (ck & (w' & E & _) & Hs & _).
  destruct (seals_opens _ _ _ Hx Hs) as (st & st' & Hi & Hc).
  by exists ck, w', st, st'.
Qed.

Lemma session_key_shared_witness :
  exists ck w' st st',
    smb_ntlm2_session_key (replicate 16 1) (Some (replicate 20 2)) (replicate 16 3) lucky_world
      = Done (ck, w')
    /\ rc4_init (hmac_spec (take 16 (replicate 16 1)) (take 16 (replicate 20 2))) 16 = Done st
    /\ rc4_crypt st ck 0 0 16 = Done (replicate 16 3, st').
Proof.
  apply (session_key_shared (replicate 16 1) (replicate 20 2) (replicate 16 3) lucky_world);
    vm_compute; done.
Defined.

(** ** The negotiate message *)

Lemma negotiate_run host domain token w (Q : outcome (smb_buffer * world) -> Prop) :
  cstring_ok host -> cstring_ok domain -> lucky w ->
  (forall j w', let hl := zlen host in let dl := zlen domain in let n := align2 (32 + hl + dl) in
     later w w' -> length j = Z.to_nat n ->
     Q (let* t := checked (stores j
      [(8, le_bytes 4 SMB_NTLMSSP_CMD_NEGO); (12, le_bytes 4 0x60088215);
       (18, le_bytes 2 dl); (16, le_bytes 2 dl); (20, le_bytes 4 32);
       (26, le_bytes 2 hl); (24, le_bytes 2 hl); (28, le_bytes 4 (32 + dl));
       (0, ntlmssp_id); (32, domain); (32 + dl, domain)]) in
        Done (Buffer (Some t) n, w'))) ->
  Q (smb_ntlmssp_negotiate (cstr host) (cstr domain) token w).
Proof.
  intros Hh Hd Hw HQ. unfold smb_ntlmssp_negotiate, cstr.
  rewrite (bind_Done _ _ _ _ _ (access_Done _ _ w (strlen_cstr host [] Hh))).
  rewrite (bind_Done _ _ _ _ _ (access_Done _ _ w (strlen_cstr domain [] Hd))).
  set (n := align2 (sizeof_nego + zlen host + zlen domain)).
  destruct (runs_buffer_alloc (Buffer (data token) n) n w Hw) as (j & (w' & E & L) & Hj).
  rewrite (bind_Done _ _ _ _ _ E). cbn [Z.eqb data size block_of default id].
  rewrite (bind_Done _ _ _ domain w') by (by apply access_Done, (sub_app [] domain)).
  specialize (HQ j w' L Hj). unfold access, lift, mbind, io_bind.
  destruct (stores j _); exact HQ.
Qed.

(** [smb_ntlmssp_negotiate] copies the domain where the host name belongs:
    when the domain is longer than the host name by more than the alignment
    byte, it writes beyond the block it allocated. *)
Theorem ntlmssp_negotiate_overflow host domain token w :
  cstring_ok host -> cstring_ok domain -> lucky w -> zlen host + 1 < zlen domain ->
  smb_ntlmssp_negotiate (cstr host) (cstr domain) token w = Fault.
Proof.
  intros Hh Hd Hw Hlt. apply (negotiate_run host domain token w (fun o => o = Fault) Hh Hd Hw).
  intros j w' hl dl n _ Hj.
  assert (Hn : n < 32 + dl + dl).
  { unfold n, align2. destruct (_ =? 0); lia. }
  match goal with |- context [stores j ?l] =>
    change l with (take 10 l ++ [(32 + dl, domain)]); rewrite stores_app end.
  match goal with |- context [stores j ?l] => destruct (stores j l) as [b|] eqn:E; [|done] end.
  apply length_stores in E. cbn [mbind option_bind stores].
  destruct (put b (32 + dl) domain) as [b'|] eqn:E2; [|done].
  apply put_inv in E2 as (_ & Hle & _). exfalso.
  assert (zlen j = n); [|lia]. unfold zlen. rewrite Hj. unfold n, align2, hl, dl.
  destruct (_ =? 0); unfold zlen; lia.
Qed.

Lemma ntlmssp_negotiate_overflow_witness :
  smb_ntlmssp_negotiate (cstr [72]) (cstr [68; 79; 77]) (Buffer None 0) lucky_world = Fault.
Proof.
  apply (ntlmssp_negotiate_overflow [72] [68; 79; 77] (Buffer None 0) lucky_world);
    [decided|decided|done|vm_compute; done].
Defined.

(** What the message of [negotiate] holds. *)
Definition nego_token (domain t : bytes) : Prop :=
  sub t 0 12 = Some (ntlmssp_id ++ le_bytes 4 SMB_NTLMSSP_CMD_NEGO)
  /\ field_value t 16 = Some domain /\ field_value t 24 = Some domain.

Lemma ntlmssp_negotiate_run domain token w :
  cstring_ok domain -> lucky w -> zlen domain < 65536 ->
  returning w (smb_ntlmssp_negotiate (cstr domain) (cstr domain) token)
    (fun token' => exists t, buffer_ok token' t /\ nego_token domain t).
Proof.
  intros Hd Hw Hl.
  apply (negotiate_run domain domain token w (fun o => exists token', (exists w', o = Done (token', w') /\ later w w')
    /\ exists t, buffer_ok token' t /\ nego_token domain t) Hd Hd Hw).
  intros j w' hl dl n L Hj. fold dl. set (k := zlen domain) in *. subst hl dl.
  assert (Hk : 0 <= k) by (unfold k, zlen; lia).
  assert (Hjn : zlen j = n) by (unfold zlen; rewrite Hj; unfold n, align2; destruct (_ =? 0); lia).
  assert (Hn : 32 + k + k <= n) by (unfold n, align2; destruct (_ =? 0); lia).
  match goal with |- context [stores j ?l] => destruct (stores_is_Some j l) as [t E] end.
  { repeat (apply Forall_cons; split; [unfold zlen in *; rewrite ?length_le_bytes; simpl length; lia|]).
    constructor. }
  rewrite E. cbn [checked obind]. pose proof (length_stores _ _ _ E) as Ht.
  exists (Buffer (Some t) n). split; [by exists w'|]. exists t. split; [split; [done|cbn; lia]|].
  (* every store but the overwritten ones is read back *)
  assert (Hrd : forall i off v,
      [(8, le_bytes 4 SMB_NTLMSSP_CMD_NEGO); (12, le_bytes 4 0x60088215);
       (18, le_bytes 2 k); (16, le_bytes 2 k); (20, le_bytes 4 32);
       (26, le_bytes 2 k); (24, le_bytes 2 k); (28, le_bytes 4 (32 + k));
       (0, ntlmssp_id); (32, domain); (32 + k, domain)] !! i = Some (off, v) ->
      sub t off (zlen v) = Some v).
  { intros i off v Hi. pose proof (take_drop_middle _ _ _ Hi) as Hsplit.
    rewrite <- Hsplit, stores_app in E.
    destruct (stores j (take i _)) as [b|]; [|done]. cbn [mbind option_bind] in E.
    apply (sub_stores_eq _ _ _ _ _ E). clear E Hsplit.
    do 11 (destruct i as [|i]; [simpl in Hi; simplify_eq; cbn [drop];
      repeat (apply Forall_cons; split; [unfold k, zlen; rewrite ?length_le_bytes; simpl length; lia|]);
      constructor|]).
    done. }
  split; [|split].
  - apply (sub_join t 0 8 4 ntlmssp_id (le_bytes 4 SMB_NTLMSSP_CMD_NEGO));
      [exact (Hrd 8%nat 0 _ eq_refl)|exact (Hrd 0%nat 8 _ eq_refl)].
  - apply (field_value_of t 16 domain 32);
      [lia|lia|exact (Hrd 3%nat 16 _ eq_refl)|exact (Hrd 4%nat 20 _ eq_refl)|exact (Hrd 9%nat 32 _ eq_refl)].
  - apply (field_value_of t 24 domain (32 + k));
      [lia|lia|exact (Hrd 6%nat 24 _ eq_refl)|exact (Hrd 7%nat 28 _ eq_refl)
      |exact (Hrd 10%nat (32 + k) _ eq_refl)].
Qed.

(** Called the way [negotiate] of smb_spnego.c calls it (the domain as the
    host name, too), [smb_ntlmssp_negotiate] stays in its block and writes a
    negotiate message whose two descriptors lead to the domain. *)
Theorem ntlmssp_negotiate_correct domain token w :
  cstring_ok domain -> lucky w -> zlen domain < 65536 ->
  exists token' t w',
    smb_ntlmssp_negotiate (cstr domain) (cstr domain) token w = Done (token', w')
    /\ buffer_ok token' t
    /\ sub t 0 12 = Some (ntlmssp_id ++ le_bytes 4 SMB_NTLMSSP_CMD_NEGO)
    /\ field_value t 16 = Some domain /\ field_value t 24 = Some domain.
Proof.
  intros Hd Hw Hl. destruct (ntlmssp_negotiate_run domain token w Hd Hw Hl) as (token' & (w' & E & _) & t & Ht & H).
  by exists token', t, w'.
Qed.

Lemma ntlmssp_negotiate_correct_witness :
  exists token' t w',
    smb_ntlmssp_negotiate (cstr [68; 79; 77]) (cstr [68; 79; 77]) (Buffer None 0) lucky_world
      = Done (token', w')
    /\ buffer_ok token' t
    /\ sub t 0 12 = Some (ntlmssp_id ++ le_bytes 4 SMB_NTLMSSP_CMD_NEGO)
    /\ field_value t 16 = Some [68; 79; 77] /\ field_value t 24 = Some [68; 79; 77].
Proof.
  apply (ntlmssp_negotiate_correct [68; 79; 77] (Buffer None 0) lucky_world);
    [decided|done|vm_compute; done].
Defined.

End SmbNtlm.
