(* ===== verification/SmbPackets.v ===== *)
(** The packed structures of the SMB messages: src/smb_packets.h.

    A structure is a [layout], the list of its fields with their widths in
    bytes, in the order of the header file; there is no padding between them.
    A flexible array at the end has no entry. Fields are read and written in
    host (little-endian) order at the offset the layout gives them. *)

From stdpp Require Import strings.
From S2P Require Import Prelude.

Module SmbPackets.
Local Open Scope string_scope.
Local Open Scope list_scope.
Local Open Scope Z_scope.

Definition layout : Type := list (string * Z).

Fixpoint sizeof (L : layout) : Z :=
  match L with [] => 0 | (_, w) :: L => w + sizeof L end.

(** offsetof and the width of a field. *)
Fixpoint locate (L : layout) (f : string) : option (Z * Z) :=
  match L with
  | [] => None
  | (g, w) :: L =>
      if String.eqb f g then Some (0, w)
      else match locate L f with Some (o, v) => Some (w + o, v) | None => None end
  end.

(** [((L * )(b + base))->f] *)
Definition field (L : layout) (b : bytes) (base : Z) (f : string) : option Z :=
  '(o, w) ← locate L f; get_word b (base + o) (Z.to_nat w).

(** [((L * )(b + base))->f = v] *)
Definition set_field (L : layout) (b : bytes) (base : Z) (f : string) (v : Z) : option bytes :=
  '(o, w) ← locate L f; put b (base + o) (le_bytes (Z.to_nat w) v).

Fixpoint set_fields (L : layout) (b : bytes) (base : Z) (l : list (string * Z)) : option bytes :=
  match l with
  | [] => Some b
  | (f, v) :: l => b ← set_field L b base f v; set_fields L b base l
  end.

(** SMB_MSG_INIT_PKT and SMB_MSG_INIT_PKT_ANDX *)
Definition init_pkt (L : layout) : bytes := replicate (Z.to_nat (sizeof L)) 0.
Definition init_pkt_andx (L : layout) : option bytes :=
  set_fields L (init_pkt L) 0 [("andx", 0xff); ("andx_reserved", 0); ("andx_offset", 0)].

(** * The structures *)

Definition SMB_ANDX_MEMBERS : layout :=
  [("andx", 1); ("andx_reserved", 1); ("andx_offset", 2)].
Definition smb_header : layout :=
  [("magic", 4); ("command", 1); ("status", 4); ("flags", 1); ("flags2", 2);
   ("pid_high", 2); ("signature", 8); ("reserved", 2); ("tid", 2); ("pid", 2);
   ("uid", 2); ("mux_id", 2)].
Definition smb_packet : layout :=
  smb_header.
Definition smb_simple_struct : layout :=
  [("wct", 1); ("bct", 2)].
Definition smb_nego_req : layout :=
  [("wct", 1); ("bct", 2)].
Definition SMB_NEGO_RESP_COMMON : layout :=
  [("wct", 1); ("dialect_index", 2); ("security_mode", 1); ("diplodocus", 4);
   ("max_bufsize", 4); ("max_rawbuffer", 4); ("session_key", 4); ("caps", 4);
   ("ts", 8); ("tz", 2); ("key_length", 1); ("bct", 2)].
Definition smb_nego_resp : layout :=
  SMB_NEGO_RESP_COMMON
  ++ [("challenge", 8)].
Definition smb_nego_xsec_resp : layout :=
  SMB_NEGO_RESP_COMMON
  ++ [("srv_guid", 16)].
Definition SMB_SESSION_REQ_COMMON : layout :=
  [("wct", 1)]
  ++ SMB_ANDX_MEMBERS
  ++ [("max_buffer", 2); ("mpx_count", 2); ("vc_count", 2); ("session_key", 4)].
Definition smb_session_req : layout :=
  SMB_SESSION_REQ_COMMON
  ++ [("oem_pass_len", 2); ("uni_pass_len", 2); ("reserved2", 4); ("caps", 4);
   ("payload_size", 2)].
Definition smb_session_xsec_req : layout :=
  SMB_SESSION_REQ_COMMON
  ++ [("xsec_blob_size", 2); ("reserved2", 4); ("caps", 4); ("payload_size", 2)].
Definition smb_session_resp : layout :=
  [("wct", 1)]
  ++ SMB_ANDX_MEMBERS
  ++ [("action", 2); ("bct", 2)].
Definition smb_session_xsec_resp : layout :=
  [("wct", 1)]
  ++ SMB_ANDX_MEMBERS
  ++ [("action", 2); ("xsec_blob_size", 2); ("payload_size", 2)].
Definition smb_tree_connect_req : layout :=
  [("wct", 1)]
  ++ SMB_ANDX_MEMBERS
  ++ [("flags", 2); ("passwd_len", 2); ("bct", 2)].
Definition smb_tree_connect_resp : layout :=
  [("wct", 1)]
  ++ SMB_ANDX_MEMBERS
  ++ [("opt_support", 2); ("bct", 2)].
Definition smb_tree_connect_respx : layout :=
  [("wct", 1)]
  ++ SMB_ANDX_MEMBERS
  ++ [("opt_support", 2); ("max_rights", 4); ("guest_rights", 4); ("bct", 2)].
Definition smb_tree_disconnect_req : layout :=
  smb_simple_struct.
Definition smb_tree_disconnect_resp : layout :=
  smb_simple_struct.
Definition smb_create_req : layout :=
  [("wct", 1)]
  ++ SMB_ANDX_MEMBERS
  ++ [("reserved2", 1); ("path_length", 2); ("flags", 4); ("root_fid", 4);
   ("access_mask", 4); ("alloc_size", 8); ("file_attr", 4); ("share_access", 4);
   ("disposition", 4); ("create_opts", 4); ("impersonation", 4);
   ("security_flags", 1); ("bct", 2)].
Definition smb_create_resp : layout :=
  [("wct", 1)]
  ++ SMB_ANDX_MEMBERS
  ++ [("oplock_level", 1); ("fid", 2); ("action", 4); ("created", 8);
   ("accessed", 8); ("written", 8); ("changed", 8); ("attr", 4);
   ("alloc_size", 8); ("size", 8); ("filetype", 2); ("ipc_state", 2);
   ("is_dir", 1); ("bct", 2)].
Definition smb_close_req : layout :=
  [("wct", 1); ("fid", 2); ("last_write", 4); ("bct", 2)].
Definition smb_read_req : layout :=
  [("wct", 1)]
  ++ SMB_ANDX_MEMBERS
  ++ [("fid", 2); ("offset", 4); ("max_count", 2); ("min_count", 2);
   ("max_count_high", 4); ("remaining", 2); ("offset_high", 4); ("bct", 2)].
Definition smb_read_resp : layout :=
  [("wct", 1)]
  ++ SMB_ANDX_MEMBERS
  ++ [("remaining", 2); ("compact_mode", 2); ("reserved", 2); ("data_len", 2);
   ("data_offset", 2); ("data_len_high", 4); ("reserved2", 4); ("reserved3", 2);
   ("bct", 2)].
Definition smb_write_req : layout :=
  [("wct", 1)]
  ++ SMB_ANDX_MEMBERS
  ++ [("fid", 2); ("offset", 4); ("timeout", 4); ("write_mode", 2); ("remaining", 2);
   ("reserved", 2); ("data_len", 2); ("data_offset", 2); ("offset_high", 4);
   ("bct", 2); ("padding", 1)].
Definition smb_write_resp : layout :=
  [("wct", 1)]
  ++ SMB_ANDX_MEMBERS
  ++ [("data_len", 2); ("available", 2); ("reserved", 4); ("bct", 2)].
Definition smb_file_rm_req : layout :=
  [("wct", 1); ("search_attributes", 2); ("bct", 2); ("buffer_format", 1)].
Definition smb_file_rm_resp : layout :=
  [("wct", 1); ("bct", 2)].
Definition smb_directory_rm_req : layout :=
  [("wct", 1); ("bct", 2); ("buffer_format", 1)].
Definition smb_directory_rm_resp : layout :=
  [("wct", 1); ("bct", 2)].
Definition smb_file_mv_req : layout :=
  [("wct", 1); ("search_attributes", 2); ("bct", 2)].
Definition smb_file_mv_resp : layout :=
  smb_simple_struct.
Definition smb_directory_mk_req : layout :=
  [("wct", 1); ("bct", 2); ("buffer_format", 1)].
Definition smb_directory_mk_resp : layout :=
  smb_simple_struct.
Definition smb_trans_req : layout :=
  [("wct", 1); ("total_param_count", 2); ("total_data_count", 2);
   ("max_param_count", 2); ("max_data_count", 2); ("max_setup_count", 1);
   ("reserved", 1); ("flags", 2); ("timeout", 4); ("reserved2", 2);
   ("param_count", 2); ("param_offset", 2); ("data_count", 2); ("data_offset", 2);
   ("setup_count", 1); ("reserved3", 1); ("pipe_function", 2); ("fid", 2);
   ("bct", 2)].
Definition smb_trans2_req : layout :=
  [("wct", 1); ("total_param_count", 2); ("total_data_count", 2);
   ("max_param_count", 2); ("max_data_count", 2); ("max_setup_count", 1);
   ("reserved", 1); ("flags", 2); ("timeout", 4); ("reserve2", 2);
   ("param_count", 2); ("param_offset", 2); ("data_count", 2); ("data_offset", 2);
   ("setup_count", 1); ("reserved3", 1); ("cmd", 2); ("bct", 2); ("padding", 3)].
Definition smb_tr2_findfirst2 : layout :=
  [("attrs", 2); ("count", 2); ("flags", 2); ("interest", 2); ("storage", 4)].
Definition smb_tr2_findnext2 : layout :=
  [("sid", 2); ("count", 2); ("interest", 2); ("resume_key", 4); ("flags", 2)].
Definition smb_tr2_query : layout :=
  [("interest", 2); ("reserved", 4)].
Definition smb_trans2_resp : layout :=
  [("wct", 1); ("total_param_count", 2); ("total_data_count", 2); ("reserved", 2);
   ("param_count", 2); ("param_offset", 2); ("param_displacement", 2);
   ("data_count", 2); ("data_offset", 2); ("data_displacement", 2);
   ("setup_count", 1); ("reserved2", 1); ("bct", 2); ("padding", 1)].
Definition smb_tr2_findfirst2_params : layout :=
  [("id", 2); ("count", 2); ("eos", 2); ("ea_error_offset", 2);
   ("last_name_offset", 2); ("padding", 2)].
Definition smb_tr2_findnext2_params : layout :=
  [("count", 2); ("eos", 2); ("ea_error_offset", 2); ("last_name_offset", 2)].
Definition smb_tr2_find2_entry : layout :=
  [("next_entry", 4); ("index", 4); ("created", 8); ("accessed", 8);
   ("written", 8); ("changed", 8); ("size", 8); ("alloc_size", 8); ("attr", 4);
   ("name_len", 4); ("ea_list_len", 4); ("short_name_len", 1); ("reserved", 1);
   ("short_name", 24)].
Definition smb_tr2_path_info : layout :=
  [("created", 8); ("accessed", 8); ("written", 8); ("changed", 8); ("attr", 4);
   ("reserved", 4); ("alloc_size", 8); ("size", 8); ("link_count", 4);
   ("rm_pending", 1); ("is_dir", 1); ("reserved2", 2); ("ea_list_len", 4);
   ("name_len", 4)].
Definition smb_example_t : layout :=
  [("wct", 1)]
  ++ SMB_ANDX_MEMBERS
  ++ [("bct", 2)].

(** Every structure of the header file. *)
Definition all_layouts : list layout := [
  SMB_ANDX_MEMBERS; smb_header; smb_packet;
  smb_simple_struct; smb_nego_req; SMB_NEGO_RESP_COMMON;
  smb_nego_resp; smb_nego_xsec_resp; SMB_SESSION_REQ_COMMON;
  smb_session_req; smb_session_xsec_req; smb_session_resp;
  smb_session_xsec_resp; smb_tree_connect_req; smb_tree_connect_resp;
  smb_tree_connect_respx; smb_tree_disconnect_req; smb_tree_disconnect_resp;
  smb_create_req; smb_create_resp; smb_close_req;
  smb_read_req; smb_read_resp; smb_write_req;
  smb_write_resp; smb_file_rm_req; smb_file_rm_resp;
  smb_directory_rm_req; smb_directory_rm_resp; smb_file_mv_req;
  smb_file_mv_resp; smb_directory_mk_req; smb_directory_mk_resp;
  smb_trans_req; smb_trans2_req; smb_tr2_findfirst2;
  smb_tr2_findnext2; smb_tr2_query; smb_trans2_resp;
  smb_tr2_findfirst2_params; smb_tr2_findnext2_params; smb_tr2_find2_entry;
  smb_tr2_path_info; smb_example_t].

(** * Well-formed layouts *)

(** Different names and positive widths. *)
Definition layout_ok (L : layout) : Prop :=
  NoDup (L.*1) /\ Forall (fun fw => 0 < fw.2) L.

#[global] Instance layout_ok_dec L : Decision (layout_ok L).
Proof. unfold layout_ok. apply _. Defined.

Lemma sizeof_nonneg L : Forall (fun fw => 0 < fw.2) L -> 0 <= sizeof L.
Proof. induction 1 as [|[f w] L Hw _ IH]; simpl in *; lia. Qed.

Lemma locate_bounds L f o w :
  Forall (fun fw => 0 < fw.2) L -> locate L f = Some (o, w) ->
  0 <= o /\ 0 < w /\ o + w <= sizeof L.
Proof.
  intros HL. revert o w. induction HL as [|[g v] L Hv HL IH]; intros o w; simpl in *; [done|].
  pose proof (sizeof_nonneg L HL). destruct (String.eqb f g); [intros [= <- <-]; lia|].
  destruct (locate L f) as [[o' w']|]; [|done]. intros [= <- <-].
  destruct (IH o' w' eq_refl). lia.
Qed.

(** Two fields of a structure do not overlap. *)
Lemma locate_disjoint L f g o w o' w' :
  Forall (fun fw => 0 < fw.2) L -> f <> g ->
  locate L f = Some (o, w) -> locate L g = Some (o', w') -> o + w <= o' \/ o' + w' <= o.
Proof.
  intros HL Hne. revert o w o' w'. induction HL as [|[h v] L Hv HL IH]; intros o w o' w'; simpl in *; [done|].
  destruct (String.eqb_spec f h) as [->|Hf], (String.eqb_spec g h) as [->|Hg]; try done.
  - intros [= <- <-]. destruct (locate L g) as [[o2 w2]|] eqn:E; [|done]. intros [= <- <-].
    destruct (locate_bounds _ _ _ _ HL E). lia.
  - destruct (locate L f) as [[o1 w1]|] eqn:E; [|done]. intros [= <- <-] [= <- <-].
    destruct (locate_bounds _ _ _ _ HL E). lia.
  - destruct (locate L f) as [[o1 w1]|], (locate L g) as [[o2 w2]|]; try done.
    intros [= <- <-] [= <- <-]. destruct (IH o1 w1 o2 w2); auto; lia.
Qed.

Lemma set_field_is_Some L b base f v :
  layout_ok L -> is_Some (locate L f) -> 0 <= base -> base + sizeof L <= zlen b ->
  exists b', set_field L b base f v = Some b' /\ zlen b' = zlen b.
Proof.
  intros [_ HL] [[o w] E] Hb Hl. unfold set_field. rewrite E. cbn [mbind option_bind].
  destruct (locate_bounds _ _ _ _ HL E) as (? & ? & ?).
  destruct (proj2 (put_is_Some b (base + o) (le_bytes (Z.to_nat w) v))) as [b' H']; [len|].
  exists b'. split; [done|]. by eapply length_put.
Qed.

Lemma field_set_eq L b base f v b' o w :
  locate L f = Some (o, w) -> 0 <= w -> set_field L b base f v = Some b' ->
  field L b' base f = Some (v `mod` 256 ^ w).
Proof.
  intros E Hw. unfold set_field, field, get_word. rewrite E. cbn [mbind option_bind].
  intros H%sub_put_eq. unfold zlen in H. rewrite length_le_bytes in H. rewrite H.
  cbn. rewrite le_word_bytes, Z2Nat.id by lia. done.
Qed.

Lemma field_set_ne L b base f g v b' :
  layout_ok L -> f <> g -> set_field L b base f v = Some b' ->
  field L b' base g = field L b base g.
Proof.
  intros [_ HL] Hne. unfold set_field, field, get_word.
  destruct (locate L f) as [[o w]|] eqn:E; [|done]. cbn [mbind option_bind]. intros H.
  destruct (locate L g) as [[o' w']|] eqn:E'; [|done]. cbn [mbind option_bind]. f_equal.
  eapply sub_put_ne; [exact H|].
  destruct (locate_bounds _ _ _ _ HL E) as (_ & ? & _), (locate_bounds _ _ _ _ HL E') as (_ & ? & _).
  destruct (locate_disjoint _ _ _ _ _ _ _ HL Hne E E'); unfold zlen; rewrite length_le_bytes; lia.
Qed.

(** Bytes outside the structure are not touched. *)
Lemma set_field_outside L b base f v b' o n :
  layout_ok L -> set_field L b base f v = Some b' ->
  (o + n <= base \/ base + sizeof L <= o) -> sub b' o n = sub b o n.
Proof.
  intros [_ HL]. unfold set_field. destruct (locate L f) as [[p w]|] eqn:E; [|done].
  cbn [mbind option_bind]. intros H Hd. eapply sub_put_ne; [exact H|].
  destruct (locate_bounds _ _ _ _ HL E). unfold zlen. rewrite length_le_bytes. lia.
Qed.

Lemma field_weaken L b rest base f v : field L b base f = Some v -> field L (b ++ rest) base f = Some v.
Proof.
  unfold field. destruct (locate L f) as [[o w]|]; [|done]. cbn. unfold get_word.
  destruct (sub b _ _) as [x|] eqn:Ex; [|done]. by rewrite (sub_weaken _ rest _ _ _ Ex).
Qed.

(** ** A structure from the values of its fields *)

(** 0 for a field that is not listed. *)
Fixpoint value (l : list (string * Z)) (f : string) : Z :=
  match l with [] => 0 | (g, v) :: l => if String.eqb f g then v else value l f end.

Fixpoint pack (L : layout) (l : list (string * Z)) : bytes :=
  match L with [] => [] | (f, w) :: L => le_bytes (Z.to_nat w) (value l f) ++ pack L l end.

Lemma length_pack L l : Forall (fun fw => 0 < fw.2) L -> zlen (pack L l) = sizeof L.
Proof. induction 1 as [|[f w] L Hw _ IH]; cbn [pack sizeof fst snd] in *; [done|]. len. Qed.

Lemma pack_ok L l : bytes_ok (pack L l).
Proof. induction L as [|[f w] L IH]; cbn [pack]; auto with dsm. Qed.

Lemma field_pack L l pre rest base f o w :
  Forall (fun fw => 0 < fw.2) L -> locate L f = Some (o, w) -> base = zlen pre -> 0 <= value l f < 256 ^ w ->
  field L (pre ++ pack L l ++ rest) base f = Some (value l f).
Proof.
  intros HL Hf -> Hv. unfold field. rewrite Hf. cbn. revert pre o Hf.
  induction HL as [|[g v] L Hg _ IH]; intros pre o; cbn [locate pack snd] in *; [done|].
  destruct (String.eqb_spec f g) as [->|].
  - intros [= <- ->]. rewrite Z.add_0_r. unfold get_word. rewrite <- app_assoc, sub_app by len. cbn. f_equal.
    rewrite le_word_bytes_small; [done|]. rewrite Z2Nat.id by lia. done.
  - destruct (locate L f) as [[o1 w1]|]; [|done]. intros [= <- ->].
    rewrite <- app_assoc, app_assoc. rewrite <- (IH (pre ++ le_bytes (Z.to_nat v) (value l g)) o1 eq_refl).
    f_equal. len.
Qed.

Lemma layouts_ok : Forall layout_ok all_layouts.
Proof. decided. Qed.

(** The packed structures behave as records of machine words, in every
    structure of smb_packets.h, at any place of any buffer large enough:
    storing a field succeeds, is read back modulo the width of the field,
    leaves every other field of the structure, every byte outside it and the
    size of the buffer as they were. *)
Theorem packed_fields_correct L b base f v o w :
  L ∈ all_layouts -> locate L f = Some (o, w) -> 0 <= base -> base + sizeof L <= zlen b ->
  exists b', set_field L b base f v = Some b' /\ zlen b' = zlen b
    /\ field L b' base f = Some (v `mod` 256 ^ w)
    /\ (forall g, g <> f -> field L b' base g = field L b base g)
    /\ (forall p n, p + n <= base \/ base + sizeof L <= p -> sub b' p n = sub b p n).
Proof.
  intros HL E Hb Hl. pose proof (proj1 (Forall_forall _ _) layouts_ok L HL) as Hok.
  destruct (set_field_is_Some L b base f v Hok ltac:(by rewrite E) Hb Hl) as (b' & H & Hlen).
  exists b'. split_and!; auto.
  - eapply field_set_eq; [exact E| |exact H]. destruct Hok as [_ HF].
    destruct (locate_bounds _ _ _ _ HF E). lia.
  - intros g Hg. by eapply field_set_ne.
  - intros p n Hd. by eapply set_field_outside.
Qed.

Lemma packed_fields_correct_witness :
  exists b', set_field smb_read_req (replicate 40 7) 3 "max_count_high" 0x12345 = Some b'
    /\ zlen b' = zlen (replicate 40 7)
    /\ field smb_read_req b' 3 "max_count_high" = Some (0x12345 `mod` 256 ^ 4)
    /\ (forall g, g <> "max_count_high" ->
         field smb_read_req b' 3 g = field smb_read_req (replicate 40 7) 3 g)
    /\ (forall p n, p + n <= 3 \/ 3 + sizeof smb_read_req <= p ->
         sub b' p n = sub (replicate 40 7) p n).
Proof.
  apply (packed_fields_correct smb_read_req (replicate 40 7) 3 "max_count_high" 0x12345 15 4);
    [decided|reflexivity|lia|vm_compute; done].
Defined.

(** The sizes the code uses as [sizeof]. *)
Example sizes :
  map sizeof [smb_header; smb_session_req; smb_session_xsec_req; smb_create_req; smb_create_resp;
              smb_read_req; smb_read_resp; smb_write_req; smb_trans_req; smb_trans2_req;
              smb_trans2_resp; smb_tr2_find2_entry; smb_tr2_path_info]
  = [32; 29; 27; 51; 71; 27; 27; 32; 35; 36; 24; 94; 72].
Proof. reflexivity. Qed.

End SmbPackets.
