(* ===== verification/SmbMessage.v ===== *)
(** SMB messages under construction: src/smb_message.c.

    A message owns one block: the 32 bytes of the header ([smb_packet]) and
    [payload_size] bytes of payload, of which [cursor] are written. *)

From stdpp Require Import strings.
From S2P Require Import Prelude World SmbPackets SmbBuffer.

Module SmbMessage.
Import SmbPackets SmbUtils.
Local Open Scope string_scope.
Local Open Scope list_scope.
Local Open Scope Z_scope.

Definition PAYLOAD_BLOCK_SIZE : Z := 256.
Definition sizeof_smb_packet : Z := 32.
(** SMB_MAGIC *)
Definition magic : bytes := [0xff; 0x53; 0x4d; 0x42].

Record smb_message := Message {
  payload_size : Z;
  cursor : Z;
  packet : option bytes                (* None is NULL *)
}.

(** 1 or 0; [size_t] arithmetic throughout. *)
Definition smb_message_expand_payload (msg : smb_message) (cur data_size : Z)
    : io (Z * smb_message) :=
  if (data_size =? 0) || (u64 (payload_size msg - cur) <? data_size)
  then
    let new_size := u64 (data_size + cur - payload_size msg) in
    let nb_blocks := new_size `div` PAYLOAD_BLOCK_SIZE + 1 in
    let new_payload_size := u64 (payload_size msg + nb_blocks * PAYLOAD_BLOCK_SIZE) in
    new_packet ← realloc (default [] (packet msg)) (u64 (sizeof_smb_packet + new_payload_size));
    match new_packet with
    | None => mret (0, msg)
    | Some p => mret (1, Message new_payload_size (cursor msg) (Some p))
    end
  else mret (1, msg).

Definition smb_message_new (cmd : Z) : io (option smb_message) :=
  ok ← flip;
  if negb ok then mret None
  else
    let msg := Message 0 0 None in
    '(r, msg) ← smb_message_expand_payload msg (cursor msg) 0;
    if r =? 0 then mret None
    else
      p ← access (packet msg);
      p ← access (put p 0 (replicate 32 0));
      p ← access (put p 0 magic);
      pid ← pick;
      p ← access (set_fields smb_header p 0 [("command", cmd); ("pid", pid)]);
      mret (Some (Message (payload_size msg) (cursor msg) (Some p))).

Definition smb_message_grow (msg : option smb_message) (size : Z) : io (option smb_message) :=
  match msg with
  | None => mret None
  | Some msg =>
      match packet msg with
      | None => mret None
      | Some p =>
          ok ← flip;
          if negb ok then mret None
          else
            let n := u64 (payload_size msg + size) in
            q ← malloc (u64 (sizeof_smb_packet + n));
            match q with
            | None => mret None
            | Some q =>
                src ← access (sub p 0 (payload_size msg + sizeof_smb_packet));
                q ← access (put q 0 src);
                mret (Some (Message n (cursor msg) (Some q)))
            end
      end
  end.

(** -1 for a NULL argument, 0 without memory, 1. *)
Definition smb_message_append (msg : smb_message) (data : option bytes) (data_size : Z)
    : io (Z * smb_message) :=
  match data with
  | None => mret (-1, msg)
  | Some data =>
      '(r, msg) ← smb_message_expand_payload msg (cursor msg) data_size;
      if r =? 0 then mret (0, msg)
      else
        p ← access (packet msg);
        d ← access (sub data 0 data_size);
        p ← access (put p (32 + cursor msg) d);
        mret (1, Message (payload_size msg) (u64 (cursor msg + data_size)) (Some p))
  end.

Definition smb_message_insert (msg : smb_message) (cur : Z) (data : option bytes) (data_size : Z)
    : io (Z * smb_message) :=
  match data with
  | None => mret (-1, msg)
  | Some data =>
      '(r, msg) ← smb_message_expand_payload msg cur data_size;
      if r =? 0 then mret (0, msg)
      else
        p ← access (packet msg);
        d ← access (sub data 0 data_size);
        p ← access (put p (32 + cur) d);
        mret (1, Message (payload_size msg) (cursor msg) (Some p))
  end.

Definition smb_message_advance (msg : smb_message) (size : Z) : io (Z * smb_message) :=
  '(r, msg) ← smb_message_expand_payload msg (cursor msg) size;
  if r =? 0 then mret (0, msg)
  else mret (1, Message (payload_size msg) (u64 (cursor msg + size)) (packet msg)).

Definition smb_message_put8 (msg : smb_message) (v : Z) :=
  smb_message_append msg (Some (le_bytes 1 v)) 1.
Definition smb_message_put16 (msg : smb_message) (v : Z) :=
  smb_message_append msg (Some (le_bytes 2 v)) 2.
Definition smb_message_put32 (msg : smb_message) (v : Z) :=
  smb_message_append msg (Some (le_bytes 4 v)) 4.
Definition smb_message_put64 (msg : smb_message) (v : Z) :=
  smb_message_append msg (Some (le_bytes 8 v)) 8.

Definition smb_message_put_utf16 `{Iconv} (msg : smb_message) (str : bytes) (str_len : Z)
    : io (Z * smb_message) :=
  '(utf_str_len, utf_str) ← smb_to_utf16 str str_len;
  '(res, msg) ← smb_message_append msg utf_str utf_str_len;
  if negb (res =? 0) then mret (utf_str_len, msg) else mret (0, msg).

(** The loop over the 8 bytes of the last part. *)
Fixpoint put_bytes (msg : smb_message) (d : bytes) : io (Z * smb_message) :=
  match d with
  | [] => mret (1, msg)
  | b :: d =>
      '(r, msg) ← smb_message_put8 msg b;
      if r =? 0 then mret (0, msg) else put_bytes msg d
  end.

Definition smb_message_put_uuid (msg : smb_message) (a b c : Z) (d : bytes)
    : io (Z * smb_message) :=
  '(r, msg) ← smb_message_put32 msg a;
  if r =? 0 then mret (0, msg)
  else
    '(r, msg) ← smb_message_put16 msg b;
    if r =? 0 then mret (0, msg)
    else
      '(r, msg) ← smb_message_put16 msg c;
      if r =? 0 then mret (0, msg)
      else d ← access (sub d 0 8); put_bytes msg d.

(** [flags] of the header is read and written as a [uint32_t]. *)
Definition smb_message_flag (msg : smb_message) (flag : Z) (value : bool) : outcome smb_message :=
  match packet msg with
  | None => Done msg
  | Some p =>
      let* (o, _) := checked (locate smb_header "flags") in
      let* flags := checked (get32 p o) in
      let flag := Z.land flag 0x00ffffff in
      let flags := if value then Z.lor flags flag else Z.land flags (u32 (Z.lnot flag)) in
      let* p := checked (put p o (le_bytes 4 flags)) in
      Done (Message (payload_size msg) (cursor msg) (Some p))
  end.

Definition smb_message_set_andx_members (msg : smb_message) : outcome smb_message :=
  let* p := checked (packet msg) in
  let* p := checked (set_fields smb_session_req p 32
                       [("andx", 0xff); ("andx_reserved", 0); ("andx_offset", 0)]) in
  Done (Message (payload_size msg) (cursor msg) (Some p)).

(** * Invariant *)

(** [hd] is the header, [written] the payload so far. *)
Definition message (m : smb_message) (hd written : bytes) : Prop :=
  exists post, packet m = Some (hd ++ written ++ post) /\ length hd = 32%nat
    /\ cursor m = zlen written /\ payload_size m = zlen written + zlen post
    /\ payload_size m < 9223372036854775808.

(** The space behind the cursor, with nothing or something to store. *)
Lemma new_size_arith p c n :
  0 <= c <= p -> p < 9223372036854775808 -> 0 <= n -> c + n < 4611686018427387904 ->
  n = 0 \/ p - c < n ->
  let new_size := u64 (n + c - p) in
  let p' := u64 (p + (new_size `div` 256 + 1) * 256) in
  c + n <= p' < 9223372036854775808 /\ (n = 0 -> c < p') /\ u64 (32 + p') = 32 + p'
  /\ (0 < n -> p <= p').
Proof. intros Hc Hp Hn Hm Hcase new_size p'. subst new_size p'. widths. zdiv. Qed.

(** Growing (or trimming) the payload keeps what was written below [cur]. *)
Lemma expand_run m hd body post cur n w :
  packet m = Some (hd ++ body ++ post) -> length hd = 32%nat -> cur = zlen body ->
  payload_size m = zlen body + zlen post -> payload_size m < 9223372036854775808 ->
  0 <= n -> zlen body + n < 4611686018427387904 ->
  exists r m' w', smb_message_expand_payload m cur n w = Done ((r, m'), w') /\ later w w'
    /\ cursor m' = cursor m
    /\ ((r = 0 /\ m' = m /\ w_coin w (w_tick w) = false)
        \/ (r = 1 /\ exists post', packet m' = Some (hd ++ body ++ post')
            /\ payload_size m' = zlen body + zlen post'
            /\ payload_size m' < 9223372036854775808 /\ n <= zlen post'
            /\ (0 < n -> payload_size m <= payload_size m'))).
Proof.
  intros Hp Hh -> Hs Hm Hn Hmax. unfold smb_message_expand_payload.
  assert (H0 : 0 <= zlen body /\ 0 <= zlen post) by (unfold zlen; lia).
  rewrite (u64_small (payload_size m - zlen body)) by lia.
  destruct ((n =? 0) || (payload_size m - zlen body <? n)) eqn:E.
  - assert (Hcase : n = 0 \/ payload_size m - zlen body < n).
    { apply orb_true_iff in E. rewrite Z.eqb_eq, Z.ltb_lt in E. done. }
    destruct (new_size_arith (payload_size m) (zlen body) n ltac:(lia) Hm Hn Hmax Hcase)
      as (Ha & _ & Hd & Hk).
    cbv zeta. unfold PAYLOAD_BLOCK_SIZE, sizeof_smb_packet.
    set (p' := u64 (payload_size m + _)) in *. rewrite Hd, Hp. cbn [default id].
    rewrite app_assoc. destruct (realloc_keeps (hd ++ body) post (32 + p') w) as (post' & w' & R & Hl & L).
    { len. }
    rewrite (bind_Done _ _ _ _ _ R). exists (if w_coin w (w_tick w) then 1 else 0).
    replace (zlen (hd ++ body)) with (32 + zlen body) in Hl by len.
    destruct (w_coin w (w_tick w)); do 2 eexists; (split; [reflexivity|]); (split; [done|]);
      (split; [done|]); [right|left; auto].
    split; [done|]. exists post'. cbn [packet payload_size]. rewrite <- app_assoc.
    split_and!; auto; lia.
  - apply orb_false_iff in E as [_ E%Z.ltb_ge]. exists 1, m, w. split; [done|].
    split; [apply later_refl|]. split; [done|]. right. split; [done|]. exists post.
    split_and!; auto; lia.
Qed.

Lemma append_run m hd written data w :
  message m hd written -> zlen written + zlen data < 4611686018427387904 ->
  exists r m' w', smb_message_append m (Some data) (zlen data) w = Done ((r, m'), w')
    /\ later w w'
    /\ ((r = 0 /\ m' = m /\ w_coin w (w_tick w) = false)
        \/ (r = 1 /\ message m' hd (written ++ data))).
Proof.
  intros (post & Hp & Hh & Hc & Hs & Hm) Hmax. unfold smb_message_append.
  destruct (expand_run m hd written post (cursor m) (zlen data) w)
    as (r & m' & w' & E & L & Hcur & H); auto; [unfold zlen; lia|].
  rewrite (bind_Done _ _ _ _ _ E). exists r.
  destruct H as [(-> & -> & Hcoin)|(-> & post' & Hp' & Hs' & Hm' & Hl' & _)]; cbn [Z.eqb].
  { do 2 eexists. split; [reflexivity|]. auto. }
  rewrite (bind_Done _ _ _ _ _ (access_Done _ _ _ Hp')).
  rewrite (bind_Done _ _ _ data w') by (by apply access_Done, sub_all).
  rewrite Hcur, Hc. set (rest := drop (length data) post').
  assert (Hput : put (hd ++ written ++ post') (32 + zlen written) data
                 = Some ((hd ++ written) ++ data ++ rest)).
  { rewrite <- (take_drop (length data) post'), app_assoc. fold rest. apply put_app; [len|].
    rewrite length_take. unfold zlen in *. lia. }
  rewrite (bind_Done _ _ _ _ _ (access_Done _ _ _ Hput)).
  do 2 eexists. split; [reflexivity|]. split; [done|]. right. split; [done|].
  exists rest. cbn [packet cursor payload_size]. rewrite <- !app_assoc.
  rewrite u64_small by (unfold zlen in *; lia).
  unfold rest. split_and!; auto; len.
Qed.

(** What fits in the block is appended without an allocation. *)
Lemma append_fits m hd written data n d w :
  message m hd written -> sub data 0 n = Some d -> 0 < n -> zlen written + n <= payload_size m ->
  exists m', smb_message_append m (Some data) n w = Done ((1, m'), w)
    /\ message m' hd (written ++ d) /\ payload_size m' = payload_size m.
Proof.
  intros (post & Hp & Hh & Hc & Hs & Hm) Hsub Hn Hfit. pose proof (length_sub _ _ _ _ Hsub) as Hd.
  unfold smb_message_append, smb_message_expand_payload.
  assert (Hz : 0 <= zlen written) by (unfold zlen; lia).
  rewrite (proj2 (Z.eqb_neq n 0)), Hc, u64_small, (proj2 (Z.ltb_ge _ _)) by lia. cbn [orb].
  unfold mbind at 1, io_bind at 1. cbn [mret io_ret obind]. unfold mret at 1, io_ret at 1. cbn [obind].
  change (1 =? 0) with false. cbv iota.
  rewrite (bind_Done _ _ _ _ _ (access_Done _ _ _ Hp)), (bind_Done _ _ _ _ _ (access_Done _ _ _ Hsub)), Hc.
  set (rest := drop (length d) post).
  assert (Hput : put (hd ++ written ++ post) (32 + zlen written) d = Some ((hd ++ written) ++ d ++ rest)).
  { rewrite <- (take_drop (length d) post), app_assoc. fold rest. apply put_app; [len|].
    rewrite length_take. unfold zlen in *. lia. }
  rewrite (bind_Done _ _ _ _ _ (access_Done _ _ _ Hput)). eexists. split; [reflexivity|]. split; [|done].
  exists rest. cbn [packet cursor payload_size]. rewrite <- !app_assoc, u64_small by (unfold zlen in *; lia).
  unfold rest. split_and!; auto; len.
Qed.

(** The header of a message under construction. *)
Definition new_header (cmd pid tid flags2 : Z) : bytes :=
  magic ++ le_bytes 1 cmd ++ replicate 5 0 ++ le_bytes 2 flags2 ++ replicate 12 0
  ++ le_bytes 2 tid ++ le_bytes 2 pid ++ replicate 4 0.

Lemma put_prefix hd hd' rest off src :
  put hd off src = Some hd' -> put (hd ++ rest) off src = Some (hd' ++ rest).
Proof.
  intros (H0 & Hl & ->)%put_inv. rewrite put_Some by len. f_equal. unfold zlen in *.
  rewrite take_app_le by lia. rewrite drop_app_le by lia. by rewrite <- !app_assoc.
Qed.

(** Fields of a structure at the start of a block. *)
Lemma set_fields_prefix L hd hd' rest l :
  set_fields L hd 0 l = Some hd' -> set_fields L (hd ++ rest) 0 l = Some (hd' ++ rest).
Proof.
  revert hd. induction l as [|[f v] l IH]; intros hd; cbn [set_fields]; [by intros [= ->]|].
  unfold set_field. destruct (locate L f) as [[o n]|]; [|done]. cbn [mbind option_bind].
  destruct (put hd (0 + o) _) as [hd1|] eqn:E; [|done]. cbn [mbind option_bind].
  rewrite (put_prefix _ _ _ _ _ E). cbn [mbind option_bind]. apply IH.
Qed.

(** The same behind the header. *)
Lemma put_suffix hd post post' off src :
  0 <= off -> put post off src = Some post' -> put (hd ++ post) (zlen hd + off) src = Some (hd ++ post').
Proof.
  intros H0 (_ & Hle & ->)%put_inv. rewrite put_Some by len. f_equal. unfold zlen in *.
  rewrite take_app_ge, drop_app_ge by lia. rewrite <- app_assoc. do 2 f_equal; [f_equal; lia|].
  do 2 f_equal. lia.
Qed.

Lemma set_fields_suffix L hd post post' l :
  Forall (fun fw => 0 < fw.2) L -> set_fields L post 0 l = Some post' ->
  set_fields L (hd ++ post) (zlen hd) l = Some (hd ++ post').
Proof.
  intros HL. revert post. induction l as [|[f v] l IH]; intros post; cbn [set_fields]; [by intros [= ->]|].
  unfold set_field. destruct (locate L f) as [[o n]|] eqn:El; [|done]. cbn [mbind option_bind].
  destruct (locate_bounds _ _ _ _ HL El) as (Ho & _). rewrite Z.add_0_l.
  destruct (put post o _) as [post1|] eqn:E; [|done]. cbn [mbind option_bind].
  rewrite (put_suffix _ _ _ _ _ Ho E). cbn [mbind option_bind]. apply IH.
Qed.

Lemma message_new_wp cmd w :
  wp (smb_message_new cmd) (fun o w' => later w w'
    /\ match o with None => ~ lucky w
       | Some m => exists pid, message m (new_header cmd pid 0 0) [] /\ payload_size m = 256 end) w.
Proof.
  apply wp_bind. unfold flip, wpf at 1. destruct (w_coin w (w_tick w)) eqn:Ec; cbn [negb].
  2: { apply wp_ret. split; [by exists 1%nat|]. intros Hl. by rewrite Hl in Ec. }
  set (w1 := set_tick w (S (w_tick w))). apply wp_bind. unfold smb_message_expand_payload.
  cbn [payload_size packet cursor orb Z.eqb default]. apply wp_bind.
  change (u64 (sizeof_smb_packet + _)) with 288.
  destruct (realloc_keeps [] [] 288 w1) as (post & w2 & R & Hl & L2); [done|].
  eapply wp_Done; [exact R|]. assert (L : later w w2) by (by apply later_step).
  destruct (w_coin w1 (w_tick w1)) eqn:Ec1; apply wp_ret; cbn [Z.eqb].
  2: { apply wp_ret. split; [done|]. intros Hw. change (w_coin w1) with (w_coin w) in Ec1. by rewrite Hw in Ec1. }
  cbn [packet payload_size cursor app]. change (zlen []) with 0 in Hl. rewrite Z.sub_0_r in Hl.
  change ([] ++ post) with post. rewrite <- (take_drop 32 post). set (pl := drop 32 post).
  assert (Hpl : zlen pl = 256) by (unfold pl; len).
  apply wp_bind, (wp_access _ _ (take 32 post ++ pl)); [done|].
  apply wp_bind, (wp_access _ _ (replicate 32 0 ++ pl)); [apply (put_app [] (take 32 post) pl); [done|len]|].
  apply wp_bind, (wp_access _ _ ((magic ++ replicate 28 0) ++ pl)); [by apply put_prefix|].
  apply wp_bind. unfold pick, wpf at 1. set (pid := w_pick w2 (w_tick w2)). apply wp_bind.
  eapply wp_access.
  { apply (set_fields_prefix _ _ (new_header cmd pid 0 0)). reflexivity. }
  apply wp_ret. split; [destruct L as [n ->]; by exists (S n)|]. exists pid. split; [|done]. exists pl.
  split; [done|]. change (zlen []) with 0. cbn [payload_size cursor]. split_and!; try done; lia.
Qed.

Lemma new_run cmd w r w' :
  smb_message_new cmd w = Done (Some r, w') ->
  exists hd, message r hd [] /\ take 5 hd = magic ++ [cmd `mod` 256].
Proof.
  intros E. destruct (wp_elim _ _ _ (message_new_wp cmd w)) as [_ H].
  destruct (H _ _ E) as [_ (pid & Hm & _)]. eexists. split; [exact Hm|done].
Qed.

(** ** Sequences of appends *)

(** The values are put one after the other until one cannot be. *)
Fixpoint append_all (m : smb_message) (chunks : list bytes) : io (Z * smb_message) :=
  match chunks with
  | [] => mret (1, m)
  | d :: chunks =>
      '(r, m) ← smb_message_append m (Some d) (zlen d);
      if r =? 0 then mret (0, m) else append_all m chunks
  end.

Lemma append_all_run m hd written chunks w :
  message m hd written -> zlen written + zlen (concat chunks) < 4611686018427387904 ->
  exists r m' w', append_all m chunks w = Done ((r, m'), w') /\ later w w'
    /\ exists sent, message m' hd (written ++ concat sent) /\ sent `prefix_of` chunks
       /\ (r = 1 /\ sent = chunks \/ r = 0 /\ sent <> chunks /\ ~ lucky w).
Proof.
  revert m written w. induction chunks as [|d chunks IH]; intros m written w Hm Hmax; cbn [append_all].
  { exists 1, m, w. split; [done|]. split; [apply later_refl|]. exists [].
    rewrite app_nil_r. auto. }
  cbn [concat] in Hmax. assert (Hs : zlen (d ++ concat chunks) = zlen d + zlen (concat chunks)) by len.
  rewrite Hs in Hmax. assert (Hcc : 0 <= zlen (concat chunks)) by (unfold zlen; lia).
  destruct (append_run m hd written d w Hm) as (r & m1 & w1 & E & L & H); [lia|].
  rewrite (bind_Done _ _ _ _ _ E). destruct H as [(-> & -> & Hc)|(-> & Hm1)]; cbn [Z.eqb].
  - exists 0, m, w1. split; [done|]. split; [done|]. exists []. cbn. rewrite app_nil_r.
    split; [done|]. split; [apply prefix_nil|]. right. split_and!; auto. intros Hl. by rewrite Hl in Hc.
  - destruct (IH m1 (written ++ d) w1 Hm1) as (r & m2 & w2 & E2 & L2 & sent & H2 & Hp & Hr); [len|].
    exists r, m2, w2. split; [done|]. split; [by eapply later_trans|]. exists (d :: sent). cbn.
    rewrite app_assoc. split; [done|]. split; [by apply prefix_cons|].
    destruct Hr as [[-> ->]|(-> & Hne & Hl)]; [by left|]. right. split_and!; auto; [congruence|].
    intros Hw. apply Hl. by eapply later_lucky.
Qed.

(** A message is the concatenation of what is appended to it: starting
    from any message, any sequence of appends (of any sizes, the empty one
    included, whatever reallocations they cause) stays inside the block, keeps
    the header, and leaves the payload extended by exactly the values that
    were put, in order. It stops early, with 0 and the message still
    well-formed, only when an allocation fails. *)
Theorem message_append_all m hd written chunks w :
  message m hd written -> zlen written + zlen (concat chunks) < 4611686018427387904 ->
  exists r m' w', append_all m chunks w = Done ((r, m'), w')
    /\ exists sent, message m' hd (written ++ concat sent) /\ sent `prefix_of` chunks
       /\ (r = 1 /\ sent = chunks \/ r = 0 /\ sent <> chunks /\ ~ lucky w).
Proof.
  intros Hm Hmax. destruct (append_all_run m hd written chunks w Hm Hmax)
    as (r & m' & w' & E & _ & H). eauto.
Qed.

Definition message0 : smb_message := Message 2 1 (Some (replicate 32 9 ++ [1; 7])).

Lemma message_append_all_witness :
  exists r m' w', append_all message0 [[2]; []; [3; 4]]
      (World (fun _ => true) (fun _ => 0) (fun _ _ => 5) 0 [] false [] []) = Done ((r, m'), w')
    /\ exists sent, message m' (replicate 32 9) ([1] ++ concat sent)
       /\ sent `prefix_of` [[2]; []; [3; 4]]
       /\ (r = 1 /\ sent = [[2]; []; [3; 4]] \/ r = 0 /\ sent <> [[2]; []; [3; 4]]
           /\ ~ lucky (World (fun _ => true) (fun _ => 0) (fun _ _ => 5) 0 [] false [] [])).
Proof.
  apply (message_append_all message0 (replicate 32 9) [1] [[2]; []; [3; 4]]
    (World (fun _ => true) (fun _ => 0) (fun _ _ => 5) 0 [] false [] [])).
  - exists [7]. split_and!; vm_compute; done.
  - vm_compute; done.
Defined.

(** [smb_message_new] gives a message with an empty payload whose header
    starts with the SMB signature and the command, or NULL. *)
Theorem message_new_correct cmd w r w' :
  smb_message_new cmd w = Done (Some r, w') ->
  exists hd, message r hd [] /\ take 5 hd = magic ++ [cmd `mod` 256].
Proof. apply new_run. Qed.

Lemma message_new_correct_witness :
  exists r w', smb_message_new 0x72 (World (fun _ => true) (fun _ => 77) (fun _ _ => 5) 0 [] false [] [])
      = Done (Some r, w')
  /\ exists hd, message r hd [] /\ take 5 hd = magic ++ [0x72 `mod` 256].
Proof.
  do 2 eexists. split; [vm_compute; reflexivity|].
  eapply (message_new_correct 0x72 (World (fun _ => true) (fun _ => 77) (fun _ _ => 5) 0 [] false [] [])).
  vm_compute. reflexivity.
Defined.

End SmbMessage.
