(* ===== verification/SmbFd.v ===== *)
(** The tables of shares and open files: src/smb_fd.c, src/smb_stat.c and the
    descriptor macros of src/smb_session.h.

    The tables are linked lists of heap nodes. The heap is modelled: a pointer
    is a number, 0 is NULL, the nodes live in finite maps. The walks of the
    code follow the [next] pointers; on a list that is not cyclic they end, on
    another one they would not (then the model gives [Blocked]: the bound is
    the number of nodes in the heap). *)

From stdpp Require Import gmap.
From S2P Require Import Prelude.

Module SmbFd.

(** * Descriptors *)

(** SMB_FD, SMB_FD_TID, SMB_FD_FID *)
Definition SMB_FD (tid fid : Z) : Z := Z.lor (u32 (Z.shiftl tid 16)) fid.
Definition SMB_FD_TID (fd : Z) : Z := u16 (Z.shiftr fd 16).
Definition SMB_FD_FID (fd : Z) : Z := u16 (Z.land fd 0x0000ffff).

(** * Nodes *)

Record smb_file := File {
  f_next : Z;
  f_name : option bytes;
  f_fid : Z;
  f_tid : Z;
  f_name_len : Z;
  f_created : Z; f_accessed : Z; f_written : Z; f_changed : Z;
  f_alloc_size : Z;
  f_size : Z;
  f_attr : Z;
  f_offset : Z;
  f_is_dir : Z
}.

Record smb_share := Share {
  s_next : Z;
  s_files : Z;
  s_tid : Z;
  s_opts : Z; s_rights : Z; s_guest_rights : Z
}.

Definition file_set_next (f : smb_file) (n : Z) : smb_file :=
  File n (f_name f) (f_fid f) (f_tid f) (f_name_len f) (f_created f) (f_accessed f)
    (f_written f) (f_changed f) (f_alloc_size f) (f_size f) (f_attr f) (f_offset f) (f_is_dir f).
Definition share_set_next (s : smb_share) (n : Z) : smb_share :=
  Share n (s_files s) (s_tid s) (s_opts s) (s_rights s) (s_guest_rights s).
Definition share_set_files (s : smb_share) (p : Z) : smb_share :=
  Share (s_next s) p (s_tid s) (s_opts s) (s_rights s) (s_guest_rights s).

(** The heap with the head pointer [s->shares] of the session. *)
Record tables := Tables {
  shares : Z;
  share_heap : gmap Z smb_share;
  file_heap : gmap Z smb_file
}.

(** * Singly linked lists *)

Section Chains.
Context {node : Type} (next : node -> Z) (set_next : node -> Z -> node).

(** [while (iter->next != NULL && !found(iter->next)) iter = iter->next;] *)
Fixpoint walk_before (fuel : nat) (h : gmap Z node) (found : node -> bool) (iter : Z)
    : outcome Z :=
  match fuel with
  | O => Blocked
  | S fuel =>
      let* n := checked (h !! iter) in
      if next n =? 0 then Done iter
      else
        let* m := checked (h !! next n) in
        if found m then Done iter else walk_before fuel h found (next n)
  end.

(** [while (iter != NULL && !found(iter)) iter = iter->next;] *)
Fixpoint walk_to (fuel : nat) (h : gmap Z node) (found : node -> bool) (iter : Z)
    : outcome Z :=
  if iter =? 0 then Done 0
  else
    match fuel with
    | O => Blocked
    | S fuel =>
        let* n := checked (h !! iter) in
        if found n then Done iter else walk_to fuel h found (next n)
    end.

(** Insertion at the tail: the new head pointer and heap. *)
Definition append_node (h : gmap Z node) (head new : Z) : outcome (Z * gmap Z node) :=
  if head =? 0 then Done (new, h)
  else
    let* last := walk_before (size h) h (fun _ => false) head in
    let* n := checked (h !! last) in
    Done (head, <[last := set_next n new]> h).

(** Removal: the head is tested with [at_head], the others with [found];
    the node taken out (or NULL), the new head pointer and heap. *)
Definition remove_node (h : gmap Z node) (head : Z) (at_head found : node -> bool)
    : outcome (Z * (Z * gmap Z node)) :=
  if head =? 0 then Done (0, (head, h))
  else
    let* n := checked (h !! head) in
    if at_head n then Done (head, (next n, h))
    else
      let* iter := walk_before (size h) h found head in
      let* i := checked (h !! iter) in
      if negb (next i =? 0)
      then
        let keep := next i in
        let* k := checked (h !! keep) in
        Done (keep, (head, <[iter := set_next i (next k)]> h))
      else Done (0, (head, h)).

(** [while (iter != NULL) { tmp = iter; iter = iter->next; free(tmp); }] *)
Fixpoint free_nodes (fuel : nat) (h : gmap Z node) (iter : Z) : outcome (gmap Z node) :=
  if iter =? 0 then Done h
  else
    match fuel with
    | O => Blocked
    | S fuel =>
        let* n := checked (h !! iter) in
        free_nodes fuel (delete iter h) (next n)
    end.

End Chains.

(** * The operations *)

Definition smb_session_share_add (t : tables) (share : Z) : outcome tables :=
  let* (head, h) := append_node s_next share_set_next (share_heap t) (shares t) share in
  Done (Tables head h (file_heap t)).

(** A pointer, NULL when there is no such share. *)
Definition smb_session_share_get (t : tables) (tid : Z) : outcome Z :=
  walk_to s_next (size (share_heap t)) (share_heap t) (fun s => s_tid s =? tid) (shares t).

Definition smb_session_share_remove (t : tables) (tid : Z) : outcome (Z * tables) :=
  let found s := s_tid s =? tid in
  let* (p, (head, h)) := remove_node s_next share_set_next (share_heap t) (shares t) found found in
  Done (p, Tables head h (file_heap t)).

(** The files of every share, then the share; the head pointer is left. *)
Fixpoint share_clear_loop (fuel : nat) (t : tables) (iter : Z) : outcome tables :=
  if iter =? 0 then Done t
  else
    match fuel with
    | O => Blocked
    | S fuel =>
        let* s := checked (share_heap t !! iter) in
        let* fh := free_nodes f_next (size (file_heap t)) (file_heap t) (s_files s) in
        share_clear_loop fuel (Tables (shares t) (delete iter (share_heap t)) fh) (s_next s)
    end.

Definition smb_session_share_clear (t : tables) : outcome tables :=
  share_clear_loop (size (share_heap t)) t (shares t).

(** 1, or 0 when there is no such share. *)
Definition smb_session_file_add (t : tables) (tid f : Z) : outcome (Z * tables) :=
  let* share := smb_session_share_get t tid in
  if share =? 0 then Done (0, t)
  else
    let* s := checked (share_heap t !! share) in
    let* (head, fh) := append_node f_next file_set_next (file_heap t) (s_files s) f in
    Done (1, Tables (shares t) (<[share := share_set_files s head]> (share_heap t)) fh).

Definition smb_session_file_get (t : tables) (fd : Z) : outcome Z :=
  assert (negb (fd =? 0)) ;;;
  let* share := smb_session_share_get t (SMB_FD_TID fd) in
  if share =? 0 then Done 0
  else
    let* s := checked (share_heap t !! share) in
    walk_to f_next (size (file_heap t)) (file_heap t)
      (fun f => f_fid f =? SMB_FD_FID fd) (s_files s).

(** The head is compared with the file id, the others with the tree id. *)
Definition smb_session_file_remove (t : tables) (fd : Z) : outcome (Z * tables) :=
  assert (negb (fd =? 0)) ;;;
  let* share := smb_session_share_get t (SMB_FD_TID fd) in
  if share =? 0 then Done (0, t)
  else
    let* s := checked (share_heap t !! share) in
    let* (p, (head, fh)) :=
      remove_node f_next file_set_next (file_heap t) (s_files s)
        (fun f => f_fid f =? SMB_FD_FID fd) (fun f => f_fid f =? SMB_FD_TID fd) in
    Done (p, Tables (shares t) (<[share := share_set_files s head]> (share_heap t)) fh).

(** ** smb_stat.c *)

Definition smb_stat_fd (t : tables) (fd : Z) : outcome Z := smb_session_file_get t fd.

Fixpoint stat_list_count_loop (fuel : nat) (h : gmap Z smb_file) (list count : Z) : outcome Z :=
  if list =? 0 then Done count
  else
    match fuel with
    | O => Blocked
    | S fuel =>
        let* n := checked (h !! list) in
        stat_list_count_loop fuel h (f_next n) (count + 1)
    end.

Definition smb_stat_list_count (h : gmap Z smb_file) (list : Z) : outcome Z :=
  stat_list_count_loop (size h) h list 0.

Definition smb_stat_list_destroy (h : gmap Z smb_file) (list : Z) : outcome (gmap Z smb_file) :=
  free_nodes f_next (size h) h list.

Definition smb_stat_destroy (h : gmap Z smb_file) (stat : Z) : outcome (gmap Z smb_file) :=
  smb_stat_list_destroy h stat.

Definition smb_stat_list_next (h : gmap Z smb_file) (list : Z) : outcome Z :=
  let* n := checked (h !! list) in Done (f_next n).

(** [while (list != NULL && pos < index) ...] *)
Fixpoint smb_stat_list_at (h : gmap Z smb_file) (list : Z) (index : nat) : outcome Z :=
  if list =? 0 then Done 0
  else
    match index with
    | O => Done list
    | S index => let* n := checked (h !! list) in smb_stat_list_at h (f_next n) index
    end.

Definition smb_stat_name (h : gmap Z smb_file) (info : Z) : outcome (option bytes) :=
  if info =? 0 then Done None
  else let* n := checked (h !! info) in Done (f_name n).

Definition SMB_STAT_SIZE : Z := 0.
Definition SMB_STAT_ALLOC_SIZE : Z := 1.
Definition SMB_STAT_ISDIR : Z := 2.
Definition SMB_STAT_CTIME : Z := 3.
Definition SMB_STAT_ATIME : Z := 4.
Definition SMB_STAT_WTIME : Z := 5.
Definition SMB_STAT_MTIME : Z := 6.

Definition smb_stat_get (h : gmap Z smb_file) (info what : Z) : outcome Z :=
  if info =? 0 then Done 0
  else
    let* n := checked (h !! info) in
    Done (if what =? SMB_STAT_SIZE then f_size n
          else if what =? SMB_STAT_ALLOC_SIZE then f_alloc_size n
          else if what =? SMB_STAT_CTIME then f_created n
          else if what =? SMB_STAT_ATIME then f_accessed n
          else if what =? SMB_STAT_WTIME then f_written n
          else if what =? SMB_STAT_MTIME then f_changed n
          else if what =? SMB_STAT_ISDIR then f_is_dir n
          else 0).

(** * Lists of nodes *)

Section ChainLemmas.
Context {node : Type} (next : node -> Z) (set_next : node -> Z -> node).
Hypothesis next_set : forall n p, next (set_next n p) = p.

(** [p] is the head of the list of the pointers [l]. *)
Fixpoint chain (h : gmap Z node) (p : Z) (l : list Z) : Prop :=
  match l with
  | [] => p = 0
  | x :: l => p = x /\ x <> 0 /\ exists n, h !! x = Some n /\ chain h (next n) l
  end.

Lemma chain_det h p l1 l2 : chain h p l1 -> chain h p l2 -> l1 = l2.
Proof.
  revert p l2. induction l1 as [|x l1 IH]; intros p [|y l2]; cbn [chain]; try done.
  - intros -> (-> & ? & _). done.
  - intros (-> & ? & _) ->. done.
  - intros (-> & _ & n & Hn & H1) (<- & _ & m & Hm & H2). simplify_eq. f_equal. eauto.
Qed.

Lemma chain_app h p l1 l2 :
  chain h p (l1 ++ l2) ->
  exists q, chain h q l2 /\ (l1 = [] -> q = p)
    /\ forall x l, l1 = l ++ [x] -> exists n, h !! x = Some n /\ next n = q.
Proof.
  revert p. induction l1 as [|y l1 IH]; intros p; cbn [chain app].
  - intros H. exists p. split_and!; auto. intros x [|? ?]; done.
  - intros (-> & Hy & n & Hn & H). destruct (IH _ H) as (q & Hq & H0 & H1).
    exists q. split; [done|]. split; [done|]. intros x l E.
    destruct l as [|z l]; cbn in E; simplify_eq; [|eauto]. exists n. split; [done|].
    by rewrite H0.
Qed.

Lemma chain_NoDup h p l : chain h p l -> NoDup l.
Proof.
  revert p. induction l as [|x l IH]; intros p; [constructor|]. intros H. pose proof H as (-> & Hx & n & Hn & Hc).
  constructor; [|eauto]. intros (l1 & l2 & ->)%list_elem_of_split.
  change (x :: l1 ++ x :: l2) with ((x :: l1) ++ x :: l2) in H.
  destruct (chain_app _ _ _ _ H) as (q & Hq & _). pose proof Hq as (-> & _).
  pose proof (chain_det _ _ _ _ H Hq) as E. apply (f_equal length) in E.
  rewrite length_app in E. simpl in E. lia.
Qed.

Lemma chain_dom h p l : chain h p l -> Forall (fun x => x <> 0 /\ is_Some (h !! x)) l.
Proof.
  revert p. induction l as [|x l IH]; intros p; [constructor|].
  intros (-> & Hx & n & Hn & Hc). constructor; [split; [done|by rewrite Hn]|eauto].
Qed.

Lemma chain_size h p l : chain h p l -> (length l <= size h)%nat.
Proof.
  intros H. pose proof (chain_NoDup _ _ _ H) as Hnd. pose proof (chain_dom _ _ _ H) as Hd.
  rewrite <- (size_list_to_set (C := gset Z) l Hnd), <- size_dom.
  apply subseteq_size. intros x Hx%elem_of_list_to_set. apply elem_of_dom.
  by apply (proj1 (Forall_forall _ _) Hd x Hx).
Qed.

Lemma chain_insert h p l x n : x ∉ l -> chain h p l -> chain (<[x := n]> h) p l.
Proof.
  revert p. induction l as [|y l IH]; intros p Hx; [done|].
  apply not_elem_of_cons in Hx as [Hne Hx]. intros (-> & Hy & m & Hm & Hc).
  split; [done|]. split; [done|]. exists m. rewrite lookup_insert_ne by done. eauto.
Qed.

(** The first node that is wanted, or NULL. *)
Fixpoint first (h : gmap Z node) (found : node -> bool) (l : list Z) : Z :=
  match l with
  | [] => 0
  | x :: l => match h !! x with
              | Some n => if found n then x else first h found l
              | None => 0
              end
  end.

Lemma walk_to_spec fuel h found p l :
  chain h p l -> (length l <= fuel)%nat -> walk_to next fuel h found p = Done (first h found l).
Proof.
  revert p fuel. induction l as [|x l IH]; intros p fuel; cbn [chain first].
  - intros ->. by destruct fuel.
  - intros (-> & Hx & n & Hn & Hc) Hf. destruct fuel as [|fuel]; [simpl in Hf; lia|].
    cbn [walk_to]. rewrite (proj2 (Z.eqb_neq x 0)), Hn by done. cbn [checked obind].
    destruct (found n); [done|]. apply IH; [done|simpl in Hf; lia].
Qed.

(** The walk stops before the first wanted node behind the head, or at the
    last node. *)
Fixpoint stop (h : gmap Z node) (found : node -> bool) (x : Z) (l : list Z) : Z :=
  match l with
  | [] => x
  | y :: l => match h !! y with
              | Some n => if found n then x else stop h found y l
              | None => x
              end
  end.

Lemma walk_before_spec fuel h found x l :
  chain h x (x :: l) -> (length l < fuel)%nat ->
  walk_before next fuel h found x = Done (stop h found x l).
Proof.
  revert x fuel. induction l as [|y l IH]; intros x fuel (_ & Hx & n & Hn & Hc) Hf;
    (destruct fuel as [|fuel]; [simpl in Hf; lia|]); cbn [walk_before stop]; rewrite Hn; cbn [checked obind].
  - cbn [chain] in Hc. by rewrite Hc.
  - pose proof Hc as (E & Hy & m & Hm & _). rewrite E, (proj2 (Z.eqb_neq y 0)), Hm by done.
    cbn [checked obind]. destruct (found m); [done|]. rewrite E in Hc. apply IH; [exact Hc|simpl in Hf; lia].
Qed.

Lemma stop_last h x l : Forall (fun y => is_Some (h !! y)) l ->
  stop h (fun _ => false) x l = List.last (x :: l) 0.
Proof.
  revert x. induction l as [|y l IH]; intros x Hl; [done|].
  apply Forall_cons in Hl as [[n Hn] Hl]. cbn [stop]. rewrite Hn. rewrite IH by done. done.
Qed.

(** Redirecting the last pointer of a prefix. *)
Lemma chain_redirect h p l x l' n q l2 :
  chain h p (l ++ x :: l') -> h !! x = Some n -> chain (<[x := set_next n q]> h) q l2 ->
  chain (<[x := set_next n q]> h) p (l ++ x :: l2).
Proof.
  intros Hc Hn H2. pose proof (chain_NoDup _ _ _ Hc) as Hnd. revert p Hc.
  induction l as [|y l IH]; intros p; cbn [chain app].
  - intros (-> & Hx & _). split; [done|]. split; [done|]. exists (set_next n q).
    rewrite lookup_insert_eq, next_set. done.
  - intros (-> & Hy & m & Hm & Hc). split; [done|]. split; [done|]. exists m.
    apply NoDup_cons in Hnd as [Hni Hnd]. split; [|eauto].
    rewrite lookup_insert_ne; [done|]. intros ->. apply Hni, elem_of_app. right.
    by left.
Qed.

Lemma chain_prefix h p l x l2 :
  chain h p (l ++ x :: l2) -> exists n, h !! x = Some n /\ chain h (next n) l2.
Proof.
  intros H. destruct (chain_app _ _ _ _ H) as (q & (_ & _ & n & Hn & Hc) & _). eauto.
Qed.

(** Only links changed. *)
Definition relinked (h h' : gmap Z node) : Prop :=
  forall x m, h !! x = Some m -> exists q, h' !! x = Some m \/ h' !! x = Some (set_next m q).

Lemma relinked_refl h : relinked h h.
Proof. intros x m Hx. exists 0. auto. Qed.

Lemma relinked_insert h x n q : h !! x = Some n -> relinked h (<[x := set_next n q]> h).
Proof.
  intros Hn y m Hy. exists q. destruct (decide (y = x)) as [->|].
  - simplify_eq. right. by rewrite lookup_insert_eq.
  - left. by rewrite lookup_insert_ne.
Qed.

(** Insertion at the tail. *)
Lemma append_node_spec h head l new n :
  chain h head l -> new <> 0 -> new ∉ l -> h !! new = Some n -> next n = 0 ->
  exists head' h', append_node next set_next h head new = Done (head', h')
    /\ chain h' head' (l ++ [new])
    /\ (forall x, x ∉ l -> h' !! x = h !! x)
    /\ relinked h h'.
Proof.
  intros Hc Hnew Hni Hn Hnn. unfold append_node. destruct l as [|x l].
  - cbn [chain] in Hc. subst head. exists new, h. split; [done|]. split_and!; auto.
    + cbn [chain app]. split_and!; auto. exists n. auto.
    + apply relinked_refl.
  - pose proof Hc as (-> & Hx & _). rewrite (proj2 (Z.eqb_neq x 0)) by done.
    pose proof (chain_dom _ _ _ Hc) as Hd. apply Forall_cons in Hd as [_ Hd].
    rewrite (walk_before_spec _ h _ x l Hc) by (pose proof (chain_size _ _ _ Hc); simpl in *; lia).
    rewrite stop_last by (eapply Forall_impl; [exact Hd|]; simpl; tauto). cbn [obind].
    destruct (exists_last (l := x :: l)) as (l0 & z & E); [done|]. rewrite E in *.
    rewrite last_last. destruct (chain_prefix _ _ _ _ _ Hc) as (m & Hm & _). rewrite Hm.
    cbn [checked obind]. exists x, (<[z := set_next m new]> h). split; [done|].
    assert (Hz : z <> new) by (intros ->; apply Hni, elem_of_app; right; by apply list_elem_of_singleton).
    split_and!.
    + rewrite <- app_assoc. eapply chain_redirect; [exact Hc|done|]. cbn [chain app].
      split_and!; auto. exists n. rewrite lookup_insert_ne by done. auto.
    + intros y Hy. apply lookup_insert_ne. intros ->. apply Hy, elem_of_app. right.
      by apply list_elem_of_singleton.
    + by apply relinked_insert.
Qed.

(** No node of [l] is wanted. *)
Definition unwanted (h : gmap Z node) (found : node -> bool) (l : list Z) : Prop :=
  Forall (fun y => forall m, h !! y = Some m -> found m = false) l.

Lemma stop_before h found x l1 z k l2 :
  Forall (fun y => is_Some (h !! y)) l1 -> unwanted h found l1 ->
  h !! z = Some k -> found k = true -> stop h found x (l1 ++ z :: l2) = List.last (x :: l1) 0.
Proof.
  intros Hs Hu Hz Hk. revert x. induction l1 as [|y l1 IH]; intros x; cbn [stop app].
  - by rewrite Hz, Hk.
  - apply Forall_cons in Hs as [[n Hn] Hs]. apply Forall_cons in Hu as [Hy Hu].
    rewrite Hn, (Hy _ Hn). rewrite IH by done. done.
Qed.

Lemma stop_none h found x l :
  Forall (fun y => is_Some (h !! y)) l -> unwanted h found l ->
  stop h found x l = List.last (x :: l) 0.
Proof.
  intros Hs Hu. revert x. induction l as [|y l IH]; intros x; [done|].
  apply Forall_cons in Hs as [[n Hn] Hs]. apply Forall_cons in Hu as [Hy Hu].
  cbn [stop]. rewrite Hn, (Hy _ Hn). rewrite IH by done. done.
Qed.

Lemma chain_present h p l : chain h p l -> Forall (fun y => is_Some (h !! y)) l.
Proof. intros H%chain_dom. eapply Forall_impl; [exact H|]. simpl. tauto. Qed.

Lemma chain_last h p l x n : chain h p (l ++ [x]) -> h !! x = Some n -> next n = 0.
Proof. intros (m & Hm & Hc)%chain_prefix Hn. simplify_eq. exact Hc. Qed.

(** Removal of the first wanted node. *)
Lemma remove_node_spec h head l1 z l2 k at_head found :
  chain h head (l1 ++ z :: l2) -> h !! z = Some k ->
  (if l1 is y :: l1' then (forall n, h !! y = Some n -> at_head n = false)
                           /\ unwanted h found l1' /\ found k = true
   else at_head k = true) ->
  exists head' h', remove_node next set_next h head at_head found = Done (z, (head', h'))
    /\ chain h' head' (l1 ++ l2)
    /\ (forall x, x ∉ l1 -> h' !! x = h !! x)
    /\ relinked h h'.
Proof.
  intros Hc Hz. unfold remove_node. destruct l1 as [|y l1].
  - destruct Hc as (-> & Hnz & n & Hn & Hc). assert (n = k) as -> by congruence. intros Hk.
    rewrite (proj2 (Z.eqb_neq z 0)), Hz by done. cbn [checked obind]. rewrite Hk.
    exists (next k), h. split_and!; auto using relinked_refl.
  - intros (Hy & Hu & Hk). pose proof Hc as (-> & Hnz & n & Hn & Hc').
    rewrite (proj2 (Z.eqb_neq y 0)), Hn by done. cbn [checked obind]. rewrite (Hy _ Hn).
    rewrite (walk_before_spec _ h _ y (l1 ++ z :: l2) Hc)
      by (pose proof (chain_size _ _ _ Hc) as Hl; rewrite !length_app in *; simpl in *; lia).
    rewrite (stop_before _ _ _ _ _ k) by (try done; apply chain_present, Forall_app in Hc'; tauto).
    destruct (exists_last (l := y :: l1)) as (l0 & i & E); [done|].
    change (y :: l1 ++ z :: l2) with ((y :: l1) ++ z :: l2) in Hc. rewrite E in *.
    rewrite last_last. cbn [obind]. rewrite <- app_assoc in Hc. cbn [app] in Hc.
    destruct (chain_prefix _ _ _ _ _ Hc) as (m & Hm & Hcz). pose proof Hcz as (Ez & Hz0 & k' & Hk' & Hc2).
    assert (k' = k) as -> by congruence. rewrite Hm. cbn [checked obind]. rewrite Ez, (proj2 (Z.eqb_neq _ 0)), Hz by done.
    cbn [negb checked obind]. eexists _, _. split; [done|].
    pose proof (chain_NoDup _ _ _ Hc) as Hnd.
    split_and!.
    + rewrite <- app_assoc. cbn [app]. apply (chain_redirect _ _ _ _ _ m (next k) _ Hc Hm).
      apply chain_insert; [|done]. apply NoDup_app in Hnd as (_ & _ & Hnd).
      apply NoDup_cons in Hnd as [Hni _]. intros Hi. apply Hni. by right.
    + intros x Hx. apply lookup_insert_ne. intros ->. apply Hx, elem_of_app. right.
      by apply list_elem_of_singleton.
    + by apply relinked_insert.
Qed.

Lemma remove_node_none h head l at_head found :
  chain h head l ->
  (if l is y :: l' then (forall n, h !! y = Some n -> at_head n = false) /\ unwanted h found l'
   else True) ->
  remove_node next set_next h head at_head found = Done (0, (head, h)).
Proof.
  intros Hc Hl. unfold remove_node. destruct l as [|y l].
  - cbn [chain] in Hc. by subst head.
  - destruct Hl as [Hy Hu]. pose proof Hc as (-> & Hnz & n & Hn & Hc').
    rewrite (proj2 (Z.eqb_neq y 0)), Hn by done. cbn [checked obind]. rewrite (Hy _ Hn).
    rewrite (walk_before_spec _ h _ y l Hc) by (pose proof (chain_size _ _ _ Hc); simpl in *; lia).
    rewrite stop_none by (try done; by apply chain_present in Hc').
    destruct (exists_last (l := y :: l)) as (l0 & i & E); [done|]. rewrite E in *.
    rewrite last_last. cbn [obind]. destruct (chain_prefix _ _ _ _ _ Hc) as (m & Hm & E0).
    cbn [chain] in E0. rewrite Hm. cbn [checked obind]. by rewrite E0.
Qed.

Lemma chain_frame h h' p l :
  Forall (fun x => h' !! x = h !! x) l -> chain h p l -> chain h' p l.
Proof.
  revert p. induction l as [|x l IH]; intros p Hl; [done|]. apply Forall_cons in Hl as [E Hl].
  intros (-> & Hx & n & Hn & Hc). split; [done|]. split; [done|]. exists n.
  rewrite E. eauto.
Qed.

Lemma free_nodes_spec fuel h p l :
  chain h p l -> (length l <= fuel)%nat ->
  exists h', free_nodes next fuel h p = Done h'
    /\ forall x, h' !! x = if decide (x ∈ l) then None else h !! x.
Proof.
  revert p fuel h. induction l as [|y l IH]; intros p fuel h Hc Hf.
  - cbn [chain] in Hc. subst p. exists h. split; [by destruct fuel|]. intros x.
    by rewrite decide_False by (by intros ?%elem_of_nil).
  - pose proof (chain_NoDup _ _ _ Hc) as [Hni _]%NoDup_cons.
    destruct Hc as (-> & Hy & n & Hn & Hc). destruct fuel as [|fuel]; [simpl in Hf; lia|].
    cbn [free_nodes]. rewrite (proj2 (Z.eqb_neq y 0)), Hn by done. cbn [checked obind].
    destruct (IH (next n) fuel (delete y h)) as (h' & E & Hh'); [|simpl in Hf; lia|].
    + eapply chain_frame; [|exact Hc]. apply Forall_forall. intros x Hx. apply lookup_delete_ne. congruence.
    + exists h'. split; [done|]. intros x. rewrite Hh'.
      destruct (decide (x = y)) as [->|Hne].
      * rewrite (decide_True (P := y ∈ y :: l)) by (by left). by rewrite lookup_delete_eq, decide_False.
      * rewrite lookup_delete_ne by congruence.
        destruct (decide (x ∈ l)); destruct (decide (x ∈ y :: l)) as [Hx|Hx]; try done.
        -- destruct Hx. by right.
        -- apply elem_of_cons in Hx. tauto.
Qed.

End ChainLemmas.

(** * The tables the code promises: an ordered list of shares, each with the
    ordered list of its open files *)

Record entry := Entry { e_tid : Z; e_ptr : Z; e_files : list (Z * Z) }.

Definition add_file (fid f : Z) (e : entry) : entry :=
  Entry (e_tid e) (e_ptr e) (e_files e ++ [(fid, f)]).

(** The pointer found by an identifier, NULL when there is none. *)
Definition find_share (T : list entry) (tid : Z) : option entry :=
  List.find (fun e => e_tid e =? tid) T.
Definition share_ptr (o : option entry) : Z := if o is Some e then e_ptr e else 0.
Definition find_file (e : entry) (fid : Z) : Z :=
  if List.find (fun '(i, _) => i =? fid) (e_files e) is Some (_, f) then f else 0.

(** [g] applied to the first share of that identifier. *)
Fixpoint on_share (tid : Z) (g : entry -> list entry) (T : list entry) : list entry :=
  match T with
  | [] => []
  | e :: T => if e_tid e =? tid then g e ++ T else e :: on_share tid g T
  end.

Definition entry_ok (sh : gmap Z smb_share) (fh : gmap Z smb_file) (e : entry) : Prop :=
  exists s, sh !! e_ptr e = Some s /\ s_tid s = e_tid e
    /\ chain f_next fh (s_files s) (map snd (e_files e))
    /\ Forall (fun '(fid, f) => exists n, fh !! f = Some n /\ f_fid n = fid) (e_files e).

Definition file_ptrs (T : list entry) : list Z := concat (map (fun e => map snd (e_files e)) T).

Definition represents (t : tables) (T : list entry) : Prop :=
  chain s_next (share_heap t) (shares t) (map e_ptr T)
  /\ Forall (entry_ok (share_heap t) (file_heap t)) T
  /\ NoDup (file_ptrs T).

Lemma first_find {node} (h : gmap Z node) (found : node -> bool) {A} (ptr : A -> Z) (want : A -> bool) l :
  Forall (fun a => exists n, h !! ptr a = Some n /\ found n = want a) l ->
  first h found (map ptr l) = if List.find want l is Some a then ptr a else 0.
Proof.
  induction l as [|a l IH]; [done|]. intros [(n & Hn & E) Hl]%Forall_cons.
  cbn [map first List.find]. rewrite Hn, E. destruct (want a); auto.
Qed.

Lemma share_get_find t T tid : represents t T ->
  smb_session_share_get t tid = Done (share_ptr (find_share T tid)).
Proof.
  intros (Hc & Hok & _). unfold smb_session_share_get.
  rewrite (walk_to_spec _ _ _ _ _ _ Hc) by (by eapply chain_size).
  f_equal. apply (first_find _ _ e_ptr (fun e => e_tid e =? tid)).
  eapply Forall_impl; [exact Hok|]. intros e (s & Hs & <- & _). eauto.
Qed.

Lemma find_share_split T tid e : find_share T tid = Some e ->
  exists T1 T2, T = T1 ++ e :: T2 /\ e_tid e = tid /\ Forall (fun e => e_tid e <> tid) T1
    /\ forall g, on_share tid g T = T1 ++ g e ++ T2.
Proof.
  unfold find_share. induction T as [|a T IH]; cbn [List.find on_share]; [done|].
  destruct (Z.eqb_spec (e_tid a) tid) as [E|E].
  - intros [= ->]. exists [], T. auto.
  - intros H. destruct (IH H) as (T1 & T2 & -> & Ht & H1 & Hg). exists (a :: T1), T2.
    split_and!; auto. intros g. by rewrite Hg.
Qed.

Lemma find_share_none T tid : find_share T tid = None -> Forall (fun e => e_tid e <> tid) T.
Proof.
  intros H. apply Forall_forall. intros e He. apply list_elem_of_In in He.
  pose proof (List.find_none _ _ H e He) as E. cbn in E. lia.
Qed.

Lemma find_none_share T tid : Forall (fun e => e_tid e <> tid) T -> find_share T tid = None.
Proof.
  unfold find_share. induction 1 as [|e T He _ IH]; cbn; [done|].
  by rewrite (proj2 (Z.eqb_neq _ _)).
Qed.

Lemma on_share_none T tid g : Forall (fun e => e_tid e <> tid) T -> on_share tid g T = T.
Proof.
  induction 1 as [|e T He _ IH]; cbn [on_share]; [done|]. rewrite (proj2 (Z.eqb_neq _ _)) by done.
  by rewrite IH.
Qed.

(** ** Frames *)

Lemma entry_ok_frame sh sh' fh fh' e :
  (forall s, sh !! e_ptr e = Some s ->
     exists s', sh' !! e_ptr e = Some s' /\ s_tid s' = s_tid s /\ s_files s' = s_files s) ->
  Forall (fun f => fh' !! f = fh !! f) (map snd (e_files e)) ->
  entry_ok sh fh e -> entry_ok sh' fh' e.
Proof.
  intros Hs Hf (s & Es & Et & Hc & Hn). destruct (Hs s Es) as (s' & Es' & Et' & Ef').
  exists s'. rewrite Et', Ef'. split_and!; auto.
  - by eapply chain_frame.
  - apply Forall_map in Hf. eapply Forall_impl; [by apply Forall_and; split; [exact Hf|exact Hn]|].
    intros [fid f] [E (n & Hn' & <-)]. exists n. cbn in E. by rewrite E.
Qed.

Lemma relinked_share h h' p s : relinked share_set_next h h' -> h !! p = Some s ->
  exists s', h' !! p = Some s' /\ s_tid s' = s_tid s /\ s_files s' = s_files s.
Proof. intros H Hs. destruct (H _ _ Hs) as (q & [E|E]); eexists; eauto. Qed.

Lemma represents_relinked t T T' head sh :
  represents t T -> relinked share_set_next (share_heap t) sh ->
  chain s_next sh head (map e_ptr T') -> (forall e, e ∈ T' -> e ∈ T) -> NoDup (file_ptrs T') ->
  represents (Tables head sh (file_heap t)) T'.
Proof.
  intros (Hc & Hok & Hnd) Hr Hc' Hin Hnd'. split_and!; auto. apply Forall_forall. intros e He.
  apply Hin in He. eapply entry_ok_frame; [| |by eapply (proj1 (Forall_forall _ _) Hok e He)].
  - intros s Hs. by apply (relinked_share _ _ _ _ Hr).
  - by apply Forall_forall.
Qed.

(** ** The operations implement it *)

Lemma share_add_spec t T p s :
  represents t T -> share_heap t !! p = Some s -> s_next s = 0 -> s_files s = 0 ->
  p <> 0 -> p ∉ map e_ptr T ->
  exists t', smb_session_share_add t p = Done t'
    /\ represents t' (T ++ [Entry (s_tid s) p []]).
Proof.
  intros HR Hs Hn0 Hf0 Hp Hni. pose proof HR as (Hc & Hok & Hnd).
  destruct (append_node_spec s_next share_set_next ltac:(done) _ _ _ _ _ Hc Hp Hni Hs Hn0)
    as (head & h & E & Hc' & _ & Hr).
  unfold smb_session_share_add. rewrite E. cbn [obind]. eexists. split; [done|].
  split_and!; cbn [shares share_heap file_heap].
  - by rewrite map_app.
  - apply Forall_app. split.
    + eapply Forall_impl; [exact Hok|]. intros e He. eapply entry_ok_frame; [| |exact He].
      * intros s' Hs'. by apply (relinked_share _ _ _ _ Hr).
      * by apply Forall_forall.
    + apply Forall_singleton. destruct (relinked_share _ _ _ _ Hr Hs) as (s' & Es & Et & Ef).
      exists s'. cbn [e_ptr e_tid e_files map chain]. split_and!; auto. by rewrite Ef.
  - unfold file_ptrs. rewrite map_app, concat_app. cbn. by rewrite !app_nil_r.
Qed.

Lemma unwanted_tids sh fh T tid : Forall (entry_ok sh fh) T -> Forall (fun e => e_tid e <> tid) T ->
  unwanted sh (fun s => s_tid s =? tid) (map e_ptr T).
Proof.
  intros Hok Ht. unfold unwanted. apply Forall_map.
  eapply Forall_impl; [by apply Forall_and; split; [exact Hok|exact Ht]|].
  intros e [(s & Hs & E & _) Hne] s' Hs'. cbn in Hs'. simplify_eq. lia.
Qed.

Lemma NoDup_file_ptrs_sub T1 e T2 : NoDup (file_ptrs (T1 ++ e :: T2)) -> NoDup (file_ptrs (T1 ++ T2)).
Proof.
  unfold file_ptrs. rewrite !map_app, !concat_app. cbn [map concat]. rewrite !NoDup_app.
  intros (H1 & H12 & _ & _ & H2). split_and!; auto. intros x Hx Hx2. apply (H12 x Hx), elem_of_app. auto.
Qed.

Lemma share_remove_spec t T tid : represents t T ->
  exists t', smb_session_share_remove t tid = Done (share_ptr (find_share T tid), t')
    /\ represents t' (on_share tid (fun _ => []) T).
Proof.
  intros HR. pose proof HR as (Hc & Hok & Hnd). unfold smb_session_share_remove.
  destruct (find_share T tid) as [e|] eqn:E.
  - destruct (find_share_split _ _ _ E) as (T1 & T2 & -> & Ht & H1 & ->). cbn [app].
    apply Forall_app in Hok as [Hok1 [(s & Hs & Es & _)%id _]%Forall_cons].
    rewrite map_app in Hc. cbn [map] in Hc.
    destruct (remove_node_spec s_next share_set_next ltac:(done) _ _ _ _ _ _
                (fun s => s_tid s =? tid) (fun s => s_tid s =? tid) Hc Hs) as (head & h & Er & Hc' & _ & Hr).
    { pose proof (unwanted_tids _ _ _ _ Hok1 H1) as Hu. destruct (map e_ptr T1); [lia|].
      apply Forall_cons in Hu as [? ?]. split_and!; auto. lia. }
    rewrite Er. cbn [obind]. eexists. split; [done|].
    eapply represents_relinked; eauto.
    + by rewrite map_app.
    + intros e' [?|?]%elem_of_app; apply elem_of_app; [auto|right; by right].
    + by eapply NoDup_file_ptrs_sub.
  - pose proof (find_share_none _ _ E) as Hne. pose proof (unwanted_tids _ _ _ _ Hok Hne) as Hu.
    rewrite (remove_node_none s_next share_set_next _ _ _ _ _ Hc).
    + cbn [obind]. exists t. destruct t. split; [done|].
      by rewrite on_share_none.
    + destruct (map e_ptr T); [done|]. by apply Forall_cons in Hu as [? ?].
Qed.

(** The other shares when the files of one change. *)
Lemma other_entries t T1 e T2 fh s' :
  represents t (T1 ++ e :: T2) ->
  (forall x, x ∉ map snd (e_files e) -> fh !! x = file_heap t !! x) ->
  Forall (entry_ok (<[e_ptr e := s']> (share_heap t)) fh) (T1 ++ T2).
Proof.
  intros (Hc & Hok & Hnd) Hfh. apply chain_NoDup in Hc. rewrite map_app in Hc. cbn [map] in Hc.
  apply Forall_forall. intros e' He'. assert (Hin : e' ∈ T1 ++ e :: T2).
  { apply elem_of_app in He' as [?|?]; apply elem_of_app; [auto|right; by right]. }
  eapply entry_ok_frame; [| |exact (proj1 (Forall_forall _ _) Hok e' Hin)].
  - intros s Hs. exists s. split; [|done]. rewrite lookup_insert_ne; [done|]. intros E.
    apply NoDup_app in Hc as (_ & H1 & [H2 _]%NoDup_cons).
    apply elem_of_app in He' as [He'|He']; apply (list_elem_of_fmap_2 e_ptr) in He'; change (fmap e_ptr) with (map e_ptr) in He'.
    + apply (H1 _ He'). rewrite E. by left.
    + apply H2. by rewrite E.
  - apply Forall_forall. intros f Hf. apply Hfh. intros Hf'.
    unfold file_ptrs in Hnd. rewrite map_app, concat_app in Hnd. cbn [map concat] in Hnd.
    apply NoDup_app in Hnd as (_ & H1 & (_ & H2 & _)%NoDup_app).
    assert (Hc2 : forall T, e' ∈ T -> f ∈ concat (map (fun e => map snd (e_files e)) T)).
    { intros T HT. apply list_elem_of_In, in_concat. exists (map snd (e_files e')).
      split; [|by apply list_elem_of_In]. apply in_map_iff. exists e'. split; [done|by apply list_elem_of_In]. }
    apply elem_of_app in He' as [He'|He'].
    + apply (H1 f (Hc2 _ He')), elem_of_app. auto.
    + apply (H2 f Hf' (Hc2 _ He')).
Qed.

Lemma relinked_files h h' l : relinked file_set_next h h' ->
  Forall (fun '(fid, f) => exists n, h !! f = Some n /\ f_fid n = fid) l ->
  Forall (fun '(fid, f) => exists n, h' !! f = Some n /\ f_fid n = fid) l.
Proof.
  intros Hr H. eapply Forall_impl; [exact H|]. intros [fid f] (n & Hn & <-).
  destruct (Hr _ _ Hn) as (q & [E|E]); eexists; eauto.
Qed.

Lemma find_share_ptr t T tid e : represents t T -> find_share T tid = Some e ->
  (e_ptr e =? 0) = false /\ exists s, share_heap t !! e_ptr e = Some s /\ s_tid s = tid
    /\ chain f_next (file_heap t) (s_files s) (map snd (e_files e))
    /\ Forall (fun '(fid, f) => exists n, file_heap t !! f = Some n /\ f_fid n = fid) (e_files e).
Proof.
  intros (Hc & Hok & _) E. destruct (find_share_split _ _ _ E) as (T1 & T2 & -> & <- & _).
  apply chain_dom in Hc. rewrite map_app in Hc. apply Forall_app in Hc as [_ [[? _] _]%Forall_cons].
  apply Forall_app in Hok as [_ [He _]%Forall_cons]. split; [lia|done].
Qed.

(** The entry of a share whose files changed. *)
Lemma represents_files t T1 e T2 fh s head fl :
  represents t (T1 ++ e :: T2) -> share_heap t !! e_ptr e = Some s ->
  (forall x, x ∉ map snd (e_files e) -> fh !! x = file_heap t !! x) ->
  chain f_next fh head (map snd fl) ->
  Forall (fun '(fid, f) => exists n, fh !! f = Some n /\ f_fid n = fid) fl ->
  (forall f, f ∈ map snd fl -> f ∈ map snd (e_files e) \/ f ∉ file_ptrs (T1 ++ e :: T2)) ->
  represents (Tables (shares t) (<[e_ptr e := share_set_files s head]> (share_heap t)) fh)
    (T1 ++ Entry (e_tid e) (e_ptr e) fl :: T2).
Proof.
  intros HR Hs Hfh Hfc Hfl Hin. pose proof HR as (Hc & Hok & Hnd).
  pose proof (other_entries _ _ _ _ _ (share_set_files s head) HR Hfh) as [Ho1 Ho2]%Forall_app.
  apply Forall_app in Hok as [_ [(s0 & Hs0 & Et & _)%id _]%Forall_cons].
  split_and!; cbn [shares share_heap file_heap].
  - rewrite map_app in *. cbn [map e_ptr] in *. clear -Hc Hs. revert Hc. generalize (shares t).
    assert (Hgen : forall l p, chain s_next (share_heap t) p l ->
      chain s_next (<[e_ptr e := share_set_files s head]> (share_heap t)) p l); [|auto].
    induction l as [|x l IH]; intros p; [done|]. intros (-> & Hx & n & Hn & Hc). split; [done|].
    split; [done|]. destruct (decide (x = e_ptr e)) as [->|].
    + assert (n = s) as -> by congruence. exists (share_set_files s head). rewrite lookup_insert_eq. auto.
    + exists n. rewrite lookup_insert_ne by done. auto.
  - apply Forall_app. split; [done|]. apply Forall_cons. split; [|done].
    eexists. cbn [e_ptr e_tid e_files]. rewrite lookup_insert_eq. split; [done|]. split_and!; auto.
    cbn. congruence.
  - apply chain_NoDup in Hfc. unfold file_ptrs in *. rewrite map_app, concat_app in *. cbn [map concat e_files] in *.
    apply NoDup_app in Hnd as (N1 & N12 & (N2 & N23 & N3)%NoDup_app). apply NoDup_app. split_and!; auto.
    + intros x Hx1 [Hx2|Hx2]%elem_of_app.
      * destruct (Hin x Hx2) as [?|Hn]; [apply (N12 x Hx1), elem_of_app; auto|].
        apply Hn, elem_of_app. auto.
      * apply (N12 x Hx1), elem_of_app. auto.
    + apply NoDup_app. split_and!; auto. intros x Hx2 Hx3. destruct (Hin x Hx2) as [Hx|Hn].
      * by apply (N23 x).
      * apply Hn. rewrite !elem_of_app. auto.
Qed.

Lemma file_add_spec t T tid e f n :
  represents t T -> find_share T tid = Some e ->
  file_heap t !! f = Some n -> f_next n = 0 -> f <> 0 -> f ∉ file_ptrs T ->
  exists t', smb_session_file_add t tid f = Done (1, t')
    /\ represents t' (on_share tid (fun e => [add_file (f_fid n) f e]) T)
    /\ file_heap t' !! f = Some n.
Proof.
  intros HR E Hn Hn0 Hf Hni. unfold smb_session_file_add.
  rewrite (share_get_find _ _ _ HR), E. cbn [share_ptr obind].
  destruct (find_share_ptr _ _ _ _ HR E) as (-> & s & Hs & Ht & Hc & Hfl).
  rewrite Hs. cbn [checked obind].
  destruct (find_share_split _ _ _ E) as (T1 & T2 & -> & Ht' & _ & ->).
  assert (Hni' : f ∉ map snd (e_files e)).
  { intros Hin. apply Hni. unfold file_ptrs. rewrite map_app, concat_app. cbn. rewrite !elem_of_app. auto. }
  destruct (append_node_spec f_next file_set_next ltac:(done) _ _ _ _ _ Hc Hf Hni' Hn Hn0)
    as (head & fh & Ea & Hc' & Hfr & Hr).
  rewrite Ea. cbn [obind]. eexists. split; [done|]. split; [|cbn; by rewrite Hfr].
  apply represents_files; auto.
  - by rewrite map_app.
  - apply Forall_app. split; [by eapply relinked_files|]. apply Forall_singleton.
    destruct (Hr _ _ Hn) as (q & [Eq|Eq]); eexists; eauto.
  - intros x. rewrite map_app. intros [?|Hx]%elem_of_app; [auto|]. right.
    apply list_elem_of_singleton in Hx. cbn in Hx. by subst x.
Qed.

Lemma file_get_spec t T fd : represents t T -> fd <> 0 ->
  smb_session_file_get t fd
  = Done (if find_share T (SMB_FD_TID fd) is Some e then find_file e (SMB_FD_FID fd) else 0).
Proof.
  intros HR Hfd. unfold smb_session_file_get. rewrite (proj2 (Z.eqb_neq fd 0)) by done. cbn [negb assert obind].
  rewrite (share_get_find _ _ _ HR). cbn [obind].
  destruct (find_share T _) as [e|] eqn:E; cbn [share_ptr]; [|done].
  destruct (find_share_ptr _ _ _ _ HR E) as (-> & s & Hs & _ & Hc & Hfl).
  rewrite Hs. cbn [checked obind]. rewrite (walk_to_spec _ _ _ _ _ _ Hc) by (by eapply chain_size).
  f_equal. unfold find_file. rewrite (first_find _ _ snd (fun p => p.1 =? SMB_FD_FID fd)).
  - generalize (e_files e). intros l. induction l as [|[i p] l IH]; cbn; [done|]. by destruct (i =? _).
  - eapply Forall_impl; [exact Hfl|]. intros [i p] (n & Hn & <-). eauto.
Qed.

Lemma SMB_FD_fields tid fid : 0 <= tid < 65536 -> 0 <= fid < 65536 ->
  SMB_FD_TID (SMB_FD tid fid) = tid /\ SMB_FD_FID (SMB_FD tid fid) = fid.
Proof.
  intros Ht Hf. unfold SMB_FD_TID, SMB_FD_FID, SMB_FD.
  assert (E : u32 (Z.shiftl tid 16) = tid * 65536).
  { unfold u32. rewrite Z.shiftl_mul_pow2 by lia. apply Z.mod_small. lia. }
  rewrite E. change 0x0000ffff with (Z.ones 16). rewrite Z.land_ones by lia. rewrite Z.shiftr_div_pow2 by lia.
  assert (E2 : Z.lor (tid * 65536) fid = tid * 65536 + fid).
  { rewrite <- Z.add_lor_land. replace (Z.land (tid * 65536) fid) with 0; [lia|]. symmetry.
    apply Z.bits_inj'. intros i Hi. rewrite Z.land_spec, Z.bits_0.
    change 65536 with (2 ^ 16). destruct (Z.lt_ge_cases i 16).
    - by rewrite Z.mul_pow2_bits_low by lia.
    - rewrite <- (Z.mod_small fid (2 ^ 16)), Z.mod_pow2_bits_high by lia. apply andb_false_r. }
  rewrite E2. unfold u16. Z.to_euclidean_division_equations. lia.
Qed.

Lemma find_share_app T1 T2 tid : find_share (T1 ++ T2) tid
  = if find_share T1 tid is Some e then Some e else find_share T2 tid.
Proof. unfold find_share. induction T1 as [|a T1 IH]; cbn; [done|]. by destruct (_ =? _). Qed.

Lemma find_share_on tid g T tid' : (forall e, map e_tid (g e) = [e_tid e]) ->
  find_share (on_share tid g T) tid'
  = if find_share T tid' is Some e then (if tid' =? tid then hd_error (g e) else Some e) else None.
Proof.
  intros Hg. unfold find_share. induction T as [|a T IH]; cbn [on_share List.find]; [done|].
  destruct (Z.eqb_spec (e_tid a) tid) as [E|E].
  - specialize (Hg a). destruct (g a) as [|b [|? ?]] eqn:Eg; cbn in Hg; [done| |done].
    cbn [app List.find]. injection Hg as Hg. rewrite Hg. destruct (Z.eqb_spec (e_tid a) tid') as [E'|E'].
    + rewrite (proj2 (Z.eqb_eq _ _)) by lia. by rewrite Eg.
    + destruct (List.find _ T); [|done]. by rewrite (proj2 (Z.eqb_neq _ _)) by lia.
  - cbn [List.find]. destruct (Z.eqb_spec (e_tid a) tid') as [E'|E']; [|done].
    by rewrite (proj2 (Z.eqb_neq _ _)) by lia.
Qed.

Lemma find_file_add e fid f i : f <> 0 ->
  Forall (fun p => p.2 <> 0) (e_files e) ->
  find_file (add_file fid f e) i
  = if find_file e i =? 0 then (if fid =? i then f else 0) else find_file e i.
Proof.
  intros Hf Hl. unfold find_file, add_file. cbn [e_files]. induction (e_files e) as [|[j p] l IH]; cbn.
  - by destruct (fid =? i).
  - apply Forall_cons in Hl as [Hp Hl]. destruct (j =? i); [|by apply IH].
    cbn in Hp. by rewrite (proj2 (Z.eqb_neq p 0)).
Qed.

Lemma find_share_files_nonzero t T tid e : represents t T -> find_share T tid = Some e ->
  Forall (fun p => p.2 <> 0) (e_files e).
Proof.
  intros HR E. destruct (find_share_ptr _ _ _ _ HR E) as (_ & s & _ & _ & Hc & _).
  apply chain_dom in Hc. apply Forall_map in Hc. eapply Forall_impl; [exact Hc|]. intros p [? _]. done.
Qed.

(** Clearing. *)
Lemma share_clear_loop_spec fuel t T p :
  chain s_next (share_heap t) p (map e_ptr T) ->
  Forall (entry_ok (share_heap t) (file_heap t)) T -> NoDup (file_ptrs T) ->
  (length T <= fuel)%nat ->
  exists t', share_clear_loop fuel t p = Done t' /\ shares t' = shares t
    /\ (forall x, share_heap t' !! x = if decide (x ∈ map e_ptr T) then None else share_heap t !! x)
    /\ (forall x, file_heap t' !! x = if decide (x ∈ file_ptrs T) then None else file_heap t !! x).
Proof.
  revert fuel t p. induction T as [|e T IH]; intros fuel t p Hc Hok Hnd Hf.
  - cbn [chain map] in Hc. subst p. exists t. split; [by destruct fuel|]. split; [done|].
    split; intros x; by rewrite decide_False by (by intros ?%elem_of_nil).
  - pose proof (chain_NoDup _ _ _ _ Hc) as [Hni _]%NoDup_cons.
    destruct Hc as (-> & Hp & s & Hs & Hc). apply Forall_cons in Hok as [(s' & Hs' & _ & Hfc & _) Hok].
    simplify_eq. destruct fuel as [|fuel]; [simpl in Hf; lia|]. cbn [share_clear_loop].
    rewrite (proj2 (Z.eqb_neq _ 0)), Hs by done. cbn [checked obind].
    destruct (free_nodes_spec f_next (size (file_heap t)) _ _ _ Hfc) as (fh & E & Hfh); [by eapply chain_size|].
    rewrite E. cbn [obind]. unfold file_ptrs in Hnd. cbn [map concat] in Hnd. apply NoDup_app in Hnd as (_ & Hdis & Hnd).
    assert (Hcat : forall e', e' ∈ T -> forall f, f ∈ map snd (e_files e') -> f ∈ file_ptrs T).
    { intros e' He' f Hf'. apply list_elem_of_In, in_concat. exists (map snd (e_files e')).
      split; [|by apply list_elem_of_In]. apply in_map_iff. exists e'. split; [done|by apply list_elem_of_In]. }
    destruct (IH fuel (Tables (shares t) (delete (e_ptr e) (share_heap t)) fh) (s_next s))
      as (t' & Et & Esh & H1 & H2); cbn [shares share_heap file_heap] in *.
    + eapply chain_frame; [|exact Hc]. apply Forall_forall. intros x Hx. apply lookup_delete_ne. intros Ep. apply Hni. by rewrite Ep.
    + apply Forall_forall. intros e' He'. eapply entry_ok_frame; [| |exact (proj1 (Forall_forall _ _) Hok e' He')].
      * intros s'' Hs''. exists s''. rewrite lookup_delete_ne; [auto|]. intros Ep. apply Hni.
        rewrite Ep. by apply (list_elem_of_fmap_2 e_ptr).
      * apply Forall_forall. intros f Hf'. rewrite Hfh, decide_False; [done|]. intros Hf2.
        by apply (Hdis f Hf2), (Hcat e').
    + done.
    + simpl in Hf; lia.
    + exists t'. split; [done|]. split; [done|]. split; intros x.
      * rewrite H1. cbn [map]. destruct (decide (x = e_ptr e)) as [->|Hne].
        -- rewrite (decide_True (P := _ ∈ _ :: _)) by (by left). by rewrite lookup_delete_eq, decide_False.
        -- rewrite lookup_delete_ne by done.
           destruct (decide (x ∈ map e_ptr T)), (decide (x ∈ e_ptr e :: map e_ptr T)) as [Hx|Hx]; try done.
           ++ destruct Hx. by right.
           ++ apply elem_of_cons in Hx. tauto.
      * rewrite H2, Hfh. unfold file_ptrs. cbn [map concat].
        destruct (decide (x ∈ concat _)), (decide (x ∈ map snd (e_files e) ++ _)) as [Hx|Hx],
          (decide (x ∈ map snd (e_files e))); try done; rewrite elem_of_app in Hx; tauto.
Qed.

(** * Theorems *)

(** Shares form an ordered table: adding a new share keeps the table well
    formed with the share at its end; a lookup gives the share that was there
    before, else the new one if it has the identifier, else NULL; no lookup
    faults or loops. *)
Theorem share_add_get t T p s :
  represents t T -> share_heap t !! p = Some s -> s_next s = 0 -> s_files s = 0 ->
  p <> 0 -> p ∉ map e_ptr T ->
  exists t', smb_session_share_add t p = Done t'
    /\ represents t' (T ++ [Entry (s_tid s) p []])
    /\ forall tid old, smb_session_share_get t tid = Done old ->
         smb_session_share_get t' tid
         = Done (if old =? 0 then (if s_tid s =? tid then p else 0) else old).
Proof.
  intros HR Hs Hn Hf Hp Hni. destruct (share_add_spec _ _ _ _ HR Hs Hn Hf Hp Hni) as (t' & E & HR').
  exists t'. do 2 (split; [done|]). intros tid old. rewrite (share_get_find _ _ _ HR), (share_get_find _ _ _ HR').
  rewrite find_share_app. destruct (find_share T tid) as [e|] eqn:Ef; cbn [share_ptr]; intros [= <-].
  - by destruct (find_share_ptr _ _ _ _ HR Ef) as (-> & _).
  - cbn. by destruct (s_tid s =? tid).
Qed.

(** Removing a share by its identifier gives the share a lookup would have
    given (NULL and no change when there is none), leaves the other shares in
    their order, and afterwards the identifier, when no two shares had it, is
    not found while every other lookup is as before. *)
Theorem share_remove_get t T tid :
  represents t T -> NoDup (map e_tid T) ->
  exists p t', smb_session_share_remove t tid = Done (p, t')
    /\ smb_session_share_get t tid = Done p
    /\ represents t' (on_share tid (fun _ => []) T)
    /\ smb_session_share_get t' tid = Done 0
    /\ forall tid', tid' <> tid -> smb_session_share_get t' tid' = smb_session_share_get t tid'.
Proof.
  intros HR Hnd. destruct (share_remove_spec _ _ tid HR) as (t' & E & HR').
  eexists _, t'. rewrite (share_get_find _ _ _ HR). do 3 (split; [done|]). split.
  - destruct (find_share T tid) as [e|] eqn:Ef.
    + destruct (find_share_split _ _ _ Ef) as (T1 & T2 & -> & <- & H1 & Hg).
      rewrite (share_get_find _ _ _ HR'), Hg. cbn [app].
      rewrite map_app in Hnd. apply NoDup_app in Hnd as (_ & _ & [Hni _]%NoDup_cons).
      rewrite find_share_app. rewrite (find_none_share T1) by done. rewrite find_none_share; [done|].
      apply Forall_forall. intros e' He' Et. apply Hni. rewrite <- Et. by apply (list_elem_of_fmap_2 e_tid).
    + pose proof (find_share_none _ _ Ef) as Hne. rewrite (share_get_find _ _ _ HR').
      rewrite on_share_none by done. by rewrite Ef.
  - intros tid' Hne. rewrite (share_get_find _ _ _ HR), (share_get_find _ _ _ HR'). do 2 f_equal.
    clear -Hne. induction T as [|a T IH]; cbn [on_share find_share List.find]; [done|].
    destruct (Z.eqb_spec (e_tid a) tid) as [<-|Ha].
    + cbn [app]. by rewrite (proj2 (Z.eqb_neq _ _)) by congruence.
    + cbn [List.find]. destruct (_ =? tid'); [done|]. exact IH.
Qed.

(** Opening a file: after smb_session_file_add with a tree that is
    connected, the descriptor built from the tree and file identifiers finds
    the file, when no open file of the share had this identifier; the table
    stays well formed with the file at the end of the share's list. *)
Theorem file_add_get t T tid e f n :
  represents t T -> find_share T tid = Some e ->
  file_heap t !! f = Some n -> f_next n = 0 -> f <> 0 -> f ∉ file_ptrs T ->
  0 <= tid < 65536 -> 0 <= f_fid n < 65536 -> SMB_FD tid (f_fid n) <> 0 ->
  find_file e (f_fid n) = 0 ->
  exists t', smb_session_file_add t tid f = Done (1, t')
    /\ represents t' (on_share tid (fun e => [add_file (f_fid n) f e]) T)
    /\ smb_session_file_get t' (SMB_FD tid (f_fid n)) = Done f.
Proof.
  intros HR E Hn Hn0 Hf Hni Ht Hfid Hfd Hnew.
  destruct (file_add_spec _ _ _ _ _ _ HR E Hn Hn0 Hf Hni) as (t' & Ea & HR' & _).
  exists t'. do 2 (split; [done|]). rewrite (file_get_spec _ _ _ HR') by done.
  destruct (SMB_FD_fields _ _ Ht Hfid) as [-> ->]. rewrite find_share_on, E, Z.eqb_refl by done.
  cbn [hd_error]. rewrite find_file_add by eauto using find_share_files_nonzero.
  by rewrite Hnew, !Z.eqb_refl.
Qed.

(** smb_session_file_add on a tree that is not connected: 0 and no
    change; smb_session_file_get gives NULL. *)
Theorem file_no_share t T tid f fd :
  represents t T -> find_share T tid = None -> fd <> 0 -> SMB_FD_TID fd = tid ->
  smb_session_file_add t tid f = Done (0, t) /\ smb_session_file_get t fd = Done 0
  /\ smb_session_file_remove t fd = Done (0, t).
Proof.
  intros HR E Hfd Ht. rewrite (file_get_spec _ _ _ HR) by done. rewrite Ht, E.
  unfold smb_session_file_add, smb_session_file_remove. rewrite (proj2 (Z.eqb_neq fd 0)), Ht by done.
  rewrite (share_get_find _ _ _ HR), E. done.
Qed.

Lemma unwanted_fids fh l fid :
  Forall (fun '(i, f) => exists n, fh !! f = Some n /\ f_fid n = i) l ->
  Forall (fun '(i, _) => i <> fid) l -> unwanted fh (fun f => f_fid f =? fid) (map snd l).
Proof.
  intros Hok Hne. unfold unwanted. apply Forall_map.
  eapply Forall_impl; [by apply Forall_and; split; [exact Hok|exact Hne]|].
  intros [i f] [(n & Hn & <-) Hi] m Hm. cbn in Hm. simplify_eq. lia.
Qed.

Lemma file_remove_first t T fd e f l :
  represents t T -> fd <> 0 -> find_share T (SMB_FD_TID fd) = Some e ->
  e_files e = (SMB_FD_FID fd, f) :: l ->
  exists t', smb_session_file_remove t fd = Done (f, t')
    /\ represents t' (on_share (SMB_FD_TID fd) (fun e => [Entry (e_tid e) (e_ptr e) (tail (e_files e))]) T).
Proof.
  intros HR Hfd E El. unfold smb_session_file_remove. rewrite (proj2 (Z.eqb_neq fd 0)) by done.
  cbn [negb assert obind]. rewrite (share_get_find _ _ _ HR), E. cbn [share_ptr obind].
  destruct (find_share_ptr _ _ _ _ HR E) as (-> & s & Hs & Ht & Hc & Hfl). rewrite Hs. cbn [checked obind].
  destruct (find_share_split _ _ _ E) as (T1 & T2 & -> & Ht' & _ & ->). rewrite El in *.
  apply Forall_cons in Hfl as [(n & Hn & Hi) Hfl].
  destruct (remove_node_spec f_next file_set_next ltac:(done) _ _ [] _ _ _
              (fun f => f_fid f =? SMB_FD_FID fd) (fun f => f_fid f =? SMB_FD_TID fd) Hc Hn)
    as (head & fh & Er & Hc' & Hfr & Hr); [lia|].
  rewrite Er. cbn [obind]. eexists. split; [done|]. cbn [tail app].
  apply represents_files; auto.
  - intros x _. apply Hfr. by intros ?%elem_of_nil.
  - by eapply relinked_files.
  - intros x Hx. left. rewrite El. by right.
Qed.

(** smb_session_file_remove takes the file out of the table when it is the
    first of the share's list. *)
Theorem file_remove_head t T fd e f l :
  represents t T -> fd <> 0 -> find_share T (SMB_FD_TID fd) = Some e ->
  e_files e = (SMB_FD_FID fd, f) :: l ->
  exists t', smb_session_file_remove t fd = Done (f, t')
    /\ represents t' (on_share (SMB_FD_TID fd) (fun e => [Entry (e_tid e) (e_ptr e) (tail (e_files e))]) T).
Proof. apply file_remove_first. Qed.

Lemma file_remove_none t T fd e i f1 l :
  represents t T -> fd <> 0 -> find_share T (SMB_FD_TID fd) = Some e ->
  e_files e = (i, f1) :: l -> i <> SMB_FD_FID fd ->
  Forall (fun '(i, _) => i <> SMB_FD_TID fd) l ->
  exists t', smb_session_file_remove t fd = Done (0, t') /\ represents t' T
    /\ smb_session_file_get t' fd = smb_session_file_get t fd.
Proof.
  intros HR Hfd E El Hi Hl. unfold smb_session_file_remove. rewrite (proj2 (Z.eqb_neq fd 0)) by done.
  cbn [negb assert obind]. rewrite (share_get_find _ _ _ HR), E. cbn [share_ptr obind].
  destruct (find_share_ptr _ _ _ _ HR E) as (-> & s & Hs & Ht & Hc & Hfl). rewrite Hs. cbn [checked obind].
  rewrite El in *. apply Forall_cons in Hfl as [(n & Hn & Hi') Hfl].
  rewrite (remove_node_none f_next file_set_next _ _ _ _ _ Hc); cycle 1.
  { split; [|by apply unwanted_fids]. intros m Hm. cbn in Hm. simplify_eq. lia. }
  cbn [obind]. exists t.
  assert (Et : Tables (shares t) (<[e_ptr e := share_set_files s (s_files s)]> (share_heap t)) (file_heap t) = t).
  { destruct t as [p sh fh]. cbn in *. f_equal. apply insert_id. destruct s. exact Hs. }
  by rewrite Et.
Qed.

(** The first element with a property splits the list. *)
Lemma first_split {A} (P : A -> Prop) `{!forall x, Decision (P x)} (l : list A) :
  Forall (fun x => ~ P x) l \/ exists l1 x l2, l = l1 ++ x :: l2 /\ Forall (fun x => ~ P x) l1 /\ P x.
Proof.
  induction l as [|a l IH]; [by left; constructor|]. destruct (decide (P a)); [right; by exists [], a, l|].
  destruct IH as [?|(l1 & x & l2 & -> & ? & ?)]; [left; by constructor|right].
  exists (a :: l1), x, l2. split; [done|]. split; [by constructor|done].
Qed.

(** Unlinking the file at this place of its list. *)
Lemma file_unlink t T fd e s l1 i z l2 :
  represents t T -> find_share T (SMB_FD_TID fd) = Some e -> share_heap t !! e_ptr e = Some s ->
  chain f_next (file_heap t) (s_files s) (map snd (e_files e)) ->
  Forall (fun '(fid, f) => exists n, file_heap t !! f = Some n /\ f_fid n = fid) (e_files e) ->
  e_files e = l1 ++ (i, z) :: l2 ->
  (match l1 with y :: l1' => y.1 <> SMB_FD_FID fd /\ Forall (fun x => x.1 <> SMB_FD_TID fd) l1' /\ i = SMB_FD_TID fd
   | [] => i = SMB_FD_FID fd end) ->
  exists p t' T', (let* (p, (head, fh)) := remove_node f_next file_set_next (file_heap t) (s_files s)
      (fun f => f_fid f =? SMB_FD_FID fd) (fun f => f_fid f =? SMB_FD_TID fd) in
    Done (p, Tables (shares t) (<[e_ptr e := share_set_files s head]> (share_heap t)) fh)) = Done (p, t')
    /\ represents t' T' /\ (p <> 0 -> p ∉ file_ptrs T').
Proof.
  intros HR E Hs Hc Hfl El Hl1. rewrite El, map_app in Hc. cbn [map snd] in Hc. rewrite El in Hfl.
  apply Forall_app in Hfl as [Hf1 [(n & Hn & Hi) Hf2]%Forall_cons].
  destruct (remove_node_spec f_next file_set_next ltac:(done) _ _ (map snd l1) z (map snd l2) n
      (fun f => f_fid f =? SMB_FD_FID fd) (fun f => f_fid f =? SMB_FD_TID fd) Hc Hn) as (head & fh & Er & Hc' & Hfr & Hr).
  { cbn [fst] in Hl1. destruct l1 as [|[j y] l1]; cbn [map snd fst] in *; [lia|]. destruct Hl1 as (Hj & Hl1 & Hz).
    apply Forall_cons in Hf1 as [(m & Hm & Hmj) Hf1]. split_and!; [intros n' Hn'; simplify_eq; lia| |lia].
    apply unwanted_fids; [done|]. eapply Forall_impl; [exact Hl1|]. by intros [? ?]. }
  rewrite Er. cbn [obind]. destruct (find_share_split _ _ _ E) as (T1 & T2 & -> & Ht' & _).
  exists z, (Tables (shares t) (<[e_ptr e := share_set_files s head]> (share_heap t)) fh), (T1 ++ Entry (e_tid e) (e_ptr e) (l1 ++ l2) :: T2). split; [done|]. split.
  - apply represents_files; auto.
    + intros x Hx. apply Hfr. intros Hx1. apply Hx. rewrite El, map_app. apply elem_of_app. by left.
    + by rewrite map_app.
    + eapply relinked_files; [exact Hr|]. by apply Forall_app_2.
    + intros x Hx. left. rewrite El, map_app. cbn [map]. rewrite map_app in Hx. revert Hx. rewrite !elem_of_app, elem_of_cons. tauto.
  - intros _ Hin. destruct HR as (_ & _ & Hnd). revert Hnd Hin. unfold file_ptrs.
    rewrite !map_app, !concat_app. cbn [map concat e_files]. rewrite El, !map_app. cbn [map snd].
    rewrite <- !app_assoc. cbn [app]. intros Hnd Hin.
    rewrite !(app_assoc (concat _)) in Hnd. apply NoDup_app in Hnd as (_ & Hd & [Hz _]%NoDup_cons).
    rewrite !(app_assoc (concat _)) in Hin. apply elem_of_app in Hin as [Hin|Hin]; [|done].
    apply (Hd _ Hin). by left.
Qed.

(** What removing by any descriptor does: nothing, or one file (not always the
    one of the descriptor) leaves its list, and the table stays well formed. *)
Lemma file_remove_any t T fd :
  represents t T -> fd <> 0 ->
  exists p t' T', smb_session_file_remove t fd = Done (p, t') /\ represents t' T' /\ (p <> 0 -> p ∉ file_ptrs T').
Proof.
  intros HR Hfd.
  assert (Hsame : forall t', t' = t -> exists p t'' T', Done (0, t') = Done (p, t'') /\ represents t'' T' /\ (p <> 0 -> p ∉ file_ptrs T')).
  { intros t' ->. by exists 0, t, T. }
  unfold smb_session_file_remove. rewrite (proj2 (Z.eqb_neq fd 0)) by done.
  cbn [negb assert obind]. rewrite (share_get_find _ _ _ HR). destruct (find_share T _) as [e|] eqn:E; cbn [share_ptr obind];
    [|by apply Hsame].
  destruct (find_share_ptr _ _ _ _ HR E) as (-> & s & Hs & Ht & Hc & Hfl). rewrite Hs. cbn [checked obind].
  assert (Et : Tables (shares t) (<[e_ptr e := share_set_files s (s_files s)]> (share_heap t)) (file_heap t) = t).
  { destruct t as [p sh fh]. cbn in *. f_equal. apply insert_id. destruct s. exact Hs. }
  destruct (e_files e) as [|[i f] l] eqn:El.
  { rewrite (remove_node_none f_next file_set_next _ _ _ _ _ Hc) by done. cbn [obind]. by apply Hsame. }
  destruct (decide (i = SMB_FD_FID fd)) as [Hi|Hi]; [by apply (file_unlink t T fd e s [] i f l); try rewrite El|].
  destruct (first_split (fun x : Z * Z => x.1 = SMB_FD_TID fd) l) as [Hl|(l1 & z & l2 & -> & Hl1 & Hz)].
  - rewrite (remove_node_none f_next file_set_next _ _ _ _ _ Hc).
    + cbn [obind]. by apply Hsame.
    + apply Forall_cons in Hfl as [(n & Hn & Hin) Hfl]. split; [intros m Hm; cbn in Hm; simplify_eq; lia|].
      apply unwanted_fids; [done|]. eapply Forall_impl; [exact Hl|]. by intros [? ?].
  - destruct z as [j z]. by apply (file_unlink t T fd e s ((i, f) :: l1) j z l2); try rewrite El.
Qed.

(** A file that is open but not the first of its share's list is not
    removed by its descriptor: behind the head the code compares the file
    identifiers with the tree identifier. It answers NULL and the file stays
    in the table (so that smb_fclose neither frees it nor closes the remote
    file). *)
Theorem file_remove_lost t T fd e i f1 l :
  represents t T -> fd <> 0 -> find_share T (SMB_FD_TID fd) = Some e ->
  e_files e = (i, f1) :: l -> i <> SMB_FD_FID fd ->
  Forall (fun '(i, _) => i <> SMB_FD_TID fd) l ->
  exists t', smb_session_file_remove t fd = Done (0, t') /\ represents t' T
    /\ smb_session_file_get t' fd = smb_session_file_get t fd.
Proof. apply file_remove_none. Qed.

(** smb_session_share_clear frees every share and every file of the
    tables, each once, nothing else, and uses nothing after it is freed; the
    session's head pointer is left as it was. *)
Theorem share_clear_frees t T : represents t T ->
  exists t', smb_session_share_clear t = Done t' /\ shares t' = shares t
    /\ (forall x, share_heap t' !! x = if decide (x ∈ map e_ptr T) then None else share_heap t !! x)
    /\ (forall x, file_heap t' !! x = if decide (x ∈ file_ptrs T) then None else file_heap t !! x).
Proof.
  intros (Hc & Hok & Hnd). apply share_clear_loop_spec; auto.
  apply chain_size in Hc. by rewrite length_map in Hc.
Qed.

(** The list of a directory: smb_stat_list_count gives its length,
    smb_stat_list_at its elements by position and NULL beyond the end, and
    smb_stat_list_destroy frees all of it and nothing else. *)
Theorem stat_list_correct h p l : chain f_next h p l ->
  smb_stat_list_count h p = Done (Z.of_nat (length l))
  /\ (forall i, smb_stat_list_at h p i = Done (nth i l 0))
  /\ exists h', smb_stat_list_destroy h p = Done h'
     /\ forall x, h' !! x = if decide (x ∈ l) then None else h !! x.
Proof.
  intros Hc. split_and!.
  - unfold smb_stat_list_count. pose proof (chain_size _ _ _ _ Hc) as Hs. change (Z.of_nat (length l)) with (0 + Z.of_nat (length l)).
    revert p Hc Hs. generalize (size h) 0. induction l as [|x l IH]; intros fuel c p Hc Hs.
    + cbn [chain] in Hc. subst p. rewrite Z.add_0_r. by destruct fuel.
    + destruct Hc as (-> & Hx & n & Hn & Hc). destruct fuel as [|fuel]; [simpl in Hs; lia|].
      cbn [stat_list_count_loop]. rewrite (proj2 (Z.eqb_neq x 0)), Hn by done. cbn [checked obind].
      rewrite IH by (auto; simpl in Hs; lia). f_equal. simpl. lia.
  - revert p Hc. induction l as [|x l IH]; intros p Hc i.
    + cbn [chain] in Hc. subst p. by destruct i.
    + destruct Hc as (-> & Hx & n & Hn & Hc). destruct i as [|i]; cbn [smb_stat_list_at nth];
        rewrite (proj2 (Z.eqb_neq x 0)) by done; [done|]. rewrite Hn. cbn [checked obind]. auto.
  - apply free_nodes_spec; [done|]. by eapply chain_size.
Qed.

(** ** Concrete tables: trees 5 and 7, files 3 and 4 open in tree 5, a share
    and a file still outside *)

Definition a_file (next fid : Z) : smb_file := File next None fid 5 0 0 0 0 0 0 0 0 0 0.

Definition some_tables : tables :=
  Tables 1000
    (<[1000 := Share 2000 10 5 0 0 0]> (<[2000 := Share 0 0 7 0 0 0]> (<[3000 := Share 0 0 9 0 0 0]> ∅)))
    (<[10 := a_file 11 3]> (<[11 := a_file 0 4]> (<[12 := a_file 0 6]> ∅))).

Definition some_entries : list entry := [Entry 5 1000 [(3, 10); (4, 11)]; Entry 7 2000 []].

Lemma some_represents : represents some_tables some_entries.
Proof.
  split; [|split; [|decided]].
  - repeat (split; [reflexivity|split; [done|eexists; split; [reflexivity|]]]). reflexivity.
  - repeat constructor.
    + eexists. split; [reflexivity|]. split; [reflexivity|]. split.
      * repeat (split; [reflexivity|split; [done|eexists; split; [reflexivity|]]]). reflexivity.
      * repeat constructor; eexists; split; reflexivity.
    + eexists. split; [reflexivity|]. split; [reflexivity|]. split; [reflexivity|constructor].
Qed.

Lemma share_add_get_witness :
  exists t', smb_session_share_add some_tables 3000 = Done t' /\ smb_session_share_get t' 9 = Done 3000.
Proof.
  destruct (share_add_get some_tables some_entries 3000 (Share 0 0 9 0 0 0) some_represents)
    as (t' & E & _ & H); [reflexivity|reflexivity|reflexivity|done|decided|].
  exists t'. split; [exact E|]. exact (H 9 0 ltac:(reflexivity)).
Defined.

Lemma share_remove_get_witness :
  exists t', smb_session_share_remove some_tables 7 = Done (2000, t') /\ smb_session_share_get t' 7 = Done 0.
Proof.
  destruct (share_remove_get some_tables some_entries 7 some_represents) as (p & t' & E & E' & _ & H & _);
    [decided|]. vm_compute in E'. injection E' as <-. exists t'. split; [exact E|exact H].
Defined.

Lemma file_add_get_witness :
  exists t', smb_session_file_add some_tables 5 12 = Done (1, t')
    /\ smb_session_file_get t' (SMB_FD 5 6) = Done 12.
Proof.
  destruct (file_add_get some_tables some_entries 5 (Entry 5 1000 [(3, 10); (4, 11)]) 12 (a_file 0 6)
              some_represents) as (t' & E & _ & H);
    [reflexivity|reflexivity|reflexivity|done|decided|lia|cbn; lia|done|reflexivity|].
  exists t'. split; [exact E|exact H].
Defined.

Lemma file_no_share_witness : smb_session_file_get some_tables (SMB_FD 6 3) = Done 0.
Proof.
  apply (file_no_share some_tables some_entries 6 12 (SMB_FD 6 3) some_represents); [reflexivity|done|reflexivity].
Defined.

Lemma file_remove_head_witness :
  exists t', smb_session_file_remove some_tables (SMB_FD 5 3) = Done (10, t').
Proof.
  destruct (file_remove_head some_tables some_entries (SMB_FD 5 3) (Entry 5 1000 [(3, 10); (4, 11)]) 10 [(4, 11)]
              some_represents) as (t' & E & _); [done|reflexivity|reflexivity|]. exists t'. exact E.
Defined.

Lemma file_remove_lost_witness :
  exists t', smb_session_file_remove some_tables (SMB_FD 5 4) = Done (0, t')
    /\ smb_session_file_get t' (SMB_FD 5 4) = Done 11.
Proof.
  destruct (file_remove_lost some_tables some_entries (SMB_FD 5 4) (Entry 5 1000 [(3, 10); (4, 11)]) 3 10 [(4, 11)]
              some_represents) as (t' & E & _ & H); [done|reflexivity|reflexivity|done|by repeat constructor|].
  exists t'. split; [exact E|]. rewrite H. reflexivity.
Defined.

Lemma share_clear_frees_witness :
  exists t', smb_session_share_clear some_tables = Done t' /\ share_heap t' !! 2000 = None
    /\ file_heap t' !! 11 = None /\ file_heap t' !! 12 = Some (a_file 0 6).
Proof.
  destruct (share_clear_frees some_tables some_entries some_represents) as (t' & E & _ & Hs & Hf).
  exists t'. split; [exact E|]. rewrite Hs, !Hf. split_and!; reflexivity.
Defined.

Lemma stat_list_correct_witness :
  smb_stat_list_count (file_heap some_tables) 10 = Done 2
  /\ smb_stat_list_at (file_heap some_tables) 10 1 = Done 11.
Proof.
  destruct (stat_list_correct (file_heap some_tables) 10 [10; 11]) as (H1 & H2 & _).
  - repeat (split; [reflexivity|split; [done|eexists; split; [reflexivity|]]]). reflexivity.
  - split; [exact H1|exact (H2 1%nat)].
Defined.

End SmbFd.







