(* ===== verification/NetbiosNs.v ===== *)
(** The NetBIOS name service client: src/netbios_ns.c.

    The state [netbios_ns] is passed explicitly; the system is the [world].
    The queue of entries (a TAILQ) is the list of its nodes, each with its
    pointer: pointers number the allocations, so that a freed node is never
    confused with a later one. The calls of the user's callbacks are recorded
    in [discover_log], oldest first. The names found in an answer are pointers
    into the receive buffer: offsets here, read while the buffer still holds
    the answer.

    The sockets are non-blocking datagram sockets: [EvDatagram] is a received
    datagram, [EvReady] on a read says that recvfrom fails (nothing there);
    [EvNone] is the expiry of the timeout. *)

From S2P Require Import Prelude World NetbiosUtils NetbiosQuery.
Import NetbiosUtils NetbiosQuery.

Module NetbiosNs.

Definition RECV_BUFFER_SIZE : Z := 1500.
Definition NETBIOS_NAME_FLAG_GROUP : Z := Z.shiftl 1 15.
Definition NETBIOS_FILESERVER : Z := 0x20.

Definition NETBIOS_WILDCARD : bytes := [32; 67; 75] ++ replicate 30 65 ++ [0].
Definition name_query_broadcast : bytes := NETBIOS_WILDCARD.

(** Enumerations of the file. *)
Inductive name_query_type :=
| NAME_QUERY_TYPE_INVALID
| NAME_QUERY_TYPE_NB
| NAME_QUERY_TYPE_NBSTAT.

Definition NS_ENTRY_FLAG_VALID_IP : Z := 0x01.
Definition NS_ENTRY_FLAG_VALID_NAME : Z := 0x02.

Record netbios_ns_entry := NsEntry {
  address : Z;
  name : bytes;             (* char [16] *)
  group : bytes;            (* char [16] *)
  type : Z;
  flag : Z;
  last_time_seen : Z
}.

(** What the discovery thread tells the user. *)
Inductive callback :=
| OnEntryAdded (ptr : Z) (entry : netbios_ns_entry)
| OnEntryRemoved (ptr : Z) (entry : netbios_ns_entry).

Record netbios_ns := Ns {
  socket : Z;
  last_trn_id : Z;
  entry_queue : list (Z * netbios_ns_entry);
  buffer : bytes;
  abort_ctx : netbios_abort_ctx;
  discover_broadcast_timeout : Z;
  discover_started : bool;
  next_ptr : Z;
  discover_log : list callback
}.

Definition set_trn_id (ns : netbios_ns) (v : Z) : netbios_ns :=
  Ns (socket ns) v (entry_queue ns) (buffer ns) (abort_ctx ns)
     (discover_broadcast_timeout ns) (discover_started ns) (next_ptr ns) (discover_log ns).
Definition set_queue (ns : netbios_ns) (q : list (Z * netbios_ns_entry)) : netbios_ns :=
  Ns (socket ns) (last_trn_id ns) q (buffer ns) (abort_ctx ns)
     (discover_broadcast_timeout ns) (discover_started ns) (next_ptr ns) (discover_log ns).
Definition set_buffer (ns : netbios_ns) (b : bytes) : netbios_ns :=
  Ns (socket ns) (last_trn_id ns) (entry_queue ns) b (abort_ctx ns)
     (discover_broadcast_timeout ns) (discover_started ns) (next_ptr ns) (discover_log ns).
Definition set_next_ptr (ns : netbios_ns) (p : Z) : netbios_ns :=
  Ns (socket ns) (last_trn_id ns) (entry_queue ns) (buffer ns) (abort_ctx ns)
     (discover_broadcast_timeout ns) (discover_started ns) p (discover_log ns).
Definition set_discover (ns : netbios_ns) (timeout : Z) (started : bool) : netbios_ns :=
  Ns (socket ns) (last_trn_id ns) (entry_queue ns) (buffer ns) (abort_ctx ns)
     timeout started (next_ptr ns) (discover_log ns).
Definition tell (ns : netbios_ns) (c : callback) : netbios_ns :=
  Ns (socket ns) (last_trn_id ns) (entry_queue ns) (buffer ns) (abort_ctx ns)
     (discover_broadcast_timeout ns) (discover_started ns) (next_ptr ns) (discover_log ns ++ [c]).

(** The answer found in a packet; names are offsets in the buffer. *)
Inductive name_query :=
| QueryInvalid
| QueryNb (ip : Z)
| QueryNbstat (name : Z) (group : option Z) (type : Z).

(** * Sending *)

Definition query_type_nb : Z := 0x2000.
Definition query_type_nbstat : Z := 0x2100.
Definition query_class_in : Z := 0x0100.

(** The loop of [netbios_ns_send_packet]: wait until the socket can be
    written, then one datagram to [ip]. *)
Definition send_packet_body (q : netbios_query) (ip : Z) (e : event) : io (unit + Z) :=
  match e with
  | EvError | EvAbort => mret (inr (-1))
  | EvReady n =>
      data ← access (sub (packet q) 0 (sizeof_netbios_query_packet + cursor q));
      r ← sendto n ip data;
      mret (inr r)
  | EvNone | EvDatagram _ _ => mret (inl tt)
  end.

Definition netbios_ns_send_packet (q : netbios_query) (ip : Z) : io Z :=
  loop (fun _ => e ← select; send_packet_body q ip e) tt.

(** A node of the list of getifaddrs(3): its flags, the family of its address
    and its IPv4 broadcast address; [None] for a NULL pointer. *)
Record ifaddrs := IfAddr {
  ifa_flags : Z;
  ifa_family : option Z;
  ifa_broadaddr : option Z
}.
Definition IFF_UP : Z := 0x1.
Definition IFF_BROADCAST : Z := 0x2.
Definition PF_INET : Z := 2.

Section Interfaces.
(** What getifaddrs gives on this machine, [None] when it fails. *)
Context (getifaddrs : option (list ifaddrs)).

Fixpoint broadcast_loop (q : netbios_query) (addrs : list ifaddrs) : io unit :=
  match addrs with
  | [] => mret tt
  | a :: addrs =>
      if (Z.land (ifa_flags a) IFF_BROADCAST =? 0) || (Z.land (ifa_flags a) IFF_UP =? 0)
      then broadcast_loop q addrs
      else
        family ← access (ifa_family a);
        if negb (family =? PF_INET) then broadcast_loop q addrs
        else
          match ifa_broadaddr a with
          | None => broadcast_loop q addrs
          | Some ip => _ ← netbios_ns_send_packet q ip; broadcast_loop q addrs
          end
  end.

Definition netbios_ns_broadcast_packet (q : netbios_query) : io unit :=
  match getifaddrs with None => mret tt | Some addrs => broadcast_loop q addrs end.

(** The packet of a name query: header, encoded name, type and class. *)
Definition name_query_packet (ns : netbios_ns) (query_type : Z) (name : bytes) (query_flag : Z)
    : io netbios_query :=
  q ← netbios_query_new (34 + 4) true NETBIOS_OP_NAME_QUERY;
  q ← access q;
  q ← (if negb (query_flag =? 0) then lift (netbios_query_set_flag q query_flag true) else mret q);
  n ← access (strlen name);
  r ← lift (netbios_query_append q name (n + 1));
  r ← lift (netbios_query_append r.2 (le_bytes 2 query_type) 2);
  r ← lift (netbios_query_append r.2 (le_bytes 2 query_class_in) 2);
  q ← lift (set_field r.2 off_queries (swap16 1));
  lift (set_field q off_trn_id (swap16 (u16 (last_trn_id ns + 1)))).

Definition netbios_ns_send_name_query (ns : netbios_ns) (ip : Z) (type : name_query_type)
    (name : bytes) (query_flag : Z) : io (Z * netbios_ns) :=
  let send query_type :=
    q ← name_query_packet ns query_type name query_flag;
    let sent := set_trn_id ns (u16 (last_trn_id ns + 1)) in
    if negb (ip =? 0)
    then
      r ← netbios_ns_send_packet q ip;
      mret (if r <? 0 then (-1, ns) else (0, sent))
    else
      _ ← netbios_ns_broadcast_packet q;
      mret (0, sent) in
  match type with
  | NAME_QUERY_TYPE_NB => send query_type_nb
  | NAME_QUERY_TYPE_NBSTAT => send query_type_nbstat
  | NAME_QUERY_TYPE_INVALID => mret (-1, ns)
  end.

(** * Receiving *)

(** [(current_name[16] << 8) | current_name[17]] with signed chars. *)
Definition current_flags (b : bytes) (current_name : Z) : outcome Z :=
  let* hi := checked (rd b (current_name + 16)) in
  let* lo := checked (rd b (current_name + 17)) in
  Done (u16 (Z.lor (Z.shiftl (s8 hi) 8) (s8 lo))).

Definition is_group (flags : Z) : bool := negb (Z.land flags NETBIOS_NAME_FLAG_GROUP =? 0).

(** The first group name; the first file server that is not a group. *)
Fixpoint find_group (count : nat) (b : bytes) (current_name : Z) : outcome (option Z) :=
  match count with
  | O => Done None
  | S count =>
      let* flags := current_flags b current_name in
      if is_group flags then Done (Some current_name)
      else find_group count b (current_name + 18)
  end.

Fixpoint find_server (count : nat) (b : bytes) (current_name : Z) : outcome (option Z) :=
  match count with
  | O => Done None
  | S count =>
      let* current_type := checked (rd b (current_name + 15)) in
      let* flags := current_flags b current_name in
      if is_group flags then find_server count b (current_name + 18)
      else if s8 current_type =? NETBIOS_FILESERVER then Done (Some current_name)
      else find_server count b (current_name + 18)
  end.

(** The answer to the caller and [*out_name_query] ([None]: a NULL pointer). *)
Definition netbios_ns_handle_query (ns : netbios_ns) (size : Z) (check_trn_id : bool) (recv_ip : Z)
    (out_name_query : option name_query) : outcome (Z * option name_query) :=
  let b := buffer ns in
  if size <? sizeof_netbios_query_packet then Done (-1, out_name_query)
  else
    let* other :=
      if check_trn_id
      then let* trn_id := checked (get16 b off_trn_id) in Done (negb (swap16 trn_id =? last_trn_id ns))
      else Done false in
    if other : bool then Done (-1, out_name_query)
    else if bool_decide (out_name_query = None) then Done (0, out_name_query)
    else if size <? sizeof_netbios_query_packet + 1 then Done (-1, out_name_query)
    else
      let* name_size := checked (rd b off_payload) in
      if negb (name_size =? 0x20) then Done (-1, out_name_query)
      else if size <? sizeof_netbios_query_packet + name_size + 11 then Done (-1, out_name_query)
      else
        let* type := checked (get16 b (off_payload + name_size + 2)) in
        let* data_length := checked (get16 b (off_payload + name_size + 10)) in
        let data_length := swap16 data_length in
        if size <? sizeof_netbios_query_packet + name_size + 12 + data_length
        then Done (-1, out_name_query)
        else
          let p_data := off_payload + name_size + 12 in
          if type =? query_type_nb then Done (0, Some (QueryNb recv_ip))
          else if type =? query_type_nbstat
          then
            if data_length <? 1 then Done (-1, out_name_query)
            else
              let* name_count := checked (rd b p_data) in
              let names := p_data + 1 in
              if data_length <? name_count * 18 then Done (-1, out_name_query)
              else
                let* group := find_group (Z.to_nat name_count) b names in
                let* name := find_server (Z.to_nat name_count) b names in
                match name with
                | Some name => Done (0, Some (QueryNbstat name group NETBIOS_FILESERVER))
                | None => Done (0, out_name_query)
                end
          else Done (0, out_name_query).

#[global] Instance name_query_eq_dec : EqDecision name_query.
Proof. solve_decision. Defined.

(** One round of the loop of [netbios_ns_recv]: the ip of the sender is what
    [*out_addr] receives. *)
Definition recv_body (check_trn_id : bool) (wait_ip : Z) (s : netbios_ns * option name_query) (e : event)
    : io ((netbios_ns * option name_query) + (Z * Z * (netbios_ns * option name_query))) :=
  let '(ns, out) := s in
  match e with
  | EvError | EvAbort | EvReady _ => mret (inr (-1, 0, s))
  | EvNone => mret (inr (0, 0, s))
  | EvDatagram ip data =>
      let got := take (Z.to_nat RECV_BUFFER_SIZE) data in
      b ← access (put (buffer ns) 0 got);
      let ns := set_buffer ns b in
      if negb (wait_ip =? 0) && negb (wait_ip =? ip) then mret (inl (ns, out))
      else
        r ← lift (netbios_ns_handle_query ns (zlen got) check_trn_id ip out);
        if r.1 =? -1 then mret (inl (ns, r.2))
        else mret (inr (zlen got, ip, (ns, r.2)))
  end.

Definition netbios_ns_recv (ns : netbios_ns) (check_trn_id : bool) (wait_ip : Z) (out : option name_query)
    : io (Z * Z * (netbios_ns * option name_query)) :=
  let out := (fun _ => QueryInvalid) <$> out in
  loop (fun s => e ← select; recv_body check_trn_id wait_ip s e) (ns, out).

(** * Entries *)

(** [dest] is an array of 16 bytes; trailing blanks are cut, the first
    character is kept. *)
Fixpoint trim_blanks (i : nat) (dest : bytes) : outcome bytes :=
  match i with
  | O => Done dest
  | S i' =>
      let* c := checked (rd dest (Z.of_nat i)) in
      if c =? 32
      then let* dest := checked (wr dest (Z.of_nat i) 0) in trim_blanks i' dest
      else Done dest
  end.

Definition netbios_ns_copy_name (dest src : bytes) (off : Z) : outcome bytes :=
  let* d := checked (sub src off NETBIOS_NAME_LENGTH) in
  let* dest := checked (put dest 0 d) in
  let* dest := checked (wr dest NETBIOS_NAME_LENGTH 0) in
  trim_blanks (Z.to_nat (NETBIOS_NAME_LENGTH - 1)) dest.

(** The names are in the buffer [b]. *)
Definition netbios_ns_entry_set_name (entry : netbios_ns_entry) (b : bytes)
    (name_off group_off : option Z) (ty : Z) : outcome netbios_ns_entry :=
  let* n := match name_off with
            | Some off => netbios_ns_copy_name (name entry) b off
            | None => Done (name entry) end in
  let* g := match group_off with
            | Some off => netbios_ns_copy_name (group entry) b off
            | None => Done (group entry) end in
  Done (NsEntry (address entry) n g ty (Z.lor (flag entry) NS_ENTRY_FLAG_VALID_NAME)
          (last_time_seen entry)).

(** calloc, then TAILQ_INSERT_HEAD; the pointer of the entry, or NULL. *)
Definition netbios_ns_entry_add (ns : netbios_ns) (ip : Z) : io (option Z * netbios_ns) :=
  ok ← flip;
  if negb ok then mret (None, ns)
  else
    let entry := NsEntry ip (replicate 16 0) (replicate 16 0) 0 (Z.lor 0 NS_ENTRY_FLAG_VALID_IP) 0 in
    let p := next_ptr ns in
    mret (Some p, set_next_ptr (set_queue ns ((p, entry) :: entry_queue ns)) (p + 1)).

(** strncmp(a, b, n) == 0 *)
Fixpoint strncmp_eq (n : nat) (a b : bytes) : outcome bool :=
  match n with
  | O => Done true
  | S n =>
      match a, b with
      | x :: a, y :: b =>
          if negb (x =? y) then Done false else if x =? 0 then Done true else strncmp_eq n a b
      | _, _ => Fault
      end
  end.

Definition has_flag (e : netbios_ns_entry) (f : Z) : bool := negb (Z.land (flag e) f =? 0).

Fixpoint entry_find_loop (q : list (Z * netbios_ns_entry)) (by_name : option bytes) (ip : Z)
    : outcome (option (Z * netbios_ns_entry)) :=
  match q with
  | [] => Done None
  | (p, iter) :: q =>
      let* hit :=
        match by_name with
        | Some n =>
            if has_flag iter NS_ENTRY_FLAG_VALID_NAME
            then strncmp_eq (Z.to_nat NETBIOS_NAME_LENGTH) n (name iter) else Done false
        | None => Done (has_flag iter NS_ENTRY_FLAG_VALID_IP && (address iter =? ip))
        end in
      if hit : bool then Done (Some (p, iter)) else entry_find_loop q by_name ip
  end.

Definition netbios_ns_entry_find (ns : netbios_ns) (by_name : option bytes) (ip : Z)
    : outcome (option (Z * netbios_ns_entry)) :=
  entry_find_loop (entry_queue ns) by_name ip.

(** TAILQ_REMOVE, and a store to the entry at a pointer. *)
Definition queue_remove (q : list (Z * netbios_ns_entry)) (p : Z) : list (Z * netbios_ns_entry) :=
  List.filter (fun e => negb (e.1 =? p)) q.
Definition queue_set (q : list (Z * netbios_ns_entry)) (p : Z) (e : netbios_ns_entry)
    : list (Z * netbios_ns_entry) :=
  map (fun x => if x.1 =? p then (p, e) else x) q.

Fixpoint entry_clear_loop (todo q : list (Z * netbios_ns_entry)) : list (Z * netbios_ns_entry) :=
  match todo with
  | [] => q
  | (p, _) :: todo => entry_clear_loop todo (queue_remove q p)
  end.

Definition netbios_ns_entry_clear (ns : netbios_ns) : netbios_ns :=
  set_queue ns (entry_clear_loop (entry_queue ns) (entry_queue ns)).

(** * Creation and destruction *)

(** The socket, and whether all of it worked. *)
Definition ns_open_socket (ns : netbios_ns) : io (bool * netbios_ns) :=
  let with_socket s :=
    Ns s (last_trn_id ns) (entry_queue ns) (buffer ns) (abort_ctx ns)
       (discover_broadcast_timeout ns) (discover_started ns) (next_ptr ns) (discover_log ns) in
  ok ← flip;
  if negb ok then mret (false, with_socket (-1))
  else
    fd ← pick;
    let ns := with_socket (Z.abs fd) in
    ok ← flip;
    if negb ok then mret (false, ns)
    else
      ok ← flip;
      if negb ok then mret (false, ns)
      else
        ok ← flip;
        mret (ok, ns).

(** What is left of the session before it is freed. *)
Definition netbios_ns_destroy (ns : netbios_ns) : netbios_ns :=
  let ns := netbios_ns_entry_clear ns in
  Ns (-1) (last_trn_id ns) (entry_queue ns) (buffer ns) (netbios_abort_ctx_destroy (abort_ctx ns))
     (discover_broadcast_timeout ns) (discover_started ns) (next_ptr ns) (discover_log ns).

Definition netbios_ns_new : io (option netbios_ns) :=
  ok ← flip;
  if negb ok then mret None
  else
    a ← netbios_abort_ctx_init (AbortCtx 0 0);
    if a.1 =? -1 then mret None
    else
      o ← ns_open_socket (Ns 0 0 [] (replicate (Z.to_nat RECV_BUFFER_SIZE) 0) a.2 0 false 1 []);
      if negb o.1 then let _ := netbios_ns_destroy o.2 in mret None
      else
        r ← pick;
        mret (Some (set_trn_id o.2 (u16 r))).

Definition netbios_ns_abort (ns : netbios_ns) : io unit := netbios_abort_ctx_abort (abort_ctx ns).

(** * Queries *)

(** The int, [*addr] (0 where it is not written) and the state. *)
Definition netbios_ns_resolve (ns : netbios_ns) (nm : bytes) (ty : Z) : io (Z * Z * netbios_ns) :=
  _ ← require (negb (discover_started ns));
  cached ← lift (netbios_ns_entry_find ns (Some nm) 0);
  match cached with
  | Some (_, c) => mret (0, address c, ns)
  | None =>
      encoded_name ← netbios_name_encode (Some nm) ty;
      match encoded_name with
      | None => mret (-1, 0, ns)
      | Some encoded_name =>
          r ← netbios_ns_send_name_query ns 0 NAME_QUERY_TYPE_NB encoded_name
                (Z.lor NETBIOS_FLAG_RECURSIVE NETBIOS_FLAG_BROADCAST);
          if r.1 =? -1 then mret (-1, 0, r.2)
          else
            v ← netbios_ns_recv r.2 true 0 (Some QueryInvalid);
            let '(recv, _, (ns, out)) := v in
            if recv <? 0 then mret (-1, 0, ns)
            else match out with
                 | Some (QueryNb ip) => mret (0, ip, ns)
                 | _ => mret (-1, 0, ns)
                 end
      end
  end.

(** The entry (pointer and contents), or NULL. *)
Definition netbios_ns_inverse_internal (ns : netbios_ns) (ip : Z)
    : io (option (Z * netbios_ns_entry) * netbios_ns) :=
  cached ← lift (netbios_ns_entry_find ns None ip);
  match cached with
  | Some c => mret (Some c, ns)
  | None =>
      r ← netbios_ns_send_name_query ns ip NAME_QUERY_TYPE_NBSTAT name_query_broadcast 0;
      if r.1 =? -1 then mret (None, r.2)
      else
        v ← netbios_ns_recv r.2 true ip (Some QueryInvalid);
        let '(recv, _, (ns, out)) := v in
        if recv <=? 0 then mret (None, ns)
        else match out with
             | Some (QueryNbstat n g ty) =>
                 a ← netbios_ns_entry_add ns ip;
                 match a with
                 | (Some p, ns) =>
                     entry ← access (snd <$> List.find (fun x => x.1 =? p) (entry_queue ns));
                     entry ← lift (netbios_ns_entry_set_name entry (buffer ns) (Some n) g ty);
                     mret (Some (p, entry), set_queue ns (queue_set (entry_queue ns) p entry))
                 | (None, ns) => mret (None, ns)
                 end
             | _ => mret (None, ns)
             end
  end.

Definition netbios_ns_entry_name (entry : option netbios_ns_entry) : option bytes := name <$> entry.
Definition netbios_ns_entry_group (entry : option netbios_ns_entry) : option bytes := group <$> entry.
Definition netbios_ns_entry_ip (entry : option netbios_ns_entry) : Z :=
  if entry is Some e then address e else 0.
Definition netbios_ns_entry_type (entry : option netbios_ns_entry) : Z :=
  if entry is Some e then type e else -1.

Definition netbios_ns_inverse (ns : netbios_ns) (ip : Z) : io (option bytes * netbios_ns) :=
  _ ← require (negb (ip =? 0) && negb (discover_started ns));
  r ← netbios_ns_inverse_internal ns ip;
  mret (netbios_ns_entry_name (snd <$> r.1), r.2).

(** * Discovery *)

(** The entries not seen for too long are announced as removed and freed. *)
Fixpoint expire_loop (now remove_timeout : Z) (todo : list (Z * netbios_ns_entry)) (ns : netbios_ns)
    : netbios_ns :=
  match todo with
  | [] => ns
  | (p, entry) :: todo =>
      if now - last_time_seen entry >? remove_timeout
      then
        let ns := if has_flag entry NS_ENTRY_FLAG_VALID_NAME
                  then tell ns (OnEntryRemoved p entry) else ns in
        expire_loop now remove_timeout todo (set_queue ns (queue_remove (entry_queue ns) p))
      else expire_loop now remove_timeout todo ns
  end.

Definition touch (e : netbios_ns_entry) (now : Z) : netbios_ns_entry :=
  NsEntry (address e) (name e) (group e) (type e) (flag e) now.

(** An answer: [inl] goes on receiving, [inr] ends the thread. *)
Definition discover_answer (ns : netbios_ns) (recv_ip now : Z) (out : option name_query)
    : io (netbios_ns + netbios_ns) :=
  match out with
  | Some (QueryNb ip) =>
      found ← lift (netbios_ns_entry_find ns None ip);
      a ← match found with
          | Some (p, _) => mret (Some p, ns)
          | None => netbios_ns_entry_add ns ip
          end;
      match a with
      | (None, ns) => mret (inr ns)
      | (Some p, ns) =>
          entry ← access (snd <$> List.find (fun x => x.1 =? p) (entry_queue ns));
          let entry := touch entry now in
          let ns := set_queue ns (queue_set (entry_queue ns) p entry) in
          if has_flag entry NS_ENTRY_FLAG_VALID_NAME then mret (inl ns)
          else
            r ← netbios_ns_send_name_query ns ip NAME_QUERY_TYPE_NBSTAT name_query_broadcast 0;
            mret (if r.1 =? -1 then inr r.2 else inl r.2)
      end
  | Some (QueryNbstat n g ty) =>
      found ← lift (netbios_ns_entry_find ns None recv_ip);
      match found with
      | None => mret (inl ns)
      | Some (p, entry) =>
          let send_callback := negb (has_flag entry NS_ENTRY_FLAG_VALID_NAME) in
          entry ← lift (netbios_ns_entry_set_name (touch entry now) (buffer ns) (Some n) g ty);
          let ns := set_queue ns (queue_set (entry_queue ns) p entry) in
          mret (inl (if send_callback then tell ns (OnEntryAdded p entry) else ns))
      end
  | _ => mret (inl ns)
  end.

(** The inner loop: [inl] to broadcast again, [inr] to end. *)
Definition discover_recv_body (ns : netbios_ns) : io (netbios_ns + (netbios_ns + netbios_ns)) :=
  v ← netbios_ns_recv ns false 0 (Some QueryInvalid);
  let '(res, recv_ip, (ns, out)) := v in
  if res =? -1 then mret (inr (inr ns))
  else if res =? 0 then mret (inr (inl ns))
  else
    now ← pick;
    a ← discover_answer ns recv_ip now out;
    mret (match a with inl ns => inl ns | inr ns => inr (inr ns) end).

Definition discover_body (ns : netbios_ns) : io (netbios_ns + netbios_ns) :=
  let remove_timeout := s32 (u32 (5 * discover_broadcast_timeout ns)) in
  aborted ← netbios_abort_ctx_is_aborted (abort_ctx ns);
  if aborted : bool then mret (inr ns)
  else
    now ← pick;
    let ns := expire_loop now remove_timeout (entry_queue ns) ns in
    r ← netbios_ns_send_name_query ns 0 NAME_QUERY_TYPE_NB name_query_broadcast 0;
    if r.1 =? -1 then mret (inr r.2)
    else
      v ← loop discover_recv_body r.2;
      mret (match v with
            | inr ns => inr ns
            | inl ns => if discover_broadcast_timeout ns =? 0 then inr ns else inl ns
            end).

(** The state when the thread has ended. *)
Definition netbios_ns_discover_thread (ns : netbios_ns) : io netbios_ns := loop discover_body ns.

(** [callbacks] says whether the pointer is not NULL. *)
Definition netbios_ns_discover_start (ns : netbios_ns) (broadcast_timeout : Z) (callbacks : bool)
    : io (Z * netbios_ns) :=
  if discover_started ns || negb callbacks then mret (-1, ns)
  else
    let ns := set_discover ns broadcast_timeout (discover_started ns) in
    ok ← flip;
    if negb ok then mret (-1, ns) else mret (0, set_discover ns broadcast_timeout true).

(** [rest] is the thread from where it is; the join returns its state. *)
Definition netbios_ns_discover_stop (ns : netbios_ns) (rest : io netbios_ns) : io (Z * netbios_ns) :=
  if discover_started ns
  then
    _ ← netbios_abort_ctx_abort (abort_ctx ns);
    ns ← rest;
    mret (0, set_discover ns (discover_broadcast_timeout ns) false)
  else mret (-1, ns).

End Interfaces.

(** * Reading an answer stays inside the receive buffer *)

Lemma rd_Done {A} (l : list A) i : 0 <= i < zlen l -> exists x, rd l i = Some x.
Proof. intros H. by apply rd_is_Some in H as [x Hx]; eauto. Qed.

Lemma current_flags_Done b o : 0 <= o -> o + 18 <= zlen b -> exists f, current_flags b o = Done f.
Proof.
  intros H0 H. unfold current_flags. destruct (rd_Done b (o + 16)) as [x ->]; [lia|].
  destruct (rd_Done b (o + 17)) as [y ->]; [lia|]. cbn. eauto.
Qed.

(** A name pointer of the list of [count] names at [names]. *)
Definition in_names (names : Z) (count : nat) (r : option Z) : Prop :=
  forall o, r = Some o -> exists i, o = names + 18 * Z.of_nat i /\ (i < count)%nat.

Lemma in_names_S names count r : in_names (names + 18) count r -> in_names names (S count) r.
Proof. intros H o E. destruct (H o E) as (i & -> & Hi). exists (S i). lia. Qed.

Lemma find_group_Done count b o : 0 <= o -> o + 18 * Z.of_nat count <= zlen b ->
  exists r, find_group count b o = Done r /\ in_names o count r.
Proof.
  revert o. induction count as [|count IH]; intros o H0 H; cbn [find_group].
  - eexists. split; [done|]. by intros ? ?.
  - destruct (current_flags_Done b o) as [f ->]; [lia..|]. cbn [obind]. destruct (is_group f).
    + eexists. split; [done|]. intros ? [= <-]. exists 0%nat. lia.
    + destruct (IH (o + 18)) as (r & -> & Hr); [lia..|]. eauto using in_names_S.
Qed.

Lemma find_server_Done count b o : 0 <= o -> o + 18 * Z.of_nat count <= zlen b ->
  exists r, find_server count b o = Done r /\ in_names o count r.
Proof.
  revert o. induction count as [|count IH]; intros o H0 H; cbn [find_server].
  - eexists. split; [done|]. by intros ? ?.
  - destruct (rd_Done b (o + 15)) as [t ->]; [lia|]. cbn [checked obind].
    destruct (current_flags_Done b o) as [f ->]; [lia..|]. cbn [obind].
    destruct (IH (o + 18)) as (r & Er & Hr); [lia..|].
    destruct (is_group f); [rewrite Er; eauto using in_names_S|].
    destruct (s8 t =? NETBIOS_FILESERVER); [|rewrite Er; eauto using in_names_S].
    eexists. split; [done|]. intros ? [= <-]. exists 0%nat. lia.
Qed.

(** The pointers of an answer leave 18 bytes behind them in the buffer. *)
Definition answer_ok (q : option name_query) : Prop :=
  match q with
  | Some (QueryNbstat n g _) =>
      0 <= n /\ n + 18 <= RECV_BUFFER_SIZE
      /\ forall g', g = Some g' -> 0 <= g' /\ g' + 18 <= RECV_BUFFER_SIZE
  | _ => True
  end.

Lemma get16_Done b o : 0 <= o -> o + 2 <= zlen b -> exists v, get16 b o = Some v.
Proof. intros. apply get_word_Some; lia. Qed.

Lemma handle_query_spec ns size check ip out :
  zlen (buffer ns) = RECV_BUFFER_SIZE -> bytes_ok (buffer ns) -> 0 <= size <= RECV_BUFFER_SIZE ->
  answer_ok out ->
  exists r out', netbios_ns_handle_query ns size check ip out = Done (r, out')
    /\ (r = 0 \/ (r = -1 /\ out' = out)) /\ answer_ok out' /\ (r = 0 -> 12 <= size).
Proof.
  intros Hl Hb Hs Ho. unfold netbios_ns_handle_query, RECV_BUFFER_SIZE, sizeof_netbios_query_packet, off_payload in *.
  assert (Hfail : exists r out', Done (-1, out) = Done (r, out')
    /\ (r = 0 \/ (r = -1 /\ out' = out)) /\ answer_ok out' /\ (r = 0 -> 12 <= size))
    by (exists (-1), out; split_and!; auto; lia).
  destruct (Z.ltb_spec size 12); [done|].
  assert (Hsame : exists r out', Done (0, out) = Done (r, out')
    /\ (r = 0 \/ (r = -1 /\ out' = out)) /\ answer_ok out' /\ (r = 0 -> 12 <= size))
    by (exists 0, out; split_and!; auto; lia).
  assert (Ht : exists o : bool, (if check then let* trn_id := checked (get16 (buffer ns) off_trn_id) in
     Done (negb (swap16 trn_id =? last_trn_id ns)) else Done false) = Done o).
  { destruct check; [|eauto]. destruct (get16_Done (buffer ns) off_trn_id) as [v ->]; [done|unfold off_trn_id; lia|].
    cbn. eauto. }
  destruct Ht as [o ->]. cbn [obind]. destruct o; [done|].
  case_bool_decide; [done|]. destruct (Z.ltb_spec size (12 + 1)); [done|].
  destruct (rd_Done (buffer ns) 12) as [ns_ Ens]; [lia|]. rewrite Ens. cbn [checked obind].
  destruct (Z.eqb_spec ns_ 0x20) as [->|]; [|done]. cbn [negb].
  destruct (Z.ltb_spec size (12 + 0x20 + 11)); [done|].
  destruct (get16_Done (buffer ns) (12 + 0x20 + 2)) as [ty ->]; [lia..|]. cbn [checked obind].
  destruct (get16_Done (buffer ns) (12 + 0x20 + 10)) as [dl Edl]; [lia..|]. rewrite Edl. cbn [checked obind].
  destruct (Z.ltb_spec size (12 + 0x20 + 12 + swap16 dl)); [done|].
  destruct (ty =? query_type_nb); [eexists _, _; split; [done|]; split_and!; simpl; auto|].
  destruct (ty =? query_type_nbstat); [|done].
  destruct (Z.ltb_spec (swap16 dl) 1); [done|].
  destruct (rd_Done (buffer ns) (12 + 0x20 + 12)) as [c Ec]; [lia|]. rewrite Ec. cbn [checked obind].
  assert (Hc : 0 <= c < 256) by exact (rd_Forall _ _ _ _ Hb Ec).
  destruct (Z.ltb_spec (swap16 dl) (c * 18)); [done|].
  destruct (find_group_Done (Z.to_nat c) (buffer ns) (12 + 0x20 + 12 + 1)) as (g & -> & Hg); [lia..|].
  destruct (find_server_Done (Z.to_nat c) (buffer ns) (12 + 0x20 + 12 + 1)) as (n & -> & Hn); [lia..|].
  cbn [obind]. destruct n as [n|]; [|done]. eexists _, _. split; [done|]. split_and!; auto.
  destruct (Hn n eq_refl) as (i & -> & Hi). cbn [answer_ok]. unfold RECV_BUFFER_SIZE. split_and!; [lia..|].
  intros g' ->. destruct (Hg g' eq_refl) as (j & -> & Hj). lia.
Qed.

(** * A node status answer as RFC 1002, section 4.2.18, has it *)

Record node_name := NodeName { nn_name : bytes; nn_type : Z; nn_flags_hi : Z; nn_flags_lo : Z }.

Definition node_name_ok (n : node_name) : Prop :=
  length (nn_name n) = 15%nat /\ bytes_ok (nn_name n) /\ is_byte (nn_type n)
  /\ is_byte (nn_flags_hi n) /\ is_byte (nn_flags_lo n).

#[global] Instance node_name_ok_dec n : Decision (node_name_ok n).
Proof. unfold node_name_ok. apply _. Defined.

Definition node_bytes (n : node_name) : bytes :=
  nn_name n ++ [nn_type n; nn_flags_hi n; nn_flags_lo n].

(** The G bit of the flags. *)
Definition nn_group (n : node_name) : bool := 128 <=? nn_flags_hi n.
Definition nn_server (n : node_name) : bool := negb (nn_group n) && (nn_type n =? 0x20).

(** Header, encoded name, type NBSTAT, class IN, TTL, length, then the data:
    the number of names, the names, the statistics. *)
Definition nbstat_answer (header encoded ttl : bytes) (names : list node_name) (statistics : bytes) : bytes :=
  header ++ [0x20] ++ encoded ++ [0] ++ [0x00; 0x21] ++ [0x00; 0x01] ++ ttl
  ++ le_bytes 2 (swap16 (1 + 18 * zlen names + zlen statistics))
  ++ [zlen names] ++ concat (map node_bytes names) ++ statistics.

(** The position of the first element with [P]. *)
Fixpoint position {A} (P : A -> bool) (l : list A) : option nat :=
  match l with
  | [] => None
  | x :: l => if P x then Some 0%nat else S <$> position P l
  end.

Lemma s8_bit7 b : is_byte b -> Z.testbit (s8 b) 7 = (128 <=? b).
Proof. revert b. refine (byte_cases _ _). vm_compute. reflexivity. Qed.

Lemma s8_bit15 b : is_byte b -> Z.testbit (s8 b) 15 = (128 <=? b).
Proof. revert b. refine (byte_cases _ _). vm_compute. reflexivity. Qed.

Lemma s8_ascii_eq b c : is_byte b -> 0 <= c < 128 -> (s8 b =? c) = (b =? c).
Proof. intros Hb Hc. widths. apply eq_true_iff_eq. rewrite !Z.eqb_eq. zdiv. Qed.

Lemma is_group_bit f : is_group f = Z.testbit f 15.
Proof.
  unfold is_group, NETBIOS_NAME_FLAG_GROUP. rewrite Z.shiftl_1_l.
  destruct (Z.testbit f 15) eqn:E.
  - apply negb_true_iff, Z.eqb_neq. intros H0. apply (f_equal (fun z => Z.testbit z 15)) in H0.
    rewrite Z.land_spec, E, Z.pow2_bits_true, Z.bits_0 in H0 by lia. done.
  - apply negb_false_iff, Z.eqb_eq. apply Z.bits_inj'. intros i Hi.
    rewrite Z.land_spec, Z.pow2_bits_eqb, Z.bits_0 by lia.
    destruct (Z.eqb_spec 15 i) as [<-|]; [by rewrite E|apply andb_false_r].
Qed.

(** The sign of the low byte of the flags is extended into the G bit. *)
Lemma is_group_flags hi lo : is_byte hi -> is_byte lo ->
  is_group (u16 (Z.lor (Z.shiftl (s8 hi) 8) (s8 lo))) = (128 <=? hi) || (128 <=? lo).
Proof.
  intros Hh Hl. rewrite is_group_bit. unfold u16. change 65536 with (2 ^ 16).
  rewrite Z.mod_pow2_bits_low, Z.lor_spec, Z.shiftl_spec by lia.
  by rewrite <- (s8_bit15 lo), <- (s8_bit7 hi).
Qed.

Lemma node_bytes_length n : node_name_ok n -> length (node_bytes n) = 18%nat.
Proof. intros (H & _). unfold node_bytes. rewrite length_app, H. done. Qed.

Lemma current_flags_node pre n post o : node_name_ok n -> zlen pre = o ->
  current_flags (pre ++ node_bytes n ++ post) o
  = Done (u16 (Z.lor (Z.shiftl (s8 (nn_flags_hi n)) 8) (s8 (nn_flags_lo n)))).
Proof.
  intros (Hl & _) Ho. unfold current_flags, node_bytes.
  replace (pre ++ (nn_name n ++ [nn_type n; nn_flags_hi n; nn_flags_lo n]) ++ post)
    with ((pre ++ nn_name n ++ [nn_type n]) ++ nn_flags_hi n :: nn_flags_lo n :: post)
    by (by rewrite <- !app_assoc).
  rewrite (rd_app _ _ _ (o + 16)) by len. cbn [checked obind].
  replace ((pre ++ nn_name n ++ [nn_type n]) ++ nn_flags_hi n :: nn_flags_lo n :: post)
    with ((pre ++ nn_name n ++ [nn_type n; nn_flags_hi n]) ++ nn_flags_lo n :: post)
    by (by rewrite <- !app_assoc).
  rewrite (rd_app _ _ _ (o + 17)) by len. done.
Qed.

Lemma type_node pre n post o : node_name_ok n -> zlen pre = o ->
  rd (pre ++ node_bytes n ++ post) (o + 15) = Some (nn_type n).
Proof.
  intros (Hl & _) Ho. unfold node_bytes.
  replace (pre ++ (nn_name n ++ [nn_type n; nn_flags_hi n; nn_flags_lo n]) ++ post)
    with ((pre ++ nn_name n) ++ nn_type n :: nn_flags_hi n :: nn_flags_lo n :: post)
    by (by rewrite <- !app_assoc).
  apply rd_app. len.
Qed.

(** The flags of the names have their reserved low bits clear. *)
Definition plain_flags (n : node_name) : Prop := nn_flags_lo n < 128.

#[global] Instance plain_flags_dec n : Decision (plain_flags n).
Proof. unfold plain_flags. apply _. Defined.

Definition at_name (o : Z) (r : option nat) : option Z := (fun i => o + 18 * Z.of_nat i) <$> r.

Lemma at_name_S o r : at_name (o + 18) r = at_name o (S <$> r).
Proof. destruct r; unfold at_name; cbn [fmap option_fmap option_map]; [f_equal; lia|done]. Qed.

Lemma find_group_names names pre post o :
  Forall node_name_ok names -> Forall plain_flags names -> zlen pre = o ->
  find_group (length names) (pre ++ concat (map node_bytes names) ++ post) o
  = Done (at_name o (position nn_group names)).
Proof.
  intros Hn Hp. revert pre o. induction Hn as [|n names Hok Hn IH]; intros pre o Ho; [done|].
  apply Forall_cons in Hp as [Hpn Hp]. cbn [length map concat find_group position].
  rewrite <- app_assoc, current_flags_node by done. cbn [obind]. pose proof Hok as (_ & _ & _ & Hhi & Hlo).
  rewrite is_group_flags by done. unfold plain_flags in Hpn. rewrite (proj2 (Z.leb_gt 128 (nn_flags_lo n))), orb_false_r by lia.
  unfold nn_group at 1. destruct (128 <=? nn_flags_hi n); [unfold at_name; cbn; do 2 f_equal; lia|].
  rewrite app_assoc, IH, at_name_S; [done|done|]. pose proof (node_bytes_length _ Hok). len.
Qed.

Lemma find_server_names names pre post o :
  Forall node_name_ok names -> Forall plain_flags names -> zlen pre = o ->
  find_server (length names) (pre ++ concat (map node_bytes names) ++ post) o
  = Done (at_name o (position nn_server names)).
Proof.
  intros Hn Hp. revert pre o. induction Hn as [|n names Hok Hn IH]; intros pre o Ho; [done|].
  apply Forall_cons in Hp as [Hpn Hp]. cbn [length map concat find_server position].
  rewrite <- app_assoc, type_node by done. cbn [checked obind].
  rewrite current_flags_node by done. cbn [obind]. pose proof Hok as (_ & _ & Hty & Hhi & Hlo).
  rewrite is_group_flags by done. unfold plain_flags in Hpn. rewrite (proj2 (Z.leb_gt 128 (nn_flags_lo n))), orb_false_r by lia.
  unfold NETBIOS_FILESERVER. rewrite s8_ascii_eq by (try done; lia).
  unfold nn_server, nn_group at 1. 
  assert (E : find_server (length names) (pre ++ node_bytes n ++ concat (map node_bytes names) ++ post) (o + 18)
    = Done (at_name o (S <$> position nn_server names))).
  { rewrite app_assoc, IH, at_name_S; [done|done|]. pose proof (node_bytes_length _ Hok). len. }
  destruct (128 <=? nn_flags_hi n); [exact E|]. cbn [negb andb].
  destruct (nn_type n =? 32); [unfold at_name; cbn; do 2 f_equal; lia|exact E].
Qed.

(** * Names without their padding *)

(** Without the blanks at the end. *)
Definition strip (l : bytes) : bytes :=
  foldr (fun c r => if (c =? 32) && bool_decide (r = []) then [] else c :: r) [] l.

Lemma strip_snoc l c : strip (l ++ [c]) = if c =? 32 then strip l else l ++ [c].
Proof.
  induction l as [|x l IH]; cbn [app strip foldr].
  - rewrite bool_decide_true, andb_true_r by done. done.
  - fold (strip (l ++ [c])) (strip l). rewrite IH. destruct (c =? 32); [done|].
    rewrite (bool_decide_false _) by (by destruct l). by rewrite andb_false_r.
Qed.

Lemma length_strip l : (length (strip l) <= length l)%nat.
Proof.
  induction l as [|x l IH]; cbn [strip foldr]; [done|]. fold (strip l).
  destruct ((x =? 32) && _); cbn [length]; lia.
Qed.

(** The array of a name field: the first character, the others without the
    blanks at the end, NUL up to 16 bytes. *)
Definition name_field (nm : bytes) : bytes :=
  take 1 nm ++ strip (drop 1 nm) ++ replicate (15 - length (strip (drop 1 nm))) 0.

Lemma trim_blanks_spec x l k :
  trim_blanks (length l) (x :: l ++ replicate k 0)
  = Done (x :: strip l ++ replicate (k + (length l - length (strip l))) 0).
Proof.
  revert k. induction l as [|c l IH] using rev_ind; intros k.
  - cbn. by rewrite Nat.add_0_r.
  - rewrite length_app. cbn [length]. rewrite Nat.add_1_r. cbn [trim_blanks].
    replace (x :: (l ++ [c]) ++ replicate k 0) with ((x :: l) ++ c :: replicate k 0) by (by rewrite <- !app_assoc).
    rewrite rd_app by len. cbn [checked obind]. rewrite strip_snoc. destruct (Z.eqb_spec c 32) as [->|Hc].
    + rewrite wr_app by len. cbn [checked obind].
      change ((x :: l) ++ 0 :: replicate k 0) with (x :: l ++ replicate (S k) 0). rewrite IH.
      pose proof (length_strip l). do 4 f_equal. cbn [length]. lia.
    + replace (k + _)%nat with k by (rewrite ?length_app; cbn [length]; lia).
      cbn [app]. by rewrite <- app_assoc.
Qed.

Lemma copy_name_spec dest b off nm :
  length dest = 16%nat -> sub b off 15 = Some nm ->
  netbios_ns_copy_name dest b off = Done (name_field nm).
Proof.
  intros Hd Hs. unfold netbios_ns_copy_name, NETBIOS_NAME_LENGTH. rewrite Hs. cbn [checked obind].
  pose proof (length_sub _ _ _ _ Hs) as Hl.
  rewrite put_Some by len. cbn [checked obind]. change (Z.to_nat 0) with 0%nat. rewrite take_0. cbn [app].
  destruct (drop (0 + length nm) dest) as [|d [|? ?]] eqn:Ed;
    apply (f_equal length) in Ed; rewrite length_drop in Ed; cbn [length] in Ed; unfold zlen in Hl; try lia.
  rewrite wr_app by (unfold zlen; lia). cbn [checked obind].
  destruct nm as [|x nm]; [cbn in Hl; lia|]. cbn [length] in *.
  replace (Z.to_nat (15 - 1)) with (length nm) by lia.
  change ((x :: nm) ++ [0]) with (x :: nm ++ replicate 1 0). rewrite trim_blanks_spec.
  pose proof (length_strip nm). unfold name_field. cbn [take drop app].
  by replace (1 + (length nm - length (strip nm)))%nat with (15 - length (strip nm))%nat by lia.
Qed.

Lemma length_name_field nm : length nm = 15%nat -> length (name_field nm) = 16%nat.
Proof.
  intros H. unfold name_field. pose proof (length_strip (drop 1 nm)) as Hs.
  rewrite !length_app, length_replicate, length_take. rewrite length_drop in Hs. lia.
Qed.

(** Reading a word that is the next thing behind a prefix. *)
Lemma get16_app pre x post o : zlen pre = o -> length x = 2%nat ->
  get16 (pre ++ x ++ post) o = Some (le_word x).
Proof.
  intros Ho Hx. unfold get16, get_word. rewrite (sub_app pre x post o); [done|done|].
  unfold zlen. lia.
Qed.

Lemma rd_next {A} (pre : list A) x post n : n = zlen pre -> rd (pre ++ [x] ++ post) n = Some x.
Proof. apply rd_app. Qed.

Lemma get16_head x post : length x = 2%nat -> get16 (x ++ post) 0 = Some (le_word x).
Proof. intros Hx. by apply (get16_app [] x post). Qed.

Lemma le_word_le2 v : 0 <= v < 65536 -> le_word (le_bytes 2 v) = v.
Proof. intros. apply le_word_bytes_small. done. Qed.

Lemma nbstat_answer_spec ns header encoded ttl names statistics stale check out ip :
  length header = 12%nat -> length encoded = 32%nat -> length ttl = 4%nat ->
  Forall node_name_ok names -> Forall plain_flags names -> zlen names < 256 ->
  (check = true -> take 2 header = le_bytes 2 (swap16 (last_trn_id ns)) /\ 0 <= last_trn_id ns < 65536) ->
  buffer ns = nbstat_answer header encoded ttl names statistics ++ stale ->
  zlen (nbstat_answer header encoded ttl names statistics) <= RECV_BUFFER_SIZE ->
  netbios_ns_handle_query ns (zlen (nbstat_answer header encoded ttl names statistics)) check ip (Some out)
  = Done (0, Some (if position nn_server names is Some i
                   then QueryNbstat (57 + 18 * Z.of_nat i) (at_name 57 (position nn_group names)) NETBIOS_FILESERVER
                   else out)).
Proof.
  intros Hh He Ht Hok Hpl Hcount Htrn Hbuf Hsize.
  assert (Hcat : zlen (concat (map node_bytes names)) = 18 * zlen names).
  { clear -Hok. induction Hok as [|n names Hn _ IH]; [done|]. cbn [map concat].
    pose proof (node_bytes_length _ Hn). unfold zlen in *. rewrite length_app. cbn [length]. lia. }
  assert (Hlen : zlen (nbstat_answer header encoded ttl names statistics) = 57 + 18 * zlen names + zlen statistics).
  { unfold nbstat_answer, zlen in *. rewrite !length_app, length_le_bytes. cbn [length]. lia. }
  rewrite Hlen in *. unfold RECV_BUFFER_SIZE in Hsize.
  assert (H0 : 0 <= zlen statistics /\ 0 <= zlen names) by (unfold zlen; lia).
  set (dl := 1 + 18 * zlen names + zlen statistics) in *.
  assert (Hdl : 0 <= dl < 65536) by lia.
  unfold netbios_ns_handle_query, sizeof_netbios_query_packet, off_payload, off_trn_id. rewrite Hbuf.
  rewrite (proj2 (Z.ltb_ge _ 12)) by lia.
  unfold nbstat_answer. fold dl. rewrite <- !app_assoc.
  assert (Etrn : (if check then let* trn_id := checked (get16 (header ++ [32] ++ encoded ++ [0] ++ [0; 33] ++ [0; 1] ++ ttl
      ++ le_bytes 2 (swap16 dl) ++ [zlen names] ++ concat (map node_bytes names) ++ statistics ++ stale) 0) in
      Done (negb (swap16 trn_id =? last_trn_id ns)) else Done false) = Done false).
  { destruct check; [|done]. destruct (Htrn eq_refl) as [E2 Hid].
    rewrite <- (take_drop 2 header), E2, <- app_assoc.
    rewrite get16_head by done. cbn [checked obind].
    by rewrite le_word_le2, swap16_involutive, Z.eqb_refl by auto with dsm. }
  rewrite Etrn. cbn [obind]. rewrite bool_decide_false by done.
  rewrite (proj2 (Z.ltb_ge _ (12 + 1))) by lia.
  rewrite (rd_next header) by len. cbn [checked obind negb Z.eqb Pos.eqb].
  rewrite (proj2 (Z.ltb_ge _ (12 + 32 + 11))) by lia.
  rewrite (app_assoc header), (app_assoc (header ++ [32])), (app_assoc ((header ++ [32]) ++ encoded)).
  rewrite (get16_app (((header ++ [32]) ++ encoded) ++ [0]) [0; 33]) by (try done; len).
  cbn [checked obind].
  rewrite (app_assoc _ [0; 33]), (app_assoc _ [0; 1]), (app_assoc _ ttl).
  rewrite (get16_app _ (le_bytes 2 _)) by (try done; len). cbn [checked obind].
  rewrite le_word_le2, swap16_involutive by auto with dsm.
  rewrite (proj2 (Z.ltb_ge _ (12 + 32 + 12 + dl))) by lia.
  change (le_word [0; 33] =? query_type_nb) with false. change (le_word [0; 33] =? query_type_nbstat) with true. cbn iota.
  rewrite (proj2 (Z.ltb_ge dl 1)) by lia.
  rewrite (app_assoc _ (le_bytes 2 _)). rewrite rd_next by len. cbn [checked obind].
  rewrite (proj2 (Z.ltb_ge dl _)) by lia. unfold zlen at 1 3. rewrite Nat2Z.id.
  rewrite (app_assoc _ [zlen names]).
  rewrite find_group_names, find_server_names by (try done; len). cbn [obind].
  destruct (position nn_server names) as [i|]; done.
Qed.

End NetbiosNs.
