(* ===== verification/NetbiosQueue.v ===== *)
(** The entries of the name service in memory. NetbiosNs.v keeps them as a list
    of pointers with entries; here the same functions of src/netbios_ns.c walk
    and change the tail queue of compat/queue.h (Queue.v), whose elements are
    allocated and freed, and are shown to do the same. *)

From stdpp Require Import gmap.
From S2P Require Import Prelude Queue NetbiosUtils NetbiosNs.

#[local] Set Warnings "-clear-no-such-hyp".

Module NetbiosQueue.
Import Queue NetbiosUtils NetbiosNs.

(** The links and the entries they are part of; the head of the queue is in
    the structure of the name service, at the address 0. *)
Record heap := Heap { links_of : mem; entries : gmap Z netbios_ns_entry }.

Definition entry_at (hp : heap) (p : Z) : outcome netbios_ns_entry := checked (entries hp !! p).

(** [calloc], and [TAILQ_INSERT_HEAD]; [p] is the block that calloc gives. *)
Definition entry_add (hp : heap) (ip p : Z) : outcome heap :=
  let entry := NsEntry ip (replicate 16 0) (replicate 16 0) 0 (Z.lor 0 NS_ENTRY_FLAG_VALID_IP) 0 in
  let* m := TAILQ_INSERT_HEAD (<[Next p := Links None None]> (links_of hp)) 0 p in
  Done (Heap m (<[p := entry]> (entries hp))).

(** [TAILQ_FOREACH] that returns at the first match. *)
Fixpoint find_loop (fuel : nat) (hp : heap) (by_name : option bytes) (ip : Z) (iter : option Z) : outcome (option Z) :=
  match fuel, iter with
  | _, None => Done None
  | O, Some _ => Blocked
  | S fuel, Some p =>
      let* e := entry_at hp p in
      let* hit :=
        match by_name with
        | Some n =>
            if has_flag e NS_ENTRY_FLAG_VALID_NAME
            then strncmp_eq (Z.to_nat NETBIOS_NAME_LENGTH) n (name e) else Done false
        | None => Done (has_flag e NS_ENTRY_FLAG_VALID_IP && (address e =? ip))
        end in
      if hit : bool then Done (Some p)
      else let* n := TAILQ_NEXT (links_of hp) p in find_loop fuel hp by_name ip n
  end.
Definition entry_find (hp : heap) (by_name : option bytes) (ip : Z) : outcome (option Z) :=
  let* f := TAILQ_FIRST (links_of hp) 0 in find_loop (size (links_of hp)) hp by_name ip f.

(** [TAILQ_REMOVE] and [free]. *)
Definition entry_remove (hp : heap) (p : Z) : outcome heap :=
  let* m := TAILQ_REMOVE (links_of hp) 0 p in
  Done (Heap (delete (Next p) m) (delete p (entries hp))).

Fixpoint clear_loop (fuel : nat) (hp : heap) (entry : option Z) : outcome heap :=
  match fuel, entry with
  | _, None => Done hp
  | O, Some _ => Blocked
  | S fuel, Some p =>
      let* entry_next := TAILQ_NEXT (links_of hp) p in
      let* hp := entry_remove hp p in
      clear_loop fuel hp entry_next
  end.
Definition entry_clear (hp : heap) : outcome heap :=
  let* f := TAILQ_FIRST (links_of hp) 0 in clear_loop (size (links_of hp)) hp f.

(** The loop of the discovery thread; [log] is what the callbacks were told. *)
Fixpoint expire (fuel : nat) (now remove_timeout : Z) (hp : heap) (log : list callback) (entry : option Z)
    : outcome (heap * list callback) :=
  match fuel, entry with
  | _, None => Done (hp, log)
  | O, Some _ => Blocked
  | S fuel, Some p =>
      let* entry_next := TAILQ_NEXT (links_of hp) p in
      let* e := entry_at hp p in
      if now - last_time_seen e >? remove_timeout
      then
        let log := if has_flag e NS_ENTRY_FLAG_VALID_NAME then log ++ [OnEntryRemoved p e] else log in
        let* hp := entry_remove hp p in
        expire fuel now remove_timeout hp log entry_next
      else expire fuel now remove_timeout hp log entry_next
  end.
Definition expire_entries (now remove_timeout : Z) (hp : heap) (log : list callback) : outcome (heap * list callback) :=
  let* f := TAILQ_FIRST (links_of hp) 0 in expire (size (links_of hp)) now remove_timeout hp log f.

(** * The list in memory *)

(** The queue has the entries [q], each alive at its pointer. *)
Definition holds (hp : heap) (q : list (Z * netbios_ns_entry)) : Prop :=
  queue (links_of hp) 0 q.*1 /\ Forall (fun x => entries hp !! x.1 = Some x.2) q.

Lemma holds_size hp q : holds hp q -> (length q <= size (links_of hp))%nat.
Proof. intros [Hq _]. apply queue_size in Hq. by rewrite length_fmap in Hq. Qed.

Lemma holds_first hp q : holds hp q -> TAILQ_FIRST (links_of hp) 0 = Done (fst <$> head q).
Proof. intros [Hq _]. rewrite (queue_first _ _ _ Hq). by destruct q. Qed.

Lemma holds_next hp q1 p e q2 :
  holds hp (q1 ++ (p, e) :: q2) -> TAILQ_NEXT (links_of hp) p = Done (fst <$> head q2) /\ entry_at hp p = Done e.
Proof.
  intros [Hq He]. rewrite fmap_app in Hq. cbn in Hq. rewrite (queue_next _ _ _ _ _ Hq). split; [by destruct q2|].
  apply Forall_app in He as [_ [He _]%Forall_cons]. unfold entry_at. cbn in He. by rewrite He.
Qed.

Lemma remove_holds hp q1 p e q2 : holds hp (q1 ++ (p, e) :: q2) -> exists hp', entry_remove hp p = Done hp' /\ holds hp' (q1 ++ q2)
  /\ entries hp' = delete p (entries hp).
Proof.
  intros [Hq He]. rewrite fmap_app in Hq. cbn in Hq. pose proof Hq as (_ & _ & N1 & N2 & _)%queue_split.
  destruct (remove_ok _ _ _ _ _ Hq) as (m' & E & Hq' & _). unfold entry_remove. rewrite E. cbn [obind].
  eexists. split; [done|]. split; [|done]. split; cbn.
  - rewrite fmap_app. apply queue_free; [done|]. by intros [?|?]%elem_of_app.
  - rewrite Forall_forall in He. apply Forall_forall. intros [x ex] Hin. cbn. rewrite lookup_delete_ne.
    + apply (He (x, ex)). set_solver.
    + intros ->. apply elem_of_app in Hin as [Hin|Hin]; [apply N1|apply N2]; by apply (list_elem_of_fmap_2 fst _ (x, ex)).
Qed.

(** * The functions on it *)

Lemma add_holds hp q ip p :
  holds hp q -> entries hp !! p = None ->
  exists hp', entry_add hp ip p = Done hp'
    /\ holds hp' ((p, NsEntry ip (replicate 16 0) (replicate 16 0) 0 (Z.lor 0 NS_ENTRY_FLAG_VALID_IP) 0) :: q).
Proof.
  intros [Hq He] Hp.
  assert (Hpq : p ∉ q.*1).
  { intros ([x e] & -> & Hin)%list_elem_of_fmap. rewrite Forall_forall in He. apply He in Hin. cbn in *. congruence. }
  unfold entry_add. destruct (insert_head_ok (<[Next p := Links None None]> (links_of hp)) 0 q.*1 p) as (m' & E & Hq' & _).
  - eapply (queue_store _ _ _ (Next p)); [exact Hq|done|]. by rewrite next_in.
  - done.
  - rewrite lookup_insert_eq. eauto.
  - rewrite E. cbn [obind]. eexists. split; [reflexivity|]. split; [exact Hq'|]. cbn. apply Forall_cons. cbn.
    split; [apply lookup_insert_eq|]. rewrite Forall_forall in He. apply Forall_forall. intros [x e] Hin. cbn.
    rewrite lookup_insert_ne; [by apply (He (x, e))|]. intros ->. apply Hpq. by apply (list_elem_of_fmap_2 fst _ (x, e)).
Qed.

Lemma find_loop_eq fuel hp q1 q2 by_name ip :
  holds hp (q1 ++ q2) -> (length q2 <= fuel)%nat ->
  find_loop fuel hp by_name ip (fst <$> head q2) = let* r := entry_find_loop q2 by_name ip in Done (fst <$> r).
Proof.
  revert q1 q2. induction fuel as [|fuel IH]; intros q1 [|[p e] q2] Hh Hf; cbn in Hf; try lia; [done..|].
  destruct (holds_next _ _ _ _ _ Hh) as [Hn He]. cbn [find_loop entry_find_loop head fmap option_fmap option_map fst].
  rewrite He. cbn [obind]. destruct (match by_name with Some _ => _ | None => _ end) as [hit| |]; cbn [obind]; [|done..].
  destruct hit; [done|]. rewrite Hn. cbn [obind]. apply (IH (q1 ++ [(p, e)])); [by rewrite <- app_assoc|lia].
Qed.

Lemma find_eq hp q by_name ip : holds hp q ->
  entry_find hp by_name ip = let* r := entry_find_loop q by_name ip in Done (fst <$> r).
Proof.
  intros Hh. unfold entry_find. rewrite (holds_first _ _ Hh). cbn [obind].
  by apply (find_loop_eq _ _ [] q); [|apply holds_size].
Qed.

Lemma clear_loop_ok fuel hp q : holds hp q -> (length q <= fuel)%nat ->
  exists hp', clear_loop fuel hp (fst <$> head q) = Done hp' /\ holds hp' []
    /\ forall p, entries hp' !! p = if decide (p ∈ q.*1) then None else entries hp !! p.
Proof.
  revert hp q. induction fuel as [|fuel IH]; intros hp [|[p e] q] Hh Hf; cbn in Hf; try lia;
    try (exists hp; done).
  destruct (holds_next hp [] p e q Hh) as [Hn He]. destruct (remove_holds hp [] p e q Hh) as (hp1 & Er & Hh1 & Ed).
  cbn [clear_loop head fmap option_fmap option_map fst]. rewrite Hn. cbn [obind]. rewrite Er. cbn [obind].
  destruct (IH hp1 q Hh1 ltac:(lia)) as (hp' & E & ? & Hfree). exists hp'. split; [done|]. split; [done|].
  intros x. rewrite Hfree, Ed. assert (Hx : x ∈ ((p, e) :: q).*1 <-> x = p \/ x ∈ q.*1) by (rewrite fmap_cons; apply elem_of_cons).
  destruct (decide (x = p)) as [->|Hne]; [rewrite lookup_delete_eq|rewrite lookup_delete_ne by done];
    repeat case_decide; tauto.
Qed.

Lemma queue_remove_at q1 p e q2 :
  NoDup (q1 ++ (p, e) :: q2).*1 -> queue_remove (q1 ++ (p, e) :: q2) p = q1 ++ q2.
Proof.
  rewrite fmap_app. intros (_ & H1 & [H2 _]%NoDup_cons)%NoDup_app. unfold queue_remove.
  assert (Hk : forall q, p ∉ q.*1 -> List.filter (fun x : Z * netbios_ns_entry => negb (x.1 =? p)) q = q).
  { induction q as [|[x ex] q IH]; intros Hn; [done|]. rewrite fmap_cons in Hn. apply not_elem_of_cons in Hn as [Hx Hn].
    cbn. rewrite (proj2 (Z.eqb_neq x p)) by (cbn in Hx; congruence). cbn. by rewrite IH. }
  rewrite List.filter_app. cbn. rewrite Z.eqb_refl. cbn. rewrite !Hk; [done|done|].
  intros Hin. apply (H1 _ Hin), list_elem_of_here.
Qed.

Lemma expire_ok fuel now t hp log q1 q2 ns :
  holds hp (q1 ++ q2) -> (length q2 <= fuel)%nat -> entry_queue ns = q1 ++ q2 -> discover_log ns = log ->
  exists hp' log', expire fuel now t hp log (fst <$> head q2) = Done (hp', log')
    /\ holds hp' (entry_queue (expire_loop now t q2 ns)) /\ log' = discover_log (expire_loop now t q2 ns).
Proof.
  revert hp log q1 q2 ns. induction fuel as [|fuel IH]; intros hp log q1 [|[p e] q2] ns Hh Hf Hq Hlog; cbn in Hf; try lia;
    try (exists hp, log; cbn; by rewrite Hq).
  destruct (holds_next _ _ _ _ _ Hh) as [Hn He]. cbn [expire expire_loop head fmap option_fmap option_map fst].
  rewrite Hn. cbn [obind]. rewrite He. cbn [obind]. destruct (_ >? t).
  - destruct (remove_holds _ _ _ _ _ Hh) as (hp1 & -> & Hh1 & _). cbn [obind]. apply (IH hp1 _ q1); [done|lia| |].
    + pose proof Hh as [(Hd & _) _]. rewrite <- (queue_remove_at q1 p e q2 Hd), <- Hq. by destruct (has_flag e _).
    + destruct (has_flag e _); cbn; by rewrite Hlog.
  - apply (IH hp log (q1 ++ [(p, e)])); [by rewrite <- app_assoc|lia|by rewrite <- app_assoc|done].
Qed.

Lemma entry_clear_nil q : NoDup q.*1 -> entry_clear_loop q q = [].
Proof.
  induction q as [|[p e] q IH]; intros Hd; [done|]. cbn [entry_clear_loop].
  pose proof (queue_remove_at [] p e q Hd) as E. cbn [app] in E. rewrite E. apply IH. by apply NoDup_cons in Hd as [_ ?].
Qed.

(** C10. The list of entries is what the linked queue holds: looking an entry up,
    adding one, clearing the queue and expiring entries at the level of the
    pointers make no invalid access (none to freed memory either), find and
    tell the callbacks the same, and leave the queue that the functions on the
    list leave; clearing frees every entry, and no other. *)
Theorem entry_queue_refined hp ns :
  holds hp (entry_queue ns) ->
  (forall by_name ip, entry_find hp by_name ip = let* r := netbios_ns_entry_find ns by_name ip in Done (fst <$> r))
  /\ (forall ip p w w' ns' , entries hp !! p = None -> next_ptr ns = p -> netbios_ns_entry_add ns ip w = Done ((Some p, ns'), w') ->
       exists hp', entry_add hp ip p = Done hp' /\ holds hp' (entry_queue ns'))
  /\ (exists hp', entry_clear hp = Done hp' /\ holds hp' (entry_queue (netbios_ns_entry_clear ns))
       /\ forall p, entries hp' !! p = if decide (p ∈ (entry_queue ns).*1) then None else entries hp !! p)
  /\ (forall now t, exists hp', expire_entries now t hp (discover_log ns)
           = Done (hp', discover_log (expire_loop now t (entry_queue ns) ns))
       /\ holds hp' (entry_queue (expire_loop now t (entry_queue ns) ns))).
Proof.
  intros Hh. pose proof (holds_size _ _ Hh) as Hs. split; [|split; [|split]].
  - intros. by apply find_eq.
  - intros ip p w w' ns' Hp <- E. unfold netbios_ns_entry_add, World.flip in E.
    unfold mbind, World.io_bind in E. cbn [obind] in E. destruct (World.w_coin w (World.w_tick w)); [|done]. injection E as <- _. by apply add_holds.
  - unfold entry_clear, netbios_ns_entry_clear. rewrite (holds_first _ _ Hh). cbn [obind set_queue entry_queue].
    rewrite entry_clear_nil by apply Hh. by apply clear_loop_ok.
  - intros now t. unfold expire_entries. rewrite (holds_first _ _ Hh). cbn [obind].
    destruct (expire_ok (size (links_of hp)) now t hp (discover_log ns) [] (entry_queue ns) ns) as (hp' & log' & E & ? & ->); auto.
    by exists hp'.
Qed.

(** Three entries, two of them old: what expires, and what is left. *)
Definition an_entry (ip seen : Z) : netbios_ns_entry := NsEntry ip (replicate 16 65) (replicate 16 66) 32 3 seen.
Definition three : list (Z * netbios_ns_entry) := [(10, an_entry 1 5); (11, an_entry 2 90); (12, an_entry 3 7)].
Definition three_ns : netbios_ns := Ns 3 0 three [] (AbortCtx 0 0) 4 true 13 [].
Definition three_heap : heap :=
  Heap (list_to_map [(First 0, Links (Some 10) (Some (Next 12))); (Next 10, Links (Some 11) (Some (First 0)));
                     (Next 11, Links (Some 12) (Some (Next 10))); (Next 12, Links None (Some (Next 11)))])
       (list_to_map three).

Lemma three_holds : holds three_heap three.
Proof.
  split; [split; [apply (bool_decide_unpack _); vm_compute; exact I|]; vm_compute; repeat split|].
  repeat (apply Forall_cons; split; [vm_compute; reflexivity|]). by apply Forall_nil.
Qed.

Lemma entry_queue_refined_witness :
  exists hp', expire_entries 100 20 three_heap [] = Done (hp', [OnEntryRemoved 10 (an_entry 1 5); OnEntryRemoved 12 (an_entry 3 7)])
    /\ holds hp' [(11, an_entry 2 90)].
Proof.
  destruct (entry_queue_refined three_heap three_ns three_holds) as (_ & _ & _ & H). exact (H 100 20).
Defined.

End NetbiosQueue.
