(* ===== verification/NetbiosNsProps.v ===== *)
(** What the name service client guarantees: the queries it sends, the answers
    it accepts, its table of entries and the callbacks of the discovery. *)

From stdpp Require Import gmap.
From S2P Require Import Prelude World NetbiosUtils NetbiosQuery NetbiosNs.
Import NetbiosUtils NetbiosQuery NetbiosNs.

Module NetbiosNsProps.

(** * The packet of a name query *)

(** RFC 1002, section 4.2.12: the header (one question), the question. *)
Definition query_bytes (trn_id flags query_type : Z) (name : bytes) : bytes :=
  le_bytes 2 (swap16 trn_id) ++ le_bytes 2 (swap16 flags) ++ [0; 1] ++ replicate 6 0
  ++ name ++ le_bytes 2 query_type ++ [0; 1].

Lemma query_new_lucky w : lucky w ->
  runs w (netbios_query_new 38 true NETBIOS_OP_NAME_QUERY)
    (Some (Query 38 0 (replicate 2 0 ++ replicate 2 0 ++ replicate 2 0 ++ replicate 6 0 ++ replicate 38 0))).
Proof.
  intros Hw. exists (set_tick w (S (S (w_tick w)))). split; [|by exists 2%nat].
  unfold netbios_query_new, calloc, flip, mbind, io_bind, mret, io_ret. cbn [obind]. rewrite !Hw.
  cbn [negb obind w_coin set_tick]. rewrite !Hw. change (u64 (sizeof_netbios_query_packet + 38)) with 50. unfold lift.
  change (set_field (Query 38 0 (replicate (Z.to_nat 50) 0)) off_flags _)
    with (Done (Query 38 0 (replicate 50 0))).
  cbn [obind]. change (netbios_query_set_flag (Query 38 0 (replicate 50 0)) NETBIOS_FLAG_QUERY false)
    with (Done (Query 38 0 (replicate 50 0))). done.
Qed.

Lemma append_next ps c pre o post data :
  zlen pre = 12 + c -> 0 <= c -> length o = length data -> c + zlen data <= ps -> ps < 2 ^ 32 ->
  netbios_query_append (Query ps c (pre ++ o ++ post)) data (zlen data)
  = Done (0, Query ps (c + zlen data) (pre ++ data ++ post)).
Proof.
  intros Hp Hc Ho Hs Hps. unfold netbios_query_append. cbn [payload_size cursor packet].
  assert (0 <= zlen data) by (unfold zlen; lia).
  rewrite u64_small by lia. rewrite (proj2 (Z.ltb_ge _ _)) by lia.
  rewrite sub_all by done. cbn [checked obind]. rewrite put_app by (try done; unfold off_payload; lia).
  cbn [checked obind]. by rewrite u64_small by lia.
Qed.

Lemma set_field_next ps c pre o post off v :
  zlen pre = off -> length o = 2%nat ->
  set_field (Query ps c (pre ++ o ++ post)) off v = Done (Query ps c (pre ++ le_bytes 2 v ++ post)).
Proof.
  intros Hp Ho. unfold set_field. cbn [packet payload_size cursor]. rewrite put_app by (try done; len). done.
Qed.

Lemma name_query_packet_spec ns query_type s query_flag w :
  lucky w -> length s = 33%nat -> cstring_ok s -> 0 <= query_flag < 65536 ->
  runs w (name_query_packet ns query_type (s ++ [0]) query_flag)
    (Query 38 38 (query_bytes (u16 (last_trn_id ns + 1)) query_flag query_type (s ++ [0]))).
Proof.
  intros Hw Hl Hs Hf. unfold name_query_packet. run; [by apply query_new_lucky|].
  run; [by apply runs_access|].
  assert (Hflag : forall w0, runs w0 (if negb (query_flag =? 0)
     then lift (netbios_query_set_flag
       (Query 38 0 (replicate 2 0 ++ replicate 2 0 ++ replicate 2 0 ++ replicate 6 0 ++ replicate 38 0)) query_flag true)
     else mret (Query 38 0 (replicate 2 0 ++ replicate 2 0 ++ replicate 2 0 ++ replicate 6 0 ++ replicate 38 0)))
     (Query 38 0 (replicate 2 0 ++ le_bytes 2 (swap16 query_flag) ++ replicate 2 0 ++ replicate 6 0 ++ replicate 38 0))).
  { intros w0. destruct (Z.eqb_spec query_flag 0) as [->|Hne]; cbn [negb]; [apply runs_ret|].
    apply runs_lift. unfold netbios_query_set_flag. cbn [packet].
    rewrite (get16_app (replicate 2 0)) by done. cbn [checked obind].
    change (swap16 (le_word (replicate 2 0))) with 0. rewrite Z.lor_0_l, u16_small by done.
    by apply set_field_next. }
  run; [apply Hflag|]. clear Hflag. run; [apply runs_access; by apply strlen_cstr|].
  replace (zlen s + 1) with (zlen (s ++ [0])) by (unfold zlen; rewrite length_app; cbn; lia).
  change (replicate 38 0) with (replicate 34 0 ++ replicate 2 0 ++ replicate 2 0 ++ []).
  run; [apply runs_lift|].
  { rewrite (app_assoc (replicate 2 0)), (app_assoc _ (replicate 2 0)), (app_assoc _ (replicate 6 0)).
    apply append_next; try done; try len. }
  cbn [snd]. run; [apply runs_lift|].
  { rewrite (app_assoc _ (s ++ [0])).
    apply (append_next 38 _ _ _ _ (le_bytes 2 query_type)); len. }
  cbn [snd]. run; [apply runs_lift|].
  { rewrite (app_assoc _ (le_bytes 2 query_type)).
    apply (append_next 38 _ _ _ _ (le_bytes 2 query_class_in)); len. }
  cbn [snd]. rewrite <- !app_assoc. run; [apply runs_lift|].
  { rewrite (app_assoc (replicate 2 0)). by apply set_field_next. }
  rewrite <- app_assoc. apply runs_lift.
  etransitivity; [by apply (set_field_next _ _ [] (replicate 2 0))|]. unfold query_bytes.
  f_equal. f_equal; [len|]. rewrite <- !app_assoc. reflexivity.
Qed.

(** [n] datagrams in a row can be sent. *)
Definition writable_times (w : world) (k : nat) (rest : list event) : Prop :=
  w_aborted w = false
  /\ exists l, w_events w = map EvReady l ++ rest /\ length l = k /\ Forall (fun n => 0 <= n) l.

Lemma later_writable w w' k rest : later w w' -> writable_times w k rest -> writable_times w' k rest.
Proof. intros [n ->]. done. Qed.

Lemma send_packet_consumes q ip : consumes (fun _ : unit => e ← select; send_packet_body q ip e).
Proof.
  apply consumes_select. intros [] e w [] w'. destruct e; cbn [send_packet_body]; try done.
  - by intros [= <-].
  - intros (? & ? & _ & (? & ? & _ & [=])%bind_inv)%bind_inv.
  - by intros [= <-].
Qed.

Lemma send_packet_writable q ip w k rest :
  writable_times w (S k) rest -> 12 + cursor q <= zlen (packet q) -> 0 <= cursor q ->
  exists w', netbios_ns_send_packet q ip w = Done (12 + cursor q, w') /\ writable_times w' k rest
    /\ w_tx w' = w_tx w ++ [Datagram ip (take (Z.to_nat (12 + cursor q)) (packet q))]
    /\ w_coin w' = w_coin w /\ w_tick w' = w_tick w.
Proof.
  intros (Ha & [|n l] & El & Hk & Hn) Hq Hc; [done|]. apply Forall_cons in Hn as [Hn Hl]. cbn [map app] in El.
  unfold netbios_ns_send_packet. rewrite loop_unfold by apply send_packet_consumes.
  rewrite (bind_Done _ _ _ (inr (12 + cursor q)) (set_tx (set_events w (map EvReady l ++ rest))
    (w_tx w ++ [Datagram ip (take (Z.to_nat (12 + cursor q)) (packet q))]))).
  - eexists. split; [done|]. split_and!; try done. split; [done|]. exists l. cbn in Hk. auto.
  - unfold select. unfold mbind at 1, io_bind at 1. rewrite Ha, El. cbn [obind send_packet_body].
    rewrite sub_Some by (unfold sizeof_netbios_query_packet; lia). unfold mbind, io_bind, sendto.
    cbn [access lift checked obind]. rewrite (proj2 (Z.ltb_ge n 0)) by lia. cbn [obind]. unfold sizeof_netbios_query_packet.
    rewrite drop_0. cbn [mret io_ret]. unfold mret, io_ret. do 3 f_equal. len.
Qed.

(** The broadcast addresses of the interfaces that are up and can broadcast. *)
Definition eligible (a : ifaddrs) : bool :=
  negb ((Z.land (ifa_flags a) IFF_BROADCAST =? 0) || (Z.land (ifa_flags a) IFF_UP =? 0)).
Definition target (a : ifaddrs) : option Z :=
  if eligible a && bool_decide (ifa_family a = Some PF_INET) then ifa_broadaddr a else None.
Definition targets (addrs : list ifaddrs) : list Z := omap target addrs.

Lemma targets_cons a addrs :
  targets (a :: addrs) = if target a is Some ip then ip :: targets addrs else targets addrs.
Proof. done. Qed.

(** getifaddrs gives an address for every interface that can broadcast. *)
Definition ifaddrs_ok (addrs : list ifaddrs) : Prop :=
  Forall (fun a => eligible a = true -> ifa_family a <> None) addrs.

Definition destinations (getifaddrs : option (list ifaddrs)) (ip : Z) : list Z :=
  if ip =? 0 then (if getifaddrs is Some addrs then targets addrs else []) else [ip].

Lemma broadcast_writable q addrs w rest :
  ifaddrs_ok addrs -> writable_times w (length (targets addrs)) rest ->
  12 + cursor q = zlen (packet q) -> 0 <= cursor q ->
  exists w', broadcast_loop q addrs w = Done (tt, w') /\ writable_times w' 0 rest
    /\ w_tx w' = w_tx w ++ map (fun ip => Datagram ip (packet q)) (targets addrs).
Proof.
  intros Hok. revert w. induction Hok as [|a addrs Ha _ IH]; intros w Hw Hq Hc.
  - exists w. rewrite app_nil_r. done.
  - cbn [broadcast_loop]. rewrite targets_cons in *. unfold target, eligible in *.
    destruct (_ || _); cbn [negb andb] in *; [by apply IH|].
    destruct (ifa_family a) as [family|] eqn:Ef; [|by destruct Ha].
    unfold mbind at 1, io_bind at 1. cbn [access lift checked obind].
    destruct (Z.eqb_spec family PF_INET) as [->|Hf]; cbn [negb].
    + rewrite bool_decide_true in * by done. destruct (ifa_broadaddr a) as [ip|]; [|by apply IH].
      destruct (send_packet_writable q ip w _ rest Hw) as (w1 & E1 & Hw1 & Htx & _); [lia..|].
      rewrite (bind_Done _ _ _ _ _ E1). destruct (IH w1 Hw1 Hq Hc) as (w2 & E2 & Hw2 & Htx2).
      exists w2. do 2 (split; [done|]). rewrite Htx2, Htx, <- app_assoc. cbn [map app]. do 3 f_equal.
      f_equal. rewrite Hq. unfold zlen. rewrite Nat2Z.id. by rewrite take_ge.
    + rewrite bool_decide_false in * by congruence. by apply IH.
Qed.

Definition type_code (ty : name_query_type) : option Z :=
  match ty with
  | NAME_QUERY_TYPE_NB => Some query_type_nb
  | NAME_QUERY_TYPE_NBSTAT => Some query_type_nbstat
  | NAME_QUERY_TYPE_INVALID => None
  end.

Lemma length_query_bytes t f qt nm : length nm = 34%nat -> length (query_bytes t f qt nm) = 50%nat.
Proof. intros H. unfold query_bytes. rewrite !length_app, !length_le_bytes, length_replicate, H. done. Qed.

Lemma send_name_query_spec ifs ns ip ty code s query_flag w rest :
  lucky w -> type_code ty = Some code -> length s = 33%nat -> cstring_ok s -> 0 <= query_flag < 65536 ->
  (forall addrs, ifs = Some addrs -> ifaddrs_ok addrs) ->
  writable_times w (length (destinations ifs ip)) rest ->
  exists w', netbios_ns_send_name_query ifs ns ip ty (s ++ [0]) query_flag w
      = Done ((0, set_trn_id ns (u16 (last_trn_id ns + 1))), w')
    /\ w_tx w' = w_tx w ++ map (fun d => Datagram d
         (query_bytes (u16 (last_trn_id ns + 1)) query_flag code (s ++ [0]))) (destinations ifs ip)
    /\ w_events w' = rest /\ w_aborted w' = false.
Proof.
  intros Hw Hty Hl Hs Hf Hifs Hwr.
  set (p := query_bytes (u16 (last_trn_id ns + 1)) query_flag code (s ++ [0])).
  assert (Hp : zlen p = 12 + 38) by (unfold zlen, p; rewrite length_query_bytes; [done|rewrite length_app, Hl; done]).
  destruct (name_query_packet_spec ns code s query_flag w Hw Hl Hs Hf) as (w1 & E1 & L1). fold p in E1.
  pose proof (later_writable _ _ _ _ L1 Hwr) as Hwr1.
  assert (Htx : w_tx w1 = w_tx w) by (by destruct L1 as [n ->]).
  assert (Hrun : netbios_ns_send_name_query ifs ns ip ty (s ++ [0]) query_flag w
    = (if negb (ip =? 0)
       then (r ← netbios_ns_send_packet (Query 38 38 p) ip;
             mret (if r <? 0 then (-1, ns) else (0, set_trn_id ns (u16 (last_trn_id ns + 1)))))
       else (_ ← netbios_ns_broadcast_packet ifs (Query 38 38 p);
             mret (0, set_trn_id ns (u16 (last_trn_id ns + 1))))) w1).
  { destruct ty; cbn in Hty; [done|injection Hty as <-..];
      unfold netbios_ns_send_name_query; by rewrite (bind_Done _ _ _ _ _ E1). }
  rewrite Hrun, <- Htx. clear Hrun. unfold destinations in *. destruct (ip =? 0); cbn [negb].
  - destruct ifs as [addrs|]; unfold netbios_ns_broadcast_packet.
    + destruct (broadcast_writable (Query 38 38 p) addrs w1 rest) as (w2 & E2 & (Ha & l & El & Hk & _) & Htx2);
        [by apply Hifs|done|done|done|].
      rewrite (bind_Done _ _ _ _ _ E2). exists w2. split_and!; auto. by destruct l.
    + rewrite (bind_Done _ _ _ tt w1) by done. exists w1. destruct Hwr1 as (Ha & l & El & Hk & _).
      rewrite app_nil_r. split_and!; auto. by destruct l.
  - destruct (send_packet_writable (Query 38 38 p) ip w1 0 rest Hwr1) as (w2 & E2 & (Ha & l & El & Hk & _) & Htx2 & _);
      [cbn [cursor packet]; lia|done|].
    rewrite (bind_Done _ _ _ _ _ E2). exists w2. split_and!; auto; [|by destruct l].
    rewrite Htx2. cbn [map packet cursor]. do 4 f_equal. unfold zlen in Hp. by rewrite take_ge by lia.
Qed.

(** A name query on the wire: in a world where memory is there and the
    socket can be written, netbios_ns_send_name_query sends exactly one
    datagram to the host asked, or one to the broadcast address of each IPv4
    interface that is up, each the 50 bytes of the question of RFC 1002 with
    the next transaction identifier, and remembers this identifier. *)
Theorem name_query_wire ifs ns ip ty code s query_flag w rest :
  lucky w -> type_code ty = Some code -> length s = 33%nat -> cstring_ok s -> 0 <= query_flag < 65536 ->
  (forall addrs, ifs = Some addrs -> ifaddrs_ok addrs) ->
  writable_times w (length (destinations ifs ip)) rest ->
  exists w', netbios_ns_send_name_query ifs ns ip ty (s ++ [0]) query_flag w
      = Done ((0, set_trn_id ns (u16 (last_trn_id ns + 1))), w')
    /\ w_tx w' = w_tx w ++ map (fun d => Datagram d
         (query_bytes (u16 (last_trn_id ns + 1)) query_flag code (s ++ [0]))) (destinations ifs ip).
Proof.
  intros Hw Hty Hl Hs Hf Hifs Hwr.
  destruct (send_name_query_spec ifs ns ip _ _ _ _ _ _ Hw Hty Hl Hs Hf Hifs Hwr) as (w' & E & Htx & _). eauto.
Qed.

(** ** A machine with two interfaces, and a session *)

Definition some_ifs : list ifaddrs :=
  [IfAddr 1 (Some 2) (Some 0x7fffff7f); IfAddr 3 (Some 2) (Some 0xff01a8c0); IfAddr 3 (Some 10) None].

Definition some_ns : netbios_ns := Ns 3 0xffff [] (replicate 1500 0) (AbortCtx 4 5) 0 false 1 [].

Definition some_world (l : list event) : world := World (fun _ => true) (fun _ => 0) (fun _ _ => 0) 0 l false [] [].

Lemma name_query_wire_witness :
  exists w', netbios_ns_send_name_query (Some some_ifs) some_ns 0 NAME_QUERY_TYPE_NB
      ([32; 67; 75] ++ replicate 30 65 ++ [0]) 0 (some_world [EvReady 50])
      = Done ((0, set_trn_id some_ns 0), w')
    /\ w_tx w' = [Datagram 0xff01a8c0 ([0; 0; 0; 0; 0; 1; 0; 0; 0; 0; 0; 0; 32; 67; 75]
                   ++ replicate 30 65 ++ [0; 0; 0x20; 0; 1])].
Proof.
  destruct (name_query_wire (Some some_ifs) some_ns 0 NAME_QUERY_TYPE_NB query_type_nb
              ([32; 67; 75] ++ replicate 30 65) 0 (some_world [EvReady 50]) []) as (w' & E & H);
    [done|done|done|decided|lia| | |exists w'; split; [exact E|exact H]].
  - intros addrs [= <-]. repeat constructor; done.
  - split; [done|]. exists [50]. split; [done|]. split; [done|]. by repeat constructor.
Defined.

(** * Receiving *)

Definition event_ok (e : event) : Prop := if e is EvDatagram _ data then bytes_ok data else True.

(** [w'] has used up a part of the events of [w]. *)
Definition after (w w' : world) : Prop :=
  (exists l, w_events w = l ++ w_events w') /\ w_coin w' = w_coin w /\ (pending w -> pending w').

Lemma after_refl w : after w w.
Proof. split; [by exists []|done]. Qed.

Lemma after_trans w1 w2 w3 : after w1 w2 -> after w2 w3 -> after w1 w3.
Proof.
  intros [[l1 E1] [C1 P1]] [[l2 E2] [C2 P2]]. split; [exists (l1 ++ l2); by rewrite E1, E2, app_assoc|].
  split; [congruence|auto].
Qed.

Lemma later_after w w' : later w w' -> after w w'.
Proof. intros [n ->]. split; [by exists []|done]. Qed.

Lemma after_lucky w w' : after w w' -> lucky w -> lucky w'.
Proof. intros (_ & C & _) H n. rewrite C. apply H. Qed.

Lemma after_events w w' : after w w' -> Forall event_ok (w_events w) -> Forall event_ok (w_events w').
Proof. intros [[l E] _]. rewrite E, Forall_app. tauto. Qed.

Lemma after_length w w' : after w w' -> (length (w_events w') <= length (w_events w))%nat.
Proof. intros [[l ->] _]. rewrite length_app. lia. Qed.

Lemma select_after w e w' : select w = Done (e, w') ->
  after w w' /\ (e = EvAbort \/ (e ∈ w_events w /\ (length (w_events w') < length (w_events w))%nat)).
Proof.
  unfold select. destruct (w_aborted w) eqn:Ea; [intros [= <- <-]; auto using after_refl|].
  destruct (w_events w) as [|e0 l] eqn:El; [done|]. intros H.
  assert (E : e = e0 /\ w_events w' = l /\ w_coin w' = w_coin w
    /\ (w_aborted w' = true \/ e0 <> EvAbort)) by (destruct e0; simplify_eq; auto).
  destruct E as (-> & El' & C & Hab). split; [|right; split; [by left|rewrite El'; cbn; lia]].
  split; [exists [e0]; by rewrite El', El|]. split; [done|]. unfold pending. rewrite Ea, El, El'.
  intros [|[<-|]%elem_of_cons]; [done| |auto]. destruct Hab; [auto|done].
Qed.

Definition buffer_ok (ns : netbios_ns) : Prop :=
  zlen (buffer ns) = RECV_BUFFER_SIZE /\ bytes_ok (buffer ns).

(** The datagram at the start of the buffer. *)
Lemma put_datagram b data :
  zlen b = RECV_BUFFER_SIZE -> bytes_ok b -> bytes_ok data ->
  exists b', put b 0 (take (Z.to_nat RECV_BUFFER_SIZE) data) = Some b'
    /\ zlen b' = RECV_BUFFER_SIZE /\ bytes_ok b'
    /\ exists stale, b' = take (Z.to_nat RECV_BUFFER_SIZE) data ++ stale.
Proof.
  intros Hl Hb Hd. destruct (proj2 (put_is_Some b 0 (take (Z.to_nat RECV_BUFFER_SIZE) data))) as [b' E].
  { unfold RECV_BUFFER_SIZE in *. len. }
  exists b'. split; [done|]. split; [by rewrite (length_put _ _ _ _ E)|]. split.
  - eapply put_ok; [exact Hb|by apply bytes_ok_take|exact E].
  - apply put_inv in E as (_ & _ & ->). by eexists.
Qed.

(** An answer from [ip] that was accepted. *)
Definition accepted (ns : netbios_ns) (check : bool) (wait_ip : Z) (w : world)
    (r ip : Z) (ns' : netbios_ns) (out : option name_query) : Prop :=
  exists data stale, EvDatagram ip data ∈ w_events w
    /\ (wait_ip = 0 \/ wait_ip = ip)
    /\ r = zlen (take (Z.to_nat RECV_BUFFER_SIZE) data) /\ 12 <= r
    /\ buffer ns' = take (Z.to_nat RECV_BUFFER_SIZE) data ++ stale
    /\ netbios_ns_handle_query ns' r check ip (Some QueryInvalid) = Done (0, out).

Definition received (ns : netbios_ns) (check : bool) (wait_ip : Z) (w : world)
    (v : Z * Z * (netbios_ns * option name_query)) (w' : world) : Prop :=
  let '(r, ip, (ns', out)) := v in
  after w w' /\ buffer_ok ns' /\ (exists b, ns' = set_buffer ns b) /\ answer_ok out
  /\ (r <> -1 -> (length (w_events w') < length (w_events w))%nat)
  /\ (((r = -1 \/ r = 0) /\ out = Some QueryInvalid)
      \/ accepted ns check wait_ip w r ip ns' out).

Definition receiving (ns : netbios_ns) (w : world) (s : netbios_ns * option name_query) (w' : world) : Prop :=
  after w w' /\ buffer_ok s.1 /\ (exists b, s.1 = set_buffer ns b) /\ s.2 = Some QueryInvalid.

Lemma recv_step ns w check wait_ip s w1 :
  Forall event_ok (w_events w) -> receiving ns w s w1 ->
  match (e ← select; recv_body check wait_ip s e) w1 with
  | Done (inl s', w') => receiving ns w s' w' /\ (length (w_events w') < length (w_events w1))%nat
  | Done (inr v, w') => received ns check wait_ip w v w'
  | Fault => False
  | Blocked => ~ pending w1
  end.
Proof.
  intros Hev (Ha & Hb & [b0 Hns] & Hout). destruct s as [ns1 out1]. cbn [fst snd] in *. subst out1.
  unfold mbind, io_bind. destruct (select w1) as [[e w2]| |] eqn:Es; cbn [obind];
    [|by destruct (select_not_Fault w1)|by intros ?%select_pending].
  destruct (select_after _ _ _ Es) as [Ha2 He]. pose proof (after_trans _ _ _ Ha Ha2) as Haw.
  pose proof (after_length _ _ Ha) as Hlen.
  destruct e as [| | |n|ip data]; cbn [recv_body]; unfold mret, io_ret; cbn [received].
  1-4: destruct He as [He|[_ Hlt]]; try done; split_and!; cbn [answer_ok]; eauto; try apply Hb; try apply Haw; try done; lia.
  destruct He as [|[He Hlt]]; [done|].
  assert (Hd : bytes_ok data).
  { apply (proj1 (Forall_forall _ _) (after_events _ _ Ha Hev) _ He). }
  destruct (put_datagram (buffer ns1) data) as (b' & Ep & Hl & Hok & stale & Eb); [apply Hb..|done|].
  rewrite Ep. unfold mbind, io_bind. cbn [access lift checked obind].
  assert (Hb' : buffer_ok (set_buffer ns1 b')) by done.
  assert (Hns' : exists b, set_buffer ns1 b' = set_buffer ns b) by (exists b'; by rewrite Hns).
  destruct (negb (wait_ip =? 0) && negb (wait_ip =? ip)) eqn:Ew; [by repeat split; try apply Haw; try apply Hb'|].
  set (got := take (Z.to_nat RECV_BUFFER_SIZE) data) in *.
  destruct (handle_query_spec (set_buffer ns1 b') (zlen got) check ip (Some QueryInvalid))
    as (r & out' & Eh & Hr & Hans & H12); [done|done|unfold got, RECV_BUFFER_SIZE; len|done|].
  unfold lift. rewrite Eh. cbn [obind fst snd]. destruct Hr as [->|[-> ->]]; cbn [Z.eqb].
  - split_and!; auto; try apply Hb'; try lia. right. exists data, stale. split_and!; auto.
    + destruct Ha as [[l ->] _]. apply elem_of_app. auto.
    + destruct (Z.eqb_spec wait_ip 0), (Z.eqb_spec wait_ip ip); cbn in Ew; auto; done.
  - by split_and!.
Qed.

Lemma recv_spec ns check wait_ip out0 w :
  buffer_ok ns -> Forall event_ok (w_events w) ->
  netbios_ns_recv ns check wait_ip (Some out0) w <> Fault
  /\ (pending w -> netbios_ns_recv ns check wait_ip (Some out0) w <> Blocked)
  /\ forall v w', netbios_ns_recv ns check wait_ip (Some out0) w = Done (v, w') ->
       received ns check wait_ip w v w'.
Proof.
  intros Hb Hev. unfold netbios_ns_recv. cbn [fmap option_fmap option_map].
  assert (H0 : receiving ns w (ns, Some QueryInvalid) w).
  { split_and!; auto using after_refl; try apply after_refl. exists (buffer ns). by destruct ns. }
  pose proof (fun s w1 Hs => recv_step ns w check wait_ip s w1 Hev Hs) as Hstep.
  split_and!.
  - apply (loop_not_Fault _ (receiving ns w)); [| |done]; intros s w1 *; [intros Hs E|intros Hs E];
      specialize (Hstep s w1 Hs); rewrite E in Hstep; tauto.
  - intros Hp. apply (loop_not_Blocked _ (fun s w1 => receiving ns w s w1 /\ pending w1)); [| |done].
    + intros s w1 s' w2 [Hs _] E. specialize (Hstep s w1 Hs). rewrite E in Hstep.
      destruct Hstep as [Hs' Hlt]. split; [|done]. split; [done|]. destruct Hs' as ((_ & _ & H) & _). auto.
    + intros s w1 [Hs Hp1] E. specialize (Hstep s w1 Hs). by rewrite E in Hstep.
  - intros v w'. apply (loop_invariant _ (receiving ns w)); [| |done]; intros s w1 * Hs E;
      specialize (Hstep s w1 Hs); rewrite E in Hstep; tauto.
Qed.

(** * Sending in any world *)

(** No fault; an end when an abort is pending; a result leaves a later world
    and satisfies [Q]. *)
Definition safe {A} (w : world) (m : io A) (Q : A -> Prop) : Prop :=
  m w <> Fault /\ (pending w -> m w <> Blocked)
  /\ forall a w', m w = Done (a, w') -> after w w' /\ Q a.

Lemma safe_bind {A B} (m : io A) (k : A -> io B) P Q w :
  safe w m P -> (forall a w1, after w w1 -> P a -> safe w1 (k a) Q) -> safe w (m ≫= k) Q.
Proof.
  intros (Hf & Hp & Hd) Hk. unfold safe, mbind, io_bind.
  destruct (m w) as [[a w1]| |] eqn:E; cbn [obind]; [|done|].
  2: { split; [done|]. split; [|done]. intros Hpw. by destruct (Hp Hpw). }
  destruct (Hd _ _ eq_refl) as [Ha HP]. destruct (Hk a w1 Ha HP) as (H1 & H2 & H3). split_and!; [done| |].
  - intros Hpw. apply H2. destruct Ha as (_ & _ & H). auto.
  - intros b w' E'. destruct (H3 _ _ E') as [Ha' HQ]. split; [by eapply after_trans|done].
Qed.

Lemma safe_ret {A} (a : A) (Q : A -> Prop) w : Q a -> safe w (mret a) Q.
Proof. intros H. split_and!; [done..|]. intros a' w' [= <- <-]. auto using after_refl. Qed.

Lemma safe_runs {A} (m : io A) a (Q : A -> Prop) w : runs w m a -> Q a -> safe w m Q.
Proof.
  intros (w' & E & L) HQ. split_and!; [by rewrite E..|]. intros a' w'' E'. rewrite E in E'. simplify_eq.
  auto using later_after.
Qed.

Lemma safe_weaken {A} (m : io A) (P Q : A -> Prop) w : safe w m P -> (forall a, P a -> Q a) -> safe w m Q.
Proof. intros (Hf & Hp & Hd) H. split_and!; [done..|]. intros a w' E. destruct (Hd _ _ E). auto. Qed.

Lemma safe_lift {A} (m : outcome A) a (Q : A -> Prop) w : m = Done a -> Q a -> safe w (lift m) Q.
Proof. intros ->. by apply safe_ret. Qed.

Lemma safe_flip w : lucky w -> safe w flip (fun b => b = true).
Proof.
  intros Hw. split_and!; [done..|]. intros a w' [= <- <-]. split; [by apply later_after; exists 1%nat|apply Hw].
Qed.

Lemma safe_pick w : safe w pick (fun _ => True).
Proof. split_and!; [done..|]. intros a w' [= <- <-]. split; [by apply later_after; exists 1%nat|done]. Qed.

Lemma safe_coin w : safe w flip (fun _ => True).
Proof. split_and!; [done..|]. intros a w' [= <- <-]. split; [by apply later_after; exists 1%nat|done]. Qed.

(** A loop whose rounds are safe, use up events and keep an invariant of its
    state. *)
Lemma safe_loop {A B} (body : A -> io (A + B)) (I : A -> Prop) (Q : B -> Prop) a w :
  (forall a w1, after w w1 -> I a ->
     safe w1 (body a) (fun r => match r with inl a => I a | inr b => Q b end)
     /\ forall a' w2, body a w1 = Done (inl a', w2) -> (length (w_events w2) < length (w_events w1))%nat) ->
  I a -> safe w (loop body a) Q.
Proof.
  intros Hb Ha.
  assert (Hstep : forall a1 w1 a2 w2, after w w1 /\ I a1 -> body a1 w1 = Done (inl a2, w2) -> after w w2 /\ I a2).
  { intros a1 w1 a2 w2 [H1 H2] E. destruct (Hb a1 w1 H1 H2) as [(_ & _ & H) _].
    destruct (H _ _ E) as [H3 H4]. split; [by eapply after_trans|done]. }
  split_and!.
  - apply (loop_not_Fault _ (fun a w1 => after w w1 /\ I a)); [done| |auto using after_refl].
    intros a1 w1 [H1 H2]. by apply (Hb a1 w1 H1 H2).
  - intros Hp. apply (loop_not_Blocked _ (fun a w1 => after w w1 /\ I a)); [| |auto using after_refl].
    + intros a1 w1 a2 w2 H E. split; [by eapply Hstep|]. destruct H as [H1 H2].
      by apply (Hb a1 w1 H1 H2) in E.
    + intros a1 w1 [H1 H2]. apply (Hb a1 w1 H1 H2). destruct H1 as (_ & _ & H). auto.
  - intros b w'. apply (loop_invariant _ (fun a w1 => after w w1 /\ I a) (fun b w' => after w w' /\ Q b));
      [done| |auto using after_refl].
    intros a1 w1 b2 w2 [H1 H2] E. destruct (Hb a1 w1 H1 H2) as [(_ & _ & H) _].
    destruct (H _ _ E) as [H3 H4]. split; [by eapply after_trans|done].
Qed.

Lemma safe_select w : safe w select (fun _ => True).
Proof.
  split_and!; [apply select_not_Fault|apply select_pending|]. intros e w' E. split; [by eapply select_after|done].
Qed.

Lemma safe_sendto n ip data w : safe w (sendto n ip data) (fun _ => True).
Proof.
  unfold sendto. destruct (n <? 0); (split_and!; [done..|]); intros a w' [= <- <-]; (split; [|done]);
    split; try done; by exists [].
Qed.

Lemma safe_send_packet q ip w : 12 + cursor q <= zlen (packet q) -> 0 <= cursor q ->
  safe w (netbios_ns_send_packet q ip) (fun _ => True).
Proof.
  intros Hq Hc. apply (safe_loop _ (fun _ => True)); [|done]. intros [] w1 _ _.
  split; [|intros a' w2 E; exact (send_packet_consumes q ip tt w1 a' w2 E)].
  eapply safe_bind; [apply safe_select|]. intros e w2 _ _. destruct e; cbn [send_packet_body]; try by apply safe_ret.
  eapply safe_bind; [eapply (safe_lift _ _ (fun _ => True)); [|done]|].
  - rewrite sub_Some by (unfold sizeof_netbios_query_packet; lia). done.
  - intros data w3 _ _. eapply safe_bind; [apply safe_sendto|]. intros r w4 _ _. by apply safe_ret.
Qed.

Lemma safe_broadcast q addrs w : ifaddrs_ok addrs -> 12 + cursor q <= zlen (packet q) -> 0 <= cursor q ->
  safe w (broadcast_loop q addrs) (fun _ => True).
Proof.
  intros Hok Hq Hc. revert w. induction Hok as [|a addrs Ha _ IH]; intros w; cbn [broadcast_loop]; [by apply safe_ret|].
  unfold eligible in Ha. destruct (_ || _) eqn:E; [apply IH|]. destruct (ifa_family a) as [f|]; [|by destruct (Ha eq_refl)].
  eapply safe_bind; [by eapply (safe_lift _ _ (fun _ => True))|]. intros f' w1 _ _. destruct (f' =? PF_INET); cbn [negb]; [|apply IH].
  destruct (ifa_broadaddr a); [|apply IH]. eapply safe_bind; [by apply safe_send_packet|]. intros r w2 _ _. apply IH.
Qed.

(** What a query leaves of the session: the transaction identifier moves on. *)
Definition queried (ns : netbios_ns) (r : Z * netbios_ns) : Prop :=
  (r.1 = -1 /\ r.2 = ns) \/ (r.1 = 0 /\ r.2 = set_trn_id ns (u16 (last_trn_id ns + 1))).

Lemma safe_send_name_query ifs ns ip ty s query_flag w :
  lucky w -> length s = 33%nat -> cstring_ok s -> 0 <= query_flag < 65536 ->
  (forall addrs, ifs = Some addrs -> ifaddrs_ok addrs) ->
  safe w (netbios_ns_send_name_query ifs ns ip ty (s ++ [0]) query_flag) (queried ns).
Proof.
  intros Hw Hl Hs Hf Hifs.
  assert (Hlen : forall qt, zlen (query_bytes (u16 (last_trn_id ns + 1)) query_flag qt (s ++ [0])) = 12 + 38).
  { intros qt. unfold zlen. rewrite length_query_bytes; [done|]. rewrite length_app, Hl. done. }
  unfold netbios_ns_send_name_query. destruct ty; [apply safe_ret; by left|..].
  all: eapply safe_bind; [eapply (safe_runs _ _ (eq _)); [by apply name_query_packet_spec|reflexivity]|].
  all: intros q w1 _ <-; destruct (negb (ip =? 0)).
  1,3: eapply safe_bind; [apply safe_send_packet; cbn [cursor packet]; rewrite ?Hlen; lia|]; intros r w2 _ _;
       apply safe_ret; destruct (r <? 0); [by left|by right].
  all: apply (safe_bind _ _ (fun _ => True)); [|intros r w2 _ _; apply safe_ret; by right].
  all: unfold netbios_ns_broadcast_packet; destruct ifs as [addrs|]; [|by apply safe_ret].
  all: apply safe_broadcast; [by apply Hifs|cbn [cursor packet]; rewrite Hlen; lia|done].
Qed.

(** * The table of entries *)

Definition is_named (e : netbios_ns_entry) : bool := has_flag e NS_ENTRY_FLAG_VALID_NAME.

Definition entry_ok (next : Z) (x : Z * netbios_ns_entry) : Prop :=
  x.1 < next /\ has_flag x.2 NS_ENTRY_FLAG_VALID_IP = true
  /\ length (name x.2) = 16%nat /\ length (group x.2) = 16%nat.

(** Pointers are distinct, and so are the addresses. *)
Definition queue_ok (next : Z) (q : list (Z * netbios_ns_entry)) : Prop :=
  NoDup (map fst q) /\ NoDup (map (fun x => address x.2) q) /\ Forall (entry_ok next) q.

(** The entries that have a name: those the user knows of. *)
Definition named (q : list (Z * netbios_ns_entry)) : gset Z :=
  list_to_set (map fst (List.filter (fun x => is_named x.2) q)).

Lemma elem_of_named q p : p ∈ named q <-> exists e, (p, e) ∈ q /\ is_named e = true.
Proof.
  unfold named. rewrite elem_of_list_to_set, list_elem_of_In, in_map_iff. split.
  - intros ([p' e] & <- & [H1 H2]%filter_In). exists e. split; [by apply list_elem_of_In|done].
  - intros (e & H1 & H2). exists (p, e). split; [done|]. apply filter_In. split; [by apply list_elem_of_In|done].
Qed.

Lemma queue_det (q : list (Z * netbios_ns_entry)) p e e' : NoDup (map fst q) -> (p, e) ∈ q -> (p, e') ∈ q -> e = e'.
Proof.
  induction q as [|[p0 e0] q IH]; cbn [map]; [by intros _ ?%elem_of_nil|].
  intros [Hni Hnd]%NoDup_cons [E|H]%elem_of_cons [E'|H']%elem_of_cons; simplify_eq; auto; exfalso; apply Hni.
  - by apply (list_elem_of_fmap_2 fst) in H'.
  - by apply (list_elem_of_fmap_2 fst) in H.
Qed.

Lemma elem_of_queue_remove q p x : x ∈ queue_remove q p <-> x ∈ q /\ x.1 <> p.
Proof.
  unfold queue_remove. rewrite !list_elem_of_In, filter_In, negb_true_iff, Z.eqb_neq. done.
Qed.

Lemma queue_remove_sublist q p : queue_remove q p `sublist_of` q.
Proof.
  unfold queue_remove. induction q as [|x q IH]; cbn; [constructor|]. destruct (negb _); by constructor.
Qed.

Lemma queue_remove_ok next q p : queue_ok next q -> queue_ok next (queue_remove q p).
Proof.
  intros (H1 & H2 & H3). pose proof (queue_remove_sublist q p) as Hs. split_and!.
  - eapply sublist_NoDup; [exact H1|]. by apply (fmap_sublist fst).
  - eapply sublist_NoDup; [exact H2|]. by apply (fmap_sublist (fun x => address x.2)).
  - apply Forall_forall. intros x [Hx _]%elem_of_queue_remove. by apply (proj1 (Forall_forall _ _) H3).
Qed.

Lemma named_remove q p : named (queue_remove q p) = named q ∖ {[p]}.
Proof.
  apply set_eq. intros x. rewrite elem_of_difference, elem_of_singleton, !elem_of_named. split.
  - intros (e & [He Hx]%elem_of_queue_remove & Hn). cbn in Hx. eauto.
  - intros [(e & He & Hn) Hx]. exists e. split; [|done]. by apply elem_of_queue_remove.
Qed.

Lemma map_fst_queue_set q p e : map fst (queue_set q p e) = map fst q.
Proof.
  unfold queue_set. rewrite map_map. apply map_ext_in. intros [p' e'] _. cbn. destruct (Z.eqb_spec p' p); [done|done].
Qed.

Lemma elem_of_queue_set q p e e0 x : NoDup (map fst q) -> (p, e0) ∈ q ->
  x ∈ queue_set q p e <-> x = (p, e) \/ (x ∈ q /\ x.1 <> p).
Proof.
  intros Hnd Hp. unfold queue_set. rewrite !list_elem_of_In, in_map_iff. split.
  - intros ([p' e'] & <- & Hin). cbn. destruct (Z.eqb_spec p' p); auto.
  - intros [->|[Hin Hx]].
    + exists (p, e0). cbn. rewrite Z.eqb_refl. split; [done|by apply list_elem_of_In].
    + exists x. by rewrite (proj2 (Z.eqb_neq _ _)) by done.
Qed.

Lemma queue_set_ok next q p e0 e : queue_ok next q -> (p, e0) ∈ q ->
  address e = address e0 -> entry_ok next (p, e) -> queue_ok next (queue_set q p e).
Proof.
  intros (H1 & H2 & H3) Hp Ha He. split_and!.
  - by rewrite map_fst_queue_set.
  - assert (E : map (fun x => address x.2) (queue_set q p e) = map (fun x => address x.2) q); [|by rewrite E].
    unfold queue_set. rewrite map_map. apply map_ext_in. intros [p' e'] Hin%list_elem_of_In. cbn.
    destruct (Z.eqb_spec p' p) as [->|]; [|done]. cbn. by rewrite (queue_det _ _ _ _ H1 Hin Hp).
  - apply Forall_forall. intros x Hx. rewrite (elem_of_queue_set q p e e0) in Hx by done.
    destruct Hx as [->|[Hx _]]; [done|]. by apply (proj1 (Forall_forall _ _) H3).
Qed.

Lemma named_set q p e0 e : NoDup (map fst q) -> (p, e0) ∈ q ->
  named (queue_set q p e) = if is_named e then {[p]} ∪ named q else named q ∖ {[p]}.
Proof.
  intros Hnd Hp. apply set_eq. intros x. rewrite elem_of_named. setoid_rewrite elem_of_queue_set; [|done|exact Hp].
  destruct (is_named e) eqn:En.
  - rewrite elem_of_union, elem_of_singleton, elem_of_named. split.
    + intros (e' & [E|[Hin _]] & Hn); [simplify_eq; auto|eauto].
    + intros [->|(e' & Hin & Hn)]; [eauto|]. destruct (decide (x = p)) as [->|]; eauto.
  - rewrite elem_of_difference, elem_of_singleton, elem_of_named. split.
    + intros (e' & [E|[Hin Hx]] & Hn); [simplify_eq; congruence|]. cbn in Hx. eauto.
    + intros [(e' & Hin & Hn) Hx]. eauto.
Qed.

Lemma find_ptr (q : list (Z * netbios_ns_entry)) p e : NoDup (map fst q) -> (p, e) ∈ q ->
  List.find (fun x => x.1 =? p) q = Some (p, e).
Proof.
  induction q as [|[p0 e0] q IH]; cbn [map List.find fst]; [by intros _ ?%elem_of_nil|].
  intros [Hni Hnd]%NoDup_cons [E|H]%elem_of_cons.
  - simplify_eq. by rewrite Z.eqb_refl.
  - rewrite (proj2 (Z.eqb_neq p0 p)); [by apply IH|]. intros ->. apply Hni.
    by apply (list_elem_of_fmap_2 fst) in H.
Qed.

(** Lookup by address. *)
Lemma entry_find_ip next q ip : Forall (entry_ok next) q ->
  entry_find_loop q None ip = Done (List.find (fun x => address x.2 =? ip) q).
Proof.
  induction 1 as [|[p e] q (_ & Hf & _) _ IH]; cbn [entry_find_loop List.find fst snd]; [done|].
  cbn [fst snd] in Hf. rewrite Hf. cbn [andb obind]. destruct (address e =? ip); [done|exact IH].
Qed.

Lemma find_ip_Some (q : list (Z * netbios_ns_entry)) ip p e : List.find (fun x => address x.2 =? ip) q = Some (p, e) ->
  (p, e) ∈ q /\ address e = ip.
Proof. intros [H E]%find_some. split; [by apply list_elem_of_In|]. cbn in E. lia. Qed.

Lemma find_ip_None (q : list (Z * netbios_ns_entry)) ip :
  List.find (fun x => address x.2 =? ip) q = None -> ip ∉ map (fun x => address x.2) q.
Proof.
  intros H Hin. apply list_elem_of_In, in_map_iff in Hin as (x & <- & Hx).
  pose proof (find_none _ _ H x Hx) as E. cbn in E. lia.
Qed.

(** * Discovery *)

(** The entries the user knows of after the callbacks: an entry is announced
    once, and its removal is told only while it is announced. *)
Fixpoint live (S : gset Z) (log : list callback) : option (gset Z) :=
  match log with
  | [] => Some S
  | OnEntryAdded p _ :: log => if decide (p ∈ S) then None else live ({[p]} ∪ S) log
  | OnEntryRemoved p _ :: log => if decide (p ∈ S) then live (S ∖ {[p]}) log else None
  end.

Lemma live_app S l1 l2 : live S (l1 ++ l2) = live S l1 ≫= fun S => live S l2.
Proof. revert S. induction l1 as [|[] l1 IH]; intros S; cbn [app live]; [done|..]; case_decide; auto. Qed.

(** The state of the discovery, begun in [ns0]. *)
Definition discovering (ns0 ns : netbios_ns) : Prop :=
  buffer_ok ns /\ queue_ok (next_ptr ns) (entry_queue ns)
  /\ exists new, discover_log ns = discover_log ns0 ++ new
     /\ live (named (entry_queue ns0)) new = Some (named (entry_queue ns)).

Lemma discovering_start ns : buffer_ok ns -> queue_ok (next_ptr ns) (entry_queue ns) -> discovering ns ns.
Proof. intros Hb Hq. do 2 (split; [done|]). exists []. by rewrite app_nil_r. Qed.

(** Changes that are not told. *)
Lemma discovering_queue ns0 ns q next :
  discovering ns0 ns -> queue_ok next q -> named q = named (entry_queue ns) ->
  discovering ns0 (set_next_ptr (set_queue ns q) next).
Proof.
  intros (Hb & _ & new & El & Hl) Hq Hn. do 2 (split; [done|]). exists new.
  cbn [set_next_ptr set_queue discover_log entry_queue]. by rewrite Hn.
Qed.

(** Changes that are told. *)
Lemma discovering_tell ns0 ns q c S :
  discovering ns0 ns -> queue_ok (next_ptr ns) q ->
  live (named (entry_queue ns)) [c] = Some S -> named q = S ->
  discovering ns0 (tell (set_queue ns q) c).
Proof.
  intros (Hb & _ & new & El & Hl) Hq Hc Hn. do 2 (split; [done|]). exists (new ++ [c]).
  cbn [tell set_queue discover_log entry_queue].
  rewrite El, <- app_assoc, live_app, Hl, Hn. auto.
Qed.

Lemma expire_step ns0 ns p e :
  discovering ns0 ns -> (p, e) ∈ entry_queue ns ->
  discovering ns0 (set_queue (if is_named e then tell ns (OnEntryRemoved p e) else ns)
                     (queue_remove (entry_queue ns) p)).
Proof.
  intros Hd Hin. pose proof Hd as (_ & Hq & _). destruct (is_named e) eqn:En.
  - change (set_queue (tell ns (OnEntryRemoved p e)) (queue_remove (entry_queue ns) p))
      with (tell (set_queue ns (queue_remove (entry_queue ns) p)) (OnEntryRemoved p e)).
    eapply discovering_tell; [done|by apply queue_remove_ok| |apply named_remove].
    cbn [live]. rewrite decide_True; [done|]. apply elem_of_named. eauto.
  - change (set_queue ns ?q) with (set_next_ptr (set_queue ns q) (next_ptr ns)).
    apply discovering_queue; [done|by apply queue_remove_ok|]. rewrite named_remove.
    apply difference_disjoint_L. intros x Hx ->%elem_of_singleton.
    apply elem_of_named in Hx as (e' & Hin' & Hn). destruct Hq as (Hnd & _).
    rewrite (queue_det _ _ _ _ Hnd Hin Hin') in En. congruence.
Qed.

Definition fresh_at (now remove_timeout : Z) (e : netbios_ns_entry) : Prop :=
  now - last_time_seen e <= remove_timeout.

Lemma expire_spec ns0 now t todo ns :
  discovering ns0 ns -> NoDup (map fst todo) -> (forall x, x ∈ todo -> x ∈ entry_queue ns) ->
  discovering ns0 (expire_loop now t todo ns)
  /\ discover_broadcast_timeout (expire_loop now t todo ns) = discover_broadcast_timeout ns
  /\ forall x, x ∈ entry_queue (expire_loop now t todo ns)
       <-> x ∈ entry_queue ns /\ (x ∈ todo -> fresh_at now t x.2).
Proof.
  revert ns. induction todo as [|[p e] todo IH]; intros ns Hd Hnd Hin; cbn [expire_loop].
  - split_and!; auto; try apply Hd. intros x. split; [|tauto]. intros Hx. split; [done|]. by intros ?%elem_of_nil.
  - cbn [map] in Hnd. apply NoDup_cons in Hnd as [Hni Hnd].
    assert (Hp : (p, e) ∈ entry_queue ns) by (apply Hin; by left).
    assert (Hne : forall x, x ∈ todo -> x.1 <> p).
    { intros x Hx <-. apply Hni. by apply (list_elem_of_fmap_2 fst) in Hx. }
    destruct (now - last_time_seen e >? t) eqn:Et; rewrite Z.gtb_ltb in Et.
    + apply Z.ltb_lt in Et. pose proof (expire_step ns0 ns p e Hd Hp) as Hd'. unfold is_named in Hd'.
      set (ns1 := if has_flag e NS_ENTRY_FLAG_VALID_NAME then tell ns (OnEntryRemoved p e) else ns) in *.
      assert (E1 : entry_queue ns1 = entry_queue ns) by (unfold ns1; by destruct (has_flag _ _)).
      assert (E2 : discover_broadcast_timeout ns1 = discover_broadcast_timeout ns) by (unfold ns1; by destruct (has_flag _ _)).
      rewrite E1. destruct (IH _ Hd' Hnd) as (H1 & H2 & H3).
      { intros x Hx. apply elem_of_queue_remove. split; [apply Hin; by right|auto]. }
      split_and!; [apply H1..|by rewrite H2|]. intros x. rewrite H3. cbn [entry_queue set_queue].
      rewrite elem_of_queue_remove, elem_of_cons. split.
      * intros [[Hx Hxp] Hf]. split; [done|]. intros [->|Hx']; [done|auto].
      * intros [Hx Hf]. split; [|auto]. split; [done|]. intros <-.
        assert (x = (x.1, e)) as Ex.
        { destruct x as [px ex]. f_equal. destruct Hd as (_ & (Hq & _) & _).
          exact (queue_det _ _ _ _ Hq Hx Hp). }
        specialize (Hf (or_introl Ex)). rewrite Ex in Hf. unfold fresh_at in Hf. cbn in Hf. lia.
    + apply Z.ltb_ge in Et. destruct (IH ns Hd Hnd) as (H1 & H2 & H3); [intros x Hx; apply Hin; by right|].
      split_and!; [apply H1..|done|]. intros x. rewrite H3, elem_of_cons. split.
      * intros [Hx Hf]. split; [done|]. intros [->|?]; [done|auto].
      * intros [Hx Hf]. auto.
Qed.

(** ** Answers *)

Lemma has_flag_named f : negb (Z.land (Z.lor f NS_ENTRY_FLAG_VALID_NAME) NS_ENTRY_FLAG_VALID_NAME =? 0) = true.
Proof.
  unfold NS_ENTRY_FLAG_VALID_NAME. apply negb_true_iff, Z.eqb_neq. rewrite Z.land_lor_distr_l.
  intros [_ H]%Z.lor_eq_0_iff. done.
Qed.

Lemma has_flag_ip f :
  Z.land (Z.lor f NS_ENTRY_FLAG_VALID_NAME) NS_ENTRY_FLAG_VALID_IP = Z.land f NS_ENTRY_FLAG_VALID_IP.
Proof.
  unfold NS_ENTRY_FLAG_VALID_NAME, NS_ENTRY_FLAG_VALID_IP. rewrite Z.land_lor_distr_l.
  change (Z.land 2 1) with 0. apply Z.lor_0_r.
Qed.

Lemma copy_name_Done dest b off : length dest = 16%nat -> 0 <= off -> off + 15 <= zlen b ->
  exists d, netbios_ns_copy_name dest b off = Done d /\ length d = 16%nat.
Proof.
  intros Hd H0 H. destruct (proj2 (sub_is_Some b off 15)) as [nm E]; [lia|].
  exists (name_field nm). split; [by apply copy_name_spec|]. apply length_name_field.
  apply length_sub in E. unfold zlen in E. lia.
Qed.

Lemma set_name_spec next p e b n g ty :
  entry_ok next (p, e) -> zlen b = RECV_BUFFER_SIZE -> answer_ok (Some (QueryNbstat n g ty)) ->
  exists e', netbios_ns_entry_set_name e b (Some n) g ty = Done e' /\ entry_ok next (p, e')
    /\ is_named e' = true /\ address e' = address e.
Proof.
  intros (Hp & Hf & Hn & Hg) Hb (Ho & Hon & Hog). cbn [fst snd] in *. unfold netbios_ns_entry_set_name.
  destruct (copy_name_Done (name e) b n) as (d & -> & Hd); [done|lia..|]. cbn [obind].
  assert (Hgrp : exists d', match g with Some off => netbios_ns_copy_name (group e) b off | None => Done (group e) end
    = Done d' /\ length d' = 16%nat).
  { destruct g as [g|]; [|eauto]. destruct (Hog g eq_refl). apply copy_name_Done; [done|lia..]. }
  destruct Hgrp as (d' & -> & Hd'). cbn [obind]. eexists. split; [done|]. split_and!; try done.
  - unfold entry_ok, has_flag in *. cbn [fst snd flag name group]. by rewrite has_flag_ip.
  - apply has_flag_named.
Qed.

Definition new_entry (ip : Z) : netbios_ns_entry :=
  NsEntry ip (replicate 16 0) (replicate 16 0) 0 (Z.lor 0 NS_ENTRY_FLAG_VALID_IP) 0.

Lemma entry_add_ok next q ip : queue_ok next q -> ip ∉ map (fun x => address x.2) q ->
  queue_ok (next + 1) ((next, new_entry ip) :: q).
Proof.
  intros (H1 & H2 & H3) Hip. split_and!; cbn [map fst snd address].
  - apply NoDup_cons. split; [|done]. intros Hin. apply list_elem_of_In, in_map_iff in Hin as (x & Ex & Hx%list_elem_of_In).
    apply (proj1 (Forall_forall _ _) H3) in Hx as (Hlt & _). lia.
  - by apply NoDup_cons.
  - apply Forall_cons. split; [split_and!; cbn; [lia|done..]|]. eapply Forall_impl; [exact H3|].
    intros x (Hx & ?). split; [lia|done].
Qed.

Lemma safe_entry_add ns ip w : lucky w ->
  safe w (netbios_ns_entry_add ns ip)
    (eq (Some (next_ptr ns),
         set_next_ptr (set_queue ns ((next_ptr ns, new_entry ip) :: entry_queue ns)) (next_ptr ns + 1))).
Proof.
  intros Hw. unfold netbios_ns_entry_add. eapply safe_bind; [by apply safe_flip|].
  intros ok w1 _ ->. cbn [negb]. by apply safe_ret.
Qed.

Lemma named_cons_unnamed p e q : is_named e = false -> named ((p, e) :: q) = named q.
Proof. intros H. unfold named. cbn [List.filter snd]. by rewrite H. Qed.

(** A new store to an entry that is not told. *)
Lemma touch_step ns0 ns p e now :
  discovering ns0 ns -> (p, e) ∈ entry_queue ns ->
  discovering ns0 (set_queue ns (queue_set (entry_queue ns) p (touch e now))).
Proof.
  intros Hd Hin. pose proof Hd as (_ & Hq & _). pose proof Hq as (Hnd & _ & Hok).
  pose proof (proj1 (Forall_forall _ _) Hok _ Hin) as He.
  change (set_queue ns ?q) with (set_next_ptr (set_queue ns q) (next_ptr ns)).
  apply discovering_queue; [done|eapply queue_set_ok; eauto|].
  rewrite (named_set _ _ e) by done. change (is_named (touch e now)) with (is_named e).
  destruct (is_named e) eqn:En.
  - apply subseteq_union_1_L. intros x ->%elem_of_singleton. apply elem_of_named. eauto.
  - apply difference_disjoint_L. intros x Hx ->%elem_of_singleton.
    apply elem_of_named in Hx as (e' & Hin' & Hn). rewrite (queue_det _ _ _ _ Hnd Hin Hin') in En. congruence.
Qed.

(** A name given to an entry, told the first time. *)
Lemma name_step ns0 ns p e e' :
  discovering ns0 ns -> (p, e) ∈ entry_queue ns -> entry_ok (next_ptr ns) (p, e') ->
  is_named e' = true -> address e' = address e ->
  discovering ns0 (if negb (is_named e)
    then tell (set_queue ns (queue_set (entry_queue ns) p e')) (OnEntryAdded p e')
    else set_queue ns (queue_set (entry_queue ns) p e')).
Proof.
  intros Hd Hin He' Hn Ha. pose proof Hd as (_ & Hq & _). pose proof Hq as (Hnd & _ & Hok).
  pose proof (queue_set_ok _ _ _ _ _ Hq Hin Ha He') as Hq'.
  pose proof (named_set _ _ _ e' Hnd Hin) as Hns. rewrite Hn in Hns.
  destruct (is_named e) eqn:En; cbn [negb].
  - change (set_queue ns ?q) with (set_next_ptr (set_queue ns q) (next_ptr ns)).
    apply discovering_queue; [done..|]. rewrite Hns. apply subseteq_union_1_L.
    intros x ->%elem_of_singleton. apply elem_of_named. eauto.
  - eapply discovering_tell; [done|done| |exact Hns]. cbn [live]. rewrite decide_False; [done|].
    intros (e0 & Hin0 & Hn0)%elem_of_named. rewrite (queue_det _ _ _ _ Hnd Hin Hin0) in En. congruence.
Qed.

Lemma discovering_trn ns0 ns v : discovering ns0 ns -> discovering ns0 (set_trn_id ns v).
Proof. done. Qed.

Lemma discovering_queried ns0 ns r : discovering ns0 ns -> queried ns r -> discovering ns0 r.2.
Proof. intros Hd [[_ ->]|[_ ->]]; done. Qed.

Definition wildcard_name : bytes := [32; 67; 75] ++ replicate 30 65.

Lemma safe_wildcard ifs ns ip ty w :
  lucky w -> (forall addrs, ifs = Some addrs -> ifaddrs_ok addrs) ->
  safe w (netbios_ns_send_name_query ifs ns ip ty name_query_broadcast 0) (queried ns).
Proof.
  intros Hw Hifs. change name_query_broadcast with (wildcard_name ++ [0]).
  apply safe_send_name_query; [done|done|decided|lia|done].
Qed.

Lemma discover_nb ifs ns0 ns ip now w :
  lucky w -> (forall addrs, ifs = Some addrs -> ifaddrs_ok addrs) ->
  discovering ns0 ns -> forall rip,
  safe w (discover_answer ifs ns rip now (Some (QueryNb ip)))
    (fun r => match r with inl ns => discovering ns0 ns | inr ns => discovering ns0 ns end).
Proof.
  intros Hw Hifs Hd rip. cbn [discover_answer]. pose proof Hd as (_ & Hq & _). pose proof Hq as (Hnd & _ & Hok).
  eapply safe_bind; [eapply (safe_lift _ _ (eq _)); [by eapply entry_find_ip|reflexivity]|].
  intros found w1 Ha1 <-. pose proof (after_lucky _ _ Ha1 Hw) as Hw1.
  apply (safe_bind _ _ (fun a => exists p e, a.1 = Some p /\ (p, e) ∈ entry_queue a.2 /\ discovering ns0 a.2)).
  - destruct (List.find _ _) as [[p e]|] eqn:Ef.
    + apply safe_ret. apply find_ip_Some in Ef as [Hin _]. exists p, e. auto.
    + apply find_ip_None in Ef. eapply safe_weaken; [by apply safe_entry_add|].
      intros a <-. eexists _, _. split; [done|]. split; [by left|].
      apply discovering_queue; [done|by apply entry_add_ok|by apply named_cons_unnamed].
  - intros [a ns1] w2 Ha2 (p & e & Ea & Hin & Hd1). cbn [fst snd] in *. subst a. pose proof (after_lucky _ _ Ha2 Hw1) as Hw2.
    pose proof Hd1 as (_ & (Hnd1 & _) & _).
    eapply safe_bind; [eapply (safe_lift _ _ (eq e)); [by rewrite (find_ptr _ _ _ Hnd1 Hin)|reflexivity]|].
    intros e' w3 Ha3 <-. pose proof (touch_step _ _ _ _ now Hd1 Hin) as Hd2.
    destruct (has_flag _ _); [by apply safe_ret|].
    eapply safe_bind; [apply safe_wildcard; [by eapply after_lucky|done]|].
    intros r w4 _ Hr. apply safe_ret. pose proof (discovering_queried _ _ _ Hd2 Hr). by destruct (_ =? _).
Qed.

Lemma discover_nbstat ifs ns0 ns n g ty ip now w :
  discovering ns0 ns -> answer_ok (Some (QueryNbstat n g ty)) ->
  safe w (discover_answer ifs ns ip now (Some (QueryNbstat n g ty)))
    (fun r => match r with inl ns => discovering ns0 ns | inr ns => discovering ns0 ns end).
Proof.
  intros Hd Hans. cbn [discover_answer]. pose proof Hd as (Hb & Hq & _). pose proof Hq as (Hnd & _ & Hok).
  eapply safe_bind; [eapply (safe_lift _ _ (eq _)); [by eapply entry_find_ip|reflexivity]|].
  intros found w1 _ <-. destruct (List.find _ _) as [[p e]|] eqn:Ef; [|by apply safe_ret].
  apply find_ip_Some in Ef as [Hin _]. pose proof (proj1 (Forall_forall _ _) Hok _ Hin) as He.
  destruct (set_name_spec (next_ptr ns) p (touch e now) (buffer ns) n g ty) as (e' & E & He' & Hn & Ha); [done|apply Hb|done|].
  eapply safe_bind; [eapply (safe_lift _ _ (eq _)); [exact E|reflexivity]|].
  intros e'' w2 _ <-. apply safe_ret. by apply (name_step _ _ _ e).
Qed.

(** ** The thread *)

Lemma discovering_buffer ns0 ns b :
  discovering ns0 ns -> buffer_ok (set_buffer ns b) -> discovering ns0 (set_buffer ns b).
Proof. intros (_ & H) Hb. split; [exact Hb|exact H]. Qed.

Lemma safe_recv ns check ip q w : buffer_ok ns -> Forall event_ok (w_events w) ->
  safe w (netbios_ns_recv ns check ip (Some q))
    (fun v => let '(r, a, (ns', out)) := v in
       buffer_ok ns' /\ (exists b, ns' = set_buffer ns b) /\ answer_ok out
       /\ (((r = -1 \/ r = 0) /\ out = Some QueryInvalid) \/ accepted ns check ip w r a ns' out)).
Proof.
  intros Hb Hev. destruct (recv_spec ns check ip q w Hb Hev) as (H1 & H2 & H3). split_and!; [done..|].
  intros [[r a] [ns' out]] w' E. by destruct (H3 _ _ E) as (Ha & Hb' & Hns & Hans & _ & Hr).
Qed.

Definition thread_ok (ns0 : netbios_ns) (r : netbios_ns + netbios_ns) : Prop :=
  match r with inl ns => discovering ns0 ns | inr ns => discovering ns0 ns end.

Lemma discover_answer_ok ifs ns0 ns ip now out w :
  lucky w -> (forall addrs, ifs = Some addrs -> ifaddrs_ok addrs) ->
  discovering ns0 ns -> answer_ok out ->
  safe w (discover_answer ifs ns ip now out) (thread_ok ns0).
Proof.
  intros Hw Hifs Hd Ha. destruct out as [[|ip'|n g ty]|].
  - by apply safe_ret.
  - by apply discover_nb.
  - by apply discover_nbstat.
  - by apply safe_ret.
Qed.

Section Thread.
Context (ifs : option (list ifaddrs)) (ns0 : netbios_ns).
Hypothesis Hifs : forall addrs, ifs = Some addrs -> ifaddrs_ok addrs.

Lemma discover_recv_round ns w :
  lucky w -> Forall event_ok (w_events w) -> discovering ns0 ns ->
  safe w (discover_recv_body ifs ns)
    (fun r => match r with inl ns => discovering ns0 ns | inr r => thread_ok ns0 r end)
  /\ forall r w', discover_recv_body ifs ns w = Done (r, w') ->
       (forall ns', r <> inr (inr ns')) -> (length (w_events w') < length (w_events w))%nat.
Proof.
  intros Hw Hev Hd.
  assert (Hbody : forall v w1, received ns false 0 w v w1 ->
    safe w1 (let '(res, recv_ip, (ns, out)) := v in
      if res =? -1 then mret (inr (inr ns))
      else if res =? 0 then mret (inr (inl ns))
      else now ← pick; a ← discover_answer ifs ns recv_ip now out;
           mret (match a with inl ns => inl ns | inr ns => inr (inr ns) end))
      (fun r => match r with inl ns => discovering ns0 ns | inr r => thread_ok ns0 r end)).
  { intros [[r a] [ns' out]] w1 (Ha & Hb' & (b & ->) & Hans & _).
    pose proof (discovering_buffer _ _ _ Hd Hb') as Hd'.
    destruct (r =? -1); [by apply safe_ret|]. destruct (r =? 0); [by apply safe_ret|].
    eapply safe_bind; [apply safe_pick|]. intros now w2 Ha2 _.
    eapply safe_bind; [apply discover_answer_ok; [|done|exact Hd'|done]|].
    - eapply after_lucky, after_lucky; eauto.
    - intros [ns1|ns1] w3 _ H; by apply safe_ret. }
  destruct (recv_spec ns false 0 QueryInvalid w) as (H1 & H2 & H3); [apply Hd|done|]. split.
  - unfold discover_recv_body. split_and!.
    + apply bind_not_Fault; [done|]. intros v w1 E. apply (Hbody v w1), H3, E.
    + intros Hp. unfold mbind, io_bind. destruct (netbios_ns_recv _ _ _ _ w) as [[v w1]| |] eqn:E; cbn [obind];
        [|done|by destruct (H2 Hp)]. specialize (H3 _ _ eq_refl). apply (Hbody v w1 H3).
      destruct v as [[? ?] [? ?]]. destruct H3 as ((_ & _ & H) & _). auto.
    + intros r w' (v & w1 & E & E')%bind_inv. pose proof (H3 _ _ E) as Hr.
      destruct (Hbody v w1 Hr) as (_ & _ & H). destruct (H _ _ E') as [Ha HQ]. split; [|done].
      eapply after_trans; [|exact Ha]. destruct v as [[? ?] [? ?]]. apply Hr.
  - intros r w' (v & w1 & E & E')%bind_inv Hr. pose proof (H3 _ _ E) as Hrv.
    destruct (Hbody v w1 Hrv) as (_ & _ & H). destruct (H _ _ E') as [Ha _].
    apply after_length in Ha. destruct v as [[res ip] [ns' out]]. destruct Hrv as (_ & _ & _ & _ & Hlt & _).
    destruct (Z.eqb_spec res (-1)) as [->|Hne]; [|specialize (Hlt Hne); lia].
    injection E' as <- <-. by destruct (Hr ns').
Qed.

Lemma discover_recv_loop ns w :
  lucky w -> Forall event_ok (w_events w) -> discovering ns0 ns ->
  safe w (loop (discover_recv_body ifs) ns) (thread_ok ns0)
  /\ forall ns' w', loop (discover_recv_body ifs) ns w = Done (inl ns', w') ->
       (length (w_events w') < length (w_events w))%nat.
Proof.
  intros Hw Hev Hd.
  assert (Hround : forall a w1, after w w1 /\ discovering ns0 a ->
    safe w1 (discover_recv_body ifs a)
      (fun r => match r with inl ns => discovering ns0 ns | inr r => thread_ok ns0 r end)
    /\ forall r w', discover_recv_body ifs a w1 = Done (r, w') ->
         (forall ns', r <> inr (inr ns')) -> (length (w_events w') < length (w_events w1))%nat).
  { intros a w1 [H1 H2]. apply discover_recv_round; [by eapply after_lucky|by eapply after_events|done]. }
  split.
  - apply (safe_loop _ (discovering ns0)); [|done]. intros a w1 H1 H2.
    destruct (Hround a w1 (conj H1 H2)) as [Hs Hlt]. split; [exact Hs|]. intros a' w2 E. by apply (Hlt _ _ E).
  - intros ns' w' E. refine (loop_invariant _ (fun a w1 => after w w1 /\ discovering ns0 a)
      (fun b w' => forall ns', b = inl ns' -> (length (w_events w') < length (w_events w))%nat)
      ns w (inl ns') w' _ _ _ E ns' eq_refl); [| |auto using after_refl].
    + intros a w1 a' w2 H E'. destruct (Hround a w1 H) as [(_ & _ & Hs) _]. destruct (Hs _ _ E') as [H1 H2].
      split; [eapply after_trans; [apply H|done]|done].
    + intros a w1 b w2 H E' ns1 ->. destruct (Hround a w1 H) as [_ Hlt].
      specialize (Hlt _ _ E' ltac:(done)). destruct H as [H%after_length _]. lia.
Qed.

Lemma safe_is_aborted ctx w : safe w (netbios_abort_ctx_is_aborted ctx) (fun _ => True).
Proof.
  unfold netbios_abort_ctx_is_aborted. apply (safe_bind _ _ (fun _ => True)); [apply safe_coin|]. intros works w1 _ _.
  apply (safe_bind _ _ (fun _ => True)); [apply safe_coin|]. intros quiet w2 _ _.
  apply (safe_bind _ _ (fun _ => True)); [|intros; by apply safe_ret].
  split_and!; [done..|]. intros b w' [= <- <-]. split; [|done]. destruct quiet; cbn [negb]; [apply after_refl|].
  split; [by exists []|]. split; [done|]. intros _. by left.
Qed.

Lemma discover_round ns w :
  lucky w -> Forall event_ok (w_events w) -> discovering ns0 ns ->
  safe w (discover_body ifs ns) (thread_ok ns0)
  /\ forall ns' w', discover_body ifs ns w = Done (inl ns', w') -> (length (w_events w') < length (w_events w))%nat.
Proof.
  intros Hw Hev Hd.
  assert (Hexp : forall now t, discovering ns0 (expire_loop now t (entry_queue ns) ns)).
  { intros now t. apply expire_spec; [done| |done]. by destruct Hd as (_ & (H & _) & _). }
  assert (Htail : forall w1 r, after w w1 -> discovering ns0 r ->
    safe w1 (v ← loop (discover_recv_body ifs) r;
      mret (match v with inr ns => inr ns
            | inl ns => if discover_broadcast_timeout ns =? 0 then inr ns else inl ns end)) (thread_ok ns0)
    /\ forall ns' w', (v ← loop (discover_recv_body ifs) r;
      mret (match v with inr ns => inr ns
            | inl ns => if discover_broadcast_timeout ns =? 0 then inr ns else inl ns end)) w1 = Done (inl ns', w')
      -> (length (w_events w') < length (w_events w))%nat).
  { intros w1 r Ha Hr. destruct (discover_recv_loop r w1) as [Hs Hlt];
      [by eapply after_lucky|by eapply after_events|done|]. split.
    - eapply safe_bind; [exact Hs|]. intros [ns1|ns1] w2 _ H; apply safe_ret; [by destruct (_ =? _)|done].
    - intros ns' w' ([ns1|ns1] & w2 & E & E')%bind_inv; [|done]. apply Hlt in E. apply after_length in Ha.
      unfold mret, io_ret in E'. destruct (_ =? _); simplify_eq. lia. }
  assert (Hsend : forall now t w1, after w w1 ->
    safe w1 (netbios_ns_send_name_query ifs (expire_loop now t (entry_queue ns) ns) 0 NAME_QUERY_TYPE_NB
      name_query_broadcast 0) (fun r => discovering ns0 r.2)).
  { intros now t w1 Ha. eapply safe_weaken; [apply safe_wildcard; [by eapply after_lucky|done]|].
    intros r. by apply discovering_queried. }
  unfold discover_body. split.
  - eapply safe_bind; [apply safe_is_aborted|]. intros [] w1 Ha1 _; [by apply safe_ret|].
    eapply safe_bind; [apply safe_pick|]. intros now w2 Ha2 _.
    assert (Ha : after w w2) by (by eapply after_trans).
    eapply safe_bind; [by apply Hsend|]. intros r w3 Ha3 Hr. destruct (_ =? _); [by apply safe_ret|].
    apply Htail; [by eapply after_trans|done].
  - intros ns' w' (ab & w1 & E1 & E)%bind_inv. destruct (safe_is_aborted (abort_ctx ns) w) as (_ & _ & Hab).
    destruct (Hab _ _ E1) as [Ha1 _]. destruct ab; [done|].
    apply bind_inv in E as (now & w2 & E2 & E). destruct (safe_pick w1) as (_ & _ & Hpk).
    destruct (Hpk _ _ E2) as [Ha2 _]. assert (Ha : after w w2) by (by eapply after_trans).
    apply bind_inv in E as (r & w3 & E3 & E). destruct (Hsend now (s32 (u32 (5 * discover_broadcast_timeout ns))) w2 Ha) as (_ & _ & Hs).
    destruct (Hs _ _ E3) as [Ha3 Hr]. destruct (_ =? _); [done|].
    eapply Htail; [|exact Hr|exact E]. by eapply after_trans.
Qed.

Lemma discover_thread_spec ns w :
  lucky w -> Forall event_ok (w_events w) -> discovering ns0 ns ->
  safe w (netbios_ns_discover_thread ifs ns) (discovering ns0).
Proof.
  intros Hw Hev Hd. apply (safe_loop _ (discovering ns0)); [|done]. intros a w1 Ha Hda.
  apply discover_round; [by eapply after_lucky|by eapply after_events|done].
Qed.

End Thread.

(** * Resolution *)

Lemma strncmp_eq_Done n s b : cstring_ok s -> (n <= length b)%nat -> exists r, strncmp_eq n (cstr s) b = Done r.
Proof.
  intros Hs. revert n b. induction Hs as [|c s Hc Hs IH]; intros n b Hn; (destruct n as [|n]; [by eexists|]);
    (destruct b as [|y b]; [cbn in Hn; lia|]); cbn [strncmp_eq cstr app].
  - destruct (0 =? y); cbn; eauto.
  - destruct (negb (c =? y)); [eauto|]. rewrite (proj2 (Z.eqb_neq c 0)) by lia.
    apply IH. cbn in Hn. lia.
Qed.

(** The answer of a lookup by name is an entry of the table. *)
Lemma entry_find_name next q s : cstring_ok s -> Forall (entry_ok next) q ->
  exists r, entry_find_loop q (Some (cstr s)) 0 = Done r
    /\ forall p e, r = Some (p, e) -> (p, e) ∈ q /\ is_named e = true /\ strncmp_eq 15 (cstr s) (name e) = Done true.
Proof.
  intros Hs. induction 1 as [|[p e] q (_ & _ & Hn & _) _ (r & E & Hr)]; cbn [entry_find_loop]; [by eexists|].
  cbn [fst snd] in Hn. destruct (strncmp_eq_Done 15 s (name e) Hs) as [b Eb]; [lia|].
  change (Z.to_nat NETBIOS_NAME_LENGTH) with 15%nat. rewrite Eb.
  assert (Hr' : forall p0 e0, r = Some (p0, e0) -> (p0, e0) ∈ (p, e) :: q /\ is_named e0 = true
    /\ strncmp_eq 15 (cstr s) (name e0) = Done true).
  { intros p0 e0 H. destruct (Hr _ _ H) as (? & ? & ?). split_and!; auto. by right. }
  destruct (has_flag e NS_ENTRY_FLAG_VALID_NAME) eqn:Ef; cbn [obind]; [destruct b|]; eauto.
  eexists. split; [done|]. intros p0 e0 [= <- <-]. split_and!; auto. by left.
Qed.

(** An accepted answer carries the transaction identifier. *)
Lemma accepted_trn ns wait w r ip b out : accepted ns true wait w r ip (set_buffer ns b) out ->
  exists data t, EvDatagram ip data ∈ w_events w /\ get16 data 0 = Some t /\ swap16 t = last_trn_id ns
    /\ (wait = 0 \/ wait = ip).
Proof.
  intros (data & stale & Hin & Hw & -> & Hr & Hb & Hh). unfold netbios_ns_handle_query in Hh.
  rewrite (proj2 (Z.ltb_ge _ _)) in Hh by (unfold sizeof_netbios_query_packet; lia). rewrite Hb in Hh.
  destruct (get16 (_ ++ stale) off_trn_id) as [t|] eqn:Et; cbn [checked obind] in Hh; [|done].
  assert (Hlen : (12 <= length data)%nat) by (unfold zlen in Hr; rewrite length_take in Hr; lia).
  exists data, t. split_and!; [done| | |done].
  - rewrite <- Et. unfold get16, get_word, off_trn_id. f_equal.
    rewrite !sub_Some by (unfold zlen in *; rewrite ?length_app, ?length_take in *; unfold RECV_BUFFER_SIZE in *; lia).
    f_equal. cbn [Z.to_nat drop]. change (Z.to_nat (Z.of_nat 2)) with 2%nat. rewrite !drop_0.
    rewrite take_app_le by (rewrite length_take; unfold RECV_BUFFER_SIZE; lia).
    rewrite take_take. f_equal.
  - destruct (Z.eqb_spec (swap16 t) (last_trn_id (set_buffer ns b))) as [E|]; [exact E|]. cbn in Hh. done.
Qed.

Lemma nb_answer_ip ns size check ip out ip' :
  netbios_ns_handle_query ns size check ip (Some QueryInvalid) = Done (0, out) -> out = Some (QueryNb ip') -> ip' = ip.
Proof.
  intros H ->. unfold netbios_ns_handle_query in H. split_run H; simplify_eq; done.
Qed.

Lemma resolve_run ifs ns s ty w :
  lucky w -> Forall event_ok (w_events w) -> (forall addrs, ifs = Some addrs -> ifaddrs_ok addrs) ->
  buffer_ok ns -> queue_ok (next_ptr ns) (entry_queue ns) -> discover_started ns = false ->
  cstring_ok s -> is_byte ty ->
  safe w (netbios_ns_resolve ifs ns (cstr s) ty) (fun '(r, ip, ns') =>
    entry_queue ns' = entry_queue ns /\ (r = 0 ->
      (exists p e, (p, e) ∈ entry_queue ns /\ address e = ip /\ is_named e = true
         /\ strncmp_eq 15 (cstr s) (name e) = Done true)
      \/ (exists data t, EvDatagram ip data ∈ w_events w /\ get16 data 0 = Some t
         /\ swap16 t = u16 (last_trn_id ns + 1)))).
Proof.
  intros Hw Hev Hifs Hb (_ & _ & Hq) Hst Hs Hty.
  unfold netbios_ns_resolve. rewrite Hst.
  eapply safe_bind; [by apply (safe_lift _ tt (fun _ => True))|]. intros _ w0 Ha0 _.
  destruct (entry_find_name _ _ s Hs Hq) as (found & Ef & Hfound).
  eapply safe_bind; [by apply (safe_lift _ found (eq found))|]. intros ? w1 Ha1 <-.
  destruct found as [[p e]|].
  { apply safe_ret. split; [done|]. intros _. left. destruct (Hfound _ _ eq_refl) as (? & ? & ?). eauto 10. }
  assert (Ha01 : after w w1) by (by eapply after_trans).
  destruct (netbios_name_encode_run s ty w1 Hs) as (w2 & Ee & L2).
  rewrite (after_lucky _ _ Ha01 Hw) in Ee.
  eapply safe_bind; [eapply (safe_runs _ _ (eq _)); [exists w2; split; [exact Ee|exact L2]|reflexivity]|].
  intros ? w3 Ha3 <-. assert (Ha03 : after w w3) by (by eapply after_trans).
  destruct (encoded_code_cstr s ty Hs Hty) as (enc & -> & Hlen & Henc).
  eapply safe_bind; [apply safe_send_name_query; [by eapply after_lucky|done|done|by compute|done]|].
  intros [r ns1] w4 Ha4 Hqd. assert (Ha04 : after w w4) by (by eapply after_trans).
  destruct Hqd as [[-> ->]|[-> ->]]; cbn [fst snd]; [by apply safe_ret|].
  eapply safe_bind; [apply safe_recv; [done|by eapply after_events]|].
  intros [[rr a] [ns' out]] w5 _ (_ & (b & ->) & _ & Hr). destruct (Z.ltb_spec rr 0); [by apply safe_ret|].
  destruct out as [[|ip'|n g t]|]; try by apply safe_ret.
  apply safe_ret. split; [done|]. intros _. right. destruct Hr as [[_ [=]]|Hr].
  assert (ip' = a) as -> by (destruct Hr as (? & ? & _ & _ & _ & _ & _ & Hh); by eapply nb_answer_ip).
  destruct (accepted_trn _ _ _ _ _ _ _ Hr) as (data & t & Hin & Ht & Hsw & _).
  exists data, t. split_and!; [|done|done]. destruct Ha04 as [[l ->] _]. apply elem_of_app. auto.
Qed.

(** C17. Name resolution is sound: netbios_ns_resolve never faults and, when it
    answers 0, the address is that of a cached entry with this name, or the
    source of a datagram that was received after the question and carries the
    transaction identifier of this question. It ends if an abort is pending,
    and the table stays as it was. *)
Theorem resolve_sound ifs ns s ty w :
  lucky w -> Forall event_ok (w_events w) -> (forall addrs, ifs = Some addrs -> ifaddrs_ok addrs) ->
  buffer_ok ns -> queue_ok (next_ptr ns) (entry_queue ns) -> discover_started ns = false ->
  cstring_ok s -> is_byte ty ->
  netbios_ns_resolve ifs ns (cstr s) ty w <> Fault
  /\ (pending w -> netbios_ns_resolve ifs ns (cstr s) ty w <> Blocked)
  /\ forall r ip ns' w', netbios_ns_resolve ifs ns (cstr s) ty w = Done ((r, ip, ns'), w') ->
       entry_queue ns' = entry_queue ns
       /\ (r = 0 ->
           (exists p e, (p, e) ∈ entry_queue ns /\ address e = ip /\ is_named e = true
              /\ strncmp_eq 15 (cstr s) (name e) = Done true)
           \/ (exists data t, EvDatagram ip data ∈ w_events w /\ get16 data 0 = Some t
              /\ swap16 t = u16 (last_trn_id ns + 1))).
Proof.
  intros Hw Hev Hifs Hb Hq Hst Hs Hty.
  destruct (resolve_run ifs ns s ty w Hw Hev Hifs Hb Hq Hst Hs Hty) as (H1 & H2 & H3). split; [done|]. split; [done|].
  intros r ip ns' w' E. by apply (H3 _ _ E).
Qed.

(** The datagram answers the question that [ns] sends next, and comes from [ip]. *)
Definition answered (ns : netbios_ns) (ip : Z) (w : world) : Prop :=
  exists data t, EvDatagram ip data ∈ w_events w /\ get16 data 0 = Some t
    /\ swap16 t = u16 (last_trn_id ns + 1).

Definition inverse_post (ns : netbios_ns) (ip : Z) (w : world)
    (v : option (Z * netbios_ns_entry) * netbios_ns) : Prop :=
  buffer_ok v.2 /\ queue_ok (next_ptr v.2) (entry_queue v.2)
  /\ match v.1 with
     | Some (p, e) => (p, e) ∈ entry_queue v.2 /\ address e = ip
         /\ ((p, e) ∈ entry_queue ns \/ answered ns ip w)
     | None => entry_queue v.2 = entry_queue ns
     end.

Lemma inverse_internal_spec ifs ns ip w :
  lucky w -> Forall event_ok (w_events w) -> (forall addrs, ifs = Some addrs -> ifaddrs_ok addrs) ->
  buffer_ok ns -> queue_ok (next_ptr ns) (entry_queue ns) -> ip <> 0 ->
  safe w (netbios_ns_inverse_internal ifs ns ip) (inverse_post ns ip w).
Proof.
  intros Hw Hev Hifs Hb Hq Hip0. pose proof Hq as (_ & _ & Hok). unfold netbios_ns_inverse_internal.
  eapply safe_bind; [eapply (safe_lift _ _ (eq _)); [by eapply entry_find_ip|reflexivity]|].
  intros found w1 Ha1 <-. destruct (List.find _ _) as [[p e]|] eqn:Ef.
  { apply find_ip_Some in Ef as [Hin Hip]. apply safe_ret. split; [exact Hb|]. split; [exact Hq|].
    cbn [fst snd]. auto. }
  apply find_ip_None in Ef.
  eapply safe_bind; [apply safe_wildcard; [by eapply after_lucky|done]|].
  intros [r ns1] w2 Ha2 Hqd. assert (Ha02 : after w w2) by (by eapply after_trans).
  assert (Hnone : forall b, buffer_ok (set_buffer ns b) ->
    inverse_post ns ip w (None, set_buffer (set_trn_id ns (u16 (last_trn_id ns + 1))) b)).
  { intros b Hb'. split; [exact Hb'|]. by split. }
  destruct Hqd as [[-> ->]|[-> ->]]; cbn [fst snd]; [by apply safe_ret|].
  eapply safe_bind; [apply safe_recv; [done|by eapply after_events]|].
  intros [[rr a] [ns' out]] w3 Ha3 (Hb' & (b & ->) & Hans & Hr). cbn [Z.eqb].
  destruct (Z.leb_spec rr 0); [by apply safe_ret, Hnone|].
  destruct out as [[|ip'|n g t]|]; try by apply safe_ret, Hnone.
  destruct Hr as [[[->| ->] _]|Hr]; [lia|lia|].
  eapply safe_bind; [apply safe_entry_add; eapply after_lucky, Hw; by eapply after_trans|].
  intros a1 w4 _ <-. cbn [entry_queue set_next_ptr set_queue set_buffer set_trn_id next_ptr List.find fst].
  rewrite Z.eqb_refl. eapply safe_bind; [eapply (safe_lift _ _ (eq _)); [reflexivity|reflexivity]|]. intros e0 w5 _ <-.
  pose proof (entry_add_ok _ _ _ Hq Ef) as Hq1. pose proof Hq1 as (_ & _ & [He0 _]%Forall_cons).
  destruct (set_name_spec _ _ _ (buffer (set_buffer (set_trn_id ns (u16 (last_trn_id ns + 1))) b)) n g t He0)
    as (e' & Es & He' & Hn & Haddr); [apply Hb'|done|].
  eapply safe_bind; [eapply (safe_lift _ _ (eq _)); [exact Es|reflexivity]|]. intros ? w6 _ <-. apply safe_ret.
  split; [exact Hb'|]. cbn [fst snd entry_queue set_queue set_next_ptr next_ptr].
  split; [eapply queue_set_ok; [exact Hq1|by left|done|done]|]. split; [|split; [done|]].
  - cbn [queue_set map fst]. rewrite Z.eqb_refl. by left.
  - right. destruct (accepted_trn _ _ _ _ _ _ _ Hr) as (data & t' & Hin & Ht & Hsw & Hwait).
    exists data, t'. split_and!; [|done|done]. destruct Ha02 as [[l ->] _]. apply elem_of_app. right.
    by destruct Hwait as [| ->].
Qed.

Lemma inverse_run ifs ns ip w :
  lucky w -> Forall event_ok (w_events w) -> (forall addrs, ifs = Some addrs -> ifaddrs_ok addrs) ->
  buffer_ok ns -> queue_ok (next_ptr ns) (entry_queue ns) -> discover_started ns = false -> ip <> 0 ->
  safe w (netbios_ns_inverse ifs ns ip) (fun v => queue_ok (next_ptr v.2) (entry_queue v.2)
    /\ match v.1 with
       | Some f => exists p e, (p, e) ∈ entry_queue v.2 /\ address e = ip /\ name e = f
           /\ ((p, e) ∈ entry_queue ns \/ answered ns ip w)
       | None => entry_queue v.2 = entry_queue ns
       end).
Proof.
  intros Hw Hev Hifs Hb Hq Hst Hip.
  unfold netbios_ns_inverse. rewrite Hst, (proj2 (Z.eqb_neq ip 0)) by done.
  eapply safe_bind; [by apply (safe_lift _ tt (fun _ => True))|]. intros _ w1 Ha1 _.
  eapply safe_bind; [apply inverse_internal_spec; [by eapply after_lucky|by eapply after_events|done..]|].
  intros [[[p e]|] ns'] w2 _ (_ & Hq' & H); apply safe_ret; (split; [done|]); cbn [fst snd] in *; [|done].
  destruct H as (Hin & Ha & H). exists p, e. split_and!; [done..|]. destruct H as [|(data & t & Hd & H)]; [auto|].
  right. exists data, t. split; [|done]. destruct Ha1 as [[l ->] _]. apply elem_of_app. auto.
Qed.

(** C24. Inverse resolution is sound: netbios_ns_inverse never faults, keeps
    the table well formed (no two entries for one address), and a name it
    gives is the name of the table's entry for this address, which was there
    before or comes from a datagram of this very host that carries the
    transaction identifier of the question. It ends if an abort is pending. *)
Theorem inverse_sound ifs ns ip w :
  lucky w -> Forall event_ok (w_events w) -> (forall addrs, ifs = Some addrs -> ifaddrs_ok addrs) ->
  buffer_ok ns -> queue_ok (next_ptr ns) (entry_queue ns) -> discover_started ns = false -> ip <> 0 ->
  netbios_ns_inverse ifs ns ip w <> Fault
  /\ (pending w -> netbios_ns_inverse ifs ns ip w <> Blocked)
  /\ forall nm ns' w', netbios_ns_inverse ifs ns ip w = Done ((nm, ns'), w') ->
       queue_ok (next_ptr ns') (entry_queue ns')
       /\ match nm with
          | Some f => exists p e, (p, e) ∈ entry_queue ns' /\ address e = ip /\ name e = f
              /\ ((p, e) ∈ entry_queue ns \/ answered ns ip w)
          | None => entry_queue ns' = entry_queue ns
          end.
Proof.
  intros Hw Hev Hifs Hb Hq Hst Hip.
  destruct (inverse_run ifs ns ip w Hw Hev Hifs Hb Hq Hst Hip) as (H1 & H2 & H3). split; [done|]. split; [done|].
  intros nm ns' w' E. by apply (H3 _ _ E).
Qed.

(** * Answers *)

(** C25. Reading an answer is memory-safe: for every content of the receive
    buffer and every size recvfrom can give, netbios_ns_handle_query reads
    only bytes of the buffer, answers 0 or -1, leaves the result alone with
    -1, and the name pointers it gives have their 18 bytes inside the buffer. *)
Theorem handle_query_safe ns size check ip out :
  buffer_ok ns -> 0 <= size <= RECV_BUFFER_SIZE -> answer_ok out ->
  exists r out', netbios_ns_handle_query ns size check ip out = Done (r, out')
    /\ (r = 0 \/ (r = -1 /\ out' = out)) /\ answer_ok out'.
Proof.
  intros [Hl Hb] Hs Ho. destruct (handle_query_spec ns size check ip out Hl Hb Hs Ho) as (r & o & E & Hr & Ha & _).
  eauto.
Qed.

Lemma handle_query_safe_witness :
  exists r out', netbios_ns_handle_query
      (set_buffer some_ns (replicate 12 0 ++ [32] ++ replicate 33 65 ++ [0; 33; 0; 1; 0; 0; 0; 0; 255; 255] ++ replicate 1444 255))
      1500 false 7 (Some QueryInvalid) = Done (r, out').
Proof.
  destruct (handle_query_safe
    (set_buffer some_ns (replicate 12 0 ++ [32] ++ replicate 33 65 ++ [0; 33; 0; 1; 0; 0; 0; 0; 255; 255] ++ replicate 1444 255))
      1500 false 7 (Some QueryInvalid)) as (r & o & E & _); [|unfold RECV_BUFFER_SIZE; lia|exact I|eauto].
  split; [reflexivity|decided].
Defined.

Lemma sub_node_name names pre post i n :
  Forall node_name_ok names -> names !! i = Some n ->
  sub (pre ++ concat (map node_bytes names) ++ post) (zlen pre + 18 * Z.of_nat i) 15 = Some (nn_name n).
Proof.
  intros Hok. revert pre i. induction Hok as [|m names Hm _ IH]; intros pre i Hi; [done|].
  cbn [map concat]. destruct i as [|i]; cbn [lookup list_lookup] in Hi.
  - injection Hi as ->. unfold node_bytes. rewrite <- !app_assoc. apply sub_app; [lia|].
    destruct Hm as (Hl & _). unfold zlen. lia.
  - rewrite <- app_assoc, app_assoc. rewrite <- (IH (pre ++ node_bytes m) i Hi). f_equal.
    unfold zlen. rewrite length_app, node_bytes_length by done. lia.
Qed.

Lemma position_lookup {A} (P : A -> bool) l i : position P l = Some i -> exists x, l !! i = Some x /\ P x = true.
Proof.
  revert i. induction l as [|x l IH]; intros i; cbn [position]; [done|].
  destruct (P x) eqn:E; [intros [= <-]; eauto|]. destruct (position P l) as [j|]; [|done].
  intros [= <-]. apply (IH j eq_refl).
Qed.

(** C26. A node status answer in the format of RFC 1002 (reserved flag bits
    clear) is read right: the first unique name of type 0x20 is found, with
    the first group name, and netbios_ns_entry_set_name stores exactly these
    names, without their padding, in the entry. *)
Theorem nbstat_answer_read ns header encoded ttl names statistics stale check ip e i n :
  length header = 12%nat -> length encoded = 32%nat -> length ttl = 4%nat ->
  Forall node_name_ok names -> Forall plain_flags names -> zlen names < 256 ->
  (check = true -> take 2 header = le_bytes 2 (swap16 (last_trn_id ns)) /\ 0 <= last_trn_id ns < 65536) ->
  buffer ns = nbstat_answer header encoded ttl names statistics ++ stale ->
  zlen (nbstat_answer header encoded ttl names statistics) <= RECV_BUFFER_SIZE ->
  position nn_server names = Some i -> names !! i = Some n ->
  length (name e) = 16%nat -> length (group e) = 16%nat ->
  exists o g e',
    netbios_ns_handle_query ns (zlen (nbstat_answer header encoded ttl names statistics)) check ip (Some QueryInvalid)
      = Done (0, Some (QueryNbstat o g NETBIOS_FILESERVER))
    /\ netbios_ns_entry_set_name e (buffer ns) (Some o) g NETBIOS_FILESERVER = Done e'
    /\ name e' = name_field (nn_name n) /\ address e' = address e /\ type e' = NETBIOS_FILESERVER
    /\ group e' = match position nn_group names with
                  | Some j => if names !! j is Some m then name_field (nn_name m) else []
                  | None => group e
                  end.
Proof.
  intros Hh He Ht Hok Hpl Hc Htrn Hbuf Hsz Hi Hn Hle Hlg.
  rewrite (nbstat_answer_spec ns header encoded ttl names statistics stale) by done. rewrite Hi.
  set (pre := header ++ [0x20] ++ encoded ++ [0] ++ [0x00; 0x21] ++ [0x00; 0x01] ++ ttl
     ++ le_bytes 2 (swap16 (1 + 18 * zlen names + zlen statistics)) ++ [zlen names]).
  assert (Hb : buffer ns = pre ++ concat (map node_bytes names) ++ statistics ++ stale).
  { rewrite Hbuf. unfold nbstat_answer, pre. by rewrite <- !app_assoc. }
  assert (Hp : zlen pre = 57) by (unfold pre, zlen; rewrite !length_app, length_le_bytes, Hh, He, Ht; done).
  assert (Hcopy : forall dest k m, length dest = 16%nat -> names !! k = Some m ->
    netbios_ns_copy_name dest (buffer ns) (57 + 18 * Z.of_nat k) = Done (name_field (nn_name m))).
  { intros dest k m Hd Hk. apply copy_name_spec; [done|]. rewrite Hb, <- Hp. by apply sub_node_name. }
  unfold netbios_ns_entry_set_name, at_name.
  destruct (position nn_group names) as [j|] eqn:Ej; cbn [fmap option_fmap option_map].
  - destruct (position_lookup _ _ _ Ej) as (m & Hm & _). eexists _, _, _. split; [done|].
    rewrite (Hcopy _ _ _ Hle Hn). cbn [obind]. rewrite (Hcopy _ _ _ Hlg Hm), Hm. split; [reflexivity|done].
  - eexists _, _, _. split; [done|]. rewrite (Hcopy _ _ _ Hle Hn). split; [reflexivity|done].
Qed.

(** A host BOX of the group WORK. *)
Definition some_names : list node_name :=
  [NodeName ([66; 79; 88] ++ replicate 12 32) 0 4 0;
   NodeName ([87; 79; 82; 75] ++ replicate 11 32) 0 0x84 0;
   NodeName ([66; 79; 88] ++ replicate 12 32) 0x20 4 0].

Definition some_answer : bytes :=
  nbstat_answer ([0; 0; 0x84] ++ replicate 9 0) (replicate 32 65) [0; 0; 0; 0] some_names (replicate 46 0).

Lemma nbstat_answer_read_witness :
  exists o g e', netbios_ns_handle_query (set_buffer some_ns (some_answer ++ replicate (1500 - length some_answer) 0))
      (zlen some_answer) false 7 (Some QueryInvalid) = Done (0, Some (QueryNbstat o g 0x20))
    /\ netbios_ns_entry_set_name (new_entry 7) (some_answer ++ replicate (1500 - length some_answer) 0)
         (Some o) g 0x20 = Done e'
    /\ name e' = [66; 79; 88] ++ replicate 13 0 /\ group e' = [87; 79; 82; 75] ++ replicate 12 0.
Proof.
  destruct (nbstat_answer_read (set_buffer some_ns (some_answer ++ replicate (1500 - length some_answer) 0))
    ([0; 0; 0x84] ++ replicate 9 0) (replicate 32 65) [0; 0; 0; 0] some_names (replicate 46 0)
    (replicate (1500 - length some_answer) 0) false 7 (new_entry 7) 2
    (NodeName ([66; 79; 88] ++ replicate 12 32) 0x20 4 0)) as (o & g & e' & E1 & E2 & Hn & _ & _ & Hg);
    try reflexivity; try done; try decided.
  - exists o, g, e'. split; [exact E1|]. split; [exact E2|]. split; [exact Hn|exact Hg].
Defined.

(** The flags of a name are assembled from signed characters: when the low
    byte has its high bit set, the name counts as a group whatever its G bit
    says, and a file server with such flags is passed over. *)
Theorem name_flags_sign_extended pre n post :
  node_name_ok n -> 128 <= nn_flags_lo n ->
  find_group 1 (pre ++ node_bytes n ++ post) (zlen pre) = Done (Some (zlen pre))
  /\ find_server 1 (pre ++ node_bytes n ++ post) (zlen pre) = Done None.
Proof.
  intros Hn Hlo. pose proof Hn as (_ & _ & _ & Hh & Hl). cbn [find_group find_server].
  rewrite type_node, current_flags_node by done. cbn [checked obind]. rewrite is_group_flags by done.
  rewrite (proj2 (Z.leb_le 128 (nn_flags_lo n))), orb_true_r by done. done.
Qed.

Lemma name_flags_sign_extended_witness :
  find_server 1 (node_bytes (NodeName (replicate 15 65) 0x20 4 0x80)) 0 = Done None.
Proof.
  apply (name_flags_sign_extended [] (NodeName (replicate 15 65) 0x20 4 0x80) []); [|cbn; lia].
  decided.
Defined.

(** * The discovery thread *)

(** C7. The discovery thread, for every sequence of network events: it never
    faults; when it ends, no address has two entries, and the callbacks were
    told in order: every entry was announced once, when it first had a name,
    its removal was told only while it was announced, and what is announced is
    exactly what has a name in the table. *)
Theorem discover_thread_invariant ifs ns w :
  lucky w -> Forall event_ok (w_events w) -> (forall addrs, ifs = Some addrs -> ifaddrs_ok addrs) ->
  buffer_ok ns -> queue_ok (next_ptr ns) (entry_queue ns) ->
  netbios_ns_discover_thread ifs ns w <> Fault
  /\ forall ns' w', netbios_ns_discover_thread ifs ns w = Done (ns', w') ->
       queue_ok (next_ptr ns') (entry_queue ns')
       /\ exists new, discover_log ns' = discover_log ns ++ new
          /\ live (named (entry_queue ns)) new = Some (named (entry_queue ns')).
Proof.
  intros Hw Hev Hifs Hb Hq.
  destruct (discover_thread_spec ifs ns Hifs ns w Hw Hev (discovering_start _ Hb Hq)) as (H1 & _ & H3).
  split; [done|]. intros ns' w' E. destruct (H3 _ _ E) as (_ & _ & H). exact H.
Qed.

(** C18. The discovery thread ends: if the abort byte is written at any moment
    of the run, whatever the network does before, the thread returns. *)
Theorem discover_thread_ends ifs ns w :
  lucky w -> Forall event_ok (w_events w) -> (forall addrs, ifs = Some addrs -> ifaddrs_ok addrs) ->
  buffer_ok ns -> queue_ok (next_ptr ns) (entry_queue ns) -> pending w ->
  exists ns' w', netbios_ns_discover_thread ifs ns w = Done (ns', w').
Proof.
  intros Hw Hev Hifs Hb Hq Hp.
  destruct (discover_thread_spec ifs ns Hifs ns w Hw Hev (discovering_start _ Hb Hq)) as (H1 & H2 & _).
  destruct (netbios_ns_discover_thread ifs ns w) as [[ns' w']| |]; [eauto|done|by destruct (H2 Hp)].
Qed.

(** The rest of the thread when it is in its inner loop. *)
Definition discover_receiving (ifs : option (list ifaddrs)) (ns : netbios_ns) : io netbios_ns :=
  v ← loop (discover_recv_body ifs) ns;
  match v with
  | inr ns => mret ns
  | inl ns => if discover_broadcast_timeout ns =? 0 then mret ns else netbios_ns_discover_thread ifs ns
  end.

Lemma discover_receiving_spec ifs ns0 ns w :
  lucky w -> Forall event_ok (w_events w) -> (forall addrs, ifs = Some addrs -> ifaddrs_ok addrs) ->
  discovering ns0 ns -> safe w (discover_receiving ifs ns) (discovering ns0).
Proof.
  intros Hw Hev Hifs Hd. destruct (discover_recv_loop ifs ns0 Hifs ns w Hw Hev Hd) as [Hs _].
  eapply safe_bind; [exact Hs|]. intros [ns1|ns1] w1 Ha H; [|by apply safe_ret].
  destruct (_ =? _); [by apply safe_ret|].
  apply discover_thread_spec; [done|by eapply after_lucky|by eapply after_events|done].
Qed.

(** Stopping a discovery joins the thread: with the thread at the start of
    a round or waiting for answers, netbios_ns_discover_stop returns 0 and the
    session is stopped with a well-formed table; a discovery that is not
    started gives -1 and no change. *)
Theorem discover_stop_joins ifs ns w rest :
  rest = netbios_ns_discover_thread ifs ns \/ rest = discover_receiving ifs ns ->
  lucky w -> Forall event_ok (w_events w) -> (forall addrs, ifs = Some addrs -> ifaddrs_ok addrs) ->
  buffer_ok ns -> queue_ok (next_ptr ns) (entry_queue ns) ->
  if discover_started ns
  then exists ns' w', netbios_ns_discover_stop ns rest w = Done ((0, ns'), w')
         /\ discover_started ns' = false /\ queue_ok (next_ptr ns') (entry_queue ns')
  else netbios_ns_discover_stop ns rest w = Done ((-1, ns), w).
Proof.
  intros Hrest Hw Hev Hifs Hb Hq. unfold netbios_ns_discover_stop. destruct (discover_started ns); [|done].
  rewrite (bind_Done _ _ _ tt (set_aborted w)) by done.
  assert (Hs : safe (set_aborted w) rest (discovering ns)).
  { pose proof (discovering_start _ Hb Hq). destruct Hrest as [->| ->];
      [by apply discover_thread_spec|by apply discover_receiving_spec]. }
  destruct Hs as (H1 & H2 & H3). destruct (rest (set_aborted w)) as [[ns' w']| |] eqn:E;
    [|done|destruct (H2 (or_introl eq_refl)); done].
  rewrite (bind_Done _ _ _ _ _ E). destruct (H3 _ _ eq_refl) as (_ & _ & Hq' & _).
  eexists _, _. split; [reflexivity|]. split; [reflexivity|exact Hq'].
Qed.

(** Expiry: after the sweep the table holds exactly the entries seen within
    the timeout, and the callbacks tell of exactly the named entries that
    went. *)
Theorem expire_keeps_fresh now timeout ns :
  buffer_ok ns -> queue_ok (next_ptr ns) (entry_queue ns) ->
  let ns' := expire_loop now timeout (entry_queue ns) ns in
  (forall x, x ∈ entry_queue ns' <-> x ∈ entry_queue ns /\ now - last_time_seen x.2 <= timeout)
  /\ exists new, discover_log ns' = discover_log ns ++ new
     /\ live (named (entry_queue ns)) new = Some (named (entry_queue ns')).
Proof.
  intros Hb Hq ns'.
  destruct (expire_spec ns now timeout (entry_queue ns) ns (discovering_start _ Hb Hq)) as ((_ & _ & H1) & _ & H3);
    [apply Hq|done|]. split; [|exact H1]. intros x. unfold ns'. rewrite H3. unfold fresh_at. tauto.
Qed.

(** ** Concrete runs *)

Lemma some_buffer_ok : buffer_ok some_ns.
Proof. split; [reflexivity|decided]. Qed.

Lemma some_queue_ok : queue_ok (next_ptr some_ns) (entry_queue some_ns).
Proof. split_and!; constructor. Qed.

Lemma some_ifs_ok addrs : Some some_ifs = Some addrs -> ifaddrs_ok addrs.
Proof. intros [= <-]. repeat constructor; done. Qed.

(** The host answers the broadcast, then its status question; then silence,
    and the abort. *)
Definition nb_answer : bytes :=
  replicate 12 0 ++ [0x20] ++ replicate 32 65 ++ [0] ++ [0x00; 0x20] ++ [0; 1] ++ replicate 4 0 ++ [0; 6] ++ replicate 6 0.

Definition some_events : list event :=
  [EvReady 50; EvDatagram 7 nb_answer; EvReady 50; EvDatagram 7 some_answer; EvDatagram 7 some_answer; EvAbort].

Lemma some_events_ok : Forall event_ok some_events.
Proof. repeat constructor; decided. Qed.

Lemma discover_thread_invariant_witness :
  netbios_ns_discover_thread (Some some_ifs) some_ns (some_world some_events) <> Fault.
Proof.
  apply (discover_thread_invariant (Some some_ifs) some_ns (some_world some_events));
    [done|exact some_events_ok|exact some_ifs_ok|exact some_buffer_ok|exact some_queue_ok].
Defined.

Lemma discover_thread_ends_witness :
  exists ns' w', netbios_ns_discover_thread (Some some_ifs) some_ns (some_world some_events) = Done (ns', w').
Proof.
  apply (discover_thread_ends (Some some_ifs) some_ns (some_world some_events));
    [done|exact some_events_ok|exact some_ifs_ok|exact some_buffer_ok|exact some_queue_ok|].
  right. do 5 right. left.
Defined.

Lemma discover_stop_joins_witness :
  exists ns' w', netbios_ns_discover_stop (set_discover some_ns 5 true)
      (discover_receiving (Some some_ifs) (set_discover some_ns 5 true)) (some_world [])
    = Done ((0, ns'), w') /\ discover_started ns' = false.
Proof.
  destruct (discover_stop_joins (Some some_ifs) (set_discover some_ns 5 true) (some_world [])
    (discover_receiving (Some some_ifs) (set_discover some_ns 5 true))) as (ns' & w' & E & H & _);
    [by right|done|constructor|exact some_ifs_ok|exact some_buffer_ok|exact some_queue_ok|].
  exists ns', w'. split; [exact E|exact H].
Defined.

(** Two entries, seen at 60 and at 90. *)
Definition old_ns : netbios_ns :=
  set_next_ptr (set_queue some_ns [(1, touch (new_entry 7) 60); (2, touch (new_entry 8) 90)]) 3.

Lemma expire_keeps_fresh_witness :
  (2, touch (new_entry 8) 90) ∈ entry_queue (expire_loop 100 25 (entry_queue old_ns) old_ns).
Proof.
  apply (expire_keeps_fresh 100 25 old_ns); [exact some_buffer_ok| |split; [right; left|cbn; lia]].
  split; [decided|]. split; [decided|]. repeat constructor.
Defined.

Lemma resolve_sound_witness :
  netbios_ns_resolve (Some some_ifs) some_ns (cstr [66; 79; 88]) 0x20
    (some_world [EvReady 50; EvDatagram 7 nb_answer]) <> Fault.
Proof.
  apply (resolve_sound (Some some_ifs) some_ns [66; 79; 88] 0x20 (some_world [EvReady 50; EvDatagram 7 nb_answer]));
    [done|repeat constructor; decided|exact some_ifs_ok|exact some_buffer_ok|exact some_queue_ok|done|decided|decided].
Defined.

Lemma inverse_sound_witness :
  netbios_ns_inverse (Some some_ifs) some_ns 7 (some_world [EvReady 50; EvDatagram 7 some_answer]) <> Fault.
Proof.
  apply (inverse_sound (Some some_ifs) some_ns 7 (some_world [EvReady 50; EvDatagram 7 some_answer]));
    [done|repeat constructor; decided|exact some_ifs_ok|exact some_buffer_ok|exact some_queue_ok|done|done].
Defined.

(** The model run: BOX is resolved, found by its address, and announced once. *)
Definition outcome_value {A} (m : outcome (A * world)) : option A :=
  match m with Done (a, _) => Some a | _ => None end.

Example resolve_box :
  option_map (fun v : Z * Z * netbios_ns => (v.1.1, v.1.2))
    (outcome_value (netbios_ns_resolve (Some some_ifs) some_ns (cstr [66; 79; 88]) 0x20
       (some_world [EvReady 50; EvDatagram 7 nb_answer]))) = Some (0, 7).
Proof. vm_compute. reflexivity. Qed.

Example inverse_box :
  option_map fst (outcome_value (netbios_ns_inverse (Some some_ifs) some_ns 7
    (some_world [EvReady 50; EvDatagram 7 some_answer]))) = Some (Some ([66; 79; 88] ++ replicate 13 0)).
Proof. vm_compute. reflexivity. Qed.

Example discover_box :
  option_map (fun ns => map (fun c => match c with OnEntryAdded p e => (p, name e) | OnEntryRemoved p e => (- p, name e) end)
    (discover_log ns)) (outcome_value (netbios_ns_discover_thread (Some some_ifs) some_ns (some_world some_events)))
  = Some [(1, [66; 79; 88] ++ replicate 13 0)].
Proof. vm_compute. reflexivity. Qed.

End NetbiosNsProps.
