(* ===== verification/NetbiosVariants.v ===== *)
(** What the other builds compile instead: the abort context without a pipe
    (src/netbios_utils.c, the [#else] branch, with the waits of
    src/netbios_session.c that go with it) and the two other versions of
    [netbios_ns_broadcast_packet] (src/netbios_ns.c). *)

From S2P Require Import Prelude World NetbiosUtils NetbiosQuery NetbiosNs NetbiosNsProps NetbiosSession.

Module NetbiosVariants.
Import NetbiosUtils NetbiosQuery NetbiosNs NetbiosNsProps.
Local Open Scope Z_scope.

(** * Abort by an atomic flag

    [w_aborted] is the flag. The set of [select] holds the socket alone and
    there is no timeout: an [EvAbort] is the moment at which another thread
    sets the flag, and the wait goes on. *)
Module Atomic.

Definition netbios_abort_ctx_init : io Z :=
  fun w => Done (0, World (w_coin w) (w_pick w) (w_junk w) (w_tick w) (w_events w) false (w_rx w) (w_tx w)).
Definition netbios_abort_ctx_destroy : io unit := mret tt.
Definition netbios_abort_ctx_is_aborted : io bool := fun w => Done (w_aborted w, w).
Definition netbios_abort_ctx_abort : io unit := fun w => Done (tt, set_aborted w).

(** [select] on the socket, without a timeout. *)
Fixpoint await (l : list event) (w : world) : outcome (event * world) :=
  match l with
  | [] => Blocked
  | EvAbort :: l => await l (set_aborted w)
  | e :: l => Done (e, set_events w l)
  end.
Definition select : io event := fun w => await (w_events w) w.

(** [select], its error, then the test of the flag. *)
Definition wait : io event :=
  e ← select;
  match e with
  | EvError => mret EvError
  | _ => aborted ← netbios_abort_ctx_is_aborted; mret (if aborted : bool then EvAbort else e)
  end.

Definition netbios_session_packet_send (s : NetbiosSession.netbios_session) : io (Z * NetbiosSession.netbios_session) :=
  _ ← NetbiosSession.the_packet s;
  require ((0 <=? NetbiosSession.socket s) && (0 <? NetbiosSession.state s)) ;;
  s ← NetbiosSession.store s 2 (le_bytes 2 (swap16 (u16 (NetbiosSession.packet_cursor s))));
  let to_send := NetbiosSession.sizeof_packet + NetbiosSession.packet_cursor s in
  r ← loop (fun _ : unit =>
    e ← wait;
    match e with
    | EvError | EvAbort => mret (inr 0)
    | EvReady n =>
        p ← NetbiosSession.the_packet s;
        out ← access (sub p 0 to_send);
        sent ← send n out;
        mret (inr (if negb (sent =? to_send) then 0 else sent))
    | EvNone | EvDatagram _ _ => mret (inl tt)
    end) tt;
  mret (r, s).

Definition netbios_session_recv (s : NetbiosSession.netbios_session) (off len : Z) : io (Z * NetbiosSession.netbios_session) :=
  loop (fun _ : unit =>
    e ← wait;
    match e with
    | EvError | EvAbort => mret (inr (-1, s))
    | EvReady n =>
        '(res, got) ← recv n len;
        s ← NetbiosSession.store s off got;
        mret (inr (res, s))
    | EvNone | EvDatagram _ _ => mret (inl tt)
    end) tt.

Lemma await_silent l w : Forall (eq EvAbort) l -> await l w = Blocked.
Proof. intros H. revert w. induction H as [|e l <- _ IH]; intros w; [done|]. apply IH. Qed.

Lemma wait_silent w : Forall (eq EvAbort) (w_events w) -> wait w = Blocked.
Proof. intros Hl. unfold wait, select, mbind, io_bind. by rewrite await_silent. Qed.

Lemma loop_wait_silent {A} (k : event -> io (unit + A)) w :
  Forall (eq EvAbort) (w_events w) -> loop (fun _ : unit => e ← wait; k e) tt w = Blocked.
Proof. intros Hl. unfold loop. cbn [loop_fuel]. unfold mbind, io_bind. by rewrite wait_silent. Qed.

(** C38. Waiting for a peer that has gone silent, in the two builds. With the pipe
    an abort, already made or to come, ends the wait and the call fails. With
    the flag it does not: the flag is looked at only behind [select], which
    has no timeout. *)
Theorem silent_peer_abort s off len w :
  Forall (eq EvAbort) (w_events w) -> pending w ->
  (exists w', NetbiosSession.netbios_session_recv s off len w = Done ((-1, s), w'))
  /\ netbios_session_recv s off len w = Blocked.
Proof.
  intros Hl Hp. split; [|by apply loop_wait_silent]. rewrite NetbiosSession.session_recv_step.
  assert (E : exists w', World.select w = Done (EvAbort, w')).
  { unfold World.select. destruct (w_aborted w) eqn:Ea; [by eexists|]. destruct Hp as [|Hp]; [congruence|].
    destruct (w_events w) as [|e l]; [by apply elem_of_nil in Hp|]. apply Forall_cons in Hl as [<- _]. by eexists. }
  destruct E as [w' E]. exists w'. by rewrite (bind_Done _ _ _ _ _ E).
Qed.

(** The flag is seen at the next event of the socket, and then ends the call
    before anything is read. *)
Lemma flag_ends_recv s off len w e l :
  w_aborted w = true -> w_events w = e :: l -> e <> EvAbort ->
  netbios_session_recv s off len w = Done ((-1, s), set_events w l).
Proof.
  intros Ha Hl He. unfold netbios_session_recv, loop. cbn [loop_fuel].
  assert (E : wait w = Done (if e is EvError then EvError else EvAbort, set_events w l)).
  { unfold wait, select, mbind, io_bind. rewrite Hl. destruct e; try done; cbn; unfold netbios_abort_ctx_is_aborted; cbn; by rewrite Ha. }
  unfold mbind, io_bind. rewrite E. by destruct e.
Qed.

Lemma silent_peer_abort_witness :
  (exists w', NetbiosSession.netbios_session_recv NetbiosSession.session0 0 4 (some_world [EvAbort]) = Done ((-1, NetbiosSession.session0), w'))
  /\ netbios_session_recv NetbiosSession.session0 0 4 (some_world [EvAbort]) = Blocked.
Proof. apply (silent_peer_abort NetbiosSession.session0 0 4 (some_world [EvAbort])); [by repeat constructor|right; by left]. Defined.

End Atomic.

(** * Broadcasting without getifaddrs *)

Definition INADDR_BROADCAST : Z := 0xffffffff.
Definition netbios_ns_broadcast_packet_plain (q : netbios_query) : io unit :=
  _ ← netbios_ns_send_packet q INADDR_BROADCAST; mret tt.

(** * Broadcasting with WSAIoctl *)

(** The parts of an [INTERFACE_INFO] that are used: the family and the address
    of [iiAddress], the address of [iiNetmask]. *)
Record INTERFACE_INFO := InterfaceInfo {
  ii_family : Z;
  ii_address : Z;
  ii_netmask : Z
}.
Definition AF_INET : Z := 2.

Definition directed_broadcast (a : INTERFACE_INFO) : Z :=
  let broadcast := Z.land (ii_address a) (ii_netmask a) in
  Z.lor broadcast (u32 (Z.lnot (ii_netmask a))).

Fixpoint broadcast_infos (q : netbios_query) (infolist : list INTERFACE_INFO) : io unit :=
  match infolist with
  | [] => mret tt
  | a :: infolist =>
      if ii_family a =? AF_INET
      then _ ← netbios_ns_send_packet q (directed_broadcast a); broadcast_infos q infolist
      else broadcast_infos q infolist
  end.

(** What WSAIoctl gives, at most 16 elements; [None] when it fails. *)
Definition netbios_ns_broadcast_packet_win (wsa : option (list INTERFACE_INFO)) (q : netbios_query) : io unit :=
  match wsa with None => mret tt | Some infolist => broadcast_infos q infolist end.

(** The bits of the network are those of the address, all others are set. *)
Lemma directed_broadcast_bits a i : 0 <= i < 32 ->
  Z.testbit (directed_broadcast a) i = if Z.testbit (ii_netmask a) i then Z.testbit (ii_address a) i else true.
Proof.
  intros Hi. unfold directed_broadcast, u32. rewrite Z.lor_spec, Z.land_spec.
  change 4294967296 with (2 ^ 32). rewrite Z.mod_pow2_bits_low, Z.lnot_spec by lia.
  destruct (Z.testbit (ii_netmask a) i); cbn; [by rewrite andb_true_r, orb_false_r|by rewrite orb_true_r].
Qed.

(** The same interface as both systems describe it: with an IPv4 address, up
    and with its broadcast address on one side, with address and mask on the
    other, or skipped on both. *)
Definition same_interface (a : ifaddrs) (b : INTERFACE_INFO) : Prop :=
  (ii_family b = AF_INET /\ ifa_family a = Some PF_INET /\ ifa_broadaddr a = Some (directed_broadcast b)
   /\ Z.land (ifa_flags a) IFF_BROADCAST <> 0 /\ Z.land (ifa_flags a) IFF_UP <> 0)
  \/ (ii_family b <> AF_INET /\ (exists f, ifa_family a = Some f /\ f <> PF_INET)).

(** On the same interfaces the Windows version does what the version with
    getifaddrs does: the same datagrams to the same addresses in the same
    order, with the same answers of the system. *)
Theorem broadcast_versions_agree addrs infos q w :
  Forall2 same_interface addrs infos ->
  netbios_ns_broadcast_packet_win (Some infos) q w = netbios_ns_broadcast_packet (Some addrs) q w.
Proof.
  intros Hs. unfold netbios_ns_broadcast_packet_win, netbios_ns_broadcast_packet. revert w.
  induction Hs as [|a b addrs infos Hab _ IH]; intros w; cbn [broadcast_infos broadcast_loop]; [done|].
  destruct Hab as [(-> & Ef & Eb & Hb & Hu)|(Hf & f & Ef & Hf')].
  - rewrite (proj2 (Z.eqb_neq _ 0) Hb), (proj2 (Z.eqb_neq _ 0) Hu), Ef, Eb. cbn [orb].
    rewrite (bind_Done _ _ w PF_INET w) by done. cbn [Z.eqb PF_INET AF_INET Pos.eqb negb].
    unfold mbind, io_bind. destruct (netbios_ns_send_packet q (directed_broadcast b) w) as [[r w1]| |]; [apply IH|done|done].
  - rewrite (proj2 (Z.eqb_neq _ _) Hf), IH. destruct (_ || _); [done|]. rewrite Ef.
    rewrite (bind_Done _ _ w f w) by done. by rewrite (proj2 (Z.eqb_neq _ _) Hf').
Qed.

Lemma broadcast_versions_agree_witness :
  netbios_ns_broadcast_packet_win (Some [InterfaceInfo AF_INET 0x0501a8c0 0x00ffffff; InterfaceInfo 23 0 0]) (Query 0 0 (replicate 12 7)) (some_world [EvReady 12])
  = netbios_ns_broadcast_packet (Some [IfAddr 3 (Some PF_INET) (Some 0xff01a8c0); IfAddr 3 (Some 10) None]) (Query 0 0 (replicate 12 7)) (some_world [EvReady 12]).
Proof.
  apply (broadcast_versions_agree [IfAddr 3 (Some PF_INET) (Some 0xff01a8c0); IfAddr 3 (Some 10) None]
    [InterfaceInfo AF_INET 0x0501a8c0 0x00ffffff; InterfaceInfo 23 0 0] (Query 0 0 (replicate 12 7)) (some_world [EvReady 12])).
  constructor; [left|constructor; [right|constructor]].
  - split_and!; done.
  - split; [done|]. by exists 10.
Defined.

End NetbiosVariants.
