(* ===== verification/SmbTransport.v ===== *)
(** The transport of SMB messages: src/smb_transport.c and the table of
    functions [smb_transport] of src/smb_types.h.

    The SMB layer calls the transport only through the table. What it relies
    on is the class [TransportLaws]; both tables of the sources satisfy it, and
    the theorems of the layers above are proved for every table that does. *)

From S2P Require Import Prelude World NetbiosSession.
Import NetbiosSession.

Module SmbTransport.

(** The operations on a transport session [T]. [recv] gives the size, the
    memory at [*data] (up to the end of the block; [None] when the pointer is
    not set) and the session. *)
Record smb_transport (T : Type) := Transport {
  connect : Z -> T -> option bytes -> io (Z * T);
  disconnect : T -> T;
  pkt_init : T -> io T;
  pkt_append : T -> bytes -> Z -> io (Z * T);
  send : T -> io (Z * T);
  recv : T -> io (Z * option bytes * T)
}.
Arguments connect {T}. Arguments disconnect {T}. Arguments pkt_init {T}.
Arguments pkt_append {T}. Arguments send {T}. Arguments recv {T}.
Arguments Transport {T}.

Definition transport_connect_nbt (ip : Z) (s : netbios_session) (name : option bytes) :=
  netbios_session_connect ip s name false.
Definition transport_connect_tcp (ip : Z) (s : netbios_session) (name : option bytes) :=
  netbios_session_connect ip s name true.

(** [netbios_session_packet_recv(s, &data)]: the payload is behind the header
    of 4 bytes. *)
Definition packet_recv_data (s : netbios_session) : io (Z * option bytes * netbios_session) :=
  '(size, s) ← netbios_session_packet_recv s;
  if 0 <=? size
  then p ← the_packet s; mret (size, Some (drop 4 p), s)
  else mret (size, None, s).

Definition smb_transport_nbt : smb_transport netbios_session :=
  Transport transport_connect_nbt netbios_session_disconnect netbios_session_packet_init
    netbios_session_packet_append netbios_session_packet_send packet_recv_data.

Definition smb_transport_tcp : smb_transport netbios_session :=
  Transport transport_connect_tcp netbios_session_disconnect netbios_session_packet_init
    netbios_session_packet_append netbios_session_packet_send packet_recv_data.

Definition smb_transport_new_session (buf_size : Z) : io (option netbios_session) :=
  netbios_session_new buf_size.
Definition smb_transport_abort_session (s : netbios_session) : io unit := netbios_session_abort s.

(** One message out: the packet is started, filled and sent. *)
Definition transmit {T} (tr : smb_transport T) (t : T) (data : bytes) (size : Z) : io (Z * T) :=
  t ← pkt_init tr t;
  '(r, t) ← pkt_append tr t data size;
  if r =? 0 then mret (0, t) else send tr t.

(** * What the SMB layer relies on *)

(** A message behind a header of 4 bytes on the wire: whole when [r] reports
    success, else at most a part of it. *)
Definition on_wire (r : Z) (d : bytes) (w w' : world) : Prop :=
  (r = 0 /\ w_tx w' = w_tx w)
  \/ exists hd part, length hd = 4%nat /\ part `prefix_of` hd ++ d /\ (r <> 0 -> part = hd ++ d)
      /\ w_tx w' = w_tx w ++ [Stream part].

Class TransportLaws {T} (tr : smb_transport T) := {
  (** The session can be used; there is room for a message of this size. *)
  tr_ok : T -> Prop;
  tr_room : T -> Z -> Prop;

  (** Every request but a long write is small enough. *)
  tr_room_small t n : tr_ok t -> 0 <= n <= 8188 -> tr_room t n;

  (** Sending accesses nothing outside the session; when it reports success
      the message, and nothing else, is on the wire behind a header, and
      otherwise at most the start of it. A small
      message that could not be sent leaves the session as usable as before. *)
  transmit_ok t data n d w :
    tr_ok t -> tr_room t n -> bytes_ok (w_rx w) -> sub data 0 n = Some d -> bytes_ok d ->
    wp (transmit tr t data n) (fun '(r, t') w' => bytes_ok (w_rx w')
      /\ (n <= 8188 \/ r <> 0 -> tr_ok t')
      /\ on_wire r d w w') w;

  (** Whatever message was handed to it, a session that was usable when there
      is memory still is. *)
  transmit_keeps t data n w r t' w' :
    tr_ok t -> lucky w -> bytes_ok (w_rx w) -> bytes_ok data -> 0 <= n < 18446744073709551616 ->
    transmit tr t data n w = Done ((r, t'), w') -> tr_ok t' /\ bytes_ok (w_rx w');

  (** Receiving accesses nothing outside the session and sends nothing; the
      size has 17 bits and never exceeds the memory handed out, which is never less than what
      a small message needs. The session stays usable unless there was no
      memory for the message. *)
  recv_ok t w : tr_ok t -> bytes_ok (w_rx w) ->
    wp (recv tr t) (fun '(r, m, t') w' => w_tx w' = w_tx w /\ bytes_ok (w_rx w')
      /\ (0 <= r \/ lucky w' -> tr_ok t')
      /\ (0 <= r -> r < 131072 /\ exists p, m = Some p /\ Z.max r 8188 <= zlen p /\ bytes_ok p)) w;

  (** Nothing adds events, and a message received has used up some. *)
  init_events t : within onward (pkt_init tr t);
  append_events t data n : within onward (pkt_append tr t data n);
  send_events t : within onward (send tr t);
  recv_onward t : within onward (recv tr t);
  recv_events t w r m t' w' :
    recv tr t w = Done ((r, m, t'), w') -> 0 <= r -> (length (w_events w') < length (w_events w))%nat;

  (** An abort ends whatever is in progress, and nothing is sent from then on. *)
  init_abortable t : abortable (pkt_init tr t);
  append_abortable t data n : abortable (pkt_append tr t data n);
  send_abortable t : abortable (send tr t);
  recv_abortable t : abortable (recv tr t);
  init_hush t : within hush (pkt_init tr t);
  append_hush t data n : within hush (pkt_append tr t data n);
  send_hush t : within hush (send tr t);
  recv_hush t : within hush (recv tr t)
}.

#[export] Hint Extern 1 (within onward (pkt_init _ _)) => apply init_events : within.
#[export] Hint Extern 1 (within onward (pkt_append _ _ _ _)) => apply append_events : within.
#[export] Hint Extern 1 (within onward (send _ _)) => apply send_events : within.
#[export] Hint Extern 1 (within onward (recv _ _)) => apply recv_onward : within.
#[export] Hint Extern 1 (within hush (pkt_init _ _)) => apply init_hush : within.
#[export] Hint Extern 1 (within hush (pkt_append _ _ _ _)) => apply append_hush : within.
#[export] Hint Extern 1 (within hush (send _ _)) => apply send_hush : within.
#[export] Hint Extern 1 (within hush (recv _ _)) => apply recv_hush : within.
#[export] Hint Extern 1 (abortable (pkt_init _ _)) => apply init_abortable : abortable.
#[export] Hint Extern 1 (abortable (pkt_append _ _ _ _)) => apply append_abortable : abortable.
#[export] Hint Extern 1 (abortable (send _ _)) => apply send_abortable : abortable.
#[export] Hint Extern 1 (abortable (recv _ _)) => apply recv_abortable : abortable.

(** * The NetBIOS session keeps the contract *)

(** The room left by the size field of the session: the message fits the
    block, or is larger than the field says, so that the block grows. *)
Definition session_room (s : netbios_session) (n : Z) : Prop :=
  0 <= n < 9223372036854775804
  /\ (packet_payload_size s < n \/ forall p, packet s = Some p -> 4 + n <= zlen p).

(** ** Receiving sends nothing *)

Lemma packet_recv_silent s : silent (netbios_session_packet_recv s).
Proof.
  unfold netbios_session_packet_recv, netbios_session_get_next_packet, recv_exactly, netbios_session_recv,
    session_buffer_realloc, store, the_packet, access, require, realloc.
  confine.
Qed.

Lemma select_rx w e w' : select w = Done (e, w') -> w_rx w' = w_rx w.
Proof.
  unfold select. destruct (w_aborted w); [by intros [= _ <-]|].
  by destruct (w_events w) as [|[] ?]; intros [= _ <-].
Qed.

(** ** Sending *)

(** What an append leaves: the message behind the header. *)
Definition appended (s : netbios_session) (hd d : bytes) (s' : netbios_session) : Prop :=
  socket s' = socket s /\ state s' = state s
  /\ exists post, packet s' = Some (hd ++ d ++ post) /\ packet_cursor s' = zlen d
       /\ 0 <= packet_payload_size s' <= zlen (hd ++ d ++ post)
       /\ packet_payload_size s <= packet_payload_size s' < 18446744073709551616 /\ bytes_ok post.

(** The store behind the header of a block with room. *)
Lemma append_store s p data d n w :
  packet s = Some p -> sub data 0 n = Some d -> n = zlen d -> 4 + n <= zlen p -> bytes_ok p -> packet_cursor s = 0 ->
  0 <= packet_payload_size s <= zlen p -> packet_payload_size s < 18446744073709551616 ->
  n < 9223372036854775804 ->
  exists s', (x ← access (sub data 0 n); s ← store s (sizeof_packet + packet_cursor s) x;
              mret (1, set_cursor s (u64 (packet_cursor s + n)))) w = Done ((1, s'), w)
    /\ appended s (take 4 p) d s'.
Proof.
  intros Hp Hsub -> Hl Hb Hc Hs Hm Hn. rewrite (bind_Done _ _ _ d w) by (by apply access_Done).
  set (post := drop (4 + length d) p).
  assert (Hput : put p (sizeof_packet + packet_cursor s) d = Some (take 4 p ++ d ++ post)).
  { rewrite Hc. unfold sizeof_packet. rewrite put_Some by (unfold zlen in *; lia). done. }
  rewrite (bind_Done _ _ _ _ _ (store_Done _ _ _ _ _ _ Hp Hput)).
  eexists. split; [reflexivity|]. unfold appended.
  cbn [packet set_packet set_cursor packet_cursor packet_payload_size socket state]. rewrite Hc.
  split; [done|]. split; [done|]. exists post.
  pose proof (length_put _ _ _ _ Hput) as Hlp.
  split_and!; try done; try (unfold zlen in *; lia); [|by apply bytes_ok_drop].
  change (0 + zlen d) with (zlen d). apply u64_small. unfold zlen in *. lia.
Qed.

(** One packet, from any session that can be used. *)
Lemma append_any s p data d n w :
  packet s = Some p -> sub data 0 n = Some d -> n = zlen d -> 4 <= zlen p -> bytes_ok p -> packet_cursor s = 0 ->
  0 <= packet_payload_size s <= zlen p -> packet_payload_size s < 18446744073709551616 ->
  session_room s n ->
  exists r s' w', netbios_session_packet_append s data n w = Done ((r, s'), w')
    /\ w_tx w' = w_tx w /\ w_rx w' = w_rx w
    /\ (r = 0 /\ packet_payload_size s < n \/ r = 1 /\ appended s (take 4 p) d s').
Proof.
  intros Hp Hsub -> H4 Hb Hc Hs Hmax [Hn Hroom]. unfold netbios_session_packet_append.
  rewrite (bind_Done _ _ _ _ _ (the_packet_Done _ _ _ Hp)), Hc.
  rewrite Z.sub_0_r, u64_small by lia.
  destruct (Z.ltb_spec (packet_payload_size s) (zlen d)) as [Hlt|Hge].
  - unfold session_buffer_realloc. rewrite Hp. cbn [default id].
    rewrite (u64_small (zlen d + 0 + sizeof_packet)) by (unfold sizeof_packet; lia).
    unfold mbind at 1, io_bind at 1. unfold mbind at 1, io_bind at 1. rewrite realloc_spec. cbn [obind].
    destruct (w_coin w (w_tick w)).
    + cbn [mret io_ret obind]. unfold mret at 1, io_ret at 1. cbn [obind]. change (1 =? 0) with false. cbv iota.
      set (p1 := take (Z.to_nat (zlen d + 0 + sizeof_packet)) p ++ _).
      assert (Hl1 : zlen p1 = zlen d + 4).
      { unfold p1, sizeof_packet, zlen. rewrite length_app, length_junk_bytes, length_take. unfold zlen. lia. }
      destruct (append_store (set_packet (set_size s (zlen d + 0 + sizeof_packet)) (Some p1)) p1 data d (zlen d)
        (set_tick w (S (S (w_tick w))))) as (s' & E & H);
        try done; cbn [packet_payload_size set_packet set_size]; unfold sizeof_packet in *; try lia.
      * unfold p1. auto with dsm.
      * eexists 1, s', _. split; [exact E|]. split_and!; try done. right. split; [done|].
        replace (take 4 p) with (take 4 p1).
        { destruct H as (? & ? & post & ? & ? & ? & Hle & ?). cbn in Hle.
          split; [done|]. split; [done|]. exists post. split_and!; auto; lia. }
        unfold p1. rewrite take_app_le by (rewrite length_take; unfold zlen in *; lia).
        rewrite take_take. f_equal. unfold zlen. lia.
    + eexists 0, _, _. split; [reflexivity|]. split_and!; try done. auto.
  - destruct Hroom as [|Hroom]; [lia|]. specialize (Hroom p Hp).
    destruct (append_store s p data d (zlen d) w) as (s' & E & H); try done; try lia.
    exists 1, s', w. split; [exact E|]. split_and!; try done. auto.
Qed.

(** ** The size field *)

(** What holds of every result. *)
Definition results {A} (m : io A) (Q : A -> Prop) : Prop := forall w a w', m w = Done (a, w') -> Q a.

Lemma results_bind {A B} (m : io A) (k : A -> io B) P Q :
  results m P -> (forall a, P a -> results (k a) Q) -> results (m ≫= k) Q.
Proof. intros Hm Hk w b w' (a & w1 & E1 & E2)%bind_inv. eapply Hk; eauto. Qed.

Lemma results_any {A B} (m : io A) (k : A -> io B) Q :
  (forall a, results (k a) Q) -> results (m ≫= k) Q.
Proof. intros Hk. by apply (results_bind _ _ (fun _ => True)). Qed.

Lemma results_ret {A} (a : A) (Q : A -> Prop) : Q a -> results (mret a) Q.
Proof. by intros H w b w' [= <- _]. Qed.

Lemma results_loop {A B} (body : A -> io (A + B)) a (I : A -> Prop) (Q : B -> Prop) :
  (forall a, I a -> results (body a) (fun r => match r with inl a => I a | inr b => Q b end)) ->
  I a -> results (loop body a) Q.
Proof.
  intros Hb Ha w b w'.
  apply (loop_invariant _ (fun a _ => I a) (fun b _ => Q b)); [..|done]; intros * H E; exact (Hb _ H _ _ _ E).
Qed.

Definition sized (s : netbios_session) : Prop := 8192 <= packet_payload_size s < 18446744073709551616.

Lemma store_sized s off src : sized s -> results (store s off src) sized.
Proof. intros Hs. apply results_any. intros p. apply results_any. intros p'. by apply results_ret. Qed.

Lemma session_recv_sized s off len : sized s -> results (netbios_session_recv s off len) (fun r => sized r.2).
Proof.
  intros Hs. apply (results_loop _ _ (fun _ => True)); [|done]. intros [] _.
  apply results_any. intros []; try by apply results_ret.
  apply results_any. intros [res got].
  eapply results_bind; [by apply store_sized|]. intros s1 H1. by apply results_ret.
Qed.

Lemma recv_exactly_sized s base total : sized s -> results (recv_exactly s base total) (fun r => sized r.2).
Proof.
  intros Hs. apply (results_loop _ _ (fun a => sized a.1)); [|done]. intros [s1 n] H1. cbn [fst] in H1.
  destruct (n <? total); [|by apply results_ret].
  eapply results_bind; [by apply session_recv_sized|]. intros [res s2] H2. cbn [snd] in H2.
  destruct (res <=? 0); by apply results_ret.
Qed.

Lemma packet_recv_sized s : sized s -> results (netbios_session_packet_recv s) (fun r => sized r.2).
Proof.
  intros Hs. apply (results_loop _ _ sized); [|done]. clear s Hs. intros s Hs.
  apply (results_bind _ _ (fun r => sized r.2)).
  - unfold netbios_session_get_next_packet. apply results_any. intros _. apply results_any. intros [].
    eapply results_bind; [by apply recv_exactly_sized|]. intros [ok s1] H1. cbn [snd] in H1.
    destruct ok; cbn [negb]; [|by apply results_ret].
    apply results_any. intros p. apply results_any. intros len. apply results_any. intros flags.
    set (total := Z.lor _ _).
    assert (Ht : total < 131072).
    { unfold total. rewrite (lor_shiftl 16) by (try apply swap16_range; lia).
      rewrite (land_mask 1) by done. pose proof (swap16_range len). zdiv. }
    apply (results_bind _ _ (fun r => sized r.2)).
    + destruct (Z.ltb_spec (packet_payload_size s1) (total + sizeof_packet)); [|by apply results_ret].
      unfold session_buffer_realloc. apply results_any. intros [q|]; apply results_ret; [|done].
      unfold sized, sizeof_packet in *. cbn. lia.
    + intros [ok2 s2] H2. cbn [snd] in H2. destruct (ok2 =? 0); [by apply results_ret|].
      eapply results_bind; [by apply recv_exactly_sized|]. intros [ok3 s3] H3. cbn [snd] in H3.
      destruct ok3; by apply results_ret.
  - intros [size s1] H1. cbn [snd] in H1. destruct (size <? 0); [by apply results_ret|].
    apply results_any. intros p. apply results_any. intros op.
    destruct (op =? _); by apply results_ret.
Qed.

(** Sessions that can be used: the size field starts at the size given to
    [netbios_session_new], SMB_DEFAULT_BUFSIZE, and never decreases. *)
Definition usable_session (s : netbios_session) : Prop :=
  session_ok s /\ connected s /\ sized s.

(** ** The two tables *)

Lemma send_world s w r s' w' :
  netbios_session_packet_send s w = Done ((r, s'), w') ->
  w_rx w' = w_rx w /\ exists p, store s 2 (le_bytes 2 (swap16 (u16 (packet_cursor s)))) w = Done (s', w)
    /\ s' = set_packet s (Some p)
    /\ (w_tx w' = w_tx w \/ exists out n, sub p 0 (4 + packet_cursor s) = Some out
         /\ w_tx w' = w_tx w ++ [Stream (take n out)]).
Proof.
  unfold netbios_session_packet_send.
  intros (p & w1 & H1 & (u & w2 & H2 & (s1 & w3 & H3 & (r1 & w4 & H4 & H5)%bind_inv)%bind_inv)%bind_inv)%bind_inv.
  injection H5 as <- <- <-. unfold the_packet, access, require, lift in H1, H2.
  apply obind_Done in H1 as (? & _ & [= _ <-]), H2 as (? & _ & [= _ <-]).
  pose proof H3 as H3'. unfold store, the_packet, access, lift, mbind, io_bind in H3.
  destruct (packet s) as [q|]; [|done]. cbn [checked obind] in H3.
  destruct (put q 2 _) as [q'|]; [|done]. cbn [checked obind] in H3. injection H3 as <- <-.
  assert (Hw : w_rx w4 = w_rx w /\ (w_tx w4 = w_tx w \/ exists out n, sub q' 0 (4 + packet_cursor s) = Some out
    /\ w_tx w4 = w_tx w ++ [Stream (take n out)])); [|destruct Hw; split; [done|by exists q']].
  revert H4. apply (loop_invariant _ (fun _ w1 => w_rx w1 = w_rx w /\ w_tx w1 = w_tx w)
    (fun _ w1 => w_rx w1 = w_rx w /\ (w_tx w1 = w_tx w \/ exists out n, sub q' 0 (4 + packet_cursor s) = Some out
       /\ w_tx w1 = w_tx w ++ [Stream (take n out)]))); [..|done].
  - intros [] w1 [] w2 [Hw1 Hw2] (e & w3 & Hs & H)%bind_inv. pose proof (silent_select _ _ _ Hs). apply select_rx in Hs.
    destruct e; try (injection H as <-; split; congruence); try discriminate H.
    apply bind_inv in H as (? & ? & _ & (? & ? & _ & (? & ? & _ & ?)%bind_inv)%bind_inv). done.
  - intros [] w1 b w2 [Hw1 Hw2] (e & w3 & Hs & H)%bind_inv. pose proof (silent_select _ _ _ Hs). apply select_rx in Hs.
    destruct e; try (injection H as _ <-; split; [|left]; congruence); try discriminate H.
    unfold the_packet, access, lift, World.send, mbind, io_bind in H.
    cbn [packet set_packet checked obind] in H. destruct (sub _ _ _) as [out|] eqn:Eo; [|done]. cbn [checked obind] in H.
    destruct (n <? 0); injection H as _ <-; cbn; (split; [congruence|]); [left; congruence|right].
    exists out, (Z.to_nat n). split; [done|]. congruence.
Qed.

(** Starting a packet keeps the session usable, with a header ready. *)
Lemma packet_init_usable s w :
  usable_session s ->
  exists s1 x3 x4 rest, netbios_session_packet_init s w = Done (s1, w) /\ usable_session s1
    /\ packet s1 = Some ([0; 0; x3; x4] ++ rest) /\ packet_cursor s1 = 0
    /\ is_byte x3 /\ is_byte x4
    /\ forall n, session_room s n -> session_room s1 n.
Proof.
  intros ((p & Hp & H4 & Hs & Hb) & Hc & Hz).
  destruct p as [|x1 [|x2 [|x3 [|x4 rest]]]]; try (exfalso; len).
  pose proof (packet_init_spec s x1 x2 x3 x4 rest w Hp) as E.
  eexists _, x3, x4, rest. split; [exact E|].
  repeat match goal with H : bytes_ok (_ :: _) |- _ => apply Forall_cons in H as [? H] end.
  split_and!; try done.
  - split; [|done]. exists ([NETBIOS_OP_SESSION_MSG; 0; x3; x4] ++ rest). cbn.
    split; [done|]. split; [len|]. split; [len|]. repeat (apply Forall_cons; split; [done|]). done.
  - intros n [Hn Hr]. split; [done|]. destruct Hr as [?|Hr]; [by left|right].
    intros q. cbn. intros [= <-]. specialize (Hr _ Hp). len.
Qed.

Lemma transmit_usable (tr : smb_transport netbios_session) s data n d w :
  pkt_init tr = netbios_session_packet_init -> pkt_append tr = netbios_session_packet_append ->
  send tr = netbios_session_packet_send ->
  usable_session s -> session_room s n -> bytes_ok (w_rx w) -> sub data 0 n = Some d -> bytes_ok d ->
  wp (transmit tr s data n) (fun '(r, s') w' => bytes_ok (w_rx w')
    /\ (n <= 8188 \/ r <> 0 -> usable_session s')
    /\ on_wire r d w w') w.
Proof.
  intros Ei Ea Es Hs Hr Hx Hsub Hd. unfold transmit. rewrite Ei, Ea, Es.
  destruct (packet_init_usable s w Hs) as (s1 & x3 & x4 & rest & E1 & Hs1 & Hp1 & Hc1 & H3 & H4 & Hr1).
  apply wp_bind. eapply wp_Done; [exact E1|].
  destruct Hs1 as ((p & Hp & Hl4 & Hsz & Hb) & Hcon & Hz). rewrite Hp1 in Hp. injection Hp as <-.
  assert (Hn : n = zlen d). { apply sub_inv in Hsub as Hi. rewrite (length_sub _ _ _ _ Hsub). done. }
  destruct (append_any s1 _ data d n w Hp1 Hsub Hn Hl4 Hb Hc1 Hsz ltac:(apply Hz) (Hr1 _ Hr))
    as (r & s2 & w2 & E2 & Htx & Hrx & H2).
  apply wp_bind. eapply wp_Done; [exact E2|].
  destruct H2 as [(-> & Hlt)|(-> & Hk & Hst & post & Hp2 & Hc2 & Hsz2 & Hle & Hb2)].
  { apply wp_ret. rewrite Hrx. split_and!; [done| |by left]. unfold sized in Hz. intros [?|?]; [lia|done]. }
  change (1 =? 0) with false. cbv iota.
  change (take 4 _) with [0; 0; x3; x4] in Hp2, Hsz2.
  assert (Hcon2 : connected s2) by (split; rewrite ?Hk, ?Hst; apply Hcon).
  destruct (packet_send_run s2 0 0 x3 x4 d post w2 Hp2 Hc2 Hcon2) as (Hsafe & Hsend & _); [done..|].
  apply wp_intro; [done|]. intros [r s3] w3 E3. specialize (Hsend _ _ _ E3).
  apply send_world in E3 as (Hrx3 & q & Hstore & -> & Htx3). rewrite Hrx3, Hrx.
  rewrite Hc2, (store_Done _ _ _ _ _ w2 Hp2 (header_stored 0 0 x3 x4 d post)) in Hstore. injection Hstore as <-.
  split_and!; [done|intros _|].
  - split; [|split; [exact Hcon2|unfold sized in *; cbn; lia]].
    exists (frame 0 0 d ++ post). cbn [packet set_packet packet_payload_size].
    assert (El : zlen (frame 0 0 d ++ post) = zlen ([0; 0; x3; x4] ++ d ++ post)) by (unfold frame; len).
    split; [done|]. rewrite El. split; [len|]. split; [done|].
    unfold frame. apply bytes_ok_app; [apply bytes_ok_app; [by repeat constructor|]|]; auto with dsm.
  - unfold on_wire. rewrite <- Htx. destruct (Z.eq_dec r 0) as [->|Hr3].
    + destruct Htx3 as [?|(out & n0 & Hsub3 & Htx3)]; [by left|right].
      assert (E : sub (frame 0 0 d ++ post) 0 (4 + zlen d) = Some (frame 0 0 d)).
      { apply (sub_app []); [done|]. unfold frame. len. }
      rewrite Hc2 in Hsub3. change (sub (frame 0 0 d ++ post) 0 (4 + zlen d) = Some out) in Hsub3. rewrite E in Hsub3. injection Hsub3 as <-.
      exists ([0; 0] ++ le_bytes 2 (swap16 (u16 (zlen d)))), (take n0 (frame 0 0 d)). split_and!; auto; [|done].
      unfold frame. rewrite (app_assoc _ _ d). by apply prefix_take.
    + right. destruct (Hsend Hr3) as [_ Htx4].
      exists ([0; 0] ++ le_bytes 2 (swap16 (u16 (zlen d)))), (frame 0 0 d). unfold frame in *.
      rewrite (app_assoc _ _ d) in *. split_and!; auto.
Qed.

(** A store keeps the session usable. *)
Lemma store_usable s off src w s' w' :
  usable_session s -> bytes_ok src -> store s off src w = Done (s', w') ->
  usable_session s' /\ w' = w /\ packet_cursor s' = packet_cursor s
  /\ forall p, packet s = Some p -> 0 <= off /\ off + zlen src <= zlen p.
Proof.
  intros ((p & Hp & H4 & Hs & Hb) & Hc & Hz) Hsrc. unfold store, the_packet, access, lift, mbind, io_bind. rewrite Hp. cbn [checked obind].
  destruct (put p off src) as [q|] eqn:E; [|done]. cbn [checked obind]. intros [= <- <-].
  pose proof (length_put _ _ _ _ E) as Hl. split_and!; auto.
  - split; [|done]. exists q. cbn. split_and!; auto; try lia; exact (put_ok _ _ _ _ Hb Hsrc E).
  - apply put_inv in E as (? & ? & _). intros ? [= <-]. lia.
Qed.

Lemma append_usable s data n w r s' w' :
  usable_session s -> packet_cursor s = 0 -> lucky w -> bytes_ok data -> 0 <= n < 18446744073709551616 ->
  netbios_session_packet_append s data n w = Done ((r, s'), w') -> usable_session s' /\ w_rx w' = w_rx w.
Proof.
  intros Hs Hc0 Hw Hd Hn. pose proof Hs as ((p & Hp & H4 & Hsz & Hb) & Hc & Hz). unfold netbios_session_packet_append.
  rewrite (bind_Done _ _ _ _ _ (the_packet_Done _ _ _ Hp)), Hc0, Z.sub_0_r, u64_small by (unfold sized in Hz; lia).
  assert (Htail : forall s1 w1, packet_cursor s1 = 0 -> (forall s2 x w2, sub data 0 n = Some x ->
      store s1 (sizeof_packet + packet_cursor s1) x w1 = Done (s2, w2) -> usable_session s2 /\ w2 = w1) ->
    (d ← access (sub data 0 n); s ← store s1 (sizeof_packet + packet_cursor s1) d;
     mret (1, set_cursor s (u64 (packet_cursor s + n)))) w1 = Done (r, s', w') -> usable_session s' /\ w' = w1).
  { intros s1 w1 Hc1 Hst (x & w2 & Hx & (s2 & w3 & H2 & E)%bind_inv)%bind_inv.
    unfold access, lift in Hx. apply obind_Done in Hx as (? & Hx & [= -> <-]).
    destruct (sub data 0 n) as [y|] eqn:Ey; [|done]. injection Hx as ->.
    destruct (Hst s2 x w3 eq_refl H2) as [Hu ->]. injection E as <- <- <-. split; [|done].
    destruct Hu as ((q & ?) & ? & ?). split; [by exists q|done]. }
  destruct (Z.ltb_spec (packet_payload_size s) n) as [Hlt|Hge].
  - unfold session_buffer_realloc. rewrite Hp. cbn [default id].
    unfold mbind at 1, io_bind at 1. unfold mbind at 1, io_bind at 1. rewrite realloc_spec, (Hw (w_tick w)). cbn [obind].
    unfold mret at 1, io_ret at 1. cbn [obind]. change (1 =? 0) with false. cbv iota.
    set (k := u64 (n + 0 + sizeof_packet)). set (p1 := take (Z.to_nat k) p ++ _). pose proof (u64_range (n + 0 + sizeof_packet)) as Hk.
    assert (Hl1 : zlen p1 = k).
    { unfold p1, zlen. rewrite length_app, length_junk_bytes, length_take. unfold zlen. fold k in Hk. lia. }
    intros E. apply Htail in E as [? ->]; [done|done|]. intros s2 x w2 Hx Est.
    assert (Hx8 : n + 4 <= k).
    { unfold store, the_packet, access, lift, mbind, io_bind in Est. cbn [packet set_packet checked obind] in Est.
      destruct (put p1 _ x) as [q|] eqn:Eq; [|done]. apply put_inv in Eq as (_ & Hle & _). apply length_sub in Hx as Hlx.
      unfold sizeof_packet in Hle. cbn in Hle. rewrite Hc0 in Hle. lia. }
    apply store_usable in Est as (? & -> & _); [done| |exact (sub_ok _ _ _ _ Hd Hx)].
    split; [|split; [exact Hc|]].
    + exists p1. cbn [packet packet_payload_size set_packet set_size]. fold k in Hk. split_and!; auto; try lia. unfold p1. auto with dsm.
    + unfold sized in *. cbn [packet_payload_size set_packet set_size]. fold k in Hk. lia.
  - intros E. apply Htail in E as [? ->]; [done|done|]. intros s2 x w2 Hx Est.
    apply store_usable in Est as (? & -> & _); [done|done|exact (sub_ok _ _ _ _ Hd Hx)].
Qed.

Lemma transmit_usable_kept (tr : smb_transport netbios_session) s data n w r s' w' :
  pkt_init tr = netbios_session_packet_init -> pkt_append tr = netbios_session_packet_append ->
  send tr = netbios_session_packet_send ->
  usable_session s -> lucky w -> bytes_ok (w_rx w) -> bytes_ok data -> 0 <= n < 18446744073709551616 ->
  transmit tr s data n w = Done ((r, s'), w') -> usable_session s' /\ bytes_ok (w_rx w').
Proof.
  intros Ei Ea Es Hs Hw Hx Hd Hn. unfold transmit. rewrite Ei, Ea, Es.
  destruct (packet_init_usable s w Hs) as (s1 & x3 & x4 & rest & E1 & Hs1 & _ & Hc1 & _).
  rewrite (bind_Done _ _ _ _ _ E1). intros ([r2 s2] & w2 & E2 & E)%bind_inv.
  apply append_usable in E2 as [Hs2 Hrx]; [|done..]. rewrite <- Hrx in Hx. destruct (r2 =? 0); [by injection E as _ <- <-|].
  apply send_world in E as (-> & p & Est & _). apply store_usable in Est as (? & _); [done|done|]. auto with dsm.
Qed.

Lemma packet_recv_data_ok s w :
  usable_session s -> bytes_ok (w_rx w) ->
  wp (packet_recv_data s) (fun '(r, m, s') w' => w_tx w' = w_tx w /\ bytes_ok (w_rx w')
    /\ (0 <= r \/ lucky w' -> usable_session s')
    /\ (0 <= r -> r < 131072 /\ exists p, m = Some p /\ Z.max r 8188 <= zlen p /\ bytes_ok p)) w.
Proof.
  intros (Hs & Hc & Hz) Hx. destruct (packet_recv_run s w Hs Hc Hx) as [Hsafe Hrun].
  apply wp_bind, wp_intro; [done|]. intros [r s1] w1 E. specialize (Hrun _ _ _ E) as (Hx1 & Hc1 & H1).
  pose proof (packet_recv_silent _ _ _ _ E) as Htx. pose proof (packet_recv_sized _ Hz _ _ _ E) as Hz1.
  destruct (Z.leb_spec 0 r).
  2: { apply wp_ret. split_and!; auto; [|lia]. intros [?|Hlk]; [lia|].
       destruct H1 as [[_ [[_ ?]|Hok]]|(? & _)]; [done|done|lia]. }
  destruct H1 as [[-> _]|(Hmx & Hok & p & Hp & Hl)]; [lia|].
  apply wp_bind. eapply wp_Done; [exact (the_packet_Done _ _ _ Hp)|]. apply wp_ret.
  split; [done|]. split; [done|]. split; [done|]. intros _. split; [lia|]. exists (drop 4 p). split; [done|].
  pose proof Hok as (q & Hq & _ & Hsz & Hb). rewrite Hp in Hq. injection Hq as <-. unfold sized in Hz1. cbn [snd] in Hz1.
  split; [len|auto with dsm].
Qed.

Lemma store_events s off src : within onward (store s off src).
Proof. unfold store, the_packet, access. confine. Qed.
#[local] Hint Resolve store_events : within.

Lemma packet_init_events s : within onward (netbios_session_packet_init s).
Proof. unfold netbios_session_packet_init. confine. Qed.

Lemma packet_append_events s data n : within onward (netbios_session_packet_append s data n).
Proof. unfold netbios_session_packet_append, session_buffer_realloc, realloc, the_packet, access. confine. Qed.

Lemma packet_send_events s : within onward (netbios_session_packet_send s).
Proof. unfold netbios_session_packet_send, the_packet, access, require. confine. Qed.

Lemma packet_recv_onward s : within onward (packet_recv_data s).
Proof.
  unfold packet_recv_data, netbios_session_packet_recv, netbios_session_get_next_packet, recv_exactly, netbios_session_recv,
    session_buffer_realloc, the_packet, access, require, realloc. confine.
Qed.

Lemma packet_recv_events s w r m s' w' :
  packet_recv_data s w = Done ((r, m, s'), w') -> 0 <= r -> (length (w_events w') < length (w_events w))%nat.
Proof.
  intros ([r1 s1] & w1 & E & H)%bind_inv Hr.
  assert (w' = w1 /\ r = r1) as [-> ->].
  { destruct (0 <=? r1); [|by injection H]. apply bind_inv in H as (p & w2 & H2 & H).
    unfold the_packet, access, lift in H2. apply obind_Done in H2 as (? & _ & [= _ <-]). by injection H. }
  revert Hr. change ((fun (b : Z * netbios_session) w1 => 0 <= b.1 -> (length (w_events w1) < length (w_events w))%nat) (r1, s1) w1).
  revert E. apply (loop_invariant _ (fun _ w2 => (length (w_events w2) <= length (w_events w))%nat)); [| |done].
  - intros s2 w2 s3 w3 Hle E%recv_body_consumes. lia.
  - intros s2 w2 [r3 s3] w3 Hle ([r4 s4] & w4 & H4 & H5)%bind_inv. cbn [fst]. intros Hr.
    destruct (Z.ltb_spec r4 0); [injection H5 as -> _ _; lia|].
    apply get_next_packet_events in H4; [|done].
    apply bind_inv in H5 as (p & w5 & H2 & (op & w6 & H3 & H5)%bind_inv).
    unfold the_packet, access, lift in H2, H3.
    apply obind_Done in H2 as (? & _ & [= _ <-]), H3 as (? & _ & [= _ <-]).
    destruct (op =? _); unfold mret, io_ret in H5; simplify_eq. lia.
Qed.

(** ** Aborts *)

Lemma store_abortable s off src : abortable (store s off src).
Proof. unfold store, the_packet. persist. Qed.
Lemma buffer_realloc_abortable s n : abortable (session_buffer_realloc s n).
Proof. unfold session_buffer_realloc, realloc. persist. Qed.
#[local] Hint Resolve store_abortable buffer_realloc_abortable : abortable.

(** A round that goes on waiting has done nothing but wait. *)
Lemma waiting_loop_abortable {B} (body : event -> io (unit + B)) :
  (forall e, abortable (body e)) ->
  (forall e w a w', body e w = Done (inl a, w') -> w' = w /\ e <> EvAbort) -> abortable (loop (fun _ : unit => e ← select; body e) tt).
Proof.
  intros Hb Hc. apply abortable_loop; [|persist; apply Hb]. apply (consumes_select (fun _ : unit => body)). intros _ e w a w'. apply Hc.
Qed.

Lemma packet_init_abortable s : abortable (netbios_session_packet_init s).
Proof. unfold netbios_session_packet_init. persist. Qed.
Lemma packet_append_abortable s data n : abortable (netbios_session_packet_append s data n).
Proof. unfold netbios_session_packet_append, the_packet. persist. Qed.
Lemma packet_send_abortable s : abortable (netbios_session_packet_send s).
Proof.
  unfold netbios_session_packet_send, the_packet. persist. apply waiting_loop_abortable; [intros []; persist|].
  intros e w a' w' E. destruct e; try (by injection E as _ <-); try done.
  by apply bind_inv in E as (? & ? & _ & (? & ? & _ & (? & ? & _ & ?)%bind_inv)%bind_inv).
Qed.
Lemma session_recv_abortable s off len : abortable (netbios_session_recv s off len).
Proof.
  apply waiting_loop_abortable; [intros []; persist|]. intros e w a w' E. destruct e; try (by injection E as _ <-); try done.
  by apply bind_inv in E as ([? ?] & ? & _ & (? & ? & _ & ?)%bind_inv).
Qed.
#[local] Hint Resolve session_recv_abortable : abortable.
Lemma recv_exactly_abortable s base total : abortable (recv_exactly s base total).
Proof. rewrite recv_exactly_body. apply abortable_loop; [apply exactly_body_consumes|]. intros [s1 n]. unfold exactly_body. persist. Qed.
#[local] Hint Resolve recv_exactly_abortable : abortable.
Lemma session_packet_recv_abortable s : abortable (netbios_session_packet_recv s).
Proof.
  change (netbios_session_packet_recv s) with (loop recv_body s). apply abortable_loop; [apply recv_body_consumes|].
  clear s. intros s. unfold recv_body, netbios_session_get_next_packet, the_packet. persist.
Qed.
#[local] Hint Resolve session_packet_recv_abortable : abortable.
Lemma packet_recv_abortable s : abortable (packet_recv_data s).
Proof. unfold packet_recv_data, the_packet. persist. Qed.

Lemma store_hush s off src : within hush (store s off src).
Proof. unfold store, the_packet. confine. Qed.
#[local] Hint Resolve store_hush : within.
Lemma packet_init_hush s : within hush (netbios_session_packet_init s).
Proof. unfold netbios_session_packet_init. confine. Qed.
Lemma packet_append_hush s data n : within hush (netbios_session_packet_append s data n).
Proof. unfold netbios_session_packet_append, session_buffer_realloc, realloc, the_packet. confine. Qed.
Lemma packet_send_hush s : within hush (netbios_session_packet_send s).
Proof. unfold netbios_session_packet_send, the_packet. confine. Qed.
Lemma session_packet_recv_hush s : within hush (netbios_session_packet_recv s).
Proof.
  unfold netbios_session_packet_recv, netbios_session_get_next_packet, recv_exactly, netbios_session_recv,
    session_buffer_realloc, the_packet, realloc. confine.
Qed.
#[local] Hint Resolve session_packet_recv_hush : within.
Lemma packet_recv_hush s : within hush (packet_recv_data s).
Proof. unfold packet_recv_data, the_packet. confine. Qed.

Lemma room_small s n : usable_session s -> 0 <= n <= 8188 -> session_room s n.
Proof.
  intros ((p & Hp & _ & Hs & _) & _ & Hz) Hn. split; [lia|]. right. intros q Hq.
  rewrite Hp in Hq. injection Hq as <-. unfold sized in Hz. lia.
Qed.

#[global] Instance nbt_laws : TransportLaws smb_transport_nbt := {
  tr_ok := usable_session; tr_room := session_room; tr_room_small := room_small;
  transmit_ok t data n d w := transmit_usable smb_transport_nbt t data n d w eq_refl eq_refl eq_refl;
  transmit_keeps t data n w r t' w' := transmit_usable_kept smb_transport_nbt t data n w r t' w' eq_refl eq_refl eq_refl;
  recv_ok := packet_recv_data_ok; init_events := packet_init_events; append_events := packet_append_events;
  send_events := packet_send_events; recv_onward := packet_recv_onward; recv_events := packet_recv_events;
  init_abortable := packet_init_abortable; append_abortable := packet_append_abortable; send_abortable := packet_send_abortable; recv_abortable := packet_recv_abortable;
  init_hush := packet_init_hush; append_hush := packet_append_hush; send_hush := packet_send_hush; recv_hush := packet_recv_hush
}.

#[global] Instance tcp_laws : TransportLaws smb_transport_tcp := {
  tr_ok := usable_session; tr_room := session_room; tr_room_small := room_small;
  transmit_ok t data n d w := transmit_usable smb_transport_tcp t data n d w eq_refl eq_refl eq_refl;
  transmit_keeps t data n w r t' w' := transmit_usable_kept smb_transport_tcp t data n w r t' w' eq_refl eq_refl eq_refl;
  recv_ok := packet_recv_data_ok; init_events := packet_init_events; append_events := packet_append_events;
  send_events := packet_send_events; recv_onward := packet_recv_onward; recv_events := packet_recv_events;
  init_abortable := packet_init_abortable; append_abortable := packet_append_abortable; send_abortable := packet_send_abortable; recv_abortable := packet_recv_abortable;
  init_hush := packet_init_hush; append_hush := packet_append_hush; send_hush := packet_send_hush; recv_hush := packet_recv_hush
}.

End SmbTransport.
