(* ===== verification/SmbSession.v ===== *)
(** SMB sessions and the exchange of messages: struct [smb_session] of
    src/smb_types.h, src/smb_session_msg.c and the parts of src/smb_session.c
    that need no authentication.

    The session calls its transport through the table of functions; the
    theorems hold for every table that keeps [TransportLaws]. *)

From stdpp Require Import strings.
From S2P Require Import Prelude World SmbPackets SmbBuffer SmbMessage SmbFd SmbTransport.

Module SmbSession.
Import SmbPackets SmbBuffer SmbUtils SmbMessage SmbTransport.
Local Open Scope string_scope.
Local Open Scope list_scope.
Local Open Scope Z_scope.

Definition DSM_SUCCESS : Z := 0.
Definition DSM_ERROR_GENERIC : Z := -1.
Definition DSM_ERROR_NT : Z := -2.
Definition DSM_ERROR_NETWORK : Z := -3.
Definition DSM_ERROR_CHARSET : Z := -4.
Definition NT_STATUS_SUCCESS : Z := 0.

Record smb_srv_info := SrvInfo {
  srv_name : bytes;                    (* 16 bytes *)
  dialect : Z; security_mode : Z;
  uid : Z;
  session_key : Z;
  caps : Z;
  challenge : Z;
  ts : Z
}.

Record smb_creds := Creds { domain : option bytes; login : option bytes; password : option bytes }.

(** [transport] is the table of functions ([None]: the pointers are NULL),
    [session] its first member. *)
Record smb_session (T : Type) := SmbSession {
  logged : bool;
  guest : bool;
  srv : smb_srv_info;
  spnego_asn1 : bool;                  (* the ASN.1 definitions are loaded *)
  xsec_target : smb_buffer;
  creds : smb_creds;
  transport : option (smb_transport T);
  session : option T;
  fds : SmbFd.tables;                  (* shares, with the heap of their nodes *)
  nt_status : Z
}.
Arguments SmbSession {T}. Arguments logged {T}. Arguments guest {T}. Arguments srv {T}. Arguments spnego_asn1 {T}.
Arguments xsec_target {T}. Arguments creds {T}. Arguments transport {T}. Arguments session {T}.
Arguments fds {T}. Arguments nt_status {T}.

Section Session.
Context {T : Type}.
Implicit Types (s : smb_session T) (msg : smb_message).

Definition set_session s t := SmbSession (logged s) (guest s) (srv s) (spnego_asn1 s) (xsec_target s) (creds s)
  (transport s) (Some t) (fds s) (nt_status s).
Definition set_transport s tr := SmbSession (logged s) (guest s) (srv s) (spnego_asn1 s) (xsec_target s) (creds s)
  (Some tr) (session s) (fds s) (nt_status s).
Definition set_fds s t := SmbSession (logged s) (guest s) (srv s) (spnego_asn1 s) (xsec_target s) (creds s)
  (transport s) (session s) t (nt_status s).
Definition set_nt_status s n := SmbSession (logged s) (guest s) (srv s) (spnego_asn1 s) (xsec_target s) (creds s)
  (transport s) (session s) (fds s) n.
Definition set_srv s i := SmbSession (logged s) (guest s) i (spnego_asn1 s) (xsec_target s) (creds s)
  (transport s) (session s) (fds s) (nt_status s).
Definition set_asn1 s b := SmbSession (logged s) (guest s) (srv s) b (xsec_target s) (creds s)
  (transport s) (session s) (fds s) (nt_status s).
Definition set_target s b := SmbSession (logged s) (guest s) (srv s) (spnego_asn1 s) b (creds s)
  (transport s) (session s) (fds s) (nt_status s).
Definition set_creds s c := SmbSession (logged s) (guest s) (srv s) (spnego_asn1 s) (xsec_target s) c
  (transport s) (session s) (fds s) (nt_status s).
Definition set_login s l g := SmbSession l g (srv s) (spnego_asn1 s) (xsec_target s) (creds s)
  (transport s) (session s) (fds s) (nt_status s).
Definition set_uid (i : smb_srv_info) (u : Z) := SrvInfo (srv_name i) (dialect i) (security_mode i) u
  (session_key i) (caps i) (challenge i) (ts i).
Definition set_challenge (i : smb_srv_info) (c : Z) := SrvInfo (srv_name i) (dialect i) (security_mode i) (uid i)
  (session_key i) (caps i) c (ts i).
Definition set_name (i : smb_srv_info) (n : bytes) := SrvInfo n (dialect i) (security_mode i) (uid i)
  (session_key i) (caps i) (challenge i) (ts i).

(** Fields of the header of a message. *)
Definition set_header msg (l : list (string * Z)) : io smb_message :=
  p ← access (packet msg);
  p ← access (set_fields smb_header p 0 l);
  mret (Message (payload_size msg) (cursor msg) (Some p)).

(** * smb_session_msg.c *)

(** 1 or 0, with the header fields it sets in the message. *)
Definition smb_session_send_msg s msg : io (Z * smb_session T * smb_message) :=
  t ← access (session s);
  msg ← set_header msg [("flags", 0x18); ("flags2", 0xc843); ("uid", uid (srv s))];
  tr ← access (transport s);
  t ← pkt_init tr t;
  let pkt_sz := u64 (sizeof_smb_packet + cursor msg) in
  p ← access (packet msg);
  '(r, t) ← pkt_append tr t p pkt_sz;
  if r =? 0 then mret (0, set_session s t, msg)
  else
    '(r, t) ← send tr t;
    mret (if r =? 0 then 0 else 1, set_session s t, msg).

(** The size of the payload, or 0, and the message received: its packet is the
    memory of the transport, up to the end of the block. *)
Definition smb_session_recv_msg s : io (Z * option smb_message * smb_session T) :=
  t ← access (session s);
  tr ← access (transport s);
  '(payload_size, data, t) ← recv tr t;
  let s := set_session s t in
  if payload_size <=? 0 then mret (0, None, s)
  else if payload_size <? sizeof_smb_packet then mret (0, None, s)
  else
    let n := payload_size - sizeof_smb_packet in
    mret (n, Some (Message n 0 data), s).

Definition smb_session_get_nt_status s : Z := nt_status s.

Definition smb_session_check_nt_status s msg : io (bool * smb_session T) :=
  p ← access (packet msg);
  status ← access (field smb_header p 0 "status");
  if negb (status =? NT_STATUS_SUCCESS)
  then mret (false, set_nt_status s status)
  else mret (true, s).

(** [smb_session_recv_msg] with a message and [smb_session_check_nt_status],
    as the commands do one after the other: the error, or the answer. *)
Definition receive_answer s : io ((Z + smb_message) * smb_session T) :=
  '(r, resp, s) ← smb_session_recv_msg s;
  if r =? 0 then mret (inl DSM_ERROR_NETWORK, s)
  else
    resp ← access resp;
    '(ok, s) ← smb_session_check_nt_status s resp;
    mret (if ok : bool then inr resp else inl DSM_ERROR_NT, s).

(** SMB_MSG_INIT_PKT, the assignments to the fields, SMB_MSG_PUT_PKT. *)
Definition put_pkt msg (L : layout) (l : list (string * Z)) : io smb_message :=
  req ← access (set_fields L (init_pkt L) 0 l);
  '(_, msg) ← smb_message_append msg (Some req) (sizeof L);
  mret msg.
Definition put_pkt_andx msg (L : layout) (l : list (string * Z)) : io smb_message :=
  req ← access (init_pkt_andx L);
  req ← access (set_fields L req 0 l);
  '(_, msg) ← smb_message_append msg (Some req) (sizeof L);
  mret msg.

(** [smb_message_append] and [smb_message_put8], result ignored. *)
Definition append msg (data : option bytes) (n : Z) : io smb_message :=
  '(_, msg) ← smb_message_append msg data n; mret msg.
Definition put8 msg (v : Z) : io smb_message :=
  '(_, msg) ← smb_message_put8 msg v; mret msg.
Definition put16 msg (v : Z) : io smb_message :=
  '(_, msg) ← smb_message_put16 msg v; mret msg.

(** SMB_MSG_ADVANCE_PKT; the assignments and SMB_MSG_INSERT_PKT(msg, 0, req). *)
Definition advance msg (n : Z) : io smb_message :=
  '(_, msg) ← smb_message_advance msg n; mret msg.
Definition insert_pkt msg (L : layout) (l : list (string * Z)) : io smb_message :=
  req ← access (set_fields L (init_pkt L) 0 l);
  '(_, msg) ← smb_message_insert msg 0 (Some req) (sizeof L);
  mret msg.
Definition insert_pkt_andx msg (L : layout) (l : list (string * Z)) : io smb_message :=
  req ← access (init_pkt_andx L);
  req ← access (set_fields L req 0 l);
  '(_, msg) ← smb_message_insert msg 0 (Some req) (sizeof L);
  mret msg.

(** [memcpy(msg->packet->payload + off, src, |src|)] *)
Definition store_payload msg (off : Z) (src : bytes) : io smb_message :=
  p ← access (packet msg);
  p ← access (put p (32 + off) src);
  mret (Message (payload_size msg) (cursor msg) (Some p)).

(** Calls of the smb_message_put functions one after the other, results
    ignored. *)
Inductive put_call :=
| Put8 (v : Z) | Put16 (v : Z) | Put32 (v : Z) | Put64 (v : Z)
| Put_utf16 (str : bytes) (n : Z)
| Put_uuid (a b c : Z) (d : bytes).

Definition put_one `{Iconv} msg (c : put_call) : io smb_message :=
  '(_, msg) ← match c with
              | Put8 v => smb_message_put8 msg v
              | Put16 v => smb_message_put16 msg v
              | Put32 v => smb_message_put32 msg v
              | Put64 v => smb_message_put64 msg v
              | Put_utf16 str n => smb_message_put_utf16 msg str n
              | Put_uuid a b c d => smb_message_put_uuid msg a b c d
              end;
  mret msg.

Fixpoint puts `{Iconv} msg (l : list put_call) : io smb_message :=
  match l with
  | [] => mret msg
  | c :: l => msg ← put_one msg c; puts msg l
  end.

End Session.

(** * What the exchanges establish *)

(** A message whose payload is [e], or less when memory was short ([enough]
    says that it was not). *)
Definition built (enough : Prop) (m : smb_message) (hd e : bytes) : Prop :=
  exists wr, message m hd wr /\ bytes_ok wr /\ zlen wr <= zlen e /\ (enough -> wr = e).

Lemma later_world w w' : later w w' -> w_tx w' = w_tx w /\ w_rx w' = w_rx w.
Proof. by intros [n ->]. Qed.

Lemma new_built cmd w :
  wp (smb_message_new cmd) (fun o w' => later w w'
    /\ match o with None => ~ lucky w | Some m => exists pid, built (lucky w) m (new_header cmd pid 0 0) [] end) w.
Proof.
  eapply wp_mono; [apply message_new_wp|]. intros [m|] w' [L H]; (split; [done|]); [|done].
  destruct H as (pid & Hm & _). exists pid, []. split_and!; [exact Hm|constructor|done|done].
Qed.

(** The same behind [n] bytes that are still to be filled in. *)
Definition behind (n : Z) (enough : Prop) (m : smb_message) (hd e : bytes) : Prop :=
  exists pre wr, zlen pre = n /\ message m hd (pre ++ wr) /\ bytes_ok wr /\ zlen wr <= zlen e /\ (enough -> wr = e).

Lemma behind_0 P m hd e : built P m hd e <-> behind 0 P m hd e.
Proof.
  split; [intros (wr & H); by exists [], wr|]. intros (pre & wr & Hpre & H). destruct pre; [by exists wr|]. exfalso. len.
Qed.

(** Appending, with the result ignored. *)
Lemma append_behind w0 k m hd e data n d w :
  behind k (lucky w0) m hd e -> later w0 w -> sub data 0 n = Some d -> bytes_ok d ->
  k + zlen e + n < 4611686018427387904 ->
  wp (append m (Some data) n) (fun m' w' => later w w' /\ behind k (lucky w0) m' hd (e ++ d)) w.
Proof.
  intros (pre & wr & Hpre & Hm & Hb & Hl & He) L0 Hsub Hd Hmax. pose proof (length_sub _ _ _ _ Hsub) as Hn.
  assert (Happ : smb_message_append m (Some data) n w = smb_message_append m (Some d) (zlen d) w).
  { unfold smb_message_append, mbind, io_bind. rewrite Hn.
    destruct (smb_message_expand_payload _ _ _ w) as [[[r m1] w1]| |]; [|done..]. cbn [obind].
    destruct (r =? 0); [done|]. destruct (access _ w1) as [[p w2]| |]; [|done..]. cbn [obind].
    rewrite Hsub. by rewrite <- Hn, sub_all by done. }
  destruct (append_run m hd (pre ++ wr) d w Hm) as (r & m' & w' & E & L & H); [len|].
  apply wp_bind. eapply wp_Done; [by rewrite Happ|]. apply wp_ret. split; [done|].
  destruct H as [(-> & -> & Hc)|(-> & Hm')].
  - exists pre, wr. split_and!; auto; [len|]. intros Hw. by rewrite (later_lucky _ _ L0 Hw) in Hc.
  - exists pre, (wr ++ d). rewrite app_assoc. split_and!; auto; [by apply bytes_ok_app|len|]. intros Hw. by rewrite (He Hw).
Qed.

Lemma append_built w0 m hd e data n d w :
  built (lucky w0) m hd e -> later w0 w -> sub data 0 n = Some d -> bytes_ok d ->
  zlen e + n < 4611686018427387904 ->
  wp (append m (Some data) n) (fun m' w' => later w w' /\ built (lucky w0) m' hd (e ++ d)) w.
Proof.
  intros Hm L0 Hsub Hd Hmax. eapply wp_mono; [eapply append_behind; [by apply behind_0|done..]|].
  intros m' w' [? ?%behind_0]. done.
Qed.

Lemma put8_built w0 m hd e v w :
  built (lucky w0) m hd e -> later w0 w -> zlen e + 1 < 4611686018427387904 ->
  wp (put8 m v) (fun m' w' => later w w' /\ built (lucky w0) m' hd (e ++ le_bytes 1 v)) w.
Proof.
  intros Hm L0 Hmax. apply (append_built w0 m hd e (le_bytes 1 v) 1 (le_bytes 1 v)); auto.
  apply le_bytes_ok.
Qed.

(** A structure, filled and appended. *)
Lemma put_pkt_built w0 m hd e L l req w :
  built (lucky w0) m hd e -> later w0 w -> set_fields L (init_pkt L) 0 l = Some req -> bytes_ok req ->
  zlen req = sizeof L -> zlen e + sizeof L < 4611686018427387904 ->
  wp (put_pkt m L l) (fun m' w' => later w w' /\ built (lucky w0) m' hd (e ++ req)) w.
Proof.
  intros Hm L0 Hreq Hb Hn Hmax. apply wp_bind, (wp_access _ _ _ _ _ Hreq).
  apply (append_built w0 m hd e req (sizeof L) req); auto. rewrite <- Hn. by apply sub_all.
Qed.

Lemma put_pkt_andx_built w0 m hd e L l req0 req w :
  built (lucky w0) m hd e -> later w0 w -> init_pkt_andx L = Some req0 -> set_fields L req0 0 l = Some req ->
  bytes_ok req -> zlen req = sizeof L -> zlen e + sizeof L < 4611686018427387904 ->
  wp (put_pkt_andx m L l) (fun m' w' => later w w' /\ built (lucky w0) m' hd (e ++ req)) w.
Proof.
  intros Hm L0 Hreq0 Hreq Hb Hn Hmax. apply wp_bind, (wp_access _ _ _ _ _ Hreq0), wp_bind, (wp_access _ _ _ _ _ Hreq).
  apply (append_built w0 m hd e req (sizeof L) req); auto. rewrite <- Hn. by apply sub_all.
Qed.

(** ** Sequences of puts *)

Section Puts.
Context `{Iconv} `{!IconvLaws}.

Definition put_data (c : put_call) : bytes :=
  match c with
  | Put8 v => le_bytes 1 v | Put16 v => le_bytes 2 v | Put32 v => le_bytes 4 v | Put64 v => le_bytes 8 v
  | Put_utf16 str n => text Locale UCS2LE str n
  | Put_uuid a b c d => le_bytes 4 a ++ le_bytes 2 b ++ le_bytes 2 c ++ d
  end.

Definition put_call_ok (c : put_call) : Prop :=
  match c with
  | Put_utf16 str n => 0 <= n <= zlen str /\ n < 1000000
  | Put_uuid _ _ _ d => length d = 8%nat /\ bytes_ok d
  | _ => True
  end.

Lemma append_result w0 k m hd e d w :
  behind k (lucky w0) m hd e -> later w0 w -> bytes_ok d -> k + zlen e + zlen d < 4611686018427387904 ->
  wp (smb_message_append m (Some d) (zlen d)) (fun '(r, m') w' => later w w' /\ (lucky w0 -> r = 1)
    /\ (r = 0 \/ r = 1) /\ behind k (lucky w0) m' hd (if r =? 0 then e else e ++ d)) w.
Proof.
  intros (pre & wr & Hpre & Hm & Hb & Hl & He) L0 Hd Hmax.
  destruct (append_run m hd (pre ++ wr) d w Hm) as (r & m' & w' & E & L & Hr); [len|].
  eapply wp_Done; [exact E|]. split; [done|]. destruct Hr as [(-> & -> & Hc)|(-> & Hm')].
  - split; [intros Hw; by rewrite (later_lucky _ _ L0 Hw) in Hc|]. split; [by left|]. by exists pre, wr.
  - split; [done|]. split; [by right|]. exists pre, (wr ++ d). cbn [Z.eqb Pos.eqb]. rewrite app_assoc.
    split_and!; auto; [by apply bytes_ok_app|len|]. intros Hw. by rewrite (He Hw).
Qed.

(** Not more than this, and nothing less with enough memory. *)
Lemma behind_weaken w0 k m hd e e' :
  behind k (lucky w0) m hd e -> zlen e <= zlen e' -> ~ lucky w0 -> behind k (lucky w0) m hd e'.
Proof. intros (pre & wr & ? & ? & ? & ? & ?) Hl Hn. exists pre, wr. split_and!; auto; [lia|done]. Qed.

(** A put that stops the sequence when it fails. *)
Lemma put_step w0 k m hd e d (f : smb_message -> io (Z * smb_message)) tl w :
  behind k (lucky w0) m hd e -> later w0 w -> bytes_ok d -> k + zlen e + zlen d < 4611686018427387904 ->
  (forall m' w', later w0 w' -> behind k (lucky w0) m' hd (e ++ d) ->
     wp (f m') (fun '(_, m'') w'' => later w' w'' /\ behind k (lucky w0) m'' hd (e ++ d ++ tl)) w') ->
  wp ('(r, m') ← smb_message_append m (Some d) (zlen d); if r =? 0 then mret (0, m') else f m')
    (fun '(_, m'') w'' => later w w'' /\ behind k (lucky w0) m'' hd (e ++ d ++ tl)) w.
Proof.
  intros Hm L0 Hd Hmax Hf. apply wp_bind. eapply wp_mono; [by eapply append_result|].
  intros [r m'] w' (L & Hlk & Hr & Hm'). cbn beta iota. destruct Hr as [->| ->]; cbn [Z.eqb] in *.
  - apply wp_ret. split; [done|]. eapply behind_weaken; [exact Hm'|len|]. intros Hw. by specialize (Hlk Hw).
  - eapply wp_mono; [apply Hf; [by eapply later_trans|exact Hm']|]. intros [x m''] w'' [L2 Hm'']. split; [|done].
    by eapply later_trans.
Qed.

Lemma put_bytes_behind w0 k m hd e d w :
  behind k (lucky w0) m hd e -> later w0 w -> bytes_ok d -> k + zlen e + zlen d < 4611686018427387904 ->
  wp (put_bytes m d) (fun '(_, m') w' => later w w' /\ behind k (lucky w0) m' hd (e ++ d)) w.
Proof.
  revert m e w. induction d as [|b d IH]; intros m e w Hm L0 Hb Hmax; cbn [put_bytes].
  { apply wp_ret. rewrite app_nil_r. split; [apply later_refl|done]. }
  apply Forall_cons in Hb as [Hb Hd]. unfold smb_message_put8.
  assert (Eb : le_bytes 1 b = [b]) by (unfold le_bytes; by rewrite Z.mod_small by apply Hb). rewrite Eb.
  apply (put_step w0 k m hd e [b] (fun m => put_bytes m d) d w); auto; [len|].
  intros m' w' L1 Hm'. eapply wp_mono; [eapply IH; [exact Hm'|done|done|len]|].
  intros [r m''] w'' [? H2]. split; [done|]. by rewrite <- app_assoc in H2.
Qed.

Lemma put_one_behind w0 k m hd e c w :
  behind k (lucky w0) m hd e -> later w0 w -> put_call_ok c -> 0 <= k < 1000000 -> zlen e < 100000000 ->
  wp (put_one m c) (fun m' w' => later w w' /\ behind k (lucky w0) m' hd (e ++ put_data c)) w.
Proof.
  intros Hm L0 Hc Hk He.
  assert (Hsimple : forall j v, (j <= 8)%nat ->
    wp ('(_, m') ← smb_message_append m (Some (le_bytes j v)) (Z.of_nat j); mret m')
      (fun m' w' => later w w' /\ behind k (lucky w0) m' hd (e ++ le_bytes j v)) w).
  { intros j v Hj. apply (append_behind w0 k m hd e _ _ (le_bytes j v)); auto with dsm; [|lia].
    replace (Z.of_nat j) with (zlen (le_bytes j v)) by len. by apply sub_all. }
  destruct c as [v|v|v|v|str n|a b c d]; cbn [put_one put_data put_call_ok] in *;
    [by apply (Hsimple 1%nat); lia|by apply (Hsimple 2%nat); lia|by apply (Hsimple 4%nat); lia|by apply (Hsimple 8%nat); lia|..].
  - destruct Hc as [Hn Hs]. apply wp_bind. unfold smb_message_put_utf16. apply wp_bind.
    eapply wp_mono; [apply smb_iconv_text; lia|]. intros [r o] w1 [L1 Ht]. cbn beta iota.
    destruct (text_size Locale UCS2LE str n ltac:(lia)) as [Htb Htl].
    destruct Ht as [(-> & -> & Hlk)|(Hr & Er & b & -> & Hsub)]; apply wp_bind.
    + apply wp_ret. cbn [Z.eqb negb]. apply wp_ret, wp_ret. split; [done|].
      destruct Hm as (pre & wr & ? & ? & ? & ? & Hwr). exists pre, wr. split_and!; auto; [len|].
      intros Hw. rewrite (Hlk (later_lucky _ _ L0 Hw)), app_nil_r. auto.
    + pose proof (append_behind w0 k m hd e b r _ w1 Hm (later_trans _ _ _ L0 L1) Hsub Htb ltac:(lia)) as Ha.
      unfold append, wpf, mbind, io_bind in Ha |- *.
      destruct (smb_message_append m (Some b) r w1) as [[[x m1] w2]| |]; [|done..]. cbn [obind] in *.
      destruct Ha as [L2 Ha]. destruct (negb _); (split; [by eapply later_trans|exact Ha]).
  - destruct Hc as [Hd Hb].
    apply wp_bind, (wp_mono _ _ (fun '(_, m') w' => later w w'
      /\ behind k (lucky w0) m' hd (e ++ le_bytes 4 a ++ le_bytes 2 b ++ le_bytes 2 c ++ d))); [|intros [r m'] w' Hpost; by apply wp_ret].
    apply (put_step w0 k m hd e (le_bytes 4 a) _ (le_bytes 2 b ++ le_bytes 2 c ++ d)); auto with dsm; [len|].
    intros m1 w1 L1 Hm1.
    eapply wp_mono; [apply (put_step w0 k m1 hd (e ++ le_bytes 4 a) (le_bytes 2 b) _ (le_bytes 2 c ++ d)); auto with dsm; [len|]|].
    2: { intros [? ?] ? [? Hx]. split; [done|]. by rewrite <- app_assoc in Hx. }
    intros m2 w2 L2 Hm2.
    eapply wp_mono; [apply (put_step w0 k m2 hd ((e ++ le_bytes 4 a) ++ le_bytes 2 b) (le_bytes 2 c) _ d); auto with dsm; [len|]|].
    2: { intros [? ?] ? [? Hx]. split; [done|]. by rewrite <- app_assoc in Hx. }
    intros m3 w3 L3 Hm3. apply wp_bind, (wp_access _ _ d).
    { replace 8 with (zlen d) by len. by apply sub_all. }
    eapply wp_mono; [eapply put_bytes_behind; [exact Hm3|done|done|len]|]. intros [? ?] ? [? Hx]. split; [done|].
    by rewrite <- app_assoc in Hx.
Qed.

(** All of them. *)
Definition puts_data (l : list put_call) : bytes := concat (map put_data l).

Lemma puts_behind w0 k m hd e l w :
  behind k (lucky w0) m hd e -> later w0 w -> Forall put_call_ok l -> 0 <= k < 1000000 ->
  zlen e + zlen (puts_data l) < 100000000 ->
  wp (puts m l) (fun m' w' => later w w' /\ behind k (lucky w0) m' hd (e ++ puts_data l)) w.
Proof.
  revert m e w. induction l as [|c l IH]; intros m e w Hm L0 Hl Hk Hmax; cbn [puts].
  { apply wp_ret. cbn. rewrite app_nil_r. split; [apply later_refl|done]. }
  apply Forall_cons in Hl as [Hc Hl].
  assert (Hz : zlen (puts_data (c :: l)) = zlen (put_data c) + zlen (puts_data l)) by (unfold puts_data; cbn; len).
  apply wp_bind. eapply wp_mono; [eapply put_one_behind; [exact Hm|done|done|done|unfold zlen in *; lia]|].
  intros m1 w1 [L1 Hm1]. eapply wp_mono; [eapply IH; [exact Hm1|by eapply later_trans|done|done|]|].
  { unfold zlen in *. rewrite length_app. lia. }
  intros m2 w2 [L2 Hm2]. split; [by eapply later_trans|]. unfold puts_data. cbn. by rewrite <- app_assoc in Hm2.
Qed.

Lemma puts_built w0 m hd e l w :
  built (lucky w0) m hd e -> later w0 w -> Forall put_call_ok l -> zlen e + zlen (puts_data l) < 100000000 ->
  wp (puts m l) (fun m' w' => later w w' /\ built (lucky w0) m' hd (e ++ puts_data l)) w.
Proof.
  intros Hm L0 Hl Hmax. eapply wp_mono; [eapply puts_behind; [by apply behind_0|done..|lia|done]|].
  intros m' w' [? ?%behind_0]. done.
Qed.

End Puts.

(** ** Structures that are filled in at the end *)

Lemma advance_behind P m hd n w :
  message m hd [] -> 0 < n <= payload_size m ->
  wp (advance m n) (fun m' w' => w' = w /\ behind n P m' hd []) w.
Proof.
  intros (post & Hp & Hh & Hc & Hs & Hm) Hn. unfold advance, smb_message_advance, smb_message_expand_payload.
  change (zlen []) with 0 in *. rewrite Hc, (proj2 (Z.eqb_neq n 0)), Z.sub_0_r, u64_small, (proj2 (Z.ltb_ge _ _)) by lia.
  cbn [orb]. do 2 apply wp_bind. apply wp_ret. cbn [Z.eqb]. do 2 apply wp_ret. split; [done|].
  exists (take (Z.to_nat n) post), []. rewrite app_nil_r. split; [len|].
  split; [|split_and!; [apply Forall_nil; done|done|done]].
  exists (drop (Z.to_nat n) post). cbn [packet cursor payload_size app].
  rewrite take_drop, Hc, u64_small by lia. split_and!; auto; len.
Qed.

Lemma insert_built P m hd e L req w :
  behind (sizeof L) P m hd e -> bytes_ok req -> zlen req = sizeof L -> 0 < sizeof L ->
  wp ('(_, m') ← smb_message_insert m 0 (Some req) (sizeof L); mret m')
    (fun m' w' => w' = w /\ built P m' hd (req ++ e)) w.
Proof.
  intros (pre & wr & Hpre & (post & Hp & Hh & Hc & Hs & Hm) & Hb & Hl & He) Hreq Hn Hpos.
  unfold smb_message_insert, smb_message_expand_payload.
  assert (Hge : sizeof L <= payload_size m) by len.
  rewrite (proj2 (Z.eqb_neq _ 0)), Z.sub_0_r, u64_small, (proj2 (Z.ltb_ge _ _)) by lia.
  cbn [orb]. do 2 apply wp_bind. apply wp_ret. cbn [Z.eqb]. apply wp_bind, (wp_access _ _ _ _ _ Hp).
  apply wp_bind, (wp_access _ _ req); [rewrite <- Hn; by apply sub_all|].
  apply wp_bind, (wp_access _ _ (hd ++ req ++ wr ++ post)).
  { rewrite <- !app_assoc. apply put_app; [len|]. unfold zlen in *. lia. }
  do 2 apply wp_ret. split; [done|]. exists (req ++ wr). split; [|split_and!; [by apply bytes_ok_app|len|]].
  - exists post. cbn [packet cursor payload_size]. rewrite <- app_assoc. split_and!; auto; len.
  - intros HP. by rewrite (He HP).
Qed.

(** ** Messages that fit in their first block, whatever memory there is *)

Definition small (m : smb_message) (hd e : bytes) : Prop :=
  message m hd e /\ bytes_ok e /\ payload_size m = 256.

Lemma small_built P m hd e : small m hd e -> built P m hd e.
Proof. intros (Hm & Hb & _). exists e. done. Qed.

Lemma new_small cmd w :
  wp (smb_message_new cmd) (fun o w' => later w w'
    /\ match o with None => ~ lucky w | Some m => exists pid, small m (new_header cmd pid 0 0) [] end) w.
Proof.
  eapply wp_mono; [apply message_new_wp|]. intros [m|] w' [L H]; (split; [done|]); [|done].
  destruct H as (pid & Hm & Hs). exists pid. split_and!; [exact Hm|constructor|exact Hs].
Qed.

Lemma append_small m hd e data n d w :
  small m hd e -> sub data 0 n = Some d -> bytes_ok d -> 0 < n -> zlen e + n <= 256 ->
  wp (append m (Some data) n) (fun m' w' => w' = w /\ small m' hd (e ++ d)) w.
Proof.
  intros (Hm & Hb & Hs) Hsub Hd Hn Hfit.
  destruct (append_fits m hd e data n d w Hm Hsub Hn) as (m' & E & Hm' & Hs'); [lia|].
  apply wp_bind. eapply wp_Done; [exact E|]. apply wp_ret. split; [done|].
  split_and!; [exact Hm'|by apply bytes_ok_app|congruence].
Qed.

Lemma put8_small m hd e v w :
  small m hd e -> zlen e + 1 <= 256 ->
  wp (put8 m v) (fun m' w' => w' = w /\ small m' hd (e ++ le_bytes 1 v)) w.
Proof. intros Hm Hl. apply (append_small m hd e (le_bytes 1 v) 1); auto; [apply le_bytes_ok|lia]. Qed.

(** Fields of the header. *)
Lemma set_header_built ok m hd hd' e l w :
  built ok m hd e -> set_fields smb_header hd 0 l = Some hd' -> length hd' = 32%nat ->
  wp (set_header m l) (fun m' w' => w' = w /\ built ok m' hd' e) w.
Proof.
  intros (wr & (post & Hp & Hh & Hc & Hs & Hm) & Hb & Hl & He) Hset Hh'.
  apply wp_bind, (wp_access _ _ _ _ _ Hp), wp_bind.
  eapply wp_access; [by apply set_fields_prefix|]. apply wp_ret. split; [done|].
  exists wr. split; [|done]. exists post. done.
Qed.

(** The header of a request on the wire. *)
Definition request_header (cmd pid tid u : Z) : bytes :=
  magic ++ le_bytes 1 cmd ++ replicate 4 0 ++ [0x18] ++ le_bytes 2 0xc843 ++ replicate 12 0
  ++ le_bytes 2 tid ++ le_bytes 2 pid ++ le_bytes 2 u ++ [0; 0].

Lemma request_header_ok cmd pid tid u : bytes_ok (request_header cmd pid tid u).
Proof.
  unfold request_header. repeat apply bytes_ok_app; auto with dsm; by repeat constructor.
Qed.

(** What has been put on the wire: one request, whole if memory was enough. *)
Definition requested (enough : Prop) (cmd tid u : Z) (e : bytes) (w w' : world) : Prop :=
  exists hd pid wr, length hd = 4%nat /\ (enough -> wr = e)
    /\ w_tx w' = w_tx w ++ [Stream (hd ++ request_header cmd pid tid u ++ wr)].

(** What has been put on the wire is at most the start of one request. *)
Definition attempted (enough : Prop) (cmd tid u : Z) (e : bytes) (w w' : world) : Prop :=
  w_tx w' = w_tx w
  \/ exists hd pid wr part, length hd = 4%nat /\ (enough -> wr = e)
       /\ part `prefix_of` hd ++ request_header cmd pid tid u ++ wr
       /\ w_tx w' = w_tx w ++ [Stream part].

Lemma attempted_frame (P P' : Prop) cmd tid u e w1 w2 w w3 :
  attempted P cmd tid u e w1 w2 -> w_tx w1 = w_tx w -> w_tx w3 = w_tx w2 -> (P' -> P) ->
  attempted P' cmd tid u e w w3.
Proof.
  intros [Htx|(hd & pid & wr & part & Hl & He & Hp & Htx)] H1 H3 HP; [left; congruence|right].
  exists hd, pid, wr, part. rewrite H3, Htx, H1. auto.
Qed.

Lemma requested_frame P cmd tid u e w1 w2 w w3 :
  requested P cmd tid u e w1 w2 -> w_tx w1 = w_tx w -> w_tx w3 = w_tx w2 -> requested P cmd tid u e w w3.
Proof. intros (hd & pid & wr & Hl & He & Htx) H1 H3. exists hd, pid, wr. by rewrite H3, Htx, H1. Qed.

Lemma requested_mono (P P' : Prop) cmd tid u e w w' :
  requested P cmd tid u e w w' -> (P' -> P) -> requested P' cmd tid u e w w'.
Proof. intros (hd & pid & wr & ? & He & ?) HP. exists hd, pid, wr. auto. Qed.

(** ** Building messages adds no events *)

Lemma expand_onward m c n : within onward (smb_message_expand_payload m c n).
Proof. unfold smb_message_expand_payload, realloc. confine. Qed.
#[export] Hint Resolve expand_onward : within.

Lemma new_onward cmd : within onward (smb_message_new cmd).
Proof. unfold smb_message_new, access. confine. Qed.
Lemma message_append_onward m d n : within onward (smb_message_append m d n).
Proof. unfold smb_message_append, access. confine. Qed.
Lemma message_insert_onward m c d n : within onward (smb_message_insert m c d n).
Proof. unfold smb_message_insert, access. confine. Qed.
Lemma message_advance_onward m n : within onward (smb_message_advance m n).
Proof. unfold smb_message_advance. confine. Qed.
Lemma set_header_onward m l : within onward (set_header m l).
Proof. unfold set_header, access. confine. Qed.
Lemma store_payload_onward m o d : within onward (store_payload m o d).
Proof. unfold store_payload, access. confine. Qed.
#[export] Hint Resolve new_onward message_append_onward message_insert_onward message_advance_onward
  set_header_onward store_payload_onward : within.

Lemma append_onward m d n : within onward (append m d n).
Proof. unfold append. confine. Qed.
Lemma put8_onward m v : within onward (put8 m v).
Proof. unfold put8, smb_message_put8. confine. Qed.
Lemma put16_onward m v : within onward (put16 m v).
Proof. unfold put16, smb_message_put16. confine. Qed.
Lemma put_pkt_onward m L l : within onward (put_pkt m L l).
Proof. unfold put_pkt, access. confine. Qed.
Lemma put_pkt_andx_onward m L l : within onward (put_pkt_andx m L l).
Proof. unfold put_pkt_andx, access. confine. Qed.
Lemma advance_onward m n : within onward (advance m n).
Proof. unfold advance. confine. Qed.
Lemma insert_pkt_onward m L l : within onward (insert_pkt m L l).
Proof. unfold insert_pkt, access. confine. Qed.
Lemma insert_pkt_andx_onward m L l : within onward (insert_pkt_andx m L l).
Proof. unfold insert_pkt_andx, access. confine. Qed.
#[export] Hint Resolve append_onward put8_onward put16_onward put_pkt_onward put_pkt_andx_onward advance_onward
  insert_pkt_onward insert_pkt_andx_onward : within.

Lemma iconv_onward `{Iconv} src n s d : within onward (smb_iconv src n s d).
Proof.
  unfold smb_iconv. generalize 12%nat 4. intros k. confine. revert z. induction k; intros; cbn [iconv_loop]; unfold malloc, access; confine.
Qed.
Lemma to_utf16_onward `{Iconv} src n : within onward (smb_to_utf16 src n).
Proof. apply iconv_onward. Qed.
Lemma from_utf16_onward `{Iconv} src n : within onward (smb_from_utf16 src n).
Proof. apply iconv_onward. Qed.
#[export] Hint Resolve to_utf16_onward from_utf16_onward : within.

Lemma put_bytes_onward m d : within onward (put_bytes m d).
Proof. revert m. induction d; intros; cbn [put_bytes]; unfold smb_message_put8; confine. Qed.
#[export] Hint Resolve put_bytes_onward : within.

Lemma put_utf16_onward `{Iconv} m str n : within onward (smb_message_put_utf16 m str n).
Proof. unfold smb_message_put_utf16. confine. Qed.
Lemma put_uuid_onward m a b c d : within onward (smb_message_put_uuid m a b c d).
Proof. unfold smb_message_put_uuid, smb_message_put32, smb_message_put16, access. confine. Qed.
#[export] Hint Resolve put_utf16_onward put_uuid_onward : within.

Lemma puts_onward `{Iconv} m l : within onward (puts m l).
Proof.
  revert m. induction l as [|c l IH]; intros m; cbn [puts]; [confine|]. apply (within_bind _); [|auto].
  unfold put_one, smb_message_put8, smb_message_put16, smb_message_put32, smb_message_put64. destruct c; confine.
Qed.
#[export] Hint Resolve puts_onward : within.

Section Kept.
Context {T : Type}.
Implicit Types s : smb_session T.

(** Nothing but the state of the transport has changed. *)
Definition kept s s' : Prop :=
  s' = SmbSession (logged s) (guest s) (srv s) (spnego_asn1 s) (xsec_target s) (creds s) (transport s) (session s')
    (fds s) (nt_status s).

#[global] Instance kept_preorder : PreOrder kept.
Proof. split; [by intros []|]. unfold kept. intros s1 s2 s3 -> ->. done. Qed.

Lemma kept_transport s s' : kept s s' -> transport s' = transport s.
Proof. by intros ->. Qed.

Lemma recv_kept s w r m s' w' : smb_session_recv_msg s w = Done ((r, m, s'), w') -> kept s s'.
Proof.
  unfold smb_session_recv_msg.
  intros (t & w1 & _ & (x & w2 & _ & ([[r1 d] t1] & w3 & _ & E)%bind_inv)%bind_inv)%bind_inv.
  destruct (r1 <=? 0); [by injection E as _ _ <- _|]. destruct (r1 <? _); by injection E as _ _ <- _.
Qed.

Lemma send_kept s m w r s' m' w' : smb_session_send_msg s m w = Done ((r, s', m'), w') -> kept s s'.
Proof.
  unfold smb_session_send_msg. intros (t & w1 & _ & (m1 & w2 & _ & (x & w3 & _ & E)%bind_inv)%bind_inv)%bind_inv.
  apply bind_inv in E as (t1 & w4 & _ & (p & w5 & _ & ([r1 t2] & w6 & _ & E)%bind_inv)%bind_inv).
  destruct (r1 =? 0); [by injection E as _ <- _ _|]. by apply bind_inv in E as ([r2 t3] & w7 & _ & [= _ <- _ _]).
Qed.

End Kept.

Section Laws.
Context {T : Type} (tr : smb_transport T) `{!TransportLaws tr}.
Implicit Types s : smb_session T.

Lemma send_msg_onward s m : transport s = Some tr -> within onward (smb_session_send_msg s m).
Proof.
  intros Htr. unfold smb_session_send_msg. rewrite Htr. apply (within_bind _); [unfold access; confine|]. intros t.
  apply (within_bind _); [confine|]. intros m1. apply within_access_Some. unfold access. confine.
Qed.

Lemma recv_msg_onward s : transport s = Some tr -> within onward (smb_session_recv_msg s).
Proof.
  intros Htr. unfold smb_session_recv_msg. rewrite Htr.
  apply (within_bind _); [unfold access; confine|]. intros t. apply within_access_Some. confine.
Qed.

Lemma recv_msg_events s w r m s' w' :
  transport s = Some tr -> smb_session_recv_msg s w = Done ((r, m, s'), w') -> r <> 0 ->
  (length (w_events w') < length (w_events w))%nat.
Proof.
  intros Htr. unfold smb_session_recv_msg. rewrite Htr.
  intros (t & w1 & H1 & (x & w2 & H2 & ([[r1 d] t1] & w3 & H3 & H)%bind_inv)%bind_inv)%bind_inv Hr.
  unfold access, lift in H1, H2. apply obind_Done in H1 as (? & _ & [= _ <-]), H2 as (? & E & [= <- <-]).
  injection E as <-. apply recv_events in H3; destruct (Z.leb_spec r1 0); try (injection H as <- _ _ <-; done).
  - destruct (r1 <? _); injection H as _ _ _ <-; done.
  - lia.
Qed.

(** A session with a usable transport. *)
Definition ready s : Prop := transport s = Some tr /\ exists t, session s = Some t /\ tr_ok t.

(** Only the transport has moved. *)
Definition moved s s' : Prop := exists t, s' = set_session s t.

Lemma send_msg_ok enough s m cmd pid tid flags2 e t w :
  transport s = Some tr -> session s = Some t -> tr_ok t -> bytes_ok (w_rx w) ->
  built enough m (new_header cmd pid tid flags2) e -> zlen e < 4611686018427387904 ->
  (forall n, 32 <= n <= 32 + zlen e -> tr_room t n) ->
  wp (smb_session_send_msg s m) (fun '(r, s', m') w' =>
    bytes_ok (w_rx w') /\ moved s s' /\ (r = 0 \/ r = 1) /\ (32 + zlen e <= 8188 \/ r <> 0 -> ready s')
    /\ (r <> 0 -> requested enough cmd tid (uid (srv s)) e w w')
    /\ attempted enough cmd tid (uid (srv s)) e w w') w.
Proof.
  intros Htr Ht Hok Hx Hm Hmax Hroom. unfold smb_session_send_msg.
  apply wp_bind, (wp_access _ _ _ _ _ Ht), wp_bind.
  eapply wp_mono; [eapply (set_header_built _ _ _ (request_header cmd pid tid (uid (srv s)))); [exact Hm|reflexivity..]|].
  intros m1 w1 (-> & wr & (post & Hp & Hh & Hc & Hs & Hlt) & Hb & Hl & He). cbn beta.
  apply wp_bind, (wp_access _ _ _ _ _ Htr).
  assert (Hz : 0 <= zlen wr) by (unfold zlen; lia).
  rewrite Hc. unfold sizeof_smb_packet. rewrite u64_small by lia.
  set (hd := request_header _ _ _ _) in *.
  assert (Hsub : sub (hd ++ wr ++ post) 0 (32 + zlen wr) = Some (hd ++ wr)).
  { rewrite app_assoc. apply (sub_app []); [done|]. unfold zlen in *. rewrite length_app. lia. }
  assert (Hd : bytes_ok (hd ++ wr)) by (apply bytes_ok_app; [apply request_header_ok|done]).
  pose proof (transmit_ok t _ (32 + zlen wr) _ w Hok ltac:(apply Hroom; lia) Hx Hsub Hd) as H.
  unfold transmit, wpf, mbind, io_bind in H |- *.
  destruct (pkt_init tr t w) as [[t1 w1]| |]; [|done..]. cbn [obind] in H |- *.
  rewrite (access_Done _ _ _ Hp). cbn [obind].
  destruct (pkt_append tr t1 _ _ w1) as [[[r1 t2] w2]| |]; [|done..]. cbn [obind] in H |- *.
  assert (Hmoved : forall t', moved s (set_session s t')) by (intros t'; by exists t').
  assert (Hready : forall t', tr_ok t' -> ready (set_session s t')) by (intros t' ?; split; [done|by exists t']).
  assert (Hatt : forall r w', on_wire r (hd ++ wr) w w' -> attempted enough cmd tid (uid (srv s)) e w w').
  { intros r w' [[_ ?]|(hd4 & part & H4 & Hpre & _ & Htx)]; [by left|right]. exists hd4, pid, wr, part. done. }
  destruct (r1 =? 0).
  - destruct H as (Hx' & Hok' & Hwire). unfold mret, io_ret. split_and!; eauto; [|done].
    intros [?|?]; [|done]. apply Hready, Hok'. left. lia.
  - destruct (send tr t2 w2) as [[[r2 t3] w3]| |]; [|done..]. cbn [obind].
    destruct H as (Hx' & Hok' & Hwire). unfold mret, io_ret.
    destruct (Z.eqb_spec r2 0) as [->|Hr2]; split_and!; eauto; try done.
    + intros [?|?]; [|done]. apply Hready, Hok'. left. lia.
    + intros _. destruct Hwire as [[? _]|(hd4 & part & H4 & _ & Hpart & Htx)]; [done|].
      exists hd4, pid, wr. by rewrite Htx, Hpart.
Qed.

(** A small message leaves the session ready in any case. *)
Lemma send_small_ok enough s m cmd pid tid flags2 e w :
  ready s -> bytes_ok (w_rx w) -> built enough m (new_header cmd pid tid flags2) e -> 32 + zlen e <= 8188 ->
  wp (smb_session_send_msg s m) (fun '(r, s', m') w' =>
    bytes_ok (w_rx w') /\ moved s s' /\ ready s' /\ (r = 0 \/ r = 1)
    /\ (r <> 0 -> requested enough cmd tid (uid (srv s)) e w w')
    /\ attempted enough cmd tid (uid (srv s)) e w w') w.
Proof.
  intros (Htr & t & Ht & Hok) Hx Hm Hsm. eapply wp_mono.
  - eapply send_msg_ok; eauto; [lia|]. intros n Hn. apply tr_room_small; [done|lia].
  - intros [[r s'] m'] w' (? & ? & ? & Hr & ? & ?). split_and!; auto.
Qed.

Lemma moved_same s s' : moved s s' -> fds s' = fds s /\ srv s' = srv s /\ transport s' = transport s.
Proof. by intros [t ->]. Qed.

(** A message received: [p] is the memory from its first byte on, which is the
    buffer of the transport. *)
Definition received (m : smb_message) (p : bytes) : Prop :=
  m = Message (payload_size m) 0 (Some p) /\ 0 < payload_size m < 131072 /\ Z.max (32 + payload_size m) 8188 <= zlen p
  /\ bytes_ok p.

Lemma recv_msg_any s w :
  ready s -> bytes_ok (w_rx w) ->
  wp (smb_session_recv_msg s) (fun '(r, m, s') w' => w_tx w' = w_tx w /\ bytes_ok (w_rx w') /\ moved s s'
    /\ (r <> 0 \/ lucky w' -> ready s')
    /\ match m with None => r = 0 | Some m0 => payload_size m0 = r /\ (r <> 0 -> exists p, received m0 p) end) w.
Proof.
  intros (Htr & t & Ht & Hok) Hx. unfold smb_session_recv_msg.
  apply wp_bind, (wp_access _ _ _ _ _ Ht), wp_bind, (wp_access _ _ _ _ _ Htr), wp_bind.
  eapply wp_mono; [by apply recv_ok|]. intros [[r m] t'] w' (Htx & Hx' & Hok' & H).
  assert (Hmoved : moved s (set_session s t')) by (by exists t').
  assert (Hready : tr_ok t' -> ready (set_session s t')) by (intros ?; split; [done|by exists t']).
  unfold sizeof_smb_packet.
  destruct (Z.leb_spec r 0); [apply wp_ret; split_and!; auto; by intros [?|?]; auto|].
  destruct (Z.ltb_spec r 32); [apply wp_ret; split_and!; auto; by intros [?|?]; auto|].
  apply wp_ret. destruct H as (Hmx & p & -> & Hl & Hb); [lia|].
  split_and!; auto; [intros _; apply Hready, Hok'; left; lia|]. intros Hne. exists p.
  split; [done|]. cbn [payload_size]. split_and!; auto; lia.
Qed.

Lemma recv_msg_ok s w :
  ready s -> bytes_ok (w_rx w) ->
  wp (smb_session_recv_msg s) (fun '(r, m, s') w' => w_tx w' = w_tx w /\ bytes_ok (w_rx w') /\ moved s s'
    /\ (r <> 0 -> ready s' /\ exists m0 p, m = Some m0 /\ payload_size m0 = r /\ received m0 p)) w.
Proof.
  intros Hs Hx. eapply wp_mono; [by apply recv_msg_any|]. intros [[r m] s'] w' (? & ? & ? & Hr & Hm).
  split_and!; auto. intros Hne. split; [auto|]. destruct m as [m0|]; [|done].
  destruct Hm as [E [p Hp]]; [done|]. by exists m0, p.
Qed.

(** The bytes of a structure in a received message can be read. *)
Lemma field_read L b base f o n :
  locate L f = Some (o, n) -> bytes_ok b -> 0 <= base + o -> 0 < n -> base + o + n <= zlen b ->
  exists v, field L b base f = Some v /\ 0 <= v < 256 ^ n.
Proof.
  intros E Hb H0 Hn Hl. unfold field. rewrite E. cbn [mbind option_bind].
  destruct (get_word_Some b (base + o) (Z.to_nat n)) as [v Hv]; [lia..|]. exists v. split; [done|].
  unfold get_word in Hv. destruct (sub b _ _) as [x|] eqn:Ex; [|done]. cbn in Hv. injection Hv as <-.
  pose proof (le_word_range x (sub_ok _ _ _ _ Hb Ex)). pose proof (length_sub _ _ _ _ Ex).
  unfold zlen in *. replace n with (Z.of_nat (length x)) by lia. done.
Qed.

Lemma check_nt_status_ok s m p w :
  received m p ->
  wp (smb_session_check_nt_status s m) (fun '(ok, s') w' => w' = w
    /\ if ok : bool then s' = s /\ field smb_header p 0 "status" = Some 0
       else exists st, st <> 0 /\ s' = set_nt_status s st) w.
Proof.
  intros (Hm0 & Hpos & Hl & Hb). apply wp_bind, (wp_access _ _ p); [by rewrite Hm0|].
  destruct (field_read smb_header p 0 "status" 5 4) as (st & Hst & _); [done|done|lia|lia|lia|].
  apply wp_bind, (wp_access _ _ _ _ _ Hst). unfold NT_STATUS_SUCCESS.
  destruct (Z.eqb_spec st 0) as [->|Hne]; cbn [negb]; apply wp_ret; split; auto. by exists st.
Qed.

Lemma receive_answer_onward s : transport s = Some tr -> within onward (receive_answer s).
Proof.
  intros Htr. unfold receive_answer. apply (within_bind _); [by apply recv_msg_onward|]. intros [[r o] s'].
  unfold smb_session_check_nt_status, access. confine.
Qed.

Lemma receive_answer_ok s w :
  ready s -> bytes_ok (w_rx w) ->
  wp (receive_answer s) (fun '(a, s') w' => w_tx w' = w_tx w /\ bytes_ok (w_rx w')
    /\ match a with
       | inl e => e = DSM_ERROR_NETWORK /\ moved s s'
                  \/ e = DSM_ERROR_NT /\ ready s'
                     /\ exists t st, st <> 0 /\ s' = set_nt_status (set_session s t) st
       | inr m => moved s s' /\ ready s' /\ exists p, received m p /\ field smb_header p 0 "status" = Some 0
       end) w.
Proof.
  intros Hs Hx. apply wp_bind. eapply wp_mono; [by apply recv_msg_ok|].
  intros [[r m] s1] w1 (Htx & Hx1 & Hmv & H). cbn beta iota.
  destruct (Z.eqb_spec r 0) as [->|Hr]; [apply wp_ret; auto|].
  destruct (H Hr) as (Hs1 & m0 & p & -> & Hpr & Hm).
  apply wp_bind, (wp_access _ _ m0); [done|]. apply wp_bind. eapply wp_mono; [by apply (check_nt_status_ok _ _ p)|].
  intros [ok s2] w2 [-> Hok]. apply wp_ret. destruct ok; [destruct Hok as [-> Hst]|destruct Hok as (st & Hne & ->)];
    split_and!; auto; [by exists p|].
  right. split; [done|]. split; [exact Hs1|]. destruct Hmv as [t ->]. by exists t, st.
Qed.

End Laws.
End SmbSession.
