(* ===== verification/SmbFile.v ===== *)
(** Operations on files and directories: src/smb_file.c and src/smb_dir.c.

    A caller's buffer is passed and given back as a value; [None] is a NULL
    pointer. Descriptors and offsets live in the tables of the session. *)

From stdpp Require Import strings gmap.
From S2P Require Import Prelude World NetbiosUtils NetbiosSession SmbPackets SmbBuffer SmbMessage SmbFd SmbTransport SmbSession.

Module SmbFile.
Import SmbPackets SmbUtils SmbMessage SmbFd SmbTransport SmbSession.
Local Open Scope string_scope.
Local Open Scope list_scope.
Local Open Scope Z_scope.

Definition SMB_CMD_MKDIR : Z := 0x00.
Definition SMB_CMD_RMDIR : Z := 0x01.
Definition SMB_CMD_CLOSE : Z := 0x04.
Definition SMB_CMD_RMFILE : Z := 0x06.
Definition SMB_CMD_MOVE : Z := 0x07.
Definition SMB_CMD_READ : Z := 0x2e.
Definition SMB_CMD_WRITE : Z := 0x2f.
Definition SMB_CMD_CREATE : Z := 0xa2.
Definition SMB_SEEK_SET : Z := 0.
Definition SMB_SEEK_CUR : Z := 1.
Definition SMB_MOD_READ : Z := 1.
Definition SMB_MOD_WRITE : Z := 2.
Definition SMB_MOD_APPEND : Z := 4.
Definition SMB_MOD_READ_EXT : Z := 8.
Definition SMB_MOD_WRITE_EXT : Z := 16.
Definition SMB_MOD_READ_ATTR : Z := 128.
Definition SMB_MOD_WRITE_ATTR : Z := 256.
Definition SMB_MOD_READ_CTL : Z := 131072.
Definition any_of (flags : list Z) : Z := fold_right Z.lor 0 flags.
Definition SMB_MOD_RW : Z := Eval cbv in any_of
  [SMB_MOD_READ; SMB_MOD_WRITE; SMB_MOD_APPEND; SMB_MOD_READ_EXT; SMB_MOD_WRITE_EXT; SMB_MOD_READ_ATTR; SMB_MOD_WRITE_ATTR; SMB_MOD_READ_CTL].
Definition SMB_MOD_RO : Z := Eval cbv in any_of [SMB_MOD_READ; SMB_MOD_READ_EXT; SMB_MOD_READ_ATTR; SMB_MOD_READ_CTL].
Definition SMB_SHARE_READ : Z := 1.
Definition SMB_SHARE_WRITE : Z := 2.
Definition SMB_DISPOSITION_FILE_SUPERSEDE : Z := 0.
Definition SMB_DISPOSITION_FILE_OPEN : Z := 1.
Definition SMB_CREATEOPT_WRITE_THROUGH : Z := 2.
Definition SMB_IMPERSONATION_SEC_IMPERSONATE : Z := 2.
Definition SMB_SECURITY_NO_TRACKING : Z := 0.
Definition SMB_WRITEMODE_WRITETHROUGH : Z := 1.
Definition SMB_FLAGS2_LONG_NAMES : Z := 1.
Definition SMB_ATTR_HIDDEN : Z := 2.
Definition SMB_ATTR_SYS : Z := 4.

(** An address that [calloc] may return for a node. *)
Definition fresh_ptr (h : gmap Z smb_file) : Z := fresh ({[0]} ∪ dom h : gset Z).

Definition file_set_offset (f : smb_file) (o : Z) : smb_file :=
  File (f_next f) (f_name f) (f_fid f) (f_tid f) (f_name_len f) (f_created f) (f_accessed f)
    (f_written f) (f_changed f) (f_alloc_size f) (f_size f) (f_attr f) o (f_is_dir f).
Definition set_file (t : tables) (p : Z) (f : smb_file) : tables :=
  Tables (shares t) (share_heap t) (<[p := f]> (file_heap t)).
Definition free_file (t : tables) (p : Z) : tables :=
  Tables (shares t) (share_heap t) (delete p (file_heap t)).

(** The range of [off_t]; a sum outside of it is undefined behaviour. *)
Definition off_t_range (z : Z) : bool := (-9223372036854775808 <=? z) && (z <=? 9223372036854775807).

Section Ops.
Context {T : Type} `{Iconv}.
Implicit Types s : smb_session T.

(** The fields of [smb_create_req], in the order of the assignments. *)
Definition create_fields (o_flags path_len : Z) : list (string * Z) :=
  let rw := Z.land o_flags SMB_MOD_RW =? SMB_MOD_RW in
  [("wct", 24); ("flags", 0); ("root_fid", 0); ("access_mask", o_flags); ("alloc_size", 0);
   ("file_attr", 0); ("share_access", Z.lor SMB_SHARE_READ SMB_SHARE_WRITE);
   ("disposition", if rw then SMB_DISPOSITION_FILE_SUPERSEDE else SMB_DISPOSITION_FILE_OPEN);
   ("create_opts", if rw then SMB_CREATEOPT_WRITE_THROUGH else 0);
   ("impersonation", SMB_IMPERSONATION_SEC_IMPERSONATE); ("security_flags", SMB_SECURITY_NO_TRACKING);
   ("path_length", path_len); ("bct", path_len + 1)].

(** The node filled from the answer. *)
Definition file_of (p : bytes) (tid : Z) : option smb_file :=
  let f := field smb_create_resp p 32 in
  fid ← f "fid"; created ← f "created"; accessed ← f "accessed"; written ← f "written";
  changed ← f "changed"; alloc_size ← f "alloc_size"; size ← f "size"; attr ← f "attr";
  is_dir ← f "is_dir";
  Some (File 0 None fid tid 0 created accessed written changed alloc_size size attr 0 is_dir).

(** [smb_fopen] from the answer on: the result and [*fd]. *)
Definition fopen_answer s (tid : Z) (resp : smb_message) : io (Z * option Z * smb_session T) :=
  if payload_size resp <? sizeof smb_create_resp
  then mret (DSM_ERROR_NETWORK, None, s)
  else
    p ← access (packet resp);
    ok ← flip;
    if negb ok then mret (DSM_ERROR_GENERIC, None, s)
    else
      file ← access (file_of p tid);
      let ptr := fresh_ptr (file_heap (fds s)) in
      '(_, t) ← lift (smb_session_file_add (set_file (fds s) ptr file) tid ptr);
      mret (DSM_SUCCESS, Some (SMB_FD tid (f_fid file)), set_fds s t).

Definition smb_fopen s (tid : Z) (path : bytes) (o_flags : Z) : io (Z * option Z * smb_session T) :=
  share ← lift (smb_session_share_get (fds s) tid);
  if share =? 0 then mret (DSM_ERROR_GENERIC, None, s)
  else
    n ← access (strlen path);
    '(path_len, utf_path) ← smb_to_utf16 path (n + 1);
    if path_len =? 0 then mret (DSM_ERROR_CHARSET, None, s)
    else
      req_msg ← smb_message_new SMB_CMD_CREATE;
      match req_msg with
      | None => mret (DSM_ERROR_GENERIC, None, s)
      | Some msg =>
          msg ← set_header msg [("tid", tid)];
          msg ← put_pkt_andx msg smb_create_req (create_fields o_flags path_len);
          msg ← put8 msg 0;
          msg ← append msg utf_path path_len;
          '(res, s, _) ← smb_session_send_msg s msg;
          if res =? 0 then mret (DSM_ERROR_NETWORK, None, s)
          else
            '(a, s) ← receive_answer s;
            match a with
            | inl e => mret (e, None, s)
            | inr resp => fopen_answer s tid resp
            end
      end.

Definition smb_fclose s (fd : Z) : io (smb_session T) :=
  if fd =? 0 then mret s
  else
    '(file, t) ← lift (smb_session_file_remove (fds s) fd);
    let s := set_fds s t in
    if file =? 0 then mret s
    else
      msg ← smb_message_new SMB_CMD_CLOSE;
      match msg with
      | None => mret (set_fds s (free_file (fds s) file))
      | Some msg =>
          msg ← set_header msg [("tid", SMB_FD_TID fd)];
          msg ← put_pkt msg smb_close_req
                  [("wct", 3); ("fid", SMB_FD_FID fd); ("last_write", 0xffffffff); ("bct", 0)];
          '(_, s, _) ← smb_session_send_msg s msg;
          '(_, _, s) ← smb_session_recv_msg s;
          mret (set_fds s (free_file (fds s) file))
      end.

Definition smb_fseek s (fd offset whence : Z) : outcome (Z * smb_session T) :=
  let* file := smb_session_file_get (fds s) fd in
  if file =? 0 then Done (-1, s)
  else
    let* f := checked (file_heap (fds s) !! file) in
    let o := if whence =? SMB_SEEK_SET then offset
             else if whence =? SMB_SEEK_CUR then f_offset f + offset
             else f_offset f in
    assert (off_t_range o) ;;;
    Done (o, set_fds s (set_file (fds s) file (file_set_offset f o))).

(** The fields of [smb_read_req]. *)
Definition read_fields (f : smb_file) (max_read : Z) : list (string * Z) :=
  [("wct", 12); ("fid", f_fid f); ("offset", f_offset f); ("max_count", max_read);
   ("min_count", max_read); ("max_count_high", 0); ("remaining", 0);
   ("offset_high", Z.land (Z.shiftr (f_offset f) 32) 0xffffffff); ("bct", 0)].

(** [smb_fread] from the answer on: the result and the caller's buffer. *)
Definition fread_answer s (fd : Z) (buf : option bytes) (resp : smb_message)
    : io (Z * option bytes * smb_session T) :=
  if payload_size resp <? sizeof smb_read_resp
  then mret (DSM_ERROR_NETWORK, buf, s)
  else
    p ← access (packet resp);
    data_offset ← access (field smb_read_resp p 32 "data_offset");
    data_len ← access (field smb_read_resp p 32 "data_len");
    if 32 + payload_size resp <? data_offset + data_len
    then mret (DSM_ERROR_NETWORK, buf, s)
    else
      buf ← (match buf with
             | Some b =>
                 src ← access (sub p data_offset data_len);
                 b ← access (put b 0 src);
                 mret (Some b)
             | None => mret None
             end);
      '(_, s) ← lift (smb_fseek s fd data_len SMB_SEEK_CUR);
      mret (data_len, buf, s).

Definition smb_fread s (fd : Z) (buf : option bytes) (buf_size : Z)
    : io (Z * option bytes * smb_session T) :=
  file ← lift (smb_session_file_get (fds s) fd);
  if file =? 0 then mret (-1, buf, s)
  else
    req_msg ← smb_message_new SMB_CMD_READ;
    match req_msg with
    | None => mret (-1, buf, s)
    | Some msg =>
        f ← access (file_heap (fds s) !! file);
        let max_read := 0xffff in
        let max_read := if max_read <? buf_size then max_read else buf_size in
        msg ← set_header msg [("tid", f_tid f)];
        msg ← put_pkt_andx msg smb_read_req (read_fields f max_read);
        '(res, s, _) ← smb_session_send_msg s msg;
        if res =? 0 then mret (-1, buf, s)
        else
          '(a, s) ← receive_answer s;
          match a with
          | inl _ => mret (-1, buf, s)
          | inr resp => fread_answer s fd buf resp
          end
    end.

(** The fields of [smb_write_req]. *)
Definition write_fields (f : smb_file) (max_write : Z) : list (string * Z) :=
  [("wct", 14); ("fid", f_fid f); ("offset", Z.land (f_offset f) 0xffffffff); ("timeout", 0);
   ("write_mode", SMB_WRITEMODE_WRITETHROUGH); ("remaining", 0); ("reserved", 0);
   ("data_len", max_write); ("data_offset", sizeof_smb_packet + sizeof smb_write_req);
   ("offset_high", Z.land (Z.shiftr (f_offset f) 32) 0xffffffff); ("bct", max_write)].

(** What one call of [smb_fwrite] sends of a buffer; [uint16_t]. *)
Definition write_size (buf_size : Z) : Z :=
  let max_write := 65535 - sizeof_smb_packet - sizeof smb_write_req in
  if max_write <? buf_size then max_write else u16 buf_size.

(** [smb_fwrite] from the answer on. *)
Definition fwrite_answer s (fd : Z) (resp : smb_message) : io (Z * smb_session T) :=
  if payload_size resp <? sizeof smb_write_resp
  then mret (DSM_ERROR_NETWORK, s)
  else
    p ← access (packet resp);
    data_len ← access (field smb_write_resp p 32 "data_len");
    '(_, s) ← lift (smb_fseek s fd data_len SMB_SEEK_CUR);
    mret (data_len, s).

Definition smb_fwrite s (fd : Z) (buf : bytes) (buf_size : Z) : io (Z * smb_session T) :=
  file ← lift (smb_session_file_get (fds s) fd);
  if file =? 0 then mret (-1, s)
  else
    req_msg ← smb_message_new SMB_CMD_WRITE;
    match req_msg with
    | None => mret (-1, s)
    | Some msg =>
        f ← access (file_heap (fds s) !! file);
        let max_write := write_size buf_size in
        msg ← set_header msg [("tid", f_tid f)];
        msg ← put_pkt_andx msg smb_write_req (write_fields f max_write);
        msg ← append msg (Some buf) max_write;
        '(res, s, _) ← smb_session_send_msg s msg;
        if res =? 0 then mret (-1, s)
        else
          '(a, s) ← receive_answer s;
          match a with
          | inl _ => mret (-1, s)
          | inr resp => fwrite_answer s fd resp
          end
    end.

(** The end of the commands on paths: the answer has no parameters and no
    data. [L] is the structure of the answer, a [smb_simple_struct]. *)
Definition simple_answer s (L : layout) : io (Z * smb_session T) :=
  '(a, s) ← receive_answer s;
  match a with
  | inl e => mret (e, s)
  | inr resp =>
      if payload_size resp <? sizeof L then mret (DSM_ERROR_NETWORK, s)
      else
        p ← access (packet resp);
        wct ← access (field L p 32 "wct");
        bct ← access (field L p 32 "bct");
        mret (if negb (wct =? 0) || negb (bct =? 0) then DSM_ERROR_NETWORK else DSM_SUCCESS, s)
  end.

(** The commands on one path ([smb_file_rm], [smb_directory_rm] and
    [smb_directory_create]) differ in the command, the header fields [hd] and
    the structure [L] of the request with its fields, which depend on the
    length of the path. The result of the sending is ignored. *)
Definition path_command (cmd : Z) (hd : list (string * Z)) (L : layout) (l : Z -> list (string * Z))
    (resp : layout) s (path : bytes) : io (Z * smb_session T) :=
  n ← access (strlen path);
  '(utf_pattern_len, utf_pattern) ← smb_to_utf16 path (n + 1);
  if utf_pattern_len =? 0 then mret (DSM_ERROR_CHARSET, s)
  else
    req_msg ← smb_message_new cmd;
    match req_msg with
    | None => mret (DSM_ERROR_GENERIC, s)
    | Some msg =>
        msg ← set_header msg hd;
        msg ← put_pkt msg L (l utf_pattern_len);
        msg ← append msg utf_pattern utf_pattern_len;
        '(_, s, _) ← smb_session_send_msg s msg;
        simple_answer s resp
    end.

Definition smb_file_rm s (tid : Z) (path : bytes) : io (Z * smb_session T) :=
  path_command SMB_CMD_RMFILE [("tid", u16 tid); ("flags2", SMB_FLAGS2_LONG_NAMES)] smb_file_rm_req
    (fun n => [("wct", 1); ("search_attributes", Z.lor SMB_ATTR_HIDDEN SMB_ATTR_SYS);
               ("bct", u16 (n + 1)); ("buffer_format", 4)])
    smb_file_rm_resp s path.

Definition smb_file_mv s (tid : Z) (old_path new_path : bytes) : io (Z * smb_session T) :=
  n ← access (strlen old_path);
  '(utf_old_len, utf_old_path) ← smb_to_utf16 old_path (n + 1);
  if utf_old_len =? 0 then mret (DSM_ERROR_CHARSET, s)
  else
    n ← access (strlen new_path);
    '(utf_new_len, utf_new_path) ← smb_to_utf16 new_path (n + 1);
    if utf_new_len =? 0 then mret (DSM_ERROR_CHARSET, s)
    else
      req_msg ← smb_message_new SMB_CMD_MOVE;
      match req_msg with
      | None => mret (DSM_ERROR_GENERIC, s)
      | Some msg =>
          msg ← set_header msg [("tid", u16 tid); ("flags2", SMB_FLAGS2_LONG_NAMES)];
          msg ← put_pkt msg smb_file_mv_req
                  [("wct", 1); ("search_attributes", Z.lor SMB_ATTR_HIDDEN SMB_ATTR_SYS);
                   ("bct", u16 (utf_old_len + utf_new_len + 3))];
          msg ← put8 msg 4;
          msg ← append msg utf_old_path utf_old_len;
          msg ← put8 msg 0;
          msg ← put8 msg 4;
          msg ← append msg utf_new_path utf_new_len;
          '(_, s, _) ← smb_session_send_msg s msg;
          simple_answer s smb_file_mv_resp
      end.

(** * smb_dir.c *)

Definition smb_directory_rm s (tid : Z) (path : bytes) : io (Z * smb_session T) :=
  path_command SMB_CMD_RMDIR [("tid", u16 tid)] smb_directory_rm_req
    (fun n => [("wct", 0); ("bct", u16 (n + 1)); ("buffer_format", 4)])
    smb_directory_rm_resp s path.

Definition smb_directory_create s (tid : Z) (path : bytes) : io (Z * smb_session T) :=
  path_command SMB_CMD_MKDIR [("tid", u16 tid)] smb_directory_mk_req
    (fun n => [("wct", 0); ("bct", u16 (n + 1)); ("buffer_format", 4)])
    smb_directory_mk_resp s path.

End Ops.
(** * Requests on the wire *)

(** SMB_COM_READ_ANDX and SMB_COM_WRITE_ANDX: the parameters as bytes. *)
Definition read_body (fid offset count : Z) : bytes :=
  [12; 0xff; 0; 0; 0] ++ le_bytes 2 fid ++ le_bytes 4 offset ++ le_bytes 2 count ++ le_bytes 2 count
  ++ replicate 6 0 ++ le_bytes 4 (offset `div` 4294967296) ++ [0; 0].

Definition write_body (fid offset count : Z) : bytes :=
  [14; 0xff; 0; 0; 0] ++ le_bytes 2 fid ++ le_bytes 4 offset ++ replicate 4 0 ++ [1; 0; 0; 0; 0; 0]
  ++ le_bytes 2 count ++ [64; 0] ++ le_bytes 4 (offset `div` 4294967296) ++ le_bytes 2 count ++ [0].

Lemma le_bytes_mod n z : le_bytes n (z `mod` 256 ^ Z.of_nat n) = le_bytes n z.
Proof.
  revert z. induction n as [|n IH]; intros z; [done|]. cbn [le_bytes].
  rewrite Nat2Z.inj_succ, Z.pow_succ_r by lia. set (M := 256 ^ Z.of_nat n).
  assert (HM : 0 < M) by (unfold M; lia). rewrite Z.rem_mul_r by lia.
  rewrite Z.mul_comm, Z.mod_add, Z.mod_mod, Z.div_add by lia.
  rewrite (Z.div_small (z `mod` 256)) by (apply Z.mod_pos_bound; lia). rewrite Z.add_0_l.
  f_equal. apply IH.
Qed.

Lemma le_bytes_low32 z : le_bytes 4 (Z.land z 0xffffffff) = le_bytes 4 z.
Proof. change 0xffffffff with (Z.ones 32). rewrite Z.land_ones by lia. exact (le_bytes_mod 4 z). Qed.

Lemma read_body_ok fid o n : bytes_ok (read_body fid o n).
Proof. unfold read_body. repeat apply bytes_ok_app; auto with dsm; by repeat constructor. Qed.

Lemma write_body_ok fid o n : bytes_ok (write_body fid o n).
Proof. unfold write_body. repeat apply bytes_ok_app; auto with dsm; by repeat constructor. Qed.

Lemma read_fields_body f n :
  exists req0, init_pkt_andx smb_read_req = Some req0
    /\ set_fields smb_read_req req0 0 (read_fields f n) = Some (read_body (f_fid f) (f_offset f) n).
Proof.
  eexists. split; [reflexivity|]. unfold read_body. rewrite <- (le_bytes_low32 (_ `div` _)).
  rewrite <- (Z.shiftr_div_pow2 _ 32) by lia. reflexivity.
Qed.

Lemma write_fields_body f n :
  exists req0, init_pkt_andx smb_write_req = Some req0
    /\ set_fields smb_write_req req0 0 (write_fields f n) = Some (write_body (f_fid f) (f_offset f) n).
Proof.
  eexists. split; [reflexivity|]. unfold write_body. rewrite <- (le_bytes_low32 (_ `div` _)).
  rewrite <- (le_bytes_low32 (f_offset f)).
  rewrite <- (Z.shiftr_div_pow2 _ 32) by lia. reflexivity.
Qed.

(** * Reading and writing *)

Section Transfers.
Context {T : Type} (tr : smb_transport T) `{!TransportLaws tr}.
Implicit Types s : smb_session T.

(** The open file behind a descriptor. *)
Definition opened s (fd file : Z) (f : smb_file) : Prop :=
  smb_session_file_get (fds s) fd = Done file /\ file <> 0 /\ file_heap (fds s) !! file = Some f
  /\ 0 <= f_offset f < 9223372036854710272.

(** The position moves, nothing else. *)
Definition moved_to s (file : Z) (f : smb_file) (o : Z) s' : Prop :=
  fds s' = set_file (fds s) file (file_set_offset f o).

Lemma fseek_cur s s1 fd file f n :
  opened s fd file f -> fds s1 = fds s -> 0 <= n < 65536 ->
  exists s', smb_fseek s1 fd n SMB_SEEK_CUR = Done (f_offset f + n, s')
    /\ moved_to s file f (f_offset f + n) s' /\ transport s' = transport s1 /\ session s' = session s1.
Proof.
  intros (Hg & H0 & Hf & Ho) E Hn. unfold smb_fseek. rewrite E, Hg. cbn [obind].
  rewrite (proj2 (Z.eqb_neq _ _)), Hf by done. cbn [checked obind].
  change (SMB_SEEK_CUR =? SMB_SEEK_SET) with false. change (SMB_SEEK_CUR =? SMB_SEEK_CUR) with true. cbv iota zeta.
  assert (Hr : off_t_range (f_offset f + n) = true) by (unfold off_t_range; lia).
  rewrite Hr. cbn [assert obind]. eexists. split; [reflexivity|]. done.
Qed.

(** What [moved_to] needs of the rest of the session. *)
Lemma ready_transport s s' : ready tr s -> transport s' = transport s -> session s' = session s -> ready tr s'.
Proof. intros (Htr & t & Ht & Hok) E1 E2. split; [by rewrite E1|]. exists t. by rewrite E2. Qed.

(** The header and the structure of a request, then the rest of the code. *)
Lemma request_andx {A} F cmd tid L l req0 req m pid (k : smb_message -> io A) Q w w1 :
  built (lucky w) m (new_header cmd pid 0 0) [] -> later w w1 ->
  init_pkt_andx L = Some req0 -> set_fields L req0 0 l = Some req -> bytes_ok req -> zlen req = sizeof L ->
  sizeof L < 1000 ->
  (forall m' w', later w w' -> built (lucky w) m' (new_header cmd pid tid 0) req -> wpf F (k m') Q w') ->
  wpf F (m ← set_header m [("tid", tid)]; m ← put_pkt_andx m L l; k m) Q w1.
Proof.
  intros Hm L1 H0 Hr Hb Hl Hsm Hk. apply wp_bind.
  eapply wp_mono; [eapply (set_header_built _ _ _ (new_header cmd pid tid 0)); [exact Hm|reflexivity..]|].
  intros m1 w2 [-> Hm1]. apply wp_bind. eapply wp_mono.
  { eapply (put_pkt_andx_built w); [exact Hm1|exact L1|exact H0|exact Hr|done|done|]. change (zlen []) with 0. lia. }
  intros m2 w2 [L2 Hm2]. apply Hk; [by eapply later_trans|exact Hm2].
Qed.

(** The answer, then the rest of the code, which sees unchanged tables. *)
Lemma answer_step {A} F s (k : Z + smb_message -> smb_session T -> io A) Q w :
  ready tr s -> bytes_ok (w_rx w) ->
  (forall e s' w', e < 0 -> fds s' = fds s -> wpf F (k (inl e) s') Q w') ->
  (forall m p s' w', ready tr s' -> fds s' = fds s -> srv s' = srv s -> onward w w' -> w_tx w' = w_tx w -> bytes_ok (w_rx w') -> received m p ->
     field smb_header p 0 "status" = Some 0 -> wpf F (k (inr m) s') Q w') ->
  wpf F ('(a, s) ← receive_answer s; k a s) Q w.
Proof.
  intros Hs Hx He Hk. pose proof Hs as [Htr _]. apply wp_bind.
  eapply wp_mono; [apply (wp_within _ onward); [by apply (receive_answer_onward tr)|by apply receive_answer_ok]|].
  intros [a s1] w1 [(Htx & Hx1 & Ha) Ho]. cbn beta iota. destruct a as [e|m].
  - apply He; destruct Ha as [(-> & [t ->])|(-> & _ & t & st & _ & ->)]; done.
  - destruct Ha as (Hmv & Hs1 & p & Hp & Hst). destruct (moved_same _ _ Hmv) as (Hfds & Hsrv & _). by eapply Hk.
Qed.

(** The outcome of the copy out of an answer. *)
Definition copied s (file : Z) (f : smb_file) (buf : option bytes) (p : bytes)
    : Z * option bytes * smb_session T -> Prop :=
  fun '(r, buf', s') => 0 <= r /\ ready tr s' /\ moved_to s file f (f_offset f + r) s'
    /\ exists o data, field smb_read_resp p 32 "data_len" = Some r
         /\ field smb_read_resp p 32 "data_offset" = Some o /\ sub p o r = Some data
         /\ buf' = match buf with None => None | Some b => Some (data ++ drop (length data) b) end.

Lemma fread_answer_ok s s1 fd file f buf resp p w :
  ready tr s1 -> opened s fd file f -> fds s1 = fds s -> received resp p ->
  wpf (exists b, buf = Some b /\ zlen b < 65535) (fread_answer s1 fd buf resp)
    (fun '(r, buf', s') w' => w' = w /\ ((r < 0 /\ buf' = buf /\ fds s' = fds s)
       \/ copied s file f buf p (r, buf', s'))) w.
Proof.
  intros Hs Hf Hfds (Hresp & Hpos & Hl & Hb). unfold fread_answer.
  destruct (Z.ltb_spec (payload_size resp) (sizeof smb_read_resp)); [apply wp_ret; split; auto; by left|].
  change (sizeof smb_read_resp) with 27 in *.
  apply wp_bind, (wp_access _ _ p); [by rewrite Hresp|].
  destruct (field_read smb_read_resp p 32 "data_offset" 13 2) as (o & Eo & Ho'); [done|done|lia..|].
  destruct (field_read smb_read_resp p 32 "data_len" 11 2) as (dl & Edl & Hdl); [done|done|lia..|].
  change (256 ^ 2) with 65536 in *.
  apply wp_bind, (wp_access _ _ _ _ _ Eo), wp_bind, (wp_access _ _ _ _ _ Edl).
  destruct (Z.ltb_spec (32 + payload_size resp) (o + dl)); [apply wp_ret; split; auto; by left|].
  destruct (proj2 (sub_is_Some p o dl)) as [data Hdata]; [lia|].
  pose proof (length_sub _ _ _ _ Hdata) as Hdlen.
  destruct (fseek_cur s s1 fd file f dl Hf Hfds ltac:(lia)) as (s3 & Eseek & Hmt & Htr3 & Hse3).
  apply wp_bind, (wpf_mono (exists b, buf = Some b /\ zlen b < 65535) _ _ (fun buf' w' => w' = w
    /\ buf' = match buf with None => None | Some b => Some (data ++ drop (length data) b) end)); [|done|].
  - destruct buf as [b|]; [|by apply wp_ret]. apply wp_bind, (wp_access _ _ _ _ _ Hdata), wp_bind.
    destruct (Z.le_gt_cases dl (zlen b)).
    + eapply wp_access; [rewrite put_Some; [reflexivity|lia|lia]|]. by apply wp_ret.
    + unfold wpf, access, lift. destruct (put b 0 data) as [b'|] eqn:E; [|cbn; exists b; split; [done|lia]].
      apply put_inv in E. lia.
  - intros buf' w' [-> ->]. apply wp_bind, (wp_lift _ _ _ _ _ Eseek), wp_ret. split; [done|]. right.
    split; [lia|]. split; [by eapply ready_transport|]. split; [done|]. by exists o, data.
Qed.

Lemma fread_run s fd file f buf buf_size w :
  ready tr s -> opened s fd file f -> 0 <= buf_size -> bytes_ok (w_rx w) ->
  wpf (exists b, buf = Some b /\ zlen b < 65535) (smb_fread s fd buf buf_size)
    (fun '(r, buf', s') w' =>
      (r < 0 /\ buf' = buf /\ fds s' = fds s)
      \/ (requested (lucky w) SMB_CMD_READ (f_tid f) (uid (srv s))
            (read_body (f_fid f) (f_offset f) (Z.min 65535 buf_size)) w w'
         /\ exists p, field smb_header p 0 "status" = Some 0 /\ copied s file f buf p (r, buf', s'))) w.
Proof.
  intros Hs Hf Hbs Hx. unfold smb_fread. pose proof Hf as (Hg & H0 & Hh & Ho).
  apply wp_bind, (wp_lift _ _ _ _ _ Hg). rewrite (proj2 (Z.eqb_neq _ _)) by done.
  apply wp_bind. eapply wp_mono; [apply new_built|]. intros [m|] w1 [L1 Hm]; [|apply wp_ret; left; split_and!; auto; lia].
  destruct Hm as [pid Hm]. apply wp_bind, (wp_access _ _ _ _ _ Hh). cbv zeta.
  set (n := if 65535 <? buf_size then 65535 else buf_size).
  assert (Hn : n = Z.min 65535 buf_size) by (unfold n; destruct (Z.ltb_spec 65535 buf_size); lia).
  destruct (read_fields_body f n) as (req0 & Hr0 & Hr).
  eapply request_andx; [exact Hm|exact L1|exact Hr0|exact Hr|apply read_body_ok|done|done|].
  intros m2 w2 L2 Hm2. destruct (later_world _ _ L2) as [Htx2 Hrx2].
  apply wp_bind. eapply wp_mono; [eapply send_small_ok; [exact Hs|by rewrite Hrx2|exact Hm2|done]|].
  intros [[r s1] m3] w3 (Hx3 & Hmv & Hs1 & Hr01 & Hreq & _). cbn beta iota.
  destruct (moved_same _ _ Hmv) as (Hfds & _). destruct (Z.eqb_spec r 0); [apply wp_ret; left; split_and!; auto; lia|].
  apply answer_step; [done|done| |].
  - intros e s2 w4 He Hfds2. apply wp_ret. left. split_and!; auto; [lia|congruence].
  - intros resp p s2 w4 Hs2 Hfds2 Hsrv2 Ho2 Htx4 Hx4 Hp Hst.
    eapply wpf_mono; [eapply fread_answer_ok; [exact Hs2|exact Hf|congruence|exact Hp]|done|].
    intros [[r' buf'] s'] w' [-> [H|H]]; [by left|right]. rewrite <- Hn. split; [|by exists p].
    eapply requested_frame; [by apply Hreq|done|done].
Qed.


Lemma write_size_min n : 0 <= n -> write_size n = Z.min 65471 n.
Proof.
  intros Hn. unfold write_size. change (65535 - _ - _) with 65471.
  destruct (Z.ltb_spec 65471 n); [lia|]. rewrite u16_small by lia. lia.
Qed.

Lemma fwrite_answer_ok s s1 fd file f resp p w :
  ready tr s1 -> opened s fd file f -> fds s1 = fds s -> received resp p ->
  wp (fwrite_answer s1 fd resp) (fun '(r, s') w' => w' = w /\ ((r < 0 /\ fds s' = fds s)
    \/ (0 <= r /\ field smb_write_resp p 32 "data_len" = Some r
       /\ ready tr s' /\ moved_to s file f (f_offset f + r) s'))) w.
Proof.
  intros Hs Hf Hfds (Hresp & Hpos & Hl & Hb). unfold fwrite_answer.
  destruct (Z.ltb_spec (payload_size resp) (sizeof smb_write_resp)); [apply wp_ret; split; auto; by left|].
  change (sizeof smb_write_resp) with 15 in *.
  apply wp_bind, (wp_access _ _ p); [by rewrite Hresp|].
  destruct (field_read smb_write_resp p 32 "data_len" 5 2) as (dl & Edl & Hdl); [done|done|lia..|].
  change (256 ^ 2) with 65536 in *. apply wp_bind, (wp_access _ _ _ _ _ Edl).
  destruct (fseek_cur s s1 fd file f dl Hf Hfds ltac:(lia)) as (s3 & Eseek & Hmt & Htr3 & Hse3).
  apply wp_bind, (wp_lift _ _ _ _ _ Eseek), wp_ret. split; [done|]. right.
  split; [lia|]. split; [done|]. split; [by eapply ready_transport|done].
Qed.

Lemma fwrite_run s t fd file f buf w :
  transport s = Some tr -> session s = Some t -> tr_ok t ->
  (forall n, 32 <= n <= 64 + Z.min 65471 (zlen buf) -> tr_room t n) ->
  opened s fd file f -> bytes_ok buf -> bytes_ok (w_rx w) ->
  wp (smb_fwrite s fd buf (zlen buf))
    (fun '(r, s') w' =>
      (r < 0 /\ fds s' = fds s)
      \/ (0 <= r /\ ready tr s' /\ moved_to s file f (f_offset f + r) s'
         /\ (let n := Z.min 65471 (zlen buf) in
             requested (lucky w) SMB_CMD_WRITE (f_tid f) (uid (srv s))
               (write_body (f_fid f) (f_offset f) n ++ take (Z.to_nat n) buf) w w')
         /\ exists p, field smb_header p 0 "status" = Some 0
              /\ field smb_write_resp p 32 "data_len" = Some r)) w.
Proof.
  intros Htr Ht Hok Hroom Hf Hbuf Hx. unfold smb_fwrite. pose proof Hf as (Hg & H0 & Hh & Ho).
  apply wp_bind, (wp_lift _ _ _ _ _ Hg). rewrite (proj2 (Z.eqb_neq _ _)) by done.
  apply wp_bind. eapply wp_mono; [apply new_built|]. intros [m|] w1 [L1 Hm]; [|apply wp_ret; by left].
  destruct Hm as [pid Hm]. apply wp_bind, (wp_access _ _ _ _ _ Hh). cbv zeta.
  assert (Hz : 0 <= zlen buf) by (unfold zlen; lia). rewrite (write_size_min _ Hz).
  set (n := Z.min 65471 (zlen buf)).
  assert (Hn : 0 <= n <= 65471 /\ n <= zlen buf) by (unfold n; lia). destruct (write_fields_body f n) as (req0 & Hr0 & Hr).
  eapply request_andx; [exact Hm|exact L1|exact Hr0|exact Hr|apply write_body_ok|done|done|].
  intros m2 w2 L2 Hm2.
  assert (Hsub : sub buf 0 n = Some (take (Z.to_nat n) buf)) by (apply sub_Some; lia).
  apply wp_bind. eapply wp_mono.
  { eapply append_built; [exact Hm2|exact L2|exact Hsub|by apply bytes_ok_take|].
    assert (E : zlen (write_body (f_fid f) (f_offset f) n) = 32) by done. lia. }
  intros m3 w3 [L3 Hm3]. destruct (later_world _ _ (later_trans _ _ _ L2 L3)) as [Htx3 Hrx3].
  pose proof (length_sub _ _ _ _ Hsub) as Hlt.
  assert (Hlen : zlen (write_body (f_fid f) (f_offset f) n ++ take (Z.to_nat n) buf) = 32 + n).
  { unfold zlen in Hlt |- *. rewrite length_app. change (length (write_body _ _ _)) with 32%nat. lia. }
  apply wp_bind. eapply wp_mono.
  { eapply send_msg_ok; [exact Htr|exact Ht|exact Hok|by rewrite Hrx3|exact Hm3|lia|]. intros k Hk. apply Hroom. lia. }
  intros [[r s1] m4] w4 (Hx4 & Hmv & Hr01 & Hs1 & Hreq & _). cbn beta iota.
  destruct (moved_same _ _ Hmv) as (Hfds & _). destruct (Z.eqb_spec r 0) as [->|Hne]; [apply wp_ret; by left|].
  apply answer_step; [by auto|done| |].
  - intros e s2 w5 He Hfds2. apply wp_ret. left. split_and!; auto; [lia|congruence].
  - intros resp p s2 w5 Hs2 Hfds2 Hsrv2 Ho2 Htx5 Hx5 Hp Hst.
    eapply wp_mono; [eapply fwrite_answer_ok; [exact Hs2|exact Hf|congruence|exact Hp]|].
    intros [r' s'] w' [-> [H|(? & ? & ? & ?)]]; [by left|right]. split_and!; auto; [|by exists p].
    eapply requested_frame; [by apply Hreq|done|done].
Qed.


End Transfers.
(** * Opening *)

(** SMB_COM_NT_CREATE_ANDX: the parameters and the data. *)
Definition create_body (o_flags : Z) (utf_path : bytes) : bytes :=
  let rw := Z.land o_flags SMB_MOD_RW =? SMB_MOD_RW in
  [24; 0xff; 0; 0; 0; 0] ++ le_bytes 2 (zlen utf_path) ++ replicate 8 0 ++ le_bytes 4 o_flags
  ++ replicate 12 0 ++ [3; 0; 0; 0] ++ (if rw then [0; 0; 0; 0; 2; 0; 0; 0] else [1; 0; 0; 0; 0; 0; 0; 0])
  ++ [2; 0; 0; 0; 0] ++ le_bytes 2 (zlen utf_path + 1) ++ [0] ++ utf_path.

(** The structure without the alignment byte and the path. *)
Definition create_params (o_flags n : Z) : bytes :=
  let rw := Z.land o_flags SMB_MOD_RW =? SMB_MOD_RW in
  [24; 0xff; 0; 0; 0; 0] ++ le_bytes 2 n ++ replicate 8 0 ++ le_bytes 4 o_flags
  ++ replicate 12 0 ++ [3; 0; 0; 0] ++ (if rw then [0; 0; 0; 0; 2; 0; 0; 0] else [1; 0; 0; 0; 0; 0; 0; 0])
  ++ [2; 0; 0; 0; 0] ++ le_bytes 2 (n + 1).

Lemma create_body_params o_flags utf :
  (create_params o_flags (zlen utf) ++ le_bytes 1 0) ++ utf = create_body o_flags utf.
Proof. unfold create_body, create_params. cbv zeta. by rewrite <- !app_assoc. Qed.

Lemma create_params_ok o_flags n : bytes_ok (create_params o_flags n) /\ zlen (create_params o_flags n) = 51.
Proof.
  unfold create_params. split; [|by destruct (_ =? _)].
  repeat apply bytes_ok_app; auto with dsm; try (by repeat constructor).
  destruct (_ =? _); by repeat constructor.
Qed.

Lemma create_fields_body o_flags n :
  exists req0, init_pkt_andx smb_create_req = Some req0
    /\ set_fields smb_create_req req0 0 (create_fields o_flags n) = Some (create_params o_flags n).
Proof.
  eexists. split; [reflexivity|]. unfold create_fields, create_params. cbv zeta.
  destruct (Z.land o_flags SMB_MOD_RW =? SMB_MOD_RW); reflexivity.
Qed.

Lemma fresh_ptr_spec h : fresh_ptr h <> 0 /\ h !! fresh_ptr h = None.
Proof.
  pose proof (is_fresh ({[0]} ∪ dom h : gset Z)) as H. fold (fresh_ptr h) in H.
  rewrite elem_of_union, elem_of_singleton in H. split; [tauto|]. apply not_elem_of_dom. tauto.
Qed.

Lemma elem_of_file_ptrs TT p : p ∈ file_ptrs TT <-> exists e, e ∈ TT /\ p ∈ map snd (e_files e).
Proof.
  unfold file_ptrs. rewrite list_elem_of_In, List.in_concat. split.
  - intros (l & (e & <- & He)%in_map_iff & Hp). exists e. by rewrite !list_elem_of_In.
  - intros (e & He & Hp). exists (map snd (e_files e)). rewrite list_elem_of_In in He. rewrite list_elem_of_In in Hp.
    split; [|done]. by apply (in_map (fun e => map snd (e_files e))).
Qed.

Lemma file_ptrs_present t TT p : represents t TT -> p ∈ file_ptrs TT -> is_Some (file_heap t !! p).
Proof.
  intros (_ & Hok & _) (e & He & Hp)%elem_of_file_ptrs.
  destruct (proj1 (Forall_forall _ _) Hok e He) as (sh & _ & _ & _ & Hf).
  apply (list_elem_of_fmap_1 snd) in Hp as ([i q] & -> & Hq).
  destruct (proj1 (Forall_forall _ _) Hf _ Hq) as (n & Hn & _). by exists n.
Qed.

(** A new node is in no list. *)
Lemma represents_new t TT p n :
  represents t TT -> file_heap t !! p = None -> represents (set_file t p n) TT /\ p ∉ file_ptrs TT.
Proof.
  intros HR Hp. assert (Hni : p ∉ file_ptrs TT).
  { intros Hin. destruct (file_ptrs_present _ _ _ HR Hin) as [x Hx]. congruence. }
  split; [|done]. destruct HR as (Hc & Hok & Hnd). split; [exact Hc|]. split; [|exact Hnd].
  cbn [set_file share_heap file_heap]. apply Forall_forall. intros e He.
  eapply entry_ok_frame; [| |exact (proj1 (Forall_forall _ _) Hok e He)]; [eauto|].
  apply Forall_forall. intros q Hq. apply lookup_insert_ne. intros <-. apply Hni. apply elem_of_file_ptrs. by exists e.
Qed.

Lemma file_of_Some p tid :
  bytes_ok p -> 103 <= zlen p ->
  exists f, file_of p tid = Some f /\ f_next f = 0 /\ f_tid f = tid /\ f_offset f = 0
    /\ 0 <= f_fid f < 65536 /\ field smb_create_resp p 32 "fid" = Some (f_fid f)
    /\ field smb_create_resp p 32 "size" = Some (f_size f).
Proof.
  intros Hb Hl. unfold file_of.
  destruct (field_read smb_create_resp p 32 "fid" 6 2) as (v1 & -> & H1); [done|done|lia..|].
  destruct (field_read smb_create_resp p 32 "created" 12 8) as (v2 & -> & _); [done|done|lia..|].
  destruct (field_read smb_create_resp p 32 "accessed" 20 8) as (v3 & -> & _); [done|done|lia..|].
  destruct (field_read smb_create_resp p 32 "written" 28 8) as (v4 & -> & _); [done|done|lia..|].
  destruct (field_read smb_create_resp p 32 "changed" 36 8) as (v5 & -> & _); [done|done|lia..|].
  destruct (field_read smb_create_resp p 32 "alloc_size" 48 8) as (v6 & -> & _); [done|done|lia..|].
  destruct (field_read smb_create_resp p 32 "size" 56 8) as (v7 & -> & _); [done|done|lia..|].
  destruct (field_read smb_create_resp p 32 "attr" 44 4) as (v8 & -> & _); [done|done|lia..|].
  destruct (field_read smb_create_resp p 32 "is_dir" 68 1) as (v9 & -> & _); [done|done|lia..|].
  eexists. split; [reflexivity|]. done.
Qed.

Section Opening.
Context {T : Type} (tr : smb_transport T) `{!TransportLaws tr} `{Iconv} `{!IconvLaws}.
Implicit Types s : smb_session T.

(** The outcome of an open that succeeded with the answer [p]: the new file is
    in the share's list, at position 0; the descriptor finds it unless the
    server gave an identifier that is in use, or 0 on tree 0. *)
Definition file_opened s (TT : list entry) (tid : Z) (p : bytes) (fd : option Z) s' : Prop :=
  exists e f ptr, find_share TT tid = Some e /\ file_of p tid = Some f
    /\ fd = Some (SMB_FD tid (f_fid f))
    /\ represents (fds s') (on_share tid (fun e => [add_file (f_fid f) ptr e]) TT)
    /\ (find_file e (f_fid f) = 0 -> SMB_FD tid (f_fid f) <> 0 -> opened s' (SMB_FD tid (f_fid f)) ptr f).

Lemma fopen_answer_ok s s1 TT tid e resp p w :
  ready tr s1 -> represents (fds s) TT -> fds s1 = fds s -> find_share TT tid = Some e -> received resp p ->
  0 <= tid < 65536 ->
  wp (fopen_answer s1 tid resp) (fun '(r, fd, s') w' => later w w' /\ ((r < 0 /\ fd = None /\ fds s' = fds s)
    \/ (r = 0 /\ ready tr s' /\ srv s' = srv s1 /\ file_opened s TT tid p fd s'))) w.
Proof.
  intros Hs HR Hfds He (Hresp & Hpos & Hl & Hb) Ht. unfold fopen_answer.
  destruct (Z.ltb_spec (payload_size resp) (sizeof smb_create_resp)); [apply wp_ret; split; [auto with dsm|by left]|].
  change (sizeof smb_create_resp) with 71 in *.
  apply wp_bind, (wp_access _ _ p); [by rewrite Hresp|].
  apply wp_bind, wp_flip. intros ok. destruct ok; cbn [negb]; [|apply wp_ret; split; [by exists 1%nat|by left]].
  destruct (file_of_Some p tid Hb) as (f & Ef & Hn & Htid & Ho & Hfid & _); [lia|].
  apply wp_bind, (wp_access _ _ _ _ _ Ef). cbv zeta. rewrite Hfds.
  set (ptr := fresh_ptr _). destruct (fresh_ptr_spec (file_heap (fds s))) as [Hp0 Hpn].
  destruct (represents_new _ _ _ f HR Hpn) as [HR1 Hni].
  destruct (file_add_spec _ _ tid e ptr f HR1 He) as (t' & Ea & HR' & Hlk); auto.
  { cbn. apply lookup_insert_eq. }
  apply wp_bind, (wp_lift _ _ _ _ _ Ea), wp_ret. split; [by exists 1%nat|]. right. split; [done|].
  split; [by eapply ready_transport|]. split; [done|]. exists e, f, ptr. split_and!; auto. intros Hnew Hne.
  split; [|by rewrite Ho]. cbn [fds set_fds]. rewrite (file_get_spec _ _ _ HR') by done.
  destruct (SMB_FD_fields _ _ Ht Hfid) as [-> ->]. rewrite find_share_on, He, Z.eqb_refl by done.
  cbn [hd_error]. rewrite find_file_add by eauto using find_share_files_nonzero.
  by rewrite Hnew, !Z.eqb_refl.
Qed.

(** The request of an open, then the rest of the code. *)
Lemma fopen_request {A} F tid o_flags pl b utf m pid (k : smb_message -> io A) Q w w1 :
  built (lucky w) m (new_header SMB_CMD_CREATE pid 0 0) [] -> later w w1 ->
  sub b 0 pl = Some utf -> bytes_ok utf -> pl < 4611686018427387000 ->
  (forall m' w', later w w' -> built (lucky w) m' (new_header SMB_CMD_CREATE pid tid 0) (create_body o_flags utf) ->
     wpf F (k m') Q w') ->
  wpf F (m ← set_header m [("tid", tid)];
         m ← put_pkt_andx m smb_create_req (create_fields o_flags pl);
         m ← put8 m 0; m ← append m (Some b) pl; k m) Q w1.
Proof.
  intros Hm L1 Hsub Hutf Hpl Hk. destruct (create_fields_body o_flags pl) as (req0 & Hr0 & Hr).
  destruct (create_params_ok o_flags pl) as [Hcb Hcl].
  eapply request_andx; [exact Hm|exact L1|exact Hr0|exact Hr|done|done|done|]. intros m1 w3 L3 Hm1.
  apply wp_bind. eapply wp_mono; [eapply put8_built; [exact Hm1|exact L3|lia]|]. intros m2 w4 [L4 Hm2].
  apply wp_bind. eapply wp_mono.
  { eapply append_built; [exact Hm2|by eapply later_trans|exact Hsub|done|].
    unfold zlen in *. rewrite length_app. change (length (le_bytes 1 0)) with 1%nat. lia. }
  intros m3 w5 [L5 Hm3]. rewrite <- (length_sub _ _ _ _ Hsub), create_body_params in Hm3.
  apply Hk; [|exact Hm3]. eapply later_trans; [exact L3|]. by eapply later_trans.
Qed.

Lemma create_body_len o_flags utf : zlen (create_body o_flags utf) = 52 + zlen utf.
Proof.
  rewrite <- create_body_params. destruct (create_params_ok o_flags (zlen utf)) as [_ Hl].
  unfold zlen in *. rewrite !length_app. change (length (le_bytes 1 0)) with 1%nat. lia.
Qed.

Lemma fopen_run s TT tid path n o_flags w :
  ready tr s -> represents (fds s) TT -> 0 <= tid < 65536 -> strlen path = Some n ->
  84 + 15 * (n + 1) <= 8188 -> bytes_ok (w_rx w) ->
  wp (smb_fopen s tid path o_flags)
    (fun '(r, fd, s') w' =>
      (r < 0 /\ fd = None /\ fds s' = fds s)
      \/ (r = 0 /\ ready tr s' /\ bytes_ok (w_rx w') /\ srv s' = srv s /\ (lucky w -> lucky w')
         /\ (exists utf, converts Locale UCS2LE path (n + 1) utf
              /\ requested (lucky w) SMB_CMD_CREATE tid (uid (srv s)) (create_body o_flags utf) w w')
         /\ exists p, field smb_header p 0 "status" = Some 0 /\ file_opened s TT tid p fd s')) w.
Proof.
  intros Hs HR Ht Hn Hmax Hx. unfold smb_fopen.
  destruct (strlen_inv _ _ Hn) as (q & rest & Hq & Hnq & _).
  assert (Hlen : 0 <= n + 1 <= zlen path) by (subst; len).
  apply wp_bind, (wp_lift _ _ _ _ _ (share_get_find _ _ tid HR)).
  destruct (find_share TT tid) as [e|] eqn:He; cbn [share_ptr]; [|apply wp_ret; by left].
  destruct (find_share_ptr _ _ _ _ HR He) as (Hp0 & _). rewrite Hp0.
  apply wp_bind, (wp_access _ _ _ _ _ Hn), wp_bind. eapply wp_mono; [by apply to_utf16_wp|].
  intros [pl o] w1 [L1 H1]. cbn beta iota. destruct (Z.eqb_spec pl 0); [apply wp_ret; by left|].
  destruct H1 as [?|(b & utf & -> & Hsub & Hutf & Hpl & Hconv)]; [done|].
  apply wp_bind. eapply wp_mono; [apply new_built|]. intros [m|] w2 [L2 Hm]; [|apply wp_ret; by left].
  destruct Hm as [pid Hm]. eapply fopen_request; [exact Hm|exact L2|exact Hsub|done|lia|]. intros m3 w5 L5 Hm3.
  destruct (later_world _ _ (later_trans _ _ _ L1 L5)) as [Htx5 Hrx5].
  pose proof Hs as [Htr _]. apply wp_bind. eapply wp_mono.
  { apply (wp_within _ onward); [by apply (send_msg_onward tr)|].
    eapply send_small_ok; [exact Hs|by rewrite Hrx5|exact Hm3|]. rewrite create_body_len, (length_sub _ _ _ _ Hsub). lia. }
  intros [[r s1] m4] w6 [(Hx6 & Hmv & Hs1 & Hr01 & Hreq & _) Ho]. cbn beta iota.
  destruct (moved_same _ _ Hmv) as (Hfds & Hsrv & _). destruct (Z.eqb_spec r 0); [apply wp_ret; by left|].
  apply (answer_step tr); [done|done| |].
  - intros e' s2 w7 He' Hfds2. apply wp_ret. left. split_and!; auto. congruence.
  - intros resp p s2 w7 Hs2 Hfds2 Hsrv2 Ho2 Htx7 Hx7 Hp Hst.
    eapply wp_mono; [eapply fopen_answer_ok; [exact Hs2|exact HR|congruence|exact He|exact Hp|done]|].
    intros [[r' fd] s'] w' [L7 [Hbad|(-> & Hs' & Hsrv' & Hop)]]; [by left|right]. split; [done|]. split; [done|].
    split; [by destruct (later_world _ _ L7) as [_ ->]|]. split; [congruence|].
    split; [intros Hw; by apply (later_lucky _ _ L7), (onward_lucky _ _ Ho2), (onward_lucky _ _ Ho), (later_lucky _ _ (later_trans _ _ _ L1 L5))|].
    split; [|by exists p]. exists utf. split; [done|]. destruct (later_world _ _ L7) as [Htx' _].
    eapply (requested_frame _ _ _ _ _ w5 w6); [|exact Htx5|by rewrite Htx', Htx7].
    eapply requested_mono; [by apply Hreq|]. intros Hlw. by eapply later_lucky.
Qed.


End Opening.

(** * Commands on paths *)

(** SMB_COM_DELETE, SMB_COM_DELETE_DIRECTORY or SMB_COM_CREATE_DIRECTORY, and
    SMB_COM_RENAME: parameters (hidden and system files are included) and data. *)
Definition rm_body (utf : bytes) : bytes := [1; 6; 0] ++ le_bytes 2 (zlen utf + 1) ++ [4] ++ utf.
Definition dir_body (utf : bytes) : bytes := [0] ++ le_bytes 2 (zlen utf + 1) ++ [4] ++ utf.
Definition mv_body (utf_old utf_new : bytes) : bytes :=
  [1; 6; 0] ++ le_bytes 2 (zlen utf_old + zlen utf_new + 3) ++ [4] ++ utf_old ++ [0; 4] ++ utf_new.

Lemma le_bytes_u16 z : le_bytes 2 (u16 z) = le_bytes 2 z.
Proof. exact (le_bytes_mod 2 z). Qed.

Section Paths.
Context {T : Type} (tr : smb_transport T) `{!TransportLaws tr} `{Iconv} `{!IconvLaws}.
Implicit Types s : smb_session T.

(** The outcome of a command: the tables are untouched, nothing but (the start
    of) the request is on the wire, and success is confirmed by an answer
    without an error, parameters or data. *)
Definition confirmed s (cmd tid : Z) (e : bytes) (w : world) : Z * smb_session T -> world -> Prop :=
  fun '(r, s') w' => fds s' = fds s /\ attempted (lucky w) cmd tid (uid (srv s)) e w w'
    /\ (r < 0 \/ r = 0 /\ ready tr s' /\ exists p, field smb_header p 0 "status" = Some 0
         /\ field smb_simple_struct p 32 "wct" = Some 0 /\ field smb_simple_struct p 32 "bct" = Some 0).

(** The answer of a command: an error, or an answer without parameters and
    data. *)
Lemma simple_answer_ok s w :
  ready tr s -> bytes_ok (w_rx w) ->
  wp (simple_answer s smb_simple_struct) (fun '(r, s') w' => fds s' = fds s /\ w_tx w' = w_tx w
    /\ (r < 0 \/ r = 0 /\ ready tr s' /\ exists p, field smb_header p 0 "status" = Some 0
         /\ field smb_simple_struct p 32 "wct" = Some 0 /\ field smb_simple_struct p 32 "bct" = Some 0)) w.
Proof.
  intros Hs Hx. apply wp_bind. eapply wp_mono; [by apply receive_answer_ok|].
  intros [a s2] w2 (Htx2 & Hx2 & Ha). cbn beta iota. destruct a as [err|resp].
  { apply wp_ret. destruct Ha as [(-> & [t ->])|(-> & _ & t & st & _ & ->)]; (split_and!; auto; by left). }
  destruct Ha as (Hmv2 & Hs2 & p & (Hresp & Hpos & Hl & Hb) & Hst). destruct (moved_same _ _ Hmv2) as (Hfds2 & _).
  destruct (Z.ltb_spec (payload_size resp) (sizeof smb_simple_struct)); [apply wp_ret; split_and!; auto; by left|].
  change (sizeof smb_simple_struct) with 3 in *. apply wp_bind, (wp_access _ _ p); [by rewrite Hresp|].
  destruct (field_read smb_simple_struct p 32 "wct" 0 1) as (v1 & E1 & _); [done|done|lia..|].
  destruct (field_read smb_simple_struct p 32 "bct" 1 2) as (v2 & E2 & _); [done|done|lia..|].
  apply wp_bind, (wp_access _ _ _ _ _ E1), wp_bind, (wp_access _ _ _ _ _ E2), wp_ret.
  split_and!; auto. destruct (Z.eqb_spec v1 0) as [->|]; [|by left].
  destruct (Z.eqb_spec v2 0) as [->|]; [|by left]. right. split_and!; auto. by exists p.
Qed.

(** The end of every command. *)
Lemma command_end s m cmd pid tid flags2 e w0 w :
  ready tr s -> bytes_ok (w_rx w) -> later w0 w ->
  built (lucky w0) m (new_header cmd pid tid flags2) e -> 32 + zlen e <= 8188 ->
  wp ('(_, s, _) ← smb_session_send_msg s m; simple_answer s smb_simple_struct)
    (confirmed s cmd tid e w0) w.
Proof.
  intros Hs Hx L Hm Hsm. destruct (later_world _ _ L) as [Htx _].
  apply wp_bind. eapply wp_mono; [by eapply send_small_ok|].
  intros [[r s1] m1] w1 (Hx1 & Hmv & Hs1 & _ & _ & Hatt). cbn beta iota.
  destruct (moved_same _ _ Hmv) as (Hfds & _).
  eapply wp_mono; [by apply simple_answer_ok|]. intros [r' s'] w' (Hfds' & Htx' & Hres).
  split; [congruence|]. split; [|done]. eapply (attempted_frame _ _ _ _ _ _ w w1); eauto.
Qed.

(** Nothing was sent, or the command was. *)
Definition path_outcome s (cmd tid : Z) (body : bytes -> bytes) (path : bytes) (n : Z) (w : world)
    : Z * smb_session T -> world -> Prop :=
  fun '(r, s') w' => (r < 0 /\ s' = s /\ w_tx w' = w_tx w)
    \/ exists utf, converts Locale UCS2LE path n utf /\ confirmed s cmd tid (body utf) w (r, s') w'.

Lemma path_command_ok cmd tid flags2 hd L l params s path n w :
  (forall pid, set_fields smb_header (new_header cmd pid 0 0) 0 hd = Some (new_header cmd pid tid flags2)) ->
  (forall k, set_fields L (init_pkt L) 0 (l k) = Some (params k) /\ bytes_ok (params k)
     /\ zlen (params k) = sizeof L) -> sizeof L <= 6 ->
  ready tr s -> strlen path = Some n -> 38 + 15 * (n + 1) <= 8188 -> bytes_ok (w_rx w) ->
  wp (path_command cmd hd L l smb_simple_struct s path)
    (path_outcome s cmd tid (fun utf => params (zlen utf) ++ utf) path (n + 1) w) w.
Proof.
  intros Hhd Hl HL Hs Hn Hmax Hx. unfold path_command.
  destruct (strlen_inv _ _ Hn) as (q & rest & Hq & Hnq & _).
  assert (Hlen : 0 <= n + 1 <= zlen path) by (subst; len).
  apply wp_bind, (wp_access _ _ _ _ _ Hn), wp_bind. eapply wp_mono; [by apply to_utf16_wp|].
  intros [pl o] w1 [L1 H1]. cbn beta iota. destruct (later_world _ _ L1) as [Htx1 _].
  destruct (Z.eqb_spec pl 0); [apply wp_ret; by left|].
  destruct H1 as [?|(b & utf & -> & Hsub & Hutf & Hpl & Hconv)]; [done|].
  apply wp_bind. eapply wp_mono; [apply new_built|]. intros [m|] w2 [L2 Hm].
  2: { apply wp_ret. left. destruct (later_world _ _ L2). split_and!; auto; [done|congruence]. }
  destruct Hm as [pid Hm]. destruct (Hl pl) as (Hset & Hpb & Hpn). pose proof (length_sub _ _ _ _ Hsub) as Hul.
  apply wp_bind. eapply wp_mono; [eapply set_header_built; [exact Hm|apply Hhd|reflexivity]|].
  intros m1 w3 [-> Hm1]. apply wp_bind. eapply wp_mono.
  { eapply put_pkt_built; [exact Hm1|exact L2|exact Hset|done|done|]. change (zlen []) with 0. lia. }
  intros m2 w4 [L4 Hm2]. pose proof (later_trans _ _ _ L2 L4) as L24. apply wp_bind. eapply wp_mono.
  { eapply append_built; [exact Hm2|exact L24|exact Hsub|done|]. cbn [app]. lia. }
  intros m3 w5 [L5 Hm3]. pose proof (later_trans _ _ _ L24 L5) as L15. destruct (later_world _ _ L15) as [Htx5 Hrx5].
  destruct (later_world _ _ L1) as [_ Hrx1]. cbn [app] in Hm3. rewrite <- Hul in Hm3 at 1.
  eapply wp_mono; [eapply (command_end s m3 cmd pid tid flags2 _ w1 w5); [done|congruence|done|exact Hm3|]|].
  { destruct (Hl (zlen utf)) as (_ & _ & Hpn'). unfold zlen in *. rewrite length_app. lia. }
  intros [r s'] w' (Hfds & Hatt & Hr). right. exists utf. split; [done|]. split; [done|]. split; [|done].
  eapply attempted_frame; [exact Hatt|done|done|]. intros Hw. by eapply later_lucky.
Qed.

Lemma path_commands_run s tid path n w :
  ready tr s -> 0 <= tid < 65536 -> strlen path = Some n -> 38 + 15 * (n + 1) <= 8188 -> bytes_ok (w_rx w) ->
  wp (smb_file_rm s tid path) (path_outcome s SMB_CMD_RMFILE tid rm_body path (n + 1) w) w
  /\ wp (smb_directory_rm s tid path) (path_outcome s SMB_CMD_RMDIR tid dir_body path (n + 1) w) w
  /\ wp (smb_directory_create s tid path) (path_outcome s SMB_CMD_MKDIR tid dir_body path (n + 1) w) w.
Proof.
  intros Hs Ht Hn Hmax Hx.
  assert (Hdir : forall k, bytes_ok ([0] ++ le_bytes 2 k ++ [4])).
  { intros k. repeat apply bytes_ok_app; auto with dsm; by repeat constructor. }
  unfold smb_file_rm, smb_directory_rm, smb_directory_create. rewrite (u16_small tid) by done.
  split; [|split].
  - apply (path_command_ok _ _ 1 _ _ _ (fun k => [1; 6; 0] ++ le_bytes 2 (k + 1) ++ [4])); [done| |done..].
    intros k. split_and!; [rewrite <- le_bytes_u16; done| |done].
    repeat apply bytes_ok_app; auto with dsm; by repeat constructor.
  - apply (path_command_ok _ _ 0 _ _ _ (fun k => [0] ++ le_bytes 2 (k + 1) ++ [4])); [done| |done..].
    intros k. split_and!; [|done|done]. rewrite <- le_bytes_u16. done.
  - apply (path_command_ok _ _ 0 _ _ _ (fun k => [0] ++ le_bytes 2 (k + 1) ++ [4])); [done| |done..].
    intros k. split_and!; [|done|done]. rewrite <- le_bytes_u16. done.
Qed.


(** The request of a rename, then the rest of the code. *)
Lemma mv_request {A} F tid b1 u1 b2 u2 m pid (k : smb_message -> io A) Q w w1 :
  built (lucky w) m (new_header SMB_CMD_MOVE pid 0 0) [] -> later w w1 -> 0 <= tid < 65536 ->
  sub b1 0 (zlen u1) = Some u1 -> bytes_ok u1 -> sub b2 0 (zlen u2) = Some u2 -> bytes_ok u2 ->
  zlen u1 + zlen u2 < 1000000 ->
  (forall m' w', later w w' -> built (lucky w) m' (new_header SMB_CMD_MOVE pid tid 1) (mv_body u1 u2) ->
     wpf F (k m') Q w') ->
  wpf F (m ← set_header m [("tid", u16 tid); ("flags2", SMB_FLAGS2_LONG_NAMES)];
         m ← put_pkt m smb_file_mv_req
               [("wct", 1); ("search_attributes", Z.lor SMB_ATTR_HIDDEN SMB_ATTR_SYS);
                ("bct", u16 (zlen u1 + zlen u2 + 3))];
         m ← put8 m 4; m ← append m (Some b1) (zlen u1); m ← put8 m 0; m ← put8 m 4;
         m ← append m (Some b2) (zlen u2); k m) Q w1.
Proof.
  intros Hm L1 Ht H1 Hb1 H2 Hb2 Hmax Hk. rewrite (u16_small tid) by done.
  assert (Hz : 0 <= zlen u1 /\ 0 <= zlen u2) by (unfold zlen; lia).
  set (hd := [1; 6; 0] ++ le_bytes 2 (zlen u1 + zlen u2 + 3)).
  assert (Hhd : bytes_ok hd /\ zlen hd = 5).
  { split; [|done]. unfold hd. apply bytes_ok_app; auto with dsm; by repeat constructor. }
  apply wp_bind. eapply wp_mono; [eapply (set_header_built _ _ _ (new_header SMB_CMD_MOVE pid tid 1)); [exact Hm|reflexivity..]|].
  intros m1 w2 [-> Hm1]. apply wp_bind. eapply wp_mono.
  { eapply (put_pkt_built w _ _ _ _ _ hd); [exact Hm1|exact L1| |apply Hhd|apply Hhd|done].
    unfold hd. rewrite <- le_bytes_u16. reflexivity. }
  intros m2 w2 [L2 Hm2]. pose proof (later_trans _ _ _ L1 L2) as L12. cbn [app] in Hm2.
  apply wp_bind. eapply wp_mono; [eapply put8_built; [exact Hm2|exact L12|lia]|].
  intros m3 w3 [L3 Hm3]. pose proof (later_trans _ _ _ L12 L3) as L13.
  apply wp_bind. eapply wp_mono; [eapply append_built; [exact Hm3|exact L13|exact H1|exact Hb1|len]|].
  intros m4 w4 [L4 Hm4]. pose proof (later_trans _ _ _ L13 L4) as L14.
  apply wp_bind. eapply wp_mono; [eapply put8_built; [exact Hm4|exact L14|len]|].
  intros m5 w5 [L5 Hm5]. pose proof (later_trans _ _ _ L14 L5) as L15.
  apply wp_bind. eapply wp_mono; [eapply put8_built; [exact Hm5|exact L15|len]|].
  intros m6 w6 [L6 Hm6]. pose proof (later_trans _ _ _ L15 L6) as L16.
  apply wp_bind. eapply wp_mono; [eapply append_built; [exact Hm6|exact L16|exact H2|exact Hb2|len]|].
  intros m7 w7 [L7 Hm7]. apply Hk; [by eapply later_trans|].
  unfold mv_body. revert Hm7. unfold hd. rewrite <- !app_assoc. done.
Qed.

(** Renaming, with any server: like the other commands on paths; the
    request holds both paths in UCS-2, each behind its format byte, the second
    one aligned. *)
Theorem file_mv_correct s tid old_path n1 new_path n2 w :
  ready tr s -> 0 <= tid < 65536 -> strlen old_path = Some n1 -> strlen new_path = Some n2 ->
  40 + 15 * (n1 + n2 + 2) <= 8188 -> bytes_ok (w_rx w) ->
  wp (smb_file_mv s tid old_path new_path) (fun '(r, s') w' =>
    (r < 0 /\ s' = s /\ w_tx w' = w_tx w)
    \/ exists u1 u2, converts Locale UCS2LE old_path (n1 + 1) u1 /\ converts Locale UCS2LE new_path (n2 + 1) u2
       /\ confirmed s SMB_CMD_MOVE tid (mv_body u1 u2) w (r, s') w') w.
Proof.
  intros Hs Ht Hn1 Hn2 Hmax Hx. unfold smb_file_mv.
  assert (Hlen1 : 0 <= n1 + 1 <= zlen old_path) by (destruct (strlen_inv _ _ Hn1) as (q & rest & -> & -> & _); len).
  assert (Hlen2 : 0 <= n2 + 1 <= zlen new_path) by (destruct (strlen_inv _ _ Hn2) as (q & rest & -> & -> & _); len).
  apply wp_bind, (wp_access _ _ _ _ _ Hn1), wp_bind. eapply wp_mono; [by apply to_utf16_wp|].
  intros [l1 o1] w1 [L1 H1]. cbn beta iota. destruct (later_world _ _ L1) as [Htx1 Hrx1].
  destruct (Z.eqb_spec l1 0); [apply wp_ret; by left|].
  destruct H1 as [?|(b1 & u1 & -> & Hsub1 & Hu1 & Hl1 & Hc1)]; [done|].
  apply wp_bind, (wp_access _ _ _ _ _ Hn2), wp_bind. eapply wp_mono; [by apply to_utf16_wp|].
  intros [l2 o2] w2 [L2 H2]. cbn beta iota. destruct (later_world _ _ L2) as [Htx2 Hrx2].
  destruct (Z.eqb_spec l2 0); [apply wp_ret; left; split_and!; auto; [done|congruence]|].
  destruct H2 as [?|(b2 & u2 & -> & Hsub2 & Hu2 & Hl2 & Hc2)]; [done|].
  apply wp_bind. eapply wp_mono; [apply new_built|]. intros [m|] w3 [L3 Hm].
  2: { apply wp_ret. left. destruct (later_world _ _ L3). split_and!; auto; [done|congruence]. }
  destruct Hm as [pid Hm]. pose proof (length_sub _ _ _ _ Hsub1) as E1. pose proof (length_sub _ _ _ _ Hsub2) as E2.
  subst l1 l2. eapply mv_request; [exact Hm|exact L3|done|done|done|done|done|lia|].
  intros m' w4 L4 Hm4. destruct (later_world _ _ L4) as [Htx4 Hrx4].
  eapply wp_mono; [eapply (command_end s m' SMB_CMD_MOVE pid tid 1 _ w2 w4); [done|congruence|done|exact Hm4|]|].
  { unfold mv_body. len. }
  intros [r s'] w' (Hfds & Hatt & Hr). right. exists u1, u2. split_and!; auto. split; [done|]. split; [|done].
  eapply attempted_frame; [exact Hatt|congruence|done|]. intros Hw. eapply later_lucky; [|exact Hw].
  by eapply later_trans.
Qed.

End Paths.
(** * Closing *)

Definition close_body (fid : Z) : bytes := [3] ++ le_bytes 2 fid ++ [0xff; 0xff; 0xff; 0xff; 0; 0].

(** A node that is in no list can be freed. *)
Lemma represents_free t TT p : represents t TT -> p ∉ file_ptrs TT -> represents (free_file t p) TT.
Proof.
  intros (Hc & Hok & Hnd) Hni. split; [exact Hc|]. split; [|exact Hnd].
  cbn [free_file share_heap file_heap]. apply Forall_forall. intros e He.
  eapply entry_ok_frame; [| |exact (proj1 (Forall_forall _ _) Hok e He)]; [eauto|].
  apply Forall_forall. intros q Hq. apply lookup_delete_ne. intros <-. apply Hni, elem_of_file_ptrs. by exists e.
Qed.

(** The list of a share without its first file does not hold it. *)
Lemma removed_not_listed TT tid e i f l :
  NoDup (file_ptrs TT) -> find_share TT tid = Some e -> e_files e = (i, f) :: l ->
  f ∉ file_ptrs (on_share tid (fun e => [Entry (e_tid e) (e_ptr e) (tail (e_files e))]) TT).
Proof.
  intros Hnd E El. destruct (find_share_split _ _ _ E) as (T1 & T2 & -> & _ & _ & ->).
  unfold file_ptrs in *. rewrite map_app, concat_app in *. cbn [map concat app e_files] in *. rewrite El in *.
  cbn [tail map snd] in *. apply NoDup_app in Hnd as (_ & H1 & H2). cbn [app] in H2.
  apply NoDup_cons in H2 as [H2 _]. intros [Hin|Hin]%elem_of_app; [|by apply H2].
  apply (H1 f Hin). apply elem_of_app. left. by left.
Qed.

Section Closing.
Context {T : Type} (tr : smb_transport T) `{!TransportLaws tr}.
Implicit Types s : smb_session T.

(** The request of a close and the wait for its answer: the tables stay. *)
Lemma close_exchange s fd m pid w w1 :
  ready tr s -> bytes_ok (w_rx w) -> later w w1 -> built (lucky w) m (new_header SMB_CMD_CLOSE pid 0 0) [] ->
  wp (m ← set_header m [("tid", SMB_FD_TID fd)];
      m ← put_pkt m smb_close_req
            [("wct", 3); ("fid", SMB_FD_FID fd); ("last_write", 0xffffffff); ("bct", 0)];
      '(_, s, _) ← smb_session_send_msg s m;
      '(_, _, s) ← smb_session_recv_msg s;
      mret s)
    (fun s' w' => fds s' = fds s
      /\ attempted (lucky w) SMB_CMD_CLOSE (SMB_FD_TID fd) (uid (srv s)) (close_body (SMB_FD_FID fd)) w w') w1.
Proof.
  intros Hs Hx L1 Hm. apply wp_bind.
  eapply wp_mono; [eapply (set_header_built _ _ _ (new_header SMB_CMD_CLOSE pid (SMB_FD_TID fd) 0)); [exact Hm|reflexivity..]|].
  intros m1 w2 [-> Hm1]. apply wp_bind. eapply wp_mono.
  { eapply (put_pkt_built w _ _ _ _ _ (close_body (SMB_FD_FID fd))); [exact Hm1|exact L1|reflexivity| |done|done].
    unfold close_body. repeat apply bytes_ok_app; auto with dsm; by repeat constructor. }
  intros m2 w2 [L2 Hm2]. destruct (later_world _ _ (later_trans _ _ _ L1 L2)) as [Htx2 Hrx2].
  apply wp_bind. eapply wp_mono; [eapply send_small_ok; [exact Hs|by rewrite Hrx2|exact Hm2|done]|].
  intros [[r s1] m3] w3 (Hx3 & Hmv & Hs1 & _ & _ & Hatt). cbn beta iota. destruct (moved_same _ _ Hmv) as (Hfds & _).
  apply wp_bind. eapply wp_mono; [by apply recv_msg_ok|].
  intros [[r2 o] s2] w4 (Htx4 & _ & Hmv2 & _). destruct (moved_same _ _ Hmv2) as (Hfds2 & _).
  apply wp_ret. split; [congruence|]. eapply attempted_frame; [exact Hatt|done|done|done].
Qed.

(** [smb_fclose] once the file is out of the table: whatever happens to the
    request, the node is freed. *)
Lemma fclose_run s fd file t w :
  ready tr s -> bytes_ok (w_rx w) -> fd <> 0 -> smb_session_file_remove (fds s) fd = Done (file, t) -> file <> 0 ->
  wp (smb_fclose s fd) (fun s' w' => fds s' = free_file t file
    /\ attempted (lucky w) SMB_CMD_CLOSE (SMB_FD_TID fd) (uid (srv s)) (close_body (SMB_FD_FID fd)) w w') w.
Proof.
  intros Hs Hx Hfd Er H0. unfold smb_fclose. rewrite (proj2 (Z.eqb_neq fd 0)) by done.
  apply wp_bind, (wp_lift _ _ _ _ _ Er). cbv zeta. rewrite (proj2 (Z.eqb_neq file 0)) by done.
  apply wp_bind. eapply wp_mono; [apply new_built|]. intros [m|] w1 [L1 Hm].
  2: { apply wp_ret. split; [done|]. left. by destruct (later_world _ _ L1). }
  destruct Hm as [pid Hm]. assert (Hs' : ready tr (set_fds s t)) by (by eapply ready_transport).
  pose proof (close_exchange (set_fds s t) fd m pid w w1 Hs' Hx L1 Hm) as H.
  unfold wpf, mbind, io_bind in H |- *. destruct (set_header m _ w1) as [[m1 w2]| |]; [|done..]. cbn [obind] in *.
  destruct (put_pkt m1 _ _ w2) as [[m2 w3]| |]; [|done..]. cbn [obind] in *.
  destruct (smb_session_send_msg _ m2 w3) as [[[[r s1] m3] w4]| |]; [|done..]. cbn [obind] in *.
  destruct (smb_session_recv_msg s1 w4) as [[[[r2 o] s2] w5]| |]; [|done..]. cbn [obind] in *.
  unfold mret, io_ret in *. destruct H as [Hf Ha]. split; [|exact Ha]. cbn [fds set_fds]. by rewrite Hf.
Qed.

(** Any descriptor: the tables stay well formed. *)
Lemma fclose_any s TT fd w :
  ready tr s -> represents (fds s) TT -> bytes_ok (w_rx w) ->
  wp (smb_fclose s fd) (fun s' w' => exists TT', represents (fds s') TT') w.
Proof.
  intros Hs HR Hx. destruct (Z.eq_dec fd 0) as [->|Hfd]; [apply wp_ret; by exists TT|].
  destruct (file_remove_any _ _ _ HR Hfd) as (p & t' & T' & E & HR' & Hp).
  destruct (Z.eq_dec p 0) as [->|Hp0].
  - unfold smb_fclose. rewrite (proj2 (Z.eqb_neq fd 0)) by done.
    apply wp_bind, (wp_lift _ _ _ _ _ E). apply wp_ret. by exists T'.
  - eapply wp_mono; [by eapply fclose_run|]. intros s' w' [Hf _]. exists T'. rewrite Hf. by apply represents_free; auto.
Qed.


(** A file that is open but not the first of its share cannot be closed:
    [smb_fclose] returns at once, the file stays in the table with its node,
    and nothing is sent to the server. *)
Theorem fclose_lost s TT fd e i f1 l w :
  represents (fds s) TT -> fd <> 0 -> find_share TT (SMB_FD_TID fd) = Some e ->
  e_files e = (i, f1) :: l -> i <> SMB_FD_FID fd -> Forall (fun '(i, _) => i <> SMB_FD_TID fd) l ->
  exists s', smb_fclose s fd w = Done (s', w) /\ represents (fds s') TT
    /\ smb_session_file_get (fds s') fd = smb_session_file_get (fds s) fd.
Proof.
  intros HR Hfd E El Hi Hl. destruct (file_remove_none _ _ _ _ _ _ _ HR Hfd E El Hi Hl) as (t' & Er & HR' & Hg).
  exists (set_fds s t'). unfold smb_fclose. rewrite (proj2 (Z.eqb_neq fd 0)) by done.
  unfold mbind, io_bind, lift. rewrite Er. done.
Qed.

End Closing.
(** * A session over TCP *)

Definition tcp_session : NetbiosSession.netbios_session :=
  NetbiosSession.Session (NetbiosUtils.AbortCtx 3 4) 0 0 5 NetbiosSession.NETBIOS_SESSION_CONNECTED 8192 0
    (Some (replicate (Z.to_nat 8196) 0)).

Definition some_session : smb_session NetbiosSession.netbios_session :=
  SmbSession false false (SrvInfo (replicate 16 0) 0 0 77 0 0 0 0) false (SmbBuffer.Buffer None 0)
    (Creds None None None) (Some smb_transport_tcp) (Some tcp_session) some_tables 0.

Lemma some_ready : ready smb_transport_tcp some_session.
Proof.
  split; [done|]. exists tcp_session. split; [done|]. split; [|split; [split; done|split; done]].
  exists (replicate (Z.to_nat 8196) 0). split_and!; [done|vm_compute; done..|]. apply Forall_replicate. done.
Qed.

(** A peer that sends these bytes, and a system that works. *)
Definition answering (rx : bytes) : world :=
  World (fun _ => true) (fun _ => 7) (fun _ _ => 90) 0 (replicate 20 (EvReady 70000)) false rx [].

(** The answer to a READ with this data, in its frame. *)
Definition read_reply (data : bytes) : bytes :=
  NetbiosSession.frame 0 0 (magic ++ [0x2e] ++ replicate 27 0
    ++ replicate 11 0 ++ le_bytes 2 (zlen data) ++ le_bytes 2 59 ++ replicate 12 0 ++ data).

Example fread_runs :
  match smb_fread some_session (SMB_FD 5 3) (Some (replicate 8 9)) 8 (answering (read_reply [1; 2; 3; 4; 5])) with
  | Done (r, buf, s', w') => (r, buf, f_offset <$> file_heap (fds s') !! 10, length (w_tx w'))
  | _ => (0, None, None, 0%nat)
  end = (5, Some [1; 2; 3; 4; 5; 9; 9; 9], Some 5, 1%nat).
Proof. vm_compute. reflexivity. Qed.




(** "\a" *)
Definition a_path : bytes := [92; 97; 0].

(** The answer to a CREATE that gives the identifier 9, in its frame. *)
Definition create_reply : bytes :=
  NetbiosSession.frame 0 0 (magic ++ [0xa2] ++ replicate 27 0 ++ replicate 6 0 ++ le_bytes 2 9 ++ replicate 63 0).

Example fopen_runs :
  match smb_fopen some_session 7 a_path SMB_MOD_RO (answering create_reply) with
  | Done (r, fd, s', w') => (r, fd, smb_session_file_get (fds s') (SMB_FD 7 9), length (w_tx w'))
  | _ => (-1, None, Fault, 0%nat)
  end = (0, Some (SMB_FD 7 9), Done (fresh_ptr (file_heap some_tables)), 1%nat).
Proof. vm_compute. reflexivity. Qed.



Lemma file_mv_correct_witness :
  wp (smb_file_mv some_session 7 a_path a_path) (fun '(r, s') w' =>
    (r < 0 /\ s' = some_session /\ w_tx w' = w_tx (answering []))
    \/ exists u1 u2, converts Locale UCS2LE a_path (2 + 1) u1 /\ converts Locale UCS2LE a_path (2 + 1) u2
       /\ confirmed smb_transport_tcp some_session SMB_CMD_MOVE 7 (mv_body u1 u2) (answering []) (r, s') w')
    (answering []).
Proof.
  apply (file_mv_correct smb_transport_tcp some_session 7 a_path 2 a_path 2 (answering []) some_ready);
    [done|reflexivity|reflexivity|done|decided].
Defined.


Lemma fclose_lost_witness :
  exists s', smb_fclose some_session (SMB_FD 5 4) (answering []) = Done (s', answering [])
    /\ represents (fds s') some_entries /\ smb_session_file_get (fds s') (SMB_FD 5 4) = Done 11.
Proof.
  apply (fclose_lost some_session some_entries (SMB_FD 5 4) (Entry 5 1000 [(3, 10); (4, 11)]) 3 10 [(4, 11)]
    (answering []) some_represents); [done|reflexivity|reflexivity|done|by repeat constructor].
Defined.

(** The answer to a command on a path, in its frame. *)
Definition simple_reply : bytes := NetbiosSession.frame 0 0 (magic ++ replicate 28 0 ++ [0; 0; 0]).

(** The commands on paths ignore that the request could not be sent:
    [smb_file_rm] reports success although nothing left the machine, when an
    answer to something else arrives. *)
Theorem file_rm_unsent :
  let w := World (fun _ => true) (fun _ => 7) (fun _ _ => 90) 0 (EvError :: replicate 20 (EvReady 70000)) false
             simple_reply [] in
  exists s' w', smb_file_rm some_session 7 a_path w = Done (DSM_SUCCESS, s', w') /\ w_tx w' = [].
Proof.
  intros w. assert (H : match smb_file_rm some_session 7 a_path w with
    | Done (r, _, w') => (r =? DSM_SUCCESS) && (length (w_tx w') =? 0)%nat
    | _ => false
    end = true) by (vm_compute; reflexivity).
  destruct (smb_file_rm some_session 7 a_path w) as [[[r s'] w']| |]; [|done..].
  apply andb_true_iff in H as [->%Z.eqb_eq H%Nat.eqb_eq]. exists s', w'. split; [done|]. by apply nil_length_inv.
Qed.

End SmbFile.
