(* ===== verification/SmbLogin.v ===== *)
(** Connection, negotiation, login without SPNEGO and logoff:
    src/smb_session.c. *)

From stdpp Require Import strings.
From S2P Require Import Prelude World HmacMd5 Compat NetbiosSession SmbPackets SmbBuffer SmbMessage SmbNtlm SmbFd SmbTransport SmbSession SmbFile.

Module SmbLogin.
Import SmbPackets SmbBuffer SmbUtils SmbMessage SmbTransport SmbSession SmbFile.
Local Open Scope string_scope.
Local Open Scope list_scope.
Local Open Scope Z_scope.

Definition SMB_CMD_NEGOTIATE : Z := 0x72.
Definition SMB_CMD_SETUP : Z := 0x73.
Definition SMB_CMD_LOGOFF : Z := 0x74.
Definition SMB_DEFAULT_BUFSIZE : Z := 8192.
Definition SMB_CREDS_MAXLEN : Z := 128.
Definition SMB_TRANSPORT_TCP : Z := 1.
Definition SMB_TRANSPORT_NBT : Z := 2.
Definition SMB_SESSION_XSEC : Z := 0.
Definition SMB_CAPS_XSEC : Z := 0x80000000.
Definition SMB_SESSION_MAX_BUFFER : Z := 0xffff.
Definition SMB_LM2_BLOB_SIZE : Z := 8.
(** "Unix" and "liBDSM" *)
Definition SMB_OS : bytes := cstr [85; 110; 105; 120].
Definition SMB_LANMAN : bytes := cstr [108; 105; 66; 68; 83; 77].
(** SMB_DIALECTS: "\2Samba" and "\2NT LM 0.12" *)
Definition dialects : list bytes :=
  [cstr [2; 83; 97; 109; 98; 97]; cstr [2; 78; 84; 32; 76; 77; 32; 48; 46; 49; 50]].

(** * Life cycle *)

Definition empty_srv : smb_srv_info := SrvInfo (replicate 16 0) 0 0 0 0 0 0 0.

Definition smb_session_new : io (option (smb_session NetbiosSession.netbios_session)) :=
  ok ← flip;
  if negb ok then mret None
  else
    t ← smb_transport_new_session SMB_DEFAULT_BUFSIZE;
    match t with
    | None => mret None
    | Some t =>
        mret (Some (SmbSession false false empty_srv false (smb_buffer_init None 0) (Creds None None None)
                      None (Some t) (SmbFd.Tables 0 ∅ ∅) 0))
    end.

Definition smb_session_abort (s : smb_session NetbiosSession.netbios_session) : io unit :=
  t ← access (session s); smb_transport_abort_session t.

(** What is left of the session when it is freed: its tables, all of whose
    nodes are freed, and its transport, disconnected. *)
Definition smb_session_destroy {T} (s : smb_session T) : io (SmbFd.tables * T) :=
  t ← lift (SmbFd.smb_session_share_clear (fds s));
  tr ← access (session s);
  mret (t, match transport s with Some table => disconnect table tr | None => tr end).

Section Login.
Context {T : Type} `{Iconv}.
Implicit Types (s : smb_session T) (msg : smb_message).

(** One of the three branches: NULL leaves the credential as it is. *)
Definition set_cred (old : option bytes) (new : option bytes) : io (option bytes) :=
  match new with
  | None => mret old
  | Some str => Compat.strndup str SMB_CREDS_MAXLEN
  end.

Definition smb_session_set_creds s (domain_ login_ password_ : option bytes) : io (smb_session T) :=
  d ← set_cred (domain (creds s)) domain_;
  l ← set_cred (login (creds s)) login_;
  p ← set_cred (password (creds s)) password_;
  mret (set_creds s (Creds d l p)).

Definition smb_session_is_guest s : Z :=
  if negb (logged s) then -1 else if guest s then 1 else 0.

Definition smb_session_server_name s : bytes := srv_name (srv s).

(** [uint32_t & (1 << 31)] as an [int]. *)
Definition smb_session_supports s (what : Z) : Z :=
  if what =? SMB_SESSION_XSEC
  then (if Z.land (caps (srv s)) SMB_CAPS_XSEC =? 0 then 0 else -2147483648)
  else 0.

(** * Negotiation *)

(** [for (i = 0; dialects[i] != NULL; i++) smb_message_append(...)] *)
Fixpoint put_dialects msg (l : list bytes) : io smb_message :=
  match l with
  | [] => mret msg
  | d :: l =>
      n ← access (strlen d);
      msg ← append msg (Some d) (n + 1);
      put_dialects msg l
  end.

Definition negotiate_request msg : io smb_message :=
  msg ← put8 msg 0;
  msg ← put16 msg 0;
  msg ← put_dialects msg dialects;
  store_payload msg 1 (le_bytes 2 (u16 (cursor msg - 3))).

(** The fields of [srv] set from the answer, and the status. *)
Definition negotiate_answer s (answer : smb_message) : io (Z * smb_session T) :=
  if payload_size answer <? sizeof smb_nego_resp then mret (DSM_ERROR_NETWORK, s)
  else
    '(ok, s) ← smb_session_check_nt_status s answer;
    if negb ok then mret (DSM_ERROR_NT, s)
    else
      p ← access (packet answer);
      let nego f := access (field smb_nego_resp p 32 f) in
      wct ← nego "wct";
      if negb (wct =? 0x11) then mret (DSM_ERROR_NETWORK, s)
      else
        d ← nego "dialect_index";
        m ← nego "security_mode";
        c ← nego "caps";
        t ← nego "ts";
        k ← nego "session_key";
        let i := srv s in
        let s := set_srv s (SrvInfo (srv_name i) d m (uid i) k c (challenge i) t) in
        if negb (smb_session_supports s SMB_SESSION_XSEC =? 0) then mret (DSM_SUCCESS, s)
        else
          ch ← nego "challenge";
          mret (DSM_SUCCESS, set_srv s (set_challenge (srv s) ch)).

Definition smb_negotiate s : io (Z * smb_session T) :=
  msg ← smb_message_new SMB_CMD_NEGOTIATE;
  match msg with
  | None => mret (DSM_ERROR_GENERIC, s)
  | Some msg =>
      msg ← negotiate_request msg;
      '(r, s, _) ← smb_session_send_msg s msg;
      if r =? 0 then mret (DSM_ERROR_NETWORK, s)
      else
        '(r, answer, s) ← smb_session_recv_msg s;
        if r =? 0 then mret (DSM_ERROR_NETWORK, s)
        else answer ← access answer; negotiate_answer s answer
  end.

(** * Login *)

(** The fields of [smb_session_req]. *)
Definition setup_fields s (payload : Z) : list (string * Z) :=
  [("wct", 13); ("max_buffer", SMB_SESSION_MAX_BUFFER); ("mpx_count", 16); ("vc_count", 1);
   ("caps", caps (srv s)); ("oem_pass_len", 16 + SMB_LM2_BLOB_SIZE); ("uni_pass_len", 0);
   ("payload_size", payload)].

Definition login_request s (domain_ user password_ : bytes) msg : io smb_message :=
  msg ← advance msg (sizeof smb_session_req);
  user_challenge ← SmbNtlm.smb_ntlm_generate_challenge;
  hash_v2 ← SmbNtlm.smb_ntlm2_hash user password_ domain_;
  ntlm2 ← SmbNtlm.smb_lm2_response hash_v2 (challenge (srv s)) user_challenge;
  msg ← append msg ntlm2 (16 + 8);
  msg ← (if negb (cursor msg `div` 2 =? 0) then put8 msg 0 else mret msg);
  nu ← access (strlen user);
  nd ← access (strlen domain_);
  msg ← puts msg [Put_utf16 user nu; Put16 0; Put_utf16 domain_ nd; Put16 0;
                  Put_utf16 SMB_OS 4; Put16 0; Put_utf16 SMB_LANMAN 6; Put16 0];
  insert_pkt_andx msg smb_session_req (setup_fields s (cursor msg - sizeof smb_session_req)).

(** What the answer to a session setup does. *)
Definition login_answer s (answer : smb_message) (L : layout) : io (Z * smb_session T) :=
  p ← access (packet answer);
  action ← access (field L p 32 "action");
  u ← access (field smb_header p 0 "uid");
  let g := if negb (Z.land action 1 =? 0) then true else guest s in
  mret (DSM_SUCCESS, set_login (set_srv s (set_uid (srv s) u)) true g).

Definition smb_session_login_ntlm s (domain_ user password_ : bytes) : io (Z * smb_session T) :=
  msg ← smb_message_new SMB_CMD_SETUP;
  match msg with
  | None => mret (DSM_ERROR_GENERIC, s)
  | Some msg =>
      msg ← login_request s domain_ user password_ msg;
      '(r, s, _) ← smb_session_send_msg s msg;
      if r =? 0 then mret (DSM_ERROR_NETWORK, s)
      else
        '(r, answer, s) ← smb_session_recv_msg s;
        if r =? 0 then mret (DSM_ERROR_NETWORK, s)
        else
          answer ← access answer;
          if payload_size answer <? sizeof smb_session_resp then mret (DSM_ERROR_NETWORK, s)
          else
            '(ok, s) ← smb_session_check_nt_status s answer;
            if negb ok then mret (DSM_ERROR_NT, s)
            else login_answer s answer smb_session_resp
  end.

(** * Logoff *)

Definition logoff_request msg : io smb_message :=
  msg ← put8 msg 0x02;
  msg ← put8 msg 0xff;
  msg ← put8 msg 0;
  msg ← put16 msg 0;
  put16 msg 0.

Definition smb_session_logoff s : io (Z * smb_session T) :=
  msg ← smb_message_new SMB_CMD_LOGOFF;
  match msg with
  | None => mret (DSM_ERROR_GENERIC, s)
  | Some msg =>
      msg ← logoff_request msg;
      '(r, s, _) ← smb_session_send_msg s msg;
      if r =? 0 then mret (DSM_ERROR_NETWORK, s)
      else mret (DSM_SUCCESS, set_login (set_srv s (set_uid (srv s) 0)) false false)
  end.

End Login.

(** * Connection *)

(** [memcpy(s->srv.name, name, strlen(name) + 1)] into 16 bytes. *)
Definition store_name (i : smb_srv_info) (name : bytes) : io smb_srv_info :=
  n ← access (strlen name);
  d ← access (sub name 0 (n + 1));
  nm ← access (put (srv_name i) 0 d);
  mret (set_name i nm).

Definition smb_session_connect (s : smb_session NetbiosSession.netbios_session) (name : bytes) (ip tr : Z)
    : io (Z * smb_session NetbiosSession.netbios_session) :=
  t ← access (session s);
  let t := match transport s with Some table => disconnect table t | None => t end in
  let s := set_session s t in
  match (if tr =? SMB_TRANSPORT_TCP then Some smb_transport_tcp
         else if tr =? SMB_TRANSPORT_NBT then Some smb_transport_nbt else None) with
  | None => mret (DSM_ERROR_GENERIC, s)
  | Some table =>
      let s := set_transport s table in
      '(r, t) ← connect table ip t (Some name);
      let s := set_session s t in
      if r =? 0 then mret (DSM_ERROR_NETWORK, s)
      else i ← store_name (srv s) name; smb_negotiate (set_srv s i)
  end.

(** * Requests of a fixed shape *)

(** SMB_COM_NEGOTIATE with the two dialects, SMB_COM_LOGOFF_ANDX. *)
Definition negotiate_body : bytes :=
  [0; 19; 0] ++ [2; 83; 97; 109; 98; 97; 0] ++ [2; 78; 84; 32; 76; 77; 32; 48; 46; 49; 50; 0].
Definition logoff_body : bytes := [2; 0xff; 0; 0; 0; 0; 0].

Lemma put16_small m hd e v w :
  small m hd e -> zlen e + 2 <= 256 ->
  wp (put16 m v) (fun m' w' => w' = w /\ small m' hd (e ++ le_bytes 2 v)) w.
Proof. intros Hm Hl. apply (append_small m hd e (le_bytes 2 v) 2); auto; [apply le_bytes_ok|lia]. Qed.

(** Bytes of the payload written so far are replaced. *)
Lemma store_payload_small m hd e off src e' w :
  small m hd e -> put e off src = Some e' -> bytes_ok src ->
  wp (store_payload m off src) (fun m' w' => w' = w /\ small m' hd e') w.
Proof.
  intros ((post & Hp & Hh & Hc & Hs & Hm) & Hb & Hsz) Hput Hsrc. pose proof (length_put _ _ _ _ Hput) as Hl.
  apply wp_bind, (wp_access _ _ _ _ _ Hp), wp_bind.
  assert (Hput' : put (hd ++ e ++ post) (32 + off) src = Some (hd ++ e' ++ post)).
  { replace 32 with (zlen hd) by len. apply put_suffix; [|by apply put_prefix]. by apply put_inv in Hput as (? & _). }
  eapply wp_access; [exact Hput'|]. apply wp_ret. split; [done|].
  split_and!; [|exact (put_ok _ _ _ _ Hb Hsrc Hput)|exact Hsz].
  exists post. cbn. split_and!; auto; congruence.
Qed.

Lemma negotiate_request_small m hd w :
  small m hd [] -> wp (negotiate_request m) (fun m' w' => w' = w /\ small m' hd negotiate_body) w.
Proof.
  intros Hm. apply wp_bind. eapply wp_mono; [by apply put8_small|]. intros m1 ? [-> H1].
  apply wp_bind. eapply wp_mono; [by apply (put16_small _ _ _ _ _ H1)|]. intros m2 ? [-> H2].
  unfold put_dialects, dialects. apply wp_bind. apply wp_bind, (wp_access _ _ 6); [done|].
  apply wp_bind. eapply wp_mono; [by apply (append_small _ _ _ _ 7 (cstr [2; 83; 97; 109; 98; 97]) _ H2); [|decided|..]|].
  intros m3 ? [-> H3]. apply wp_bind, (wp_access _ _ 11); [done|].
  apply wp_bind. eapply wp_mono.
  { by apply (append_small _ _ _ _ 12 (cstr [2; 78; 84; 32; 76; 77; 32; 48; 46; 49; 50]) _ H3); [|decided|..]. }
  intros m4 ? [-> H4]. apply wp_ret. assert (Hc : cursor m4 = 22) by (destruct H4 as ((? & _ & _ & -> & _) & _); done).
  rewrite Hc. apply (store_payload_small _ _ _ _ _ _ _ H4); [reflexivity|apply le_bytes_ok].
Qed.

Lemma logoff_request_small m hd w :
  small m hd [] -> wp (logoff_request m) (fun m' w' => w' = w /\ small m' hd logoff_body) w.
Proof.
  intros Hm. apply wp_bind. eapply wp_mono; [by apply put8_small|]. intros m1 ? [-> H1].
  apply wp_bind. eapply wp_mono; [by apply (put8_small _ _ _ _ _ H1)|]. intros m2 ? [-> H2].
  apply wp_bind. eapply wp_mono; [by apply (put8_small _ _ _ _ _ H2)|]. intros m3 ? [-> H3].
  apply wp_bind. eapply wp_mono; [by apply (put16_small _ _ _ _ _ H3)|]. intros m4 ? [-> H4].
  eapply wp_mono; [by apply (put16_small _ _ _ _ _ H4)|]. intros m5 ? [-> H5]. done.
Qed.

Section Laws.
Context {T : Type} (tr : smb_transport T) `{!TransportLaws tr}.
Implicit Types s : smb_session T.

(** What the server's answer [p] says about itself: the challenge counts only
    without extended security. *)
Definition negotiated (p : bytes) (i i' : smb_srv_info) : Prop :=
  let nego := field smb_nego_resp p 32 in
  nego "wct" = Some 0x11 /\ nego "dialect_index" = Some (dialect i')
  /\ nego "security_mode" = Some (security_mode i') /\ nego "caps" = Some (caps i')
  /\ nego "ts" = Some (ts i') /\ nego "session_key" = Some (session_key i')
  /\ uid i' = uid i /\ srv_name i' = srv_name i
  /\ (if Z.testbit (caps i') 31 then challenge i' = challenge i else nego "challenge" = Some (challenge i')).

Lemma supports_xsec s :
  0 <= caps (srv s) < 4294967296 ->
  negb (smb_session_supports s SMB_SESSION_XSEC =? 0) = Z.testbit (caps (srv s)) 31.
Proof.
  intros Hc. unfold smb_session_supports, SMB_CAPS_XSEC. change (SMB_SESSION_XSEC =? SMB_SESSION_XSEC) with true. cbv iota.
  assert (E : Z.land (caps (srv s)) 0x80000000 = if Z.testbit (caps (srv s)) 31 then 0x80000000 else 0).
  { apply Z.bits_inj'. intros n Hn. change 0x80000000 with (2 ^ 31). rewrite Z.land_spec, Z.pow2_bits_eqb by lia.
    destruct (Z.eqb_spec 31 n) as [<-|Hne].
    - rewrite andb_true_r. destruct (Z.testbit _ 31); [|by rewrite Z.bits_0]. by rewrite Z.pow2_bits_eqb.
    - rewrite andb_false_r. destruct (Z.testbit _ 31); [|by rewrite Z.bits_0].
      rewrite Z.pow2_bits_eqb by lia. by rewrite (proj2 (Z.eqb_neq _ _)). }
  rewrite E. by destruct (Z.testbit _ 31).
Qed.

Lemma negotiate_answer_ok s m p w :
  received m p ->
  wp (negotiate_answer s m) (fun '(r, s') w' => w' = w
    /\ (r < 0 /\ (s' = s \/ exists st, s' = set_nt_status s st)
       \/ (r = 0 /\ field smb_header p 0 "status" = Some 0
           /\ exists i, s' = set_srv s i /\ negotiated p (srv s) i))) w.
Proof.
  intros Hm. unfold negotiate_answer. change (sizeof smb_nego_resp) with 45.
  destruct (Z.ltb_spec (payload_size m) 45); [apply wp_ret; split; [done|left; split; [done|by left]]|].
  apply wp_bind. eapply wp_mono; [by apply check_nt_status_ok|]. intros [ok s1] ? [-> Hok]. destruct ok; cbn [negb].
  2: { destruct Hok as (st & _ & ->). apply wp_ret. split; [done|]. left. split; [done|]. right. by exists st. }
  destruct Hok as [-> Hst]. pose proof Hm as (Hm0 & Hpos & Hl & Hb).
  apply wp_bind, (wp_access _ _ p); [by rewrite Hm0|]. cbv zeta.
  destruct (field_read smb_nego_resp p 32 "wct" 0 1) as (v1 & E1 & _); [done|done|lia..|].
  destruct (field_read smb_nego_resp p 32 "dialect_index" 1 2) as (v2 & E2 & _); [done|done|lia..|].
  destruct (field_read smb_nego_resp p 32 "security_mode" 3 1) as (v3 & E3 & _); [done|done|lia..|].
  destruct (field_read smb_nego_resp p 32 "caps" 20 4) as (v4 & E4 & H4); [done|done|lia..|].
  destruct (field_read smb_nego_resp p 32 "ts" 24 8) as (v5 & E5 & _); [done|done|lia..|].
  destruct (field_read smb_nego_resp p 32 "session_key" 16 4) as (v6 & E6 & _); [done|done|lia..|].
  destruct (field_read smb_nego_resp p 32 "challenge" 37 8) as (v7 & E7 & _); [done|done|lia..|].
  apply wp_bind, (wp_access _ _ _ _ _ E1).
  destruct (Z.eqb_spec v1 0x11) as [->|]; cbn [negb]; [|apply wp_ret; split; [done|left; split; [done|by left]]].
  apply wp_bind, (wp_access _ _ _ _ _ E2), wp_bind, (wp_access _ _ _ _ _ E3), wp_bind, (wp_access _ _ _ _ _ E4).
  apply wp_bind, (wp_access _ _ _ _ _ E5), wp_bind, (wp_access _ _ _ _ _ E6). cbv zeta.
  rewrite supports_xsec by exact H4. cbn [srv set_srv caps].
  destruct (Z.testbit v4 31) eqn:Ex.
  - apply wp_ret. split; [done|]. right. split; [done|]. split; [done|]. eexists. split; [done|].
    unfold negotiated, set_challenge. cbn [dialect security_mode caps ts session_key uid srv_name challenge]. rewrite Ex. by split_and!.
  - apply wp_bind, (wp_access _ _ _ _ _ E7), wp_ret. split; [done|]. right. split; [done|]. split; [done|].
    eexists. split; [done|]. unfold negotiated, set_challenge. cbn [dialect security_mode caps ts session_key uid srv_name challenge]. rewrite Ex. by split_and!.
Qed.

(** Negotiating, with any server: [smb_negotiate] never accesses memory
    outside its buffers. Success means that the NEGOTIATE request with the two
    dialects is on the wire, and that what the session knows of the server is
    what the answer says; an error leaves it as it was. *)
Theorem negotiate_correct s w :
  ready tr s -> bytes_ok (w_rx w) ->
  wp (smb_negotiate s) (fun '(r, s') w' => bytes_ok (w_rx w') /\ fds s' = fds s
    /\ ((r < 0 /\ srv s' = srv s)
        \/ (r = 0 /\ ready tr s'
            /\ requested True SMB_CMD_NEGOTIATE 0 (uid (srv s)) negotiate_body w w'
            /\ exists p, field smb_header p 0 "status" = Some 0 /\ negotiated p (srv s) (srv s')))) w.
Proof.
  intros Hs Hx. apply wp_bind. eapply wp_mono; [apply new_small|]. intros [m|] w1 [L Hm];
    destruct (later_world _ _ L) as [Htx Hrx]; [|apply wp_ret; rewrite Hrx; split_and!; auto; by left].
  destruct Hm as [pid Hm]. apply wp_bind. eapply wp_mono; [by apply (negotiate_request_small _ _ _ Hm)|].
  intros m1 ? [-> Hm1]. apply wp_bind.
  eapply wp_mono; [eapply send_small_ok; [exact Hs|by rewrite Hrx|by apply small_built|done]|].
  intros [[r s1] m2] w2 (Hx2 & Hmv & Hs1 & Hr & Hreq & _). cbn beta iota. destruct (moved_same _ _ Hmv) as (Hf & Hsrv & _).
  destruct (Z.eqb_spec r 0) as [->|Hne]; [apply wp_ret; split_and!; auto; by left|].
  apply wp_bind. eapply wp_mono; [by apply recv_msg_ok|].
  intros [[r2 o] s2] w3 (Htx3 & Hx3 & Hmv2 & H2). cbn beta iota. destruct (moved_same _ _ Hmv2) as (Hf2 & Hsrv2 & _).
  destruct (Z.eqb_spec r2 0) as [->|Hne2]; [apply wp_ret; split_and!; auto; [congruence|left; split; [done|congruence]]|].
  destruct (H2 Hne2) as (Hs2 & m0 & p & -> & _ & Hp). apply wp_bind, (wp_access _ _ m0); [done|].
  eapply wp_mono; [by apply negotiate_answer_ok|]. intros [r3 s3] ? [-> [[Hr3 H3]|(-> & Hst & i & -> & Hi)]].
  - split; [done|]. destruct H3 as [->|(st & ->)]; (split; [cbn; congruence|left; split; [done|cbn; congruence]]).
  - split; [done|]. split; [cbn; congruence|]. right. split; [done|]. split; [exact Hs2|]. split.
    + eapply requested_frame; [by apply Hreq|done|done].
    + exists p. split; [done|]. cbn [srv set_srv]. by rewrite Hsrv2, Hsrv in Hi.
Qed.

(** Logging off: the state of the login is cleared, with the identifier
    of the user, exactly when the LOGOFF request went out under that
    identifier; otherwise the session keeps them. *)
Theorem logoff_correct s w :
  ready tr s -> bytes_ok (w_rx w) ->
  wp (smb_session_logoff s) (fun '(r, s') w' => bytes_ok (w_rx w') /\ ready tr s' /\ fds s' = fds s
    /\ ((r < 0 /\ logged s' = logged s /\ guest s' = guest s /\ srv s' = srv s)
        \/ (r = 0 /\ logged s' = false /\ guest s' = false /\ uid (srv s') = 0
            /\ requested True SMB_CMD_LOGOFF 0 (uid (srv s)) logoff_body w w'))) w.
Proof.
  intros Hs Hx. apply wp_bind. eapply wp_mono; [apply new_small|]. intros [m|] w1 [L Hm];
    destruct (later_world _ _ L) as [Htx Hrx]; [|apply wp_ret; rewrite Hrx; split_and!; auto; by left].
  destruct Hm as [pid Hm]. apply wp_bind. eapply wp_mono; [by apply (logoff_request_small _ _ _ Hm)|].
  intros m1 ? [-> Hm1]. apply wp_bind.
  eapply wp_mono; [eapply send_small_ok; [exact Hs|by rewrite Hrx|by apply small_built|done]|].
  intros [[r s1] m2] w2 (Hx2 & Hmv & Hs1 & Hr & Hreq & _). destruct Hmv as [t ->]. cbn beta iota.
  destruct (Z.eqb_spec r 0) as [->|Hne]; apply wp_ret; split_and!; auto; [by left|].
  right. split_and!; auto. eapply requested_frame; [by apply Hreq|done|done].
Qed.

(** ** Login *)

(** What the answer [p] to a session setup says of the login. *)
Definition logged_in (L : layout) s (p : bytes) s' : Prop :=
  logged s' = true /\ field smb_header p 0 "status" = Some 0 /\ field smb_header p 0 "uid" = Some (uid (srv s'))
  /\ exists action, field L p 32 "action" = Some action /\ guest s' = (Z.odd action || guest s).

Lemma land_1 z : negb (Z.land z 1 =? 0) = Z.odd z.
Proof.
  change 1 with (Z.ones 1). rewrite Z.land_ones by lia. change (2 ^ 1) with 2. rewrite Zmod_odd. by destruct (Z.odd z).
Qed.

Lemma login_answer_ok L s m p w :
  locate L "action" = Some (5, 2) -> received m p -> field smb_header p 0 "status" = Some 0 ->
  wp (login_answer s m L) (fun '(r, s') w' => w' = w /\ r = 0 /\ fds s' = fds s
    /\ (ready tr s -> ready tr s') /\ logged_in L s p s') w.
Proof.
  intros HL (Hm & Hpos & Hl & Hb) Hst. apply wp_bind, (wp_access _ _ p); [by rewrite Hm|].
  destruct (field_read L p 32 "action" 5 2) as (a & Ea & _); [done|done|lia..|].
  destruct (field_read smb_header p 0 "uid" 28 2) as (u & Eu & _); [done|done|lia..|].
  apply wp_bind, (wp_access _ _ _ _ _ Ea), wp_bind, (wp_access _ _ _ _ _ Eu), wp_ret.
  split_and!; auto. split_and!; auto. exists a. split; [done|]. cbn [guest set_login]. rewrite land_1. by destruct (Z.odd a).
Qed.

Context `{IconvLaws}.

(** The names behind the response of a session setup. *)
Definition setup_names (user domain_ : bytes) : list put_call :=
  [Put_utf16 (cstr user) (zlen user); Put16 0; Put_utf16 (cstr domain_) (zlen domain_); Put16 0;
   Put_utf16 SMB_OS 4; Put16 0; Put_utf16 SMB_LANMAN 6; Put16 0].

(** The payload of a session setup with the LMv2 response [lm]. *)
Definition setup_body s (user domain_ lm : bytes) : bytes :=
  let rest := lm ++ [0] ++ puts_data (setup_names user domain_) in
  pack smb_session_req (("andx", 0xff) :: setup_fields s (zlen rest)) ++ rest.

(** The LMv2 response to the server's challenge under the user's hash. *)
Definition lm2_of (c : SmbNtlm.credentials) (ch : Z) (lm : bytes) : Prop :=
  exists uc, lm = SmbNtlm.response_v2 (SmbNtlm.hash_of c) ch (le_bytes 8 uc).

Lemma setup_names_len user domain_ :
  zlen (puts_data (setup_names user domain_)) <= 15 * (zlen user + zlen domain_) + 200.
Proof.
  unfold setup_names, puts_data. cbn [map concat put_data].
  destruct (text_size Locale UCS2LE SMB_OS 4) as [_ Ha]; [lia|]. destruct (text_size Locale UCS2LE SMB_LANMAN 6) as [_ Hb]; [lia|].
  destruct (text_size Locale UCS2LE (cstr user) (zlen user)) as [_ Hc]; [len|].
  destruct (text_size Locale UCS2LE (cstr domain_) (zlen domain_)) as [_ Hd]; [len|]. len.
Qed.

Lemma setup_body_len s user domain_ lm : zlen lm = 24 -> zlen (setup_body s user domain_ lm) <= 15 * (zlen user + zlen domain_) + 254.
Proof.
  intros Hlm. unfold setup_body. pose proof (setup_names_len user domain_).
  pose proof (length_pack smb_session_req (("andx", 0xff) :: setup_fields s (zlen (lm ++ [0] ++ puts_data (setup_names user domain_)))) ltac:(decided)) as Hp.
  change (sizeof smb_session_req) with 29 in Hp. len.
Qed.

Lemma setup_names_ok user domain_ : zlen user + zlen domain_ <= 500 -> Forall put_call_ok (setup_names user domain_).
Proof.
  intros Hl. unfold setup_names, cstr. repeat (apply Forall_cons; split; [cbn; try (split; [len|len]); done|]). by apply Forall_nil.
Qed.

(** The request that is built when there is memory. *)
Lemma login_request_ok s c m hd w0 w :
  lucky w0 -> message m hd [] -> payload_size m = 256 -> later w0 w -> SmbNtlm.credentials_ok c ->
  zlen (SmbNtlm.c_user c) + zlen (SmbNtlm.c_domain c) <= 500 ->
  wp (login_request s (cstr (SmbNtlm.c_domain c)) (cstr (SmbNtlm.c_user c)) (cstr (SmbNtlm.c_password c)) m) (fun m' w' =>
    later w w' /\ exists lm, lm2_of c (challenge (srv s)) lm /\ zlen lm = 24
      /\ built (lucky w0) m' hd (setup_body s (SmbNtlm.c_user c) (SmbNtlm.c_domain c) lm)) w.
Proof.
  intros Hw Hm Hsz L0 Hc Hl. pose proof Hc as (_ & _ & _ & Hd & Hdl & Td & Hu & Hul & _ & Tu & Hp & Hpl & Tp).
  set (user := SmbNtlm.c_user c) in *. set (dom := SmbNtlm.c_domain c) in *. unfold login_request.
  apply wp_bind. eapply wp_mono; [apply (advance_behind (lucky w0)); [exact Hm|rewrite Hsz; done]|]. intros m1 ? [-> Hm1].
  pose proof (later_lucky _ _ L0 Hw) as Hw1.
  destruct (SmbNtlm.returning_challenge w Hw1) as (uc & (w1 & E1 & L1) & _). apply wp_bind. eapply wp_Done; [exact E1|].
  pose proof (later_trans _ _ _ L0 L1) as L01.
  destruct (SmbNtlm.runs_ntlm2_hash user (SmbNtlm.c_password c) dom (SmbNtlm.t_password c) (SmbNtlm.t_upper c) (SmbNtlm.t_domain c) w1)
    as (w2 & E2 & L2); auto; try lia; [by apply (later_lucky _ _ L01)|]. apply wp_bind. eapply wp_Done; [exact E2|].
  pose proof (later_trans _ _ _ L01 L2) as L02. fold (SmbNtlm.hash_of c). set (hash := SmbNtlm.hash_of c) in *.
  assert (Hh : length hash = 16%nat) by apply HmacMd5.length_hmac_spec.
  destruct (SmbNtlm.runs_lm2_response hash (challenge (srv s)) uc w2) as (w3 & E3 & L3); [by apply (later_lucky _ _ L02)|unfold zlen; lia|].
  apply wp_bind. eapply wp_Done; [exact E3|]. pose proof (later_trans _ _ _ L02 L3) as L03.
  rewrite (take_ge hash) by lia. set (lm := SmbNtlm.response_v2 hash (challenge (srv s)) (le_bytes 8 uc)).
  assert (Hlm : zlen lm = 24) by (unfold lm; rewrite SmbNtlm.length_response_v2; len).
  assert (Hlmb : bytes_ok lm) by (unfold lm, SmbNtlm.response_v2; apply bytes_ok_app; [apply HmacMd5.hmac_spec_ok|apply le_bytes_ok]).
  assert (Hof : lm2_of c (challenge (srv s)) lm) by (by exists uc). clearbody lm.
  assert (Hcur : forall m1 e, behind 29 (lucky w0) m1 hd e -> cursor m1 = 29 + zlen e).
  { intros m' e (pre & wr & Hpre & (post & _ & _ & Hcu & _) & _ & _ & He). rewrite Hcu, (He Hw). len. }
  apply wp_bind. eapply wp_mono; [eapply (append_behind w0 29 m1 hd [] lm 24 lm); [exact Hm1|exact L03|rewrite <- Hlm; by apply sub_all|done|done]|].
  intros m2 w4 [L4 Hm2]. cbn [app] in Hm2. pose proof (later_trans _ _ _ L03 L4) as L04.
  rewrite (Hcur _ _ Hm2), Hlm. change (negb ((29 + 24) `div` 2 =? 0)) with true. cbv iota.
  apply wp_bind. eapply wp_mono; [apply (put_one_behind w0 29 m2 hd lm (Put8 0)); [done|done|done|lia|lia]|].
  intros m3 w5 [L5 Hm3]. pose proof (later_trans _ _ _ L04 L5) as L05. change (put_data (Put8 0)) with [0] in Hm3.
  apply wp_bind, (wp_access _ _ _ _ _ (strlen_cstr user [] Hu)), wp_bind, (wp_access _ _ _ _ _ (strlen_cstr dom [] Hd)).
  pose proof (setup_names_len user dom) as Hnl. apply wp_bind.
  eapply wp_mono; [eapply (puts_behind w0 29 m3 hd _ (setup_names user dom)); [exact Hm3|exact L05|exact (setup_names_ok user dom Hl)|lia|]|].
  { assert (E : zlen (lm ++ [0]) = 25) by (clear -Hlm; len). rewrite E. lia. }
  intros m4 w6 [L6 Hm4]. rewrite <- app_assoc in Hm4. rewrite (Hcur _ _ Hm4). change (sizeof smb_session_req) with 29.
  set (rest := lm ++ [0] ++ puts_data (setup_names user dom)) in *. replace (29 + zlen rest - 29) with (zlen rest) by lia.
  apply wp_bind. eapply wp_access; [reflexivity|].
  apply wp_bind, (wp_access _ _ (pack smb_session_req (("andx", 0xff) :: setup_fields s (zlen rest)))); [reflexivity|].
  eapply wp_mono; [apply (insert_built (lucky w0) m4 hd rest smb_session_req); [exact Hm4|apply pack_ok|reflexivity|done]|].
  intros m5 w7 [-> Hm5]. split.
  - do 5 (eapply later_trans; [eassumption|]). done.
  - exists lm. split; [done|]. split; [done|exact Hm5].
Qed.

Lemma login_ntlm_run s c w :
  lucky w -> ready tr s -> bytes_ok (w_rx w) -> SmbNtlm.credentials_ok c ->
  zlen (SmbNtlm.c_user c) + zlen (SmbNtlm.c_domain c) <= 500 ->
  wp (smb_session_login_ntlm s (cstr (SmbNtlm.c_domain c)) (cstr (SmbNtlm.c_user c)) (cstr (SmbNtlm.c_password c))) (fun '(r, s') w' =>
    fds s' = fds s
    /\ (r < 0 /\ logged s' = logged s /\ guest s' = guest s /\ srv s' = srv s
        \/ r = 0 /\ ready tr s'
           /\ (exists lm, lm2_of c (challenge (srv s)) lm
                /\ requested True SMB_CMD_SETUP 0 (uid (srv s)) (setup_body s (SmbNtlm.c_user c) (SmbNtlm.c_domain c) lm) w w')
           /\ exists p, logged_in smb_session_resp s p s')) w.
Proof.
  intros Hw Hs Hx Hc Hl. unfold smb_session_login_ntlm.
  apply wp_bind. eapply wp_mono; [apply new_small|]. intros [m|] w1 [L1 Hm]; [|apply wp_ret; split; [done|by left]].
  destruct Hm as [pid (Hm & _ & Hsz)]. apply wp_bind. eapply wp_mono; [eapply (login_request_ok s c m _ w w1); [done|exact Hm|done|done|done|done]|].
  intros m1 w2 (L2 & lm & Hlm & Hlz & Hm1). pose proof (later_trans _ _ _ L1 L2) as L12. destruct (later_world _ _ L12) as [Htx Hrx].
  pose proof (setup_body_len s (SmbNtlm.c_user c) (SmbNtlm.c_domain c) lm Hlz) as Hb.
  apply wp_bind. eapply wp_mono; [eapply send_small_ok; [exact Hs|by rewrite Hrx|exact Hm1|lia]|].
  intros [[r s1] m2] w3 (Hx3 & [t1 ->] & Hs1 & _ & Hreq & _). cbn beta iota.
  destruct (Z.eqb_spec r 0) as [->|Hne]; [apply wp_ret; split; [done|by left]|].
  apply wp_bind. eapply wp_mono; [by apply recv_msg_ok|]. intros [[r2 o] s2] w4 (Htx4 & Hx4 & [t2 ->] & Hr2). cbn beta iota.
  destruct (Z.eqb_spec r2 0) as [->|Hne2]; [apply wp_ret; split; [done|by left]|].
  destruct (Hr2 Hne2) as (Hs2 & m0 & p & -> & _ & Hp). apply wp_bind, (wp_access _ _ m0); [done|].
  destruct (payload_size m0 <? _); [apply wp_ret; split; [done|by left]|].
  apply wp_bind. eapply wp_mono; [by apply (check_nt_status_ok _ _ p)|]. intros [ok s3] ? [-> Hok]. destruct ok; cbn [negb].
  2: { destruct Hok as (st & _ & ->). apply wp_ret. split; [done|by left]. }
  destruct Hok as [-> Hst]. eapply wp_mono; [by apply (login_answer_ok smb_session_resp)|].
  intros [r' s'] w' (-> & -> & Hf & Hs' & Hlog). split; [exact Hf|right]. split; [done|]. split; [auto|]. split; [|by exists p].
  exists lm. split; [done|]. eapply requested_mono; [|intros _; exact Hw]. eapply requested_frame; [by apply Hreq|done|done].
Qed.


End Laws.
(** C40. Connecting under a name of 16 characters or more: once the connection is
    up, the copy of the name runs past the 16 bytes the session has for it. *)
Theorem connect_name_overflow s t name ip r t' w w' :
  session s = Some t -> transport s = None -> length (srv_name (srv s)) = 16%nat -> cstring_ok name -> 16 <= zlen name ->
  connect smb_transport_tcp ip t (Some (cstr name)) w = Done ((r, t'), w') -> r <> 0 ->
  smb_session_connect s (cstr name) ip SMB_TRANSPORT_TCP w = Fault.
Proof.
  intros Ht Htr Hn Hc Hl E Hr. unfold smb_session_connect. rewrite (bind_Done _ _ _ _ _ (access_Done _ _ _ Ht)). rewrite Htr.
  cbv zeta. change (SMB_TRANSPORT_TCP =? SMB_TRANSPORT_TCP) with true. cbv iota.
  rewrite (bind_Done _ _ _ _ _ E). cbv iota. rewrite (proj2 (Z.eqb_neq r 0)) by done.
  cut (store_name (srv s) (cstr name) w' = Fault).
  { intros F. unfold mbind, io_bind. cbn [srv set_session set_transport]. by rewrite F. }
  unfold store_name. rewrite (bind_Done _ _ _ _ _ (access_Done _ _ _ (strlen_cstr name [] Hc))).
  rewrite (bind_Done _ _ w' (name ++ [0]) w').
  2: { apply access_Done. replace (zlen name + 1) with (zlen (cstr name)) by (unfold cstr; len). by apply sub_all. }
  unfold put, in_range. rewrite (proj2 (Z.leb_gt (0 + _) _)) by len. by rewrite !andb_false_r.
Qed.

(** * Witnesses *)

Lemma negotiate_correct_witness :
  wp (smb_negotiate some_session) (fun '(r, s') w' => bytes_ok (w_rx w') /\ fds s' = fds some_session
    /\ ((r < 0 /\ srv s' = srv some_session)
        \/ (r = 0 /\ ready smb_transport_tcp s'
            /\ requested True SMB_CMD_NEGOTIATE 0 77 negotiate_body (answering []) w'
            /\ exists p, field smb_header p 0 "status" = Some 0 /\ negotiated p (srv some_session) (srv s')))) (answering []).
Proof. apply (negotiate_correct smb_transport_tcp some_session (answering []) some_ready). decided. Defined.

Lemma logoff_correct_witness :
  wp (smb_session_logoff some_session) (fun '(r, s') w' => bytes_ok (w_rx w') /\ ready smb_transport_tcp s' /\ fds s' = fds some_session
    /\ ((r < 0 /\ logged s' = false /\ guest s' = false /\ srv s' = srv some_session)
        \/ (r = 0 /\ logged s' = false /\ guest s' = false /\ uid (srv s') = 0
            /\ requested True SMB_CMD_LOGOFF 0 77 logoff_body (answering []) w'))) (answering []).
Proof. apply (logoff_correct smb_transport_tcp some_session (answering []) some_ready). decided. Defined.

Definition one_char : SmbNtlm.credentials := SmbNtlm.Credentials [72] [68] [117] [112] [72; 0] [68; 0] [117; 0] [85; 0] [112; 0].

Lemma latin1_utf16 a b :
  iconv Locale UCS2LE a 100 = IcOk b -> zlen b <= 2 * zlen a -> a <> [] -> b <> [] -> SmbNtlm.utf16_text a b.
Proof. intros E Hl Ha Hb. split; [done|]. split; [by exists 100|]. split; [done|]. split; intros ->; done. Qed.

Lemma one_char_ok : SmbNtlm.credentials_ok one_char.
Proof. split_and!; try decided; try done; apply latin1_utf16; try done; vm_compute; done. Qed.


(** A session that is not connected yet. *)
Definition new_session : smb_session NetbiosSession.netbios_session :=
  SmbSession false false empty_srv false (Buffer None 0) (Creds None None None) None (Some tcp_session) (SmbFd.Tables 0 ∅ ∅) 0.
Definition long_name : bytes := replicate 16 65.

Lemma connect_name_overflow_witness :
  smb_session_connect new_session (cstr long_name) 1 SMB_TRANSPORT_TCP (answering []) = Fault.
Proof.
  destruct (connect smb_transport_tcp 1 tcp_session (Some (cstr long_name)) (answering [])) as [[[r t'] w']| |] eqn:E;
    [|vm_compute in E; discriminate E..].
  apply (connect_name_overflow new_session tcp_session long_name 1 r t' (answering []) w');
    [done|done|done|decided|done|exact E|].
  intros ->. vm_compute in E. discriminate E.
Defined.

End SmbLogin.
