(* ===== verification/SmbShare.v ===== *)
(** Trees (shares) of a server: src/smb_share.c.

    The list of the shares is an array of pointers, a NULL pointer at its end:
    a list of [option bytes] with the elements of the allocated block. Pointers
    into a received message are offsets from the start of its payload. *)

From stdpp Require Import strings gmap.
From S2P Require Import Prelude World NetbiosUtils NetbiosSession SmbPackets SmbBuffer SmbMessage SmbFd SmbTransport SmbSession SmbFile.

Module SmbShare.
Import SmbPackets SmbBuffer SmbUtils SmbMessage SmbFd SmbTransport SmbSession SmbFile.
Local Open Scope string_scope.
Local Open Scope list_scope.
Local Open Scope Z_scope.

Definition SMB_CMD_TREE_DISCONNECT : Z := 0x71.
Definition SMB_CMD_TREE_CONNECT : Z := 0x75.
Definition SMD_CMD_TRANS : Z := 0x25.
(** "IPC$", "\srvsvc", "\PIPE\" and "?????" *)
Definition ipc_name : bytes := cstr [73; 80; 67; 36].
Definition srvsvc_path : bytes := cstr [92; 115; 114; 118; 115; 118; 99].
Definition pipe_name : bytes := cstr [92; 80; 73; 80; 69; 92].
Definition any_service : bytes := cstr [63; 63; 63; 63; 63].

Definition fresh_share (h : gmap Z smb_share) : Z := fresh ({[0]} ∪ dom h : gset Z).
Definition set_share (t : tables) (p : Z) (s : smb_share) : tables :=
  Tables (shares t) (<[p := s]> (share_heap t)) (file_heap t).

Section Ops.
Context {T : Type} `{Iconv}.
Implicit Types (s : smb_session T) (msg : smb_message).

(** [snprintf(path, path_len, "\\\\%s\\%s", server, name)]: the room is
    exactly what the text needs. *)
Definition unc_path (server name : bytes) : option bytes :=
  n1 ← strlen server; n2 ← strlen name;
  Some ([92; 92] ++ take (Z.to_nat n1) server ++ [92] ++ take (Z.to_nat n2) name ++ [0]).

(** The node filled from the answer, or that the answer is malformed. *)
Definition share_of (resp : smb_message) (p : bytes) : io (option smb_share) :=
  wct ← access (rd p 32);
  if wct =? 3 then
    if payload_size resp <? sizeof smb_tree_connect_resp then mret None
    else
      tid ← access (field smb_header p 0 "tid");
      opts ← access (field smb_tree_connect_resp p 32 "opt_support");
      mret (Some (Share 0 0 tid opts 0 0))
  else if wct =? 7 then
    if payload_size resp <? sizeof smb_tree_connect_respx then mret None
    else
      tid ← access (field smb_header p 0 "tid");
      opts ← access (field smb_tree_connect_respx p 32 "opt_support");
      rights ← access (field smb_tree_connect_respx p 32 "max_rights");
      guest_rights ← access (field smb_tree_connect_respx p 32 "guest_rights");
      mret (Some (Share 0 0 tid opts rights guest_rights))
  else mret None.

(** [smb_tree_connect] from the answer on: the result and [*tid]. *)
Definition tree_answer s (resp : smb_message) : io (Z * option Z * smb_session T) :=
  ok ← flip;
  if negb ok then mret (DSM_ERROR_GENERIC, None, s)
  else
    p ← access (packet resp);
    share ← share_of resp p;
    match share with
    | None => mret (DSM_ERROR_NETWORK, None, s)
    | Some share =>
        let ptr := fresh_share (share_heap (fds s)) in
        t ← lift (smb_session_share_add (set_share (fds s) ptr share) ptr);
        mret (0, Some (s_tid share), set_fds s t)
    end.

Definition smb_tree_connect s (name : bytes) : io (Z * option Z * smb_session T) :=
  req_msg ← smb_message_new SMB_CMD_TREE_CONNECT;
  match req_msg with
  | None => mret (DSM_ERROR_GENERIC, None, s)
  | Some msg =>
      path ← access (unc_path (srv_name (srv s)) name);
      '(utf_path_len, utf_path) ← smb_to_utf16 path (zlen path);
      msg ← set_header msg [("tid", 0xffff)];
      msg ← lift (smb_message_set_andx_members msg);
      msg ← put_pkt_andx msg smb_tree_connect_req
              [("wct", 4); ("flags", 0x0c); ("passwd_len", 1); ("bct", utf_path_len + 6 + 1)];
      msg ← put8 msg 0;
      msg ← append msg utf_path utf_path_len;
      msg ← append msg (Some any_service) 6;
      '(r, s, _) ← smb_session_send_msg s msg;
      if r =? 0 then mret (DSM_ERROR_NETWORK, None, s)
      else
        '(a, s) ← receive_answer s;
        match a with
        | inl e => mret (e, None, s)
        | inr resp => tree_answer s resp
        end
  end.

Definition smb_tree_disconnect s (tid : Z) : io (Z * smb_session T) :=
  req_msg ← smb_message_new SMB_CMD_TREE_DISCONNECT;
  match req_msg with
  | None => mret (DSM_ERROR_GENERIC, s)
  | Some msg =>
      msg ← set_header msg [("tid", u16 tid)];
      msg ← put_pkt msg smb_tree_disconnect_req [("wct", 0); ("bct", 0)];
      '(r, s, _) ← smb_session_send_msg s msg;
      if r =? 0 then mret (DSM_ERROR_NETWORK, s)
      else simple_answer s smb_tree_disconnect_resp
  end.

(** * The list of the shares *)

(** [uint32_t] counts of characters, rounded up to an even number. *)
Definition align2 (n : Z) : Z := if Z.odd n then u32 (n + 1) else n.

(** The loop over the entries: [i], the list. [data] and [eod] are addresses
    relative to the payload. *)
Fixpoint parse_enum_loop (fuel : nat) (p : bytes) (share_count eod i data : Z) (l : list (option bytes))
    : io (Z * list (option bytes)) :=
  if negb ((i <? share_count) && (data <? eod)) then mret (i, l)
  else
    match fuel with
    | O => fun _ => Blocked
    | S fuel =>
        if eod <? data + 4 then mret (i, l)
        else
          name_len ← access (get32 p (32 + data));
          let data := data + 12 in
          if eod <? data + 4 + u32 (name_len * 2) + 4 then mret (i, l)
          else
            '(_, name) ← smb_from_utf16 (drop (Z.to_nat (32 + data)) p) (u32 (name_len * 2));
            _ ← access (l !! Z.to_nat i);
            let l := <[Z.to_nat i := name]> l in
            let data := data + u32 (align2 name_len * 2) in
            com_len ← access (get32 p (32 + data));
            let data := data + 12 + u32 (align2 com_len * 2) in
            parse_enum_loop fuel p share_count eod (i + 1) data l
    end.

(** -1 or the number of entries read, and the array. Every turn of the loop
    moves [data] forward, hence the fuel. *)
Definition smb_share_parse_enum msg : io (Z * option (list (option bytes))) :=
  p ← access (packet msg);
  share_count ← access (get32 p (32 + 60));
  let data := 72 + u32 (share_count * 12) in
  let eod := payload_size msg in
  ok ← flip;
  if negb ok then mret (-1, None)
  else
    let list := replicate (Z.to_nat (u32 (share_count + 1))) None in
    '(i, list) ← parse_enum_loop (Z.to_nat (eod - data)) p share_count eod 0 data list;
    mret (i, Some list).

(** [for (res = 0; list[res] != NULL; res++)]: the strings before the first
    NULL pointer; running over the end of the block is an invalid access. *)
Fixpoint strings_before_null (l : list (option bytes)) : outcome (list bytes) :=
  match l with
  | [] => Fault
  | None :: _ => Done []
  | Some x :: l => let* r := strings_before_null l in Done (x :: r)
  end.

Definition smb_share_list : Type := option (list (option bytes)).

Definition smb_share_list_count (l : smb_share_list) : outcome Z :=
  match l with
  | None => Done 0
  | Some l => let* r := strings_before_null l in Done (zlen r)
  end.

Definition smb_share_list_at (l : smb_share_list) (index : Z) : outcome (option bytes) :=
  let* l := checked l in checked (l !! Z.to_nat index).

(** The strings that are freed, then the array. *)
Definition smb_share_list_destroy (l : smb_share_list) : outcome (list bytes) :=
  let* l := checked l in strings_before_null l.

(** The fields of [smb_trans_req] and the calls that follow: the bind of the
    pipe and the call of NetShareEnumAll. *)
Definition bind_fields (fd : Z) : list (string * Z) :=
  [("wct", 16); ("total_data_count", 72); ("max_data_count", 0xffff); ("param_offset", 84);
   ("data_count", 72); ("data_offset", 84); ("setup_count", 2); ("pipe_function", 0x26);
   ("fid", SMB_FD_FID fd); ("bct", 89)].

Definition uuid_e : bytes := [0x12; 0x78; 0x5a; 0x47; 0xbf; 0x6e; 0xe1; 0x88].
Definition uuid_e2 : bytes := [0x9f; 0xe8; 0x08; 0x00; 0x2b; 0x10; 0x48; 0x60].

Definition bind_calls : list put_call :=
  [Put8 0; Put_utf16 pipe_name 7; Put16 0;
   Put8 5; Put8 0; Put8 0x0b; Put8 0x03; Put32 0x10; Put16 72; Put16 0; Put32 19;
   Put16 0xffff; Put16 0xffff; Put32 0;
   Put32 1; Put16 0; Put16 1;
   Put_uuid 0x4b324fc8 0x1670 0x01d3 uuid_e; Put16 3; Put16 0;
   Put_uuid 0x8a885d04 0x1ceb 0x11c9 uuid_e2; Put32 2].

(** Before and behind the point where the cursor is saved. *)
Definition enum_calls1 : list put_call :=
  [Put8 0; Put_utf16 pipe_name 7; Put16 0; Put8 5; Put8 0; Put8 0; Put8 0x03; Put32 0x10].
Definition enum_calls2 (server : bytes) (n : Z) : list put_call :=
  [Put16 0; Put16 0; Put32 12; Put32 64; Put16 0; Put16 15;
   Put32 0x00020000; Put32 (n + 1); Put32 0; Put32 (n + 1); Put_utf16 server (n + 1)]
  ++ (if Z.even n then [Put16 0] else [])
  ++ [Put32 1; Put32 1; Put32 0x00020004; Put64 0; Put32 0xffffffff; Put32 0x00020008; Put32 0].

Definition enum_fields (fd bct : Z) : list (string * Z) :=
  let data_count := u16 (bct - 17) in
  [("wct", 16); ("max_data_count", 4280); ("setup_count", 2); ("pipe_function", 0x26);
   ("fid", SMB_FD_FID fd); ("bct", bct); ("data_count", data_count); ("total_data_count", data_count);
   ("data_offset", 84); ("param_offset", 84)].

(** Phase 1: the error, or the answer. A missing answer leaves [resp]
    uninitialised; whatever its size field then holds, the result is the
    same. *)
Definition share_bind s (ipc_tid fd : Z) : io ((Z + smb_message) * smb_session T) :=
  req ← smb_message_new SMD_CMD_TRANS;
  match req with
  | None => mret (inl DSM_ERROR_GENERIC, s)
  | Some msg =>
      msg ← set_header msg [("tid", ipc_tid)];
      msg ← put_pkt msg smb_trans_req (bind_fields fd);
      msg ← puts msg bind_calls;
      '(r, s, _) ← smb_session_send_msg s msg;
      if r =? 0 then mret (inl DSM_ERROR_NETWORK, s)
      else
        '(r, resp, s) ← smb_session_recv_msg s;
        match resp with
        | None => _ ← pick; mret (inl DSM_ERROR_NETWORK, s)
        | Some resp =>
            if payload_size resp <? 71 then mret (inl DSM_ERROR_NETWORK, s)
            else
              p ← access (packet resp);
              x ← access (rd p (32 + 68));
              mret (if (r =? 0) || negb (x =? 0) then inl DSM_ERROR_NETWORK else inr resp, s)
        end
  end.

(** The request of phase 2. *)
Definition enum_request s (ipc_tid fd : Z) msg : io smb_message :=
  msg ← set_header msg [("tid", ipc_tid)];
  msg ← advance msg (sizeof smb_trans_req);
  msg ← puts msg enum_calls1;
  let frag_len_cursor := cursor msg in
  n ← access (strlen (srv_name (srv s)));
  msg ← puts msg (enum_calls2 (srv_name (srv s)) n);
  let bct := u16 (cursor msg - sizeof smb_trans_req) in
  msg ← insert_pkt msg smb_trans_req (enum_fields fd bct);
  store_payload msg frag_len_cursor (le_bytes 1 (u16 (bct - 17))).

(** What [resp] is after the second receive. When nothing came it is still the
    answer of phase 1, whose memory belongs to the transport: the block may
    have been replaced, and otherwise holds whatever was received since. *)
Definition stale (old : smb_message) : io smb_message :=
  same ← flip;
  if negb same then lift Fault
  else
    p ← access (packet old);
    p ← uninit (zlen p);
    mret (Message (payload_size old) (cursor old) (Some p)).

(** Phases 2 and 3: the result, the list and the count. *)
Definition share_enum s (ipc_tid fd : Z) (old : smb_message)
    : io (Z * option (list (option bytes)) * option Z * smb_session T) :=
  req ← smb_message_new SMD_CMD_TRANS;
  match req with
  | None => mret (DSM_ERROR_GENERIC, None, None, s)
  | Some msg =>
      msg ← enum_request s ipc_tid fd msg;
      '(r, s, _) ← smb_session_send_msg s msg;
      if r =? 0 then mret (DSM_ERROR_NETWORK, None, None, s)
      else
        '(r, resp, s) ← smb_session_recv_msg s;
        resp ← (match resp with Some resp => mret resp | None => stale old end);
        if payload_size resp <? 4 then mret (DSM_ERROR_NETWORK, None, None, s)
        else
          bad ← (if r =? 0
                 then p ← access (packet resp);
                      x ← access (rd p (32 + payload_size resp - 4));
                      mret (negb (x =? 0))
                 else mret false);
          if bad : bool then mret (DSM_ERROR_NETWORK, None, None, s)
          else
            '(count, list) ← smb_share_parse_enum resp;
            if count =? -1 then mret (DSM_ERROR_GENERIC, list, None, s)
            else mret (DSM_SUCCESS, list, Some count, s)
  end.

(** The result, [*list] and [*pcount]. *)
Definition smb_share_get_list s : io (Z * option (list (option bytes)) * option Z * smb_session T) :=
  '(ret, ipc_tid, s) ← smb_tree_connect s ipc_name;
  if negb (ret =? DSM_SUCCESS) then mret (ret, None, None, s)
  else
    ipc_tid ← access ipc_tid;
    '(ret, fd, s) ← smb_fopen s ipc_tid srvsvc_path (Z.lor SMB_MOD_READ SMB_MOD_WRITE);
    if negb (ret =? DSM_SUCCESS) then mret (ret, None, None, s)
    else
      fd ← access fd;
      '(a, s) ← share_bind s ipc_tid fd;
      '(ret, list, count, s) ← match a with
                               | inl e => mret (e, None, None, s)
                               | inr resp => share_enum s ipc_tid fd resp
                               end;
      s ← smb_fclose s fd;
      mret (ret, list, count, s).

End Ops.

(** * Connecting to a tree *)

(** SMB_COM_TREE_CONNECT_ANDX: an empty password, the path in UCS-2 with its
    NUL, any kind of service. *)
Definition tree_params (n : Z) : bytes := [4; 0xff; 0; 0; 0; 0x0c; 0; 1; 0] ++ le_bytes 2 (n + 7).
Definition tree_body (utf : bytes) : bytes := tree_params (zlen utf) ++ [0] ++ utf ++ any_service.

Lemma built_change (P P' : Prop) m hd e e' :
  built P m hd e -> zlen e <= zlen e' -> (P' -> P /\ e = e') -> built P' m hd e'.
Proof.
  intros (wr & Hm & Hb & Hl & He) Hle HP. exists wr. split_and!; auto; [lia|]. intros H'. destruct (HP H') as [H0 <-]. auto.
Qed.

Lemma andx_small m hd w :
  small m hd [] -> wp (lift (smb_message_set_andx_members m)) (fun m' w' => w' = w /\ small m' hd []) w.
Proof.
  intros ((post & Hp & Hh & Hc & Hs & Hm) & Hb & Hsz). unfold smb_message_set_andx_members.
  rewrite Hp. cbn [checked obind app]. change (zlen []) with 0 in *.
  do 5 (destruct post as [|? post]; [exfalso; len|]).
  assert (E : set_fields smb_session_req (hd ++ z :: z0 :: z1 :: z2 :: z3 :: post) 32
      [("andx", 0xff); ("andx_reserved", 0); ("andx_offset", 0)] = Some (hd ++ [z; 255; 0; 0; 0] ++ post)).
  { replace 32 with (zlen hd) by len. apply set_fields_suffix; [decided|].
    apply (set_fields_prefix smb_session_req [z; z0; z1; z2; z3]). reflexivity. }
  change (hd ++ [] ++ ?l) with (hd ++ l). rewrite E. cbn [checked obind].
  apply wp_ret. split; [done|]. split_and!; [|apply Forall_nil; done|done].
  exists ([z; 255; 0; 0; 0] ++ post). cbn [packet cursor payload_size app] in *. split_and!; auto; len.
Qed.

Lemma fresh_share_spec h : fresh_share h <> 0 /\ h !! fresh_share h = None.
Proof.
  pose proof (is_fresh ({[0]} ∪ dom h : gset Z)) as H. fold (fresh_share h) in H.
  rewrite elem_of_union, elem_of_singleton in H. split; [tauto|]. apply not_elem_of_dom. tauto.
Qed.

(** A new node is in no list. *)
Lemma represents_new_share t TT p n :
  represents t TT -> share_heap t !! p = None -> represents (set_share t p n) TT /\ p ∉ map e_ptr TT.
Proof.
  intros (Hc & Hok & Hnd) Hp.
  assert (Hni : p ∉ map e_ptr TT).
  { intros (e & -> & He)%list_elem_of_fmap. destruct (proj1 (Forall_forall _ _) Hok e He) as (sh & Hsh & _). congruence. }
  split; [|done]. split; [|split; [|exact Hnd]].
  - cbn [set_share shares share_heap]. eapply chain_frame; [|exact Hc]. apply Forall_forall. intros x Hx. apply lookup_insert_ne. by intros <-.
  - apply Forall_forall. intros e He. eapply entry_ok_frame; [| |exact (proj1 (Forall_forall _ _) Hok e He)].
    + intros sh Hsh. exists sh. cbn. rewrite lookup_insert_ne; [done|]. intros ->. congruence.
    + by apply Forall_forall.
Qed.

Lemma set_header_small m hd hd' e l w :
  small m hd e -> set_fields smb_header hd 0 l = Some hd' -> length hd' = 32%nat ->
  wp (set_header m l) (fun m' w' => w' = w /\ small m' hd' e) w.
Proof.
  intros ((post & Hp & Hh & Hc & Hs & Hm) & Hb & Hsz) Hset Hh'.
  apply wp_bind, (wp_access _ _ _ _ _ Hp), wp_bind.
  eapply wp_access; [by apply set_fields_prefix|]. apply wp_ret. split; [done|].
  split; [|done]. by exists post.
Qed.

Lemma unc_path_Some server name n1 n2 :
  strlen server = Some n1 -> strlen name = Some n2 ->
  exists path, unc_path server name = Some path /\ zlen path = n1 + n2 + 4.
Proof.
  intros H1 H2. unfold unc_path. rewrite H1, H2. cbn [mbind option_bind]. eexists. split; [reflexivity|].
  destruct (strlen_inv _ _ H1) as (q1 & r1 & -> & -> & _), (strlen_inv _ _ H2) as (q2 & r2 & -> & -> & _). len.
Qed.

Section Trees.
Context {T : Type} (tr : smb_transport T) `{!TransportLaws tr} `{Iconv} `{!IconvLaws}.
Implicit Types s : smb_session T.

(** Converted text, with the result of the conversion ignored. *)
Lemma append_text w0 m hd e o r t w :
  built (lucky w0) m hd e -> later w0 w -> bytes_ok t -> zlen e + zlen t < 4611686018427387904 ->
  (r = 0 /\ o = None /\ (lucky w0 -> t = []) \/ 0 < r /\ r = zlen t /\ exists b, o = Some b /\ sub b 0 r = Some t) ->
  wp (append m o r) (fun m' w' => later w w' /\ built (lucky w0) m' hd (e ++ t)) w.
Proof.
  intros Hm L0 Ht Hmax [(-> & -> & Hlk)|(_ & -> & b & -> & Hsub)]; [|eapply append_built; eauto].
  apply wp_bind, wp_ret, wp_ret. split; [apply later_refl|]. eapply built_change; [exact Hm|len|].
  intros Hw. split; [done|]. by rewrite (Hlk Hw), app_nil_r.
Qed.

(** What the answer [p] says about the tree: how many parameters it has
    decides what it tells. *)
Definition share_answer (p : bytes) (sh : smb_share) : Prop :=
  field smb_header p 0 "tid" = Some (s_tid sh) /\ s_next sh = 0 /\ s_files sh = 0
  /\ (rd p 32 = Some 3 /\ field smb_tree_connect_resp p 32 "opt_support" = Some (s_opts sh)
         /\ s_rights sh = 0 /\ s_guest_rights sh = 0
      \/ rd p 32 = Some 7 /\ field smb_tree_connect_respx p 32 "opt_support" = Some (s_opts sh)
         /\ field smb_tree_connect_respx p 32 "max_rights" = Some (s_rights sh)
         /\ field smb_tree_connect_respx p 32 "guest_rights" = Some (s_guest_rights sh)).

Lemma share_of_ok m p w :
  received m p ->
  wp (share_of m p) (fun o w' => w' = w /\ match o with None => True
    | Some sh => share_answer p sh /\ 0 <= s_tid sh < 65536 end) w.
Proof.
  intros (Hm & Hpos & Hl & Hb). unfold share_of.
  destruct (proj2 (rd_is_Some p 32)) as [x Hx]; [lia|]. apply wp_bind, (wp_access _ _ _ _ _ Hx).
  destruct (field_read smb_header p 0 "tid" 24 2) as (tid & Et & Ht); [done|done|lia..|].
  change (sizeof smb_tree_connect_resp) with 9. change (sizeof smb_tree_connect_respx) with 17.
  destruct (Z.eqb_spec x 3) as [->|]; [|destruct (Z.eqb_spec x 7) as [->|]; [|by apply wp_ret]];
    (match goal with |- context [payload_size m <? ?n] => destruct (Z.ltb_spec (payload_size m) n) end; [by apply wp_ret|]);
    apply wp_bind, (wp_access _ _ _ _ _ Et).
  - destruct (field_read smb_tree_connect_resp p 32 "opt_support" 5 2) as (v1 & E1 & _); [done|done|lia..|].
    apply wp_bind, (wp_access _ _ _ _ _ E1), wp_ret. split; [done|]. split; [|done]. split_and!; auto.
  - destruct (field_read smb_tree_connect_respx p 32 "opt_support" 5 2) as (v1 & E1 & _); [done|done|lia..|].
    destruct (field_read smb_tree_connect_respx p 32 "max_rights" 7 4) as (v2 & E2 & _); [done|done|lia..|].
    destruct (field_read smb_tree_connect_respx p 32 "guest_rights" 11 4) as (v3 & E3 & _); [done|done|lia..|].
    apply wp_bind, (wp_access _ _ _ _ _ E1), wp_bind, (wp_access _ _ _ _ _ E2), wp_bind, (wp_access _ _ _ _ _ E3), wp_ret.
    split; [done|]. split; [|done]. split_and!; auto.
Qed.

(** The outcome of a connection with the answer [p]: the new share is the last
    one of the table, without files. *)
Definition tree_added s (TT : list entry) (p : bytes) (tid : option Z) s' : Prop :=
  exists sh ptr, share_answer p sh /\ tid = Some (s_tid sh) /\ 0 <= s_tid sh < 65536
    /\ represents (fds s') (TT ++ [Entry (s_tid sh) ptr []]).

Lemma tree_answer_ok s TT m p w :
  ready tr s -> represents (fds s) TT -> received m p ->
  wp (tree_answer s m) (fun '(r, tid, s') w' => later w w' /\ srv s' = srv s
    /\ (r < 0 /\ tid = None /\ fds s' = fds s \/ r = 0 /\ ready tr s' /\ tree_added s TT p tid s')) w.
Proof.
  intros Hs HR Hm. unfold tree_answer. apply wp_bind, wp_flip. intros ok. set (w1 := set_tick w _).
  assert (L : later w w1) by (by exists 1%nat).
  destruct ok; cbn [negb]; [|apply wp_ret; split_and!; auto; by left].
  pose proof Hm as (Hm0 & _). apply wp_bind, (wp_access _ _ p); [by rewrite Hm0|].
  apply wp_bind. eapply wp_mono; [by apply share_of_ok|]. intros [sh|] w2 [-> Hsh]; [|apply wp_ret; split_and!; auto; by left].
  destruct Hsh as [Ha Ht]. set (ptr := fresh_share _). destruct (fresh_share_spec (share_heap (fds s))) as [Hp0 Hpn].
  destruct (represents_new_share _ _ _ sh HR Hpn) as [HR1 Hni]. pose proof Ha as (_ & Hn0 & Hf0 & _).
  destruct (share_add_spec _ _ ptr sh HR1) as (t' & E & HR'); auto; [cbn; apply lookup_insert_eq|].
  apply wp_bind, (wp_lift _ _ _ _ _ E), wp_ret. split; [done|]. split; [done|]. right. split; [done|].
  split; [by eapply ready_transport|]. exists sh, ptr. done.
Qed.

(** The request, then the rest of the code. *)
Lemma tree_request {A} m pid path (k : smb_message -> io A) Q w w1 :
  small m (new_header SMB_CMD_TREE_CONNECT pid 0 0) [] -> later w w1 -> zlen path < 1000000 ->
  (forall m' w', later w w' -> built (lucky w) m' (new_header SMB_CMD_TREE_CONNECT pid 0xffff 0)
      (tree_body (text Locale UCS2LE path (zlen path))) -> wp (k m') Q w') ->
  wp ('(utf_path_len, utf_path) ← smb_to_utf16 path (zlen path);
      msg ← set_header m [("tid", 0xffff)];
      msg ← lift (smb_message_set_andx_members msg);
      msg ← put_pkt_andx msg smb_tree_connect_req
              [("wct", 4); ("flags", 0x0c); ("passwd_len", 1); ("bct", utf_path_len + 6 + 1)];
      msg ← put8 msg 0;
      msg ← append msg utf_path utf_path_len;
      msg ← append msg (Some any_service) 6;
      k msg) Q w1.
Proof.
  intros Hm L1 Hmax Hk. assert (Hz : 0 <= zlen path) by (unfold zlen; lia).
  destruct (text_size Locale UCS2LE path (zlen path) Hz) as [Htb Htl]. set (t := text _ _ _ _) in *.
  apply wp_bind. eapply wp_mono; [apply smb_iconv_text; lia|]. intros [r o] w2 [L2 Ht]. cbn beta iota. fold t in Ht.
  pose proof (later_trans _ _ _ L1 L2) as L12.
  apply wp_bind. eapply wp_mono; [eapply (set_header_small _ _ (new_header SMB_CMD_TREE_CONNECT pid 0xffff 0)); [exact Hm|reflexivity..]|].
  intros m1 w3 [-> Hm1]. apply wp_bind. eapply wp_mono; [by apply andx_small|]. intros m2 w3 [-> Hm2].
  apply wp_bind. eapply wp_mono.
  { eapply (put_pkt_andx_built w _ _ _ _ _ _ (tree_params r)); [by apply small_built|exact L12|reflexivity| | |done|done].
    - unfold tree_params. replace (r + 6 + 1) with (r + 7) by lia. reflexivity.
    - unfold tree_params. apply bytes_ok_app; auto with dsm. by repeat constructor. }
  intros m3 w3 [L3 Hm3]. pose proof (later_trans _ _ _ L12 L3) as L13.
  apply wp_bind. eapply wp_mono; [eapply put8_built; [exact Hm3|exact L13|done]|].
  intros m4 w4 [L4 Hm4]. pose proof (later_trans _ _ _ L13 L4) as L14. cbn [app] in Hm4.
  assert (Hr : lucky w -> r = zlen t).
  { intros Hw. destruct Ht as [(-> & _ & Hlk)|(_ & E & _)]; [|done]. by rewrite (Hlk (later_lucky _ _ L1 Hw)). }
  apply wp_bind. eapply wp_mono.
  { apply (append_text w _ _ _ _ _ t _ Hm4 L14 Htb); [len|]. destruct Ht as [(? & ? & Hlk)|?]; [left|by right].
    split_and!; auto. intros Hw. by apply Hlk, (later_lucky _ _ L1). }
  intros m5 w5 [L5 Hm5]. pose proof (later_trans _ _ _ L14 L5) as L15.
  apply wp_bind. eapply wp_mono; [eapply (append_built w _ _ _ _ _ any_service); [exact Hm5|exact L15|reflexivity|decided|len]|].
  intros m6 w6 [L6 Hm6]. apply Hk; [by eapply later_trans|]. eapply built_change; [exact Hm6|unfold tree_body, tree_params; len|].
  intros Hw. split; [done|]. rewrite (Hr Hw). unfold tree_body. by rewrite <- !app_assoc.
Qed.

Lemma tree_body_len utf : zlen (tree_body utf) = 18 + zlen utf.
Proof. unfold tree_body, tree_params, any_service. len. Qed.

Lemma tree_connect_run s TT name n1 n2 w :
  ready tr s -> represents (fds s) TT -> strlen (srv_name (srv s)) = Some n1 -> strlen name = Some n2 ->
  50 + 15 * (n1 + n2 + 4) <= 8188 -> bytes_ok (w_rx w) ->
  wp (smb_tree_connect s name) (fun '(r, tid, s') w' => bytes_ok (w_rx w') /\ srv s' = srv s
    /\ (r < 0 /\ tid = None /\ fds s' = fds s
       \/ r = 0 /\ ready tr s' /\ (lucky w -> lucky w')
         /\ (exists path, unc_path (srv_name (srv s)) name = Some path
              /\ requested (lucky w) SMB_CMD_TREE_CONNECT 0xffff (uid (srv s))
                   (tree_body (text Locale UCS2LE path (zlen path))) w w')
         /\ exists p, field smb_header p 0 "status" = Some 0 /\ tree_added s TT p tid s')) w.
Proof.
  intros Hs HR Hn1 Hn2 Hmax Hx. unfold smb_tree_connect.
  apply wp_bind. eapply wp_mono; [apply new_small|]. intros [m|] w1 [L1 Hm];
    destruct (later_world _ _ L1) as [Htx1 Hrx1]; [|apply wp_ret; rewrite Hrx1; split_and!; auto; by left].
  destruct Hm as [pid Hm]. destruct (unc_path_Some _ _ _ _ Hn1 Hn2) as (path & Hpath & Hpl).
  apply wp_bind, (wp_access _ _ _ _ _ Hpath). eapply tree_request; [exact Hm|exact L1|lia|]. intros m2 w2 L2 Hm2.
  destruct (later_world _ _ L2) as [Htx2 Hrx2].
  destruct (text_size Locale UCS2LE path (zlen path)) as [_ Htl]; [unfold zlen; lia|]. set (t := text _ _ _ _) in *.
  pose proof Hs as [Htr _]. apply wp_bind. eapply wp_mono.
  { apply (wp_within _ onward); [by apply (send_msg_onward tr)|].
    eapply send_small_ok; [exact Hs|by rewrite Hrx2|exact Hm2|rewrite tree_body_len; lia]. }
  intros [[r s1] m3] w3 [(Hx3 & Hmv & Hs1 & Hr01 & Hreq & _) Ho3]. cbn beta iota. destruct (moved_same _ _ Hmv) as (Hfds & Hsrv & Htr1).
  destruct (Z.eqb_spec r 0) as [->|Hne]; [apply wp_ret; split_and!; auto; by left|].
  apply wp_bind. eapply wp_mono.
  { apply (wp_within _ onward); [apply (receive_answer_onward tr); congruence|by apply receive_answer_ok]. }
  intros [a s2] w4 [(Htx4 & Hx4 & Ha) Ho4]. cbn beta iota. destruct a as [e|resp].
  - apply wp_ret. destruct Ha as [(-> & [t' ->])|(-> & _ & t' & st & _ & ->)]; split_and!; auto; by left.
  - destruct Ha as (Hmv2 & Hs2 & p & Hp & Hst). destruct (moved_same _ _ Hmv2) as (Hfds2 & Hsrv2 & _).
    eapply wp_mono; [eapply (tree_answer_ok s2 TT); [exact Hs2|congruence|exact Hp]|].
    intros [[r' tid] s'] w' (L5 & Hsrv' & Hres). destruct (later_world _ _ L5) as [Htx5 ->]. split; [done|].
    split; [congruence|]. destruct Hres as [(? & ? & Hf)|(-> & Hs' & Hadd)]; [left; split_and!; auto; congruence|right].
    split; [done|]. split; [done|].
    split; [intros Hw; by apply (later_lucky _ _ L5), (onward_lucky _ _ Ho4), (onward_lucky _ _ Ho3), (later_lucky _ _ L2)|].
    split; [|by exists p]. exists path. split; [done|].
    eapply (requested_frame _ _ _ _ _ w2 w3); [by apply Hreq|congruence|congruence].
Qed.

Lemma tree_disconnect_run s tid w :
  ready tr s -> 0 <= tid < 65536 -> bytes_ok (w_rx w) ->
  wp (smb_tree_disconnect s tid) (fun '(r, s') w' => fds s' = fds s
    /\ (r < 0 \/ r = 0 /\ ready tr s'
         /\ requested True SMB_CMD_TREE_DISCONNECT tid (uid (srv s)) [0; 0; 0] w w'
         /\ exists p, field smb_header p 0 "status" = Some 0
              /\ field smb_simple_struct p 32 "wct" = Some 0 /\ field smb_simple_struct p 32 "bct" = Some 0)) w.
Proof.
  intros Hs Ht Hx. unfold smb_tree_disconnect. rewrite (u16_small tid) by done.
  apply wp_bind. eapply wp_mono; [apply new_small|]. intros [m|] w1 [L1 Hm];
    destruct (later_world _ _ L1) as [Htx1 Hrx1]; [|apply wp_ret; split; auto; by left].
  destruct Hm as [pid Hm]. apply wp_bind.
  eapply wp_mono; [eapply (set_header_small _ _ (new_header SMB_CMD_TREE_DISCONNECT pid tid 0)); [exact Hm|reflexivity..]|].
  intros m1 w2 [-> Hm1]. apply wp_bind, wp_bind, (wp_access _ _ [0; 0; 0]); [reflexivity|].
  eapply wp_mono; [eapply (append_small _ _ _ [0; 0; 0] 3); [exact Hm1|reflexivity|decided|done|done]|].
  intros m2 w2 [-> Hm2]. apply wp_bind.
  eapply wp_mono; [eapply send_small_ok; [exact Hs|by rewrite Hrx1|by apply (small_built True)|done]|].
  intros [[r s1] m3] w3 (Hx3 & Hmv & Hs1 & Hr01 & Hreq & _). cbn beta iota. destruct (moved_same _ _ Hmv) as (Hfds & Hsrv & _).
  destruct (Z.eqb_spec r 0) as [->|Hne]; [apply wp_ret; split; [done|by left]|].
  eapply wp_mono; [by apply simple_answer_ok|]. intros [r' s'] w' (Hfds' & Htx' & Hres). split; [congruence|].
  destruct Hres as [?|(-> & Hs' & p & Hp)]; [by left|right]. split_and!; auto; [|by exists p].
  eapply requested_frame; [by apply Hreq|congruence|congruence].
Qed.


(** Disconnecting a tree, with any server: success is confirmed by the
    server's empty answer to one TREE DISCONNECT request for that tree. In
    every case the table is left as it was: the tree and its open files stay
    in it. *)
Theorem tree_disconnect_keeps_table s tid w :
  ready tr s -> 0 <= tid < 65536 -> bytes_ok (w_rx w) ->
  wp (smb_tree_disconnect s tid) (fun '(r, s') w' => fds s' = fds s
    /\ (r < 0 \/ r = 0 /\ ready tr s'
         /\ requested True SMB_CMD_TREE_DISCONNECT tid (uid (srv s)) [0; 0; 0] w w'
         /\ exists p, field smb_header p 0 "status" = Some 0
              /\ field smb_simple_struct p 32 "wct" = Some 0 /\ field smb_simple_struct p 32 "bct" = Some 0)) w.
Proof. apply tree_disconnect_run. Qed.

(** ** Parsing an enumeration *)

Lemma align2_bound n : 0 <= n < 4294967296 -> 0 <= u32 (align2 n * 2) <= u32 (n * 2) + 2.
Proof.
  intros Hn. unfold align2, u32. destruct (Z.odd n) eqn:E; [|zdiv].
  apply Z.odd_spec in E as [k ->]. zdiv.
Qed.

Lemma get32_range b o v : bytes_ok b -> get32 b o = Some v -> 0 <= v < 4294967296.
Proof.
  unfold get32, get_word. intros Hb. destruct (sub b o _) as [x|] eqn:Ex; [|done]. cbn. intros [= <-].
  pose proof (le_word_range x (sub_ok _ _ _ _ Hb Ex)) as Hr. apply length_sub in Ex.
  rewrite Ex in Hr. exact Hr.
Qed.

(** The loop returns, inside the message and the array: it fills in elements
    from [i] on and stops at the number it returns. *)
Lemma parse_enum_loop_run fuel p n eod i data l w :
  (Z.to_nat (eod - data) <= fuel)%nat -> 0 <= data -> 32 + eod <= zlen p -> bytes_ok p ->
  0 <= i -> n < zlen l ->
  exists i' l' w', parse_enum_loop fuel p n eod i data l w = Done ((i', l'), w') /\ later w w'
    /\ i <= i' <= Z.max i n /\ length l' = length l
    /\ (forall j, (j < Z.to_nat i \/ Z.to_nat i' <= j)%nat -> l' !! j = l !! j).
Proof.
  revert i data l w. induction fuel as [|fuel IH]; intros i data l w Hf Hd Hp Hb Hi Hn; cbn [parse_enum_loop].
  all: assert (Hstop : exists i' l' w', (mret (i, l) : io (Z * list (option bytes))) w = Done ((i', l'), w') /\ later w w'
    /\ i <= i' <= Z.max i n /\ length l' = length l
    /\ (forall j, (j < Z.to_nat i \/ Z.to_nat i' <= j)%nat -> l' !! j = l !! j))
    by (exists i, l, w; split_and!; auto with dsm; lia).
  all: destruct (Z.ltb_spec i n), (Z.ltb_spec data eod); cbn [negb andb]; try exact Hstop.
  { exfalso. lia. }
  destruct (Z.ltb_spec eod (data + 4)); [exact Hstop|].
  destruct (get_word_Some p (32 + data) 4) as [nl Hnl]; [lia..|]. change (get32 p (32 + data) = Some nl) in Hnl.
  pose proof (get32_range _ _ _ Hb Hnl) as Hr. rewrite (bind_Done _ _ _ _ _ (access_Done _ _ _ Hnl)). cbv zeta.
  destruct (Z.ltb_spec eod (data + 12 + 4 + u32 (nl * 2) + 4)); [exact Hstop|].
  pose proof (align2_bound nl Hr) as Ha. pose proof (u32_range (nl * 2)) as Hu.
  destruct (smb_iconv_total (drop (Z.to_nat (32 + (data + 12))) p) (u32 (nl * 2)) UCS2LE Locale w) as ([r o] & out & w1 & E1 & _ & L1); [len|].
  unfold smb_from_utf16. rewrite (bind_Done _ _ _ _ _ E1).
  destruct (lookup_lt_is_Some_2 l (Z.to_nat i)) as [x Hx]; [unfold zlen in *; lia|].
  rewrite (bind_Done _ _ _ _ _ (access_Done _ _ _ Hx)).
  set (data' := data + 12 + u32 (align2 nl * 2)) in *.
  destruct (get_word_Some p (32 + data') 4) as [cl Hcl]; [lia..|]. change (get32 p (32 + data') = Some cl) in Hcl.
  pose proof (align2_bound cl (get32_range _ _ _ Hb Hcl)) as Hc. rewrite (bind_Done _ _ _ _ _ (access_Done _ _ _ Hcl)).
  destruct (IH (i + 1) (data' + 12 + u32 (align2 cl * 2)) (<[Z.to_nat i := o]> l) w1) as (i' & l' & w' & E & L & Hi' & Hl & Hj); try lia.
  { done. }
  { unfold zlen in *. by rewrite length_insert. }
  rewrite E. exists i', l', w'. split; [done|]. split; [by eapply later_trans|]. split; [lia|].
  split; [by rewrite Hl, length_insert|]. intros j Hjj. rewrite Hj by lia. apply list_lookup_insert_ne. lia.
Qed.

(** Counting stops at the first NULL pointer. *)
Lemma strings_stop l k :
  l !! k = Some None -> exists r, strings_before_null l = Done r /\ (length r <= k)%nat.
Proof.
  revert k. induction l as [|o l IH]; intros k Hk; [done|]. destruct o as [x|]; [|exists []; split; [done|cbn; lia]].
  destruct k as [|k]; [done|]. destruct (IH k Hk) as (r & E & Hr). exists (x :: r). cbn. rewrite E. split; [done|cbn; lia].
Qed.

Lemma parse_enum_run m p n w :
  received m p -> get32 p 92 = Some n ->
  exists r l w', smb_share_parse_enum m w = Done ((r, l), w') /\ later w w'
    /\ (r = -1 /\ l = None
        \/ 0 <= r <= n /\ l <> None /\ (n < 4294967295 -> exists freed, smb_share_list_destroy l = Done freed
             /\ smb_share_list_count l = Done (zlen freed) /\ zlen freed <= r)).
Proof.
  intros (Hm & Hpos & Hl & Hb) Hn. unfold smb_share_parse_enum. pose proof (get32_range _ _ _ Hb Hn) as Hr.
  rewrite (bind_Done _ _ _ p w) by (apply access_Done; by rewrite Hm). change (32 + 60) with 92.
  rewrite (bind_Done _ _ _ _ _ (access_Done _ _ _ Hn)). unfold mbind at 1, io_bind at 1, flip. cbn [obind].
  destruct (w_coin w (w_tick w)); cbn [negb]; [|do 3 eexists; split; [reflexivity|split; [by exists 1%nat|by left]]].
  set (w1 := set_tick w _). pose proof (u32_range (n * 12)) as Hu.
  destruct (Z.eq_dec n 4294967295) as [->|Hne].
  - exists 0, (Some []), w1. split; [|split; [by exists 1%nat|right; split_and!; [done|lia|done|lia]]].
    change (u32 (4294967295 * 12)) with 4294967284 in *. change (u32 (4294967295 + 1)) with 0.
    unfold mbind, io_bind. destruct (Z.to_nat (payload_size m - (72 + 4294967284))); cbn [parse_enum_loop];
      (rewrite (proj2 (Z.ltb_ge (72 + 4294967284) _)) by lia); done.
  - rewrite (u32_small (n + 1)) by lia. set (l := replicate (Z.to_nat (n + 1)) None).
    destruct (parse_enum_loop_run (Z.to_nat (payload_size m - (72 + u32 (n * 12)))) p n (payload_size m) 0 (72 + u32 (n * 12)) l w1)
      as (i & l' & w' & E & L & Hi & Hlen & Hj); try done; try lia.
    { unfold l, zlen. rewrite length_replicate. lia. }
    rewrite (bind_Done _ _ _ _ _ E). exists i, (Some l'), w'. split; [done|]. split; [by apply later_step|]. right. split; [lia|]. split; [done|]. intros _.
    destruct (strings_stop l' (Z.to_nat i)) as (r & Er & Hlr).
    { rewrite Hj by lia. unfold l. apply lookup_replicate_2. lia. }
    exists r. cbn. rewrite Er. split; [done|]. split; [done|]. unfold zlen. lia.
Qed.


(** With a count of 2^32-1 the size of the array wraps to 0: the list
    handed out has no element, not even the final NULL, so that counting it
    reads past its block. *)
Theorem parse_enum_wraps m p w :
  received m p -> get32 p 92 = Some 4294967295 -> w_coin w (w_tick w) = true ->
  exists w', smb_share_parse_enum m w = Done ((0, Some []), w') /\ smb_share_list_count (Some []) = Fault.
Proof.
  intros (Hm & Hpos & Hl & Hb) Hn Hc. eexists. split; [|done]. unfold smb_share_parse_enum.
  rewrite (bind_Done _ _ _ p w) by (apply access_Done; by rewrite Hm). change (32 + 60) with 92.
  rewrite (bind_Done _ _ _ _ _ (access_Done _ _ _ Hn)). unfold mbind at 1, io_bind at 1, flip. cbn [obind].
  rewrite Hc. cbn [negb]. change (u32 (4294967295 * 12)) with 4294967284. change (u32 (4294967295 + 1)) with 0.
  unfold mbind, io_bind. destruct (Z.to_nat (payload_size m - (72 + 4294967284))); cbn [parse_enum_loop];
    (rewrite (proj2 (Z.ltb_ge (72 + 4294967284) _)) by lia); reflexivity.
Qed.

(** ** A well-formed enumeration *)

(** A string of NetShareInfo1: maximum, offset and actual count of UCS-2
    units, then the text, aligned to 4 bytes. *)
Definition enum_string (u : bytes) : bytes :=
  let k := zlen u `div` 2 in
  le_bytes 4 k ++ le_bytes 4 0 ++ le_bytes 4 k ++ u ++ (if Z.odd k then [0; 0] else []).

(** A share: its name and its comment. *)
Definition enum_entry (e : bytes * bytes) : bytes := enum_string e.1 ++ enum_string e.2.

Definition ucs2 (u : bytes) : Prop := Z.even (zlen u) = true /\ zlen u < 65536.

Lemma enum_string_len u : ucs2 u ->
  zlen (enum_string u) = 12 + u32 (align2 (zlen u `div` 2) * 2)
  /\ u32 (zlen u `div` 2 * 2) = zlen u /\ 0 <= zlen u `div` 2 < 4294967296.
Proof.
  intros [He Hl]. apply Z.even_spec in He as [k Hk]. assert (Hz : 0 <= zlen u) by (unfold zlen; lia).
  assert (E : zlen u `div` 2 = k) by (rewrite Hk, Z.mul_comm; apply Z.div_mul; lia).
  unfold enum_string, align2. rewrite E. split; [|split; [rewrite u32_small by lia; lia|lia]].
  destruct (Z.odd k).
  - rewrite (u32_small (k + 1)) by lia. rewrite u32_small by lia. len.
  - rewrite u32_small by lia. len.
Qed.

Lemma get32_app pre v rest n :
  n = zlen pre -> 0 <= v < 4294967296 -> get32 (pre ++ le_bytes 4 v ++ rest) n = Some v.
Proof.
  intros -> Hv. unfold get32, get_word. rewrite sub_app by len. cbn. f_equal. by apply (le_word_bytes_small 4).
Qed.

(** The block of a converted name starts with the text. *)
Definition holds_text (u : bytes) (block : bytes) : Prop :=
  take (length (text UCS2LE Locale u (zlen u))) block = text UCS2LE Locale u (zlen u).

Definition readable (e : bytes * bytes) : Prop :=
  ucs2 e.1 /\ ucs2 e.2 /\ text UCS2LE Locale e.1 (zlen e.1) <> [].

(** One share, then the rest of the loop. *)
Lemma parse_enum_step fuel pre e rest n eod i l x w :
  readable e -> lucky w -> 0 <= i < n -> l !! Z.to_nat i = Some x ->
  32 <= zlen pre -> zlen (pre ++ enum_entry e) <= 32 + eod -> 32 + eod <= zlen (pre ++ enum_entry e ++ rest) ->
  exists b w', later w w' /\ holds_text e.1 b
    /\ parse_enum_loop (S fuel) (pre ++ enum_entry e ++ rest) n eod i (zlen pre - 32) l w
       = parse_enum_loop fuel (pre ++ enum_entry e ++ rest) n eod (i + 1) (zlen (pre ++ enum_entry e) - 32)
           (<[Z.to_nat i := Some b]> l) w'.
Proof.
  destruct e as [u v]. intros (Hu & Hv & Ht) Hw Hi Hx Hpre Hle Heod. cbn [fst snd] in *.
  destruct (enum_string_len u Hu) as (Hlu & Eu & Hku), (enum_string_len v Hv) as (Hlv & Ev & Hkv).
  pose proof (align2_bound _ Hku) as Hau. rewrite Eu in Hau.
  assert (Hlen : zlen (pre ++ enum_entry (u, v)) = zlen pre + zlen (enum_string u) + zlen (enum_string v)) by (unfold enum_entry; len).
  pose proof (u32_range (align2 (zlen v `div` 2) * 2)) as Hcv.
  set (p := pre ++ enum_entry (u, v) ++ rest) in *.
  assert (E1 : get32 p (32 + (zlen pre - 32)) = Some (zlen u `div` 2)).
  { unfold p, enum_entry, enum_string. rewrite <- !app_assoc. apply get32_app; [lia|done]. }
  assert (E2 : get32 p (32 + (zlen pre - 32 + 12 + u32 (align2 (zlen u `div` 2) * 2))) = Some (zlen v `div` 2)).
  { unfold p, enum_entry. cbn [fst snd]. rewrite <- (app_assoc (enum_string u)), (app_assoc pre). unfold enum_string at 2.
    rewrite <- !(app_assoc (le_bytes 4 (zlen v `div` 2))). apply get32_app; [len|done]. }
  assert (E3 : take (Z.to_nat (zlen u)) (drop (Z.to_nat (32 + (zlen pre - 32 + 12))) p) = u).
  { unfold p, enum_entry, enum_string. cbn [fst snd]. rewrite <- !app_assoc.
    rewrite 2!app_assoc, (app_assoc _ (le_bytes 4 _)). rewrite drop_app_length' by len.
    apply take_app_length'. unfold zlen. lia. }
  cbn [parse_enum_loop]. rewrite (proj2 (Z.ltb_lt i n)), (proj2 (Z.ltb_lt (zlen pre - 32) eod)) by lia. cbn [andb negb].
  rewrite (proj2 (Z.ltb_ge eod _)) by lia. rewrite (bind_Done _ _ _ _ _ (access_Done _ _ _ E1)). cbv zeta.
  assert (Hge : 12 + zlen u <= zlen (enum_string u)) by (unfold enum_string; len).
  rewrite Eu, (proj2 (Z.ltb_ge eod _)) by lia.
  destruct (smb_iconv_Done (drop (Z.to_nat (32 + (zlen pre - 32 + 12))) p) (zlen u) UCS2LE Locale w) as (r & o & w1 & E & L & Hc).
  { rewrite <- E3 at 2. len. }
  { destruct Hu. lia. }
  unfold smb_from_utf16. rewrite (bind_Done _ _ _ _ _ E), (bind_Done _ _ _ _ _ (access_Done _ _ _ Hx)).
  rewrite (bind_Done _ _ _ _ _ (access_Done _ _ _ E2)). rewrite text_take, E3 in Hc.
  destruct Hc as [(_ & _ & Hn)|(_ & -> & b & -> & Hsub)]; [by specialize (Hn Hw)|].
  exists b, w1. split; [done|]. split.
  - apply sub_inv in Hsub as (_ & _ & _ & Hsub). unfold holds_text. rewrite Hsub at 2. unfold zlen. by rewrite Nat2Z.id, drop_0.
  - f_equal. lia.
Qed.

Definition enum_entries (es : list (bytes * bytes)) : bytes := concat (map enum_entry es).

Lemma parse_enum_all es fuel pre rest n eod i l w :
  Forall readable es -> lucky w -> 0 <= i -> n = i + zlen es -> n <= zlen l -> (length es <= fuel)%nat ->
  32 <= zlen pre -> zlen (pre ++ enum_entries es) <= 32 + eod -> 32 + eod <= zlen (pre ++ enum_entries es ++ rest) ->
  exists names w', Forall2 (fun e b => holds_text e.1 b) es names
    /\ parse_enum_loop fuel (pre ++ enum_entries es ++ rest) n eod i (zlen pre - 32) l w
       = Done ((n, take (Z.to_nat i) l ++ map Some names ++ drop (Z.to_nat n) l), w').
Proof.
  intros Hes. revert fuel pre i l w. induction Hes as [|e es He Hes IH]; intros fuel pre i l w Hw Hi -> Hn Hf Hpre Hle Heod.
  - exists [], w. split; [constructor|]. change (zlen []) with 0. rewrite Z.add_0_r.
    destruct fuel; cbn [parse_enum_loop]; rewrite Z.ltb_irrefl; cbn [andb negb map app]; by rewrite take_drop.
  - destruct fuel as [|fuel]; [cbn in Hf; lia|].
    assert (Hz : zlen (e :: es) = zlen es + 1) by len. rewrite Hz in *. assert (0 <= zlen es) by (unfold zlen; lia).
    change (enum_entries (e :: es)) with (enum_entry e ++ enum_entries es) in *. rewrite <- app_assoc in *.
    destruct (lookup_lt_is_Some_2 l (Z.to_nat i)) as [x Hx]; [unfold zlen in *; lia|].
    destruct (parse_enum_step fuel pre e (enum_entries es ++ rest) (i + (zlen es + 1)) eod i l x w)
      as (b & w1 & L1 & Hb & E); auto; [lia|len|].
    rewrite E. destruct (IH fuel (pre ++ enum_entry e) (i + 1) (<[Z.to_nat i := Some b]> l) w1) as (names & w' & Hnm & E2).
    { by eapply later_lucky. } { lia. } { lia. } { unfold zlen in *. rewrite length_insert. lia. } { cbn in Hf. lia. }
    { len. } { by rewrite <- app_assoc. } { by rewrite <- app_assoc. }
    rewrite <- app_assoc in E2. replace (i + 1 + zlen es) with (i + (zlen es + 1)) in E2 by lia. rewrite E2.
    exists (b :: names), w'. split; [by constructor|]. do 3 f_equal. cbn [map].
    replace (Z.to_nat (i + 1)) with (S (Z.to_nat i)) by lia.
    rewrite (take_S_r _ _ (Some b)) by (apply list_lookup_insert_eq; unfold zlen in *; lia).
    rewrite take_insert_ge, drop_insert_lt by lia. by rewrite <- app_assoc.
Qed.

Lemma enum_entries_len es : 24 * zlen es <= zlen (enum_entries es).
Proof.
  induction es as [|e es IH]; [done|]. change (enum_entries (e :: es)) with (enum_entry e ++ enum_entries es).
  assert (24 <= zlen (enum_entry e)) by (unfold enum_entry, enum_string; len). len.
Qed.

Lemma strings_all names : strings_before_null (map Some names ++ [None]) = Done names.
Proof. induction names as [|x names IH]; [done|]. cbn. by rewrite IH. Qed.

(** C28. A well-formed answer to NetShareEnumAll, memory being available: the
    list has one string per share, in order, each the converted name; counting
    the list gives the number of the shares and indexing it the strings. *)
Theorem parse_enum_reads hd h60 h8 infos es rest size w :
  length hd = 32%nat -> length h60 = 60%nat -> length h8 = 8%nat -> zlen infos = 12 * zlen es ->
  Forall readable es -> lucky w ->
  let msg := hd ++ h60 ++ le_bytes 4 (zlen es) ++ h8 ++ infos ++ enum_entries es in
  zlen msg <= 32 + size < 131072 -> size <= zlen (msg ++ rest) - 32 ->
  exists names w', Forall2 (fun e b => holds_text e.1 b) es names
    /\ smb_share_parse_enum (Message size 0 (Some (msg ++ rest))) w = Done ((zlen es, Some (map Some names ++ [None])), w')
    /\ smb_share_list_count (Some (map Some names ++ [None])) = Done (zlen es)
    /\ forall k b, names !! k = Some b -> smb_share_list_at (Some (map Some names ++ [None])) (Z.of_nat k) = Done (Some b).
Proof.
  intros Hhd H60 H8 Hinf Hes Hw msg Hle Hsz. set (n := zlen es) in *. assert (Hn0 : 0 <= n) by (unfold n, zlen; lia).
  assert (Hn : 12 * n < 131072) by (unfold msg in Hle; len).
  set (pre := hd ++ h60 ++ le_bytes 4 n ++ h8 ++ infos).
  assert (Hpre : zlen pre = 104 + 12 * n) by (unfold pre; len).
  assert (Hmsg : msg ++ rest = pre ++ enum_entries es ++ rest) by (unfold msg, pre; by rewrite <- !app_assoc).
  assert (Hmsg' : msg = pre ++ enum_entries es) by (unfold msg, pre; by rewrite <- !app_assoc).
  assert (Hcount : get32 (msg ++ rest) (32 + 60) = Some n).
  { unfold msg. rewrite <- !app_assoc, (app_assoc hd). apply get32_app; [len|lia]. }
  destruct (parse_enum_all es (Z.to_nat (size - (72 + n * 12))) pre rest n size 0 (replicate (Z.to_nat (n + 1)) None)
    (set_tick w (S (w_tick w)))) as (names & w' & Hnm & E); auto; try (unfold zlen in *; rewrite ?length_replicate; lia).
  { pose proof (enum_entries_len es). rewrite Hmsg' in Hle. len. }
  { by rewrite <- Hmsg'; lia. }
  { rewrite <- Hmsg. lia. }
  exists names, w'. split; [done|].
  assert (El : length names = length es) by (symmetry; by eapply Forall2_length).
  split; [|split].
  - unfold smb_share_parse_enum. rewrite (bind_Done _ _ _ (msg ++ rest) w) by done.
    rewrite (bind_Done _ _ _ _ _ (access_Done _ _ _ Hcount)). unfold mbind at 1, io_bind at 1, flip. cbn [obind].
    rewrite Hw. cbn [negb payload_size]. rewrite (u32_small (n * 12)), (u32_small (n + 1)) by lia.
    rewrite Hmsg. replace (72 + n * 12) with (zlen pre - 32) at 2 by lia. rewrite (bind_Done _ _ _ _ _ E).
    rewrite drop_replicate. replace (Z.to_nat (n + 1) - Z.to_nat n)%nat with 1%nat by lia. done.
  - cbn. rewrite strings_all. cbn. unfold n, zlen. by rewrite El.
  - intros k b Hk. cbn. rewrite Nat2Z.id, lookup_app_l by (rewrite length_map; by eapply lookup_lt_Some).
    by rewrite list_lookup_fmap, Hk.
Qed.

(** ** Listing the shares *)

(** The parameters of the two transactions on the pipe: the bind and the call. *)
Definition trans_params (max_data count fid bct : Z) : bytes :=
  [16; 0; 0] ++ le_bytes 2 count ++ [0; 0] ++ le_bytes 2 max_data ++ replicate 12 0 ++ [84; 0]
  ++ le_bytes 2 count ++ [84; 0; 2; 0; 0x26; 0] ++ le_bytes 2 fid ++ le_bytes 2 bct.

Definition bind_body (fd : Z) : bytes := trans_params 0xffff 72 (SMB_FD_FID fd) 89 ++ puts_data bind_calls.

(** The length of the RPC packet is in the transaction and in the packet. *)
Definition enum_body (fd : Z) (server : bytes) (n : Z) : bytes :=
  let c1 := puts_data enum_calls1 in
  let c2 := puts_data (enum_calls2 server n) in
  let bct := u16 (zlen c1 + zlen c2) in
  trans_params 4280 (u16 (bct - 17)) (SMB_FD_FID fd) bct ++ c1 ++ le_bytes 1 (u16 (bct - 17)) ++ drop 1 c2.

Lemma trans_params_ok a b c d : bytes_ok (trans_params a b c d) /\ zlen (trans_params a b c d) = 35.
Proof.
  split; [|done]. unfold trans_params. repeat apply bytes_ok_app; auto with dsm; try (by repeat constructor).
Qed.

Lemma pipe_text : 0 <= zlen (text Locale UCS2LE pipe_name 7) <= 105.
Proof. destruct (text_size Locale UCS2LE pipe_name 7) as [_ ?]; lia. Qed.

Lemma bind_calls_ok : Forall put_call_ok bind_calls /\ zlen (puts_data bind_calls) <= 180.
Proof.
  pose proof pipe_text. split; [repeat (apply Forall_cons; split; [done || (split; [done|decided]) || (split; done)|]); by apply Forall_nil|].
  unfold puts_data, bind_calls. cbn [map concat put_data]. len.
Qed.

Lemma share_bind_ok s tid fd w :
  ready tr s -> bytes_ok (w_rx w) -> lucky w ->
  wp (share_bind s tid fd) (fun '(a, s') w' => bytes_ok (w_rx w') /\ fds s' = fds s /\ srv s' = srv s
    /\ ready tr s' /\ lucky w'
    /\ match a with
       | inl e => e < 0
       | inr m => requested True SMD_CMD_TRANS tid (uid (srv s)) (bind_body fd) w w' /\ exists p, received m p
       end) w.
Proof.
  intros Hs Hx Hw. unfold share_bind. apply wp_bind. eapply wp_mono; [apply new_built|].
  intros [m|] w1 [L1 Hm]; [|done]. destruct Hm as [pid Hm]. apply wp_bind.
  eapply wp_mono; [eapply (set_header_built _ _ _ (new_header SMD_CMD_TRANS pid tid 0)); [exact Hm|reflexivity..]|].
  intros m1 w2 [-> Hm1]. destruct (trans_params_ok 0xffff 72 (SMB_FD_FID fd) 89) as [Hpb Hpl].
  apply wp_bind. eapply wp_mono.
  { eapply (put_pkt_built w _ _ _ _ _ (trans_params 0xffff 72 (SMB_FD_FID fd) 89)); [exact Hm1|exact L1|reflexivity|done|done|done]. }
  intros m2 w2 [L2 Hm2]. pose proof (later_trans _ _ _ L1 L2) as L12. destruct bind_calls_ok as [Hc Hcl].
  apply wp_bind. eapply wp_mono; [eapply puts_built; [exact Hm2|exact L12|done|cbn [app]; lia]|].
  intros m3 w3 [L3 Hm3]. pose proof (later_trans _ _ _ L12 L3) as L13. destruct (later_world _ _ L13) as [Htx3 Hrx3].
  change ([] ++ ?x) with x in Hm3. fold (bind_body fd) in Hm3. assert (Hz : zlen (bind_body fd) <= 215) by (unfold bind_body; len).
  pose proof Hs as [Htr _]. apply wp_bind. eapply wp_mono.
  { apply (wp_within _ onward); [by apply (send_msg_onward tr)|].
    eapply send_small_ok; [exact Hs|by rewrite Hrx3|exact Hm3|lia]. }
  intros [[r s1] m4] w4 [(Hx4 & Hmv & Hs1 & Hr01 & Hreq & _) Ho4]. cbn beta iota. destruct (moved_same _ _ Hmv) as (Hfds & Hsrv & Htr1).
  pose proof (onward_lucky _ _ Ho4 (later_lucky _ _ L13 Hw)) as Hw4.
  destruct (Z.eqb_spec r 0) as [->|Hne]; [by apply wp_ret|].
  apply wp_bind. eapply wp_mono; [apply (wp_within _ onward); [apply (recv_msg_onward tr); congruence|by apply recv_msg_any]|].
  intros [[r2 o] s2] w5 [(Htx5 & Hx5 & Hmv2 & Hrd & Ho) Ho5]. cbn beta iota. destruct (moved_same _ _ Hmv2) as (Hfds2 & Hsrv2 & _).
  pose proof (onward_lucky _ _ Ho5 Hw4) as Hw5. specialize (Hrd (or_intror Hw5)).
  assert (Hsame : fds s2 = fds s /\ srv s2 = srv s) by (split; congruence). destruct Hsame.
  destruct o as [resp|].
  2: { apply wp_bind. unfold pick, wpf at 1. by apply wp_ret. }
  destruct Ho as [Epl Hp]. destruct (Z.ltb_spec (payload_size resp) 71); [by apply wp_ret|].
  destruct Hp as [p Hp]; [lia|]. pose proof Hp as (Hresp & Hpos & Hl & Hb).
  apply wp_bind, (wp_access _ _ p); [by rewrite Hresp|]. destruct (proj2 (rd_is_Some p (32 + 68))) as [x Hxx]; [lia|].
  apply wp_bind, (wp_access _ _ _ _ _ Hxx), wp_ret. split_and!; auto. rewrite (proj2 (Z.eqb_neq r2 0)) by lia. cbn [orb].
  destruct (negb (x =? 0)); [done|]. split; [|by exists p].
  eapply requested_frame; [eapply requested_mono; [by apply Hreq|done]|congruence|congruence].
Qed.

Lemma enum_calls_ok server n :
  0 <= n + 1 <= zlen server -> n <= 15 ->
  Forall put_call_ok enum_calls1 /\ Forall put_call_ok (enum_calls2 server n)
  /\ 11 <= zlen (puts_data enum_calls1) <= 120 /\ zlen (puts_data (enum_calls2 server n)) <= 320
  /\ exists c2, puts_data (enum_calls2 server n) = [0; 0] ++ c2.
Proof.
  intros Hn Hm. pose proof pipe_text. destruct (text_size Locale UCS2LE server (n + 1)) as [_ Ht]; [lia|]. split_and!.
  - repeat (apply Forall_cons; split; [done || (split; [done|decided]) || (split; done)|]); by apply Forall_nil.
  - unfold enum_calls2. repeat apply Forall_app_2; [| |repeat (apply Forall_cons; split; [done|]); by apply Forall_nil].
    + repeat (apply Forall_cons; split; [done || (split; lia)|]). by apply Forall_nil.
    + destruct (Z.even n); repeat constructor.
  - unfold puts_data, enum_calls1. cbn [map concat put_data]. len.
  - unfold puts_data, enum_calls1. cbn [map concat put_data]. len.
  - unfold puts_data, enum_calls2. rewrite !map_app, !concat_app. destruct (Z.even n); cbn [map concat put_data app]; len.
  - unfold puts_data, enum_calls2. rewrite map_app. cbn [map concat put_data app]. eexists. reflexivity.
Qed.

Lemma behind_cursor k P m hd e : behind k P m hd e -> P -> cursor m = k + zlen e.
Proof. intros (pre & wr & Hpre & (post & _ & _ & Hc & _) & _ & _ & He) HP. rewrite Hc, (He HP). len. Qed.

(** Bytes of the payload are replaced. *)
Lemma store_built P m hd e off src e' w :
  built P m hd e -> P -> put e off src = Some e' -> bytes_ok src ->
  wp (store_payload m off src) (fun m' w' => w' = w /\ built True m' hd e') w.
Proof.
  intros (wr & (post & Hp & Hh & Hc & Hs & Hm) & Hb & Hl & He) HP Hput Hsrc. rewrite (He HP) in *.
  pose proof (length_put _ _ _ _ Hput) as Hlen.
  apply wp_bind, (wp_access _ _ _ _ _ Hp), wp_bind, (wp_access _ _ (hd ++ e' ++ post)).
  { replace 32 with (zlen hd) by len. apply put_suffix; [|by apply put_prefix]. by apply put_inv in Hput as (? & _). }
  apply wp_ret. split; [done|]. exists e'. split; [|split; [exact (put_ok _ _ _ _ Hb Hsrc Hput)|done]]. exists post. cbn. split_and!; auto; congruence.
Qed.

Lemma enum_request_ok s tid fd m pid n w :
  lucky w -> small m (new_header SMD_CMD_TRANS pid 0 0) [] -> strlen (srv_name (srv s)) = Some n -> n <= 15 ->
  wp (enum_request s tid fd m) (fun m' w' => later w w'
    /\ built True m' (new_header SMD_CMD_TRANS pid tid 0) (enum_body fd (srv_name (srv s)) n)) w.
Proof.
  intros Hw Hm Hn Hmax. unfold enum_request. set (server := srv_name (srv s)) in *.
  assert (Hlen : 0 <= n + 1 <= zlen server) by (destruct (strlen_inv _ _ Hn) as (q & rest & -> & -> & _); len).
  destruct (enum_calls_ok server n Hlen Hmax) as (Hok1 & Hok2 & Hl1 & Hl2 & c2 & Ec2).
  set (c := puts_data enum_calls1) in *. set (c' := puts_data (enum_calls2 server n)) in *.
  apply wp_bind. eapply wp_mono; [eapply (set_header_small _ _ (new_header SMD_CMD_TRANS pid tid 0)); [exact Hm|reflexivity..]|].
  intros m1 w1 (-> & Hm1 & _ & Hsz). apply wp_bind.
  eapply wp_mono; [apply (advance_behind (lucky w)); [exact Hm1|change (sizeof smb_trans_req) with 35; lia]|].
  intros m2 w1 [-> Hm2]. change (sizeof smb_trans_req) with 35 in *.
  apply wp_bind. eapply wp_mono; [eapply (puts_behind w); [exact Hm2|apply later_refl|done|lia|]|].
  { fold c. change (zlen []) with 0. lia. }
  intros m3 w3 [L3 Hm3]. fold c in Hm3. cbn [app] in Hm3. cbv zeta. rewrite (behind_cursor _ _ _ _ _ Hm3 Hw).
  apply wp_bind, (wp_access _ _ _ _ _ Hn), wp_bind.
  eapply wp_mono; [eapply (puts_behind w); [exact Hm3|exact L3|done|lia|fold c'; lia]|].
  intros m4 w4 [L4 Hm4]. fold c' in Hm4. rewrite (behind_cursor _ _ _ _ _ Hm4 Hw).
  replace (35 + zlen (c ++ c') - 35) with (zlen c + zlen c') by len. set (bct := u16 (zlen c + zlen c')).
  apply wp_bind. destruct (trans_params_ok 4280 (u16 (bct - 17)) (SMB_FD_FID fd) bct) as [Hpb Hpl].
  unfold insert_pkt. apply wp_bind, (wp_access _ _ (trans_params 4280 (u16 (bct - 17)) (SMB_FD_FID fd) bct)); [reflexivity|].
  eapply wp_mono; [by eapply (insert_built _ _ _ _ smb_trans_req)|]. intros m5 w5 [-> Hm5].
  eapply wp_mono; [eapply store_built; [exact Hm5|exact Hw| |apply le_bytes_ok]|].
  - rewrite (app_assoc (trans_params _ _ _ _)), Ec2. cbn [app]. apply (put_app _ [0]); [len|done].
  - intros m6 w6 [-> Hm6]. split; [by eapply later_trans|]. unfold enum_body. cbv zeta. fold c c' bct. rewrite Ec2. cbn [app drop].
    revert Hm6. rewrite <- !app_assoc. done.
Qed.

Lemma stale_ok m p w : received m p -> lucky w -> wp (stale m) (fun m' w' => later w w' /\ exists p', received m' p') w.
Proof.
  intros (Hm & Hpos & Hl & Hb) Hw. unfold stale. apply wp_bind. unfold flip, wpf at 1. rewrite Hw. cbn [negb].
  apply wp_bind, (wp_access _ _ p); [by rewrite Hm|]. apply wp_bind. unfold uninit, wpf at 1. apply wp_ret.
  split; [by exists 2%nat|]. eexists. split; [rewrite Hm; reflexivity|]. cbn [payload_size].
  split; [lia|]. split; [|auto with dsm]. unfold zlen in *. rewrite length_junk_bytes. lia.
Qed.

Lemma share_enum_ok s tid fd old p n w :
  ready tr s -> bytes_ok (w_rx w) -> lucky w -> received old p -> strlen (srv_name (srv s)) = Some n -> n <= 15 ->
  wp (share_enum s tid fd old) (fun '(r, l, c, s') w' => bytes_ok (w_rx w') /\ fds s' = fds s /\ ready tr s'
    /\ (r < 0 /\ c = None \/ r = 0 /\ l <> None /\ exists k, c = Some k /\ 0 <= k
         /\ requested True SMD_CMD_TRANS tid (uid (srv s)) (enum_body fd (srv_name (srv s)) n) w w')) w.
Proof.
  intros Hs Hx Hw Hold Hn Hmax. unfold share_enum. apply wp_bind. eapply wp_mono; [apply new_small|].
  intros [m|] w1 [L1 Hm]; [|done]. destruct Hm as [pid Hm]. apply wp_bind.
  eapply wp_mono; [eapply enum_request_ok; [by eapply later_lucky|exact Hm|exact Hn|done]|].
  intros m2 w2 [L2 Hm2]. pose proof (later_trans _ _ _ L1 L2) as L12. destruct (later_world _ _ L12) as [Htx2 Hrx2].
  assert (Hz : zlen (enum_body fd (srv_name (srv s)) n) <= 500).
  { assert (Hlen : 0 <= n + 1 <= zlen (srv_name (srv s))) by (destruct (strlen_inv _ _ Hn) as (q & rest & -> & -> & _); len).
    destruct (enum_calls_ok _ _ Hlen Hmax) as (_ & _ & Hl1 & Hl2 & _). unfold enum_body. cbv zeta.
    destruct (trans_params_ok 4280 (u16 (u16 (zlen (puts_data enum_calls1) + zlen (puts_data (enum_calls2 (srv_name (srv s)) n))) - 17))
      (SMB_FD_FID fd) (u16 (zlen (puts_data enum_calls1) + zlen (puts_data (enum_calls2 (srv_name (srv s)) n))))) as [_ Hpl]. len. }
  pose proof Hs as [Htr _]. apply wp_bind. eapply wp_mono.
  { apply (wp_within _ onward); [by apply (send_msg_onward tr)|]. eapply send_small_ok; [exact Hs|by rewrite Hrx2|exact Hm2|lia]. }
  intros [[r s1] m4] w4 [(Hx4 & Hmv & Hs1 & Hr01 & Hreq & _) Ho4]. cbn beta iota. destruct (moved_same _ _ Hmv) as (Hfds & Hsrv & Htr1).
  pose proof (onward_lucky _ _ Ho4 (later_lucky _ _ L12 Hw)) as Hw4.
  destruct (Z.eqb_spec r 0) as [->|Hne]; [apply wp_ret; split_and!; auto; by left|].
  apply wp_bind. eapply wp_mono; [apply (wp_within _ onward); [apply (recv_msg_onward tr); congruence|by apply recv_msg_any]|].
  intros [[r2 o] s2] w5 [(Htx5 & Hx5 & Hmv2 & Hrd & Ho) Ho5]. cbn beta iota. destruct (moved_same _ _ Hmv2) as (Hfds2 & _).
  pose proof (onward_lucky _ _ Ho5 Hw4) as Hw5. specialize (Hrd (or_intror Hw5)).
  assert (Hreq5 : forall w', w_tx w' = w_tx w5 -> requested True SMD_CMD_TRANS tid (uid (srv s)) (enum_body fd (srv_name (srv s)) n) w w').
  { intros w' E. eapply requested_frame; [by apply Hreq|congruence|congruence]. }
  apply wp_bind, (wp_mono _ _ (fun m' w' => later w5 w' /\ (payload_size m' < 4 \/ exists p', received m' p'))).
  { destruct o as [resp|].
    - apply wp_ret. split; [apply later_refl|]. destruct Ho as [E Hp]. destruct (Z.lt_ge_cases (payload_size resp) 4); [by left|right].
      apply Hp. lia.
    - eapply wp_mono; [by eapply stale_ok|]. intros m' w' [? ?]. auto. }
  intros resp w6 [L6 Hresp]. destruct (later_world _ _ L6) as [Htx6 Hrx6].
  assert (Herr : forall w' e (l : smb_share_list), w_rx w' = w_rx w5 -> e < 0 ->
    bytes_ok (w_rx w') /\ fds s2 = fds s /\ ready tr s2 /\ (e < 0 /\ @None Z = None \/ e = 0 /\ l <> None /\ exists k, @None Z = Some k /\ 0 <= k
      /\ requested True SMD_CMD_TRANS tid (uid (srv s)) (enum_body fd (srv_name (srv s)) n) w w')).
  { intros w' e l E He. rewrite E. split_and!; auto. congruence. }
  destruct (Z.ltb_spec (payload_size resp) 4); [apply wp_ret; by apply Herr|].
  destruct Hresp as [?|[p' Hp']]; [lia|]. pose proof Hp' as (Hresp & Hpos & Hl & Hb).
  apply wp_bind, (wp_mono _ _ (fun _ w' => w' = w6)).
  { destruct (r2 =? 0); [|by apply wp_ret]. apply wp_bind, (wp_access _ _ p'); [by rewrite Hresp|].
    destruct (proj2 (rd_is_Some p' (32 + payload_size resp - 4))) as [x Hxx]; [lia|]. by apply wp_bind, (wp_access _ _ _ _ _ Hxx), wp_ret. }
  intros bad w7 ->. destruct bad; [apply wp_ret; by apply Herr|].
  destruct (get_word_Some p' 92 4) as [cnt Hcnt]; [lia..|].
  destruct (parse_enum_run resp p' cnt w6 Hp' Hcnt) as (k & l & w8 & E & L8 & Hk). destruct (later_world _ _ L8) as [Htx8 Hrx8].
  apply wp_bind. eapply wp_Done; [exact E|]. cbn beta iota. destruct (Z.eqb_spec k (-1)) as [->|Hkne]; apply wp_ret.
  - apply Herr; [congruence|done].
  - destruct Hk as [[? _]|(Hk & Hln & _)]; [done|]. split; [congruence|]. split; [congruence|]. split; [done|].
    right. split; [done|]. split; [done|]. exists k. split; [done|]. split; [lia|]. apply Hreq5. congruence.
Qed.

Lemma share_get_list_run s TT n w :
  ready tr s -> represents (fds s) TT -> strlen (srv_name (srv s)) = Some n -> n <= 15 ->
  bytes_ok (w_rx w) -> lucky w ->
  wp (smb_share_get_list s) (fun '(r, l, c, s') w' => (exists TT', represents (fds s') TT')
    /\ (r < 0 /\ c = None \/ r = 0 /\ l <> None /\ exists k, c = Some k /\ 0 <= k)) w.
Proof.
  intros Hs HR Hn Hmax Hx Hw. unfold smb_share_get_list.
  assert (Hn0 : 0 <= n) by (destruct (strlen_inv _ _ Hn) as (q & rest & _ & -> & _); unfold zlen; lia).
  apply wp_bind. eapply wp_mono; [eapply (tree_connect_run s TT ipc_name n 4); [done|done|done|done|lia|done]|].
  intros [[r tid] s1] w1 (Hx1 & Hsrv1 & [(Hr & _ & Hf)|(-> & Hs1 & Hw1 & _ & p & _ & sh & ptr & _ & -> & Ht & HR1)]).
  { cbn beta iota. unfold DSM_SUCCESS. rewrite (proj2 (Z.eqb_neq r 0)) by lia. apply wp_ret. split; [|by left]. exists TT. by rewrite Hf. }
  specialize (Hw1 Hw). cbn beta iota. apply wp_bind, (wp_access _ _ (s_tid sh)); [done|].
  apply wp_bind. eapply wp_mono; [eapply (fopen_run tr s1 _ (s_tid sh) srvsvc_path 7); [done|exact HR1|done|done|lia|done]|].
  intros [[r fd] s2] w2 [(Hr & _ & Hf)|(-> & Hs2 & Hx2 & Hsrv2 & Hw2 & _ & q & _ & e & f & fp & _ & _ & -> & HR2 & _)].
  { cbn beta iota. unfold DSM_SUCCESS. rewrite (proj2 (Z.eqb_neq r 0)) by lia. apply wp_ret. split; [|by left]. eexists. by rewrite Hf. }
  specialize (Hw2 Hw1). cbn beta iota. apply wp_bind, (wp_access _ _ (SMB_FD (s_tid sh) (f_fid f))); [done|].
  set (fd := SMB_FD _ _) in *. apply wp_bind. eapply wp_mono; [by apply share_bind_ok|].
  intros [a s3] w3 (Hx3 & Hf3 & Hsrv3 & Hs3 & Hw3 & Ha). cbn beta iota. apply wp_bind.
  apply (wp_mono _ _ (fun '(r, l, c, s') w' => bytes_ok (w_rx w') /\ fds s' = fds s3 /\ ready tr s'
    /\ (r < 0 /\ c = None \/ r = 0 /\ l <> None /\ exists k, c = Some k /\ 0 <= k))).
  { destruct a as [err|m]; [apply wp_ret; split_and!; auto; by left|]. destruct Ha as (_ & q' & Hq).
    eapply wp_mono; [eapply (share_enum_ok s3 _ _ m q' n); auto; congruence|].
    intros [[[r l] c] s4] w4 (? & ? & ? & [?|(? & ? & k & ? & ? & _)]); split_and!; auto. right. split_and!; auto. by exists k. }
  intros [[[r l] c] s4] w4 (Hx4 & Hf4 & Hs4 & Hres). cbn beta iota. apply wp_bind.
  eapply wp_mono; [eapply (fclose_any tr s4); [done| |done]|].
  - rewrite Hf4, Hf3. exact HR2.
  - intros s5 w5 HR5. by apply wp_ret.
Qed.


End Trees.

(** * A server *)

(** Connected to the server "SRV". *)
Definition srv_session : smb_session NetbiosSession.netbios_session :=
  set_srv some_session (set_name (srv some_session) ([83; 82; 86] ++ replicate 13 0)).

Lemma srv_ready : ready smb_transport_tcp srv_session.
Proof. exact some_ready. Qed.

(** The answers of a server, each in its frame: tree 8, file 9, a bind that
    succeeded, two shares "A$" and "BC" with comments, and the close. *)
Definition reply (cmd tid : Z) (payload : bytes) : bytes :=
  NetbiosSession.frame 0 0 (magic ++ [cmd] ++ replicate 19 0 ++ le_bytes 2 tid ++ replicate 6 0 ++ payload).
Definition two_shares : list (bytes * bytes) :=
  [([65; 0; 36; 0; 0; 0], [120; 0; 0; 0]); ([66; 0; 67; 0; 0; 0], [0; 0])].
Definition enum_payload : bytes :=
  replicate 60 0 ++ le_bytes 4 2 ++ replicate 8 1 ++ replicate 24 2 ++ enum_entries two_shares.
Definition tree_reply : bytes := reply 0x75 8 ([3; 0xff; 0; 0; 0; 1; 0; 0; 0]).
Definition list_replies : bytes :=
  tree_reply ++ create_reply ++ reply 0x25 8 (replicate 80 0) ++ reply 0x25 8 enum_payload ++ reply 4 8 [0; 0; 0].

Example tree_connect_runs :
  match smb_tree_connect srv_session ipc_name (answering tree_reply) with
  | Done (r, tid, s', w') => (r, tid, smb_session_share_get (fds s') 8, length (w_tx w'))
  | _ => (-1, None, Fault, 0%nat)
  end = (0, Some 8, Done (fresh_share (share_heap some_tables)), 1%nat).
Proof. vm_compute. reflexivity. Qed.

(** The whole listing: five requests, two names. *)
Example share_get_list_runs :
  match smb_share_get_list srv_session (answering list_replies) with
  | Done (r, l, c, s', w') => (r, map (option_map (take 2)) <$> l, c, length (w_tx w'))
  | _ => (-1, None, None, 0%nat)
  end = (0, Some [Some [65; 36]; Some [66; 67]; None], Some 2, 5%nat).
Proof. vm_compute. reflexivity. Qed.


Lemma tree_disconnect_keeps_table_witness :
  wp (smb_tree_disconnect srv_session 7) (fun '(r, s') w' => fds s' = fds srv_session
    /\ (r < 0 \/ r = 0 /\ ready smb_transport_tcp s'
         /\ requested True SMB_CMD_TREE_DISCONNECT 7 77 [0; 0; 0] (answering []) w'
         /\ exists p, field smb_header p 0 "status" = Some 0
              /\ field smb_simple_struct p 32 "wct" = Some 0 /\ field smb_simple_struct p 32 "bct" = Some 0)) (answering []).
Proof.
  apply (tree_disconnect_keeps_table smb_transport_tcp srv_session 7 (answering []) srv_ready); [done|decided].
Defined.

(** A message with this count of shares, in a block of 9000 bytes. *)
Definition counted (n : Z) : bytes := replicate 92 0 ++ le_bytes 4 n ++ replicate (Z.to_nat 8904) 0.
Lemma counted_received n : received (Message 100 0 (Some (counted n))) (counted n).
Proof.
  split; [done|]. assert (E : zlen (counted n) = 9000) by (unfold counted; len). rewrite E.
  split; [done|]. split; [done|]. unfold counted.
  apply bytes_ok_app; [|apply bytes_ok_app; [apply le_bytes_ok|]]; by apply Forall_replicate.
Qed.


Lemma parse_enum_wraps_witness :
  exists w', smb_share_parse_enum (Message 100 0 (Some (counted 4294967295))) (answering []) = Done ((0, Some []), w')
    /\ smb_share_list_count (Some []) = Fault.
Proof.
  apply (parse_enum_wraps (Message 100 0 (Some (counted 4294967295))) (counted 4294967295) (answering [])
    (counted_received 4294967295)); [vm_compute; reflexivity|reflexivity].
Defined.

Lemma parse_enum_reads_witness :
  exists names w', Forall2 (fun e b => holds_text e.1 b) two_shares names
    /\ smb_share_parse_enum (Message (zlen enum_payload) 0 (Some (replicate 32 0 ++ enum_payload))) (answering [])
       = Done ((2, Some (map Some names ++ [None])), w').
Proof.
  destruct (parse_enum_reads (replicate 32 0) (replicate 60 0) (replicate 8 1) (replicate 24 2) two_shares []
    (zlen enum_payload) (answering [])) as (names & w' & H1 & H2 & _); [reflexivity..| |done| | |].
  - repeat (apply Forall_cons; split; [split; [split; done|split; [split; done|done]]|]). by apply Forall_nil.
  - vm_compute. done.
  - vm_compute. done.
  - exists names, w'. split; [exact H1|]. rewrite app_nil_r in H2. exact H2.
Defined.


End SmbShare.
