(* ===== verification/SmbTrans2.v ===== *)
(** Transactions: listing a directory and the status of a path,
    src/smb_trans2.c.

    The nodes that [smb_find] and [smb_fstat] allocate live in the heap of file
    nodes of the session's tables, without being in any of its lists. Pointers
    into a message are offsets from the start of its payload. *)

From stdpp Require Import strings gmap.
From S2P Require Import Prelude World NetbiosUtils NetbiosSession SmbPackets SmbBuffer SmbMessage SmbFd SmbTransport SmbSession SmbFile.

Module SmbTrans2.
Import SmbPackets SmbBuffer SmbUtils SmbMessage SmbFd SmbTransport SmbSession SmbFile.
Local Open Scope string_scope.
Local Open Scope list_scope.
Local Open Scope Z_scope.

Definition SMB_CMD_TRANS2 : Z := 0x32.
Definition SMB_TR2_FIND_FIRST : Z := 1.
Definition SMB_TR2_FIND_NEXT : Z := 2.
Definition SMB_TR2_QUERY_PATH : Z := 5.
Definition SMB_ATTR_DIR : Z := 16.
Definition SMB_FIND2_ATTR_RO : Z := 1.
Definition SMB_FIND2_ATTR_HIDDEN : Z := 2.
Definition SMB_FIND2_ATTR_SYSTEM : Z := 4.
Definition SMB_FIND2_ATTR_DIR : Z := 16.
Definition SMB_FIND2_ATTR_DEFAULT : Z := Eval cbv in any_of
  [SMB_FIND2_ATTR_RO; SMB_FIND2_ATTR_HIDDEN; SMB_FIND2_ATTR_SYSTEM; SMB_FIND2_ATTR_DIR].
Definition SMB_FIND2_FLAG_CLOSE_EOS : Z := 2.
Definition SMB_FIND2_FLAG_RESUME : Z := 4.
Definition SMB_FIND2_FLAG_CONTINUE : Z := 8.
Definition SMB_FIND2_INTEREST_BOTH_DIRECTORY_INFO : Z := 0x104.
Definition SMB_FIND2_QUERY_FILE_ALL_INFO : Z := 0x107.

Section Ops.
Context {T : Type} `{Iconv}.
Implicit Types (s : smb_session T) (msg : smb_message).

(** * Receiving *)

(** The counters of a response: total_data_count, data_count and
    data_displacement. *)
Definition tr2_counts (p : bytes) : option (Z * Z * Z) :=
  total ← field smb_trans2_resp p 32 "total_data_count";
  count ← field smb_trans2_resp p 32 "data_count";
  disp ← field smb_trans2_resp p 32 "data_displacement";
  Some (total, count, disp).

(** One turn of [while (remaining > 0)]. *)
Definition tr2_recv_body (st : Z * smb_message * smb_session T)
    : io (Z * smb_message * smb_session T + smb_message * smb_session T) :=
  let '(remaining, res, s) := st in
  if remaining <=? 0 then mret (inr (res, s))
  else
    '(remaining, recv, s) ← smb_session_recv_msg s;
    if remaining =? 0 then mret (inr (res, s))
    else
      recv ← access recv;
      p ← access (packet recv);
      '(total, count, disp) ← access (tr2_counts p);
      res ← append res (Some (drop (Z.to_nat (32 + sizeof smb_trans2_resp)) p)) count;
      mret (inl (total - (disp + count), res, s)).

Definition smb_tr2_recv s : io (option smb_message * smb_session T) :=
  '(r, recv, s) ← smb_session_recv_msg s;
  if r =? 0 then mret (None, s)
  else
    recv ← access recv;
    p ← access (packet recv);
    '(total, count, disp) ← access (tr2_counts p);
    let growth := u64 (total - count) in
    res ← smb_message_grow (Some recv) growth;
    match res with
    | None => mret (None, s)
    | Some res =>
        let res := Message (payload_size res) (payload_size recv) (packet res) in
        '(res, s) ← loop tr2_recv_body (total - (disp + count), res, s);
        mret (Some res, s)
    end.

(** * Listing *)

(** The node filled from an entry; [next] is the list it is put in front of. *)
Definition entry_file (p : bytes) (iter next : Z) (name : bytes) (name_len : Z) : option smb_file :=
  let f := field smb_tr2_find2_entry p (32 + iter) in
  created ← f "created"; accessed ← f "accessed"; written ← f "written"; changed ← f "changed";
  size ← f "size"; alloc_size ← f "alloc_size"; attr ← f "attr";
  Some (File next (Some name) 0 0 name_len created accessed written changed alloc_size size attr 0
          (Z.land attr SMB_ATTR_DIR)).

(** The heap and [*files_p]. *)
Fixpoint smb_tr2_find2_parse_entries (h : gmap Z smb_file) (files : Z) (p : bytes) (iter : Z) (count : nat) (eod : Z)
    : io (gmap Z smb_file * Z) :=
  match count with
  | O => mret (h, files)
  | S count =>
      if negb (iter <? eod) then mret (h, files)
      else
        ok ← flip;
        if negb ok then mret (h, files)
        else
          len ← access (field smb_tr2_find2_entry p (32 + iter) "name_len");
          let src := drop (Z.to_nat (32 + iter + sizeof smb_tr2_find2_entry)) p in
          '(name_len, name) ← smb_from_utf16 src len;
          if name_len =? 0 then mret (h, files)
          else
            name ← access name;
            name ← access (put name name_len [0]);
            tmp ← access (entry_file p iter files name name_len);
            let ptr := fresh_ptr h in
            next_entry ← access (field smb_tr2_find2_entry p (32 + iter) "next_entry");
            smb_tr2_find2_parse_entries (<[ptr := tmp]> h) ptr p (iter + next_entry) count eod
  end.

(** [smb_find_first_parse] and [smb_find_next_parse] differ in the parameters
    in front of the entries. *)
Definition find_parse (L : layout) (h : gmap Z smb_file) (files : Z) msg : io (gmap Z smb_file * Z) :=
  p ← access (packet msg);
  let params := sizeof smb_trans2_resp in
  count ← access (field L p (32 + params) "count");
  smb_tr2_find2_parse_entries h files p (params + sizeof L) (Z.to_nat count) (payload_size msg).

Definition smb_find_first_parse := find_parse smb_tr2_findfirst2_params.
Definition smb_find_next_parse := find_parse smb_tr2_findnext2_params.

(** [while ((tr2_bct % 4) != 3) { padding++; tr2_bct++; }]: at most 3 turns. *)
Fixpoint pad_loop (fuel : nat) (padding tr2_bct : Z) : Z * Z :=
  if tr2_bct `mod` 4 =? 3 then (padding, tr2_bct)
  else match fuel with
       | O => (padding, tr2_bct)
       | S fuel => pad_loop fuel (padding + 1) (tr2_bct + 1)
       end.

(** [while (padding--) smb_message_put8(msg, 0);] *)
Definition put_padding msg (padding : Z) : io smb_message := puts msg (replicate (Z.to_nat padding) (Put8 0)).

(** The fields of [smb_trans2_req] in a search. *)
Definition find_fields (cmd param_count bct : Z) : list (string * Z) :=
  [("wct", 15); ("max_param_count", 10); ("max_data_count", 0xffff); ("param_offset", 68); ("data_count", 0);
   ("data_offset", 88); ("setup_count", 1); ("cmd", cmd); ("total_param_count", param_count);
   ("param_count", param_count); ("bct", bct)].

(** Sending the two search requests: the command, and the structure [L] with
    the fields [l] in front of the pattern. Whether it was sent. *)
Definition trans2_send (cmd : Z) (L : layout) (l : list (string * Z)) s (tid : Z) (pattern : bytes)
    : io (bool * smb_session T) :=
  n ← access (strlen pattern);
  '(utf_pattern_len, utf_pattern) ← smb_to_utf16 pattern (n + 1);
  if utf_pattern_len =? 0 then mret (false, s)
  else
    let tr2_param_count := sizeof L + utf_pattern_len in
    let '(padding, tr2_bct) := pad_loop 3 0 (tr2_param_count + 3) in
    msg ← smb_message_new SMB_CMD_TRANS2;
    match msg with
    | None => mret (false, s)
    | Some msg =>
        msg ← set_header msg [("tid", tid)];
        msg ← put_pkt msg smb_trans2_req (find_fields cmd tr2_param_count tr2_bct);
        msg ← put_pkt msg L l;
        msg ← append msg utf_pattern utf_pattern_len;
        msg ← put_padding msg padding;
        '(res, s, _) ← smb_session_send_msg s msg;
        mret (negb (res =? 0), s)
    end.

Definition find_first_fields : list (string * Z) :=
  [("attrs", SMB_FIND2_ATTR_DEFAULT); ("count", 1366);
   ("flags", Z.lor SMB_FIND2_FLAG_CLOSE_EOS SMB_FIND2_FLAG_RESUME);
   ("interest", SMB_FIND2_INTEREST_BOTH_DIRECTORY_INFO)].
Definition find_next_fields (sid resume_key : Z) : list (string * Z) :=
  [("sid", sid); ("count", 255); ("interest", SMB_FIND2_INTEREST_BOTH_DIRECTORY_INFO);
   ("flags", Z.lor SMB_FIND2_FLAG_CLOSE_EOS SMB_FIND2_FLAG_CONTINUE); ("resume_key", resume_key)].

Definition smb_trans2_find_first s (tid : Z) (pattern : bytes) : io (option smb_message * smb_session T) :=
  '(sent, s) ← trans2_send SMB_TR2_FIND_FIRST smb_tr2_findfirst2 find_first_fields s tid pattern;
  if sent : bool then smb_tr2_recv s else mret (None, s).

Definition smb_trans2_find_next s (tid resume_key sid : Z) (pattern : bytes) : io (option smb_message * smb_session T) :=
  '(sent, s) ← trans2_send SMB_TR2_FIND_NEXT smb_tr2_findnext2 (find_next_fields sid resume_key) s tid pattern;
  if sent : bool then smb_tr2_recv s else mret (None, s).

Definition set_files s (h : gmap Z smb_file) : smb_session T :=
  set_fds s (Tables (shares (fds s)) (share_heap (fds s)) h).

(** What the parameters of an answer say: end of search, resume key, error. *)
Definition find_params (L : layout) (p : bytes) : option (Z * Z * Z) :=
  let f := field L p (32 + sizeof smb_trans2_resp) in
  eos ← f "eos"; key ← f "last_name_offset"; err ← f "ea_error_offset"; Some (eos, key, err).

(** One turn of the loop of FIND_NEXT requests; the state is [end_of_search],
    [resume_key], [error_offset], [files] and the session. *)
Definition find_next_body (tid sid : Z) (pattern : bytes) (st : bool * Z * Z * Z * smb_session T)
    : io (bool * Z * Z * Z * smb_session T + Z * smb_session T) :=
  let '(end_of_search, resume_key, error_offset, files, s) := st in
  if negb (negb end_of_search && (error_offset =? 0)) then mret (inr (files, s))
  else
    '(msg, s) ← smb_trans2_find_next s tid resume_key sid pattern;
    match msg with
    | Some msg =>
        p ← access (packet msg);
        '(eos, key, err) ← access (find_params smb_tr2_findnext2_params p);
        '(h, files) ← smb_find_next_parse (file_heap (fds s)) files msg;
        mret (inl (negb (eos =? 0) || (files =? 0), key, err, files, set_files s h))
    | None =>
        h ← lift (smb_stat_list_destroy (file_heap (fds s)) files);
        mret (inr (0, set_files s h))
    end.

(** The list, NULL when there is none or on an error. *)
Definition smb_find s (tid : Z) (pattern : bytes) : io (Z * smb_session T) :=
  '(msg, s) ← smb_trans2_find_first s tid pattern;
  match msg with
  | Some msg =>
      '(h, files) ← smb_find_first_parse (file_heap (fds s)) 0 msg;
      let s := set_files s h in
      if files =? 0 then mret (0, s)
      else
        p ← access (packet msg);
        '(eos, key, err) ← access (find_params smb_tr2_findfirst2_params p);
        sid ← access (field smb_tr2_findfirst2_params p (32 + sizeof smb_trans2_resp) "id");
        loop (find_next_body tid sid pattern) (negb (eos =? 0), key, err, files, s)
  | None =>
      h ← lift (smb_stat_list_destroy (file_heap (fds s)) 0);
      mret (0, set_files s h)
  end.

(** * Status of a path *)

Definition fstat_fields (utf_path_len padding : Z) : list (string * Z) :=
  let n := utf_path_len + sizeof smb_tr2_query in
  [("wct", 15); ("total_param_count", n); ("param_count", u16 n); ("max_param_count", 2);
   ("max_data_count", 0xffff); ("param_offset", 68); ("data_count", 0); ("data_offset", 96);
   ("setup_count", 1); ("cmd", SMB_TR2_QUERY_PATH); ("bct", sizeof smb_tr2_query + utf_path_len + padding)].

(** The node filled from the path information at [info]. *)
Definition info_file (p : bytes) (info : Z) (name : bytes) (name_len : Z) : option smb_file :=
  let f := field smb_tr2_path_info p (32 + info) in
  created ← f "created"; accessed ← f "accessed"; written ← f "written"; changed ← f "changed";
  alloc_size ← f "alloc_size"; size ← f "size"; attr ← f "attr"; is_dir ← f "is_dir";
  Some (File 0 (Some name) 0 0 name_len created accessed written changed alloc_size size attr 0 is_dir).

(** [smb_fstat] from the answer on. *)
Definition fstat_answer s (reply : smb_message) : io (Z * smb_session T) :=
  if payload_size reply <? sizeof smb_tr2_path_info then mret (0, s)
  else
    p ← access (packet reply);
    let info := sizeof smb_trans2_resp + 4 in
    len ← access (field smb_tr2_path_info p (32 + info) "name_len");
    let at_name := info + sizeof smb_tr2_path_info in
    if payload_size reply <? at_name + len then mret (0, s)
    else
      ok ← flip;
      if negb ok then mret (0, s)
      else
        '(name_len, name) ← smb_from_utf16 (drop (Z.to_nat (32 + at_name)) p) len;
        name ← access name;
        name ← access (put name (len `div` 2) [0]);
        file ← access (info_file p info name name_len);
        let h := file_heap (fds s) in
        let ptr := fresh_ptr h in
        mret (ptr, set_files s (<[ptr := file]> h)).

(** The request of [smb_fstat]; whether it was sent. *)
Definition fstat_send s (tid : Z) (path : bytes) : io (bool * smb_session T) :=
  n ← access (strlen path);
  '(utf_path_len, utf_path) ← smb_to_utf16 path (n + 1);
  if utf_path_len =? 0 then mret (false, s)
  else
    let msg_len := sizeof smb_trans2_req + sizeof smb_tr2_query + utf_path_len in
    let padding := if negb (msg_len `mod` 4 =? 0) then 4 - msg_len `mod` 4 else 0 in
    msg ← smb_message_new SMB_CMD_TRANS2;
    match msg with
    | None => mret (false, s)
    | Some msg =>
        msg ← set_header msg [("tid", tid)];
        msg ← put_pkt msg smb_trans2_req (fstat_fields utf_path_len padding);
        msg ← put_pkt msg smb_tr2_query [("interest", SMB_FIND2_QUERY_FILE_ALL_INFO)];
        msg ← append msg utf_path utf_path_len;
        msg ← put_padding msg padding;
        '(res, s, _) ← smb_session_send_msg s msg;
        mret (negb (res =? 0), s)
    end.

Definition smb_fstat s (tid : Z) (path : bytes) : io (Z * smb_session T) :=
  '(sent, s) ← fstat_send s tid path;
  if negb sent then mret (0, s)
  else
    '(a, s) ← receive_answer s;
    match a with
    | inl _ => mret (0, s)
    | inr reply => fstat_answer s reply
    end.

End Ops.

(** * Fragments *)

Section Fragments.
Context {T : Type} (tr : smb_transport T) `{!TransportLaws tr}.
Implicit Types s : smb_session T.

(** The transport delivers these messages (size of the payload, memory) one
    after the other, whatever is allocated in between. *)
Inductive delivers : smb_session T -> world -> list (Z * bytes) -> smb_session T -> Prop :=
| delivers_nil s w : delivers s w [] s
| delivers_cons s w n p s1 w1 ms s' :
    smb_session_recv_msg s w = Done ((n, Some (Message n 0 (Some p)), s1), w1) ->
    0 < n < 131072 -> 32 + n <= zlen p -> bytes_ok p ->
    (forall w2, later w1 w2 -> delivers s1 w2 ms s') ->
    delivers s w ((n, p) :: ms) s'.

(** A message carries the part [d] of the data of a transaction, which starts
    at [off]. *)
Definition part (total off : Z) (m : Z * bytes) (d : bytes) : Prop :=
  tr2_counts m.2 = Some (total, zlen d, off) /\ sub (drop 56 m.2) 0 (zlen d) = Some d.

(** The parts of the data from [off] on, in order, none empty. *)
Fixpoint parts (total off : Z) (ms : list (Z * bytes)) (ds : list bytes) : Prop :=
  match ms, ds with
  | [], [] => off = total
  | m :: ms, d :: ds => part total off m d /\ 0 < zlen d /\ parts total (off + zlen d) ms ds
  | _, _ => False
  end.

Lemma parts_total total off ms ds : parts total off ms ds -> total = off + zlen (concat ds) /\ length ms = length ds.
Proof.
  revert off ds. induction ms as [|m ms IH]; intros off [|d ds]; cbn [parts]; try done.
  - intros ->. unfold zlen. cbn. split; [lia|done].
  - intros (_ & _ & H). apply IH in H as [-> E]. cbn [concat length]. split; [len|lia].
Qed.

Lemma delivers_events s w ms s' :
  delivers s w ms s' -> transport s = Some tr -> (length ms <= length (w_events w))%nat.
Proof.
  induction 1 as [|s w n p s1 w1 ms s' E Hn Hl _ _ IH]; intros Htr; [cbn; lia|].
  pose proof (kept_transport _ _ (recv_kept _ _ _ _ _ _ E)) as Ht. apply (recv_msg_events tr) in E; [|done|lia].
  specialize (IH w1 (later_refl _)). cbn [length]. rewrite Ht in IH. specialize (IH Htr). lia.
Qed.

(** Every turn of the loop appends one part. *)
Lemma tr2_loop_run fuel total off ms ds s w s' hd written res :
  delivers s w ms s' -> parts total off ms ds -> (length ms < fuel)%nat ->
  message res hd written -> zlen written + zlen (concat ds) <= payload_size res ->
  exists res' w', loop_fuel fuel tr2_recv_body (total - off, res, s) w = Done ((res', s'), w')
    /\ message res' hd (written ++ concat ds) /\ payload_size res' = payload_size res.
Proof.
  revert total off ds s w written res fuel. induction ms as [|m ms IH]; intros total off ds s w written res fuel Hd Hp Hf Hm Hsz.
  - destruct ds; [|done]. cbn [parts] in Hp. subst off. inversion Hd; subst. destruct fuel as [|fuel]; [lia|].
    exists res, w. cbn [loop_fuel]. unfold tr2_recv_body. rewrite (proj2 (Z.leb_le _ _)) by lia.
    cbn [concat]. rewrite app_nil_r. done.
  - destruct ds as [|d ds]; [done|]. destruct Hp as ((Hc & Hsub) & Hpos & Hp). destruct (parts_total _ _ _ _ Hp) as [Et _].
    destruct fuel as [|fuel]; [cbn in Hf; lia|]. inversion Hd as [|s0 w0 n p s1 w1 ms0 s'0 E Hn Hl _ Hd']; subst. cbn [snd] in *.
    assert (Hz : 0 <= zlen (concat ds)) by (unfold zlen; lia). cbn [concat] in Hsz.
    assert (Hfit : zlen written + zlen d <= payload_size res) by len.
    destruct (append_fits res hd written _ (zlen d) d w1 Hm Hsub Hpos Hfit) as (res1 & Ea & Hm1 & Hs1).
    destruct (IH (off + zlen d + zlen (concat ds)) (off + zlen d) ds s1 w1 (written ++ d) res1 fuel) as (res' & w' & El & Hm' & Hs'); auto.
    { apply Hd', later_refl. } { cbn in Hf. lia. } { rewrite Hs1. len. }
    exists res', w'. cbn [concat]. rewrite app_assoc, <- Hs1. split; [|done].
    cbn [loop_fuel].
    rewrite (bind_Done _ _ w (inl (off + zlen d + zlen (concat ds) - (off + zlen d), res1, s1)) w1); [exact El|].
    unfold tr2_recv_body. rewrite (proj2 (Z.leb_gt _ _)) by lia.
    rewrite (bind_Done _ _ _ _ _ E). cbn beta iota. rewrite (proj2 (Z.eqb_neq n 0)) by lia.
    rewrite (bind_Done _ _ _ (Message n 0 (Some p)) w1) by done. rewrite (bind_Done _ _ _ p w1) by done.
    rewrite (bind_Done _ _ _ _ _ (access_Done _ _ _ Hc)). cbn beta iota.
    rewrite (bind_Done _ _ _ res1 w1); [done|]. unfold append. change (Z.to_nat (32 + sizeof smb_trans2_resp)) with 56%nat.
    by rewrite (bind_Done _ _ _ _ _ Ea).
Qed.

(** A count read from a message is below the bound of its width. *)
Lemma field_range L b base f o n v :
  bytes_ok b -> locate L f = Some (o, n) -> field L b base f = Some v -> 0 <= v < 256 ^ Z.of_nat (Z.to_nat n).
Proof. unfold field. intros Hb ->. cbn. by apply get_word_range. Qed.

Lemma tr2_counts_range p total count disp :
  bytes_ok p -> tr2_counts p = Some (total, count, disp) ->
  0 <= total < 65536 /\ 0 <= count < 65536 /\ 0 <= disp < 65536.
Proof.
  unfold tr2_counts. intros Hb E. destruct (field _ _ _ "total_data_count") as [a|] eqn:Ea; [|done]. cbn [mbind option_bind] in E.
  destruct (field _ _ _ "data_count") as [b|] eqn:Eb; [|done]. cbn [mbind option_bind] in E.
  destruct (field _ _ _ "data_displacement") as [c|] eqn:Ec; [|done]. injection E as -> -> ->.
  split; [|split]; [eapply (field_range _ _ _ _ _ 2 _ Hb) in Ea|eapply (field_range _ _ _ _ _ 2 _ Hb) in Eb|eapply (field_range _ _ _ _ _ 2 _ Hb) in Ec];
    solve [eassumption|reflexivity].
Qed.

(** [smb_message_grow] copies the message in front of [k] new bytes. *)
Lemma grow_ok n p k w :
  lucky w -> 0 <= n -> 32 + n <= zlen p -> 0 <= k -> 32 + n + k < 9223372036854775808 ->
  returning w (smb_message_grow (Some (Message n 0 (Some p))) k)
    (fun r => exists j, r = Some (Message (n + k) 0 (Some (take (Z.to_nat (32 + n)) p ++ j))) /\ zlen j = k).
Proof.
  intros Hw Hn Hp Hk Hb. unfold smb_message_grow. cbn [packet payload_size cursor].
  step_with b Hok; [by apply returning_flip|]. cbn beta in Hok. subst b. cbn [negb]. change sizeof_smb_packet with 32. rewrite !u64_small by lia.
  destruct (runs_malloc (32 + (n + k)) w Hw) as (q & Rq & Hq & _). step_to; [exact Rq|].
  step_to; [apply runs_access, sub_Some; lia|]. rewrite drop_0. replace (n + 32) with (32 + n) by lia.
  step_to; [apply runs_access, put_Some; len|]. apply returning_ret. eexists. split; [reflexivity|len].
Qed.

(** The answer is the first message with its data extended by the parts of the
    following messages. *)
Lemma tr2_recv_run s w n p ms s' total count ds :
  transport s = Some tr -> lucky w -> delivers s w ((n, p) :: ms) s' ->
  tr2_counts p = Some (total, count, 0) -> parts total count ms ds ->
  exists res w', smb_tr2_recv s w = Done ((Some res, s'), w')
    /\ message res (take 32 p) (take (Z.to_nat n) (drop 32 p) ++ concat ds)
    /\ payload_size res = n + zlen (concat ds).
Proof.
  intros Htr Hw Hd Hc Hp. inversion Hd as [|s0 w0 n0 p0 s1 w1 ms0 s'0 E Hn Hl Hb Hd']; subst.
  pose proof (kept_transport _ _ (recv_kept _ _ _ _ _ _ E)) as Ht1. rewrite Htr in Ht1.
  pose proof (onward_lucky _ _ (recv_msg_onward tr s Htr w _ _ E) Hw) as Hw1.
  destruct (tr2_counts_range _ _ _ _ Hb Hc) as (Rt & Rc & _). destruct (parts_total _ _ _ _ Hp) as [Et _].
  assert (Hz : 0 <= zlen (concat ds)) by (unfold zlen; lia).
  destruct (grow_ok n p (zlen (concat ds)) w1 Hw1) as (r & (w2 & Eg & L2) & j & -> & Hj); try lia.
  destruct (tr2_loop_run (S (length (w_events w2))) total count ms ds s1 w2 s' (take 32 p) (take (Z.to_nat n) (drop 32 p))
    (Message (n + zlen (concat ds)) n (Some (take (Z.to_nat (32 + n)) p ++ j)))) as (res & w' & El & Hm & Hs); auto.
  { pose proof (delivers_events _ _ _ _ (Hd' w2 L2) Ht1). lia. }
  { exists j. cbn [packet cursor payload_size]. split_and!; try len. f_equal.
    replace (Z.to_nat (32 + n)) with (32 + Z.to_nat n)%nat by lia. rewrite <- take_take_drop. by rewrite <- app_assoc. }
  { cbn [payload_size]. len. }
  exists res, w'. split; [|done]. unfold smb_tr2_recv. rewrite (bind_Done _ _ _ _ _ E). cbn beta iota.
  rewrite (proj2 (Z.eqb_neq n 0)) by lia. rewrite (bind_Done _ _ _ (Message n 0 (Some p)) w1) by done.
  rewrite (bind_Done _ _ _ p w1) by done. rewrite (bind_Done _ _ _ _ _ (access_Done _ _ _ Hc)). cbn beta iota zeta.
  replace (u64 (total - count)) with (zlen (concat ds)) by (rewrite u64_small; lia).
  rewrite (bind_Done _ _ _ _ _ Eg). cbn [payload_size packet Z.add].
  rewrite (bind_Done (loop _ _) _ w2 (res, s') w'); [done|exact El].
Qed.

(** A first message that carries more data than the whole transaction has makes
    the copy run past the block. *)
Lemma tr2_recv_shrinks s w n p s1 w1 total count disp :
  transport s = Some tr -> lucky w ->
  smb_session_recv_msg s w = Done ((n, Some (Message n 0 (Some p)), s1), w1) ->
  0 < n < 131072 -> 32 + n <= zlen p -> bytes_ok p ->
  tr2_counts p = Some (total, count, disp) -> total < count <= n ->
  smb_tr2_recv s w = Fault.
Proof.
  intros Htr Hw E Hn Hl Hb Hc Hlt. unfold smb_tr2_recv. rewrite (bind_Done _ _ _ _ _ E). cbn beta iota.
  pose proof (onward_lucky _ _ (recv_msg_onward tr s Htr w _ _ E) Hw) as Hw1.
  destruct (tr2_counts_range _ _ _ _ Hb Hc) as (Rt & Rc & _).
  rewrite (proj2 (Z.eqb_neq n 0)) by lia. rewrite (bind_Done _ _ _ (Message n 0 (Some p)) w1) by done.
  rewrite (bind_Done _ _ _ p w1) by done. rewrite (bind_Done _ _ _ _ _ (access_Done _ _ _ Hc)). cbn beta iota zeta.
  unfold smb_message_grow. cbn [packet payload_size cursor]. change sizeof_smb_packet with 32.
  replace (u64 (n + u64 (total - count))) with (n + total - count) by (widths; zdiv).
  unfold mbind at 1, io_bind at 1. unfold mbind at 1, io_bind at 1. unfold flip at 1. rewrite Hw1. cbn [obind negb].
  destruct (runs_malloc (u64 (32 + (n + total - count))) (set_tick w1 (S (w_tick w1)))) as (q & (w2 & Eq & L2) & Hq & _); [exact Hw1|].
  rewrite (bind_Done _ _ _ _ _ Eq). rewrite (bind_Done _ _ _ _ _ (access_Done _ _ _ (sub_Some p 0 (n + 32) ltac:(lia) ltac:(lia) ltac:(lia)))).
  rewrite u64_small in Hq by lia. unfold put, in_range. rewrite (proj2 (Z.leb_gt (0 + _) _)) by len.
  by rewrite !andb_false_r.
Qed.

End Fragments.

(** * Entries *)

Section Entries.
Context `{IconvLaws}.

(** An entry of a directory: what the answer tells of it, its name in UCS-2
    and the bytes up to the next entry. *)
Record dirent := Dirent {
  d_created : Z; d_accessed : Z; d_written : Z; d_changed : Z;
  d_size : Z; d_alloc_size : Z; d_attr : Z;
  d_name : bytes;
  d_pad : bytes
}.

Definition entry_values (e : dirent) : list (string * Z) :=
  [("next_entry", 94 + zlen (d_name e) + zlen (d_pad e)); ("created", d_created e); ("accessed", d_accessed e);
   ("written", d_written e); ("changed", d_changed e); ("size", d_size e); ("alloc_size", d_alloc_size e);
   ("attr", d_attr e); ("name_len", zlen (d_name e))].

Definition entry_bytes (e : dirent) : bytes :=
  pack smb_tr2_find2_entry (entry_values e) ++ d_name e ++ d_pad e.

(** The name as text. *)
Definition d_text (e : dirent) : bytes := text UCS2LE Locale (d_name e) (zlen (d_name e)).

Definition dirent_ok (e : dirent) : Prop :=
  Forall (fun v => 0 <= v < 256 ^ 8) [d_created e; d_accessed e; d_written e; d_changed e; d_size e; d_alloc_size e]
  /\ 0 <= d_attr e < 256 ^ 4 /\ zlen (d_name e) < 65536 /\ zlen (d_pad e) < 65536
  /\ d_text e <> [] /\ zlen (d_text e) < 4 * zlen (d_name e).

(** The node of an entry: its name is a C string. *)
Definition shows (e : dirent) (n : smb_file) : Prop :=
  exists b, sub b 0 (zlen (d_text e) + 1) = Some (d_text e ++ [0])
  /\ n = File (f_next n) (Some b) 0 0 (zlen (d_text e)) (d_created e) (d_accessed e) (d_written e) (d_changed e)
           (d_alloc_size e) (d_size e) (d_attr e) 0 (Z.land (d_attr e) SMB_ATTR_DIR).

Lemma find2_entry_ok : Forall (fun fw => 0 < fw.2) smb_tr2_find2_entry.
Proof. decided. Qed.

(** The fields as the code reads them. *)
Lemma entry_field e pre rest f o w :
  locate smb_tr2_find2_entry f = Some (o, w) -> 0 <= value (entry_values e) f < 256 ^ w ->
  field smb_tr2_find2_entry (pre ++ entry_bytes e ++ rest) (zlen pre) f = Some (value (entry_values e) f).
Proof.
  intros Hf Hv. unfold entry_bytes. rewrite <- app_assoc. eapply field_pack; [exact find2_entry_ok|exact Hf|done|done].
Qed.

Lemma entry_file_reads e pre rest next name n :
  dirent_ok e -> 32 <= zlen pre ->
  entry_file (pre ++ entry_bytes e ++ rest) (zlen pre - 32) next name n
  = Some (File next (Some name) 0 0 n (d_created e) (d_accessed e) (d_written e) (d_changed e)
      (d_alloc_size e) (d_size e) (d_attr e) 0 (Z.land (d_attr e) SMB_ATTR_DIR)).
Proof.
  intros (Ht & Ha & _) Hpre. unfold entry_file. replace (32 + (zlen pre - 32)) with (zlen pre) by lia.
  rewrite !Forall_cons in Ht. destruct Ht as (H1 & H2 & H3 & H4 & H5 & H6 & _).
  rewrite (entry_field e pre rest "created" 8 8), (entry_field e pre rest "accessed" 16 8), (entry_field e pre rest "written" 24 8),
    (entry_field e pre rest "changed" 32 8), (entry_field e pre rest "size" 40 8), (entry_field e pre rest "alloc_size" 48 8),
    (entry_field e pre rest "attr" 56 4) by done.
  done.
Qed.

(** A block with a zero behind the text. *)
Lemma put_end b t : sub b 0 (zlen t) = Some t -> zlen t < zlen b ->
  exists b', put b (zlen t) [0] = Some b' /\ sub b' 0 (zlen t + 1) = Some (t ++ [0]).
Proof.
  intros (_ & _ & _ & Ht)%sub_inv Hl. rewrite drop_0 in Ht. rewrite put_Some by len. eexists. split; [done|].
  rewrite <- Ht, app_assoc, sub_Some by len. rewrite drop_0. f_equal. apply take_app_length'. len.
Qed.

(** One entry, then the rest. *)
Lemma parse_entry_step h files pre e rest count eod w :
  dirent_ok e -> lucky w -> 32 <= zlen pre -> zlen pre - 32 < eod ->
  exists n w', later w w' /\ shows e n /\ f_next n = files
    /\ smb_tr2_find2_parse_entries h files (pre ++ entry_bytes e ++ rest) (zlen pre - 32) (S count) eod w
       = smb_tr2_find2_parse_entries (<[fresh_ptr h := n]> h) (fresh_ptr h) (pre ++ entry_bytes e ++ rest)
           (zlen (pre ++ entry_bytes e) - 32) count eod w'.
Proof.
  intros He Hw Hpre Heod. pose proof He as (_ & _ & Hname & Hpad & Ht & Hroom). set (p := pre ++ entry_bytes e ++ rest).
  assert (E3 : take (Z.to_nat (zlen (d_name e))) (drop (Z.to_nat (32 + (zlen pre - 32) + sizeof smb_tr2_find2_entry)) p) = d_name e).
  { pose proof (length_pack _ (entry_values e) find2_entry_ok). unfold p, entry_bytes. rewrite <- !app_assoc, app_assoc.
    rewrite drop_app_length' by len. apply take_app_length'. unfold zlen. lia. }
  cbn [smb_tr2_find2_parse_entries]. rewrite (proj2 (Z.ltb_lt _ _)) by done. cbn [negb].
  unfold mbind at 1, io_bind at 1. unfold flip at 1. rewrite Hw. cbn [obind negb]. set (w1 := set_tick w _).
  replace (32 + (zlen pre - 32)) with (zlen pre) in * by lia.
  rewrite (bind_Done _ _ _ (zlen (d_name e)) w1) by (apply access_Done, (entry_field e pre rest "name_len" 60 4); [done|cbn; len]).
  destruct (smb_iconv_Done (drop (Z.to_nat (zlen pre + sizeof smb_tr2_find2_entry)) p) (zlen (d_name e)) UCS2LE Locale w1) as (r & o & w2 & E & L & Hc).
  { rewrite <- E3 at 2. len. } { lia. }
  unfold smb_from_utf16. rewrite (bind_Done _ _ _ _ _ E). rewrite text_take, E3 in Hc. fold (d_text e) in Hc.
  destruct Hc as [(_ & _ & Hn)|(Hr & -> & b & -> & Hsub)]; [by specialize (Hn Hw)|].
  rewrite (proj2 (Z.eqb_neq _ 0)) by lia. rewrite (bind_Done _ _ _ b w2) by done.
  apply smb_iconv_room in E; [|len|lia].
  destruct (put_end b (d_text e) Hsub) as (b' & Eb & Hb'); [lia|].
  rewrite (bind_Done _ _ _ _ _ (access_Done _ _ _ Eb)).
  rewrite (bind_Done _ _ _ _ _ (access_Done _ _ _ (entry_file_reads e pre rest files b' (zlen (d_text e)) He Hpre))). cbv zeta.
  rewrite (bind_Done _ _ _ (94 + zlen (d_name e) + zlen (d_pad e)) w2) by (apply access_Done, (entry_field e pre rest "next_entry" 0 4); [done|cbn; len]).
  exists (File files (Some b') 0 0 (zlen (d_text e)) (d_created e) (d_accessed e) (d_written e) (d_changed e)
    (d_alloc_size e) (d_size e) (d_attr e) 0 (Z.land (d_attr e) SMB_ATTR_DIR)), w2.
  split; [by apply later_step|]. split; [by exists b'|]. split; [done|].
  f_equal. unfold entry_bytes. pose proof (length_pack _ (entry_values e) find2_entry_ok) as Hl. change (sizeof smb_tr2_find2_entry) with 94 in Hl. len.
Qed.

Lemma entry_bytes_pos e : 94 <= zlen (entry_bytes e).
Proof.
  pose proof (length_pack _ (entry_values e) find2_entry_ok) as Hl. change (sizeof smb_tr2_find2_entry) with 94 in Hl.
  unfold entry_bytes. len.
Qed.

(** The listing in the nodes [ns], in the order of the list. *)
Definition listing (h : gmap Z smb_file) (ns : list Z) (es : list dirent) : Prop :=
  Forall2 (fun x e => exists n, h !! x = Some n /\ shows e n) ns es.

Lemma listing_grows h h' ns es : h ⊆ h' -> listing h ns es -> listing h' ns es.
Proof.
  intros Hs Hl. eapply Forall2_impl; [exact Hl|]. intros x e (n & Hn & He). exists n. split; [|done]. by eapply lookup_weaken.
Qed.

Lemma parse_entries_run es h files l pre rest eod w :
  Forall dirent_ok es -> lucky w -> 32 <= zlen pre ->
  zlen (pre ++ concat (map entry_bytes es)) <= 32 + eod -> chain f_next h files l ->
  exists h' head ns w',
    smb_tr2_find2_parse_entries h files (pre ++ concat (map entry_bytes es) ++ rest) (zlen pre - 32) (length es) eod w
      = Done ((h', head), w')
    /\ later w w' /\ h ⊆ h' /\ chain f_next h' head (ns ++ l) /\ listing h' ns (rev es).
Proof.
  intros Hes. revert h files l pre w. induction Hes as [|e es He _ IH]; intros h files l pre w Hw Hpre Heod Hc.
  { exists h, files, [], w. split; [done|]. split; [apply later_refl|]. split; [done|]. split; [done|]. constructor. }
  cbn [map concat length rev] in *. pose proof (entry_bytes_pos e) as Hpos.
  destruct (parse_entry_step h files pre e (concat (map entry_bytes es) ++ rest) (length es) eod w He Hw Hpre) as (n & w1 & L1 & Hn & Hnx & E); [len|].
  rewrite <- app_assoc, E. clear E. rewrite (app_assoc pre). destruct (fresh_ptr_spec h) as [Hp0 Hpn]. set (x := fresh_ptr h) in *.
  assert (Hx : x ∉ l).
  { intros Hin. pose proof (proj1 (Forall_forall _ _) (chain_dom _ _ _ _ Hc) x Hin) as [_ [? Hs]]. congruence. }
  destruct (IH (<[x := n]> h) x (x :: l) (pre ++ entry_bytes e) w1) as (h' & head & ns & w' & E & L & Hs & Hch & Hl).
  { by eapply later_lucky. } { len. } { rewrite <- app_assoc. done. }
  { cbn [chain]. split_and!; auto. exists n. rewrite lookup_insert_eq, Hnx. split; [done|]. by apply chain_insert. }
  rewrite E. exists h', head, (ns ++ [x]), w'. split; [done|]. split; [by eapply later_trans|].
  split; [transitivity (<[x := n]> h); [by apply insert_subseteq|done]|]. split; [by rewrite <- app_assoc|].
  apply Forall2_app; [done|]. constructor; [|constructor]. exists n. split; [|done].
  eapply lookup_weaken; [|exact Hs]. apply lookup_insert_eq.
Qed.

(** An answer to a search: its parameters [L] tell the number of entries. *)
Definition find_answer (L : layout) (hd params : bytes) (es : list dirent) (rest : bytes) (c : Z) : smb_message :=
  let body := params ++ concat (map entry_bytes es) in
  Message (zlen body) c (Some (hd ++ body ++ rest)).

(** [smb_find_first_parse] and [smb_find_next_parse] put the entries of the
    answer in front of the list, the last one first. *)
Lemma find_parse_run L h files l hd params es rest c w :
  length hd = 32%nat -> zlen params = sizeof smb_trans2_resp + sizeof L ->
  field L (hd ++ params) (32 + sizeof smb_trans2_resp) "count" = Some (zlen es) ->
  Forall dirent_ok es -> lucky w -> chain f_next h files l ->
  exists h' head ns w',
    find_parse L h files (find_answer L hd params es rest c) w = Done ((h', head), w')
    /\ later w w' /\ h ⊆ h' /\ chain f_next h' head (ns ++ l) /\ listing h' ns (rev es).
Proof.
  intros Hhd Hp Hcount Hes Hw Hc. unfold find_parse, find_answer. cbn [packet payload_size].
  rewrite (bind_Done _ _ _ _ _ (access_Done _ _ _ eq_refl)).
  rewrite (bind_Done _ _ _ (zlen es) w).
  2: { apply access_Done. rewrite <- app_assoc, app_assoc. by apply field_weaken. }
  unfold zlen at 1. rewrite Nat2Z.id.
  destruct (parse_entries_run es h files l (hd ++ params) rest (zlen (params ++ concat (map entry_bytes es))) w) as (h' & head & ns & w' & E & R); auto; try len.
  exists h', head, ns, w'. split; [|exact R]. rewrite <- E, <- !app_assoc. f_equal. len.
Qed.

End Entries.

(** * Requests *)

Section Requests.
Context {T : Type} (tr : smb_transport T) `{!TransportLaws tr} `{IconvLaws}.
Implicit Types s : smb_session T.

(** The padding makes the byte count 3 modulo 4. *)
Lemma pad_loop_spec n :
  exists k, pad_loop 3 0 n = (k, n + k) /\ 0 <= k <= 3 /\ (n + k) `mod` 4 = 3.
Proof.
  assert (Hm : 0 <= n `mod` 4 < 4) by (apply Z.mod_pos_bound; lia).
  exists (3 - n `mod` 4). split; [|split; [lia|]].
  - cbn [pad_loop]. pose proof (Z.div_mod n 4 ltac:(lia)).
    repeat match goal with |- context [?a =? 3] => destruct (Z.eqb_spec a 3) end; f_equal; zdiv.
  - zdiv.
Qed.

(** Two structures, a text and zeros. *)
Lemma trans2_request {A} tid L1 l1 r1 L2 l2 r2 b u pad m pid (k : smb_message -> io A) Q w w1 :
  built (lucky w) m (new_header SMB_CMD_TRANS2 pid 0 0) [] -> later w w1 -> 0 <= tid < 65536 ->
  set_fields L1 (init_pkt L1) 0 l1 = Some r1 -> bytes_ok r1 -> zlen r1 = sizeof L1 ->
  set_fields L2 (init_pkt L2) 0 l2 = Some r2 -> bytes_ok r2 -> zlen r2 = sizeof L2 ->
  sub b 0 (zlen u) = Some u -> bytes_ok u -> 0 <= pad <= 3 -> zlen r1 + zlen r2 + zlen u < 1000000 ->
  (forall m' w', later w w' ->
     built (lucky w) m' (new_header SMB_CMD_TRANS2 pid tid 0) (r1 ++ r2 ++ u ++ replicate (Z.to_nat pad) 0) ->
     wp (k m') Q w') ->
  wp (m ← set_header m [("tid", tid)]; m ← put_pkt m L1 l1; m ← put_pkt m L2 l2;
         m ← append m (Some b) (zlen u); m ← put_padding m pad; k m) Q w1.
Proof.
  intros Hm L Ht E1 B1 Z1 E2 B2 Z2 Hu Bu Hpad Hmax Hk. assert (Hz : 0 <= zlen r1 /\ 0 <= zlen r2 /\ 0 <= zlen u) by (unfold zlen; lia).
  apply wp_bind. eapply wp_mono; [eapply (set_header_built _ _ _ (new_header SMB_CMD_TRANS2 pid tid 0)); [exact Hm|reflexivity..]|].
  intros m1 w2 [-> Hm1]. apply wp_bind. eapply wp_mono; [eapply put_pkt_built; [exact Hm1|exact L|exact E1|done|done|len]|].
  intros m2 w2 [L2' Hm2]. pose proof (later_trans _ _ _ L L2') as L02. cbn [app] in Hm2.
  apply wp_bind. eapply wp_mono; [eapply put_pkt_built; [exact Hm2|exact L02|exact E2|done|done|lia]|].
  intros m3 w3 [L3 Hm3]. pose proof (later_trans _ _ _ L02 L3) as L03.
  apply wp_bind. eapply wp_mono; [eapply append_built; [exact Hm3|exact L03|exact Hu|done|len]|].
  intros m4 w4 [L4 Hm4]. pose proof (later_trans _ _ _ L03 L4) as L04.
  assert (Hp : puts_data (replicate (Z.to_nat pad) (Put8 0)) = replicate (Z.to_nat pad) 0).
  { unfold puts_data. clear. induction (Z.to_nat pad) as [|j IH]; [done|]. change (concat _) with (0 :: concat (map put_data (replicate j (Put8 0)))). cbn [replicate]. by rewrite IH. }
  apply wp_bind. eapply wp_mono; [eapply puts_built; [exact Hm4|exact L04| |rewrite Hp; len]|].
  { apply Forall_replicate. done. }
  intros m5 w5 [L5 Hm5]. apply Hk; [by eapply later_trans|]. rewrite Hp, <- !app_assoc in Hm5. done.
Qed.

(** The payload of a search. *)
Definition find_body (cmd : Z) (L : layout) (l : list (string * Z)) (utf : bytes) : bytes :=
  let '(padding, bct) := pad_loop 3 0 (sizeof L + zlen utf + 3) in
  pack smb_trans2_req (find_fields cmd (sizeof L + zlen utf) bct) ++ pack L l ++ utf ++ replicate (Z.to_nat padding) 0.

(** The payload of a query. *)
Definition fstat_body (utf : bytes) : bytes :=
  let padding := (- (36 + 6 + zlen utf)) `mod` 4 in
  pack smb_trans2_req (fstat_fields (zlen utf) padding) ++ pack smb_tr2_query [("interest", SMB_FIND2_QUERY_FILE_ALL_INFO)]
  ++ utf ++ replicate (Z.to_nat padding) 0.

(** Whether the request was sent: then it is on the wire, with the text in
    UCS-2, NUL included; else at most its start is. *)
Definition trans2_outcome s (tid : Z) (body : bytes -> bytes) (str : bytes) (n : Z) (w : world)
    : bool * smb_session T -> world -> Prop :=
  fun '(sent, s') w' => moved s s' /\ ready tr s' /\ bytes_ok (w_rx w')
    /\ (w_tx w' = w_tx w \/ exists utf, converts Locale UCS2LE str n utf
         /\ attempted (lucky w) SMB_CMD_TRANS2 tid (uid (srv s)) (body utf) w w'
         /\ (sent = true -> requested (lucky w) SMB_CMD_TRANS2 tid (uid (srv s)) (body utf) w w'))
    /\ (sent = true -> exists utf, converts Locale UCS2LE str n utf).

Lemma moved_refl s : ready tr s -> moved s s.
Proof. intros (_ & t & Ht & _). exists t. destruct s. cbn in *. by rewrite Ht. Qed.

(** Sending what has been built. *)
Lemma trans2_end s m pid tid e str n utf body w0 w1 w :
  ready tr s -> bytes_ok (w_rx w0) -> later w0 w1 -> later w1 w -> converts Locale UCS2LE str n utf -> e = body utf ->
  built (lucky w1) m (new_header SMB_CMD_TRANS2 pid tid 0) e -> 32 + zlen e <= 8188 ->
  wp ('(res, s, _) ← smb_session_send_msg s m; mret (negb (res =? 0), s)) (trans2_outcome s tid body str n w0) w.
Proof.
  intros Hs Hx L0 L1 Hconv -> Hm Hmax. pose proof (later_trans _ _ _ L0 L1) as L.
  destruct (later_world _ _ L) as [Htx Hrx]. assert (Hlk : lucky w0 -> lucky w1) by (intros; by eapply later_lucky).
  apply wp_bind. eapply wp_mono; [eapply send_small_ok; [exact Hs|by rewrite Hrx|exact Hm|done]|].
  intros [[r s'] m'] w' (Hx' & Hmv & Hs' & _ & Hreq & Hatt). apply wp_ret. split_and!; auto; [right|eauto].
  exists utf. split; [done|]. split; [by eapply attempted_frame|].
  intros Hsent. eapply requested_mono; [|exact Hlk]. eapply (requested_frame _ _ _ _ _ w w'); [|done|done].
  apply Hreq. intros ->. done.
Qed.

(** The text of the request, or nothing is done. *)
Lemma with_text {A} (x : A) str n (K : Z -> option bytes -> io A) Q w :
  strlen str = Some n -> 15 * (n + 1) < 1000000 ->
  (forall w', later w w' -> Q x w') ->
  (forall b utf w1, later w w1 -> sub b 0 (zlen utf) = Some utf -> bytes_ok utf ->
     zlen utf <= 15 * (n + 1) -> converts Locale UCS2LE str (n + 1) utf -> wp (K (zlen utf) (Some b)) Q w1) ->
  wp (n ← access (strlen str); '(pl, o) ← smb_to_utf16 str (n + 1); if pl =? 0 then mret x else K pl o) Q w.
Proof.
  intros Hn Hmax Hx HK. destruct (strlen_inv _ _ Hn) as (q & rest & Hq & Hnq & _).
  assert (Hl : 0 <= n + 1 <= zlen str) by (subst; len).
  apply wp_bind, (wp_access _ _ _ _ _ Hn), wp_bind. eapply wp_mono; [by apply to_utf16_wp|].
  intros [pl o] w1 [L1 H1]. cbn beta iota. destruct (Z.eqb_spec pl 0); [apply wp_ret, Hx, L1|].
  destruct H1 as [?|(b & utf & -> & Hsub & Hutf & Hpl & Hconv)]; [done|].
  pose proof (length_sub _ _ _ _ Hsub) as Hul. subst pl. apply (HK b utf); auto. lia.
Qed.

(** Nothing was sent. *)
Lemma trans2_unsent s tid body str n w w' :
  ready tr s -> bytes_ok (w_rx w) -> later w w' -> trans2_outcome s tid body str n w (false, s) w'.
Proof.
  intros Hs Hx L. destruct (later_world _ _ L) as [Htx Hrx].
  split_and!; auto using moved_refl; [by rewrite Hrx|done].
Qed.

Lemma trans2_send_run cmd L l s tid pattern n w :
  set_fields L (init_pkt L) 0 l = Some (pack L l) -> zlen (pack L l) = sizeof L -> 0 <= sizeof L <= 20 ->
  ready tr s -> 0 <= tid < 65536 -> strlen pattern = Some n -> 91 + 15 * (n + 1) <= 8188 -> bytes_ok (w_rx w) ->
  wp (trans2_send cmd L l s tid pattern) (trans2_outcome s tid (find_body cmd L l) pattern (n + 1) w) w.
Proof.
  intros HL Hlen Hsz Hs Ht Hn Hmax Hx. unfold trans2_send.
  eapply with_text; [exact Hn|lia|intros w1 L1; by apply trans2_unsent|]. intros b utf w1 L1 Hsub Hutf Hpl Hconv. cbv zeta.
  destruct (pad_loop_spec (sizeof L + zlen utf + 3)) as (k & Ek & Hk & _). rewrite Ek.
  apply wp_bind. eapply wp_mono; [apply new_built|]. intros [m|] w2 [L2 Hm]; [|apply wp_ret, trans2_unsent; [done|done|by eapply later_trans]].
  destruct Hm as [pid Hm]. set (r1 := pack smb_trans2_req (find_fields cmd (sizeof L + zlen utf) (sizeof L + zlen utf + 3 + k))).
  assert (H1 : zlen r1 = 36) by done.
  eapply (trans2_request _ _ _ r1 _ _ (pack L l));
    [exact Hm|exact L2|done|reflexivity|apply pack_ok|done|exact HL|apply pack_ok|done|done|done|done|lia|].
  intros m3 w3 L3 Hm3. eapply (trans2_end s m3 pid tid _ pattern (n + 1) utf); [done|done|exact L1|exact L3|exact Hconv| |exact Hm3|len].
  unfold find_body. by rewrite Ek.
Qed.

Lemma fstat_send_run s tid path n w :
  ready tr s -> 0 <= tid < 65536 -> strlen path = Some n -> 91 + 15 * (n + 1) <= 8188 -> bytes_ok (w_rx w) ->
  wp (fstat_send s tid path) (trans2_outcome s tid fstat_body path (n + 1) w) w.
Proof.
  intros Hs Ht Hn Hmax Hx. unfold fstat_send.
  eapply with_text; [exact Hn|lia|intros w1 L1; by apply trans2_unsent|]. intros b utf w1 L1 Hsub Hutf Hpl Hconv. cbv zeta.
  change (sizeof smb_trans2_req + sizeof smb_tr2_query) with (36 + 6).
  assert (Hp : (if negb ((36 + 6 + zlen utf) `mod` 4 =? 0) then 4 - (36 + 6 + zlen utf) `mod` 4 else 0) = (- (36 + 6 + zlen utf)) `mod` 4).
  { destruct (Z.eqb_spec ((36 + 6 + zlen utf) `mod` 4) 0); cbn [negb]; zdiv. }
  rewrite Hp. apply wp_bind. eapply wp_mono; [apply new_built|].
  intros [m|] w2 [L2 Hm]; [|apply wp_ret, trans2_unsent; [done|done|by eapply later_trans]].
  destruct Hm as [pid Hm]. set (k := (- (36 + 6 + zlen utf)) `mod` 4) in *. assert (Hk : 0 <= k < 4) by (apply Z.mod_pos_bound; lia).
  set (r1 := pack smb_trans2_req (fstat_fields (zlen utf) k)). assert (H1 : zlen r1 = 36) by done.
  set (r2 := pack smb_tr2_query [("interest", SMB_FIND2_QUERY_FILE_ALL_INFO)]). assert (H2 : zlen r2 = 6) by done.
  eapply (trans2_request _ _ _ r1 _ _ r2);
    [exact Hm|exact L2|done|reflexivity|apply pack_ok|done|reflexivity|apply pack_ok|done|done|done|lia|lia|].
  intros m3 w3 L3 Hm3. eapply (trans2_end s m3 pid tid (r1 ++ r2 ++ utf ++ replicate (Z.to_nat k) 0) path (n + 1) utf); [done|done|exact L1|exact L3|exact Hconv|done|exact Hm3|len].
Qed.


End Requests.

(** * A whole listing *)

Section Find.
Context {T : Type} (tr : smb_transport T) `{!TransportLaws tr} `{IconvLaws}.
Implicit Types s : smb_session T.

(** A well-formed answer [m] with the entries [es]: end of search, resume key
    and error of its parameters. *)
Definition answers (L : layout) (m : smb_message) (es : list dirent) (eos key err : Z) : Prop :=
  exists hd params rest c, m = find_answer L hd params es rest c
    /\ length hd = 32%nat /\ zlen params = sizeof smb_trans2_resp + sizeof L
    /\ field L (hd ++ params) (32 + sizeof smb_trans2_resp) "count" = Some (zlen es)
    /\ find_params L (hd ++ params) = Some (eos, key, err) /\ Forall dirent_ok es.

(** Nothing more will be asked for. *)
Definition finished (eos err : Z) : bool := negb (negb (negb (eos =? 0)) && (err =? 0)).

(** The answers to the FIND_NEXT requests that follow, whatever nodes are
    allocated meanwhile. *)
Inductive continues (tid sid : Z) (pattern : bytes) : Z -> smb_session T -> world -> list (list dirent) -> smb_session T -> Prop :=
| continues_last key s w m s' w' es eos key' err :
    (forall h, smb_trans2_find_next (set_files s h) tid key sid pattern w = Done ((Some m, set_files s' h), w')) ->
    lucky w' -> answers smb_tr2_findnext2_params m es eos key' err -> finished eos err = true ->
    continues tid sid pattern key s w [es] s'
| continues_more key s w m s1 w1 es eos key' err ess s' :
    (forall h, smb_trans2_find_next (set_files s h) tid key sid pattern w = Done ((Some m, set_files s1 h), w1)) ->
    lucky w1 -> answers smb_tr2_findnext2_params m es eos key' err -> finished eos err = false ->
    (forall w2, later w1 w2 -> continues tid sid pattern key' s1 w2 ess s') ->
    continues tid sid pattern key s w (es :: ess) s'.

Lemma find_params_weaken L b rest x : find_params L b = Some x -> find_params L (b ++ rest) = Some x.
Proof.
  unfold find_params. destruct (field L b _ "eos") as [a1|] eqn:E1; [|done]. cbn [mbind option_bind].
  destruct (field L b _ "last_name_offset") as [a2|] eqn:E2; [|done]. cbn [mbind option_bind].
  destruct (field L b _ "ea_error_offset") as [a3|] eqn:E3; [|done]. cbn [mbind option_bind]. intros <-.
  by rewrite (field_weaken _ _ rest _ _ _ E1), (field_weaken _ _ rest _ _ _ E2), (field_weaken _ _ rest _ _ _ E3).
Qed.

Lemma grow_onward m n : within onward (smb_message_grow m n).
Proof. unfold smb_message_grow, malloc, access. confine. Qed.

(** A turn of the loop keeps the transport. *)
Lemma tr2_body_onward rem res s w x w' :
  transport s = Some tr -> tr2_recv_body (rem, res, s) w = Done (x, w') ->
  onward w w' /\ match x with inl (_, _, s') => kept s s' | inr (_, s') => kept s s' end.
Proof.
  intros Htr. unfold tr2_recv_body. destruct (rem <=? 0); [intros [= <- <-]; split; reflexivity|].
  intros ([[r o] s1] & w1 & E1 & E)%bind_inv. pose proof (recv_kept _ _ _ _ _ _ E1) as Hk1. pose proof (kept_transport _ _ Hk1) as Ht1. rewrite Htr in Ht1.
  apply (recv_msg_onward tr s Htr) in E1. destruct (r =? 0); [by injection E as <- <-|].
  apply bind_inv in E as (m1 & w2 & E2 & E). apply bind_inv in E as (p & w3 & E3 & E).
  apply bind_inv in E as ([[total count] disp] & w4 & E4 & E). apply bind_inv in E as (g & w5 & E5 & [= <- <-]).
  split; [|done]. etrans; [exact E1|]. etrans; [exact (within_lift _ _ _ _ _ E2)|]. etrans; [exact (within_lift _ _ _ _ _ E3)|].
  etrans; [exact (within_lift _ _ _ _ _ E4)|]. exact (append_onward _ _ _ _ _ _ E5).
Qed.

Lemma tr2_recv_events s w m s' w' :
  transport s = Some tr -> smb_tr2_recv s w = Done ((Some m, s'), w') ->
  (length (w_events w') < length (w_events w))%nat /\ kept s s'.
Proof.
  intros Htr ([[r o] s1] & w1 & E1 & E)%bind_inv. pose proof (recv_kept _ _ _ _ _ _ E1) as Hk1. pose proof (kept_transport _ _ Hk1) as Ht1. rewrite Htr in Ht1.
  destruct (Z.eqb_spec r 0) as [->|Hr]; [done|]. apply (recv_msg_events tr) in E1; [|done|done].
  enough (onward w1 w' /\ kept s1 s') as [[_ Ho] Ht] by (split; [lia|by etrans]). clear E1.
  apply bind_inv in E as (m1 & w2 & E2 & E). apply bind_inv in E as (p & w3 & E3 & E).
  apply bind_inv in E as ([[total count] disp] & w4 & E4 & E). apply bind_inv in E as (g & w5 & E5 & E).
  assert (H5 : onward w1 w5).
  { etrans; [exact (within_lift _ _ _ _ _ E2)|]. etrans; [exact (within_lift _ _ _ _ _ E3)|].
    etrans; [exact (within_lift _ _ _ _ _ E4)|]. exact (grow_onward _ _ _ _ _ E5). }
  destruct g as [res|]; [|done]. apply bind_inv in E as ([res' s2] & w6 & E6 & [= _ <- <-]).
  enough (onward w5 w6 /\ kept s1 s2) as [H6 ?] by (split; [by etrans|done]).
  refine (loop_invariant _ (fun '(_, _, s) w => kept s1 s /\ onward w5 w) (fun '(_, s) w => onward w5 w /\ kept s1 s) _ _ _ _ _ _ _ E6); [| |done].
  - intros [[rem x] s0] w0 [[rem' x'] s0'] w0' [Ht Ho] Eb.
    destruct (tr2_body_onward _ _ _ _ _ _ (eq_trans (kept_transport _ _ Ht) Ht1) Eb). split; by etrans.
  - intros [[rem x] s0] w0 [x' s0'] w0' [Ht Ho] Eb.
    destruct (tr2_body_onward _ _ _ _ _ _ (eq_trans (kept_transport _ _ Ht) Ht1) Eb). split; by etrans.
Qed.

Lemma trans2_send_onward cmd L l s tid pattern :
  transport s = Some tr -> within onward (trans2_send cmd L l s tid pattern).
Proof.
  intros Htr. pose proof (fun m => send_msg_onward tr s m Htr) as Hs.
  unfold trans2_send, put_padding, access. confine.
Qed.

Lemma trans2_send_kept cmd L l s tid pattern w sent s' w' :
  trans2_send cmd L l s tid pattern w = Done ((sent, s'), w') -> kept s s'.
Proof.
  unfold trans2_send. intros (n & w1 & _ & ([pl o] & w2 & _ & E)%bind_inv)%bind_inv. cbn beta iota in E.
  destruct (pl =? 0); [by injection E as _ <- _|]. destruct (pad_loop 3 0 _) as [k bct].
  apply bind_inv in E as ([m|] & w3 & _ & E); [|by injection E as _ <- _].
  do 5 apply bind_inv in E as (? & ? & _ & E). apply bind_inv in E as ([[r s1] m'] & w4 & E4 & [= _ <- _]).
  by eapply send_kept.
Qed.

Lemma tr2_call_events cmd L l s tid pattern w m s' w' :
  transport s = Some tr ->
  ('(sent, s1) ← trans2_send cmd L l s tid pattern; if sent : bool then smb_tr2_recv s1 else mret (None, s1)) w
    = Done ((Some m, s'), w') ->
  (length (w_events w') < length (w_events w))%nat /\ kept s s'.
Proof.
  intros Htr ([sent s1] & w1 & E1 & E)%bind_inv. pose proof (trans2_send_kept _ _ _ _ _ _ _ _ _ _ E1) as Hk.
  pose proof (kept_transport _ _ Hk) as Ht. rewrite Htr in Ht.
  apply (trans2_send_onward _ _ _ _ _ _ Htr) in E1 as [_ Ho]. destruct sent; [|done].
  apply (tr2_recv_events _ _ _ _ _ Ht) in E as [? ?]. split; [lia|by etrans].
Qed.

(** One round: the entries are put in front of the list. *)
Lemma find_round L h files l m es eos key err w :
  answers L m es eos key err -> lucky w -> chain f_next h files l ->
  exists p h' head ns w', packet m = Some p /\ find_params L p = Some (eos, key, err)
    /\ find_parse L h files m w = Done ((h', head), w')
    /\ later w w' /\ h ⊆ h' /\ chain f_next h' head (ns ++ l) /\ listing h' ns (rev es).
Proof.
  intros (hd & params & rest & c & -> & Hhd & Hp & Hc & Hf & Hes) Hw Hch.
  destruct (find_parse_run L h files l hd params es rest c w) as (h' & head & ns & w' & E & R); auto.
  eexists _, h', head, ns, w'. split; [reflexivity|]. split; [|done]. rewrite <- app_assoc, app_assoc. by apply find_params_weaken.
Qed.

Lemma continues_events tid sid pattern key s w ess s' :
  continues tid sid pattern key s w ess s' -> transport s = Some tr -> (length ess <= length (w_events w))%nat.
Proof.
  induction 1 as [key s w m s' w' es eos key' err E|key s w m s1 w1 es eos key' err ess s' E _ _ _ _ IH]; intros Htr;
    (specialize (E ∅); apply tr2_call_events in E as [? Hk%kept_transport]; [|done]); cbn [length]; [lia|].
  change (transport s1 = transport s) in Hk. specialize (IH w1 (later_refl _) (eq_trans Hk Htr)). lia.
Qed.

(** One turn of the loop. *)
Lemma find_turn tid sid pattern key s w m s1 w1 es eos key' err h files l :
  (forall h, smb_trans2_find_next (set_files s h) tid key sid pattern w = Done ((Some m, set_files s1 h), w1)) ->
  lucky w1 -> answers smb_tr2_findnext2_params m es eos key' err -> chain f_next h files l -> files <> 0 ->
  exists h' head ns w',
    find_next_body tid sid pattern (false, key, 0, files, set_files s h) w
      = Done (inl (negb (eos =? 0), key', err, head, set_files s1 h'), w')
    /\ later w1 w' /\ head <> 0 /\ h ⊆ h' /\ chain f_next h' head (ns ++ l) /\ listing h' ns (rev es).
Proof.
  intros E Hw Ha Hch Hne.
  destruct (find_round _ h files l m es eos key' err _ Ha Hw Hch) as (p & h1 & head & ns & w2 & Ep & Ef & Eparse & L2 & Hs & Hch1 & Hl).
  assert (Hhd : head <> 0).
  { destruct (ns ++ l) as [|x k] eqn:El; [|by destruct Hch1 as (-> & ? & _)].
    apply app_eq_nil in El as [_ ->]. by cbn in Hch. }
  exists h1, head, ns, w2. split; [|done]. unfold find_next_body. cbn [negb andb Z.eqb].
  rewrite (bind_Done _ _ _ _ _ (E h)). cbn beta iota. rewrite (bind_Done _ _ _ _ _ (access_Done _ _ _ Ep)).
  rewrite (bind_Done _ _ _ _ _ (access_Done _ _ _ Ef)). cbn beta iota.
  unfold smb_find_next_parse. rewrite (bind_Done _ _ _ _ _ Eparse).
  rewrite (proj2 (Z.eqb_neq head 0)), orb_false_r by done. done.
Qed.

(** The loop of FIND_NEXT requests collects every answer. *)
Lemma find_loop_run fuel tid sid pattern key s w ess s' h files l :
  continues tid sid pattern key s w ess s' -> (length ess < fuel)%nat -> chain f_next h files l -> files <> 0 ->
  exists h' head ns w',
    loop_fuel fuel (find_next_body tid sid pattern) (false, key, 0, files, set_files s h) w = Done ((head, set_files s' h'), w')
    /\ h ⊆ h' /\ chain f_next h' head (ns ++ l) /\ listing h' ns (rev (concat ess)).
Proof.
  intros Hc. revert fuel h files l.
  induction Hc as [key s w m s' w' es eos key' err E Hw Ha Hf|key s w m s1 w1 es eos key' err ess s' E Hw Ha Hf _ IH];
    intros fuel h files l Hfuel Hch Hne; (destruct fuel as [|fuel]; [cbn in Hfuel; lia|]);
    destruct (find_turn _ _ _ _ _ _ _ _ _ _ _ _ _ h files l E Hw Ha Hch Hne) as (h1 & head & ns & w2 & Eb & L2 & Hhd & Hs & Hch1 & Hl);
    cbn [loop_fuel]; rewrite (bind_Done _ _ _ _ _ Eb).
  - exists h1, head, ns, w2. destruct fuel as [|fuel]; [cbn in Hfuel; lia|]. cbn [concat]. rewrite app_nil_r. split; [|done].
    cbn [loop_fuel]. rewrite (bind_Done _ _ w2 (inr (head, set_files s' h1)) w2); [done|].
    unfold find_next_body, finished in *. by rewrite Hf.
  - unfold finished in Hf. apply negb_false_iff, andb_prop in Hf as [He Hr]. apply negb_true_iff in He. apply Z.eqb_eq in Hr as ->.
    rewrite He. destruct (IH w2 L2 fuel h1 head (ns ++ l)) as (h' & head' & ns' & w' & El & Hs' & Hch' & Hl'); auto.
    { cbn in Hfuel. lia. }
    exists h', head', (ns' ++ ns), w'. split; [exact El|]. split; [by etrans|]. split; [by rewrite <- app_assoc|].
    cbn [concat]. rewrite rev_app_distr. apply Forall2_app; [done|]. by eapply listing_grows.
Qed.

Lemma find_run s tid pattern w m s1 w1 es eos key err sid ess s' :
  transport s1 = Some tr ->
  smb_trans2_find_first s tid pattern w = Done ((Some m, s1), w1) -> lucky w1 ->
  answers smb_tr2_findfirst2_params m es eos key err -> es <> [] ->
  (forall p, packet m = Some p -> field smb_tr2_findfirst2_params p (32 + sizeof smb_trans2_resp) "id" = Some sid) ->
  (if finished eos err then ess = [] /\ s' = s1
   else forall w2, later w1 w2 -> continues tid sid pattern key s1 w2 ess s') ->
  exists h head ns w', smb_find s tid pattern w = Done ((head, set_files s' h), w')
    /\ file_heap (fds s1) ⊆ h /\ chain f_next h head ns /\ listing h ns (rev (concat (es :: ess))).
Proof.
  intros Htr E Hw Ha Hne Hsid Hmore. set (h0 := file_heap (fds s1)).
  destruct (find_round _ h0 0 [] m es eos key err _ Ha Hw eq_refl) as (p & h1 & head & ns & w2 & Ep & Ef & Eparse & L2 & Hs & Hch1 & Hl).
  rewrite app_nil_r in Hch1.
  assert (Hhd : head <> 0).
  { destruct ns as [|x k]; [|by destruct Hch1 as (-> & ? & _)]. apply Forall2_length in Hl.
    destruct es; [done|]. rewrite length_rev in Hl. done. }
  unfold smb_find. rewrite (bind_Done _ _ _ _ _ E). cbn beta iota. unfold smb_find_first_parse. fold h0.
  rewrite (bind_Done _ _ _ _ _ Eparse). cbn beta iota zeta. rewrite (proj2 (Z.eqb_neq head 0)) by done.
  rewrite (bind_Done _ _ _ _ _ (access_Done _ _ _ Ep)), (bind_Done _ _ _ _ _ (access_Done _ _ _ Ef)). cbn beta iota.
  rewrite (bind_Done _ _ _ _ _ (access_Done _ _ _ (Hsid _ Ep))). unfold loop.
  destruct (finished eos err) eqn:Hf.
  - destruct Hmore as [-> ->]. exists h1, head, ns, w2. cbn [concat]. rewrite app_nil_r. split; [|done].
    cbn [loop_fuel]. rewrite (bind_Done _ _ w2 (inr (head, set_files s1 h1)) w2); [done|].
    unfold find_next_body, finished in *. by rewrite Hf.
  - unfold finished in Hf. apply negb_false_iff, andb_prop in Hf as [He Hr]. apply negb_true_iff in He. apply Z.eqb_eq in Hr as ->.
    rewrite He. destruct (find_loop_run (S (length (w_events w2))) tid sid pattern key s1 w2 ess s' h1 head ns) as (h' & head' & ns' & w' & El & Hs' & Hch' & Hl'); auto.
    { pose proof (continues_events _ _ _ _ _ _ _ _ (Hmore w2 L2) Htr). lia. }
    exists h', head', (ns' ++ ns), w'. split; [exact El|]. split; [by etrans|]. split; [done|].
    cbn [concat]. rewrite rev_app_distr. apply Forall2_app; [done|]. by eapply listing_grows.
Qed.

(** ** The status of a path *)

Record path_status := PathStatus {
  p_created : Z; p_accessed : Z; p_written : Z; p_changed : Z;
  p_attr : Z; p_alloc_size : Z; p_size : Z; p_is_dir : Z;
  p_name : bytes
}.

Definition status_values (i : path_status) : list (string * Z) :=
  [("created", p_created i); ("accessed", p_accessed i); ("written", p_written i); ("changed", p_changed i);
   ("attr", p_attr i); ("alloc_size", p_alloc_size i); ("size", p_size i); ("is_dir", p_is_dir i);
   ("name_len", zlen (p_name i))].

Definition p_text (i : path_status) : bytes := text UCS2LE Locale (p_name i) (zlen (p_name i)).

(** As many bytes of text as the name has UCS-2 units, at least. *)
Definition status_ok (i : path_status) : Prop :=
  Forall (fun v => 0 <= v < 256 ^ 8) [p_created i; p_accessed i; p_written i; p_changed i; p_alloc_size i; p_size i]
  /\ 0 <= p_attr i < 256 ^ 4 /\ 0 <= p_is_dir i < 256 /\ zlen (p_name i) < 65536
  /\ p_text i <> [] /\ zlen (p_name i) `div` 2 <= zlen (p_text i).

Definition status_bytes (i : path_status) : bytes := pack smb_tr2_path_info (status_values i) ++ p_name i.

Lemma path_info_ok : Forall (fun fw => 0 < fw.2) smb_tr2_path_info.
Proof. decided. Qed.

Lemma status_field i pre rest f o w :
  locate smb_tr2_path_info f = Some (o, w) -> 0 <= value (status_values i) f < 256 ^ w ->
  field smb_tr2_path_info (pre ++ status_bytes i ++ rest) (zlen pre) f = Some (value (status_values i) f).
Proof.
  intros Hf Hv. unfold status_bytes. rewrite <- app_assoc. eapply field_pack; [exact path_info_ok|exact Hf|done|done].
Qed.

Lemma info_file_reads i pre rest name n :
  status_ok i -> zlen pre = 60 ->
  info_file (pre ++ status_bytes i ++ rest) 28 name n
  = Some (File 0 (Some name) 0 0 n (p_created i) (p_accessed i) (p_written i) (p_changed i)
      (p_alloc_size i) (p_size i) (p_attr i) 0 (p_is_dir i)).
Proof.
  intros (Ht & Ha & Hd & _) Hpre. unfold info_file. change (32 + 28) with 60. rewrite <- Hpre.
  rewrite !Forall_cons in Ht. destruct Ht as (H1 & H2 & H3 & H4 & H5 & H6 & _).
  rewrite (status_field i pre rest "created" 0 8), (status_field i pre rest "accessed" 8 8), (status_field i pre rest "written" 16 8),
    (status_field i pre rest "changed" 24 8), (status_field i pre rest "alloc_size" 40 8), (status_field i pre rest "size" 48 8),
    (status_field i pre rest "attr" 32 4), (status_field i pre rest "is_dir" 61 1) by done.
  done.
Qed.

(** A zero over a text or behind it. *)
Lemma put_cut b t k : sub b 0 (zlen t) = Some t -> 0 <= k <= zlen t -> k < zlen b ->
  exists b', put b k [0] = Some b' /\ sub b' 0 (k + 1) = Some (take (Z.to_nat k) t ++ [0]).
Proof.
  intros (_ & _ & _ & Ht)%sub_inv Hk Hl. rewrite drop_0 in Ht. rewrite put_Some by len. eexists. split; [done|].
  rewrite Ht, take_take, app_assoc, sub_Some by len. rewrite drop_0, Nat.min_l by len. f_equal. apply take_app_length'. len.
Qed.

Lemma fstat_answer_run s i n pre rest w :
  lucky w -> status_ok i -> zlen pre = 60 -> 100 + zlen (p_name i) <= n ->
  exists b w', fstat_answer s (Message n 0 (Some (pre ++ status_bytes i ++ rest))) w
      = Done ((fresh_ptr (file_heap (fds s)), set_files s (<[fresh_ptr (file_heap (fds s)) :=
          File 0 (Some b) 0 0 (zlen (p_text i)) (p_created i) (p_accessed i) (p_written i) (p_changed i)
            (p_alloc_size i) (p_size i) (p_attr i) 0 (p_is_dir i)]> (file_heap (fds s)))), w')
    /\ later w w' /\ sub b 0 (zlen (p_name i) `div` 2 + 1) = Some (take (Z.to_nat (zlen (p_name i) `div` 2)) (p_text i) ++ [0]).
Proof.
  intros Hw Hi Hpre Hn. pose proof Hi as (_ & _ & _ & Hname & Hne & Hdiv). set (p := pre ++ status_bytes i ++ rest).
  assert (Hz : 0 <= zlen (p_name i)) by (unfold zlen; lia).
  assert (E3 : take (Z.to_nat (zlen (p_name i))) (drop 132 p) = p_name i).
  { pose proof (length_pack _ (status_values i) path_info_ok) as Hl. change (sizeof smb_tr2_path_info) with 72 in Hl.
    unfold p, status_bytes. rewrite <- !app_assoc, app_assoc.
    rewrite drop_app_length' by len. apply take_app_length'. unfold zlen. lia. }
  unfold fstat_answer. cbn [payload_size packet]. change (sizeof smb_tr2_path_info) with 72. change (sizeof smb_trans2_resp + 4) with 28.
  rewrite (proj2 (Z.ltb_ge n 72)) by lia. rewrite (bind_Done _ _ _ p w) by done. cbv zeta. change (32 + 28) with 60.
  rewrite (bind_Done _ _ _ (zlen (p_name i)) w).
  2: { apply access_Done. rewrite <- Hpre. apply (status_field i pre rest "name_len" 68 4); [done|cbn; lia]. }
  change (28 + 72) with 100. rewrite (proj2 (Z.ltb_ge n (100 + _))) by lia. change (Z.to_nat (32 + 100)) with 132%nat.
  unfold mbind at 1, io_bind at 1. unfold flip at 1. rewrite Hw. cbn [obind negb]. set (w1 := set_tick w _).
  destruct (smb_iconv_Done (drop 132 p) (zlen (p_name i)) UCS2LE Locale w1) as (r & o & w2 & E & L & Hc).
  { split; [done|]. rewrite <- E3 at 1. len. } { lia. }
  unfold smb_from_utf16. rewrite (bind_Done _ _ _ _ _ E). rewrite text_take, E3 in Hc. fold (p_text i) in Hc.
  destruct Hc as [(_ & _ & Hnil)|(Hr & -> & b & -> & Hsub)]; [by specialize (Hnil Hw)|].
  rewrite (bind_Done _ _ _ b w2) by done. apply smb_iconv_room in E; [|lia|lia].
  assert (Hpos : 0 < zlen (p_name i)).
  { destruct (text_size UCS2LE Locale (p_name i) (zlen (p_name i)) Hz) as [_ Ht]. fold (p_text i) in Ht. lia. }
  destruct (put_cut b (p_text i) (zlen (p_name i) `div` 2) Hsub) as (b' & Eb & Hb'); [zdiv|zdiv|].
  rewrite (bind_Done _ _ _ _ _ (access_Done _ _ _ Eb)), (bind_Done _ _ _ _ _ (access_Done _ _ _ (info_file_reads i pre rest b' (zlen (p_text i)) Hi Hpre))).
  exists b', w2. split; [done|]. split; [by apply later_step|done].
Qed.

(** C21. A transaction in several messages: when the transport delivers them
    in order, [smb_tr2_recv] returns the first message with the data of all the
    others behind it, whatever their number. *)
Theorem tr2_recv_reassembles s w n p ms s' total count ds :
  transport s = Some tr -> lucky w -> delivers s w ((n, p) :: ms) s' ->
  tr2_counts p = Some (total, count, 0) -> parts total count ms ds ->
  exists res w', smb_tr2_recv s w = Done ((Some res, s'), w')
    /\ message res (take 32 p) (take (Z.to_nat n) (drop 32 p) ++ concat ds)
    /\ payload_size res = n + zlen (concat ds).
Proof. apply tr2_recv_run; done. Qed.

(** A first message that announces less data in all than it carries
    itself: the size of the new message is smaller than the old one, which is
    copied whole into it, past the end of the block. *)
Theorem tr2_recv_overflow s w n p s1 w1 total count disp :
  transport s = Some tr -> lucky w ->
  smb_session_recv_msg s w = Done ((n, Some (Message n 0 (Some p)), s1), w1) ->
  0 < n < 131072 -> 32 + n <= zlen p -> bytes_ok p ->
  tr2_counts p = Some (total, count, disp) -> total < count <= n ->
  smb_tr2_recv s w = Fault.
Proof. by apply tr2_recv_shrinks. Qed.

(** C11. A whole listing, with a server that answers FIND_FIRST and then any
    number of FIND_NEXT requests with well-formed entries: [smb_find] returns a
    linked list of exactly the entries of all the answers, the last one
    first, each with its name (as a C string), times, sizes and attributes; it
    asks again, with the search and resume key of the last answer, exactly
    until an answer says that the search has ended. *)
Theorem find_lists s tid pattern w m s1 w1 es eos key err sid ess s' :
  transport s1 = Some tr ->
  smb_trans2_find_first s tid pattern w = Done ((Some m, s1), w1) -> lucky w1 ->
  answers smb_tr2_findfirst2_params m es eos key err -> es <> [] ->
  (forall p, packet m = Some p -> field smb_tr2_findfirst2_params p (32 + sizeof smb_trans2_resp) "id" = Some sid) ->
  (if finished eos err then ess = [] /\ s' = s1
   else forall w2, later w1 w2 -> continues tid sid pattern key s1 w2 ess s') ->
  exists h head ns w', smb_find s tid pattern w = Done ((head, set_files s' h), w')
    /\ file_heap (fds s1) ⊆ h /\ chain f_next h head ns /\ listing h ns (rev (concat (es :: ess))).
Proof. apply find_run. Qed.

(** The answer to a query of a path: the node returned has the times,
    sizes, attributes and kind of the answer, and a name cut to as many bytes
    as the UCS-2 name has units (which is the whole name only when every
    character takes one byte). *)
Theorem fstat_reads s i n pre rest w :
  lucky w -> status_ok i -> zlen pre = 60 -> 100 + zlen (p_name i) <= n ->
  exists b ptr h w', fstat_answer s (Message n 0 (Some (pre ++ status_bytes i ++ rest))) w = Done ((ptr, set_files s h), w')
    /\ ptr <> 0 /\ file_heap (fds s) !! ptr = None
    /\ h = <[ptr := File 0 (Some b) 0 0 (zlen (p_text i)) (p_created i) (p_accessed i) (p_written i) (p_changed i)
            (p_alloc_size i) (p_size i) (p_attr i) 0 (p_is_dir i)]> (file_heap (fds s))
    /\ sub b 0 (zlen (p_name i) `div` 2 + 1) = Some (take (Z.to_nat (zlen (p_name i) `div` 2)) (p_text i) ++ [0]).
Proof.
  intros Hw Hi Hpre Hn. destruct (fstat_answer_run s i n pre rest w Hw Hi Hpre Hn) as (b & w' & E & _ & Hb).
  destruct (fresh_ptr_spec (file_heap (fds s))) as [H1 H2].
  eexists b, (fresh_ptr (file_heap (fds s))), _, w'. split; [exact E|]. split_and!; done.
Qed.

(** An answer with an empty name makes [smb_fstat] write through a NULL
    pointer. *)
Theorem fstat_no_name s m p w :
  received m p -> 100 <= payload_size m -> w_coin w (w_tick w) = true ->
  field smb_tr2_path_info p 60 "name_len" = Some 0 ->
  fstat_answer s m w = Fault.
Proof.
  intros (Hm & _) Hn Hc Hf. unfold fstat_answer. change (sizeof smb_tr2_path_info) with 72. change (sizeof smb_trans2_resp + 4) with 28.
  rewrite (proj2 (Z.ltb_ge _ 72)) by lia. rewrite (bind_Done _ _ _ p w) by (by rewrite Hm). cbv zeta. change (32 + 28) with 60.
  rewrite (bind_Done _ _ _ _ _ (access_Done _ _ _ Hf)). rewrite (proj2 (Z.ltb_ge _ (28 + 72 + 0))) by lia.
  unfold mbind at 1, io_bind at 1. unfold flip at 1. rewrite Hc. done.
Qed.

End Find.

(** * A server *)

(** The header of an answer and its counters. *)
Definition answer_header : bytes := magic ++ [SMB_CMD_TRANS2] ++ replicate 27 0.
Definition resp (total count disp : Z) : bytes :=
  pack smb_trans2_resp [("wct", 10); ("total_data_count", total); ("data_count", count); ("data_displacement", disp)].
Definition framed (payload : bytes) : bytes := NetbiosSession.frame 0 0 (answer_header ++ payload).

(** Two rounds: a file "a" and a directory "bc". *)
Definition some_file : dirent := Dirent 1 2 3 4 500 512 0x20 [97; 0] [0; 0].
Definition some_dir : dirent := Dirent 5 6 7 8 0 0 0x10 [98; 0; 99; 0] [].
Definition first_params : bytes :=
  resp 200 200 0 ++ pack smb_tr2_findfirst2_params [("id", 5); ("count", 1); ("last_name_offset", 9)].
Definition next_params : bytes :=
  resp 200 200 0 ++ pack smb_tr2_findnext2_params [("count", 1); ("eos", 1); ("last_name_offset", 9)].
Definition find_replies : bytes :=
  framed (first_params ++ entry_bytes some_file) ++ framed (next_params ++ entry_bytes some_dir).

Example find_runs :
  match smb_find some_session 7 a_path (answering find_replies) with
  | Done (head, s', w') =>
      let h := file_heap (fds s') in
      (smb_stat_list_count h head, f_is_dir <$> h !! head, option_map (take 3) ∘ f_name <$> h !! head, length (w_tx w'))
  | _ => (Fault, None, None, 0%nat)
  end = (Done 2, Some 16, Some (Some [98; 99; 0]), 2%nat).
Proof. vm_compute. reflexivity. Qed.


(** What [smb_session_recv_msg] receives: size, memory, state of the transport. *)
Definition got {T} (s : smb_session T) (w : world) : option (Z * bytes * T * world) :=
  match smb_session_recv_msg s w with
  | Done ((n, Some m, s'), w') =>
      match packet m, session s' with Some p, Some t => Some (n, p, t, w') | _, _ => None end
  | _ => None
  end.

Lemma recv_got {T} (s : smb_session T) w n p t w' :
  got s w = Some (n, p, t, w') -> n <> 0 ->
  smb_session_recv_msg s w = Done ((n, Some (Message n 0 (Some p)), set_session s t), w').
Proof.
  unfold got. destruct (smb_session_recv_msg s w) as [[[[r [m|]] s'] w1]| |] eqn:E; try done.
  destruct (packet m) as [q|] eqn:Ep; [|done]. destruct (session s') as [t'|] eqn:Et; [|done]. intros [= -> -> -> ->] Hn.
  pose proof (recv_kept _ _ _ _ _ _ E) as Hk. unfold kept in Hk. rewrite Et in Hk. rewrite Hk. do 3 f_equal.
  revert E. unfold smb_session_recv_msg.
  intros (t1 & w2 & _ & (x & w3 & _ & ([[r1 d] t2] & w4 & _ & E)%bind_inv)%bind_inv)%bind_inv.
  destruct (r1 <=? 0); [by injection E|]. destruct (r1 <? _); [by injection E|]. injection E as E1 E2 _ _. subst m. cbn in Ep. by rewrite E1, Ep.
Qed.

(** A transaction of 5 bytes in two messages. *)
Definition two_parts : world := answering (framed (resp 5 2 0 ++ [11; 12]) ++ framed (resp 5 3 2 ++ [13; 14; 15])).
Definition part1 := Eval vm_compute in default (0, [], tcp_session, two_parts) (got some_session two_parts).
Definition session1 := set_session some_session part1.1.2.
Definition part2 := Eval vm_compute in default (0, [], tcp_session, two_parts) (got session1 part1.2).
Definition session2 := set_session session1 part2.1.2.

Lemma two_delivered :
  delivers some_session two_parts [(26, part1.1.1.2); (27, part2.1.1.2)] session2.
Proof.
  apply (delivers_cons _ _ 26 _ session1 part1.2); [apply recv_got; [vm_compute; reflexivity|done]|done|vm_compute; done|apply (bool_decide_unpack _); vm_compute; done|].
  intros w2 [n ->].
  apply (delivers_cons _ _ 27 _ session2 (set_tick part2.2 (n + 0))); [apply recv_got; [vm_compute; reflexivity|done]|done|vm_compute; done|apply (bool_decide_unpack _); vm_compute; done|].
  intros w3 _. constructor.
Qed.

Lemma tr2_recv_reassembles_witness :
  exists res w', smb_tr2_recv some_session two_parts = Done ((Some res, session2), w')
    /\ message res (take 32 part1.1.1.2) (take (Z.to_nat 26) (drop 32 part1.1.1.2) ++ concat [[13; 14; 15]])
    /\ payload_size res = 26 + zlen (concat [[13; 14; 15]]).
Proof.
  apply (tr2_recv_reassembles smb_transport_tcp some_session two_parts 26 part1.1.1.2 [(27, part2.1.1.2)] session2 5 2 [[13; 14; 15]]);
    [done|done|exact two_delivered|vm_compute; reflexivity|].
  split; [split; vm_compute; reflexivity|split; [done|reflexivity]].
Defined.

(** A message of 24 + 8 bytes that says that it carries 8 of 3 bytes. *)
Definition shrinking : world := answering (framed (resp 3 8 0 ++ replicate 8 1)).
Definition shrink1 := Eval vm_compute in default (0, [], tcp_session, shrinking) (got some_session shrinking).

Lemma tr2_recv_overflow_witness : smb_tr2_recv some_session shrinking = Fault.
Proof.
  apply (tr2_recv_overflow smb_transport_tcp some_session shrinking 32 shrink1.1.1.2 (set_session some_session shrink1.1.2) shrink1.2 3 8 0);
    [done|done|apply recv_got; [vm_compute; reflexivity|done]|done|vm_compute; done|apply (bool_decide_unpack _); vm_compute; done
    |vm_compute; reflexivity|done].
Defined.

(** The answer to a search request over TCP. *)
Definition found (o : outcome (option smb_message * smb_session NetbiosSession.netbios_session * world))
    : option (smb_message * NetbiosSession.netbios_session * world) :=
  match o with
  | Done ((Some m, s'), w') => match session s' with Some t => Some (m, t, w') | None => None end
  | _ => None
  end.

Lemma call_found cmd L l s tid pattern w m t w' (call : io (option smb_message * smb_session NetbiosSession.netbios_session)) :
  transport s = Some smb_transport_tcp ->
  call = ('(sent, s1) ← trans2_send cmd L l s tid pattern; if sent : bool then smb_tr2_recv s1 else mret (None, s1)) ->
  found (call w) = Some (m, t, w') -> call w = Done ((Some m, set_session s t), w').
Proof.
  intros Htr Hc Hf. unfold found in Hf. destruct (call w) as [[[[m1|] s'] w1]| |] eqn:E; try done.
  destruct (session s') as [t'|] eqn:Et; [|done]. injection Hf as -> -> ->. rewrite Hc in E.
  apply (tr2_call_events smb_transport_tcp) in E as [_ Hk]; [|done]. unfold kept in Hk. rewrite Et in Hk. by rewrite Hk.
Qed.

Definition no_answer : smb_message * NetbiosSession.netbios_session * world := (Message 0 0 None, tcp_session, two_parts).
Definition answer1 := Eval vm_compute in default no_answer (found (smb_trans2_find_first some_session 7 a_path (answering find_replies))).
Definition answer2 := Eval vm_compute in default no_answer
  (found (smb_trans2_find_next (set_session some_session answer1.1.2) 7 9 5 a_path answer1.2)).

Lemma entries_ok : dirent_ok some_file /\ dirent_ok some_dir.
Proof.
  split; (split; [repeat (apply Forall_cons; split; [done|]); by apply Forall_nil|]);
    split_and!; vm_compute; done.
Qed.

Lemma find_lists_witness :
  exists s' h head ns w', smb_find some_session 7 a_path (answering find_replies) = Done ((head, set_files s' h), w')
    /\ chain f_next h head ns /\ listing h ns [some_dir; some_file].
Proof.
  destruct entries_ok as [Hf Hd].
  destruct (find_lists smb_transport_tcp some_session 7 a_path (answering find_replies) answer1.1.1
    (set_session some_session answer1.1.2) answer1.2 [some_file] 0 9 0 5 [[some_dir]]
    (set_session some_session answer2.1.2)) as (h & head & ns & w' & E & _ & Hc & Hl).
  - done.
  - eapply call_found; [done|reflexivity|vm_compute; reflexivity].
  - done.
  - exists answer_header, first_params, [], 134. split; [vm_compute; reflexivity|]. split_and!; try done. by repeat constructor.
  - done.
  - intros p [= <-]. vm_compute. reflexivity.
  - cbn [finished Z.eqb negb andb]. intros w2 [n ->].
    apply (continues_last _ _ _ _ _ _ answer2.1.1 _ (set_tick answer2.2 (w_tick answer2.2 - w_tick answer1.2 + (n + w_tick answer1.2))) _ 1 9 0); [|done| |done].
    + intros h. refine (call_found _ _ _ (set_files (set_session some_session answer1.1.2) h) _ _ _ _ _ _ _ eq_refl eq_refl _).
      vm_compute. reflexivity.
    + exists answer_header, next_params, [], 130. split; [vm_compute; reflexivity|]. split_and!; try done. by repeat constructor.
  - exists (set_session some_session answer2.1.2), h, head, ns, w'. split; [exact E|]. split; [exact Hc|exact Hl].
Defined.

(** The status of "a". *)
Definition some_status : path_status := PathStatus 1 2 3 4 0x20 512 500 0 [97; 0].

Lemma fstat_reads_witness :
  exists b ptr h w', fstat_answer some_session (Message 102 0 (Some (replicate 60 0 ++ status_bytes some_status ++ []))) (answering [])
      = Done ((ptr, set_files some_session h), w')
    /\ ptr <> 0 /\ file_heap (fds some_session) !! ptr = None
    /\ h = <[ptr := File 0 (Some b) 0 0 (zlen (p_text some_status)) 1 2 3 4 512 500 0x20 0 0]> (file_heap (fds some_session))
    /\ sub b 0 (zlen (p_name some_status) `div` 2 + 1)
       = Some (take (Z.to_nat (zlen (p_name some_status) `div` 2)) (p_text some_status) ++ [0]).
Proof.
  apply (fstat_reads some_session some_status 102 (replicate 60 0) [] (answering [])); [done| |done|done].
  split; [repeat (apply Forall_cons; split; [done|]); by apply Forall_nil|]. split_and!; vm_compute; done.
Defined.

(** An answer of zeros. *)
Lemma fstat_no_name_witness :
  fstat_answer some_session (Message 100 0 (Some (replicate (Z.to_nat 9000) 0))) (answering []) = Fault.
Proof.
  apply (fstat_no_name some_session _ (replicate (Z.to_nat 9000) 0)); [|done|done|vm_compute; reflexivity].
  split; [done|]. split; [done|]. split; [vm_compute; done|]. apply Forall_replicate. done.
Defined.

End SmbTrans2.
