(* ===== verification/SmbSpnego.v ===== *)
(** Login with SPNEGO, src/smb_spnego.c, and the choice of the login,
    [smb_session_login] of src/smb_session.c.

    libtasn1 is a parameter, the class [Asn1]: a token is what
    asn1_create_element makes, and the functions of the library transform it,
    encode it to DER, decode it and read it. The object identifiers and names
    the code passes are the ones of the source; the bytes of a token are the
    library's. *)

From stdpp Require Import strings.
From S2P Require Import Prelude World Compat NetbiosSession SmbPackets SmbBuffer SmbMessage SmbNtlm SmbFd SmbTransport SmbSession SmbLogin SmbFile.

Module SmbSpnego.
Import SmbPackets SmbBuffer SmbUtils SmbMessage SmbTransport SmbSession SmbLogin SmbFile.
Local Open Scope string_scope.
Local Open Scope list_scope.
Local Open Scope Z_scope.

Definition NT_STATUS_MORE_PROCESSING_REQUIRED : Z := 0xc0000016.

(** What the code uses of libtasn1. [None] is an error code, or an element
    that could not be made. *)
Class Asn1 := {
  asn1_token : Type;
  asn1_array2tree : io bool;
  asn1_create_element : string -> io (option asn1_token);
  asn1_write_value : asn1_token -> string -> option bytes -> io (option asn1_token);
  asn1_der_coding : asn1_token -> Z -> io (option bytes);
  asn1_der_decoding : asn1_token -> bytes -> io (option asn1_token);
  asn1_read_value : asn1_token -> string -> Z -> io (option bytes)
}.

(** The functions return, and use up nothing but memory of the system; an
    element of the loaded definitions is made when there is memory; what they
    store fits in the room they were given. *)
Definition returns {A} (m : io A) (Q : world -> A -> Prop) : Prop :=
  forall w, exists a w', m w = Done (a, w') /\ later w w' /\ Q w a.

Class Asn1Laws `{Asn1} := {
  array2tree_returns : returns asn1_array2tree (fun _ _ => True);
  create_returns name : returns (asn1_create_element name) (fun w o => lucky w -> o <> None);
  write_returns t path v : returns (asn1_write_value t path v) (fun _ _ => True);
  coding_returns t room :
    returns (asn1_der_coding t room) (fun _ o => forall d, o = Some d -> zlen d <= room /\ bytes_ok d);
  decoding_returns t d : returns (asn1_der_decoding t d) (fun _ _ => True);
  read_returns t path room :
    returns (asn1_read_value t path room) (fun _ o => forall d, o = Some d -> zlen d <= room /\ bytes_ok d)
}.

(** "1.3.6.1.5.5.2" and "1.3.6.1.4.1.311.2.2.10" *)
Definition spnego_oid : bytes := cstr [49; 46; 51; 46; 54; 46; 49; 46; 53; 46; 53; 46; 50].
Definition ntlmssp_oid : bytes :=
  cstr [49; 46; 51; 46; 54; 46; 49; 46; 52; 46; 49; 46; 51; 49; 49; 46; 50; 46; 50; 46; 49; 48].
(** "negTokenInit", "NEW" and "negTokenResp" *)
Definition neg_token_init : bytes := cstr [110; 101; 103; 84; 111; 107; 101; 110; 73; 110; 105; 116].
Definition new_element : bytes := cstr [78; 69; 87].
Definition neg_token_resp : bytes := cstr [110; 101; 103; 84; 111; 107; 101; 110; 82; 101; 115; 112].

(** smb_ntlm.h: the challenge message. *)
Definition smb_ntlmssp_challenge : layout :=
  [("id", 8); ("type", 4); ("name_len", 2); ("name_maxlen", 2); ("name_offset", 4); ("flags", 4); ("challenge", 8);
   ("reserved", 8); ("tgt_len", 2); ("tgt_maxlen", 2); ("tgt_offset", 4)].

Section Spnego.
Context {T : Type} `{Iconv} `{Asn1}.
Implicit Types (s : smb_session T) (msg : smb_message).

(** The lock only orders the calls. *)
Definition init_asn1 s : io (Z * smb_session T) :=
  if spnego_asn1 s then mret (DSM_ERROR_GENERIC, s)
  else
    ok ← asn1_array2tree;
    if negb ok then mret (DSM_ERROR_GENERIC, s) else mret (DSM_SUCCESS, set_asn1 s true).

Definition clean_asn1 s : smb_session T := if spnego_asn1 s then set_asn1 s false else s.

(** [res = asn1_write_value(...); if (res != ASN1_SUCCESS) goto error;] in a
    row; [None] is the jump. *)
Fixpoint write_values (t : asn1_token) (l : list (string * option bytes)) : io (option asn1_token) :=
  match l with
  | [] => mret (Some t)
  | (path, v) :: l =>
      t ← asn1_write_value t path v;
      match t with None => mret None | Some t => write_values t l end
  end.

(** A whole buffer as a value. *)
Definition write_buffer (t : asn1_token) (path : string) (b : smb_buffer) : io (option asn1_token) :=
  d ← access (data b);
  d ← access (sub d 0 (size b));
  asn1_write_value t path (Some d).

Definition init_values : list (string * option bytes) :=
  [("thisMech", Some spnego_oid); ("spnego", Some neg_token_init);
   ("spnego.negTokenInit.mechTypes", Some new_element); ("spnego.negTokenInit.mechTypes.?1", Some ntlmssp_oid);
   ("spnego.negTokenInit.reqFlags", None); ("spnego.negTokenInit.mechListMIC", None)].

Definition resp_values : list (string * option bytes) :=
  [("", Some neg_token_resp); ("negTokenResp.negResult", None); ("negTokenResp.supportedMech", None);
   ("negTokenResp.mechListMIC", None)].

(** From the creation of the token to its encoding: [None] for the errors.
    [ntlm] makes the NTLMSSP message. *)
Definition spnego_token (name : string) (l : list (string * option bytes)) (ntlm : io smb_buffer) (path : string) (room : Z)
    : io (option bytes) :=
  token ← asn1_create_element name;
  token ← access token;
  token ← write_values token l;
  match token with
  | None => mret None
  | Some token =>
      b ← ntlm;
      token ← write_buffer token path b;
      match token with None => mret None | Some token => asn1_der_coding token room end
  end.

(** The fields of [smb_session_xsec_req]. *)
Definition xsec_fields s (blob_size payload : Z) : list (string * Z) :=
  [("wct", 12); ("max_buffer", SMB_SESSION_MAX_BUFFER); ("mpx_count", 16); ("vc_count", 1);
   ("caps", caps (srv s)); ("session_key", session_key (srv s)); ("xsec_blob_size", blob_size);
   ("payload_size", payload)].

(** The names behind the token. *)
Definition os_names : list put_call :=
  [Put_utf16 SMB_OS 4; Put16 0; Put_utf16 SMB_LANMAN 6; Put16 0; Put16 0].

(** The request around the token; [align] is the padding of [auth]. *)
Definition xsec_request s (align : bool) (der : bytes) msg : io smb_message :=
  msg ← append msg (Some der) (zlen der);
  msg ← (if align && negb (cursor msg `mod` 2 =? 0) then put8 msg 0 else mret msg);
  msg ← puts msg os_names;
  insert_pkt_andx msg smb_session_xsec_req (xsec_fields s (zlen der) (cursor msg - sizeof smb_session_xsec_req)).

Definition negotiate s (domain : bytes) : io (Z * smb_session T) :=
  msg ← smb_message_new SMB_CMD_SETUP;
  match msg with
  | None => mret (DSM_ERROR_GENERIC, s)
  | Some msg =>
      msg ← advance msg (sizeof smb_session_xsec_req);
      der ← spnego_token "SPNEGO.GSSAPIContextToken" init_values
              (SmbNtlm.smb_ntlmssp_negotiate domain domain (Buffer None 0)) "spnego.negTokenInit.mechToken" 128;
      match der with
      | None => mret (DSM_ERROR_GENERIC, s)
      | Some der =>
          msg ← xsec_request s false der msg;
          '(r, s, _) ← smb_session_send_msg s msg;
          mret (if r =? 0 then DSM_ERROR_NETWORK else DSM_SUCCESS, s)
      end
  end.

(** What [challenge] does with the response token: [resp_token] has 512
    bytes, [u] is the identifier in the header. *)
Definition challenge_token s (value : bytes) (u : Z) : io (Z * smb_session T) :=
  resp_token ← uninit 512;
  resp_token ← access (put resp_token 0 value);
  tgt_len ← access (field smb_ntlmssp_challenge resp_token 0 "tgt_len");
  '(ok, target) ← smb_buffer_alloc (xsec_target s) tgt_len;
  let s := set_target s target in
  if ok =? 0 then mret (DSM_ERROR_GENERIC, s)
  else
    tgt_offset ← access (field smb_ntlmssp_challenge resp_token 0 "tgt_offset");
    d ← access (sub resp_token tgt_offset (size target));
    b ← access (data target);
    b ← access (put b 0 d);
    ch ← access (field smb_ntlmssp_challenge resp_token 0 "challenge");
    let s := set_target s (Buffer (Some b) (size target)) in
    mret (DSM_SUCCESS, set_srv s (set_uid (set_challenge (srv s) ch) u)).

(** The body of [challenge] from the message on. *)
Definition challenge_answer s msg : io (Z * smb_session T) :=
  p ← access (packet msg);
  status ← access (field smb_header p 0 "status");
  if negb (status =? NT_STATUS_MORE_PROCESSING_REQUIRED) then mret (DSM_ERROR_GENERIC, s)
  else if payload_size msg <? sizeof smb_session_xsec_resp then mret (DSM_ERROR_NETWORK, s)
  else
    token ← asn1_create_element "SPNEGO.NegotiationToken";
    token ← access token;
    blob_size ← access (field smb_session_xsec_resp p 32 "xsec_blob_size");
    blob ← access (sub p (32 + sizeof smb_session_xsec_resp) blob_size);
    token ← asn1_der_decoding token blob;
    match token with
    | None => mret (DSM_ERROR_GENERIC, s)
    | Some token =>
        value ← asn1_read_value token "negTokenResp.responseToken" 512;
        match value with
        | None => mret (DSM_ERROR_GENERIC, s)
        | Some value => u ← access (field smb_header p 0 "uid"); challenge_token s value u
        end
    end.

Definition challenge s : io (Z * smb_session T) :=
  '(r, msg, s) ← smb_session_recv_msg s;
  if r =? 0 then mret (DSM_ERROR_NETWORK, s)
  else msg ← access msg; challenge_answer s msg.

Definition auth s (domain user password : bytes) : io (Z * smb_session T) :=
  msg ← smb_message_new SMB_CMD_SETUP;
  match msg with
  | None => mret (DSM_ERROR_GENERIC, s)
  | Some msg =>
      msg ← advance msg (sizeof smb_session_xsec_req);
      der ← spnego_token "SPNEGO.NegotiationToken" resp_values
              (SmbNtlm.smb_ntlmssp_response (SmbSession.challenge (srv s)) (u64 (ts (srv s) - 4200)) domain domain user
                 password (xsec_target s) (Buffer None 0)) "negTokenResp.responseToken" 512;
      match der with
      | None => mret (DSM_ERROR_GENERIC, s)
      | Some der =>
          msg ← xsec_request s true der msg;
          '(r, s, _) ← smb_session_send_msg s msg;
          if r =? 0 then mret (DSM_ERROR_NETWORK, s)
          else
            '(a, s) ← receive_answer s;
            match a with
            | inl e => mret (e, s)
            | inr resp =>
                if payload_size resp <? sizeof smb_session_xsec_resp then mret (DSM_ERROR_NETWORK, s)
                else login_answer s resp smb_session_xsec_resp
            end
      end
  end.

Definition smb_session_login_spnego s (domain user password : bytes) : io (Z * smb_session T) :=
  let s := set_srv s (set_uid (srv s) 0) in
  '(r, s) ← init_asn1 s;
  if negb (r =? DSM_SUCCESS) then mret (DSM_ERROR_GENERIC, s)
  else
    '(r, s) ← negotiate s domain;
    if negb (r =? DSM_SUCCESS) then mret (r, clean_asn1 s)
    else
      '(r, s) ← challenge s;
      if negb (r =? DSM_SUCCESS) then mret (r, clean_asn1 s)
      else
        '(r, s) ← auth s domain user password;
        mret (r, clean_asn1 s).

(** * smb_session_login *)

Definition smb_session_login s : io (Z * smb_session T) :=
  match domain (creds s), login (creds s), password (creds s) with
  | Some d, Some l, Some p =>
      if negb (smb_session_supports s SMB_SESSION_XSEC =? 0)
      then smb_session_login_spnego s d l p
      else smb_session_login_ntlm s d l p
  | _, _, _ => mret (DSM_ERROR_GENERIC, s)
  end.

End Spnego.

(** * Tokens *)

Section Tokens.
Context `{Asn1Laws}.

(** [der] is what the library made of the values [l] and the message [t]. *)
Definition spnego_blob (name : string) (l : list (string * option bytes)) (path : string) (room : Z) (t der : bytes) : Prop :=
  zlen der <= room /\ bytes_ok der
  /\ exists tok tok1 tok2 w0 w1 w2 w3 w0' w1' w2' w3',
       asn1_create_element name w0 = Done (Some tok, w0') /\ write_values tok l w1 = Done (Some tok1, w1')
       /\ asn1_write_value tok1 path (Some t) w2 = Done (Some tok2, w2')
       /\ asn1_der_coding tok2 room w3 = Done (Some der, w3').

Lemma write_values_returns t l : returns (write_values t l) (fun _ _ => True).
Proof.
  revert t. induction l as [|[path v] l IH]; intros t w; cbn [write_values].
  { exists (Some t), w. auto with dsm. }
  destruct (write_returns t path v w) as ([t1|] & w1 & E1 & L1 & _); rewrite (bind_Done _ _ _ _ _ E1).
  - destruct (IH t1 w1) as (o & w2 & E2 & L2 & _). exists o, w2. split_and!; [exact E2|by eapply later_trans|done].
  - exists None, w1. done.
Qed.

(** The whole path of a token: an error, or its encoding. *)
Lemma spnego_token_run name l ntlm path room P w :
  lucky w -> (forall w1, lucky w1 -> returning w1 ntlm (fun b => exists t, buffer_ok b t /\ P t)) ->
  returning w (spnego_token name l ntlm path room)
    (fun o => forall der, o = Some der -> exists t, P t /\ spnego_blob name l path room t der).
Proof.
  intros Hw Hntlm. unfold spnego_token.
  destruct (create_returns name w) as ([tok|] & w1 & E1 & L1 & Hn); [|by destruct (Hn Hw)].
  destruct (write_values_returns tok l w1) as (o1 & w2 & E2 & L2 & _).
  pose proof (later_trans _ _ _ L1 L2) as L12.
  unfold returning, runs. rewrite (bind_Done _ _ _ _ _ E1). rewrite (bind_Done _ _ w1 tok w1) by done. rewrite (bind_Done _ _ _ _ _ E2).
  destruct o1 as [tok1|]; [|by exists None; split; [exists w2|]].
  destruct (Hntlm w2 (later_lucky _ _ L12 Hw)) as (b & (w3 & E3 & L3) & t & [Hb1 Hb2] & Ht). rewrite (bind_Done _ _ _ _ _ E3).
  pose proof (later_trans _ _ _ L12 L3) as L13.
  assert (E4 : write_buffer tok1 path b w3 = asn1_write_value tok1 path (Some t) w3).
  { unfold write_buffer. rewrite Hb1, Hb2, (bind_Done _ _ w3 t w3) by done.
    rewrite (bind_Done _ _ w3 t w3); [done|]. by apply access_Done, sub_all. }
  destruct (write_returns tok1 path (Some t) w3) as (o2 & w4 & E5 & L4 & _). rewrite <- E4 in E5.
  rewrite (bind_Done _ _ _ _ _ E5). pose proof (later_trans _ _ _ L13 L4) as L14.
  destruct o2 as [tok2|]; [|by exists None; split; [exists w4|]].
  destruct (coding_returns tok2 room w4) as (o3 & w5 & E6 & L5 & Hd).
  exists o3. split; [exists w5; split; [exact E6|by eapply later_trans]|].
  intros der ->. destruct (Hd der eq_refl) as [Hd1 Hd2]. exists t. split; [done|]. split; [done|]. split; [done|].
  rewrite E4 in E5. by exists tok, tok1, tok2, w, w1, w3, w4, w1, w2, w4, w5.
Qed.

End Tokens.

(** * Requests *)

Section Laws.
Context {T : Type} (tr : smb_transport T) `{!TransportLaws tr} `{IconvLaws} `{Asn1Laws}.
Implicit Types s : smb_session T.

(** The payload of a session setup around a token. *)
Definition xsec_body s (align : bool) (der : bytes) : bytes :=
  let pad := if align && Z.even (zlen der) then [0] else [] in
  let rest := der ++ pad ++ puts_data os_names in
  pack smb_session_xsec_req (("andx", 0xff) :: xsec_fields s (zlen der) (zlen rest)) ++ rest.

Lemma os_names_len : zlen (puts_data os_names) <= 200.
Proof.
  unfold os_names, puts_data. cbn [map concat put_data].
  destruct (text_size Locale UCS2LE SMB_OS 4) as [_ Ha]; [lia|]. destruct (text_size Locale UCS2LE SMB_LANMAN 6) as [_ Hb]; [lia|]. len.
Qed.

(** The request that is built when there is memory. *)
Lemma xsec_request_ok s align der m hd w0 w :
  lucky w0 -> behind 27 (lucky w0) m hd [] -> later w0 w -> bytes_ok der -> zlen der <= 512 ->
  wp (xsec_request s align der m) (fun m' w' => later w w' /\ built (lucky w0) m' hd (xsec_body s align der)) w.
Proof.
  intros Hw Hm L0 Hd Hl. unfold xsec_request. pose proof os_names_len as Hos. assert (Hz : 0 <= zlen der) by (unfold zlen; lia).
  apply wp_bind. eapply wp_mono; [eapply append_behind; [exact Hm|exact L0|by apply sub_all|done|len]|].
  intros m1 w1 [L1 Hm1]. cbn [app] in Hm1. pose proof (later_trans _ _ _ L0 L1) as L01.
  assert (Hcur : forall m1 e, behind 27 (lucky w0) m1 hd e -> cursor m1 = 27 + zlen e).
  { intros m' e (pre & wr & Hpre & (post & _ & _ & Hc & _) & _ & _ & He). rewrite Hc, (He Hw). len. }
  set (pad := if align && Z.even (zlen der) then [0] else []).
  assert (Ev : negb ((27 + zlen der) `mod` 2 =? 0) = Z.even (zlen der)).
  { rewrite Zmod_even, Z.even_add. by destruct (Z.even (zlen der)). }
  apply wp_bind. eapply (wp_mono _ _ (fun m2 w2 => later w1 w2 /\ behind 27 (lucky w0) m2 hd (der ++ pad))).
  { rewrite (Hcur _ _ Hm1), Ev. unfold pad. destruct (align && Z.even (zlen der)).
    - apply (put_one_behind w0 27 m1 hd der (Put8 0)); [done|done|done|lia|lia].
    - apply wp_ret. rewrite app_nil_r. split; [apply later_refl|done]. }
  intros m2 w2 [L2 Hm2]. pose proof (later_trans _ _ _ L01 L2) as L02.
  assert (Hpad : zlen pad <= 1) by (unfold pad; destruct (_ && _); done).
  apply wp_bind. eapply wp_mono; [eapply (puts_behind w0 27); [exact Hm2|exact L02| |lia|len]|].
  { unfold os_names. repeat (apply Forall_cons; split; [cbn; repeat split; done|]). by apply Forall_nil. }
  intros m3 w3 [L3 Hm3]. rewrite <- app_assoc in Hm3. rewrite (Hcur _ _ Hm3). change (sizeof smb_session_xsec_req) with 27.
  replace (27 + zlen (der ++ pad ++ puts_data os_names) - 27) with (zlen (der ++ pad ++ puts_data os_names)) by lia.
  set (rest := der ++ pad ++ puts_data os_names) in *.
  apply wp_bind. eapply wp_access; [reflexivity|].
  apply wp_bind, (wp_access _ _ (pack smb_session_xsec_req (("andx", 0xff) :: xsec_fields s (zlen der) (zlen rest)))); [reflexivity|].
  eapply wp_mono; [apply (insert_built (lucky w0) m3 hd rest smb_session_xsec_req); [exact Hm3|apply pack_ok|reflexivity|done]|].
  intros m4 w4 [-> Hm4]. split; [|exact Hm4]. eapply later_trans; [exact L1|]. by eapply later_trans.
Qed.

(** A session setup has been sent under the identifier of the session: its
    token is the library's encoding of an NTLMSSP message with [P]. *)
Definition setup_sent s (align : bool) (name : string) (l : list (string * option bytes)) (path : string) (room : Z)
    (P : bytes -> Prop) (w w' : world) : Prop :=
  exists t der, P t /\ spnego_blob name l path room t der
    /\ requested True SMB_CMD_SETUP 0 (uid (srv s)) (xsec_body s align der) w w'.

(** Building and sending, then the rest of the code. *)
Lemma setup_run {A} s align name l ntlm path room P (k : Z -> smb_session T -> io A) (r0 : A) Q w :
  lucky w -> ready tr s -> bytes_ok (w_rx w) -> room <= 512 ->
  (forall w1, lucky w1 -> returning w1 ntlm (fun b => exists t, buffer_ok b t /\ P t)) ->
  (forall w', later w w' -> Q r0 w') ->
  (forall r s' w', moved s s' -> ready tr s' -> bytes_ok (w_rx w') -> (r = 0 \/ r = 1) -> lucky w' ->
     (r = 1 -> setup_sent s align name l path room P w w') -> wp (k r s') Q w') ->
  wp (msg ← smb_message_new SMB_CMD_SETUP;
      match msg with
      | None => mret r0
      | Some msg =>
          msg ← advance msg (sizeof smb_session_xsec_req);
          der ← spnego_token name l ntlm path room;
          match der with
          | None => mret r0
          | Some der => msg ← xsec_request s align der msg; '(r, s, _) ← smb_session_send_msg s msg; k r s
          end
      end) Q w.
Proof.
  intros Hw Hs Hx Hroom Hntlm HQ Hk. pose proof os_names_len as Hos.
  apply wp_bind. eapply wp_mono; [apply new_small|]. intros [m|] w1 [L1 Hm]; [|by apply wp_ret, HQ].
  destruct Hm as [pid (Hm & _ & Hsz)]. apply wp_bind.
  eapply wp_mono; [apply (advance_behind (lucky w)); [exact Hm|rewrite Hsz; done]|]. intros m1 ? [-> Hm1].
  destruct (spnego_token_run name l ntlm path room P w1 (later_lucky _ _ L1 Hw) Hntlm) as (o & (w2 & E2 & L2) & Ho).
  pose proof (later_trans _ _ _ L1 L2) as L12.
  apply wp_bind. eapply wp_Done; [exact E2|]. destruct o as [der|]; [|by apply wp_ret, HQ].
  destruct (Ho der eq_refl) as (t & Ht & Hblob). pose proof Hblob as (Hd & Hdb & _).
  apply wp_bind. eapply wp_mono; [eapply (xsec_request_ok s align der m1 _ w w2); [done|exact Hm1|done|done|lia]|].
  intros m2 w3 [L3 Hm2]. pose proof (later_trans _ _ _ L12 L3) as L13. destruct (later_world _ _ L13) as [Htx Hrx].
  assert (Hsz2 : zlen (xsec_body s align der) <= 27 + 512 + 1 + 200).
  { unfold xsec_body. set (pad := if _ && _ then [0] else []). assert (zlen pad <= 1) by (unfold pad; destruct (_ && _); done).
    pose proof (length_pack smb_session_xsec_req (("andx", 0xff) :: xsec_fields s (zlen der) (zlen (der ++ pad ++ puts_data os_names))) ltac:(decided)) as Hp.
    change (sizeof smb_session_xsec_req) with 27 in Hp. len. }
  pose proof Hs as [Htr _]. apply wp_bind. eapply wp_mono.
  { apply (wp_within _ onward); [by apply (send_msg_onward tr)|]. eapply send_small_ok; [exact Hs|by rewrite Hrx|exact Hm2|lia]. }
  intros [[r s'] m3] w4 [(Hx4 & Hmv & Hs' & Hr & Hreq & _) Ho4]. apply Hk; auto; [by apply (onward_lucky _ _ Ho4), (later_lucky _ _ L13)|].
  intros ->. exists t, der. split; [done|]. split; [done|]. eapply requested_mono; [|intros _; exact Hw].
  eapply requested_frame; [by apply Hreq|done|done].
Qed.

(** The first half of the exchange, with any server: when there is memory
    [negotiate] never accesses memory outside its buffers, and success means
    that one SESSION SETUP request is on the wire, around the library's
    encoding of an NTLMSSP negotiate message for the domain. *)
Lemma negotiate_ok s domain w :
  lucky w -> ready tr s -> bytes_ok (w_rx w) -> cstring_ok domain -> zlen domain < 65536 ->
  wp (negotiate s (cstr domain)) (fun '(r, s') w' => srv s' = srv s /\ fds s' = fds s
    /\ (r < 0 \/ r = 0 /\ ready tr s' /\ lucky w' /\ bytes_ok (w_rx w')
         /\ setup_sent s false "SPNEGO.GSSAPIContextToken" init_values "spnego.negTokenInit.mechToken" 128
              (SmbNtlm.nego_token domain) w w')) w.
Proof.
  intros Hw Hs Hx Hd Hl. eapply (setup_run s false _ _ _ _ _ (SmbNtlm.nego_token domain)); [done|done|done|done| | |].
  - intros w1 Hw1. by apply SmbNtlm.ntlmssp_negotiate_run.
  - intros w' _. split_and!; auto. by left.
  - intros r s' w' Hmv Hs' Hx' Hr Hw' Hsent. destruct (moved_same _ _ Hmv) as (? & ? & _). apply wp_ret. split_and!; auto.
    destruct Hr as [-> | ->]; [by left|right]. split_and!; auto.
Qed.

Lemma auth_ok s c info w :
  lucky w -> ready tr s -> bytes_ok (w_rx w) -> SmbNtlm.credentials_ok c -> SmbNtlm.c_host c = SmbNtlm.c_domain c ->
  buffer_ok (xsec_target s) info -> zlen info < 65000 ->
  wp (auth s (cstr (SmbNtlm.c_domain c)) (cstr (SmbNtlm.c_user c)) (cstr (SmbNtlm.c_password c))) (fun '(r, s') w' =>
    fds s' = fds s
    /\ (r < 0 /\ logged s' = logged s /\ guest s' = guest s /\ srv s' = srv s
        \/ r = 0 /\ ready tr s'
           /\ setup_sent s true "SPNEGO.NegotiationToken" resp_values "negTokenResp.responseToken" 512
                (SmbNtlm.auth_token c (SmbSession.challenge (srv s)) (u64 (ts (srv s) - 4200)) info) w w'
           /\ exists p, logged_in smb_session_xsec_resp s p s')) w.
Proof.
  intros Hw Hs Hx Hc Hh Hi Hl.
  eapply (setup_run s true _ _ _ _ _ (SmbNtlm.auth_token c (SmbSession.challenge (srv s)) (u64 (ts (srv s) - 4200)) info)); [done|done|done|done| | |].
  - intros w1 Hw1. rewrite <- Hh at 1. by apply SmbNtlm.ntlmssp_response_run.
  - intros w' _. split; [done|]. left. done.
  - intros r s1 w1 Hmv Hs1 Hx1 Hr Hw1 Hsent. pose proof Hmv as [t1 ->].
    destruct Hr as [-> | ->]; [apply wp_ret; split; [done|by left]|]. cbn [Z.eqb].
    apply wp_bind. eapply wp_mono; [by apply receive_answer_ok|]. intros [a s2] w2 (Htx & Hx2 & Ha). cbn beta iota.
    destruct a as [e|resp].
    { apply wp_ret. destruct Ha as [(-> & [t ->])|(-> & _ & t & st & _ & ->)]; (split; [done|by left]). }
    destruct Ha as ([t2 ->] & Hs2 & p & Hp & Hst). change (sizeof smb_session_xsec_resp) with 11.
    destruct (payload_size resp <? 11); [apply wp_ret; split; [done|by left]|].
    eapply wp_mono; [by apply (login_answer_ok tr)|]. intros [r' s'] w' (-> & -> & Hf & Hs' & Hlog).
    split; [exact Hf|right]. split; [done|]. split; [auto|]. split; [|by exists p].
    destruct (Hsent eq_refl) as (t & der & Ht & Hb & Hreq). exists t, der. split; [done|]. split; [done|].
    by eapply requested_frame.
Qed.


End Laws.

(** * The challenge *)

Section Challenge.
Context {T : Type} `{Iconv} `{Asn1Laws}.
Implicit Types s : smb_session T.

(** The library finds the response token [v] in [blob]. *)
Definition decodes (blob v : bytes) : Prop :=
  forall tok w, exists tok' w', asn1_der_decoding tok blob w = Done (Some tok', w') /\ later w w'
    /\ forall w1, exists w2, asn1_read_value tok' "negTokenResp.responseToken" 512 w1 = Done (Some v, w2) /\ later w1 w2.

(** The answer [m] carries [v] to the user [u]. *)
Definition challenges (m : smb_message) (v : bytes) (u : Z) : Prop :=
  exists p blob, received m p /\ field smb_header p 0 "status" = Some NT_STATUS_MORE_PROCESSING_REQUIRED
    /\ field smb_header p 0 "uid" = Some u /\ 11 <= payload_size m
    /\ field smb_session_xsec_resp p 32 "xsec_blob_size" = Some (zlen blob)
    /\ sub p 43 (zlen blob) = Some blob /\ decodes blob v.

(** The target information and the challenge of [v], whose first 48 bytes are
    the fixed part of the message. *)
Definition challenge_fields (v : bytes) (n off ch : Z) : Prop :=
  field smb_ntlmssp_challenge v 0 "tgt_len" = Some n /\ field smb_ntlmssp_challenge v 0 "tgt_offset" = Some off
  /\ field smb_ntlmssp_challenge v 0 "challenge" = Some ch.

(** From the message to the token. *)
Lemma challenge_answer_run s m v u w :
  challenges m v u -> lucky w -> exists w', later w w' /\ challenge_answer s m w = challenge_token s v u w'.
Proof.
  intros (p & blob & (Hm & _) & Hst & Hu & Hsz & Hbs & Hblob & Hdec) Hw. unfold challenge_answer.
  rewrite (bind_Done _ _ _ p w) by (by rewrite Hm). rewrite (bind_Done _ _ _ _ _ (access_Done _ _ _ Hst)).
  rewrite Z.eqb_refl. cbn [negb]. change (sizeof smb_session_xsec_resp) with 11. rewrite (proj2 (Z.ltb_ge _ 11)) by lia.
  destruct (create_returns "SPNEGO.NegotiationToken" w) as ([tok|] & w1 & E1 & L1 & Hn); [|by destruct (Hn Hw)].
  rewrite (bind_Done _ _ _ _ _ E1). rewrite (bind_Done _ _ w1 tok w1) by done.
  rewrite (bind_Done _ _ _ _ _ (access_Done _ _ _ Hbs)), (bind_Done _ _ _ _ _ (access_Done _ _ _ Hblob)).
  destruct (Hdec tok w1) as (tok' & w2 & E2 & L2 & Hrd). rewrite (bind_Done _ _ _ _ _ E2).
  destruct (Hrd w2) as (w3 & E3 & L3). rewrite (bind_Done _ _ _ _ _ E3), (bind_Done _ _ _ _ _ (access_Done _ _ _ Hu)).
  exists w3. split; [|done]. eapply later_trans; [exact L1|]. by eapply later_trans.
Qed.

(** The buffer [resp_token]: the value, then what was there. *)
Lemma resp_token_run s v u w (Q : outcome (Z * smb_session T * world) -> Prop) :
  lucky w -> zlen v <= 512 ->
  (forall j w1, later w w1 -> zlen j = 512 - zlen v ->
    Q ((tgt_len ← access (field smb_ntlmssp_challenge (v ++ j) 0 "tgt_len");
        '(ok, target) ← smb_buffer_alloc (xsec_target s) tgt_len;
        let s := set_target s target in
        if ok =? 0 then mret (DSM_ERROR_GENERIC, s)
        else
          tgt_offset ← access (field smb_ntlmssp_challenge (v ++ j) 0 "tgt_offset");
          d ← access (sub (v ++ j) tgt_offset (size target));
          b ← access (data target);
          b ← access (put b 0 d);
          ch ← access (field smb_ntlmssp_challenge (v ++ j) 0 "challenge");
          let s := set_target s (Buffer (Some b) (size target)) in
          mret (DSM_SUCCESS, set_srv s (set_uid (set_challenge (srv s) ch) u))) w1)) ->
  Q (challenge_token s v u w).
Proof.
  intros Hw Hl HQ. unfold challenge_token. destruct (runs_uninit 512 w) as (j & (w1 & E1 & L1) & Hj & _).
  rewrite (bind_Done _ _ _ _ _ E1). assert (Hz : 0 <= zlen v) by (unfold zlen; lia).
  assert (Ep : put j 0 v = Some (v ++ drop (length v) j)) by (rewrite put_Some by (unfold zlen in *; lia); done).
  rewrite (bind_Done _ _ _ _ _ (access_Done _ _ _ Ep)). apply HQ; [done|]. len.
Qed.

Lemma challenge_range v n off ch : bytes_ok v -> challenge_fields v n off ch -> 0 <= n < 65536 /\ 0 <= off < 4294967296.
Proof.
  intros Hb (Hn & Ho & _). split.
  - by apply (get_word_range v _ 2 n Hb) in Hn.
  - by apply (get_word_range v _ 4 off Hb) in Ho.
Qed.

(** A challenge that is well formed: the session remembers the server's
    challenge, its target information and the identifier of the user, exactly
    as the answer has them. *)
Theorem spnego_challenge_stores s m v u n off ch w :
  challenges m v u -> lucky w -> bytes_ok v -> zlen v <= 512 -> challenge_fields v n off ch -> off + n <= zlen v ->
  exists info w', sub v off n = Some info
    /\ challenge_answer s m w
       = Done ((DSM_SUCCESS, set_srv (set_target s (Buffer (Some info) n)) (set_uid (set_challenge (srv s) ch) u)), w').
Proof.
  intros Hm Hw Hb Hl Hf Hfit. destruct (challenge_range _ _ _ _ Hb Hf) as [Hn Ho]. destruct Hf as (F1 & F2 & F3).
  destruct (challenge_answer_run s m v u w Hm Hw) as (w1 & L1 & ->).
  pose proof (sub_Some v off n ltac:(lia) ltac:(lia) ltac:(lia)) as Hsub. set (info := take _ _) in Hsub.
  apply (resp_token_run s v u w1 (fun o => exists info w', sub v off n = Some info /\ o = Done ((DSM_SUCCESS,
    set_srv (set_target s (Buffer (Some info) n)) (set_uid (set_challenge (srv s) ch) u)), w')) (later_lucky _ _ L1 Hw) Hl).
  intros j w2 L2 Hj. rewrite (bind_Done _ _ _ _ _ (access_Done _ _ _ (field_weaken _ _ j _ _ _ F1))).
  destruct (SmbNtlm.runs_buffer_alloc (xsec_target s) n w2) as (b & (w3 & E3 & L3) & Hlb); [by apply (later_lucky _ _ L2), (later_lucky _ _ L1)|].
  rewrite (bind_Done _ _ _ _ _ E3).
  cbn [Z.eqb size data]. rewrite (bind_Done _ _ _ _ _ (access_Done _ _ _ (field_weaken _ _ j _ _ _ F2))).
  rewrite (bind_Done _ _ _ _ _ (access_Done _ _ _ (sub_weaken _ j _ _ _ Hsub))). rewrite (bind_Done _ _ w3 b w3) by done.
  apply length_sub in Hsub as Hli.
  rewrite (bind_Done _ _ _ _ _ (access_Done _ _ _ (put_all b info ltac:(unfold zlen in *; lia)))).
  rewrite (bind_Done _ _ _ _ _ (access_Done _ _ _ (field_weaken _ _ j _ _ _ F3))). by exists info, w3.
Qed.

(** The position of the target information is the server's word: when it
    reaches past the 512 bytes of the token, the copy reads past them. *)
Theorem spnego_challenge_overread s m v u n off ch w :
  challenges m v u -> lucky w -> bytes_ok v -> zlen v <= 512 -> challenge_fields v n off ch -> 512 < off + n ->
  challenge_answer s m w = Fault.
Proof.
  intros Hm Hw Hb Hl Hf Hout. destruct (challenge_range _ _ _ _ Hb Hf) as [Hn Ho]. destruct Hf as (F1 & F2 & F3).
  destruct (challenge_answer_run s m v u w Hm Hw) as (w1 & L1 & ->).
  apply (resp_token_run s v u w1 (fun o => o = Fault) (later_lucky _ _ L1 Hw) Hl).
  intros j w2 L2 Hj. rewrite (bind_Done _ _ _ _ _ (access_Done _ _ _ (field_weaken _ _ j _ _ _ F1))).
  destruct (SmbNtlm.runs_buffer_alloc (xsec_target s) n w2) as (b & (w3 & E3 & L3) & Hlb); [by apply (later_lucky _ _ L2), (later_lucky _ _ L1)|].
  rewrite (bind_Done _ _ _ _ _ E3).
  cbn [Z.eqb size data]. rewrite (bind_Done _ _ _ _ _ (access_Done _ _ _ (field_weaken _ _ j _ _ _ F2))).
  unfold mbind at 1, io_bind at 1. destruct (sub (v ++ j) off n) as [x|] eqn:E; [|done].
  apply sub_inv in E as (_ & _ & ? & _). exfalso. len.
Qed.

End Challenge.
(** * The state of the login *)

Section State.
Context {T : Type} `{Iconv} `{Asn1}.
Implicit Types s : smb_session T.

(** Only the transport, the server and the target information have changed. *)
Definition untouched s s' : Prop :=
  logged s' = logged s /\ guest s' = guest s /\ spnego_asn1 s' = spnego_asn1 s /\ creds s' = creds s /\ fds s' = fds s.

#[global] Instance untouched_preorder : PreOrder untouched.
Proof. split; [done|]. unfold untouched. intros s1 s2 s3 (-> & -> & -> & -> & ->) (-> & -> & -> & -> & ->). done. Qed.

Lemma kept_untouched s s' : kept s s' -> untouched s s'.
Proof. by intros ->. Qed.

(** A login has an outcome: the session is logged in exactly when it
    succeeded, perhaps as a guest; a guest stays one. *)
Definition login_outcome s r s' : Prop :=
  spnego_asn1 s' = spnego_asn1 s /\ creds s' = creds s /\ fds s' = fds s /\ (guest s = true -> guest s' = true)
  /\ (r = 0 /\ logged s' = true \/ r < 0 /\ logged s' = logged s /\ guest s' = guest s).

Lemma untouched_outcome s r s' : untouched s s' -> r < 0 -> login_outcome s r s'.
Proof. intros (? & ? & ? & ? & ?) Hr. split_and!; auto; congruence. Qed.

Lemma untouched_then s s1 r s' : untouched s s1 -> login_outcome s1 r s' -> login_outcome s r s'.
Proof.
  unfold login_outcome. intros (E1 & E2 & E3 & E4 & E5) Ho. rewrite E1, E2, E3, E4, E5 in *. done.
Qed.

Lemma nt_status_untouched s n : untouched s (set_nt_status s n).
Proof. done. Qed.

(** The steps of a run that returned. *)
Ltac inv_io :=
  repeat match goal with
  | E : mbind _ _ _ = Done _ |- _ => apply bind_inv in E as (? & ? & ? & E); cbn beta in E
  | E : mret _ _ = Done _ |- _ => injection E as; subst
  | E : (match ?x with _ => _ end) _ = Done _ |- _ => destruct x eqn:?
  end.

(** Sending and receiving touch the transport alone. *)
Ltac keep :=
  repeat match goal with
  | E : smb_session_send_msg _ _ _ = Done _ |- _ => apply send_kept, kept_untouched in E
  | E : smb_session_recv_msg _ _ = Done _ |- _ => apply recv_kept, kept_untouched in E
  end.

Lemma negotiate_state s domain w r s' w' :
  negotiate s domain w = Done ((r, s'), w') -> untouched s s' /\ (r = 0 \/ r < 0).
Proof. unfold negotiate. intros E. inv_io; keep; [|split; [done|by right]..]. split; [done|]. case_match; [by right|by left]. Qed.

Lemma check_state s m w ok s' w' :
  smb_session_check_nt_status s m w = Done ((ok, s'), w') -> untouched s s'.
Proof. unfold smb_session_check_nt_status. intros E. by inv_io. Qed.

Lemma challenge_state s w r s' w' :
  challenge s w = Done ((r, s'), w') -> untouched s s' /\ (r = 0 \/ r < 0).
Proof.
  unfold challenge, challenge_answer, challenge_token, smb_buffer_alloc.
  intros E. inv_io; keep; (split; [assumption|first [by left|by right]]).
Qed.

Lemma login_answer_state s m L w r s' w' :
  login_answer s m L w = Done ((r, s'), w') -> login_outcome s r s'.
Proof. unfold login_answer. intros E. inv_io. split_and!; auto. intros Hg. cbn. rewrite Hg. by case_match. Qed.

Lemma receive_state s w a s' w' :
  receive_answer s w = Done ((a, s'), w') -> untouched s s' /\ forall e, a = inl e -> e < 0.
Proof.
  unfold receive_answer. intros E. inv_io; keep; [split; [done|by intros ? [= <-]]|].
  split; [etrans; [done|by eapply check_state]|]. case_match; [done|by intros ? [= <-]].
Qed.

Ltac keep_more :=
  keep; repeat match goal with
  | E : smb_session_check_nt_status _ _ _ = Done _ |- _ => apply check_state in E
  | E : receive_answer _ _ = Done _ |- _ => apply receive_state in E as [? ?]
  | E : login_answer _ _ _ _ = Done _ |- _ => apply login_answer_state in E
  end.

(** An error after steps that touch nothing, or the outcome after them. *)
Ltac settle :=
  solve [ apply untouched_outcome; [repeat (reflexivity || eassumption || (etrans; [eassumption|]))|by auto]
        | repeat (assumption || (eapply untouched_then; [eassumption|])) ].

Lemma auth_state s domain user password w r s' w' :
  auth s domain user password w = Done ((r, s'), w') -> login_outcome s r s'.
Proof. unfold auth. intros E. inv_io; keep_more; settle. Qed.

Lemma login_ntlm_state s domain user password w r s' w' :
  smb_session_login_ntlm s domain user password w = Done ((r, s'), w') -> login_outcome s r s'.
Proof. unfold smb_session_login_ntlm. intros E. inv_io; keep_more; settle. Qed.

(** The definitions are released whatever happens in between. *)
Lemma released s s1 r s' :
  spnego_asn1 s = false -> untouched (set_asn1 (set_srv s (set_uid (srv s) 0)) true) s1 -> login_outcome s1 r s' ->
  login_outcome s r (clean_asn1 s').
Proof.
  intros Hs (E1 & E2 & E3 & E4 & E5) (F1 & F2 & F3 & F4 & F5). cbn in *. unfold clean_asn1. rewrite F1, E3.
  unfold login_outcome. cbn. rewrite Hs, <- E1, <- E2, <- E4, <- E5. done.
Qed.

Lemma login_spnego_state s domain user password w r s' w' :
  smb_session_login_spnego s domain user password w = Done ((r, s'), w') -> login_outcome s r s'.
Proof.
  unfold smb_session_login_spnego, init_asn1. intros E. cbv zeta in E. inv_io; cbn in *; try done;
    repeat match goal with
    | E : negotiate _ _ _ = Done _ |- _ => apply negotiate_state in E as [? ?]
    | E : challenge _ _ = Done _ |- _ => apply challenge_state in E as [? ?]
    | E : auth _ _ _ _ _ = Done _ |- _ => apply auth_state in E
    | E : negb (?r =? DSM_SUCCESS) = true |- _ => apply negb_true_iff, Z.eqb_neq in E; change DSM_SUCCESS with 0 in E
    end; try (by apply untouched_outcome).
  - eapply released; [done|eassumption|]. apply untouched_outcome; [done|lia].
  - eapply released; [done|etrans; eassumption|]. apply untouched_outcome; [done|lia].
  - eapply released; [done|etrans; eassumption|done].
Qed.

Lemma session_login_returns s w r s' w' :
  smb_session_login s w = Done ((r, s'), w') -> login_outcome s r s'.
Proof.
  unfold smb_session_login. destruct (domain (creds s)), (login (creds s)), (password (creds s));
    try (intros [= <- <- _]; by apply untouched_outcome).
  destruct (negb _); [apply login_spnego_state|apply login_ntlm_state].
Qed.

End State.

(** * A whole login *)

Section Login.
Context {T : Type} (tr : smb_transport T) `{!TransportLaws tr} `{IconvLaws} `{Asn1Laws}.
Implicit Types s : smb_session T.

(** Memory that was read at a position has it. *)
Lemma wpf_access {A} (o : option A) (Q : A -> world -> Prop) w : (forall a, o = Some a -> Q a w) -> wpf True (access o) Q w.
Proof. destruct o; [|done]. intros HQ. by apply HQ. Qed.

Lemma wpf_returns {A} F (m : io A) P (Q : A -> world -> Prop) w :
  returns m P -> (forall a w', later w w' -> P w a -> Q a w') -> wpf F m Q w.
Proof. intros Hm HQ. destruct (Hm w) as (a & w' & E & L & Ha). eapply wp_Done; [exact E|auto]. Qed.

Ltac reads := apply wp_bind, wpf_access; intros ? ?.

(** What the challenge leaves behind, when reading it does not fail: target
    information of at most 512 bytes, in a block of its size. *)
Definition targeted s s' : Prop := ready tr s' /\ creds s' = creds s /\ exists info, buffer_ok (xsec_target s') info /\ zlen info <= 512.

Lemma challenge_token_ok s v u w :
  lucky w -> ready tr s -> bytes_ok (w_rx w) ->
  wpf True (challenge_token s v u) (fun '(r, s') w' => r = 0 -> lucky w' /\ bytes_ok (w_rx w') /\ targeted s s') w.
Proof.
  intros Hw Hs Hx. unfold challenge_token.
  destruct (runs_uninit 512 w) as (j & (w1 & E1 & L1) & Hj & _). apply wp_bind. eapply wp_Done; [exact E1|].
  apply wp_bind, wpf_access. intros tok Htok%length_put. reads.
  destruct (SmbNtlm.runs_buffer_alloc (xsec_target s) a w1) as (b & (w2 & E2 & L2) & Hb); [by apply (later_lucky _ _ L1)|].
  apply wp_bind. eapply wp_Done; [exact E2|]. cbn [Z.eqb size data].
  reads. apply wp_bind, wpf_access. intros d Hd. apply wp_bind, wp_access with b; [done|].
  apply wp_bind, wpf_access. intros b' Hb'%length_put. reads. apply wp_ret. intros _.
  pose proof (later_trans _ _ _ L1 L2) as L12. destruct (later_world _ _ L12) as [_ Hrx].
  split; [by apply (later_lucky _ _ L12)|]. split; [by rewrite Hrx|]. split; [exact Hs|]. split; [done|].
  exists b'. apply sub_inv in Hd as (? & ? & ? & _). assert (zlen j = 512) by (unfold zlen; lia).
  split; [split; [done|]|]; cbn [size xsec_target]; unfold zlen in *; cbn; lia.
Qed.

Lemma challenge_answer_ok s m w :
  lucky w -> ready tr s -> bytes_ok (w_rx w) ->
  wpf True (challenge_answer s m) (fun '(r, s') w' => r = 0 -> lucky w' /\ bytes_ok (w_rx w') /\ targeted s s') w.
Proof.
  intros Hw Hs Hx. unfold challenge_answer. reads. reads.
  destruct (negb _); [by apply wp_ret|]. destruct (_ <? _); [by apply wp_ret|].
  apply wp_bind. eapply wpf_returns; [apply create_returns|]. intros o w1 L1 _. reads. reads. reads.
  apply wp_bind. eapply wpf_returns; [apply decoding_returns|]. intros [tok|] w2 L2 _; [|by apply wp_ret].
  apply wp_bind. eapply wpf_returns; [apply read_returns|]. intros [v|] w3 L3 _; [|by apply wp_ret].
  reads. pose proof (later_trans _ _ _ L1 (later_trans _ _ _ L2 L3)) as L. destruct (later_world _ _ L) as [_ Hrx].
  apply challenge_token_ok; [by apply (later_lucky _ _ L)|done|by rewrite Hrx].
Qed.

Lemma challenge_ok s w :
  lucky w -> ready tr s -> bytes_ok (w_rx w) ->
  wpf True (challenge s) (fun '(r, s') w' => r = 0 -> lucky w' /\ bytes_ok (w_rx w') /\ targeted s s') w.
Proof.
  intros Hw Hs Hx. unfold challenge. pose proof Hs as [Htr _]. apply wp_bind.
  eapply wp_mono; [apply (wp_within _ onward); [by apply (recv_msg_onward tr)|by apply recv_msg_ok]|].
  intros [[r m] s1] w1 [(Htx & Hx1 & Hmv & Hr) Ho]. pose proof Hmv as [t ->].
  destruct (Z.eqb_spec r 0) as [->|Hne]; [by apply wp_ret|]. destruct (Hr Hne) as (Hs1 & m0 & p & -> & _).
  apply wp_bind, (wp_access _ _ m0); [done|]. apply (challenge_answer_ok (set_session s t)); [by apply (onward_lucky _ _ Ho)|done|done].
Qed.

(** Reading the challenge of the server makes an invalid access. *)
Definition bad_challenge s (domain : bytes) (w : world) : Prop :=
  smb_session_supports s SMB_SESSION_XSEC <> 0
  /\ exists s1 w1 s2 w2, init_asn1 (set_srv s (set_uid (srv s) 0)) w = Done ((0, s1), w1)
       /\ negotiate s1 domain w1 = Done ((0, s2), w2) /\ challenge s2 w2 = Fault.

(** The credentials of the session are those of [c], and the names fit in a
    message. *)
Definition has_creds s (c : SmbNtlm.credentials) : Prop :=
  creds s = Creds (Some (cstr (SmbNtlm.c_domain c))) (Some (cstr (SmbNtlm.c_user c))) (Some (cstr (SmbNtlm.c_password c)))
  /\ SmbNtlm.credentials_ok c /\ SmbNtlm.c_host c = SmbNtlm.c_domain c
  /\ zlen (SmbNtlm.c_user c) + zlen (SmbNtlm.c_domain c) <= 500.

Lemma login_spnego_ok s c w :
  lucky w -> ready tr s -> bytes_ok (w_rx w) -> has_creds s c -> smb_session_supports s SMB_SESSION_XSEC <> 0 ->
  wpf (bad_challenge s (cstr (SmbNtlm.c_domain c)) w)
    (smb_session_login_spnego s (cstr (SmbNtlm.c_domain c)) (cstr (SmbNtlm.c_user c)) (cstr (SmbNtlm.c_password c)))
    (fun _ _ => True) w.
Proof.
  intros Hw Hs Hx (_ & Hc & Hh & Hl) Hsup. unfold smb_session_login_spnego, init_asn1. cbv zeta.
  set (s0 := set_srv s _). assert (Hs0 : ready tr s0) by exact Hs. assert (Hz : 0 <= zlen (SmbNtlm.c_user c)) by (unfold zlen; lia).
  assert (Ei : spnego_asn1 s0 = false -> forall w1, asn1_array2tree w = Done (true, w1) -> init_asn1 s0 w = Done ((0, set_asn1 s0 true), w1)).
  { intros E w1 Ew. unfold init_asn1. rewrite E. by rewrite (bind_Done _ _ _ _ _ Ew). }
  apply wp_bind. destruct (spnego_asn1 s0); [by apply wp_ret|].
  destruct (array2tree_returns w) as (ok & w1 & E1 & L1 & _). apply wp_bind. eapply wp_Done; [exact E1|].
  destruct ok; [|by apply wp_ret]. apply wp_ret. cbn [negb Z.eqb]. destruct (later_world _ _ L1) as [_ Hrx].
  pose proof (negotiate_ok tr (set_asn1 s0 true) (SmbNtlm.c_domain c) w1 (later_lucky _ _ L1 Hw) Hs0 ltac:(by rewrite Hrx)
                ltac:(apply Hc) ltac:(lia)) as Hn.
  apply wp_bind. unfold wpf at 1. unfold wpf in Hn. destruct (negotiate _ _ w1) as [[[r s2] w2]| |] eqn:En; [|done..].
  destruct Hn as (_ & _ & Hn). destruct (Z.eqb_spec r DSM_SUCCESS) as [->|Hr]; [|by apply wp_ret]. cbn [negb].
  destruct Hn as [?|(_ & Hs2 & Hw2 & Hx2 & _)]; [done|]. pose proof (challenge_ok s2 w2 Hw2 Hs2 Hx2) as Hch.
  apply wp_bind. unfold wpf at 1. unfold wpf in Hch. destruct (challenge s2 w2) as [[[r s3] w3]| |] eqn:Ech; [| |done].
  2: { split; [done|]. exists (set_asn1 s0 true), w1, s2, w2. auto. }
  destruct (Z.eqb_spec r DSM_SUCCESS) as [->|Hr]; [|by apply wp_ret]. cbn [negb].
  destruct (Hch eq_refl) as (Hw3 & Hx3 & Hs3 & _ & info & Hi & Hl3).
  apply wp_bind. eapply wp_mono; [apply (auth_ok tr s3 c info w3); [done..|lia]|]. by intros [r s'] w' _.
Qed.

Lemma session_login_run s :
  (forall w r s' w', smb_session_login s w = Done ((r, s'), w') -> login_outcome s r s')
  /\ (forall c w, lucky w -> ready tr s -> bytes_ok (w_rx w) -> has_creds s c ->
       smb_session_login s w = Fault -> bad_challenge s (cstr (SmbNtlm.c_domain c)) w).
Proof.
  split; [apply session_login_returns|]. intros c w Hw Hs Hx Hc. pose proof Hc as (Ec & Hok & _ & Hl).
  unfold smb_session_login. rewrite Ec. cbn [domain login password]. destruct (Z.eqb_spec (smb_session_supports s SMB_SESSION_XSEC) 0) as [_|Hsup]; cbn [negb].
  - pose proof (login_ntlm_run tr s c w Hw Hs Hx Hok Hl) as [Hne _]%wp_elim. done.
  - pose proof (login_spnego_ok s c w Hw Hs Hx Hc Hsup) as Hsp. unfold wpf in Hsp. intros E. by rewrite E in Hsp.
Qed.

(** C6. Every login. With any server and any outcome of the system, a login
    that returns 0 leaves the session logged in; one that returns an error
    leaves the login as it was; the ASN.1 definitions are released, and the
    credentials and the tables stay. Once a guest, a session stays one for the
    next logins. When there is memory, a login of a connected session makes
    no invalid access with any server, except when it reads the challenge of
    a server with extended security. *)
Theorem session_login_state s :
  (forall w r s' w', smb_session_login s w = Done ((r, s'), w') -> login_outcome s r s')
  /\ (forall c w, lucky w -> ready tr s -> bytes_ok (w_rx w) -> has_creds s c ->
       smb_session_login s w = Fault -> bad_challenge s (cstr (SmbNtlm.c_domain c)) w).
Proof. apply session_login_run. Qed.

End Login.

(** * A server *)

(** A library for which a token is the last value written, and its encoding
    the value itself. *)
#[local] Instance plain_asn1 : Asn1 := {|
  asn1_token := bytes;
  asn1_array2tree := mret true;
  asn1_create_element _ := mret (Some []);
  asn1_write_value t _ v := mret (Some (default t v));
  asn1_der_coding t room := mret (if zlen t <=? room then Some (u8 <$> t) else None);
  asn1_der_decoding _ d := mret (Some d);
  asn1_read_value t _ room := mret (if zlen t <=? room then Some (u8 <$> t) else None)
|}.

Lemma fits_room t room d : (if zlen t <=? room then Some (u8 <$> t) else None) = Some d -> zlen d <= room /\ bytes_ok d.
Proof.
  destruct (Z.leb_spec (zlen t) room); [|done]. intros [= <-]. split; [unfold zlen in *; by rewrite length_fmap|].
  apply Forall_fmap, Forall_forall. intros ? _. apply u8_range.
Qed.

#[local] Instance plain_asn1_laws : Asn1Laws.
Proof.
  split; intros; intros w; (eexists _, w; split; [reflexivity|split; [apply later_refl|]]); try done; apply fits_room.
Qed.

Definition dom : bytes := [68].
Definition cred_dom : SmbNtlm.credentials := SmbNtlm.Credentials dom dom [117] [112] [68; 0] [68; 0] [117; 0] [85; 0] [112; 0].

Lemma cred_dom_ok : SmbNtlm.credentials_ok cred_dom.
Proof. split_and!; try decided; try done; apply latin1_utf16; try done; vm_compute; done. Qed.

Definition target_session := set_target some_session (Buffer (Some [2; 0; 0; 0]) 4).


(** A challenge message: 4 bytes of target information at [off]. *)
Definition challenge_value (n off : Z) : bytes :=
  SmbNtlm.ntlmssp_id ++ le_bytes 4 2 ++ replicate 12 0 ++ le_bytes 8 0x1122334455667788 ++ replicate 8 0
  ++ le_bytes 2 n ++ le_bytes 2 n ++ le_bytes 4 off ++ [2; 0; 0; 0].

(** An answer to a session setup, with a status and the identifier 99. *)
Definition setup_answer (status action : Z) (blob : bytes) : bytes :=
  magic ++ [SMB_CMD_SETUP] ++ le_bytes 4 status ++ replicate 19 0 ++ le_bytes 2 99 ++ [0; 0]
  ++ [4; 0xff; 0; 0; 0] ++ le_bytes 2 action ++ le_bytes 2 (zlen blob) ++ [0; 0] ++ blob.

(** The same in a block of memory. *)
Definition challenge_memory (n off : Z) : bytes :=
  setup_answer NT_STATUS_MORE_PROCESSING_REQUIRED 0 (challenge_value n off) ++ replicate (Z.to_nat 8192) 0.

Lemma memory_challenges n off :
  challenge_value n off = u8 <$> challenge_value n off ->
  challenges (Message 70 0 (Some (challenge_memory n off))) (challenge_value n off) 99.
Proof.
  intros Hu. exists (challenge_memory n off), (challenge_value n off).
  split; [split; [done|split; [done|split]]|].
  - cbn [payload_size]. change (Z.max (32 + 70) 8188) with 8188. unfold challenge_memory. len.
  - unfold challenge_memory. apply bytes_ok_app; [|apply Forall_replicate; done].
    unfold setup_answer, challenge_value. rewrite Forall_app. split; [decided|]. repeat (apply bytes_ok_app; [first [apply le_bytes_ok|decided]|]). decided.
  - split_and!; try reflexivity; [done|]. intros tok w. exists (challenge_value n off), w. split; [done|]. split; [apply later_refl|].
    intros w1. exists w1. split; [|apply later_refl]. cbn [asn1_read_value plain_asn1]. rewrite <- Hu. reflexivity.
Qed.

Lemma spnego_challenge_stores_witness :
  exists info w', sub (challenge_value 4 48) 48 4 = Some info
    /\ challenge_answer some_session (Message 70 0 (Some (challenge_memory 4 48))) (answering [])
       = Done ((DSM_SUCCESS, set_srv (set_target some_session (Buffer (Some info) 4))
                 (set_uid (set_challenge (srv some_session) 0x1122334455667788) 99)), w').
Proof.
  apply (spnego_challenge_stores some_session _ (challenge_value 4 48)); [by apply memory_challenges|done|decided|done| |done].
  split_and!; reflexivity.
Defined.

Lemma spnego_challenge_overread_witness :
  challenge_answer some_session (Message 70 0 (Some (challenge_memory 4 600))) (answering []) = Fault.
Proof.
  apply (spnego_challenge_overread some_session _ (challenge_value 4 600) 99 4 600 0x1122334455667788);
    [by apply memory_challenges|done|decided|done| |done].
  split_and!; reflexivity.
Defined.

(** A session with credentials whose server has extended security. *)
Definition xsec_session : smb_session NetbiosSession.netbios_session :=
  set_creds (set_srv some_session (SrvInfo (replicate 16 0) 0 0 0 0 SMB_CAPS_XSEC 0 5000))
    (Creds (Some (cstr dom)) (Some (cstr [117])) (Some (cstr [112]))).

(** It sends its challenge, then accepts the login as a guest. *)
Definition login_replies : bytes :=
  NetbiosSession.frame 0 0 (setup_answer NT_STATUS_MORE_PROCESSING_REQUIRED 0 (challenge_value 4 48))
  ++ NetbiosSession.frame 0 0 (setup_answer 0 1 []).

(** It sends a challenge whose target information is far outside. *)
Definition bad_reply : bytes :=
  NetbiosSession.frame 0 0 (setup_answer NT_STATUS_MORE_PROCESSING_REQUIRED 0 (challenge_value 4 600)).

Example login_runs :
  match smb_session_login xsec_session (answering login_replies) with
  | Done (r, s', w') => (r, logged s', smb_session_is_guest s', uid (srv s'), spnego_asn1 s', length (w_tx w'))
  | _ => (-1, false, 0, 0, false, 0%nat)
  end = (0, true, 1, 99, false, 2%nat).
Proof. vm_compute. reflexivity. Qed.

Lemma succeeded {A B} (o : outcome (Z * A * B)) r :
  match o with Done (x, _, _) => x | _ => -1 end = r -> r <> -1 -> exists a b, o = Done (r, a, b).
Proof. destruct o as [[[x a] b]| |]; [|done..]. intros -> _. by exists a, b. Qed.

Lemma faulted {A} (o : outcome A) : match o with Fault => true | _ => false end = true -> o = Fault.
Proof. by destruct o. Qed.

Lemma session_login_state_witness :
  (exists s' w', smb_session_login xsec_session (answering login_replies) = Done ((0, s'), w')
    /\ login_outcome xsec_session 0 s')
  /\ smb_session_login xsec_session (answering bad_reply) = Fault
  /\ bad_challenge xsec_session (cstr dom) (answering bad_reply).
Proof.
  destruct (succeeded (smb_session_login xsec_session (answering login_replies)) 0) as (s' & w' & E);
    [vm_compute; reflexivity|done|].
  destruct (session_login_state smb_transport_tcp xsec_session) as [H1 H2].
  assert (Ef : smb_session_login xsec_session (answering bad_reply) = Fault) by (apply faulted; vm_compute; reflexivity).
  split; [exists s', w'; split; [exact E|exact (H1 _ _ _ _ E)]|]. split; [exact Ef|].
  clear E H1. revert Ef. apply (H2 cred_dom (answering bad_reply)); [done|exact some_ready|decided|].
  split; [done|]. split; [exact cred_dom_ok|]. done.
Defined.

End SmbSpnego.
