(* ===== verification/SmbInvariant.v ===== *)
(** What every call of the library keeps, on every path through the code.

    [keeps P m]: when memory is available, any run of [m] that returns leaves
    the world as it should be and a result with [P], and a run waits for ever
    only if no abort is pending; nothing is said about invalid accesses, which
    the theorems on the single calls rule out. The rules follow the structure
    of the code, so that the lemmas are proved by the tactic [keep] alone: a
    session that was ready stays ready, also after errors, its tables stay well
    formed, and an abort ends whatever call is in progress. *)

From stdpp Require Import strings gmap.
From S2P Require Import Prelude Rc4 Mdx Md4 Md5 World HmacMd5 Compat NetbiosSession SmbPackets SmbBuffer SmbMessage SmbNtlm SmbFd SmbTransport SmbSession SmbFile SmbLogin SmbShare SmbTrans2 SmbSpnego.

Module SmbInvariant.
Import SmbPackets SmbBuffer SmbUtils SmbMessage SmbFd SmbTransport SmbSession SmbFile SmbLogin SmbShare SmbTrans2 SmbSpnego.
Local Open Scope string_scope.
Local Open Scope list_scope.
Local Open Scope Z_scope.

(** * Rules *)

Definition sound (w : world) : Prop := lucky w /\ bytes_ok (w_rx w).

Definition keeps {A} (P : A -> Prop) (m : io A) : Prop :=
  forall w, sound w ->
  match m w with
  | Done (a, w') => P a /\ sound w' /\ (pending w -> pending w') /\ hush w w'
  | Fault => True
  | Blocked => ~ pending w
  end.

Lemma keeps_done {A} (P : A -> Prop) (m : io A) w a w' : keeps P m -> sound w -> m w = Done (a, w') -> P a /\ sound w'.
Proof. intros Hm Hw E. specialize (Hm w Hw). rewrite E in Hm. tauto. Qed.
Lemma keeps_returning {A} (P : A -> Prop) (m : io A) w : keeps P m -> sound w -> pending w ->
  m w = Fault \/ exists a w', m w = Done (a, w') /\ P a /\ sound w' /\ pending w' /\ hush w w'.
Proof.
  intros Hm Hw Hp. specialize (Hm w Hw). destruct (m w) as [[a w']| |]; [right|by left|done].
  exists a, w'. tauto.
Qed.

Lemma keeps_bind {A B} P Q (m : io A) (k : A -> io B) : keeps P m -> (forall a, P a -> keeps Q (k a)) -> keeps Q (m ≫= k).
Proof.
  intros Hm Hk w Hw. specialize (Hm w Hw). unfold mbind, io_bind. destruct (m w) as [[a w1]| |]; cbn [obind]; [|done|done].
  destruct Hm as (Ha & Hw1 & Hp & Hh). specialize (Hk a Ha w1 Hw1). destruct (k a w1) as [[b w2]| |]; [|done|tauto].
  destruct Hk as (? & ? & ? & ?). split_and!; [auto..|by transitivity w1].
Qed.
Lemma keeps_mono {A} (P Q : A -> Prop) (m : io A) : keeps P m -> (forall a, P a -> Q a) -> keeps Q m.
Proof. intros Hm HQ w Hw. specialize (Hm w Hw). destruct (m w) as [[a w']| |]; [|done|done]. destruct Hm. auto. Qed.
Lemma keeps_ret {A} (P : A -> Prop) a : P a -> keeps P (mret a).
Proof. intros Ha w Hw. by split_and!. Qed.
Lemma keeps_lift {A} (o : outcome A) : ends o -> keeps (fun a => o = Done a) (lift o).
Proof. intros Ho w Hw. unfold lift. destruct o; [by split_and!|done|done]. Qed.
Lemma keeps_access {A} (o : option A) : keeps (fun a => o = Some a) (access o).
Proof. intros w Hw. unfold access, lift. destruct o; [by split_and!|done]. Qed.
Lemma keeps_loop {A B} (body : A -> io (A + B)) (I : A -> Prop) (Q : B -> Prop) a :
  (forall a w a' w', I a -> body a w = Done (inl a', w') -> (length (w_events w') < length (w_events w))%nat) ->
  (forall a, I a -> keeps (fun r => match r with inl a => I a | inr b => Q b end) (body a)) -> I a -> keeps Q (loop body a).
Proof.
  intros Hc Hb Ha w Hw. unfold loop. generalize (le_n (S (length (w_events w)))).
  generalize (S (length (w_events w))) at 2 3 as n. intros n. revert a w Ha Hw.
  induction n as [|n IH]; intros a w Ha Hw Hn; [lia|]. cbn [loop_fuel]. unfold mbind, io_bind. specialize (Hb a Ha w Hw).
  destruct (body a w) as [[[a1|b] w1]| |] eqn:E; cbn [obind]; [|done..]. pose proof (Hc _ _ _ _ Ha E).
  destruct Hb as (Ha1 & Hw1 & Hp & Hh). specialize (IH a1 w1 Ha1 Hw1 ltac:(lia)).
  destruct (loop_fuel n body a1 w1) as [[b w2]| |]; [|done|tauto]. destruct IH as (? & ? & ? & ?). split_and!; [auto..|by transitivity w1].
Qed.

Lemma keeps_abortable {A} (P : A -> Prop) (m : io A) :
  abortable m -> within hush m -> (forall w a w', sound w -> m w = Done (a, w') -> P a /\ sound w') -> keeps P m.
Proof.
  intros Hl Hh Hd w Hw. specialize (Hl w). specialize (Hd w). specialize (Hh w). destruct (m w) as [[a w']| |]; [|done|done].
  destruct (Hd a w' Hw eq_refl). split_and!; eauto.
Qed.
Lemma keeps_wp {A} (P : A -> Prop) (m : io A) :
  abortable m -> within hush m -> (forall w, sound w -> wpf True m (fun a w' => P a /\ sound w') w) -> keeps P m.
Proof. intros Hl Hh H. apply keeps_abortable; [done..|]. intros w a w' Hw E. specialize (H w Hw). unfold wpf in H. by rewrite E in H. Qed.

(** The system. *)
Lemma sound_later w w' : later w w' -> sound w -> sound w'.
Proof. intros L [H1 H2]. split; [by eapply later_lucky|]. by destruct (later_world _ _ L) as [_ ->]. Qed.
Lemma keeps_runs {A} (P : A -> Prop) (m : io A) : (forall w, sound w -> exists a, runs w m a /\ P a) -> keeps P m.
Proof.
  intros Hm w Hw. destruct (Hm w Hw) as (a & (w' & -> & L) & Ha). split; [done|]. split; [by eapply sound_later|]. split; [by destruct L as [n ->]|by apply later_hush].
Qed.
Lemma keeps_flip : keeps (fun b => b = true) flip.
Proof. intros w Hw. split; [apply Hw|done]. Qed.
Lemma keeps_pick : keeps (fun _ => True) pick.
Proof. by intros w Hw. Qed.
Lemma keeps_uninit n : keeps bytes_ok (uninit n).
Proof. intros w Hw. split; [apply junk_bytes_ok|done]. Qed.
Lemma keeps_malloc n : keeps (fun o => exists b, o = Some b /\ bytes_ok b) (malloc n).
Proof.
  unfold malloc. eapply keeps_bind; [apply keeps_flip|]. intros ? ->. eapply keeps_bind; [apply keeps_uninit|].
  intros b Hb. apply keeps_ret. eauto.
Qed.
Lemma keeps_realloc old n : bytes_ok old -> keeps (fun o => exists b, o = Some b /\ bytes_ok b) (realloc old n).
Proof.
  intros Ho w Hw. rewrite realloc_spec. destruct Hw as [Hw Hx]. rewrite (Hw (w_tick w)).
  split; [|done]. eexists. split; [done|]. auto with dsm.
Qed.
Lemma keeps_select : keeps (fun _ => True) select.
Proof.
  intros w Hw. destruct (select w) as [[e w']| |] eqn:E; [|done|by intros ?%select_pending].
  split; [done|]. split; [|split; [by eapply select_keeps_pending|]]; unfold select in E; repeat case_match; simplify_eq; try exact Hw;
    intros ?; split; congruence.
Qed.

Create HintDb keeps discriminated.
#[export] Hint Constants Opaque : keeps.
#[export] Hint Resolve keeps_access keeps_flip keeps_pick keeps_uninit keeps_malloc keeps_realloc keeps_select : keeps.

(** One step of the code. *)
Ltac keep_step :=
  lazymatch goal with
  | |- keeps _ (lift _ ≫= _) => eapply keeps_bind; [first [solve [eauto with keeps]|apply keeps_lift; solve [finish]]|cbn beta; intros]
  | |- keeps _ (_ ≫= _) => eapply keeps_bind; [solve [eauto with keeps]|cbn beta; intros]
  | |- keeps _ (mret _) => apply keeps_ret
  | |- keeps _ (lift _) => first [solve [eauto with keeps]|eapply keeps_mono; [apply keeps_lift; solve [finish]|cbn beta; intros]]
  | |- keeps _ (let '(_, _) := ?x in _) => destruct x
  | |- keeps _ (match ?x with _ => _ end) => destruct x eqn:?
  | |- keeps _ _ => first [solve [eauto with keeps]|eapply keeps_mono; [solve [eauto with keeps]|cbn beta; intros]]
  end.
Ltac tidy :=
  repeat match goal with
  | H : _ /\ _ |- _ => destruct H
  | H : exists _, _ |- _ => destruct H
  | H : (let '(_, _) := ?a in _) |- _ => destruct a
  | H : Some _ = Some _ |- _ => injection H as H
  | H : _ = true |- _ => progress subst
  end; subst; try discriminate.
Ltac keep := repeat (keep_step; cbn beta iota in *; tidy).

(** * Code that ends *)

Lemma body_loop_ends block n r p : ends (Mdx.body_loop block n r p).
Proof. revert r p. induction n as [|n IH]; intros r p; cbn [Mdx.body_loop]; finish. Qed.
#[export] Hint Resolve body_loop_ends : ends.
Lemma body_ends block c d n : ends (Mdx.body block c d n).
Proof. unfold Mdx.body. finish. Qed.
#[export] Hint Resolve body_ends : ends.
Lemma update_tail_ends block c d n : ends (Mdx.update_tail block c d n).
Proof. unfold Mdx.update_tail. finish. Qed.
#[export] Hint Resolve update_tail_ends : ends.
Lemma update_ends block c d n : ends (Mdx.update block c d n).
Proof. unfold Mdx.update. finish. Qed.
Lemma final_ends block c : ends (Mdx.final block c).
Proof. unfold Mdx.final. finish. Qed.
Lemma schedule_ends n i j perm key len : ends (Rc4.rc4_schedule n i j perm key len).
Proof. revert i j perm. induction n as [|n IH]; intros i j perm; cbn [Rc4.rc4_schedule]; unfold Rc4.swap_bytes; finish. Qed.
#[export] Hint Resolve schedule_ends : ends.
Lemma rc4_init_ends key n : ends (Rc4.rc4_init key n).
Proof. unfold Rc4.rc4_init. finish. Qed.
Lemma crypt_loop_ends n i st mem ib ob : ends (Rc4.rc4_crypt_loop n i st mem ib ob).
Proof.
  revert i st mem. induction n as [|n IH]; intros i st mem; cbn [Rc4.rc4_crypt_loop]; unfold Rc4.rc4_next, Rc4.swap_bytes; finish.
Qed.
#[export] Hint Resolve crypt_loop_ends : ends.
Lemma rc4_crypt_ends st mem ib ob n : ends (Rc4.rc4_crypt st mem ib ob n).
Proof. unfold Rc4.rc4_crypt. finish. Qed.
Lemma strlcpy_loop_ends n k d src : ends (Compat.strlcpy_loop n k d src).
Proof. revert k d src. induction n as [|n IH]; intros k d src; cbn [Compat.strlcpy_loop]; finish. Qed.
#[export] Hint Resolve strlcpy_loop_ends : ends.
Lemma strlcpy_ends d src n : ends (Compat.strlcpy d src n).
Proof. unfold Compat.strlcpy, Compat.skip_string. finish. Qed.
Lemma upcase_ends str : ends (SmbNtlm._upcase str).
Proof. induction str as [|c str IH]; cbn [SmbNtlm._upcase]; finish. Qed.
Lemma auth_append_ends a f v n c : ends (SmbNtlm.AUTH_APPEND a f v n c).
Proof. unfold SmbNtlm.AUTH_APPEND. finish. Qed.
Lemma andx_ends m : ends (smb_message_set_andx_members m).
Proof. unfold smb_message_set_andx_members. finish. Qed.
#[export] Hint Resolve rc4_init_ends rc4_crypt_ends strlcpy_ends upcase_ends auth_append_ends andx_ends : ends.
#[export] Hint Extern 1 (ends (Md4.MD4_Update _ _ _)) => apply update_ends : ends.
#[export] Hint Extern 1 (ends (Md4.MD4_Final _)) => apply final_ends : ends.
#[export] Hint Extern 1 (ends (Md5.MD5_Update _ _ _)) => apply update_ends : ends.
#[export] Hint Extern 1 (ends (Md5.MD5_Final _)) => apply final_ends : ends.

(** * Messages *)

Definition msg_ok (m : smb_message) : Prop := forall p, packet m = Some p -> bytes_ok p.

Lemma put_bytes_ok l off src l' : bytes_ok l -> bytes_ok src -> put l off src = Some l' -> bytes_ok l'.
Proof. intros H1 H2. apply put_ok; auto. Qed.
Lemma set_fields_bytes_ok L b base l b' : bytes_ok b -> set_fields L b base l = Some b' -> bytes_ok b'.
Proof.
  revert b. induction l as [|[f v] l IH]; intros b Hb; cbn [set_fields]; [by intros [= <-]|].
  unfold set_field. destruct (locate L f) as [[o n]|]; [|done]. cbn. destruct (put b (base + o) _) as [b1|] eqn:E; [|done]. cbn.
  apply IH. eapply put_bytes_ok; [exact Hb| |exact E]. apply le_bytes_ok.
Qed.
Lemma init_pkt_bytes_ok L : bytes_ok (init_pkt L).
Proof. apply Forall_replicate. done. Qed.
Lemma init_pkt_andx_bytes_ok L b : init_pkt_andx L = Some b -> bytes_ok b.
Proof. apply set_fields_bytes_ok, init_pkt_bytes_ok. Qed.
Lemma msg_ok_some n c p : bytes_ok p -> msg_ok (Message n c (Some p)).
Proof. by intros Hp ? [= <-]. Qed.
Lemma msg_ok_packet m p : msg_ok m -> packet m = Some p -> bytes_ok p.
Proof. auto. Qed.
Lemma msg_ok_default m : msg_ok m -> bytes_ok (default [] (packet m)).
Proof. intros Hm. destruct (packet m) eqn:E; [by apply Hm|constructor]. Qed.
Lemma msg_ok_none n c : msg_ok (Message n c None).
Proof. done. Qed.
Lemma replicate_bytes_ok n : bytes_ok (replicate n 0).
Proof. apply Forall_replicate. done. Qed.
Lemma magic_bytes_ok : bytes_ok magic.
Proof. decided. Qed.
Lemma any_service_bytes_ok : bytes_ok any_service.
Proof. decided. Qed.

(** What may be NULL. *)
Definition when {A} (P : A -> Prop) (o : option A) : Prop := match o with Some a => P a | None => True end.

Lemma when_some {A} (P : A -> Prop) a : P a -> when P (Some a).
Proof. done. Qed.
Lemma when_none {A} (P : A -> Prop) : when P None.
Proof. done. Qed.

#[export] Hint Resolve when_some when_none init_pkt_bytes_ok msg_ok_some msg_ok_default msg_ok_none replicate_bytes_ok magic_bytes_ok any_service_bytes_ok le_bytes_ok bytes_ok_drop : keeps.
#[export] Hint Extern 3 (fds _ = fds _) => congruence : keeps.

(** From the blocks that are read, to what is read from them. *)
Ltac learn p H := lazymatch goal with _ : bytes_ok p |- _ => fail | |- _ => assert (bytes_ok p) by H end.
Ltac forward :=
  repeat match goal with
  | Hm : msg_ok ?m, H : packet ?m = Some ?p |- _ => learn p ltac:(exact (Hm _ H))
  | H : put ?l ?o ?s = Some ?p |- _ => learn p ltac:(apply (put_bytes_ok l o s p); [solve [auto with keeps]..|exact H])
  | H : sub ?l ?o ?n = Some ?p |- _ => learn p ltac:(apply (sub_ok l o n p); [solve [auto with keeps]..|exact H])
  | H : set_fields ?L ?b ?o ?l = Some ?p |- _ =>
      learn p ltac:(apply (set_fields_bytes_ok L b o l p); [solve [auto with keeps]..|exact H])
  | H : init_pkt_andx ?L = Some ?p |- _ => learn p ltac:(exact (init_pkt_andx_bytes_ok _ _ H))
  | H : when _ (Some _) |- _ => cbn in H
  end.
Ltac keep ::= repeat (keep_step; cbn beta iota in *; tidy; forward); cbn [when]; auto with keeps.

Lemma keeps_expand m c n : msg_ok m -> keeps (fun '(r, m') => msg_ok m') (smb_message_expand_payload m c n).
Proof. intros Hm. unfold smb_message_expand_payload. keep. Qed.
#[export] Hint Resolve keeps_expand : keeps.

Lemma keeps_new cmd : keeps (when msg_ok) (smb_message_new cmd).
Proof. unfold smb_message_new. keep. Qed.
Lemma keeps_message_append m data n : msg_ok m -> when bytes_ok data -> keeps (fun '(r, m') => msg_ok m') (smb_message_append m data n).
Proof. intros Hm Hd. unfold smb_message_append. keep. Qed.
Lemma keeps_message_insert m c data n : msg_ok m -> when bytes_ok data -> keeps (fun '(r, m') => msg_ok m') (smb_message_insert m c data n).
Proof. intros Hm Hd. unfold smb_message_insert. keep. Qed.
Lemma keeps_message_advance m n : msg_ok m -> keeps (fun '(r, m') => msg_ok m') (smb_message_advance m n).
Proof. intros Hm. unfold smb_message_advance. keep. Qed.
#[export] Hint Resolve keeps_new keeps_message_append keeps_message_insert keeps_message_advance : keeps.

Lemma keeps_append m data n : msg_ok m -> when bytes_ok data -> keeps msg_ok (append m data n).
Proof. intros Hm Hd. unfold append. keep. Qed.
Lemma keeps_put8 m v : msg_ok m -> keeps msg_ok (put8 m v).
Proof. intros Hm. unfold put8, smb_message_put8. keep. Qed.
Lemma keeps_put16 m v : msg_ok m -> keeps msg_ok (put16 m v).
Proof. intros Hm. unfold put16, smb_message_put16. keep. Qed.
Lemma keeps_advance m n : msg_ok m -> keeps msg_ok (advance m n).
Proof. intros Hm. unfold advance. keep. Qed.
Lemma keeps_put_pkt m L l : msg_ok m -> keeps msg_ok (put_pkt m L l).
Proof. intros Hm. unfold put_pkt. keep. Qed.
Lemma keeps_put_pkt_andx m L l : msg_ok m -> keeps msg_ok (put_pkt_andx m L l).
Proof. intros Hm. unfold put_pkt_andx. keep. Qed.
Lemma keeps_insert_pkt m L l : msg_ok m -> keeps msg_ok (insert_pkt m L l).
Proof. intros Hm. unfold insert_pkt. keep. Qed.
Lemma keeps_insert_pkt_andx m L l : msg_ok m -> keeps msg_ok (insert_pkt_andx m L l).
Proof. intros Hm. unfold insert_pkt_andx. keep. Qed.
Lemma keeps_set_header m l : msg_ok m -> keeps msg_ok (set_header m l).
Proof. intros Hm. unfold set_header. keep. Qed.
Lemma keeps_store_payload m off src : msg_ok m -> bytes_ok src -> keeps msg_ok (store_payload m off src).
Proof. intros Hm Hs. unfold store_payload. keep. Qed.
Lemma keeps_andx m : msg_ok m -> keeps msg_ok (lift (smb_message_set_andx_members m)).
Proof.
  intros Hm. eapply keeps_mono; [apply keeps_lift, andx_ends|]. intros m' E. unfold smb_message_set_andx_members in E.
  destruct (packet m) as [p|] eqn:Ep; [|done]. cbn [checked obind] in E.
  destruct (set_fields _ p 32 _) as [p'|] eqn:Es; [|done]. cbn [checked obind] in E. injection E as <-. forward. auto with keeps.
Qed.
#[export] Hint Resolve keeps_append keeps_put8 keeps_put16 keeps_advance keeps_put_pkt keeps_put_pkt_andx keeps_insert_pkt
  keeps_insert_pkt_andx keeps_set_header keeps_store_payload keeps_andx : keeps.

Section Text.
Context `{IconvLaws}.

Lemma keeps_iconv src n s d : keeps (fun '(r, o) => when bytes_ok o) (smb_iconv src n s d).
Proof.
  unfold smb_iconv. destruct (n =? 0); [by apply keeps_ret|]. destruct (negb _); [by apply keeps_ret|].
  generalize 12%nat 4. intros k. induction k as [|k IH]; intros mul; cbn [iconv_loop]; [by apply keeps_ret|].
  eapply keeps_bind; [apply keeps_malloc|]. intros o (b & -> & Hb). eapply keeps_bind; [apply keeps_access|]. intros i _.
  destruct (iconv s d i _) as [x| |] eqn:Ex; [|apply IH|by apply keeps_ret]. apply iconv_fits in Ex as [_ Hx].
  eapply keeps_bind; [apply keeps_access|]. cbn beta. intros b' Hb'. forward. apply keeps_ret. by destruct (zlen x =? 0).
Qed.
Lemma keeps_to_utf16 src n : keeps (fun '(r, o) => when bytes_ok o) (smb_to_utf16 src n).
Proof. apply keeps_iconv. Qed.
Lemma keeps_from_utf16 src n : keeps (fun '(r, o) => when bytes_ok o) (smb_from_utf16 src n).
Proof. apply keeps_iconv. Qed.
#[local] Hint Resolve keeps_to_utf16 keeps_from_utf16 : keeps.

Lemma keeps_put_bytes m d : msg_ok m -> keeps (fun '(r, m') => msg_ok m') (put_bytes m d).
Proof. revert m. induction d; intros m Hm; cbn [put_bytes]; unfold smb_message_put8; keep. Qed.
#[local] Hint Resolve keeps_put_bytes : keeps.

Lemma keeps_put_one m c : msg_ok m -> keeps msg_ok (put_one m c).
Proof.
  intros Hm. unfold put_one. apply (keeps_bind (fun '(_, m') => msg_ok m')); [|intros [r m'] ?; by apply keeps_ret].
  unfold smb_message_put8, smb_message_put16, smb_message_put32, smb_message_put64, smb_message_put_utf16, smb_message_put_uuid,
    smb_message_put32, smb_message_put16. destruct c; keep.
Qed.
Lemma keeps_puts m l : msg_ok m -> keeps msg_ok (puts m l).
Proof.
  revert m. induction l as [|c l IH]; intros m Hm; cbn [puts]; [by apply keeps_ret|].
  eapply keeps_bind; [by apply keeps_put_one|]. auto.
Qed.
End Text.
#[export] Hint Resolve keeps_to_utf16 keeps_from_utf16 keeps_put_one keeps_puts : keeps.

(** * Tables *)

(** The lists are well formed, and the offsets of the files at most [B]. *)
Definition tables_ok (B : Z) (t : tables) : Prop :=
  (exists TT, represents t TT) /\ map_Forall (fun _ f => 0 <= f_offset f <= B) (file_heap t).

Section Nodes.
Context {node : Type} (next : node -> Z) (set_next : node -> Z -> node) (P : node -> Prop).
Hypothesis P_next : forall n q, P n -> P (set_next n q).

Lemma append_node_all h head new head' h' :
  map_Forall (fun _ => P) h -> append_node next set_next h head new = Done (head', h') -> map_Forall (fun _ => P) h'.
Proof.
  intros Hh E. unfold append_node in E. split_run E; simplify_eq; [done|].
  apply map_Forall_insert_2; [|done]. apply P_next. destruct (h !! a) eqn:Ea; [|done]. cbn in *. simplify_eq. by eapply Hh.
Qed.
Lemma remove_node_all h head at_head found p head' h' :
  map_Forall (fun _ => P) h -> remove_node next set_next h head at_head found = Done (p, (head', h')) -> map_Forall (fun _ => P) h'.
Proof.
  intros Hh E. unfold remove_node in E. split_run E; simplify_eq; try done.
  apply map_Forall_insert_2; [|done]. apply P_next. destruct (h !! a0) eqn:Ea; [|done]. cbn in *. simplify_eq. by eapply Hh.
Qed.
End Nodes.

Lemma file_add_keeps B t f tid r t' :
  tables_ok B t -> f_next f = 0 -> 0 <= f_offset f <= B ->
  smb_session_file_add (set_file t (fresh_ptr (file_heap t)) f) tid (fresh_ptr (file_heap t)) = Done (r, t') -> tables_ok B t'.
Proof.
  intros [[TT HR] Hall] Hn Ho E. set (p := fresh_ptr (file_heap t)) in *.
  assert (Hall1 : map_Forall (fun _ f => 0 <= f_offset f <= B) (file_heap (set_file t p f))) by (by apply map_Forall_insert_2).
  destruct (fresh_ptr_spec (file_heap t)) as [Hp0 Hpn]. fold p in Hp0, Hpn.
  destruct (represents_new _ _ _ f HR Hpn) as [HR1 Hni]. split.
  - destruct (find_share TT tid) as [e|] eqn:Ee.
    + destruct (file_add_spec _ _ _ _ p f HR1 Ee) as (t1 & E1 & HR2 & _); [by cbn; rewrite lookup_insert_eq|done..|].
      rewrite E1 in E. injection E as _ <-. by eexists.
    + unfold smb_session_file_add in E. rewrite (share_get_find _ _ _ HR1), Ee in E. injection E as _ <-. by exists TT.
  - unfold smb_session_file_add in E. split_run E; simplify_eq; try done.
    cbn. eapply (append_node_all f_next file_set_next (fun f => 0 <= f_offset f <= B)); [|exact Hall1|eassumption]. done.
Qed.

Lemma file_remove_keeps B t fd p t' :
  tables_ok B t -> smb_session_file_remove t fd = Done (p, t') -> tables_ok B t' /\ (p <> 0 -> tables_ok B (free_file t' p)).
Proof.
  intros [[TT HR] Hall] E.
  assert (Hfd : fd <> 0) by (intros ->; done). destruct (file_remove_any _ _ _ HR Hfd) as (p1 & t1 & T1 & E1 & HR1 & Hni).
  rewrite E1 in E. injection E as -> ->.
  assert (Hall' : map_Forall (fun _ f => 0 <= f_offset f <= B) (file_heap t')).
  { unfold smb_session_file_remove in E1. split_run E1; simplify_eq; try done.
    cbn. eapply (remove_node_all f_next file_set_next (fun f => 0 <= f_offset f <= B)); [|exact Hall|eassumption]. done. }
  split; [split; [by exists T1|done]|]. intros Hp. split; [exists T1; by apply represents_free; auto|]. cbn. by apply map_Forall_delete.
Qed.

Lemma share_get_ends B t tid : tables_ok B t -> ends (smb_session_share_get t tid).
Proof. intros [[TT HR] _]. by rewrite (share_get_find _ _ _ HR). Qed.
Lemma file_get_ends B t fd : tables_ok B t -> ends (smb_session_file_get t fd).
Proof.
  intros [[TT HR] _]. destruct (Z.eq_dec fd 0) as [->|Hfd]; [done|]. by rewrite (file_get_spec _ _ _ HR Hfd).
Qed.
Lemma file_remove_ends B t fd : tables_ok B t -> ends (smb_session_file_remove t fd).
Proof.
  intros [[TT HR] _]. destruct (Z.eq_dec fd 0) as [->|Hfd]; [done|].
  by destruct (file_remove_any _ _ _ HR Hfd) as (p & t1 & T1 & -> & _).
Qed.
Lemma file_add_ends B t f tid : tables_ok B t -> f_next f = 0 ->
  ends (smb_session_file_add (set_file t (fresh_ptr (file_heap t)) f) tid (fresh_ptr (file_heap t))).
Proof.
  intros [[TT HR] _] Hn. destruct (fresh_ptr_spec (file_heap t)) as [Hp0 Hpn].
  destruct (represents_new _ _ _ f HR Hpn) as [HR1 Hni]. destruct (find_share TT tid) as [e|] eqn:Ee.
  - destruct (file_add_spec _ _ _ _ (fresh_ptr (file_heap t)) f HR1 Ee) as (t1 & -> & _); [by cbn; rewrite lookup_insert_eq|done..].
  - unfold smb_session_file_add. by rewrite (share_get_find _ _ _ HR1), Ee.
Qed.
Lemma share_add_ends B t sh : tables_ok B t -> s_next sh = 0 -> s_files sh = 0 ->
  ends (smb_session_share_add (set_share t (fresh_share (share_heap t)) sh) (fresh_share (share_heap t))).
Proof.
  intros [[TT HR] _] Hn Hf. destruct (fresh_share_spec (share_heap t)) as [Hp0 Hpn].
  destruct (represents_new_share _ _ _ sh HR Hpn) as [HR1 Hni].
  destruct (share_add_spec _ _ (fresh_share (share_heap t)) sh HR1) as (t1 & -> & _); [by cbn; rewrite lookup_insert_eq|done..].
Qed.
Lemma list_destroy_ends h p l : chain f_next h p l -> ends (smb_stat_list_destroy h p).
Proof.
  intros Hc. unfold smb_stat_list_destroy. by destruct (free_nodes_spec _ _ _ _ _ Hc (chain_size _ _ _ _ Hc)) as (h' & -> & _).
Qed.

(** Nodes that differ in what the lists do not look at. *)
Lemma represents_store t TT p f g :
  represents t TT -> file_heap t !! p = Some f -> f_next g = f_next f -> f_fid g = f_fid f -> represents (set_file t p g) TT.
Proof.
  intros (Hc & Hok & Hnd) Hp Hn Hf. split; [exact Hc|]. split; [|exact Hnd]. cbn [set_file share_heap file_heap].
  eapply Forall_impl; [exact Hok|]. intros e (sh & Es & Et & Hch & Hfl). exists sh. split_and!; auto.
  - clear -Hch Hp Hn. revert Hch. generalize (s_files sh). induction (map snd (e_files e)) as [|x l IH]; intros q; [done|].
    intros (-> & Hx & n & En & Hch). split; [done|]. split; [done|]. destruct (decide (x = p)) as [->|Hne].
    + exists g. rewrite lookup_insert_eq. split; [done|]. rewrite Hn. simplify_eq. by apply IH.
    + exists n. rewrite lookup_insert_ne by done. split; [done|]. by apply IH.
  - eapply Forall_impl; [exact Hfl|]. intros [i q] (n & En & <-). destruct (decide (q = p)) as [->|Hne].
    + exists g. rewrite lookup_insert_eq. simplify_eq. done.
    + exists n. by rewrite lookup_insert_ne.
Qed.

Lemma seek_keeps B B' t p f o :
  tables_ok B t -> file_heap t !! p = Some f -> B <= B' -> 0 <= o <= B' -> tables_ok B' (set_file t p (file_set_offset f o)).
Proof.
  intros [[TT HR] Hall] Hp HB Ho. split; [exists TT; by eapply represents_store|]. cbn.
  apply map_Forall_insert_2; [done|]. eapply map_Forall_impl; [exact Hall|]. cbn. lia.
Qed.

Lemma share_add_keeps B t sh t' :
  tables_ok B t -> s_next sh = 0 -> s_files sh = 0 ->
  smb_session_share_add (set_share t (fresh_share (share_heap t)) sh) (fresh_share (share_heap t)) = Done t' -> tables_ok B t'.
Proof.
  intros [[TT HR] Hall] Hn Hf E. destruct (fresh_share_spec (share_heap t)) as [Hp0 Hpn]. set (p := fresh_share (share_heap t)) in *.
  destruct (represents_new_share _ _ _ sh HR Hpn) as [HR1 Hni].
  destruct (share_add_spec _ _ p sh HR1) as (t1 & E1 & HR2); [by cbn; rewrite lookup_insert_eq|done..|].
  rewrite E1 in E. injection E as <-. split; [by eexists|]. unfold smb_session_share_add in E1. split_run E1. by simplify_eq.
Qed.

Lemma tables_ok_mono B B' t : tables_ok B t -> B <= B' -> tables_ok B' t.
Proof. intros [HR Hall] HB. split; [done|]. eapply map_Forall_impl; [exact Hall|]. cbn. lia. Qed.

(** * Sessions *)

Section Sessions.
Context {T : Type} (tr : smb_transport T) `{!TransportLaws tr}.
Implicit Types s : smb_session T.

(** The name of the server and the credentials. *)
Definition who s : bytes * smb_creds := (srv_name (srv s), creds s).

(** The session can be used, the server's name and the credentials are [nm],
    and the offsets of the files are at most [B]. *)
Definition usable (nm : bytes * smb_creds) (B : Z) s : Prop := ready tr s /\ who s = nm /\ tables_ok B (fds s).

Lemma usable_fds nm B B' s t : usable nm B s -> tables_ok B' t -> usable nm B' (set_fds s t).
Proof. intros (Hs & Hn & _) Ht. split_and!; auto. Qed.
Lemma usable_mono nm B B' s : usable nm B s -> B <= B' -> usable nm B' s.
Proof. intros (? & ? & ?) HB. split_and!; auto. by eapply tables_ok_mono. Qed.
Lemma usable_session_moved nm B s t : usable nm B s -> tr_ok t -> usable nm B (set_session s t).
Proof. intros ((Htr & _) & Hn & Hf) Ht. split_and!; auto. split; [done|]. by exists t. Qed.

Lemma usable_ends nm B s : usable nm B s ->
  (forall tid, ends (smb_session_share_get (fds s) tid)) /\ (forall fd, ends (smb_session_file_get (fds s) fd))
  /\ (forall fd, ends (smb_session_file_remove (fds s) fd)) /\ forall fd o wh, ends (smb_fseek s fd o wh).
Proof.
  intros (_ & _ & Ht). split_and!; intros; [by eapply share_get_ends|by eapply file_get_ends|by eapply file_remove_ends|].
  pose proof (file_get_ends _ _ fd Ht). unfold smb_fseek. finish.
Qed.
#[local] Hint Extern 2 (ends (smb_session_share_get _ _)) => eapply usable_ends; eassumption : ends.
#[local] Hint Extern 2 (ends (smb_session_file_get _ _)) => eapply usable_ends; eassumption : ends.
#[local] Hint Extern 2 (ends (smb_session_file_remove _ _)) => eapply usable_ends; eassumption : ends.
#[local] Hint Extern 2 (ends (smb_fseek _ _ _ _)) => eapply usable_ends; eassumption : ends.

Lemma keeps_send nm B s m : usable nm B s -> msg_ok m -> keeps (fun '(r, s', m') => usable nm B s' /\ fds s' = fds s) (smb_session_send_msg s m).
Proof.
  intros Hu Hm. pose proof Hu as ((Htr & t & Ht & Hok) & _). apply keeps_abortable.
  { unfold smb_session_send_msg, set_header. rewrite Ht, Htr. persist. }
  { unfold smb_session_send_msg, set_header. rewrite Ht, Htr. confine. }
  intros w [[r s'] m'] w' Hw E. pose proof Hw as [Hlk Hx].
  pose proof (send_msg_onward tr s m Htr _ _ _ E) as Ho.
  enough (H : usable nm B s' /\ bytes_ok (w_rx w')) by (destruct H; split; [split; [done|by apply send_kept in E as ->]|]; split; [by eapply onward_lucky|done]).
  unfold smb_session_send_msg in E. rewrite Ht, Htr in E.
  rewrite (bind_Done _ _ w t w) in E by done. apply bind_inv in E as (m1 & w1 & E1 & E).
  destruct (keeps_done _ _ _ _ _ (keeps_set_header m _ Hm) Hw E1) as [Hm1 Hw1].
  rewrite (bind_Done _ _ w1 tr w1) in E by done. cbn beta in E.
  apply bind_inv in E as (t1 & w2 & E2 & (p & w3 & E3 & ([r1 t2] & w4 & E4 & E)%bind_inv)%bind_inv).
  unfold access, lift in E3. apply obind_Done in E3 as (p' & Ep & [= -> <-]).
  destruct (packet m1) as [q|] eqn:Eq; [|done]. injection Ep as ->.
  assert (Htrans : forall r2 t3 w5, transmit tr t p (u64 (sizeof_smb_packet + cursor m1)) w1 = Done ((r2, t3), w5) ->
            tr_ok t3 /\ bytes_ok (w_rx w5)).
  { intros r2 t3 w5 Et. eapply transmit_keeps; [exact Hok|apply Hw1|apply Hw1|by apply Hm1|apply u64_range|exact Et]. }
  unfold transmit in Htrans. rewrite (bind_Done _ _ _ _ _ E2), (bind_Done _ _ _ _ _ E4) in Htrans.
  destruct (r1 =? 0).
  - injection E as _ <- _ <-. destruct (Htrans 0 t2 w4 eq_refl). split; [by apply usable_session_moved|done].
  - apply bind_inv in E as ([r2 t3] & w5 & E5 & E). injection E as _ <- _ <-.
    destruct (Htrans r2 t3 w5 E5). split; [by apply usable_session_moved|done].
Qed.

Lemma keeps_recv nm B s : usable nm B s -> keeps (fun '(r, o, s') => usable nm B s' /\ fds s' = fds s /\ when msg_ok o) (smb_session_recv_msg s).
Proof.
  intros Hu. pose proof Hu as ((Htr & t & Ht & Hok) & _). unfold smb_session_recv_msg. rewrite Ht, Htr.
  eapply keeps_bind; [apply keeps_access|]. intros ? [= <-]. eapply keeps_bind; [apply keeps_access|]. intros ? [= <-].
  apply (keeps_bind (fun '(r, o, t') => tr_ok t' /\ (0 <= r -> exists p, o = Some p /\ bytes_ok p))).
  - apply keeps_wp; [persist|confine|]. intros w [Hlk Hx]. eapply wp_mono; [apply (wp_within _ onward); [apply recv_onward|by apply recv_ok]|].
    intros [[r o] t'] w' [(_ & Hx' & Hok' & Hr) Hon]. pose proof (onward_lucky _ _ Hon Hlk) as Hlk'.
    split; [|done]. split; [auto|]. intros H0. destruct (Hr H0) as (_ & p & -> & _ & Hb). eauto.
  - intros [[r o] t'] [Hok' Ho]. cbv zeta. unfold sizeof_smb_packet.
    destruct (Z.leb_spec r 0); [apply keeps_ret; split; [by apply usable_session_moved|done]|].
    destruct (r <? 32); apply keeps_ret; (split; [by apply usable_session_moved|]); [done|]. split; [done|].
    destruct Ho as (p & -> & Hb); [lia|]. cbn. by apply msg_ok_some.
Qed.

Lemma keeps_check nm B s m : usable nm B s -> keeps (fun '(ok, s') => usable nm B s' /\ fds s' = fds s) (smb_session_check_nt_status s m).
Proof. intros Hu. unfold smb_session_check_nt_status. keep. Qed.

#[local] Hint Resolve keeps_send keeps_recv keeps_check : keeps.

Lemma keeps_receive nm B s : usable nm B s ->
  keeps (fun '(a, s') => usable nm B s' /\ fds s' = fds s /\ match a with inr m => msg_ok m | inl _ => True end) (receive_answer s).
Proof. intros Hu. unfold receive_answer. keep. split_and!; [done|congruence|by destruct b]. Qed.
#[local] Hint Resolve keeps_receive : keeps.

Lemma keeps_simple nm B s L : usable nm B s -> keeps (fun '(r, s') => usable nm B s') (simple_answer s L).
Proof. intros Hu. unfold simple_answer. keep. Qed.
#[local] Hint Resolve keeps_simple : keeps.

(** ** Files *)

Section Files.
Context `{IconvLaws}.

Lemma keeps_path_command nm B cmd hd L l resp s path :
  usable nm B s -> keeps (fun '(r, s') => usable nm B s') (path_command cmd hd L l resp s path).
Proof. intros Hu. unfold path_command. keep. Qed.

Lemma keeps_mv nm B s tid a b : usable nm B s -> keeps (fun '(r, s') => usable nm B s') (smb_file_mv s tid a b).
Proof. intros Hu. unfold smb_file_mv. keep. Qed.

Lemma file_of_new p tid f : file_of p tid = Some f -> f_next f = 0 /\ f_offset f = 0.
Proof. unfold file_of. intros E. by simplify_option_eq. Qed.

Lemma keeps_file_add nm B s p tid' f tid : 0 <= B -> usable nm B s -> file_of p tid' = Some f ->
  keeps (fun '(_, t) => tables_ok B t)
    (lift (smb_session_file_add (set_file (fds s) (fresh_ptr (file_heap (fds s))) f) tid (fresh_ptr (file_heap (fds s))))).
Proof.
  intros HB (_ & _ & Ht) [Hn Ho]%file_of_new. eapply keeps_mono; [by eapply keeps_lift, file_add_ends|].
  intros [r t] E. eapply file_add_keeps; [exact Ht|exact Hn|lia|exact E].
Qed.
#[local] Hint Resolve keeps_file_add : keeps.

Lemma keeps_fopen nm B s tid path fl : 0 <= B -> usable nm B s -> keeps (fun '(r, fd, s') => usable nm B s') (smb_fopen s tid path fl).
Proof. intros HB Hu. unfold smb_fopen, fopen_answer. keep. by eapply (usable_fds nm B B). Qed.

Lemma keeps_fclose nm B s fd : usable nm B s -> keeps (usable nm B) (smb_fclose s fd).
Proof.
  intros Hu. unfold smb_fclose. destruct (fd =? 0); [by apply keeps_ret|].
  eapply keeps_bind; [by eapply keeps_lift, usable_ends|]. intros [p t] E.
  destruct (file_remove_keeps B (fds s) fd p t) as [Ht Hfree]; [apply Hu|done|]. cbv zeta.
  assert (Hu1 : usable nm B (set_fds s t)) by (by eapply usable_fds).
  destruct (Z.eqb_spec p 0) as [->|Hp]; [by apply keeps_ret|].
  keep; (eapply usable_fds; [eassumption|]);
    match goal with |- tables_ok _ (free_file ?f _) => replace f with t by (cbn in *; congruence) end; auto.
Qed.

(** The offset moves by what the server said, 16 bits. *)
Lemma fseek_keeps nm B B' s fd n wh r s' :
  usable nm B s -> smb_fseek s fd n wh = Done (r, s') -> 0 <= n <= B' - B -> usable nm B' s'.
Proof.
  intros Hu E Hn. unfold smb_fseek in E.
  destruct (smb_session_file_get (fds s) fd) as [p| |]; [|done..]. cbn [obind] in E.
  destruct (p =? 0); [injection E as _ <-; apply (usable_mono nm B); [done|lia]|].
  destruct (file_heap (fds s) !! p) as [f|] eqn:Ef; [|done]. cbn [checked obind] in E.
  destruct (off_t_range _); [|done]. cbn [assert obind] in E. injection E as _ <-.
  assert (Hf : 0 <= f_offset f <= B) by (destruct Hu as (_ & _ & _ & Hall); exact (Hall _ _ Ef)).
  eapply usable_fds; [exact Hu|]. apply (seek_keeps B); [apply Hu|done|lia|].
  destruct (wh =? SMB_SEEK_SET); [lia|]. destruct (wh =? SMB_SEEK_CUR); lia.
Qed.

Lemma moves_keeps nm B s fd n r s' :
  usable nm B s -> smb_fseek s fd n SMB_SEEK_CUR = Done (r, s') -> 0 <= n < 65536 -> usable nm (B + 65536) s'.
Proof. intros Hu E Hn. eapply fseek_keeps; [exact Hu|exact E|lia]. Qed.

Lemma word_field L b base f v : bytes_ok b -> field L b base f = Some v -> snd <$> locate L f = Some 2 -> 0 <= v < 65536.
Proof.
  intros Hb F E. destruct (locate L f) as [[o n]|] eqn:El; [|done]. injection E as ->. exact (field_range L b base f o 2 v Hb El F).
Qed.

Lemma keeps_fread nm B s fd buf n : usable nm B s -> keeps (fun '(r, b, s') => usable nm (B + 65536) s') (smb_fread s fd buf n).
Proof.
  intros Hu. unfold smb_fread, fread_answer.
  assert (Hmono : forall s, usable nm B s -> usable nm (B + 65536) s) by (intros s0 H1; eapply usable_mono; [exact H1|lia]).
  keep. apply (keeps_bind (fun _ => True)); [destruct buf; keep|]. intros b' _. keep.
  match goal with E : smb_fseek _ _ _ _ = _, F : field _ _ _ "data_len" = _ |- _ =>
    eapply moves_keeps; [|exact E|]; [assumption|]; eapply word_field; [|exact F|reflexivity]; assumption end.
Qed.

Lemma keeps_fwrite nm B s fd buf n : usable nm B s -> bytes_ok buf -> keeps (fun '(r, s') => usable nm (B + 65536) s') (smb_fwrite s fd buf n).
Proof.
  intros Hu Hbuf. unfold smb_fwrite, fwrite_answer.
  assert (Hmono : forall s, usable nm B s -> usable nm (B + 65536) s) by (intros s0 H1; eapply usable_mono; [exact H1|lia]).
  keep. match goal with E : smb_fseek _ _ _ _ = _, F : field _ _ _ "data_len" = _ |- _ =>
    eapply moves_keeps; [|exact E|]; [assumption|]; eapply word_field; [|exact F|reflexivity]; assumption end.
Qed.

(** ** Trees *)

Lemma keeps_share_of m p : keeps (when (fun sh => s_next sh = 0 /\ s_files sh = 0)) (share_of m p).
Proof. unfold share_of. keep; by cbn. Qed.
#[local] Hint Resolve keeps_share_of : keeps.

Lemma keeps_share_add nm B s sh : usable nm B s -> s_next sh = 0 /\ s_files sh = 0 ->
  keeps (tables_ok B) (lift (smb_session_share_add (set_share (fds s) (fresh_share (share_heap (fds s))) sh) (fresh_share (share_heap (fds s))))).
Proof.
  intros (_ & _ & Ht) [Hn Hf]. eapply keeps_mono; [by eapply keeps_lift, share_add_ends|].
  intros t E. by eapply share_add_keeps.
Qed.
#[local] Hint Resolve keeps_share_add : keeps.

Lemma keeps_tree_connect nm B s name : usable nm B s -> keeps (fun '(r, tid, s') => usable nm B s') (smb_tree_connect s name).
Proof. intros Hu. unfold smb_tree_connect, tree_answer. keep. by eapply usable_fds. Qed.

Lemma keeps_tree_disconnect nm B s tid : usable nm B s -> keeps (fun '(r, s') => usable nm B s') (smb_tree_disconnect s tid).
Proof. intros Hu. unfold smb_tree_disconnect. keep. Qed.
#[local] Hint Resolve keeps_fopen keeps_fclose keeps_tree_connect : keeps.

(** Every turn moves the position, by the two lengths at least. *)
Lemma keeps_parse_loop fuel p c eod i data l : eod - data <= Z.of_nat fuel -> keeps (fun _ => True) (parse_enum_loop fuel p c eod i data l).
Proof.
  revert i data l. induction fuel as [|fuel IH]; intros i data l Hf; cbn [parse_enum_loop].
  - replace (data <? eod) with false by lia. rewrite andb_false_r. by apply keeps_ret.
  - destruct (negb _); [by apply keeps_ret|]. keep. apply IH.
    match goal with |- _ - (_ + u32 ?a + 12 + u32 ?b) <= _ => pose proof (u32_range a); pose proof (u32_range b) end. lia.
Qed.
Lemma keeps_parse_enum m : keeps (fun _ => True) (smb_share_parse_enum m).
Proof.
  unfold smb_share_parse_enum. keep. eapply keeps_bind; [apply keeps_parse_loop; lia|]. intros [? ?] _. by apply keeps_ret.
Qed.
Lemma keeps_stale m : keeps msg_ok (stale m).
Proof. unfold stale. keep. Qed.
#[local] Hint Resolve keeps_parse_enum keeps_stale : keeps.

Lemma keeps_share_bind nm B s tid fd : usable nm B s -> keeps (fun '(a, s') => usable nm B s') (share_bind s tid fd).
Proof. intros Hu. unfold share_bind. keep. Qed.
Lemma keeps_enum_request s tid fd m : msg_ok m -> keeps msg_ok (enum_request s tid fd m).
Proof. intros Hm. unfold enum_request. keep. Qed.
#[local] Hint Resolve keeps_share_bind keeps_enum_request : keeps.

Lemma keeps_share_enum nm B s tid fd old : usable nm B s -> keeps (fun '(r, l, c, s') => usable nm B s') (share_enum s tid fd old).
Proof.
  intros Hu. unfold share_enum. keep.
  apply (keeps_bind msg_ok); [case_match; keep|]. intros m ?.
  keep. apply (keeps_bind (fun _ => True)); [case_match; keep|]. intros bad _. keep.
Qed.
#[local] Hint Resolve keeps_share_enum : keeps.

Lemma keeps_share_get_list nm B s : 0 <= B -> usable nm B s -> keeps (fun '(r, l, c, s') => usable nm B s') (smb_share_get_list s).
Proof.
  intros HB Hu. unfold smb_share_get_list. keep. apply (keeps_bind (fun '(_, _, _, s') => usable nm B s')); [case_match; keep|].
  intros [[[r l] c] s'] Hs'. keep.
Qed.

(** ** Login *)

Lemma keeps_set_creds nm B s d l p : usable nm B s -> keeps (fun s' => usable (nm.1, creds s') B s') (smb_session_set_creds s d l p).
Proof.
  intros Hu. unfold smb_session_set_creds. assert (H1 : forall o n, keeps (fun _ => True) (set_cred o n)).
  { intros o n. unfold set_cred, Compat.strndup. keep. }
  keep. by destruct Hu as (? & <- & ?).
Qed.
Lemma keeps_logoff nm B s : usable nm B s -> keeps (fun '(r, s') => usable nm B s') (smb_session_logoff s).
Proof.
  intros Hu. unfold smb_session_logoff. assert (H1 : forall m, msg_ok m -> keeps msg_ok (logoff_request m)) by (intros; unfold logoff_request; keep).
  keep.
Qed.
Lemma keeps_login_answer nm B s m L : usable nm B s -> keeps (fun '(r, s') => usable nm B s') (login_answer s m L).
Proof. intros Hu. unfold login_answer. keep. Qed.
#[local] Hint Resolve keeps_login_answer : keeps.

Lemma keeps_digest data : keeps bytes_ok (HmacMd5.md5_once data).
Proof.
  unfold HmacMd5.md5_once, HmacMd5.uninit_ctx. apply (keeps_bind (fun _ => True)); [keep|]. intros c _. keep.
  match goal with E : Md5.MD5_Final _ = _ |- _ => unfold Md5.MD5_Final, Mdx.final in E; split_run E end.
  simplify_eq. apply Mdx.digest_ok.
Qed.
#[local] Hint Resolve keeps_digest : keeps.
Lemma keeps_hmac k n m l : keeps (when bytes_ok) (HmacMd5.HMAC_MD5 k n m l).
Proof. unfold HmacMd5.HMAC_MD5. keep. apply (keeps_bind (fun _ => True)); [case_match; keep|]. intros kp _. keep. Qed.
#[local] Hint Resolve keeps_hmac : keeps.

Lemma block_bytes_ok o : when bytes_ok o -> bytes_ok (SmbNtlm.block_of o).
Proof. destruct o; [done|by constructor]. Qed.
Lemma keeps_ntlm2_response h c b : when bytes_ok (data b) -> keeps (when bytes_ok) (SmbNtlm.smb_ntlm2_response h c b).
Proof.
  intros Hb. unfold SmbNtlm.smb_ntlm2_response, smb_buffer_alloc. pose proof (block_bytes_ok _ Hb).
  eapply keeps_bind; [apply keeps_uninit|]. intros hm Hhm. apply (keeps_bind (fun _ => True)); [keep|].
  intros [ok d] _. keep.
  match goal with E : stores ?r [(0, _); (16, _)] = Some ?q |- _ => eapply (stores_ok r); [| |exact E]; [done|] end.
  repeat constructor; [|done]. by destruct a1.
Qed.
Lemma keeps_challenge : keeps (fun _ => True) SmbNtlm.smb_ntlm_generate_challenge.
Proof. unfold SmbNtlm.smb_ntlm_generate_challenge. keep. Qed.
Lemma keeps_utf16 d : keeps (fun _ => True) (SmbNtlm.utf16 d).
Proof. unfold SmbNtlm.utf16. keep. Qed.
Lemma keeps_hash u p d : keeps (fun _ => True) (SmbNtlm.smb_ntlm2_hash u p d).
Proof.
  unfold SmbNtlm.smb_ntlm2_hash. pose proof keeps_utf16. 
  assert (H2 : forall x, keeps (fun _ => True) (SmbNtlm.smb_ntlm_hash x)).
  { intros x. unfold SmbNtlm.smb_ntlm_hash, SmbNtlm.md4_once. keep. }
  keep.
Qed.
#[local] Hint Resolve keeps_ntlm2_response keeps_challenge keeps_utf16 keeps_hash : keeps.

Lemma keeps_login_request s d u p m : msg_ok m -> keeps msg_ok (login_request s d u p m).
Proof.
  intros Hm. unfold login_request. assert (H1 : forall h c x, keeps (when bytes_ok) (SmbNtlm.smb_lm2_response h c x)).
  { intros. apply keeps_ntlm2_response, le_bytes_ok. }
  keep. apply (keeps_bind msg_ok); [case_match; keep|]. intros m' Hm'. keep.
Qed.
#[local] Hint Resolve keeps_login_request : keeps.

Lemma keeps_login_ntlm nm B s d u p : usable nm B s -> keeps (fun '(r, s') => usable nm B s') (smb_session_login_ntlm s d u p).
Proof. intros Hu. unfold smb_session_login_ntlm. keep. Qed.

(** A bounded message is what was asked for, and the login leaves the name. *)
Context `{Asn1Laws}.

Lemma keeps_returns {A} (P : A -> Prop) (m : io A) Q : returns m Q -> (forall w a, Q w a -> P a) -> keeps P m.
Proof.
  intros Hm HQ w Hw. destruct (Hm w) as (a & w' & -> & L & Ha). split; [by eapply HQ|]. split; [by eapply sound_later|].
  split; [by destruct L as [n ->]|by apply later_hush].
Qed.
Lemma keeps_asn1_tree : keeps (fun _ => True) asn1_array2tree.
Proof. by eapply keeps_returns; [apply array2tree_returns|]. Qed.
Lemma keeps_asn1_create name : keeps (fun _ => True) (asn1_create_element name).
Proof. by eapply keeps_returns; [apply create_returns|]. Qed.
Lemma keeps_asn1_write t path v : keeps (fun _ => True) (asn1_write_value t path v).
Proof. by eapply keeps_returns; [apply write_returns|]. Qed.
Lemma keeps_asn1_coding t room : keeps (when bytes_ok) (asn1_der_coding t room).
Proof. eapply keeps_returns; [apply coding_returns|]. intros w [d|] H3; [by apply (H3 d)|done]. Qed.
Lemma keeps_asn1_decoding t d : keeps (fun _ => True) (asn1_der_decoding t d).
Proof. by eapply keeps_returns; [apply decoding_returns|]. Qed.
Lemma keeps_asn1_read t path room : keeps (fun _ => True) (asn1_read_value t path room).
Proof. by eapply keeps_returns; [apply read_returns|]. Qed.
#[local] Hint Resolve keeps_asn1_tree keeps_asn1_create keeps_asn1_write keeps_asn1_coding keeps_asn1_decoding keeps_asn1_read : keeps.

Lemma keeps_write_values t l : keeps (fun _ => True) (write_values t l).
Proof. revert t. induction l as [|[path v] l IH]; intros t; cbn [write_values]; keep. Qed.
#[local] Hint Resolve keeps_write_values : keeps.

Lemma keeps_token name l ntlm path room : keeps (fun _ => True) ntlm -> keeps (when bytes_ok) (spnego_token name l ntlm path room).
Proof.
  intros Hn. unfold spnego_token. assert (H3 : forall t p b, keeps (fun _ => True) (write_buffer t p b)) by (intros; unfold write_buffer; keep).
  keep.
Qed.
#[local] Hint Resolve keeps_token : keeps.

Lemma keeps_alloc b n : keeps (fun _ => True) (smb_buffer_alloc b n).
Proof. unfold smb_buffer_alloc. keep. Qed.
#[local] Hint Resolve keeps_alloc : keeps.

Lemma keeps_ntlmssp_negotiate h d b : keeps (fun _ => True) (SmbNtlm.smb_ntlmssp_negotiate h d b).
Proof. unfold SmbNtlm.smb_ntlmssp_negotiate. keep. Qed.

Lemma keeps_xsec_request s align der m : msg_ok m -> bytes_ok der -> keeps msg_ok (xsec_request s align der m).
Proof.
  intros Hm Hd. unfold xsec_request. keep. apply (keeps_bind msg_ok); [case_match; keep|]. intros m' Hm'. keep.
Qed.
#[local] Hint Resolve keeps_ntlmssp_negotiate keeps_xsec_request : keeps.

Lemma keeps_negotiate nm B s d : usable nm B s -> keeps (fun '(r, s') => usable nm B s') (negotiate s d).
Proof. intros Hu. unfold negotiate. keep. Qed.
Lemma keeps_challenge_message nm B s : usable nm B s -> keeps (fun '(r, s') => usable nm B s') (challenge s).
Proof.
  intros Hu. unfold challenge, challenge_answer.
  assert (H3 : forall s v u, usable nm B s -> keeps (fun '(r, s') => usable nm B s') (challenge_token s v u))
    by (intros; unfold challenge_token; keep).
  keep.
Qed.
#[local] Hint Resolve keeps_negotiate keeps_challenge_message : keeps.


Lemma keeps_response_any h c b : keeps (fun _ => True) (SmbNtlm.smb_ntlm2_response h c b).
Proof. unfold SmbNtlm.smb_ntlm2_response. keep. Qed.
Lemma keeps_make_blob ts c b : keeps (fun _ => True) (SmbNtlm.smb_ntlm_make_blob ts c b).
Proof. unfold SmbNtlm.smb_ntlm_make_blob. keep. Qed.
Lemma keeps_session_key h n x : keeps (fun _ => True) (SmbNtlm.smb_ntlm2_session_key h n x).
Proof. unfold SmbNtlm.smb_ntlm2_session_key. keep. Qed.
Lemma keeps_append_utf16 a f d c : keeps (fun _ => True) (SmbNtlm.append_utf16 a f d c).
Proof. unfold SmbNtlm.append_utf16. keep. Qed.
#[local] Hint Resolve keeps_make_blob keeps_session_key keeps_append_utf16 : keeps.
Lemma keeps_fill_auth a h d u p l n b x : keeps (fun _ => True) (SmbNtlm.fill_auth a h d u p l n b x).
Proof.
  unfold SmbNtlm.fill_auth. keep. apply (keeps_bind (fun _ => True)); [case_match; keep|]. intros [? ?] _. keep.
Qed.
#[local] Hint Resolve keeps_fill_auth : keeps.
Lemma keeps_ntlmssp_response c ts h d u p b t : keeps (fun _ => True) (SmbNtlm.smb_ntlmssp_response c ts h d u p b t).
Proof.
  unfold SmbNtlm.smb_ntlmssp_response, SmbNtlm.smb_lm2_response. pose proof keeps_response_any as Hany.
  assert (Hx : keeps (fun _ => True) SmbNtlm.smb_ntlm_generate_xkey) by (unfold SmbNtlm.smb_ntlm_generate_xkey; keep).
  keep.
Qed.
#[local] Hint Resolve keeps_ntlmssp_response : keeps.

Lemma keeps_auth nm B s d u p : usable nm B s -> keeps (fun '(r, s') => usable nm B s') (auth s d u p).
Proof. intros Hu. unfold auth. keep. Qed.
Lemma keeps_init_asn1 nm B s : usable nm B s -> keeps (fun '(r, s') => usable nm B s') (init_asn1 s).
Proof. intros Hu. unfold init_asn1. keep. Qed.
Lemma clean_usable nm B s : usable nm B s -> usable nm B (clean_asn1 s).
Proof. intros Hu. unfold clean_asn1. by destruct (spnego_asn1 s). Qed.
Lemma uid_usable nm B s u : usable nm B s -> usable nm B (set_srv s (set_uid (srv s) u)).
Proof. done. Qed.
#[local] Hint Resolve keeps_auth keeps_init_asn1 clean_usable uid_usable : keeps.
Lemma keeps_login_spnego nm B s d u p : usable nm B s -> keeps (fun '(r, s') => usable nm B s') (smb_session_login_spnego s d u p).
Proof. intros Hu. unfold smb_session_login_spnego. cbv zeta. keep. Qed.
#[local] Hint Resolve keeps_login_spnego keeps_login_ntlm : keeps.
Lemma keeps_login nm B s : usable nm B s -> keeps (fun '(r, s') => usable nm B s') (smb_session_login s).
Proof. intros Hu. unfold smb_session_login. keep. Qed.

(** ** Listing and status *)

(** More nodes, none of them in the lists of the session. *)
Definition more (h h' : gmap Z smb_file) : Prop := h ⊆ h' /\ forall p f, h' !! p = Some f -> h !! p = None -> f_offset f = 0.

Lemma more_refl h : more h h.
Proof. split; [done|]. congruence. Qed.
Lemma chain_more h h' p l : h ⊆ h' -> chain f_next h p l -> chain f_next h' p l.
Proof.
  intros Hs. revert p. induction l as [|x l IH]; intros p; [done|]. intros (-> & Hx & n & Hn & Hc).
  split; [done|]. split; [done|]. exists n. split; [by eapply lookup_weaken|auto].
Qed.
Lemma more_tables B t h : 0 <= B -> tables_ok B t -> more (file_heap t) h -> tables_ok B (Tables (shares t) (share_heap t) h).
Proof.
  intros HB [[TT (Hc & Hok & Hnd)] Hall] [Hs Hnew]. split.
  - exists TT. split; [exact Hc|]. split; [|exact Hnd]. eapply Forall_impl; [exact Hok|]. cbn [file_heap share_heap].
    intros e (sh & Es & Et & Hch & Hfl). exists sh. split_and!; auto; [by eapply chain_more|].
    eapply Forall_impl; [exact Hfl|]. intros [i q] (n & En & E). exists n. split; [by eapply lookup_weaken|done].
  - cbn. intros p f Hp. destruct (file_heap t !! p) as [g|] eqn:Eg.
    + pose proof (lookup_weaken _ _ _ _ Eg Hs). simplify_eq. exact (Hall _ _ Eg).
    + rewrite (Hnew _ _ Hp Eg). lia.
Qed.

(** A list of new nodes in front of [h]. *)
Definition listed (h h' : gmap Z smb_file) (p : Z) : Prop :=
  more h h' /\ exists l, chain f_next h' p l /\ Forall (fun x => h !! x = None) l.

Lemma listed_nil h : listed h h 0.
Proof. split; [apply more_refl|]. by exists []. Qed.
Lemma listed_new h h' p f : listed h h' p -> f_next f = p -> f_offset f = 0 -> listed h (<[fresh_ptr h' := f]> h') (fresh_ptr h').
Proof.
  intros [[Hs Hnew] (l & Hc & Hl)] Hn Ho. destruct (fresh_ptr_spec h') as [Hp0 Hpn].
  assert (Hh : h !! fresh_ptr h' = None) by (by eapply lookup_weaken_None).
  split.
  - split; [by apply insert_subseteq_r|]. intros q g Hq E. destruct (decide (q = fresh_ptr h')) as [->|Hne].
    + rewrite lookup_insert_eq in Hq. by injection Hq as <-.
    + rewrite lookup_insert_ne in Hq by done. by eapply Hnew.
  - exists (fresh_ptr h' :: l). split; [|by constructor]. split; [done|]. split; [done|]. exists f. rewrite lookup_insert_eq.
    split; [done|]. rewrite Hn. eapply chain_more; [|exact Hc]. by apply insert_subseteq.
Qed.
Lemma listed_destroy h h' p h2 : listed h h' p -> smb_stat_list_destroy h' p = Done h2 -> more h h2.
Proof.
  intros [[Hs Hnew] (l & Hc & Hl)] E. destruct (free_nodes_spec _ _ _ _ _ Hc (chain_size _ _ _ _ Hc)) as (h3 & E3 & H3).
  unfold smb_stat_list_destroy in E. rewrite E3 in E. injection E as ->. split.
  - apply map_subseteq_spec. intros q g Hq. rewrite H3. destruct (decide (q ∈ l)) as [Hin|_]; [|by eapply lookup_weaken].
    rewrite Forall_forall in Hl. by rewrite (Hl _ Hin) in Hq.
  - intros q g Hq Hh. rewrite H3 in Hq. destruct (decide _); [done|]. by eapply Hnew.
Qed.

Lemma listed_usable nm B s h : 0 <= B -> usable nm B s -> more (file_heap (fds s)) h -> usable nm B (set_files s h).
Proof. intros HB (Hs & Hn & Ht) Hm. split; [exact Hs|]. split; [exact Hn|]. by apply more_tables. Qed.

Lemma keeps_grow m n : msg_ok m -> keeps (when msg_ok) (smb_message_grow (Some m) n).
Proof. intros Hm. unfold smb_message_grow. keep. Qed.
(** A turn of the loops around the receiver that is not the last has received
    a message. *)
Lemma tr2_body_consumes nm B rem m s w x w' :
  usable nm B s -> tr2_recv_body (rem, m, s) w = Done (inl x, w') -> (length (w_events w') < length (w_events w))%nat.
Proof.
  intros Hu. unfold tr2_recv_body. destruct (rem <=? 0); [done|]. intros ([[r o] s1] & w1 & E1 & E)%bind_inv.
  destruct (Z.eqb_spec r 0) as [->|Hr]; [done|]. apply (recv_msg_events tr) in E1; [|apply Hu|done].
  assert (Ho : onward w1 w'); [|destruct Ho as [_ Ho]; lia].
  revert E. match goal with |- ?f w1 = _ -> _ => enough (within onward f) by eauto end. unfold access. confine.
Qed.
Lemma entries_onward h files p iter n eod : within onward (smb_tr2_find2_parse_entries h files p iter n eod).
Proof. revert h files iter. induction n as [|n IH]; intros h files iter; cbn [smb_tr2_find2_parse_entries]; unfold access; confine. Qed.
Lemma find_next_consumes nm B tid sid pat eos key err p s w x w' :
  usable nm B s -> find_next_body tid sid pat (eos, key, err, p, s) w = Done (inl x, w') -> (length (w_events w') < length (w_events w))%nat.
Proof.
  intros Hu. unfold find_next_body. destruct (negb _); [done|]. intros ([[m|] s1] & w1 & E1 & E)%bind_inv; cbn beta iota in E.
  - apply (tr2_call_events tr) in E1 as [Hlt _]; [|apply Hu]. assert (Ho : onward w1 w'); [|destruct Ho as [_ Ho]; lia].
    revert E. match goal with |- ?f w1 = _ -> _ => enough (within onward f) by eauto end.
    pose proof entries_onward. unfold smb_find_next_parse, find_parse, access. confine.
  - by apply bind_inv in E as (h & w2 & _ & E).
Qed.

Lemma keeps_tr2_recv nm B s : usable nm B s ->
  keeps (fun '(o, s') => usable nm B s' /\ fds s' = fds s /\ when msg_ok o) (smb_tr2_recv s).
Proof.
  intros Hu. unfold smb_tr2_recv. pose proof keeps_grow as Hg. keep.
  apply (keeps_bind (fun '(m, s') => usable nm B s' /\ fds s' = fds s /\ msg_ok m)); [|intros [m s'] (? & ? & ?); keep].
  apply (keeps_loop _ (fun '(_, m, s') => usable nm B s' /\ fds s' = fds s /\ msg_ok m)); [| |by split_and!; try apply msg_ok_some].
  { intros [[z' m] s'] w x w' (Hu' & _) E. by eapply tr2_body_consumes. }
  clear. intros [[z m] s'] (Hu & Hf & Hm). unfold tr2_recv_body. keep.
Qed.
#[local] Hint Resolve keeps_tr2_recv : keeps.

Lemma keeps_padding m n : msg_ok m -> keeps msg_ok (put_padding m n).
Proof. apply keeps_puts. Qed.
#[local] Hint Resolve keeps_padding : keeps.
Lemma keeps_trans2_send nm B cmd L l s tid pat : usable nm B s ->
  keeps (fun '(b, s') => usable nm B s' /\ fds s' = fds s) (trans2_send cmd L l s tid pat).
Proof. intros Hu. unfold trans2_send. keep. Qed.
Lemma keeps_fstat_send nm B s tid path : usable nm B s -> keeps (fun '(b, s') => usable nm B s' /\ fds s' = fds s) (fstat_send s tid path).
Proof. intros Hu. unfold fstat_send. keep. Qed.
#[local] Hint Resolve keeps_trans2_send keeps_fstat_send : keeps.

Lemma keeps_find_send nm B s tid pat f : usable nm B s ->
  (f = smb_trans2_find_first s tid pat \/ exists key sid, f = smb_trans2_find_next s tid key sid pat) ->
  keeps (fun '(o, s') => usable nm B s' /\ fds s' = fds s /\ when msg_ok o) f.
Proof.
  intros Hu [->|(key & sid & ->)]; [unfold smb_trans2_find_first|unfold smb_trans2_find_next]; keep.
Qed.

Lemma keeps_fstat nm B s tid path : 0 <= B -> usable nm B s ->
  keeps (fun '(r, s') => usable nm B s' /\ (r <> 0 -> is_Some (file_heap (fds s') !! r))) (smb_fstat s tid path).
Proof.
  intros HB Hu. unfold smb_fstat, fstat_answer. keep; try done.
  split; [|intros _; cbn; rewrite lookup_insert_eq; by eexists].
  apply listed_usable; [done..|]. match goal with E : info_file _ _ _ _ = Some ?f |- _ =>
    assert (f_next f = 0 /\ f_offset f = 0) as [Hn Ho] by (unfold info_file in E; by simplify_option_eq) end.
  eapply listed_new; [apply listed_nil|exact Hn|exact Ho].
Qed.

Lemma keeps_entries h0 p h files iter n eod : listed h0 h files ->
  keeps (fun '(h', files') => listed h0 h' files') (smb_tr2_find2_parse_entries h files p iter n eod).
Proof.
  revert h files iter. induction n as [|n IH]; intros h files iter Hl; cbn [smb_tr2_find2_parse_entries]; [by apply keeps_ret|]. keep.
  apply IH. match goal with E : entry_file _ _ _ _ _ = Some ?f |- _ =>
    assert (f_next f = files /\ f_offset f = 0) as [Hn Ho] by (unfold entry_file in E; by simplify_option_eq) end.
  by eapply listed_new.
Qed.
Lemma keeps_find_parse L h0 h files m : listed h0 h files -> keeps (fun '(h', files') => listed h0 h' files') (find_parse L h files m).
Proof. intros Hl. unfold find_parse. pose proof keeps_entries. keep. Qed.

Lemma listing_set nm B s0 s h p : 0 <= B -> usable nm B s0 -> usable nm B s -> listed (file_heap (fds s0)) h p ->
  shares (fds s) = shares (fds s0) -> share_heap (fds s) = share_heap (fds s0) -> usable nm B (set_files s h).
Proof.
  intros HB H0' H1' [Hm _] E1 E2. destruct H1' as (Hs & Hn & _). split; [exact Hs|]. split; [exact Hn|].
  cbn. rewrite E1, E2. apply more_tables; [done|apply H0'|done].
Qed.

(** The session [s] while the list [p] is made, from [s0]. *)
Definition listing_at nm B s0 (st : Z * smb_session T) : Prop :=
  let '(p, s) := st in
  usable nm B s /\ listed (file_heap (fds s0)) (file_heap (fds s)) p
  /\ shares (fds s) = shares (fds s0) /\ share_heap (fds s) = share_heap (fds s0).

Lemma keeps_find_next nm B s0 tid sid pat st : 0 <= B -> usable nm B s0 ->
  (let '(_, _, _, p, s) := st in listing_at nm B s0 (p, s)) ->
  keeps (fun r => match r with inl (_, _, _, p, s) => listing_at nm B s0 (p, s) | inr ps => listing_at nm B s0 ps end)
    (find_next_body tid sid pat st).
Proof.
  intros HB Hu0. destruct st as [[[[e k] er] p] s]. intros (Hu & Hl & E1 & E2). unfold find_next_body.
  destruct (negb _); [by apply keeps_ret|].
  eapply keeps_bind; [eapply keeps_find_send; [exact Hu|right; by eexists _, _]|]. intros [[m|] s'] (Hu' & Ef & Hm).
  - rewrite <- Ef in Hl, E1, E2. keep. unfold smb_find_next_parse.
    eapply keeps_bind; [apply keeps_find_parse, Hl|]. intros [h q] Hq. apply keeps_ret.
    split; [by apply (listing_set nm B s0 s' h q)|]. split; [exact Hq|]. done.
  - eapply keeps_bind; [rewrite Ef; destruct Hl as [_ (l & Hc & _)]; by eapply keeps_lift, list_destroy_ends|].
    intros h E. apply keeps_ret.
    pose proof (listed_destroy _ _ _ _ Hl E) as Hmore. rewrite <- Ef in E1, E2.
    assert (Hnil : listed (file_heap (fds s0)) h 0) by (split; [exact Hmore|by exists []]).
    split; [by apply (listing_set nm B s0 s' h 0)|]. split; [exact Hnil|done].
Qed.

(** What is left is the session with the list in front of its heap. *)
Lemma keeps_find nm B s tid pat : 0 <= B -> usable nm B s -> keeps (listing_at nm B s) (smb_find s tid pat).
Proof.
  intros HB Hu. unfold smb_find.
  eapply keeps_bind; [eapply keeps_find_send; [exact Hu|by left]|]. intros [[m|] s'] (Hu' & Ef & Hm).
  - unfold smb_find_first_parse. eapply keeps_bind; [apply keeps_find_parse, listed_nil|]. intros [h q] Hq. cbv zeta.
    rewrite Ef in Hq.
    assert (Hs : listing_at nm B s (q, set_files s' h)).
    { split; [by apply (listing_set nm B s s' h q); try rewrite Ef|]. cbn. by rewrite Ef. }
    destruct (Z.eqb_spec q 0) as [->|]; [apply keeps_ret; exact Hs|]. keep.
    eapply (keeps_loop _ (fun st => let '(_, _, _, p, s1) := st in listing_at nm B s (p, s1))); [| |exact Hs].
    { intros [[[[e1 k1] r1] p1] s1] w x w' (Hu1 & _) E. by eapply find_next_consumes. }
    intros st Hst. eapply keeps_mono; [by apply (keeps_find_next nm B s)|]. by intros [[[[[? ?] ?] ?] ?]|[? ?]].
  - eapply keeps_bind; [by apply keeps_lift, (list_destroy_ends _ 0 [])|]. intros h E. apply keeps_ret. rewrite Ef in E.
    pose proof (listed_destroy _ _ _ _ (listed_nil _) E) as Hmore.
    assert (Hnil : listed (file_heap (fds s)) h 0) by (split; [exact Hmore|by exists []]).
    split; [by apply (listing_set nm B s s' h 0); try rewrite Ef|]. cbn. by rewrite Ef.
Qed.

Lemma listing_destroy nm B s p s1 h : 0 <= B -> usable nm B s -> listing_at nm B s (p, s1) ->
  smb_stat_list_destroy (file_heap (fds s1)) p = Done h -> usable nm B (set_files s1 h).
Proof.
  intros HB Hu (Hu1 & Hl & E1 & E2) E. apply (listing_set nm B s s1 h 0); [done..| |done|done].
  split; [by eapply listed_destroy|]. by exists [].
Qed.

(** ** Negotiation *)

Lemma keeps_dialects m l : msg_ok m -> Forall bytes_ok l -> keeps msg_ok (put_dialects m l).
Proof.
  revert m. induction l as [|d l IH]; intros m Hm Hl; cbn [put_dialects]; [by apply keeps_ret|].
  apply Forall_cons in Hl as [Hd Hl]. keep.
Qed.
Lemma keeps_smb_negotiate nm B s : usable nm B s -> keeps (fun '(r, s') => usable nm B s') (smb_negotiate s).
Proof.
  intros Hu. unfold smb_negotiate.
  assert (Hd : Forall bytes_ok dialects) by decided.
  assert (H3 : forall m, msg_ok m -> keeps msg_ok (negotiate_request m)).
  { intros m Hm. unfold negotiate_request. pose proof keeps_dialects. keep. }
  assert (H4 : forall s m, usable nm B s -> keeps (fun '(r, s') => usable nm B s') (negotiate_answer s m)).
  { intros s1 m Hu1. unfold negotiate_answer. cbv zeta. keep. }
  keep.
Qed.

End Files.

End Sessions.

End SmbInvariant.
