(* ===== verification/SmbClient.v ===== *)
(** A program that uses the library: any sequence of calls on a session, each
    chosen from the answers to the earlier ones.

    The theorems of the single calls compose: whatever the server sends, the
    session stays usable and its tables well formed, and the only calls that
    can make an invalid access are the ones named by [exposed]. *)

From stdpp Require Import strings gmap.
From S2P Require Import Prelude World Compat NetbiosSession SmbPackets SmbBuffer SmbMessage SmbNtlm SmbFd SmbTransport SmbSession SmbFile SmbLogin SmbShare SmbTrans2 SmbSpnego SmbInvariant.

Module SmbClient.
Import SmbPackets SmbBuffer SmbUtils SmbMessage SmbFd SmbTransport SmbSession SmbFile SmbLogin SmbShare SmbTrans2 SmbSpnego SmbInvariant.
Local Open Scope string_scope.
Local Open Scope list_scope.
Local Open Scope Z_scope.

(** The functions of include/bdsm that work on a connected session. *)
Inductive call :=
| SetCreds (name user pass : option bytes)
| Login
| Logoff
| TreeConnect (name : bytes)
| TreeDisconnect (tid : Z)
| ShareGetList
| Fopen (tid : Z) (path : bytes) (flags : Z)
| Fclose (fd : Z)
| Fread (fd : Z) (buf : option bytes) (buf_size : Z)
| Fwrite (fd : Z) (buf : bytes)
| Fseek (fd offset whence : Z)
| Fstat (tid : Z) (path : bytes)
| Find (tid : Z) (pattern : bytes)
| FileRm (tid : Z) (path : bytes)
| FileMv (tid : Z) (old_path new_path : bytes)
| DirectoryRm (tid : Z) (path : bytes)
| DirectoryCreate (tid : Z) (path : bytes).

(** What the program gets back: the value, and what is behind the pointers. *)
Inductive answer :=
| Nothing
| Value (r : Z)
| Handle (r : Z) (out : option Z)
| Content (r : Z) (buf : option bytes)
| Names (r : Z) (list : option (list (option bytes))) (count : option Z).

Section Client.
Context {T : Type} `{Iconv} `{Asn1}.
Implicit Types s : smb_session T.

Definition valued (m : io (Z * smb_session T)) : io (answer * smb_session T) := '(r, s) ← m; mret (Value r, s).
Definition handled (m : io (Z * option Z * smb_session T)) : io (answer * smb_session T) := '(r, o, s) ← m; mret (Handle r o, s).

Definition run_call (c : call) s : io (answer * smb_session T) :=
  match c with
  | SetCreds d l p => s ← smb_session_set_creds s d l p; mret (Nothing, s)
  | Login => valued (smb_session_login s)
  | Logoff => valued (smb_session_logoff s)
  | TreeConnect name => handled (smb_tree_connect s name)
  | TreeDisconnect tid => valued (smb_tree_disconnect s tid)
  | ShareGetList => '(r, l, n, s) ← smb_share_get_list s; mret (Names r l n, s)
  | Fopen tid path flags => handled (smb_fopen s tid path flags)
  | Fclose fd => s ← smb_fclose s fd; mret (Nothing, s)
  | Fread fd buf size => '(r, b, s) ← smb_fread s fd buf size; mret (Content r b, s)
  | Fwrite fd buf => valued (smb_fwrite s fd buf (zlen buf))
  | Fseek fd offset whence => valued (lift (smb_fseek s fd offset whence))
  | Fstat tid path => valued (smb_fstat s tid path)
  | Find tid pattern => valued (smb_find s tid pattern)
  | FileRm tid path => valued (smb_file_rm s tid path)
  | FileMv tid a b => valued (smb_file_mv s tid a b)
  | DirectoryRm tid path => valued (smb_directory_rm s tid path)
  | DirectoryCreate tid path => valued (smb_directory_create s tid path)
  end.

(** The next call, from the answers so far, the latest one first. *)
Definition client := list answer -> option call.

(** At most [n] more calls. *)
Fixpoint run_client (n : nat) (prog : client) (past : list answer) s : io (list answer * smb_session T) :=
  match n, prog past with
  | S n, Some c => '(a, s) ← run_call c s; run_client n prog (a :: past) s
  | _, _ => mret (past, s)
  end.

(** * What a program may pass *)

Definition text_ok (n : Z) (str : bytes) : Prop := exists k, strlen str = Some k /\ k <= n.
Definition tid_ok (tid : Z) : Prop := 0 <= tid < 65536.

(** The credentials that are set are terminated, have at most 128 characters
    and can be converted, the login also in upper case. *)
Definition cred_good (upper : bytes -> bytes) (o : option bytes) : Prop :=
  forall b, o = Some b -> exists x t u, b = cstr x /\ cstring_ok x /\ zlen x <= 128
    /\ SmbNtlm.utf16_text x t /\ SmbNtlm.utf16_text (upper x) u.
Definition creds_good (c : smb_creds) : Prop :=
  cred_good id (domain c) /\ cred_good (fun x => SmbNtlm.upcase (take 63 x)) (login c) /\ cred_good id (password c).

Definition valid (c : call) : Prop :=
  match c with
  | SetCreds d l p => creds_good (Creds d l p)
  | Login | Logoff | ShareGetList | Fclose _ => True
  | TreeConnect name => text_ok 500 name
  | TreeDisconnect tid => tid_ok tid
  | Fopen tid path _ | FileRm tid path | DirectoryRm tid path | DirectoryCreate tid path => tid_ok tid /\ text_ok 500 path
  | Fread fd buf size => fd <> 0 /\ 0 <= size /\ forall b, buf = Some b -> zlen b = size
  | Fwrite fd buf => fd <> 0 /\ bytes_ok buf /\ zlen buf <= 8000
  | Fseek fd offset _ => fd <> 0 /\ 0 <= offset <= 1099511627776
  | Fstat tid path | Find tid path => tid_ok tid /\ text_ok 500 path
  | FileMv tid a b => tid_ok tid /\ text_ok 250 a /\ text_ok 250 b
  end.

(** The calls that a server can make access memory outside their objects: the
    login with extended security, in the challenge; reading into less than
    65535 bytes; the status of a path and the search. *)
Definition exposed (c : call) s (w : world) : Prop :=
  match c with
  | Login => exists d, domain (creds s) = Some d /\ bad_challenge s d w
  | Fread _ (Some b) _ => zlen b < 65535
  | Fstat _ _ | Find _ _ => True
  | _ => False
  end.
End Client.

(** * One call *)

Section Laws.
Context {T : Type} (tr : smb_transport T) `{!TransportLaws tr} `{IconvLaws} `{Asn1Laws}.
Implicit Types s : smb_session T.

(** The tables stay well formed, and the offsets grow by at most 2^40. *)
Definition stays (nm : bytes) (B : Z) (r : answer * smb_session T) : Prop :=
  exists c, creds_good c /\ usable tr (nm, c) B r.2.

Lemma keeps_valued nm B m : (keeps (fun '(_, s) => usable tr nm B s) m) -> creds_good nm.2 -> keeps (stays nm.1 B) (valued (T := T) m).
Proof.
  intros Hm Hc. unfold valued. eapply keeps_bind; [exact Hm|]. intros [r s] Hs. apply keeps_ret. exists nm.2. by destruct nm.
Qed.
Lemma keeps_handled nm B m : (keeps (fun '(_, _, s) => usable tr nm B s) m) -> creds_good nm.2 -> keeps (stays nm.1 B) (handled (T := T) m).
Proof.
  intros Hm Hc. unfold handled. eapply keeps_bind; [exact Hm|]. intros [[r o] s] Hs. apply keeps_ret. exists nm.2. by destruct nm.
Qed.

Lemma keeps_grows nm B B' (m : io (answer * smb_session T)) : keeps (stays nm B) m -> B <= B' -> keeps (stays nm B') m.
Proof. intros Hm HB. eapply keeps_mono; [exact Hm|]. intros r (c & Hc & Hu). exists c. split; [done|]. by eapply usable_mono. Qed.

Lemma keeps_fseek nm B s fd o wh : usable tr nm B s -> 0 <= o <= 1099511627776 ->
  keeps (fun '(_, s') => usable tr nm (B + 1099511627776) s') (lift (smb_fseek s fd o wh)).
Proof.
  intros Hu Ho. eapply keeps_mono; [by eapply keeps_lift, usable_ends|]. intros [r s'] E. eapply fseek_keeps; [exact Hu|exact E|lia].
Qed.

(** ** Credentials *)

Lemma set_cred_good up old new w : lucky w -> cred_good up old -> cred_good up new ->
  exists o, runs w (set_cred old new) o /\ cred_good up o /\ o = match new with Some b => Some b | None => old end.
Proof.
  intros Hw Ho Hn. destruct new as [b|]; [|by exists old; split; [apply runs_ret|]].
  destruct (Hn b eq_refl) as (x & t & u & -> & Hx & Hl & Ht). cbn [set_cred].
  destruct (Compat.strndup_spec x [] SMB_CREDS_MAXLEN w) as (w' & E & L); [done|done|]. rewrite (Hw (w_tick w)) in E.
  rewrite take_ge in E by (unfold zlen in Hl; unfold SMB_CREDS_MAXLEN; lia).
  exists (Some (cstr x)). split; [by exists w'|]. split; [|done]. intros ? [= <-]. by exists x, t, u.
Qed.

Lemma set_creds_good s d l p w : lucky w -> creds_good (creds s) -> creds_good (Creds d l p) ->
  exists c, runs w (smb_session_set_creds s d l p) (set_creds s c) /\ creds_good c
    /\ domain c = match d with Some b => Some b | None => domain (creds s) end.
Proof.
  intros Hw (Hd & Hl & Hp) (Hd' & Hl' & Hp'). unfold smb_session_set_creds.
  destruct (set_cred_good _ _ _ w Hw Hd Hd') as (o1 & (w1 & E1 & L1) & G1 & Eo). pose proof (later_lucky _ _ L1 Hw) as Hw1.
  destruct (set_cred_good _ _ _ w1 Hw1 Hl Hl') as (o2 & (w2 & E2 & L2) & G2 & _). pose proof (later_lucky _ _ L2 Hw1) as Hw2.
  destruct (set_cred_good _ _ _ w2 Hw2 Hp Hp') as (o3 & (w3 & E3 & L3) & G3 & _).
  exists (Creds o1 o2 o3). split; [|split; [done|exact Eo]]. exists w3.
  rewrite (bind_Done _ _ _ _ _ E1), (bind_Done _ _ _ _ _ E2), (bind_Done _ _ _ _ _ E3). split; [done|].
  eapply later_trans; [exact L1|]. by eapply later_trans.
Qed.

Lemma good_has_creds s d l p : creds_good (creds s) -> creds s = Creds (Some d) (Some l) (Some p) ->
  exists c, has_creds s c /\ d = cstr (SmbNtlm.c_domain c).
Proof.
  intros (Hd & Hl & Hp) E. rewrite E in *.
  destruct (Hd d eq_refl) as (xd & td & _ & -> & Hxd & Hzd & Htd & _), (Hl l eq_refl) as (xl & tl & ul & -> & Hxl & Hzl & Htl & Hul),
    (Hp p eq_refl) as (xp & tp & _ & -> & Hxp & Hzp & Htp & _).
  exists (SmbNtlm.Credentials xd xd xl xp td td tl ul tp). split; [|done]. split; [done|].
  split; [|split; [done|cbn; lia]]. unfold SmbNtlm.credentials_ok. cbn. split_and!; auto; lia.
Qed.

Lemma login_safe s w : sound w -> ready tr s -> creds_good (creds s) ->
  wpf (exists d, domain (creds s) = Some d /\ bad_challenge s d w) (smb_session_login s) (fun _ _ => True) w.
Proof.
  intros [Hw Hx] Hs Hc. destruct (creds s) as [d l p] eqn:E.
  assert (Hnone : d = None \/ l = None \/ p = None \/ exists d1 l1 p1, creds s = Creds (Some d1) (Some l1) (Some p1) /\ d = Some d1).
  { destruct d, l, p; eauto 10. }
  unfold wpf. destruct (smb_session_login s w) as [[? ?]| |] eqn:Er; [done| |done].
  destruct Hnone as [->|[->|[->|(d1 & l1 & p1 & E1 & ->)]]].
  1-3: unfold smb_session_login in Er; rewrite E in Er; cbn [domain login password] in Er; clear -Er; repeat case_match; done.
  destruct (good_has_creds s d1 l1 p1) as (c & Hhc & ->); [by rewrite E|done|].
  eexists. split; [done|]. by eapply (proj2 (session_login_run tr s)).
Qed.

(** ** Safety of the calls *)

Lemma fault_bind {A B} (m : io A) (k : A -> io B) w : (m ≫= k) w = Fault -> (forall a w', k a w' <> Fault) -> m w = Fault.
Proof. unfold mbind, io_bind. destruct (m w) as [[a w']| |]; try done. intros E Hk. by destruct (Hk a w'). Qed.
Lemma wp_fault {A} F (m : io A) Q w : wpf F m Q w -> m w = Fault -> F.
Proof. unfold wpf. intros Hm E. by rewrite E in Hm. Qed.

Lemma run_call_fault c s w : run_call c s w = Fault ->
  match c with
  | SetCreds d l p => smb_session_set_creds s d l p w = Fault
  | Login => smb_session_login s w = Fault
  | Logoff => smb_session_logoff s w = Fault
  | TreeConnect name => smb_tree_connect s name w = Fault
  | TreeDisconnect tid => smb_tree_disconnect s tid w = Fault
  | ShareGetList => smb_share_get_list s w = Fault
  | Fopen tid path flags => smb_fopen s tid path flags w = Fault
  | Fclose fd => smb_fclose s fd w = Fault
  | Fread fd buf size => smb_fread s fd buf size w = Fault
  | Fwrite fd buf => smb_fwrite s fd buf (zlen buf) w = Fault
  | Fseek fd offset whence => smb_fseek s fd offset whence = Fault
  | Fstat _ _ | Find _ _ => True
  | FileRm tid path => smb_file_rm s tid path w = Fault
  | FileMv tid a b => smb_file_mv s tid a b w = Fault
  | DirectoryRm tid path => smb_directory_rm s tid path w = Fault
  | DirectoryCreate tid path => smb_directory_create s tid path w = Fault
  end.
Proof.
  destruct c; cbn [run_call]; unfold valued, handled; intros E; try done; apply fault_bind in E; try (by intros; repeat case_match); try done.
  unfold lift in E. by destruct (smb_fseek s fd offset whence).
Qed.

(** A descriptor that is not 0 stands for an open file, or for none. *)
Lemma usable_opened nm B s fd : usable tr nm B s -> fd <> 0 -> B <= 2305843009213693952 ->
  smb_session_file_get (fds s) fd = Done 0 \/ exists file f, opened s fd file f.
Proof.
  intros (_ & _ & (TT & HR) & Hall) Hfd HB. pose proof (file_get_spec _ _ _ HR Hfd) as E.
  destruct (find_share TT (SMB_FD_TID fd)) as [e|] eqn:Ee; [|by left].
  unfold find_file in E. destruct (List.find _ (e_files e)) as [[i p]|] eqn:Ef; [right|by left].
  destruct (find_share_split _ _ _ Ee) as (T1 & T2 & -> & _). destruct HR as (_ & Hok & _).
  apply Forall_app in Hok as [_ [Hok _]%Forall_cons]. destruct Hok as (sh & _ & _ & Hch & Hfl). rewrite Forall_forall in Hfl.
  apply List.find_some in Ef as [Hp _]. apply list_elem_of_In in Hp. destruct (Hfl _ Hp) as (f & Hf & _).
  exists p, f. split; [done|]. split; [|split; [done|]].
  - apply chain_dom in Hch. rewrite Forall_forall in Hch. apply Hch. apply list_elem_of_fmap. by exists (i, p).
  - pose proof (Hall _ _ Hf) as Ho. cbn in Ho. lia.
Qed.

(** The name of the server fits in its array. *)
Definition named (nm : bytes) : Prop := exists n, strlen nm = Some n /\ n <= 15.

Lemma fread_safe nm B s fd buf size w : usable tr nm B s -> sound w -> B <= 2305843009213693952 -> fd <> 0 -> 0 <= size ->
  smb_fread s fd buf size w = Fault -> exists b, buf = Some b /\ zlen b < 65535.
Proof.
  intros Hu [_ Hx] HB Hfd Hsz E. destruct (usable_opened _ _ _ _ Hu Hfd HB) as [E0|(file & f & Hf)].
  - unfold smb_fread in E. by rewrite E0 in E.
  - eapply wp_fault; [|exact E]. eapply fread_run; [apply Hu|exact Hf|done|done].
Qed.

Lemma fwrite_safe nm B s fd buf w : usable tr nm B s -> sound w -> B <= 2305843009213693952 -> fd <> 0 -> bytes_ok buf ->
  zlen buf <= 8000 -> smb_fwrite s fd buf (zlen buf) w <> Fault.
Proof.
  intros Hu [_ Hx] HB Hfd Hb Hl E. destruct (usable_opened _ _ _ _ Hu Hfd HB) as [E0|(file & f & Hf)].
  - unfold smb_fwrite in E. by rewrite E0 in E.
  - pose proof Hu as ((Htr & t & Ht & Hok) & _). eapply wp_fault; [|exact E].
    eapply fwrite_run; [exact Htr|exact Ht|exact Hok| |exact Hf|done|done]. intros n Hn. apply tr_room_small; [done|lia].
Qed.

Lemma fseek_safe nm B s fd o wh : usable tr nm B s -> B <= 2305843009213693952 -> fd <> 0 -> 0 <= o <= 1099511627776 ->
  smb_fseek s fd o wh <> Fault.
Proof.
  intros Hu HB Hfd Ho. destruct (usable_opened _ _ _ _ Hu Hfd HB) as [E0|(file & f & Hf)]; unfold smb_fseek.
  - by rewrite E0.
  - pose proof Hf as (E & Hne & Hh & _). rewrite E. cbn [obind]. rewrite (proj2 (Z.eqb_neq _ _) Hne), Hh. cbn [checked obind].
    pose proof Hu as (_ & _ & _ & Hall). pose proof (Hall _ _ Hh) as Hof. cbn in Hof.
    assert (Hr : forall x, 0 <= x <= 4611686018427387904 -> off_t_range x = true) by (intros x Hx; unfold off_t_range; lia).
    rewrite Hr; [done|]. destruct (wh =? SMB_SEEK_SET); [lia|]. destruct (wh =? SMB_SEEK_CUR); lia.
Qed.

Lemma call_safe nm c B s w :
  usable tr (nm, c) B s -> named nm -> creds_good c -> sound w -> B <= 2305843009213693952 ->
  forall k, valid k -> run_call k s w = Fault -> exposed k s w.
Proof.
  intros Hu (n & Hn & Hn15) Hc Hw HB k Hv E. apply run_call_fault in E. pose proof Hu as (Hs & Hwho & (TT & HR) & _).
  injection Hwho as Enm Ec. pose proof Hw as [Hlk Hx]. rewrite <- Enm in Hn. rewrite <- Ec in Hc.
  assert (Hn0 : forall b k, strlen b = Some k -> 0 <= k).
  { intros b k1 Hk. destruct (strlen_inv _ _ Hk) as (q & rest & _ & -> & _). unfold zlen. lia. }
  pose proof (Hn0 _ _ Hn).
  destruct k; cbn [valid exposed] in *; try done.
  - destruct (set_creds_good s _ _ _ w Hlk Hc Hv) as (c' & (w' & E' & _) & _). by rewrite E' in E.
  - eapply wp_fault; [by apply login_safe|exact E].
  - eapply wp_fault; [by apply (logoff_correct tr)|exact E].
  - destruct Hv as (k & Hk & ?). pose proof (Hn0 _ _ Hk). eapply wp_fault; [eapply (tree_connect_run tr); eauto; lia|exact E].
  - eapply wp_fault; [by apply (tree_disconnect_keeps_table tr)|exact E].
  - eapply wp_fault; [by eapply (share_get_list_run tr)|exact E].
  - destruct Hv as (? & k & Hk & ?). eapply wp_fault; [eapply (fopen_run tr); eauto; lia|exact E].
  - eapply wp_fault; [by eapply (fclose_any tr)|exact E].
  - destruct Hv as (? & ? & _). by destruct (fread_safe _ _ s fd buf buf_size w Hu Hw HB) as (b & -> & ?).
  - destruct Hv as (? & ? & ?). by destruct (fwrite_safe _ _ _ fd buf w Hu Hw HB).
  - destruct Hv as (? & ?). by destruct (fseek_safe _ _ _ fd offset whence Hu HB).
  - destruct Hv as (? & k & Hk & ?). destruct (path_commands_run tr s tid path k w) as (Hp & _); auto; [lia|]. by eapply wp_fault.
  - destruct Hv as (? & (k1 & Hk1 & ?) & k2 & Hk2 & ?). eapply wp_fault; [apply (file_mv_correct tr s tid old_path k1 new_path k2 w); [done..|lia|done]|exact E].
  - destruct Hv as (? & k & Hk & ?). destruct (path_commands_run tr s tid path k w) as (_ & Hp & _); auto; [lia|]. by eapply wp_fault.
  - destruct Hv as (? & k & Hk & ?). destruct (path_commands_run tr s tid path k w) as (_ & _ & Hp); auto; [lia|]. by eapply wp_fault.
Qed.

(** ** What stays *)

Lemma call_keeps nm c B s k :
  usable tr (nm, c) B s -> creds_good c -> 0 <= B -> valid k -> keeps (stays nm (B + 1099511627776)) (run_call k s).
Proof.
  intros Hu Hc HB Hv.
  assert (Hval : forall B' m, keeps (fun '(_, s) => usable tr (nm, c) B' s) m -> B' <= B + 1099511627776 ->
            keeps (stays nm (B + 1099511627776)) (valued m)).
  { intros B' m Hm HB'. eapply keeps_grows; [|exact HB']. by apply (keeps_valued (nm, c)). }
  assert (Hhan : forall m, keeps (fun '(_, _, s) => usable tr (nm, c) B s) m -> keeps (stays nm (B + 1099511627776)) (handled m)).
  { intros m Hm. apply (keeps_grows _ B); [|lia]. by apply (keeps_handled (nm, c)). }
  destruct k; cbn [run_call valid] in *.
  - apply (keeps_bind (fun s1 => creds_good (creds s1) /\ usable tr (nm, creds s1) B s1)).
    + apply keeps_runs. intros w Hw. pose proof Hu as (Hs & Hwho & Ht). injection Hwho as En Ec.
      destruct (set_creds_good s name user pass w) as (c' & R & Hc' & _); [apply Hw|by rewrite Ec|done|].
      exists (set_creds s c'). split; [exact R|]. split; [done|]. split; [done|]. split; [by rewrite <- En|done].
    + intros s1 [Hc1 Hu1]. apply keeps_ret. exists (creds s1). split; [done|]. eapply usable_mono; [exact Hu1|lia].
  - apply (Hval B); [by apply keeps_login|lia].
  - apply (Hval B); [by apply keeps_logoff|lia].
  - by apply Hhan, keeps_tree_connect.
  - apply (Hval B); [by apply keeps_tree_disconnect|lia].
  - eapply keeps_bind; [by apply (keeps_share_get_list tr (nm, c) B)|]. intros [[[r l] n] s1] Hs1. apply keeps_ret.
    exists c. split; [done|]. eapply usable_mono; [exact Hs1|lia].
  - by apply Hhan, keeps_fopen.
  - eapply keeps_bind; [by apply (keeps_fclose tr (nm, c) B)|]. intros s1 Hs1. apply keeps_ret.
    exists c. split; [done|]. eapply usable_mono; [exact Hs1|lia].
  - eapply keeps_bind; [by apply (keeps_fread tr (nm, c) B)|]. intros [[r b] s1] Hs1. apply keeps_ret.
    exists c. split; [done|]. eapply usable_mono; [exact Hs1|lia].
  - apply (Hval (B + 65536)); [apply keeps_fwrite; [done|apply Hv]|lia].
  - apply (Hval (B + 1099511627776)); [apply keeps_fseek; [done|apply Hv]|lia].
  - apply (Hval B); [|lia]. eapply keeps_mono; [by apply keeps_fstat|]. by intros [r s'] [? _].
  - apply (Hval B); [|lia]. eapply keeps_mono; [by apply keeps_find|]. by intros [r s'] [? _].
  - apply (Hval B); [by apply keeps_path_command|lia].
  - apply (Hval B); [by apply keeps_mv|lia].
  - apply (Hval B); [by apply keeps_path_command|lia].
  - apply (Hval B); [by apply keeps_path_command|lia].
Qed.

(** * Programs *)

(** The [n]th call and what it finds: the program has made the calls before it
    and got [past]. *)
Inductive reaches (prog : client) : nat -> list answer -> smb_session T -> world -> call -> smb_session T -> world -> Prop :=
| reaches_now n past s w k : prog past = Some k -> reaches prog (S n) past s w k s w
| reaches_later n past s w k a s1 w1 k' s' w' :
    prog past = Some k -> run_call k s w = Done ((a, s1), w1) -> reaches prog n (a :: past) s1 w1 k' s' w' ->
    reaches prog (S n) past s w k' s' w'.

Lemma client_run prog n : (forall past k, prog past = Some k -> valid k) ->
  forall nm c B past s w, usable tr (nm, c) B s -> named nm -> creds_good c -> sound w -> 0 <= B ->
  B + Z.of_nat n * 1099511627776 <= 2305843009213693952 ->
  wpf (exists k s' w', reaches prog n past s w k s' w' /\ run_call k s' w' = Fault /\ exposed k s' w')
    (run_client n prog past s)
    (fun '(_, s') w' => sound w' /\ srv_name (srv s') = nm /\ creds_good (creds s')
       /\ usable tr (nm, creds s') (B + Z.of_nat n * 1099511627776) s') w.
Proof.
  intros Hprog. induction n as [|n IH]; intros nm c B past s w Hu Hnm Hc Hw HB Hmax.
  { apply wp_ret. pose proof Hu as (_ & [= <- <-] & _). rewrite Z.add_0_r. done. }
  cbn [run_client]. destruct (prog past) as [k|] eqn:Ek.
  2: { apply wp_ret. pose proof Hu as (_ & [= <- <-] & _). split_and!; [apply Hw|done|done|apply Hc..|]. eapply usable_mono; [exact Hu|lia]. }
  pose proof (Hprog _ _ Ek) as Hv. apply wp_bind. unfold wpf at 1.
  destruct (run_call k s w) as [[[a s1] w1]| |] eqn:Er; [| |done].
  - destruct (keeps_done _ _ _ _ _ (call_keeps nm c B s k Hu Hc HB Hv) Hw Er) as [(c1 & Hc1 & Hu1) Hw1].
    eapply wpf_mono; [apply (IH nm c1 (B + 1099511627776) (a :: past) s1 w1); auto; lia| |].
    + intros (k' & s' & w' & Hr & E' & He). exists k', s', w'. split; [by eapply reaches_later|done].
    + intros [past' s'] w' (? & ? & ? & Hu'). split_and!; auto. eapply usable_mono; [exact Hu'|lia].
  - exists k, s, w. split; [by apply reaches_now|]. split; [done|]. eapply call_safe; eauto. lia.
Qed.


End Laws.

(** * A program *)

#[local] Existing Instances plain_asn1 plain_asn1_laws.

Definition some_calls : list call :=
  [Fwrite (SMB_FD 5 3) [1; 2; 3]; Fseek (SMB_FD 5 3) 10 SMB_SEEK_SET; Fread (SMB_FD 5 4) None 100;
   TreeConnect a_path; ShareGetList; FileRm 7 a_path; Fclose (SMB_FD 5 3); TreeDisconnect 7; Logoff].
Definition some_client : client := fun past => nth_error some_calls (length past).

Lemma a_path_ok n : 2 <= n -> text_ok n a_path.
Proof. intros Hn. by exists 2. Qed.
Lemma some_client_valid past k : some_client past = Some k -> valid k.
Proof.
  intros E%nth_error_In. cbn in E.
  repeat destruct E as [<-|E]; cbn [valid]; unfold tid_ok; split_and?; try done; try lia; try (apply a_path_ok; lia); decided.
Qed.
Lemma some_usable : usable smb_transport_tcp (srv_name (srv srv_session), creds srv_session) 1099511627776 srv_session.
Proof.
  split; [exact srv_ready|]. split; [done|]. split; [exists some_entries; exact some_represents|].
  repeat (apply map_Forall_insert_2; [done|]). apply map_Forall_empty.
Qed.


End SmbClient.
