(* ===== verification/SmbRun.v ===== *)
(** A session from its creation to its end: src/smb_session.c with either
    transport, around the calls of a program.

    Connecting prepares what the calls rely on, over TCP and over NetBIOS;
    destroying the session frees its tables; an abort ends whatever is in
    progress and silences the session. *)

From stdpp Require Import strings gmap.
From S2P Require Import Prelude World Compat NetbiosUtils NetbiosSession SmbPackets SmbBuffer SmbMessage SmbNtlm SmbFd SmbTransport SmbSession SmbFile SmbLogin SmbShare SmbTrans2 SmbSpnego SmbInvariant SmbClient.

Module SmbRun.
Import NetbiosUtils SmbPackets SmbBuffer SmbUtils SmbMessage SmbFd SmbTransport SmbSession SmbFile SmbLogin SmbShare SmbTrans2 SmbSpnego SmbInvariant SmbClient.
Local Open Scope string_scope.
Local Open Scope list_scope.
Local Open Scope Z_scope.

Abbreviation session_t := (smb_session NetbiosSession.netbios_session).

(** * Connecting *)

Module Connect.
Import NetbiosSession.
Implicit Types s : netbios_session.

(** A session with its buffer, connected or not. *)
Definition prepared s : Prop := session_ok s /\ sized s.

(** What the waiting for a connection leaves. *)
Lemma open_socket_run s w : prepared s ->
  wp (open_socket_and_connect s) (fun '(r, s') w' => same_rx w w' /\ prepared s' /\ (r = DSM_SUCCESS -> 0 <= socket s')) w.
Proof.
  intros Hs. assert (Hp : forall fd, prepared (set_socket s fd)) by (intros fd; exact Hs).
  unfold open_socket_and_connect. apply wp_bind, wp_flip. intros opened. apply wp_bind. eapply wp_Done; [done|]. cbv zeta.
  set (s1 := set_socket s _). cbn [socket set_socket]. destruct (Z.ltb_spec (socket s1) 0); [apply wp_ret; split_and!; done|].
  apply wp_bind, wp_flip. intros []; [apply wp_ret; split_and!; done|].
  apply wp_bind, wp_flip. intros []; [|apply wp_ret; split_and!; done]. cbn [negb].
  apply wp_bind. eapply (wp_mono False _ (fun _ w' => same_rx w w')).
  - apply (wp_loop _ (fun _ w' => same_rx w w')); [|done]. intros [] w1 H1. apply wp_bind.
    eapply wp_mono; [apply (wp_within _ same_rx); [apply rx_select|by apply (wp_select _ (fun _ _ => True))]|].
    intros e w2 [_ H2]. apply wp_ret. assert (same_rx w w2) by (by etrans). by destruct e.
  - intros r w2 H2. apply wp_ret. split_and!; done.
Qed.

Lemma try_ports_run ip ports : forall s w, prepared s ->
  wp (try_ports s ip ports) (fun '(ok, s') w' => same_rx w w' /\ prepared s' /\ (ok = true -> 0 <= socket s')) w.
Proof.
  induction ports as [|port ports IH]; intros s w Hs; cbn [try_ports]; [by apply wp_ret|].
  apply wp_bind. eapply wp_mono; [by apply (open_socket_run (set_remote s ip port))|]. intros [r s1] w1 (Hw1 & Hs1 & Hk).
  destruct (Z.eqb_spec r DSM_SUCCESS); [apply wp_ret; split_and!; auto|].
  eapply wp_mono; [by apply IH|]. intros [ok s2] w2 (Hw2 & ? & ?). split; [by etrans|done].
Qed.

(** ** The session request *)

(** A store inside the buffer. *)
Lemma store_prepared s off src w : prepared s -> bytes_ok src -> 0 <= off -> off + zlen src <= 8192 ->
  exists p', store s off src w = Done (set_packet s (Some p'), w) /\ prepared (set_packet s (Some p')).
Proof.
  intros [(p & Hp & H4 & Hsz & Hb) Hz] Hsrc Ho Hl. unfold sized in Hz.
  destruct (proj2 (put_is_Some p off src)) as [p' Hput]; [lia|]. exists p'. split; [by eapply store_Done|].
  pose proof (length_put _ _ _ _ Hput). split; [|exact Hz]. exists p'. cbn. split_and!; [done|lia..|exact (put_ok _ _ _ _ Hb Hsrc Hput)].
Qed.

Lemma packet_init_run s w : prepared s -> exists p', netbios_session_packet_init s w = Done (set_packet (set_cursor s 0) (Some p'), w)
  /\ prepared (set_packet (set_cursor s 0) (Some p')).
Proof.
  intros Hs. unfold netbios_session_packet_init. cbv zeta.
  destruct (store_prepared (set_cursor s 0) 1 [0] w) as (p1 & E1 & H1); [exact Hs|by repeat constructor|done|done|].
  rewrite (bind_Done _ _ _ _ _ E1).
  destruct (store_prepared (set_packet (set_cursor s 0) (Some p1)) 0 [NETBIOS_OP_SESSION_MSG] w) as (p2 & E2 & H2);
    [exact H1|by repeat constructor|done|done|]. by exists p2.
Qed.

Lemma encoded_bytes_ok nm type : cstring_ok nm -> is_byte type -> bytes_ok (encoded_code nm type).
Proof.
  intros Hn Ht. destruct (encoded_code_cstr nm type Hn Ht) as (e & -> & _ & He). apply Forall_app. split; [by apply cstring_ok_bytes|by repeat constructor].
Qed.

(** A name goes behind the cursor without growing the buffer. *)
Lemma append_name_run s nm type w : prepared s -> 0 <= packet_cursor s <= 4096 -> cstring_ok nm -> is_byte type -> lucky w ->
  exists p' w', append_name s (Some (cstr nm)) type w = Done ((1, set_cursor (set_packet s (Some p')) (packet_cursor s + 34)), w')
    /\ later w w' /\ prepared (set_cursor (set_packet s (Some p')) (packet_cursor s + 34)).
Proof.
  intros Hs Hc Hn Ht Hw. unfold append_name. destruct (netbios_name_encode_run nm type w Hn) as (w1 & E1 & L1).
  rewrite (Hw (w_tick w)) in E1. rewrite (bind_Done _ _ _ _ _ E1). set (e := encoded_code nm type).
  rewrite (bind_Done _ _ w1 e w1) by done. rewrite (bind_Done _ _ w1 33 w1) by (by apply access_Done, strlen_encoded).
  pose proof (length_encoded_code nm type) as Hle. fold e in Hle.
  assert (Hz : sized s) by apply Hs. unfold sized in Hz. destruct Hs as [Hok _]. pose proof Hok as (p & Hp & _).
  unfold netbios_session_packet_append. rewrite (bind_Done _ _ _ _ _ (the_packet_Done _ _ _ Hp)).
  rewrite u64_small by lia. replace (packet_payload_size s - packet_cursor s <? 33 + 1) with false by lia.
  rewrite (bind_Done _ _ w1 (1, s) w1) by done. change (1 =? 0) with false. cbv iota.
  rewrite (bind_Done _ _ w1 e w1) by (apply access_Done, sub_all; unfold zlen; lia).
  destruct (store_prepared s (sizeof_packet + packet_cursor s) e w1) as (p' & E2 & H2);
    [done|by apply encoded_bytes_ok|unfold sizeof_packet; lia|unfold sizeof_packet, zlen; lia|].
  rewrite (bind_Done _ _ _ _ _ E2). exists p', w1. cbn [packet_cursor set_packet]. rewrite u64_small by lia.
  split; [done|]. split; [exact L1|]. exact H2.
Qed.

(** Sending what is behind the header. *)
Lemma packet_send_prepared s w : prepared s -> connected s -> 0 <= packet_cursor s <= 8188 ->
  wp (netbios_session_packet_send s) (fun '(r, s') w' => prepared s' /\ connected s' /\ w_rx w' = w_rx w) w.
Proof.
  intros Hs Hc Hcur. pose proof Hs as [(p & Hp & H4 & Hsz & Hb) Hz]. unfold sized in Hz.
  destruct p as [|x1 [|x2 [|x3 [|x4 rest]]]]; try (exfalso; len).
  set (payload := take (Z.to_nat (packet_cursor s)) rest). set (post := drop (Z.to_nat (packet_cursor s)) rest).
  assert (Hp' : packet s = Some ([x1; x2; x3; x4] ++ payload ++ post)) by (unfold payload, post; by rewrite take_drop).
  assert (Hl : packet_cursor s = zlen payload) by (unfold payload, zlen in *; rewrite length_take; cbn [length] in *; lia).
  repeat match goal with H : bytes_ok (_ :: _) |- _ => apply Forall_cons in H as [? H] end.
  apply wp_intro; [by apply (packet_send_run s x1 x2 x3 x4 payload post w)|]. intros [r s'] w' E.
  apply send_world in E as (Hrx & q & Est & -> & _).
  destruct (store_prepared s 2 (le_bytes 2 (swap16 (u16 (packet_cursor s)))) w Hs) as (q' & E' & Hs'); [apply le_bytes_ok|done|done|].
  rewrite E' in Est. injection Est as <-. split_and!; [exact Hs'|exact Hc|exact Hrx].
Qed.

(** The request is sent and its answer read. *)
Definition request_sent s : io (Z * netbios_session) :=
  '(r, s) ← netbios_session_packet_send s;
  if r =? 0 then connect_error s
  else
    '(recv_size, s) ← netbios_session_packet_recv s;
    if recv_size <? 0 then connect_error s
    else
      p ← the_packet s;
      op ← access (rd p 0);
      if negb (op =? NETBIOS_OP_SESSION_REQ_OK)
      then mret (0, set_state s NETBIOS_SESSION_REFUSED)
      else mret (1, set_state s NETBIOS_SESSION_CONNECTED).

Lemma session_answer_run s w : prepared s -> 0 <= socket s -> 0 <= packet_cursor s <= 8188 -> lucky w -> bytes_ok (w_rx w) ->
  wp (request_sent (set_state s NETBIOS_SESSION_CONNECTING)) (fun '(r, s') w' => bytes_ok (w_rx w') /\ (r <> 0 -> usable_session s')) w.
Proof.
  intros Hs Hk Hc Hw Hx. apply wp_bind. eapply wp_mono; [by apply (packet_send_prepared (set_state s NETBIOS_SESSION_CONNECTING))|].
  intros [r s1] w1 (Hs1 & Hc1 & Hx1). rewrite <- Hx1 in Hx. destruct (r =? 0); [by apply wp_ret|]. clear r.
  destruct (packet_recv_run s1 w1 (proj1 Hs1) Hc1 Hx) as [Hsafe Hrun]. apply wp_bind, wp_intro; [done|].
  intros [r s2] w2 E. pose proof (packet_recv_sized _ (proj2 Hs1) _ _ _ E) as Hz. cbn [snd] in Hz.
  destruct (Hrun _ _ _ E) as (Hx2 & Hc2 & H2). destruct (Z.ltb_spec r 0); [by apply wp_ret|].
  destruct H2 as [[-> _]|(_ & Hok & p & Hp & Hl)]; [lia|].
  apply wp_bind, (wp_Done _ _ _ _ _ _ (the_packet_Done _ _ _ Hp)).
  destruct (proj2 (rd_is_Some p 0)) as [op Hop]; [lia|]. apply wp_bind, (wp_access _ _ _ _ _ Hop).
  destruct (negb _); apply wp_ret; [done|]. split; [done|]. intros _. split; [exact Hok|]. split; [|exact Hz].
  split; [apply Hc2|done].
Qed.

Lemma session_request_run s nm w : prepared s -> 0 <= socket s -> cstring_ok nm -> lucky w -> bytes_ok (w_rx w) ->
  wp (session_request s (Some (cstr nm))) (fun '(r, s') w' => bytes_ok (w_rx w') /\ (r <> 0 -> usable_session s')) w.
Proof.
  intros Hs Hk Hn Hw Hx. unfold session_request. destruct (packet_init_run s w Hs) as (p0 & E0 & H0).
  apply wp_bind, (wp_Done _ _ _ _ _ _ E0). set (s0 := set_packet _ _) in *.
  destruct (store_prepared s0 0 [NETBIOS_OP_SESSION_REQ] w H0) as (p1 & E1 & H1); [by repeat constructor|done|done|].
  apply wp_bind, (wp_Done _ _ _ _ _ _ E1). set (s1 := set_packet s0 (Some p1)) in *.
  destruct (append_name_run s1 nm NETBIOS_FILESERVER w H1) as (p2 & w2 & E2 & L2 & H2); [by cbn; lia|done|done|done|].
  apply wp_bind, (wp_Done _ _ _ _ _ _ E2). change (1 =? 0) with false. cbv iota.
  set (s2 := set_cursor (set_packet s1 (Some p2)) _) in *. pose proof (later_lucky _ _ L2 Hw) as Hw2.
  destruct (append_name_run s2 [76; 73; 66; 68; 83; 77] NETBIOS_WORKSTATION w2 H2) as (p3 & w3 & E3 & L3 & H3); [by cbn; lia|decided|done|done|].
  apply wp_bind, (wp_Done _ _ _ _ _ _ E3). change (1 =? 0) with false. cbv iota zeta.
  pose proof (later_lucky _ _ L3 Hw2) as Hw3. apply later_world in L2 as [_ Hx2], L3 as [_ Hx3].
  rewrite <- Hx2, <- Hx3 in Hx. apply session_answer_run; [exact H3|exact Hk|by cbn; lia|done|done].
Qed.

(** Connecting a prepared session, over either transport. *)
Lemma session_connect_run ip s nm direct w : prepared s -> cstring_ok nm -> sound w ->
  wp (netbios_session_connect ip s (Some (cstr nm)) direct) (fun '(r, s') w' => bytes_ok (w_rx w') /\ (r <> 0 -> usable_session s')) w.
Proof.
  intros Hs Hn [Hw Hx]. pose proof Hs as [(p & Hp & _) _]. unfold netbios_session_connect. cbv zeta.
  apply wp_bind, (wp_Done _ _ _ _ _ _ (the_packet_Done _ _ _ Hp)), wp_bind. eapply wp_mono; [by apply try_ports_run|].
  intros [ok s1] w1 ((Ec & Ex) & Hs1 & Hk). rewrite <- Ex in Hx. destruct ok; cbn [negb]; [|by apply wp_ret].
  destruct direct; cbn [negb].
  - apply wp_ret. split; [done|]. intros _. split; [apply Hs1|]. split; [split; [by apply Hk|done]|apply Hs1].
  - apply session_request_run; auto. intros k. by rewrite Ec.
Qed.

Lemma session_connect_onward ip s name direct : within onward (netbios_session_connect ip s name direct).
Proof.
  unfold netbios_session_connect, session_request, append_name, connect_error, netbios_name_encode, malloc.
  assert (Hp : forall ports s, within onward (try_ports s ip ports)).
  { induction ports; intros; cbn [try_ports]; unfold open_socket_and_connect; confine. }
  pose proof packet_init_events. pose proof packet_append_events. pose proof packet_send_events. pose proof store_events.
  assert (Hr : forall s, within onward (netbios_session_packet_recv s)).
  { intros s1. unfold netbios_session_packet_recv, netbios_session_get_next_packet, recv_exactly, netbios_session_recv,
      session_buffer_realloc, the_packet, realloc. confine. }
  unfold the_packet. confine.
Qed.

Lemma name_encode_abortable name type : abortable (netbios_name_encode name type).
Proof.
  unfold netbios_name_encode, malloc. persist. apply abortable_lift. unfold netbios_name_level1_encode, encode_char. finish.
Qed.
Lemma try_ports_abortable ip ports s : abortable (try_ports s ip ports).
Proof.
  revert s. induction ports as [|port ports IH]; intros s; cbn [try_ports]; [persist|]. apply abortable_bind; [|persist].
  unfold open_socket_and_connect. persist. apply (waiting_loop_abortable (fun e => mret _)); [persist|].
  intros e w a' w' E. destruct e; try (by injection E as _ <-); done.
Qed.
Lemma session_connect_abortable ip s name direct : abortable (netbios_session_connect ip s name direct).
Proof.
  pose proof (try_ports_abortable ip). pose proof name_encode_abortable. pose proof packet_init_abortable.
  pose proof packet_append_abortable. pose proof packet_send_abortable. pose proof store_abortable.
  pose proof session_packet_recv_abortable.
  unfold netbios_session_connect, session_request, append_name, connect_error, the_packet. persist.
Qed.
Lemma session_connect_hush ip s name direct : within hush (netbios_session_connect ip s name direct).
Proof.
  assert (Hp : forall ports s, within hush (try_ports s ip ports)).
  { induction ports; intros; cbn [try_ports]; unfold open_socket_and_connect; confine. }
  pose proof packet_init_hush. pose proof packet_append_hush. pose proof packet_send_hush. pose proof store_hush.
  pose proof session_packet_recv_hush.
  unfold netbios_session_connect, session_request, append_name, connect_error, the_packet, netbios_name_encode, malloc. confine.
Qed.
End Connect.

(** * Sessions *)

(** A session right after its creation. *)
Definition fresh_session (s : session_t) : Prop :=
  transport s = None /\ creds s = Creds None None None /\ srv s = empty_srv /\ fds s = Tables 0 ∅ ∅
  /\ exists t p, session s = Some t /\ NetbiosSession.packet t = Some p /\ bytes_ok p /\ zlen p = 8196
       /\ NetbiosSession.packet_payload_size t = 8192.

Lemma malloc_returning n w : lucky w -> returning w (malloc n) (fun o => exists b, o = Some b /\ bytes_ok b /\ zlen b = Z.max 0 n).
Proof.
  intros Hw. destruct (runs_malloc n w Hw) as (b & Hr & Hl & Hb). exists (Some b). split; [done|]. exists b.
  split_and!; auto. unfold zlen. lia.
Qed.

Ltac flip_true :=
  let ok := fresh "ok" in let Hok := fresh "Hok" in step_with ok Hok; [by apply returning_flip|]; cbn beta in Hok; subst ok; cbn [negb].
Ltac any z := let Hz := fresh "Hz" in step_with z Hz; [by apply returning_pick|]; clear Hz.

Lemma session_new_run w : lucky w -> returning w smb_session_new (fun o => exists s, o = Some s /\ fresh_session s).
Proof.
  intros Hw. unfold smb_session_new. flip_true.
  eapply (returning_bind _ _ (fun o => exists t p, o = Some t /\ NetbiosSession.packet t = Some p /\ bytes_ok p /\ zlen p = 8196
    /\ NetbiosSession.packet_payload_size t = 8192)); [done| |].
  - unfold smb_transport_new_session, NetbiosSession.netbios_session_new. flip_true.
    eapply (returning_bind _ _ (fun a => exists c, a = (0, c))); [done| |].
    { unfold netbios_abort_ctx_init. flip_true. any z0. any z1. flip_true. flip_true. apply returning_ret. by eexists. }
    intros ? w1 Hw1 (c & ->). cbn beta iota. change (negb (0 =? 0)) with false. cbn iota.
    eapply returning_bind; [done|by apply malloc_returning|].
    intros ? w2 Hw2 (b & -> & Hb & Hl). apply returning_ret. eexists _, b. split; [reflexivity|]. by split_and!.
  - intros ? w1 Hw1 (t & p & -> & Hp & Hb & Hl & Hs). apply returning_ret. eexists. split; [reflexivity|].
    split_and!; [done..|]. by exists t, p.
Qed.

Definition name_array (nm : bytes) : bytes := cstr nm ++ replicate (15 - length nm) 0.

Lemma name_array_named nm : cstring_ok nm -> zlen nm <= 15 -> named (name_array nm).
Proof.
  intros Hc Hl. exists (zlen nm). split; [|done]. unfold name_array, cstr. rewrite <- app_assoc. by apply strlen_cstr.
Qed.

Lemma store_name_run nm w : zlen nm <= 15 -> cstring_ok nm ->
  store_name empty_srv (cstr nm) w = Done (set_name empty_srv (name_array nm), w).
Proof.
  intros Hl Hn. unfold store_name. rewrite (bind_Done _ _ w (zlen nm) w) by (by apply access_Done, strlen_cstr).
  rewrite (bind_Done _ _ w (cstr nm) w) by (apply access_Done, sub_all; unfold cstr; len).
  rewrite (bind_Done _ _ w (name_array nm) w); [done|]. apply access_Done. cbn [srv_name empty_srv].
  unfold zlen in Hl. rewrite put_Some by (unfold cstr; len). unfold name_array, cstr. rewrite take_0, app_nil_l.
  do 2 f_equal. rewrite drop_replicate. f_equal. rewrite length_app. cbn [length]. lia.
Qed.

(** What connects the table and negotiates. *)
Definition connect_over (table : smb_transport NetbiosSession.netbios_session) (s : session_t) t name ip : io (Z * session_t) :=
  let s := set_transport s table in
  '(r, t) ← connect table ip t (Some name);
  let s := set_session s t in
  if r =? 0 then mret (DSM_ERROR_NETWORK, s)
  else i ← store_name (srv s) name; smb_negotiate (set_srv s i).

(** What the end of a session needs. *)
Definition destroyable {T} (s : smb_session T) : Prop := is_Some (session s) /\ exists TT, represents (fds s) TT.

Lemma usable_destroyable {T} (tr : smb_transport T) `{!TransportLaws tr} nm B s : usable tr nm B s -> destroyable s.
Proof. intros ((_ & t & Ht & _) & _ & HT & _). split; [by exists t|done]. Qed.

Section Over.
Context (table : smb_transport NetbiosSession.netbios_session) `{!TransportLaws table} (direct : bool).
Hypothesis table_connect : forall ip t name, connect table ip t name = NetbiosSession.netbios_session_connect ip t name direct.
Hypothesis table_ok : forall t, usable_session t -> tr_ok t.

Context (s : session_t) (t : NetbiosSession.netbios_session) (nm : bytes) (ip : Z).
Hypothesis (Hsrv : srv s = empty_srv) (Hcreds : creds s = Creds None None None) (Hfds : fds s = Tables 0 ∅ ∅)
  (Ht : Connect.prepared t) (Hn : cstring_ok nm) (Hl : zlen nm <= 15).

Lemma keeps_session_connect : keeps (fun '(r, t') => r <> 0 -> usable_session t') (connect table ip t (Some (cstr nm))).
Proof.
  rewrite table_connect. apply keeps_wp; [apply Connect.session_connect_abortable|apply Connect.session_connect_hush|].
  intros w Hw. eapply wp_mono; [apply (wp_within _ onward); [apply Connect.session_connect_onward|by apply Connect.session_connect_run]|].
  intros [r t'] w' [[Hx Hu] Ho]. split; [done|]. split; [by eapply onward_lucky; [|apply Hw]|done].
Qed.

Lemma named_usable t' : usable_session t' ->
  usable table (name_array nm, Creds None None None) 0
    (set_srv (set_session (set_transport s table) t') (set_name empty_srv (name_array nm))).
Proof.
  intros Hu. split; [|split; [unfold who; cbn; by rewrite Hcreds|]].
  - split; [done|]. exists t'. auto.
  - cbn. rewrite Hfds. split; [exists []; by split_and!; constructor|]. apply map_Forall_empty.
Qed.

Lemma keeps_connect_over :
  keeps (fun '(r, s') => destroyable s' /\ (r = 0 -> usable table (name_array nm, Creds None None None) 0 s')) (connect_over table s t (cstr nm) ip).
Proof.
  unfold connect_over. cbv zeta. eapply keeps_bind; [apply keeps_session_connect|]. intros [r t'] Hu. cbn beta iota in Hu |- *.
  change (srv (set_session (set_transport s table) t')) with (srv s). rewrite Hsrv.
  destruct (Z.eqb_spec r 0).
  - apply keeps_ret. split; [|done]. split; [by exists t'|]. cbn. rewrite Hfds. exists []. by split_and!; constructor.
  - apply (keeps_bind (eq (set_name empty_srv (name_array nm)))).
    + apply keeps_runs. intros w _. eexists. split; [|done]. exists w. split; [by apply store_name_run|apply later_refl].
    + intros ? <-. eapply keeps_mono; [by apply keeps_smb_negotiate, named_usable, Hu|]. intros [r' s'] Hu'.
      split; [by eapply usable_destroyable|done].
Qed.

Lemma connect_over_safe w : sound w -> connect_over table s t (cstr nm) ip w <> Fault.
Proof.
  intros Hw. unfold connect_over. cbv zeta. apply bind_not_Fault.
  { rewrite table_connect. by apply (proj1 (wp_elim _ _ _ (Connect.session_connect_run ip t nm direct w Ht Hn Hw))). }
  intros [r t'] w1 E. destruct (keeps_done _ _ _ _ _ keeps_session_connect Hw E) as [Hu Hw1]. cbn beta iota in Hu |- *.
  destruct (Z.eqb_spec r 0); [done|]. change (srv (set_session (set_transport s table) t')) with (srv s). rewrite Hsrv.
  rewrite (bind_Done _ _ _ _ _ (store_name_run nm w1 Hl Hn)). intros E1.
  eapply wp_fault; [apply (negotiate_correct table); [apply named_usable; auto|apply Hw1]|exact E1].
Qed.
End Over.

(** A new session, connected to a server whose name fits. *)
Section Connecting.
Context (s : session_t) (nm : bytes) (ip tr : Z) (Hs : fresh_session s) (Hn : cstring_ok nm) (Hl : zlen nm <= 15).

(** Connected: over one of the two transports. *)
Definition connected_to (s' : session_t) : Prop :=
  (tr = SMB_TRANSPORT_TCP /\ usable smb_transport_tcp (name_array nm, Creds None None None) 0 s')
  \/ (tr = SMB_TRANSPORT_NBT /\ usable smb_transport_nbt (name_array nm, Creds None None None) 0 s').

Lemma fresh_prepared : exists t, session s = Some t /\ Connect.prepared t.
Proof.
  destruct Hs as (_ & _ & _ & _ & t & p & Ht & Hp & Hb & Hlp & Hsz). exists t. split; [done|].
  split; [exists p; split_and!; auto; lia|unfold sized; lia].
Qed.

Lemma keeps_connect :
  keeps (fun '(r, s') => destroyable s' /\ (r = 0 -> connected_to s')) (smb_session_connect s (cstr nm) ip tr).
Proof.
  destruct fresh_prepared as (t & Ht & Hp). pose proof Hs as (Htr & Hc & Hsrv & Hfds & _). unfold smb_session_connect.
  rewrite Ht, Htr. eapply keeps_bind; [apply keeps_access|]. intros ? [= <-]. cbv zeta. unfold connected_to.
  destruct (Z.eqb_spec tr SMB_TRANSPORT_TCP) as [->|_].
  - eapply keeps_mono; [by apply (keeps_connect_over smb_transport_tcp true)|]. intros [r s'] [? ?]. auto.
  - destruct (Z.eqb_spec tr SMB_TRANSPORT_NBT) as [->|_].
    + eapply keeps_mono; [by apply (keeps_connect_over smb_transport_nbt false)|]. intros [r s'] [? ?]. auto.
    + apply keeps_ret. split; [|done]. split; [by exists t|]. cbn. rewrite Hfds. exists []. by split_and!; constructor.
Qed.

Lemma connect_run w : sound w ->
  wp (smb_session_connect s (cstr nm) ip tr) (fun '(r, s') w' => sound w' /\ destroyable s' /\ (r = 0 -> connected_to s')) w.
Proof.
  intros Hw. apply wp_intro.
  - destruct fresh_prepared as (t & Ht & Hp). pose proof Hs as (Htr & Hc & Hsrv & Hfds & _). unfold smb_session_connect.
    rewrite Ht, Htr. rewrite (bind_Done _ _ w t w) by done. cbv zeta.
    destruct (tr =? SMB_TRANSPORT_TCP); [by apply (connect_over_safe smb_transport_tcp true)|].
    destruct (tr =? SMB_TRANSPORT_NBT); [by apply (connect_over_safe smb_transport_nbt false)|done].
  - intros [r s'] w' E. destruct (keeps_done _ _ _ _ _ keeps_connect Hw E) as [[? ?] ?]. auto.
Qed.
End Connecting.

(** ** Destroying *)

(** No block is freed twice or used after it; every node of the tables is
    freed. *)
Lemma destroy_run {T} (s : smb_session T) : destroyable s ->
  exists t x, (forall w, smb_session_destroy s w = Done ((t, x), w))
    /\ forall TT, represents (fds s) TT ->
         (forall q, share_heap t !! q = if decide (q ∈ map e_ptr TT) then None else share_heap (fds s) !! q)
         /\ (forall q, file_heap t !! q = if decide (q ∈ file_ptrs TT) then None else file_heap (fds s) !! q).
Proof.
  intros ((t & Ht) & TT & HR). destruct (share_clear_frees _ _ HR) as (t' & E & _).
  exists t'. eexists. split.
  - intros w. unfold smb_session_destroy. rewrite (bind_Done _ _ w t' w) by (unfold lift; by rewrite E).
    rewrite (bind_Done _ _ w t w) by (by rewrite Ht). reflexivity.
  - intros T2 HR2. destruct (share_clear_frees _ _ HR2) as (t2 & E2 & _ & H2). rewrite E in E2. by injection E2 as <-.
Qed.

(** * The whole life of a session *)

Lemma no_creds_good `{IconvLaws} : creds_good (Creds None None None).
Proof. by split_and!. Qed.

Section Life.
Context `{IconvLaws} `{Asn1Laws}.

(** Creation, connection, the calls of a program, destruction; the status of
    the connection, the answers and what is left of the tables. *)
Definition session_run (n : nat) (prog : client) (name : bytes) (ip kind : Z) : io (option (Z * list answer * tables)) :=
  o ← smb_session_new;
  match o with
  | None => mret None
  | Some s =>
      '(r, s) ← smb_session_connect s name ip kind;
      '(past, s) ← (if r =? 0 then run_client n prog [] s else mret ([], s));
      '(t, _) ← smb_session_destroy s;
      mret (Some (r, past, t))
  end.

Lemma keeps_session_new : keeps (fun o => exists s, o = Some s /\ fresh_session s) smb_session_new.
Proof. apply keeps_runs. intros w [Hw _]. destruct (session_new_run w Hw) as (o & R & Ho). eauto. Qed.
Lemma keeps_destroy {T} (s : smb_session T) : destroyable s -> keeps (fun _ => True) (smb_session_destroy s).
Proof.
  intros Hs. apply keeps_runs. intros w _. destruct (destroy_run s Hs) as (t & x & E & _). eexists. split; [|done].
  exists w. split; [apply E|apply later_refl].
Qed.

Context (prog : client) (Hprog : forall past k, prog past = Some k -> valid k).

Lemma keeps_client {T} (tr : smb_transport T) `{!TransportLaws tr} n : forall nm c B past s,
  usable tr (nm, c) B s -> creds_good c -> 0 <= B -> keeps (fun '(_, s') => destroyable s') (run_client n prog past s).
Proof.
  induction n as [|n IH]; intros nm c B past s Hu Hc HB; cbn [run_client]; [apply keeps_ret; by eapply usable_destroyable|].
  destruct (prog past) as [k|] eqn:Ek; [|apply keeps_ret; by eapply usable_destroyable].
  eapply keeps_bind; [eapply (call_keeps tr nm c B s k); eauto|]. intros [a s1] (c1 & Hc1 & Hu1). eapply IH; [exact Hu1|done|lia].
Qed.

Context (nm : bytes) (ip kind : Z) (Hn : cstring_ok nm) (Hl : zlen nm <= 15).

Lemma run_client_length {T} n past (s : smb_session T) w past' s' w' :
  run_client n prog past s w = Done ((past', s'), w') -> (length past' <= length past + n)%nat.
Proof.
  revert past s w. induction n as [|n IH]; intros past s w; cbn [run_client]; [intros [= <- _ _]; lia|].
  destruct (prog past); [|intros [= <- _ _]; lia]. intros ([a s1] & w1 & _ & E)%bind_inv. apply IH in E. cbn [length] in E. lia.
Qed.
Lemma session_run_length n w r past t w' :
  session_run n prog (cstr nm) ip kind w = Done (Some (r, past, t), w') -> (length past <= n)%nat.
Proof.
  intros ([s0|] & w0 & _ & E)%bind_inv; [|done]. apply bind_inv in E as ([r1 s1] & w1 & _ & ([past1 s2] & w2 & E2 & E)%bind_inv).
  apply bind_inv in E as ([t1 x] & w3 & _ & [= _ <- _ _]). destruct (r1 =? 0).
  - by apply run_client_length in E2.
  - injection E2 as <- _ _. cbn. lia.
Qed.

Lemma keeps_session_run n : keeps (fun o => exists r past t, o = Some (r, past, t)) (session_run n prog (cstr nm) ip kind).
Proof.
  unfold session_run. eapply keeps_bind; [apply keeps_session_new|]. intros ? (s & -> & Hs).
  eapply keeps_bind; [by apply keeps_connect|]. intros [r s1] [Hd Hu].
  apply (keeps_bind (fun '(_, s') => destroyable s')).
  - destruct (Z.eqb_spec r 0) as [->|]; [|by apply keeps_ret].
    destruct (Hu eq_refl) as [[_ Hu1]|[_ Hu1]];
      [eapply (keeps_client smb_transport_tcp)|eapply (keeps_client smb_transport_nbt)]; [exact Hu1|apply no_creds_good|done|exact Hu1|apply no_creds_good|done].
  - intros [past s2] Hd2. eapply keeps_bind; [by apply keeps_destroy|]. intros [t x] _. apply keeps_ret. eauto.
Qed.

(** Where the run can make an invalid access: in a call of [exposed] on the
    connected session. *)
Definition run_exposed (n : nat) (w : world) : Prop :=
  exists s0 w0 s1 w1 k s' w', smb_session_new w = Done (Some s0, w0)
    /\ smb_session_connect s0 (cstr nm) ip kind w0 = Done ((0, s1), w1)
    /\ reaches prog n [] s1 w1 k s' w' /\ run_call k s' w' = Fault /\ exposed k s' w'.

Lemma session_run_fault n w : Z.of_nat n <= 1048576 -> sound w -> session_run n prog (cstr nm) ip kind w = Fault -> run_exposed n w.
Proof.
  intros Hmax Hw. unfold session_run. destruct (session_new_run w (proj1 Hw)) as (? & (w0 & E0 & L0) & s0 & -> & Hs0).
  rewrite (bind_Done _ _ _ _ _ E0). pose proof (sound_later _ _ L0 Hw) as Hw0.
  pose proof (connect_run s0 nm ip kind Hs0 Hn Hl w0 Hw0) as Hcon. unfold mbind at 1, io_bind at 1.
  unfold wpf in Hcon. destruct (smb_session_connect s0 (cstr nm) ip kind w0) as [[[r s1] w1]| |] eqn:E1; [|done|done].
  destruct Hcon as (Hw1 & Hd1 & Hu). cbn [obind].
  assert (Hend : forall (past : list answer) (s2 : session_t) w2, destroyable s2 ->
    ('(t, _) ← smb_session_destroy s2; mret (Some (r, past, t))) w2 <> Fault).
  { intros past s2 w2 Hd. destruct (destroy_run s2 Hd) as (t & x & Ed & _). by rewrite (bind_Done _ _ _ _ _ (Ed w2)). }
  unfold mbind at 1, io_bind at 1. destruct (Z.eqb_spec r 0) as [->|].
  2: { cbn [mret io_ret obind]. unfold mret at 1, io_ret at 1. cbn [obind]. intros E. by destruct (Hend _ _ _ Hd1 E). }
  assert (Hrun : wpf (exists k s' w', reaches prog n [] s1 w1 k s' w' /\ run_call k s' w' = Fault /\ exposed k s' w')
    (run_client n prog [] s1) (fun '(_, s') _ => destroyable s') w1).
  { assert (Hnm : named (name_array nm)) by (by apply name_array_named). destruct (Hu eq_refl) as [[_ Hu1]|[_ Hu1]].
    - eapply wpf_mono; [apply (client_run smb_transport_tcp prog n Hprog _ _ _ [] _ _ Hu1 Hnm no_creds_good Hw1); lia|done|].
      intros [past s2] w2 (_ & _ & _ & Hu2). exact (usable_destroyable _ _ _ _ Hu2).
    - eapply wpf_mono; [apply (client_run smb_transport_nbt prog n Hprog _ _ _ [] _ _ Hu1 Hnm no_creds_good Hw1); lia|done|].
      intros [past s2] w2 (_ & _ & _ & Hu2). exact (usable_destroyable _ _ _ _ Hu2). }
  unfold wpf in Hrun. destruct (run_client n prog [] s1 w1) as [[[past s2] w2]| |]; cbn [obind]; [|intros _|done].
  - intros E. by destruct (Hend _ _ _ Hrun E).
  - destruct Hrun as (k & s' & w' & ?). exists s0, w0, s1, w1, k, s', w'. done.
Qed.

(** ** An abort before the connection *)

Lemma send_aborted t w r t' w' :
  w_aborted w = true -> NetbiosSession.netbios_session_packet_send t w = Done ((r, t'), w') -> r = 0.
Proof.
  intros Ha (p & w1 & E1 & (u & w2 & E2 & (t1 & w3 & E3 & (r1 & w4 & E4 & [= <- _ _])%bind_inv)%bind_inv)%bind_inv)%bind_inv.
  assert (H3 : w_aborted w3 = true).
  { apply (within_access hush) in E1. apply (within_require hush) in E2. apply store_hush in E3. apply E3, E2, E1, Ha. }
  unfold loop in E4. cbn [loop_fuel] in E4. unfold mbind, io_bind in E4.
  rewrite (NetbiosSession.select_aborted _ H3) in E4. cbn in E4. by injection E4.
Qed.

Lemma new_hush cmd : within hush (smb_message_new cmd).
Proof. unfold smb_message_new, smb_message_expand_payload, realloc. confine. Qed.
Lemma message_append_hush m d n : within hush (smb_message_append m d n).
Proof. unfold smb_message_append, smb_message_expand_payload, realloc. confine. Qed.
#[local] Hint Resolve message_append_hush : within.
Lemma negotiate_request_hush m : within hush (negotiate_request m).
Proof.
  unfold negotiate_request, put8, put16, smb_message_put8, smb_message_put16, store_payload.
  assert (Hd : forall l m, within hush (put_dialects m l)) by (induction l; intros; cbn [put_dialects]; unfold append; confine).
  confine.
Qed.

(** A message is not sent. *)
Lemma send_msg_aborted table (s : session_t) m w r s' m' w' :
  send table = NetbiosSession.netbios_session_packet_send -> TransportLaws table -> transport s = Some table ->
  w_aborted w = true -> smb_session_send_msg s m w = Done ((r, s', m'), w') -> r = 0.
Proof.
  intros Hsend Hlaws Htr Ha. unfold smb_session_send_msg. rewrite Htr.
  intros (t & w1 & E1 & (m1 & w2 & E2 & (tab & w3 & E3 & E)%bind_inv)%bind_inv)%bind_inv. injection E3 as <- <-.
  apply bind_inv in E as (t1 & w4 & E4 & (p & w5 & E5 & ([r1 t2] & w6 & E6 & E)%bind_inv)%bind_inv).
  assert (Ha2 : w_aborted w2 = true).
  { apply (within_access hush) in E1. assert (Hh : within hush (set_header m [("flags", 0x18); ("flags2", 0xc843); ("uid", uid (srv s))])) by (unfold set_header; confine).
    apply Hh in E2. apply E2, E1, Ha. }
  assert (Ha6 : w_aborted w6 = true).
  { apply init_hush in E4. apply (within_access hush) in E5. apply append_hush in E6. apply E6, E5, E4, Ha2. }
  destruct (Z.eqb_spec r1 0); [by injection E as <-|].
  apply bind_inv in E as ([r2 t3] & w7 & E7 & [= <- _ _ _]). rewrite Hsend in E7. apply send_aborted in E7 as ->; done.
Qed.

Lemma negotiate_aborted table (s : session_t) w r s' w' :
  send table = NetbiosSession.netbios_session_packet_send -> TransportLaws table -> transport s = Some table ->
  w_aborted w = true -> smb_negotiate s w = Done ((r, s'), w') -> r <> 0.
Proof.
  intros Hsend Hlaws Htr Ha ([m|] & w1 & E1 & E)%bind_inv; [|by injection E as <-].
  apply bind_inv in E as (m1 & w2 & E2 & ([[r1 s1] m2] & w3 & E3 & E)%bind_inv).
  apply new_hush in E1. apply negotiate_request_hush in E2.
  assert (Ha2 : w_aborted w2 = true) by (apply E2, E1, Ha).
  apply (send_msg_aborted table) in E3 as ->; [|done..]. by injection E as <-.
Qed.

Lemma connect_over_aborted table direct (s : session_t) t name w r s' w' :
  (forall ip t name, connect table ip t name = NetbiosSession.netbios_session_connect ip t name direct) ->
  send table = NetbiosSession.netbios_session_packet_send -> TransportLaws table ->
  w_aborted w = true -> connect_over table s t name ip w = Done ((r, s'), w') -> r <> 0.
Proof.
  intros Hcon Hsend Hlaws Ha. unfold connect_over. cbv zeta. rewrite Hcon. intros ([r1 t1] & w1 & E1 & E)%bind_inv.
  apply Connect.session_connect_hush in E1. destruct (Z.eqb_spec r1 0); [by injection E as <-|].
  apply bind_inv in E as (i & w2 & E2 & E).
  assert (Hst : within hush (store_name (srv (set_session (set_transport s table) t1)) name)) by (unfold store_name; confine).
  apply Hst in E2. eapply (negotiate_aborted table); [done|done| |apply E2, E1, Ha|exact E]. done.
Qed.

Lemma connect_aborted (s : session_t) name w r s' w' :
  w_aborted w = true -> smb_session_connect s name ip kind w = Done ((r, s'), w') -> r <> 0.
Proof.
  intros Ha (t & w1 & E1 & E)%bind_inv. apply (within_access hush) in E1. destruct (E1 Ha) as [Ha1 _]. cbv zeta in E.
  destruct (kind =? SMB_TRANSPORT_TCP).
  { eapply (connect_over_aborted smb_transport_tcp true (set_session s _)); [done|done|apply _|exact Ha1|exact E]. }
  destruct (kind =? SMB_TRANSPORT_NBT); [|by injection E as <-].
  eapply (connect_over_aborted smb_transport_nbt false (set_session s _)); [done|done|apply _|exact Ha1|exact E].
Qed.

Lemma session_run_aborted n w o w' : w_aborted w = true -> session_run n prog (cstr nm) ip kind w = Done (o, w') ->
  forall r past t, o = Some (r, past, t) -> r <> 0 /\ past = [].
Proof.
  intros Ha (o0 & w0 & E0 & E)%bind_inv r past t ->.
  assert (Ha0 : w_aborted w0 = true).
  { assert (Hh : within hush smb_session_new); [|by apply Hh in E0; apply E0].
    unfold smb_session_new, smb_transport_new_session, NetbiosSession.netbios_session_new, netbios_abort_ctx_init, malloc. confine. }
  destruct o0 as [s0|]; [|done]. apply bind_inv in E as ([r1 s1] & w1 & E1 & ([past1 s2] & w2 & E2 & E)%bind_inv).
  apply bind_inv in E as ([t1 x] & w3 & _ & [= <- <- _ _]). apply connect_aborted in E1 as Hr; [|done].
  split; [done|]. destruct (Z.eqb_spec r1 0); [done|]. by injection E2 as <-.
Qed.



End Life.

(** * Two sessions *)

#[local] Existing Instances plain_asn1 plain_asn1_laws.

(** The answer to a negotiation. *)
Definition negotiate_reply : bytes :=
  let hd := [0xff; 83; 77; 66; 0x72] ++ replicate 27 0 in
  let body := [17; 1; 0; 3; 1; 0; 1; 0; 4; 17; 0; 0; 0; 0; 1; 0] ++ replicate 40 7 in
  [0; 0; 0; 88] ++ hd ++ body.

(** A server that accepts the session request and answers the negotiation,
    then is silent for ever, until the program is told to abort. *)
Definition accepting (l : list event) : world :=
  World (fun _ => true) (fun _ => 5) (fun _ _ => 165) 0 (replicate 7 (EvReady 4096) ++ l) false ([0x82; 0; 0; 0] ++ negotiate_reply) [].
Definition three_calls : client := fun past => nth_error [FileRm 7 a_path; Logoff; DirectoryRm 7 a_path] (length past).

Example nbt_session :
  match session_run 3 three_calls (cstr [66; 79; 88]) 0x0100007f SMB_TRANSPORT_NBT (accepting [EvNone; EvAbort]) with
  | Done (Some (r, past, t), w') => (r, past, length (w_tx w'))
  | _ => (0, [], O)
  end = (0, [Value DSM_ERROR_NETWORK; Value DSM_ERROR_NETWORK; Value DSM_ERROR_NETWORK], 3%nat).
Proof. vm_compute. reflexivity. Qed.

Lemma three_calls_valid past k : three_calls past = Some k -> valid k.
Proof.
  intros E%nth_error_In. cbn in E.
  repeat destruct E as [<-|E]; cbn [valid]; unfold tid_ok; split_and?; try done; try lia; apply a_path_ok; lia.
Qed.
Lemma accepting_sound l : sound (accepting l).
Proof. split; [done|]. change (bytes_ok ([0x82; 0; 0; 0] ++ negotiate_reply)). decided. Qed.



End SmbRun.
