(* ===== verification/Tools.v ===== *)
(** The programs that come with the library: bin/lookup.c, bin/inverse.c,
    bin/discover.c and bin/dsm.c.

    What a program prints is the list of its messages, each a constructor with
    the values that go into the text; a program gives its exit status and its
    messages. An argument is the string it points to, with its terminator. *)

From stdpp Require Import strings gmap.
From S2P Require Import Prelude World Compat NetbiosUtils NetbiosQuery NetbiosNs NetbiosNsProps NetbiosSession SmbPackets SmbBuffer SmbMessage SmbNtlm SmbFd SmbTransport SmbSession SmbFile SmbLogin SmbShare SmbTrans2 SmbSpnego SmbInvariant SmbClient SmbRun.

Module Tools.
Import NetbiosUtils NetbiosNs NetbiosNsProps.
Local Open Scope list_scope.
Local Open Scope Z_scope.

Inductive message :=
(* all *)
| Usage (program : bytes)
| Address (host : bytes) (ip : Z)
(* lookup, inverse, discover *)
| LookupFailed (host : bytes)
| InverseFailed (ip : bytes)
| Name (name : bytes)
| Discovering
| DiscoverFailed
| Entry (added : bool) (ip : Z) (group name : bytes) (type : Z)
(* dsm *)
| Version
| UnknownOption (c : Z)
| Unresolved (host : bytes)
| Connected (host : bytes)
| NotConnected (host : bytes)
| Guest
| LoggedIn (host login : bytes)
| AuthenticationFailure
| NoShares (host : bytes)
| ShareList
| ShareName (name : bytes)
| TreeConnected (share : bytes)
| TreeFailed (share : bytes) (ret : Z)
| Finding
| NoFiles
| NoEntry
| Found (name : option bytes)
| Querying (path : bytes)
| FileInfo (path : bytes) (size is_dir : Z)
| StatFailed (status : Z) (not_found : bool).

(** exit status and messages *)
Abbreviation ended := (io (Z * list message)).

Section Tools.
(** getifaddrs(3) of the machine. *)
Context (getifaddrs : option (list ifaddrs)).

(** * lookup *)

Definition lookup_main (av : list bytes) : ended :=
  ns ← netbios_ns_new;
  if negb (zlen av =? 2) then p ← access (av !! 0%nat); mret (1, [Usage p])
  else
    host ← access (av !! 1%nat);
    ns ← access ns;
    '(r, ip, ns) ← netbios_ns_resolve getifaddrs ns host NETBIOS_FILESERVER;
    if negb (r =? 0) then mret (-1, [])
    else if ip =? 0 then mret (42, [LookupFailed host])
    else let _ := netbios_ns_destroy ns in mret (0, [Address host ip]).

(** * inverse *)

(** inet_pton(AF_INET, ...) of the system: the address, or [None] when it does
    not write it. *)
Context (inet_pton : bytes -> option Z).

Definition inverse_main (av : list bytes) : ended :=
  ns ← netbios_ns_new;
  if negb (zlen av =? 2) then p ← access (av !! 0%nat); mret (1, [Usage p])
  else
    arg ← access (av !! 1%nat);
    junk ← pick;
    let addr := default (u32 junk) (inet_pton arg) in
    ns ← access ns;
    '(name, ns) ← netbios_ns_inverse getifaddrs ns addr;
    match name with
    | None => mret (42, [InverseFailed arg])
    | Some name => let _ := netbios_ns_destroy ns in mret (0, [Name name])
    end.

(** * discover *)

Definition print_entry (c : callback) : message :=
  match c with
  | OnEntryAdded _ e => Entry true (address e) (group e) (NetbiosNs.name e) (type e)
  | OnEntryRemoved _ e => Entry false (address e) (group e) (NetbiosNs.name e) (type e)
  end.

(** Until [getchar]: what is printed, and the session, or the exit status. *)
Definition discover_begin : io (Z * list message + list message * netbios_ns) :=
  ns ← netbios_ns_new;
  ns ← access ns;
  '(r, ns) ← netbios_ns_discover_start ns 4 true;
  if negb (r =? 0) then mret (inl (42, [Discovering; DiscoverFailed]))
  else mret (inr ([Discovering], ns)).

(** From the key on; [rest] is the thread from where it is. The callbacks print
    as they are called. *)
Definition discover_end (ns : netbios_ns) (rest : io netbios_ns) : ended :=
  '(_, ns) ← netbios_ns_discover_stop ns rest;
  let _ := netbios_ns_destroy ns in
  mret (0, print_entry <$> discover_log ns).

(** * dsm *)

Definition slash : Z := 47.
Definition dash : Z := 45.
Definition equals : Z := 61.

(** [((pname = strrchr(av[0], '/')) != NULL) ? pname + 1 : av[0]] *)
Fixpoint after_slash (str : bytes) : option bytes :=
  match str with
  | [] => None
  | c :: str =>
      if c =? 0 then None
      else match after_slash str with
           | Some r => Some r
           | None => if c =? slash then Some str else None
           end
  end.
Definition base_name (str : bytes) : bytes := default str (after_slash str).

(** The characters in front of one of [stop]. *)
Fixpoint chars (stop : list Z) (str : bytes) : bytes :=
  match str with
  | [] => []
  | c :: str => if bool_decide (c ∈ stop) then [] else c :: chars stop str
  end.

(** "help" and "version" *)
Definition long_options : list (bytes * Z) :=
  [([104; 101; 108; 112], 104); ([118; 101; 114; 115; 105; 111; 110], 118)].

(** The two options, and '?' for what getopt_long(3) does not know. *)
Definition opt_h : Z := 104.
Definition opt_v : Z := 118.
Definition opt_unknown : Z := 63.

Definition long_option (arg : bytes) : Z :=
  let name := chars [0; equals] arg in
  match filter (fun o => bool_decide (name = take (length name) o.1)) long_options with
  | [(_, c)] => if bool_decide (equals ∈ chars [0] arg) then opt_unknown else c
  | _ => opt_unknown
  end.

(** The first option in an element of [argv], [None] for an operand. *)
Definition option_of (arg : bytes) : option Z :=
  match chars [0] arg with
  | c :: c' :: arg =>
      if negb (c =? dash) then None
      else if c' =? dash then Some (long_option arg)
      else Some (if c' =? opt_h then opt_h else if c' =? opt_v then opt_v else opt_unknown)
  | _ => None
  end.

(** getopt_long(3) on the elements behind the program's name: the first option,
    and the operands, which it moves behind the options. *)
Fixpoint getopt_long (args : list bytes) : option Z * list bytes :=
  match args with
  | [] => (None, [])
  | a :: args =>
      if bool_decide (chars [0] a = [dash; dash]) then (None, args)
      else match option_of a with
           | Some c => (Some c, [])
           | None => let '(o, l) := getopt_long args in (o, a :: l)
           end
  end.

(** The exit status and the message of an option, or the operands: every
    option ends the program. *)
Definition parse_options (pname : bytes) (args : list bytes) : Z * list message + list bytes :=
  match getopt_long args with
  | (Some c, _) =>
      if c =? opt_h then inl (0, [Usage pname])
      else if c =? opt_v then inl (0, [Version])
      else inl (-1, [UnknownOption c])
  | (None, operands) => inr operands
  end.

Definition NT_STATUS_OBJECT_NAME_NOT_FOUND : Z := 0xc0000034.
(** "\*" *)
Definition root_pattern : bytes := cstr [92; 42].
End Tools.

Section Dsm.
Import SmbUtils SmbFd SmbTransport SmbSession SmbFile SmbLogin SmbShare SmbTrans2 SmbSpnego.
Context `{Iconv} `{Asn1}.
Context (getifaddrs : option (list ifaddrs)).
Abbreviation session_t := (smb_session NetbiosSession.netbios_session).
Implicit Types (log : list message) (s : session_t).

(** [for (size_t i = 0; i < files_count; i++)] over the list. *)
Fixpoint list_files (h : gmap Z smb_file) (files : Z) (todo : nat) (i : nat) : outcome (list message) :=
  match todo with
  | O => Done []
  | S todo =>
      let* st := smb_stat_list_at h files i in
      if st =? 0 then Done [NoEntry]
      else
        let* name := smb_stat_name h st in
        let* rest := list_files h files todo (S i) in
        Done (Found name :: rest)
  end.

(** From [smb_find] to the destruction of the list. *)
Definition show_files s (tid : Z) : io (list message * session_t) :=
  '(files, s) ← smb_find s tid root_pattern;
  let h := file_heap (fds s) in
  files_count ← lift (smb_stat_list_count h files);
  shown ← lift (if files_count <=? 0 then Done [NoFiles] else list_files h files (Z.to_nat files_count) 0);
  h ← lift (smb_stat_list_destroy h files);
  mret (shown, set_files s h).

Definition show_status s (tid : Z) (fname : bytes) : io (message * session_t) :=
  '(st, s) ← smb_fstat s tid fname;
  if negb (st =? 0) then
    size ← lift (smb_stat_get (file_heap (fds s)) st SMB_STAT_SIZE);
    is_dir ← lift (smb_stat_get (file_heap (fds s)) st SMB_STAT_ISDIR);
    mret (FileInfo fname size is_dir, s)
  else
    let i_status := smb_session_get_nt_status s in
    mret (StatFailed i_status (i_status =? NT_STATUS_OBJECT_NAME_NOT_FOUND), s).

(** From the connection to the share on; [log] is what was printed before. The
    name service is destroyed last. *)
Definition dsm_tree s (share fname : bytes) log : ended :=
  '(ret, test, s) ← smb_tree_connect s share;
  if negb (ret =? DSM_SUCCESS) then mret (42, log ++ [TreeFailed share ret])
  else
    test ← access test;
    '(shown, s) ← show_files s test;
    '(status, s) ← show_status s test fname;
    _ ← smb_session_destroy s;
    mret (0, log ++ TreeConnected share :: Finding :: shown ++ [Querying fname; status]).

(** From the list of shares on. *)
Definition dsm_shares s (host share fname : bytes) log : ended :=
  '(r, share_list, _, s) ← smb_share_get_list s;
  if negb (r =? DSM_SUCCESS) then mret (42, log ++ [NoShares host])
  else
    l ← access share_list;
    names ← lift (strings_before_null l);
    _ ← lift (smb_share_list_destroy share_list);
    dsm_tree s share fname (log ++ ShareList :: (ShareName <$> names)).

(** From the login on. *)
Definition dsm_session s (host login_ password_ share fname : bytes) log : ended :=
  s ← smb_session_set_creds s (Some host) (Some login_) (Some password_);
  '(r, s) ← smb_session_login s;
  if negb (r =? DSM_SUCCESS) then mret (42, log ++ [AuthenticationFailure])
  else
    dsm_shares s host share fname (log ++ [if negb (smb_session_is_guest s =? 0) then Guest else LoggedIn host login_]).

(** From the name service to the connection: the exit status and the messages,
    or the session, the address being printed. *)
Definition dsm_connect (host : bytes) : io (Z * list message + session_t * list message) :=
  ns ← netbios_ns_new;
  ns ← access ns;
  '(r, ip, ns) ← netbios_ns_resolve getifaddrs ns host NETBIOS_FILESERVER;
  if negb (r =? 0) then mret (inl (-1, [Unresolved host]))
  else
    session ← smb_session_new;
    session ← access session;
    '(r, session) ← smb_session_connect session host ip SMB_TRANSPORT_TCP;
    if negb (r =? DSM_SUCCESS) then mret (inl (42, [Address host ip; NotConnected host]))
    else mret (inr (session, [Address host ip; Connected host])).

Definition dsm_main (av : list bytes) : ended :=
  program ← access (av !! 0%nat);
  let pname := base_name program in
  match parse_options pname (tail av) with
  | inl r => mret r
  | inr [host; login_; password_; share; fname] =>
      c ← dsm_connect host;
      match c with
      | inl r => mret r
      | inr (session, log) => dsm_session session host login_ password_ share fname log
      end
  | inr _ => mret (-1, [Usage pname])
  end.

End Dsm.

(** ** Options *)

Example option_help : option_of (cstr [45; 45; 104; 101]) = Some 104.
Proof. reflexivity. Qed.
Example option_argument : option_of (cstr [45; 45; 104; 101; 108; 112; 61; 49]) = Some 63.
Proof. reflexivity. Qed.
Example option_operand : option_of (cstr [45]) = None.
Proof. reflexivity. Qed.
Example base_name_path : base_name (cstr [47; 98; 47; 100]) = cstr [100].
Proof. reflexivity. Qed.

(** * The name service *)

(** A session right after its creation. *)
Definition new_ns (ns : netbios_ns) : Prop :=
  buffer_ok ns /\ entry_queue ns = [] /\ discover_started ns = false /\ discover_log ns = [].

Lemma new_ns_queue ns : new_ns ns -> queue_ok (next_ptr ns) (entry_queue ns).
Proof. intros (_ & -> & _). by split_and!; constructor. Qed.

Lemma ns_new_safe w : lucky w -> safe w netbios_ns_new (fun o => exists ns, o = Some ns /\ new_ns ns).
Proof.
  intros Hw. unfold netbios_ns_new, netbios_abort_ctx_init, ns_open_socket.
  assert (Hflip : forall B (k : bool -> io B) Q w1, after w w1 -> (forall w2, after w w2 -> safe w2 (k true) Q) -> safe w1 (flip ≫= k) Q).
  { intros B k Q w1 Ha Hk. eapply safe_bind; [apply safe_flip; by eapply after_lucky|]. intros ? w2 Ha2 ->. apply Hk. by eapply after_trans. }
  assert (Hpick : forall B (k : Z -> io B) Q w1, after w w1 -> (forall z w2, after w w2 -> safe w2 (k z) Q) -> safe w1 (pick ≫= k) Q).
  { intros B k Q w1 Ha Hk. eapply safe_bind; [apply safe_pick|]. intros z w2 Ha2 _. apply Hk. by eapply after_trans. }
  apply Hflip; [apply after_refl|]. intros w1 H1. cbn [negb].
  eapply (safe_bind _ _ (fun a => exists c, a = (0, c))).
  { apply Hflip; [done|]. intros w2 H2. cbn [negb]. apply Hpick; [done|]. intros z1 w3 H3. apply Hpick; [done|]. intros z2 w4 H4.
    apply Hflip; [done|]. intros w5 H5. apply Hflip; [done|]. intros w6 H6. apply safe_ret. by eexists. }
  intros ? w2 H2' (c & ->). assert (H2 : after w w2) by (by eapply after_trans). cbn [fst snd].
  eapply (safe_bind _ _ (fun o => o.1 = true /\ new_ns o.2)).
  { apply Hflip; [done|]. intros w3 H3. apply Hpick; [done|]. intros z w4 H4. cbn [negb].
    do 3 (apply Hflip; [done|]; intros ? ?). apply safe_ret. split; [done|]. split_and!; [|done..]. split; [done|]. apply Forall_replicate. done. }
  intros [ok ns] w3 H3 [Hok Hns]. cbn [fst snd] in *. subst ok. cbn [negb].
  apply Hpick; [by eapply after_trans|]. intros z w4 H4. apply safe_ret. by eexists.
Qed.

(** The machine the tools run on, and the traffic. *)
Definition network_ok (ifs : option (list ifaddrs)) (w : world) : Prop :=
  lucky w /\ Forall event_ok (w_events w) /\ forall addrs, ifs = Some addrs -> ifaddrs_ok addrs.

Lemma network_after ifs w w' : after w w' -> network_ok ifs w -> network_ok ifs w'.
Proof. intros Ha (H1 & H2 & H3). split_and!; [by eapply after_lucky|by eapply after_events|done]. Qed.
Lemma event_after e w w' : after w w' -> e ∈ w_events w' -> e ∈ w_events w.
Proof. intros [[l ->] _] He. apply elem_of_app. by right. Qed.

(** A new session resolves names by asking: the address comes with a datagram. *)
Lemma ask_safe {A} ifs host w (k : Z * Z * netbios_ns -> io A) Q :
  network_ok ifs w -> cstring_ok host ->
  (forall r ip ns w1, after w w1 -> (r = 0 -> exists data, EvDatagram ip data ∈ w_events w) -> safe w1 (k (r, ip, ns)) Q) ->
  forall ns, new_ns ns -> safe w (netbios_ns_resolve ifs ns (cstr host) NETBIOS_FILESERVER ≫= k) Q.
Proof.
  intros (Hw & Hev & Hifs) Hh Hk ns Hns. pose proof Hns as (Hb & Hq & Hst & _).
  eapply safe_bind; [apply resolve_run; auto; [by apply new_ns_queue|done]|].
  intros [[r ip] ns'] w1 Ha [_ Hr]. apply Hk; [done|]. intros H0. destruct (Hr H0) as [(p & e & Hin & _)|(data & t & Hin & _)].
  - rewrite Hq in Hin. by apply elem_of_nil in Hin.
  - by exists data.
Qed.

(** C23. lookup: with any traffic it makes no invalid access, and ends when it
    is aborted. It prints an address and ends with status 0 only when the
    address is not 0 and a host with this address sent a datagram; otherwise
    it prints that it failed (status 42), or nothing (status -1). *)
Theorem lookup_main_sound ifs prog host w :
  network_ok ifs w -> cstring_ok host ->
  safe w (lookup_main ifs [prog; cstr host]) (fun '(status, out) =>
    (status = 0 /\ exists ip data, out = [Address (cstr host) ip] /\ ip <> 0 /\ EvDatagram ip data ∈ w_events w)
    \/ (status = 42 /\ out = [LookupFailed (cstr host)]) \/ (status = -1 /\ out = [])).
Proof.
  intros Hn Hh. unfold lookup_main. eapply safe_bind; [apply ns_new_safe, Hn|].
  intros ? w1 Ha1 (ns & -> & Hns). change (negb (zlen [prog; cstr host] =? 2)) with false. cbn iota.
  eapply safe_bind; [by apply (safe_lift _ (cstr host) (eq (cstr host)))|]. intros ? w2 Ha2 <-.
  eapply safe_bind; [by apply (safe_lift _ ns (eq ns))|]. intros ? w3 Ha3 <-.
  assert (Ha : after w w3) by (eapply after_trans; [exact Ha1|]; by eapply after_trans).
  apply ask_safe; [by eapply network_after|done| |done]. intros r ip ns' w4 Ha4 Hr.
  destruct (Z.eqb_spec r 0) as [->|]; cbn [negb]; [|by apply safe_ret; auto].
  destruct (Z.eqb_spec ip 0); [by apply safe_ret; auto|]. apply safe_ret. left. split; [done|].
  destruct (Hr eq_refl) as [data Hd]. exists ip, data. split_and!; [done..|]. by eapply event_after.
Qed.

(** The name that inverse prints is that of the entry made from an answer of
    the host; the program stops on an assertion when the address is 0. *)
Theorem inverse_main_sound ifs pton prog arg ip w :
  network_ok ifs w -> pton arg = Some ip -> ip <> 0 ->
  safe w (inverse_main ifs pton [prog; arg]) (fun '(status, out) =>
    (status = 0 /\ exists nm data, out = [Name nm] /\ EvDatagram ip data ∈ w_events w)
    \/ (status = 42 /\ out = [InverseFailed arg])).
Proof.
  intros Hn Hp Hip. unfold inverse_main. eapply safe_bind; [apply ns_new_safe, Hn|].
  intros ? w1 Ha1 (ns & -> & Hns). change (negb (zlen [prog; arg] =? 2)) with false. cbn iota.
  eapply safe_bind; [by apply (safe_lift _ arg (eq arg))|]. intros ? w2 Ha2 <-.
  eapply safe_bind; [apply safe_pick|]. intros z w3 Ha3 _. rewrite Hp. cbn [default id].
  eapply safe_bind; [by apply (safe_lift _ ns (eq ns))|]. intros ? w4 Ha4 <-.
  assert (Ha : after w w4) by (repeat (eapply after_trans; [eassumption|]); apply after_refl).
  destruct (network_after ifs _ _ Ha Hn) as (Hw & Hev & Hifs). pose proof Hns as (Hb & Hq & Hst & _).
  eapply safe_bind; [apply inverse_run; auto; by apply new_ns_queue|].
  intros [[nm|] ns'] w5 Ha5 [_ Hr]; apply safe_ret; [|by right]. left. split; [done|].
  destruct Hr as (p & e & _ & _ & _ & [Hin|(data & t & Hd & _)]).
  - rewrite Hq in Hin. by apply elem_of_nil in Hin.
  - exists nm, data. split; [done|]. by eapply event_after.
Qed.

Lemma ns_new_runs w : lucky w -> exists ns w1, netbios_ns_new w = Done (Some ns, w1).
Proof.
  intros Hw. unfold netbios_ns_new, netbios_abort_ctx_init, ns_open_socket, mbind, io_bind, flip, pick.
  repeat (cbn; rewrite ?Hw). by do 2 eexists.
Qed.

(** inverse with the address 0.0.0.0 stops on an assertion of the library. *)
Theorem inverse_main_zero ifs pton prog arg w :
  lucky w -> pton arg = Some 0 -> inverse_main ifs pton [prog; arg] w = Fault.
Proof.
  intros Hw Ha. unfold inverse_main. destruct (ns_new_runs w Hw) as (ns & w1 & E). rewrite (bind_Done _ _ _ _ _ E).
  change (negb (zlen [prog; arg] =? 2)) with false. cbn iota. rewrite (bind_Done _ _ w1 arg w1) by done.
  rewrite (bind_Done _ _ w1 _ _ eq_refl), Ha. by rewrite (bind_Done _ _ _ ns (set_tick w1 (S (w_tick w1)))).
Qed.

(** discover starts a discovery on a new session. *)
Lemma discover_begin_run w : lucky w ->
  exists ns0 w1, discover_begin w = Done (inr ([Discovering], ns0), w1)
    /\ buffer_ok ns0 /\ entry_queue ns0 = [] /\ discover_log ns0 = [] /\ discover_started ns0 = true.
Proof.
  intros Hw. unfold discover_begin. destruct (ns_new_runs w Hw) as (ns & w1 & E). rewrite (bind_Done _ _ _ _ _ E).
  destruct (ns_new_safe w Hw) as (_ & _ & H3). destruct (H3 _ _ E) as [Ha (ns' & [= <-] & Hb & Hq & Hst & Hlog)].
  rewrite (bind_Done _ _ w1 ns w1) by done. unfold netbios_ns_discover_start. rewrite Hst. cbn [orb negb].
  unfold mbind, io_bind, flip. cbn. rewrite (after_lucky _ _ Ha Hw). cbn. do 2 eexists. split; [reflexivity|]. done.
Qed.

(** discover, with any traffic: the key can come when the thread has made any
    progress from the session [ns0] that was started, at the start of a round
    or waiting for answers. The program ends with status 0; it has printed one
    line per callback, in order, where each name is announced once before it
    is removed. *)
Theorem discover_main_ends ifs ns0 ns rest w :
  network_ok ifs w -> entry_queue ns0 = [] -> discover_log ns0 = [] -> discovering ns0 ns -> discover_started ns = true ->
  rest = netbios_ns_discover_thread ifs ns \/ rest = discover_receiving ifs ns ->
  exists told w', discover_end ns rest w = Done ((0, print_entry <$> told), w')
    /\ is_Some (live ∅ told).
Proof.
  intros (Hw & Hev & Hifs) Hq0 Hl0 Hd Hst Hrest. unfold discover_end, netbios_ns_discover_stop. rewrite Hst.
  assert (Hs : safe (set_aborted w) rest (discovering ns0)).
  { destruct Hrest as [->| ->]; [by apply discover_thread_spec|by apply discover_receiving_spec]. }
  destruct Hs as (H1 & H2 & H3). destruct (rest (set_aborted w)) as [[ns' w']| |] eqn:E; [|done|by destruct (H2 (or_introl eq_refl))].
  destruct (H3 _ _ eq_refl) as (_ & _ & _ & new & Hlog & Hlive). exists new, w'. rewrite Hl0 in Hlog. rewrite Hq0 in Hlive.
  unfold mbind, io_bind, netbios_abort_ctx_abort. split; [|by eexists]. cbn. rewrite E. cbn. by rewrite Hlog.
Qed.

(** * dsm *)

Section DsmLaws.
Import SmbUtils SmbFd SmbTransport SmbSession SmbFile SmbLogin SmbShare SmbTrans2 SmbSpnego SmbInvariant SmbClient SmbRun.
Context `{IconvLaws} `{Asn1Laws}.
Abbreviation session_t := (smb_session NetbiosSession.netbios_session).
Abbreviation tcp := smb_transport_tcp.

(** ** What is shown *)

Lemma list_files_run h p l : chain f_next h p l -> forall todo i, (i + todo <= length l)%nat ->
  exists names, list_files h p todo i = Done (Found <$> names) /\ length names = todo.
Proof.
  intros Hc. destruct (stat_list_correct _ _ _ Hc) as (_ & Hat & _). pose proof (chain_dom _ _ _ _ Hc) as Hd.
  induction todo as [|todo IH]; intros i Hi; [by exists []|]. cbn [list_files]. rewrite Hat. cbn [obind].
  destruct (lookup_lt_is_Some_2 l i) as [x Hx]; [lia|]. rewrite (nth_lookup_Some _ _ _ _ Hx).
  destruct (Forall_lookup_1 _ _ _ _ Hd Hx) as [Hx0 [f Hf]]. rewrite (proj2 (Z.eqb_neq _ _) Hx0).
  unfold smb_stat_name. rewrite (proj2 (Z.eqb_neq _ _) Hx0), Hf. cbn [checked obind].
  destruct (IH (S i)) as (names & -> & Hl); [lia|]. exists (f_name f :: names). split; [done|]. cbn. by rewrite Hl.
Qed.

Definition files_shown (shown : list message) : Prop := shown = [NoFiles] \/ exists names, names <> [] /\ shown = Found <$> names.

Lemma show_files_safe nm B s tid w : 0 <= B -> usable tcp nm B s -> sound w ->
  wpf (smb_find s tid root_pattern w = Fault) (show_files s tid)
    (fun '(shown, s') w' => sound w' /\ usable tcp nm B s' /\ files_shown shown) w.
Proof.
  intros HB Hu Hw. unfold show_files. apply wp_bind. unfold wpf at 1.
  destruct (smb_find s tid root_pattern w) as [[[p s1] w1]| |] eqn:E; [|done..].
  destruct (keeps_done _ _ _ _ _ (keeps_find tcp _ _ _ _ _ HB Hu) Hw E) as [Hl Hw1]. pose proof Hl as (_ & [_ (l & Hc & _)] & _).
  destruct (stat_list_correct _ _ _ Hc) as (Hcount & _ & h & Hdes & _). cbv zeta.
  apply wp_bind, (wp_lift _ _ _ _ _ Hcount).
  assert (Hshow : exists shown, (if Z.of_nat (length l) <=? 0 then Done [NoFiles]
            else list_files (file_heap (fds s1)) p (Z.to_nat (Z.of_nat (length l))) 0) = Done shown /\ files_shown shown).
  { destruct (Z.leb_spec (Z.of_nat (length l)) 0); [exists [NoFiles]; split; [done|by left]|].
    destruct (list_files_run _ _ _ Hc (Z.to_nat (Z.of_nat (length l))) 0) as (names & -> & Hn); [lia|].
    eexists. split; [done|]. right. exists names. split; [|done]. intros ->. cbn in Hn. lia. }
  destruct Hshow as (shown & Eshow & Hshown).
  apply wp_bind, (wp_lift _ _ _ _ _ Eshow), wp_bind, (wp_lift _ _ _ _ _ Hdes), wp_ret. split; [done|]. split; [|done].
  by eapply listing_destroy.
Qed.

Definition status_shown (fname : bytes) (m : message) : Prop :=
  (exists size is_dir, m = FileInfo fname size is_dir)
  \/ exists st, m = StatFailed st (st =? NT_STATUS_OBJECT_NAME_NOT_FOUND).

Lemma show_status_safe nm B s tid fname w : 0 <= B -> usable tcp nm B s -> sound w ->
  wpf (smb_fstat s tid fname w = Fault) (show_status s tid fname)
    (fun '(m, s') w' => sound w' /\ usable tcp nm B s' /\ status_shown fname m) w.
Proof.
  intros HB Hu Hw. unfold show_status. apply wp_bind. unfold wpf at 1.
  destruct (smb_fstat s tid fname w) as [[[p s1] w1]| |] eqn:E; [|done..].
  destruct (keeps_done _ _ _ _ _ (keeps_fstat tcp _ _ _ _ _ HB Hu) Hw E) as [[Hu1 Hp] Hw1].
  destruct (Z.eqb_spec p 0) as [->|Hne]; cbn [negb].
  - apply wp_ret. split_and!; auto. right. by eexists.
  - destruct (Hp Hne) as [f Hf].
    assert (Hget : forall what, exists v, smb_stat_get (file_heap (fds s1)) p what = Done v).
    { intros what. unfold smb_stat_get. rewrite (proj2 (Z.eqb_neq _ _) Hne), Hf. by eexists. }
    destruct (Hget SMB_STAT_SIZE) as [v1 E1], (Hget SMB_STAT_ISDIR) as [v2 E2].
    apply wp_bind, (wp_lift _ _ _ _ _ E1), wp_bind, (wp_lift _ _ _ _ _ E2), wp_ret. split_and!; auto. left. by eexists _, _.
Qed.

(** ** The run of dsm *)

(** The points of [dsm_session] where a server can make the library, or the
    program, access memory outside their objects. *)
Inductive point :=
| AtLogin
| AtNames (list : list (option bytes))
| AtFind (tid : Z)
| AtStatus (tid : Z).

(** The runs that come to a point, from a session connected to [host]. *)
Inductive comes (host login_ password_ share : bytes) (s : session_t) (w : world) : point -> session_t -> world -> Prop :=
| comes_login s1 w1 :
    smb_session_set_creds s (Some host) (Some login_) (Some password_) w = Done (s1, w1) ->
    comes host login_ password_ share s w AtLogin s1 w1
| comes_names s1 w1 s2 w2 l n s3 w3 :
    comes host login_ password_ share s w AtLogin s1 w1 -> smb_session_login s1 w1 = Done ((0, s2), w2) ->
    smb_share_get_list s2 w2 = Done ((0, Some l, n, s3), w3) ->
    comes host login_ password_ share s w (AtNames l) s3 w3
| comes_find l names s1 w1 tid s2 w2 :
    comes host login_ password_ share s w (AtNames l) s1 w1 -> strings_before_null l = Done names ->
    smb_tree_connect s1 share w1 = Done ((0, Some tid, s2), w2) ->
    comes host login_ password_ share s w (AtFind tid) s2 w2
| comes_status tid s1 w1 shown s2 w2 :
    comes host login_ password_ share s w (AtFind tid) s1 w1 -> show_files s1 tid w1 = Done ((shown, s2), w2) ->
    comes host login_ password_ share s w (AtStatus tid) s2 w2.

(** What goes wrong there: the challenge of the server, a list of shares
    without its end, the answers to a search and to a query. *)
Definition attacked (host fname : bytes) (p : point) (s : session_t) (w : world) : Prop :=
  match p with
  | AtLogin => bad_challenge s host w
  | AtNames l => strings_before_null l = Fault
  | AtFind tid => smb_find s tid root_pattern w = Fault
  | AtStatus tid => smb_fstat s tid fname w = Fault
  end.
Definition dsm_attacked (host login_ password_ share fname : bytes) (s : session_t) (w : world) : Prop :=
  exists p s' w', comes host login_ password_ share s w p s' w' /\ attacked host fname p s' w'.

(** What is printed behind [log]: from the connection to the share on, from
    the list of shares on, and all of it. *)
Definition tree_printed (share fname : bytes) (log : list message) (status : Z) (out : list message) : Prop :=
  (status = 42 /\ exists ret, ret < 0 /\ out = log ++ [TreeFailed share ret])
  \/ (status = 0 /\ exists shown st, out = log ++ TreeConnected share :: Finding :: shown ++ [Querying fname; st]
        /\ files_shown shown /\ status_shown fname st).
Definition shares_printed (host share fname : bytes) (log : list message) (status : Z) (out : list message) : Prop :=
  (status = 42 /\ out = log ++ [NoShares host])
  \/ exists names, tree_printed share fname (log ++ ShareList :: (ShareName <$> names)) status out.
Definition dsm_printed (host login_ share fname : bytes) (log : list message) (status : Z) (out : list message) : Prop :=
  (status = 42 /\ out = log ++ [AuthenticationFailure])
  \/ exists who, (who = Guest \/ who = LoggedIn host login_) /\ shares_printed host share fname (log ++ [who]) status out.

Section Run.
Context (host login_ password_ share fname : bytes) (s0 : session_t) (w0 : world).
Abbreviation comes_to := (comes host login_ password_ share s0 w0).
Abbreviation danger := (dsm_attacked host login_ password_ share fname s0 w0).

Lemma dsm_tree_safe nm c B s l names log w n1 n2 :
  comes_to (AtNames l) s w -> strings_before_null l = Done names -> 0 <= B ->
  usable tcp (nm, c) B s -> sound w -> strlen nm = Some n1 -> 0 <= n1 <= 15 -> strlen share = Some n2 -> 0 <= n2 <= 500 ->
  wpf danger (dsm_tree s share fname log) (fun '(status, out) _ => tree_printed share fname log status out) w.
Proof.
  intros Hat Hnames HB Hu Hw Hn1 Hl1 Hn2 Hl2. unfold dsm_tree. pose proof Hu as (Hs & [= En _] & (TT & HR) & _).
  assert (Hrun := tree_connect_run tcp s TT share n1 n2 w Hs HR ltac:(by rewrite En) Hn2 ltac:(lia) (proj2 Hw)).
  apply wp_bind. unfold wpf in Hrun |- * at 1. destruct (smb_tree_connect s share w) as [[[[ret tid] s1] w1]| |] eqn:E; [|done..].
  destruct (keeps_done _ _ _ _ _ (keeps_tree_connect tcp _ _ _ _ Hu) Hw E) as [Hu1 Hw1]. destruct Hrun as (_ & _ & [(Hr & -> & _)|(-> & _ & _ & _ & Htid)]).
  { unfold DSM_SUCCESS. rewrite (proj2 (Z.eqb_neq _ _)) by lia. apply wp_ret. left. split; [done|]. by exists ret. }
  change (negb (0 =? DSM_SUCCESS)) with false. cbn iota. destruct tid as [tid|]; [|by destruct Htid as (? & _ & ? & ? & _ & [=] & _)].
  apply wp_bind, wp_ret. pose proof (comes_find _ _ _ _ _ _ _ _ _ _ _ _ _ Hat Hnames E) as Hat1.
  apply wp_bind. pose proof (show_files_safe _ _ _ tid _ HB Hu1 Hw1) as Hf.
  unfold wpf in Hf |- * at 1. destruct (show_files s1 tid w1) as [[[shown s2] w2]| |] eqn:Ef; [|by exists (AtFind tid), s1, w1|done].
  destruct Hf as (Hw2 & Hu2 & Hshown). pose proof (comes_status _ _ _ _ _ _ _ _ _ _ _ _ Hat1 Ef) as Hat2.
  apply wp_bind. pose proof (show_status_safe _ _ _ tid fname _ HB Hu2 Hw2) as Hg.
  unfold wpf in Hg |- * at 1. destruct (show_status s2 tid fname w2) as [[[st s3] w3]| |]; [|by exists (AtStatus tid), s2, w2|done].
  destruct Hg as (Hw3 & Hu3 & Hst). destruct (destroy_run _ (usable_destroyable _ _ _ _ Hu3)) as (t & x & Ed & _).
  apply wp_bind, (wp_Done _ _ _ _ _ _ (Ed w3)), wp_ret. right. split; [done|]. by exists shown, st.
Qed.

Lemma dsm_shares_safe nm c B s s1 w1 log w n1 n2 :
  comes_to AtLogin s1 w1 -> smb_session_login s1 w1 = Done ((0, s), w) -> 0 <= B ->
  usable tcp (nm, c) B s -> sound w -> strlen nm = Some n1 -> 0 <= n1 <= 15 -> strlen share = Some n2 -> 0 <= n2 <= 500 ->
  wpf danger (dsm_shares s host share fname log) (fun '(status, out) _ => shares_printed host share fname log status out) w.
Proof.
  intros Hat El HB Hu Hw Hn1 Hl1 Hn2 Hl2. unfold dsm_shares. pose proof Hu as (Hs & [= En _] & (TT & HR) & _).
  assert (Hrun := share_get_list_run tcp s TT n1 w Hs HR ltac:(by rewrite En) ltac:(lia) (proj2 Hw) (proj1 Hw)).
  apply wp_bind. unfold wpf in Hrun |- * at 1. destruct (smb_share_get_list s w) as [[[[[r l] k] s2] w2]| |] eqn:E; [|done..].
  destruct (keeps_done _ _ _ _ _ (keeps_share_get_list tcp _ _ _ HB Hu) Hw E) as [Hu2 Hw2].
  destruct Hrun as (_ & [(Hr & _)|(-> & Hl & _)]).
  { unfold DSM_SUCCESS. rewrite (proj2 (Z.eqb_neq _ _)) by lia. apply wp_ret. by left. }
  change (negb (0 =? DSM_SUCCESS)) with false. cbn iota. destruct l as [l|]; [|done].
  apply wp_bind, wp_ret. pose proof (comes_names _ _ _ _ _ _ _ _ _ _ _ _ _ _ Hat El E) as Hat1.
  destruct (strings_before_null l) as [names| |] eqn:En2; [|by exists (AtNames l), s2, w2|done].
  apply wp_bind, (wp_lift _ _ names); [done|]. apply wp_bind, (wp_lift _ _ names); [done|].
  eapply wpf_mono; [by eapply dsm_tree_safe|done|]. intros [status out] w' Hp. right. by exists names.
Qed.

End Run.

Lemma dsm_session_safe nm s host login_ password_ share fname log w :
  usable tcp (nm, Creds None None None) 0 s -> named nm -> sound w -> text_ok 500 share ->
  creds_good (Creds (Some host) (Some login_) (Some password_)) ->
  wpf (dsm_attacked host login_ password_ share fname s w)
    (dsm_session s host login_ password_ share fname log)
    (fun '(status, out) w' => dsm_printed host login_ share fname log status out) w.
Proof.
  intros Hu (n1 & Hn1 & Hl1) Hw (n2 & Hn2 & Hl2) Hc. unfold dsm_session.
  assert (Hn0 : forall b k, strlen b = Some k -> 0 <= k).
  { intros b k1 Hk. destruct (strlen_inv _ _ Hk) as (q & rest & _ & -> & _). unfold zlen. lia. }
  pose proof (Hn0 _ _ Hn1). pose proof (Hn0 _ _ Hn2).
  assert (Hc0 : creds_good (creds s)) by (destruct Hu as (_ & Hwho & _); injection Hwho as _ ->; by split_and!).
  destruct (set_creds_good s _ _ _ w (proj1 Hw) Hc0 Hc) as (c & (w1 & E1 & L1) & Hc1 & Hd1).
  assert (Hu1 : usable tcp (nm, c) 0 (set_creds s c)) by (destruct Hu as (? & [= <- _] & ?); by split_and!).
  pose proof (sound_later _ _ L1 Hw) as Hw1. apply wp_bind, (wp_Done _ _ _ _ _ _ E1).
  pose proof (comes_login host login_ password_ share s w _ _ E1) as Hat1. set (s1 := set_creds s c) in *.
  apply wp_bind. unfold wpf at 1. destruct (smb_session_login s1 w1) as [[[r s2] w2]| |] eqn:E2; [| |done].
  2: { destruct (wp_fault _ _ _ _ (login_safe tcp s1 w1 Hw1 (proj1 Hu1) Hc1) E2) as (d & Ed & Hbad).
       exists AtLogin, s1, w1. split; [done|]. cbn in Ed. rewrite Hd1 in Ed. by injection Ed as <-. }
  destruct (keeps_done _ _ _ _ _ (keeps_login tcp _ _ _ Hu1) Hw1 E2) as [Hu2 Hw2].
  destruct (Z.eqb_spec r DSM_SUCCESS) as [->|]; cbn [negb]; [|apply wp_ret; by left].
  eapply wpf_mono; [apply (dsm_shares_safe host login_ password_ share fname s w nm c 0 s2 s1 w1 _ w2 n1 n2); auto; lia|done|]. intros [status out] w' Hp. right. eexists. split; [|exact Hp].
  destruct (negb _); auto.
Qed.

(** The name service does not read from the stream. *)
Lemma rx_send_packet q ip : within same_rx (netbios_ns_send_packet q ip).
Proof. unfold netbios_ns_send_packet, send_packet_body, access. confine. Qed.
#[local] Hint Resolve rx_send_packet : within.
Lemma rx_broadcast ifs q : within same_rx (netbios_ns_broadcast_packet ifs q).
Proof.
  unfold netbios_ns_broadcast_packet. destruct ifs as [addrs|]; [|confine].
  induction addrs as [|a addrs IH]; cbn [broadcast_loop]; confine.
Qed.
#[local] Hint Resolve rx_broadcast : within.
Lemma rx_query ifs ns ip ty nm flag : within same_rx (netbios_ns_send_name_query ifs ns ip ty nm flag).
Proof.
  unfold netbios_ns_send_name_query, name_query_packet, NetbiosQuery.netbios_query_new, calloc, malloc, access. confine.
Qed.
#[local] Hint Resolve rx_query : within.
Lemma rx_resolve ifs ns nm ty : within same_rx (netbios_ns_resolve ifs ns nm ty).
Proof. unfold netbios_ns_resolve, netbios_name_encode, netbios_ns_recv, recv_body, require, access, malloc. confine. Qed.
Lemma rx_ns_new : within same_rx netbios_ns_new.
Proof. unfold netbios_ns_new, netbios_abort_ctx_init, ns_open_socket, access, malloc. cbv zeta. confine. Qed.

Lemma getopt_operands args : Forall (fun a => option_of a = None) args -> getopt_long args = (None, args).
Proof.
  induction 1 as [|a args Ha _ IH]; [done|]. cbn [getopt_long]. rewrite IH, Ha.
  rewrite bool_decide_false; [done|]. intros E. unfold option_of in Ha. by rewrite E in Ha.
Qed.

Lemma safe_wp {A} w (m : io A) P Q : safe w m P -> within same_rx m -> sound w ->
  (forall a w', after w w' -> sound w' -> P a -> Q a w') -> forall F, wpf F m Q w.
Proof.
  intros (Hf & _ & Hd) Hk Hw HQ F. unfold wpf. destruct (m w) as [[a w']| |] eqn:E; [|done..].
  destruct (Hd _ _ eq_refl). destruct (Hk _ _ _ E) as [Ec Ex]. apply HQ; [done| |done]. destruct Hw. split; [by intros k; rewrite Ec|by rewrite Ex].
Qed.

(** From the name service on: no invalid access, and a session that can be
    used. *)
Lemma dsm_connect_safe ifs host w :
  network_ok ifs w -> bytes_ok (w_rx w) -> cstring_ok host -> zlen host <= 15 ->
  wp (dsm_connect ifs (cstr host)) (fun r w' => sound w' /\
    (r = inl (-1, [Unresolved (cstr host)])
     \/ exists ip data, EvDatagram ip data ∈ w_events w
        /\ (r = inl (42, [Address (cstr host) ip; NotConnected (cstr host)])
            \/ exists s, r = inr (s, [Address (cstr host) ip; Connected (cstr host)])
               /\ usable tcp (name_array host, Creds None None None) 0 s))) w.
Proof.
  intros Hn Hx Hh Hl. unfold dsm_connect. assert (Hw : sound w) by (split; [apply Hn|done]).
  apply wp_bind. eapply (safe_wp w); [apply ns_new_safe, Hn|apply rx_ns_new|done|].
  intros ? w1 Ha1 Hw1 (ns & -> & Hns). apply wp_bind, wp_ret. pose proof (network_after _ _ _ Ha1 Hn) as (? & ? & ?).
  pose proof Hns as (Hb & Hq & Hst & _).
  apply wp_bind. eapply (safe_wp w1); [apply resolve_run; auto; [by apply new_ns_queue|done]|apply rx_resolve|done|].
  intros [[r ip] ns'] w2 Ha2 Hw2 [_ Hr]. destruct (Z.eqb_spec r 0) as [->|]; cbn [negb]; [|apply wp_ret; auto].
  destruct (Hr eq_refl) as [(p & e & Hin & _)|(data & t & Hin & _)]; [rewrite Hq in Hin; by apply elem_of_nil in Hin|].
  apply (event_after _ _ _ Ha1) in Hin.
  destruct (session_new_run w2 (proj1 Hw2)) as (? & (w3 & E3 & L3) & s & -> & Hs).
  apply wp_bind, (wp_Done _ _ _ _ _ _ E3), wp_bind, wp_ret.
  apply wp_bind. eapply wp_mono; [apply connect_run; [done..|by eapply sound_later]|].
  intros [r s'] w4 (Hw4 & _ & Hu). unfold DSM_SUCCESS. destruct (Z.eqb_spec r 0) as [->|]; apply wp_ret; (split; [done|]); right; exists ip, data.
  - split; [done|]. right. exists s'. split; [done|]. by destruct (Hu eq_refl) as [[_ ?]|[? _]].
  - split; [done|]. by left.
Qed.


End DsmLaws.

(** * Concrete runs *)

Lemma some_network l : Forall event_ok l -> network_ok (Some some_ifs) (some_world l).
Proof. intros Hl. split; [done|]. split; [exact Hl|]. exact some_ifs_ok. Qed.

Definition answers : list event := [EvReady 50; EvDatagram 7 nb_answer].

Lemma lookup_main_sound_witness :
  safe (some_world answers) (lookup_main (Some some_ifs) [cstr [108]; cstr [66; 79; 88]]) (fun '(status, out) =>
    (status = 0 /\ exists ip data, out = [Address (cstr [66; 79; 88]) ip] /\ ip <> 0 /\ EvDatagram ip data ∈ answers)
    \/ (status = 42 /\ out = [LookupFailed (cstr [66; 79; 88])]) \/ (status = -1 /\ out = [])).
Proof.
  apply (lookup_main_sound (Some some_ifs) (cstr [108]) [66; 79; 88] (some_world answers)); [|decided].
  apply some_network. repeat constructor; decided.
Defined.

(** "lookup BOX" prints an address. *)
Example lookup_prints :
  match lookup_main (Some some_ifs) [cstr [108]; cstr [66; 79; 88]]
          (some_world [EvReady 50; EvDatagram 7 ([0; 1] ++ drop 2 nb_answer)]) with
  | Done (r, _) => r
  | _ => (1, [])
  end = (0, [Address (cstr [66; 79; 88]) 7]).
Proof. vm_compute. reflexivity. Qed.

Import SmbUtils SmbSession SmbSpnego SmbInvariant SmbClient.
#[local] Existing Instances plain_asn1 plain_asn1_laws.

Lemma dsm_creds_good : creds_good (Creds (Some (cstr [66])) (Some (cstr [117])) (Some (cstr [112]))).
Proof.
  split_and!; intros ? [= <-].
  - exists [66], [66; 0], [66; 0]. split_and!; try decided; try done; apply SmbLogin.latin1_utf16; try done; vm_compute; done.
  - exists [117], [117; 0], [85; 0]. split_and!; try decided; try done; apply SmbLogin.latin1_utf16; try done; vm_compute; done.
  - exists [112], [112; 0], [112; 0]. split_and!; try decided; try done; apply SmbLogin.latin1_utf16; try done; vm_compute; done.
Qed.


End Tools.
