(* ===== verification/Examples.v ===== *)
(** The programs of the documentation: www/source/c/example1.c, which reads the
    start of a file, and www/source/c/example2.c, which discovers hosts.

    As for the tools, what a program prints is a list of messages. *)

From stdpp Require Import strings gmap.
From S2P Require Import Prelude World Compat NetbiosUtils NetbiosNs NetbiosNsProps NetbiosSession SmbPackets SmbBuffer SmbMessage SmbNtlm SmbFd SmbTransport SmbSession SmbFile SmbLogin SmbShare SmbTrans2 SmbSpnego SmbInvariant SmbClient SmbRun Tools.

Module Examples.
Import SmbPackets SmbBuffer SmbUtils SmbMessage SmbFd SmbTransport SmbSession SmbFile SmbLogin SmbShare SmbTrans2 SmbSpnego SmbInvariant SmbClient SmbRun.
Local Open Scope list_scope.
Local Open Scope Z_scope.

(** A string literal, with its terminator. *)
Definition lit (x : string) : bytes := cstr ((fun a => Z.of_nat (Ascii.nat_of_ascii a)) <$> String.list_ascii_of_string x).

(** * example1 *)

Inductive line :=
| UnableToConnect
| LoggedGuest
| LoggedUser
| AuthFailed
| NoShare
| NoFile
| Line (text : bytes).

Section Example1.
Context `{Iconv} `{Asn1}.

(** From the opened file on: [char buffer[12]] is not initialised, [%s] prints
    up to the first NUL. *)
Definition example1_read (session : session_t) (tid fd : Z) (out : list line) : io (Z * list line) :=
  buffer ← uninit 12;
  '(_, buffer, session) ← smb_fread session fd (Some buffer) 12;
  buffer ← access buffer;
  n ← access (strlen buffer);
  session ← smb_fclose session fd;
  '(_, session) ← smb_tree_disconnect session tid;
  _ ← smb_session_destroy session;
  mret (0, out ++ [Line (take (Z.to_nat n) buffer)]).

(** What a failed call leaves in [tid] or [fd] was there before. *)
Definition stored (o : option Z) : io Z := match o with Some v => mret v | None => pick end.

Definition example1_open (session : session_t) (out : list line) : io (Z * list line) :=
  '(result, tid, session) ← smb_tree_connect session (lit "sharedfolder");
  tid ← stored tid;
  if (tid =? 0) || negb (result =? 0) then mret (4, out ++ [NoShare])
  else
    '(result, fd, session) ← smb_fopen session tid (lit "\helloworld.txt") SMB_MOD_READ;
    fd ← stored fd;
    if (fd =? 0) || negb (result =? 0) then mret (5, out ++ [NoFile])
    else example1_read session tid fd out.

Definition example1_main : io (Z * list line) :=
  session ← smb_session_new;
  match session with
  | None => mret (1, [])
  | Some session =>
      '(r, session) ← smb_session_connect session (lit "EXAMPLE-PC") 0x0100007f SMB_TRANSPORT_TCP;
      if negb (r =? 0) then mret (2, [UnableToConnect])
      else
        session ← smb_session_set_creds session (Some (lit "EXAMPLE-PC")) (Some (lit "EXAMPLE-USER")) (Some (lit "EXAMPLE-PASSWORD"));
        '(result, session) ← smb_session_login session;
        if result =? 0
        then example1_open session [if negb (smb_session_is_guest session =? 0) then LoggedGuest else LoggedUser]
        else mret (3, [AuthFailed])
  end.

End Example1.

(** * example2 *)

(** Up to the key; [inr] goes on to it. *)
Definition example2_begin : io (Z * list Tools.message + list Tools.message * NetbiosNs.netbios_ns) :=
  ns ← NetbiosNs.netbios_ns_new;
  ns ← access ns;
  '(r, ns) ← NetbiosNs.netbios_ns_discover_start ns 4 true;
  if r =? 0 then mret (inl (42, [Tools.Discovering; Tools.DiscoverFailed]))
  else mret (inr ([Tools.Discovering], ns)).

(** The key, and the end; the session is not destroyed. *)
Definition example2_end (ns : NetbiosNs.netbios_ns) (rest : io NetbiosNs.netbios_ns) : io (Z * list Tools.message) :=
  '(_, ns) ← NetbiosNs.netbios_ns_discover_stop ns rest;
  mret (0, Tools.print_entry <$> NetbiosNs.discover_log ns).

(** example2 takes the success of [netbios_ns_discover_start], 0, for a
    failure: when the system works the program reports an error and exits with
    status 42, the discovery having started. *)
Theorem example2_gives_up w : lucky w ->
  exists w', example2_begin w = Done (inl (42, [Tools.Discovering; Tools.DiscoverFailed]), w').
Proof.
  intros Hw. destruct (Tools.discover_begin_run w Hw) as (ns & w1 & E & _). unfold Tools.discover_begin in E. unfold example2_begin.
  apply bind_inv in E as (ns1 & w2 & E1 & (ns2 & w3 & E2 & ([r ns3] & w4 & E3 & E)%bind_inv)%bind_inv).
  exists w4. rewrite (bind_Done _ _ _ _ _ E1), (bind_Done _ _ _ _ _ E2), (bind_Done _ _ _ _ _ E3).
  destruct (Z.eqb_spec r 0) as [->|]; done.
Qed.

(** * Runs of example1 *)

#[local] Existing Instances plain_asn1.

(** A server without extended security that shares a file with [content]. *)
Definition setup_reply : bytes := reply 0x73 0 ([3; 0xff; 0; 0; 0; 0; 0; 0; 0]).
Definition plain_negotiate_reply : bytes :=
  NetbiosSession.frame 0 0 (magic ++ [0x72] ++ replicate 27 0
    ++ [17; 1; 0; 3; 1; 0; 1; 0; 4; 17; 0; 0; 0; 0; 1; 0] ++ replicate 40 0).
Definition sharing (content : bytes) : bytes :=
  plain_negotiate_reply ++ setup_reply ++ tree_reply ++ create_reply ++ read_reply content
  ++ reply 4 8 [0; 0; 0] ++ reply 0x71 8 [0; 0; 0].
Definition serving (junk : Z) (content : bytes) : world :=
  World (fun _ => true) (fun _ => 7) (fun _ _ => junk) 0 (replicate 40 (EvReady 70000)) false (sharing content) [].

Example example1_prints :
  match example1_main (serving 0 [72; 101; 108; 108; 111]) with
  | Done (r, w') => (r, length (w_tx w'))
  | Fault => ((-1, []), 0%nat)
  | Blocked => ((-2, []), 0%nat)
  end = ((0, [LoggedUser; Line [72; 101; 108; 108; 111]]), 7%nat).
Proof. vm_compute. reflexivity. Qed.

(** A file whose first 12 bytes hold no NUL, read as asked for: nothing
    terminates the array, and [printf] reads past its end. *)
Theorem example1_unterminated (s s' : session_t) tid fd out b w0 r buf w w' :
  uninit 12 w = Done (b, w0) -> smb_fread s fd (Some b) 12 w0 = Done ((r, Some buf, s'), w') -> 0 ∉ buf ->
  example1_read s tid fd out w = Fault.
Proof.
  intros E1 E2 Hbuf. unfold example1_read. rewrite (bind_Done _ _ _ _ _ E1), (bind_Done _ _ _ _ _ E2).
  rewrite (bind_Done _ _ w' buf w') by done. unfold mbind at 1, io_bind at 1. unfold access, lift.
  assert (Hn : strlen buf = None); [|by rewrite Hn].
  clear -Hbuf. induction buf as [|c buf IH]; cbn [strlen]; [done|]. apply not_elem_of_cons in Hbuf as [Hc Hbuf].
  rewrite (proj2 (Z.eqb_neq c 0)) by congruence. by rewrite (IH Hbuf).
Qed.

(** "Hello world!" has 12 characters. *)
Example example1_hello :
  example1_main (serving 0 [72; 101; 108; 108; 111; 32; 119; 111; 114; 108; 100; 33]) = Fault.
Proof. vm_compute. reflexivity. Qed.

(** An answer with more than was asked for is written past the array. *)
Example example1_overflow :
  example1_main (serving 0 [72; 101; 108; 108; 111; 32; 119; 111; 114; 108; 100; 33; 0]) = Fault.
Proof. vm_compute. reflexivity. Qed.

End Examples.
